(* ===== verification/_CoqProject ===== *)
-Q . S2P
Prelude.v
Text.v
Js.v
Regex.v
Dto.v
Store.v
Crypto.v
RequestSecurity.v
Sockets.v
Cookies.v
Totp.v
AuthModel.v
AuthSession.v
AuthLogin.v
AuthMfa.v
AuthService.v
AuthWitness.v
VmKeyCrypto.v
Vm.v
VmWitness.v
Plans.v
Payment.v
PaymentProps.v
PaymentWitness.v
User.v
UserProps.v
UserWitness.v
SshKey.v
SshKeyProps.v
SshKeyWitness.v
Telemetry.v
Terminal.v
TerminalProps.v
TerminalLimits.v
TerminalFilter.v
TerminalWitness.v
Gateway.v
GatewayProps.v
GatewayWitness.v
Startup.v
AuthHttp.v
AuthHttpProps.v
Routes.v
RoutesProps.v
AuthHttpWitness.v
RoutesWitness.v
Ai.v
AiChat.v
AiProps.v
AiActions.v
AiWitness.v
VmEvents.v
Vnc.v
VncProps.v
VmPlans.v
VmGatewayWitness.v
WebClient.v
WebClientProps.v
WebChat.v
WebChatProps.v
WebLive.v
WebLiveProps.v
WebBilling.v
WebBillingProps.v
WebForms.v
WebFormsProps.v
WebAdmin.v
WebAdminProps.v
WebWitness.v
WorkerText.v
Worker.v
WorkerProps.v
WorkerLock.v
WorkerPoll.v
WorkerWitness.v
NatsBus.v
NatsBusProps.v
UserCatalog.v
WebPages.v
WebPagesProps.v
