(* ===== verification/Prelude.v ===== *)
(** * CloudVM: a verification development of the services, the worker and the client

    CloudVM rents virtual machines.  Seven processes share the work, six of them
    NestJS services: an API gateway; the auth service (accounts, sessions, second factor); the user
    service (profiles, quotas, subscriptions, universities); the payment
    service (plans, Stripe); the VM service (machines, terminals, consoles);
    the AI assistant; and a Python worker that drives OpenNebula.  Each service
    has its own tables in PostgreSQL; auth and the worker also use Redis.  They
    meet in five places, and the development models each side of them: auth
    pushes account copies to the user service; the VM service reads quota and subscription
    state from it; the payment service reads that state and hands it the plans
    that were paid; every service checks the access tokens auth signs; and the
    VM service queues requests over NATS for the worker, which writes the same
    table of machines and reports back.  A
    Next.js client (frontend/src) calls the services through the gateway, and
    receives terminals, desktops, machine states and the assistant's answers
    over WebSockets.

    ** How the code is modelled

    A handler is a function of the state monad with exceptions [M] of this
    file: the state survives a throw, as a database does, except inside
    [transaction].  What a request takes from outside (clock, random values,
    fresh ids, environment, answers of Stripe, the user service or the mail
    server) is a record [Call] of its component.  Code the repository only
    calls is a class with the documented laws the code relies on: tables
    ([Store.Database]), Redis ([Store.Redis]), hashing, bcrypt, HMAC, JWT and
    URI coding ([Crypto]), AES-GCM and base64 ([VmKeyCrypto]).  Every class has
    an instance, so every handler runs and each theorem with hypotheses has a
    witness that applies it to a concrete run.

    The worker's handlers give way to each other where they wait for OpenNebula,
    and are split there into steps: a run is any sequence of deliveries,
    answers, polling rounds and restarts.  OpenNebula's answers are arguments,
    and what is asked of it is recorded.

    The WebSocket gateways ([Terminal], [Vnc], [VmEvents]) are event handlers:
    what socket.io, ssh2, NATS and the timers deliver is a type of events, and
    what a handler emits, writes or closes is a list of effects.  Theorems range
    over every sequence of events, so over every interleaving of sockets,
    callbacks and timeouts.  The assistant records each request it sends to a
    language model or to another service, and the answer is part of the call.
    Properties of whole handlers are carried by [preserves] and by Hoare triples
    ([triple]) whose rules are the hints of this file.

    Numbers are integers or exact rationals; JavaScript's rounding functions
    ([Math.round], [toFixed]) are exact on them and float error is left out.
    Texts are strings of ASCII characters.  The loops of the sources run over
    lists or a count and are structural here; a repetition in a regular
    expression, and the reader of template text, consume text in each round, so
    that the text's length is fuel enough.  The handlers of the services run one
    after the other; the interleaving of two requests inside a handler is not
    modelled (the one place where the code relies on isolation, the creation of
    a VM, is a serializable transaction).

    ** Files, and the code they model

    - [Prelude]: outcomes, the handler monad, [preserves], automation.
    - [Text], [Js]: JavaScript string and number functions.  [Regex]: regular
      expressions with an executable matcher and its laws.  [Store]: tables with their queries
      and aggregates, unique columns, Redis with expiry.  [Crypto]: parameters.
    - [RequestSecurity]: services/*/src/common/security/request-security.util.ts,
      common/strategies/jwt.strategy.ts, guards/roles.guard.ts, the fingerprint
      of the WebSocket gateways, and the internal token of services/ai.
    - [Sockets]: the handshake token and fingerprint check that the gateways
      under services/vm/src/{terminal,vnc,vm} and services/ai share.
    - [Totp]: services/auth/src/common/security/totp.util.ts.
    - [AuthModel], [AuthSession], [AuthLogin], [AuthMfa], [AuthService]:
      services/auth/src/auth/auth.service.ts (data and shared helpers; tokens
      and rotation; registration, password and Google login; second factor; the
      routes of auth.controller.ts as one dispatcher).  [AuthWitness]: runs.
    - [VmKeyCrypto], [Vm]: services/vm/src/vm/vm-ssh-key.crypto.ts,
      vm.service.ts and nats/nats.service.ts.  [VmWitness]: runs.  [NatsBus],
      [NatsBusProps]: the connection, subscriptions and requests of the latter.
    - [Plans]: the plan catalogue, which payment.service.ts and user.service.ts
      hold in two copies; [UserCatalog]: the second copy, and that they agree.
      [Payment], [PaymentProps], [PaymentWitness]:
      services/payment/src/payment/payment.service.ts.
    - [User], [UserProps], [UserWitness]: services/user/src/user/user.service.ts
      and user-internal.controller.ts.
    - [SshKey], [SshKeyProps], [SshKeyWitness]: services/user/src/ssh-key.
    - [Telemetry], [Terminal], [TerminalProps], [TerminalLimits],
      [TerminalFilter], [TerminalWitness]: services/vm/src/terminal.
    - [Gateway], [GatewayProps], [GatewayWitness]: services/gateway/src
      (main.ts, security, proxy).
    - [Ai]: services/ai/src/ai/ai.service.ts and providers.  [AiChat]:
      ai.controller.ts, ai-chat.gateway.ts and the DTOs.  [AiProps],
      [AiActions]: their theorems.  [AiWitness]: runs.
    - [VmEvents]: services/vm/src/vm/vm-events.gateway.ts.  [Vnc], [VncProps]:
      services/vm/src/vnc/vnc.gateway.ts.  [VmPlans]: services/vm/src/plan.
      [VmGatewayWitness]: runs of the three.
    - [Dto]: the dto directories of the auth, user, vm and payment services, as
      schemas with the whitelisting validation of the services' ValidationPipe.
      [Cookies]: Set-Cookie and the cookie jar of a browser.  [Startup]: main.ts
      and jwt.strategy.ts of the services, the guards.
    - [AuthHttp], [AuthHttpProps], [AuthHttpWitness]: services/auth/src/main.ts
      (host and origin filters) and auth.controller.ts, whole requests with
      their cookies.  [Routes], [RoutesProps], [RoutesWitness]: user.controller.ts,
      vm.controller.ts and payment.controller.ts, whole requests through guards,
      pipes and validation to the operations.
    - [WebClient], [WebClientProps]: frontend/src/lib and the two components
      under components/auth that redirect.  [WebChat], [WebChatProps]:
      components/assistant/AssistantChat.tsx, with React's deferred state
      updates as a queue.  [WebLive], [WebLiveProps]: Terminal.tsx,
      VncViewer.tsx and the pages that receive status events.  [WebBilling],
      [WebBillingProps]: the billing page and the dashboard.  [WebForms],
      [WebFormsProps]: creation of a machine, SSH keys, login, registration,
      profile, MFA panel.  [WebAdmin], [WebAdminProps]: the administration
      pages, the machine pages' buttons and the layout.  [WebPages],
      [WebPagesProps]: the users page and the lists with overlapping requests.
      [WebWitness]: runs.
    - [WorkerText]: the texts the worker checks and writes (messages, keys,
      templates, addresses).  [Worker]: worker/vm_handler.py, db_updater.py and
      the handlers and loops of main.py, with [Worker.step] for whatever can
      happen next.  [WorkerProps], [WorkerLock], [WorkerPoll]: theorems.
      [WorkerWitness]: runs.

    ** What is shown

    - Sessions (AuthService, AuthSession, AuthLogin): refresh tokens rotate and
      are single use, reuse revokes every session whatever happened in between;
      guessing locks the account; login answers with tokens only to the owner;
      in every reachable state accounts and stored tokens are consistent.
    - Second factor (AuthMfa, Totp): a challenge is single use, bound to its
      client and admits a bounded number of guesses; enrolment arms the secret
      and redeemable recovery codes; TOTP accepts exactly the window's codes;
      base32 round trips.
    - Tokens between services (RequestSecurity): validation is exactly the
      fingerprint comparison, and agrees between HTTP and WebSocket.
    - Machines (Vm): quotas hold over any sequence of requests and updates that
      revives no deleted machine; the stop instant follows the status; creation
      is all or nothing; access control; complete listings; keys are
      recoverable.
    - Payments (PaymentProps): events take effect at most once; payments are
      permanent; no plan without a settled payment and a charge; a paid session
      is activated; checkout and charge are as the rules say; price changes take
      effect.
    - Accounts (UserProps): the directory's integrity; the student flag comes
      only from a code; an activation grants the quota the VM service reads;
      hours are bounded; administration is gated.  [renewal_locked] composes the
      user and the payment service.
    - SSH keys (SshKeyProps): the public key's wire format round trips; the
      table holds no key twice and each user touches only the own keys.
    - Terminals (TerminalProps, TerminalLimits, TerminalFilter): sessions only
      for admitted sockets and running machines; input and output never cross
      sockets; input is bounded; connecting ends; the reachable states are well
      formed; the command audit does not depend on how input is cut.
    - Consoles and events (VncProps, VmEvents): a console is private to its
      admitted socket; machine events reach their user only.
    - Assistant (AiProps, AiActions): conversations are isolated; every action
      was confirmed with the user's own token; a proposal executes exactly as
      proposed; chats are recorded.  [assistant_cannot_act] composes the
      assistant with the guard of the VM service.
    - Edge (GatewayProps): rate limits hold over any stretch of a window's
      length; nothing passes without the edge secret in production.
    - Requests (Dto, AuthHttpProps, RoutesProps): a validated body has its
      declared types; session cookies are protected and open the session they
      were issued for, in the browser that received them, at every service;
      foreign pages are turned away; users reach only their own accounts and
      machines; quotas hold over whole HTTP requests.  These compose the
      controllers, guards and services.
    - Client (WebClientProps, WebChatProps, WebLiveProps): one refresh at a time,
      and every call settles; the chat shows the recorded answer and settles
      once; terminals send in order, desktops lose no bytes, live rows agree with
      the stored ones; saved keys are found again.
    - Client and services (WebBillingProps, WebFormsProps, WebAdminProps): what
      the pages offer, compute and check is what the services accept, charge and
      count, proved against the services' definitions.

    - Worker (WorkerLock, WorkerPoll, WorkerProps): one request makes one machine
      while OpenNebula answers within the life of the lock; waiting for an
      address ends with one verdict; nothing a user supplies breaks out of the
      template text.  [queued_messages_accepted] and [writers_agree] compose the
      worker with the VM service: it acts on what is queued, and the two writers
      of a machine's row agree.
    - Copies and transport (UserCatalog, NatsBusProps): the two catalogues agree;
      credentials are taken out of the broker's address; starting ends, with the
      subscriptions it could make.
    - Overlapping requests of pages (WebPagesProps): the users page sends nothing
      that locks its administrator out, leaves nothing disabled, and grants what
      it shows if one account is opened at a time; a list shows the last search
      if answers keep their order.

    Where the code does not do what it means to, an [Example] of the witness
    files runs the case.

    ** Not modelled

    Markup, styling and what the pages only display (lists, the landing page);
    xterm, noVNC, canvas, speech and clipboard; helmet, CORS, Swagger and module
    wiring of the services, which is framework configuration; in the worker, the
    check of its configuration and what it does when PostgreSQL or Redis fail,
    or when it stops between an answer of OpenNebula and the write that follows;
    the deployment files.  The copies of request-security.util.ts and of the
    handshake functions in the other services are the same text and modelled
    once. *)

From stdpp Require Import base list gmap strings pretty.
From Stdlib Require Import ZArith Lia.

#[global] Open Scope Z_scope.

(** ** Outcomes and the handler monad

    A NestJS handler mutates its store and either returns or throws.  A throw
    does not undo the writes made before it (only a database transaction
    does), so the state is threaded through both outcomes. *)

Inductive exn :=
| HttpException (status : Z) (message : string)
| PrismaError (code : string)
| JsError (message : string).

Inductive outcome (A : Type) :=
| Ret (a : A)
| Throw (e : exn).
Arguments Ret {_} _.
Arguments Throw {_} _.

#[export] Instance exn_eq_dec : EqDecision exn.
Proof. solve_decision. Defined.

(** The exception classes of @nestjs/common that the services use. *)
Definition BadRequestException (m : string) : exn := HttpException 400 m.
Definition UnauthorizedException (m : string) : exn := HttpException 401 m.
Definition ForbiddenException (m : string) : exn := HttpException 403 m.
Definition NotFoundException (m : string) : exn := HttpException 404 m.
Definition ConflictException (m : string) : exn := HttpException 409 m.
Definition TooManyRequests (m : string) : exn := HttpException 429 m.
Definition InternalServerErrorException (m : string) : exn := HttpException 500 m.

Definition M (St A : Type) : Type := St → St * outcome A.

#[export] Instance M_ret St : MRet (M St) := λ A a s, (s, Ret a).
#[export] Instance M_bind St : MBind (M St) := λ A B f m s,
  match m s with
  | (s', Ret a) => f a s'
  | (s', Throw e) => (s', Throw e)
  end.

Definition throw {St A} (e : exn) : M St A := λ s, (s, Throw e).
Definition gets {St A} (f : St → A) : M St A := λ s, (s, Ret (f s)).
Definition modify {St} (f : St → St) : M St unit := λ s, (f s, Ret tt).
Definition when {St} (b : bool) (m : M St unit) : M St unit :=
  if b then m else mret tt.
Definition throw_if {St} (b : bool) (e : exn) : M St unit :=
  if b then throw e else mret tt.

(** [try { m } catch (e) { h e }] *)
Definition try_catch {St A} (m : M St A) (h : exn → M St A) : M St A := λ s,
  match m s with
  | (s', Ret a) => (s', Ret a)
  | (s', Throw e) => h e s'
  end.

(** [prisma.$transaction]: a throw inside rolls the database back. *)
Definition transaction {St A} (m : M St A) : M St A := λ s,
  match m s with
  | (s', Ret a) => (s', Ret a)
  | (_, Throw e) => (s, Throw e)
  end.

(** Running a handler on a component of a larger state. *)
Definition zoom {St Sub A} (get : St → Sub) (set : Sub → St → St) (m : M Sub A) : M St A := λ s,
  let '(u, o) := m (get s) in (set u s, o).

Definition is_ret {A} (o : outcome A) : bool :=
  match o with Ret _ => true | Throw _ => false end.

(** ** Rules of the monad *)

Lemma bind_Ret_inv {St A B} (m : M St A) (f : A → M St B) s s'' b :
  (m ≫= f) s = (s'', Ret b) →
  ∃ a s', m s = (s', Ret a) ∧ f a s' = (s'', Ret b).
Proof. unfold mbind, M_bind. destruct (m s) as [s' [a|e]]; naive_solver. Qed.

Lemma bind_Throw_inv {St A B} (m : M St A) (f : A → M St B) s s'' e :
  (m ≫= f) s = (s'', Throw e) →
  m s = (s'', Throw e) ∨ ∃ a s', m s = (s', Ret a) ∧ f a s' = (s'', Throw e).
Proof. unfold mbind, M_bind. destruct (m s) as [s' [a|e']]; naive_solver. Qed.

Lemma bind_eval {St A B} (m : M St A) (f : A → M St B) s s' a :
  m s = (s', Ret a) → (m ≫= f) s = f a s'.
Proof. unfold mbind, M_bind. by intros ->. Qed.

Lemma bind_throw {St A B} (m : M St A) (f : A → M St B) s s' e :
  m s = (s', Throw e) → (m ≫= f) s = (s', Throw e).
Proof. unfold mbind, M_bind. by intros ->. Qed.

Lemma throw_if_inv {St} b e (s s' : St) u :
  throw_if b e s = (s', Ret u) → b = false ∧ s' = s.
Proof. destruct b; [done|]. by intros [= <-]. Qed.

Lemma then_throw {St A B} (m : M St A) e s s' (b : B) : (m ≫= λ _, throw e) s ≠ (s', Ret b).
Proof. unfold mbind, M_bind. by destruct (m s) as [? [?|?]]. Qed.

Lemma then_unit {St A} (m : M St A) s : ((m ≫= λ _, mret tt) s).1 = (m s).1.
Proof. unfold mbind, M_bind. by destruct (m s) as [s' []]. Qed.

(** A run that is seen to return, named. *)
Lemma ret_eta {St A} (m : M St A) s : is_ret (m s).2 = true → ∃ r, m s = ((m s).1, Ret r).
Proof. destruct (m s) as [s' [a|e]]; simpl; [by eauto|done]. Qed.

(** [preserves R m]: whatever [m] does, returning or throwing, it relates the
    store before to the store after by [R].  With [R] a preorder the handlers
    compose. *)
Definition preserves {St A} (R : St → St → Prop) (m : M St A) : Prop :=
  ∀ s, R s (m s).1.

Section preserves.
Context {St : Type} (R : St → St → Prop) `{!Reflexive R, !Transitive R}.

Lemma preserves_ret {A} (a : A) : preserves R (mret a).
Proof. intros s. simpl. reflexivity. Qed.

Lemma preserves_throw {A} e : preserves R (throw (A:=A) e).
Proof. intros s. simpl. reflexivity. Qed.

Lemma preserves_gets {A} (f : St → A) : preserves R (gets f).
Proof. intros s. simpl. reflexivity. Qed.

Lemma preserves_modify f : (∀ s, R s (f s)) → preserves R (modify f).
Proof. intros H s. simpl. apply H. Qed.

Lemma preserves_bind {A B} (m : M St A) (f : A → M St B) :
  preserves R m → (∀ a, preserves R (f a)) → preserves R (m ≫= f).
Proof.
  intros Hm Hf s. unfold mbind, M_bind. specialize (Hm s).
  destruct (m s) as [s' [a|e]]; simpl in *; [|done].
  etransitivity; [exact Hm|]. apply Hf.
Qed.

Lemma preserves_try {A} (m : M St A) h :
  preserves R m → (∀ e, preserves R (h e)) → preserves R (try_catch m h).
Proof.
  intros Hm Hf s. unfold try_catch. specialize (Hm s).
  destruct (m s) as [s' [a|e]]; simpl in *; [done|].
  etransitivity; [exact Hm|]. apply Hf.
Qed.

Lemma preserves_transaction {A} (m : M St A) :
  preserves R m → preserves R (transaction m).
Proof.
  intros Hm s. unfold transaction. specialize (Hm s).
  destruct (m s) as [s' [a|e]]; simpl in *; [done|reflexivity].
Qed.

Lemma preserves_if {A} (b : bool) (m1 m2 : M St A) :
  preserves R m1 → preserves R m2 → preserves R (if b then m1 else m2).
Proof. by destruct b. Qed.
End preserves.

(** ** Triples

    [triple I P m Q]: started where the invariant [I] and [P] hold, [m] keeps [I]
    whatever happens, and if it returns [a] then [Q a] holds afterwards. *)
Definition triple {St A} (I P : St → Prop) (m : M St A) (Q : A → St → Prop) : Prop :=
  ∀ s, I s → P s → I (m s).1 ∧ match (m s).2 with Ret a => Q a (m s).1 | Throw _ => True end.

Section triples.
Context {St : Type} (I : St → Prop).

Lemma triple_ret {A} (a : A) (Q : A → St → Prop) : triple I (Q a) (mret a) Q.
Proof. by intros s HI HP. Qed.

Lemma triple_skip {A} (a : A) P : triple I P (mret a) (λ _, P).
Proof. by intros s HI HP. Qed.

Lemma triple_throw {A} e P (Q : A → St → Prop) : triple I P (throw e) Q.
Proof. by intros s HI HP. Qed.

Lemma triple_gets {A} (f : St → A) P : triple I P (gets f) (λ a s, P s ∧ a = f s).
Proof. by intros s HI HP. Qed.

Lemma triple_bind {A B} P (m : M St A) (k : A → M St B) (Q : A → St → Prop) (R : B → St → Prop) :
  triple I P m Q → (∀ a, triple I (Q a) (k a) R) → triple I P (m ≫= k) R.
Proof.
  intros Hm Hk s HI HP. specialize (Hm s HI HP). unfold mbind, M_bind.
  destruct (m s) as [s' [a|e]]; simpl in *; [|by destruct Hm].
  destruct Hm as [HI' HQ]. by apply Hk.
Qed.

Lemma triple_try {A} P (m : M St A) h (Q : A → St → Prop) :
  triple I P m Q → (∀ e, triple I (λ _, True) (h e) Q) → triple I P (try_catch m h) Q.
Proof.
  intros Hm Hh s HI HP. specialize (Hm s HI HP). unfold try_catch.
  destruct (m s) as [s' [a|e]]; simpl in *; [done|]. by apply Hh; [apply Hm|].
Qed.

Lemma triple_weaken {A} (P P' : St → Prop) (m : M St A) (Q Q' : A → St → Prop) :
  triple I P m Q → (∀ s, P' s → P s) → (∀ a s, Q a s → Q' a s) → triple I P' m Q'.
Proof.
  intros Hm HP HQ s HI HP'. specialize (Hm s HI (HP s HP')).
  destruct (m s) as [s' [a|e]]; simpl in *; naive_solver.
Qed.

Lemma triple_pure {A} (φ : Prop) P (m : M St A) Q :
  (φ → triple I P m Q) → triple I (λ s, P s ∧ φ) m Q.
Proof. intros Hm s HI [HP Hφ]. by apply Hm. Qed.

(** A handler that only reads keeps the state. *)
Lemma triple_reads {A} P (m : M St A) : (∀ s, (m s).1 = s) → triple I P m (λ _, P).
Proof. intros Hm s HI HP. rewrite (Hm s). split; [done|]. by case_match. Qed.

Lemma triple_at {A} P (m : M St A) Q s s' (a : A) :
  triple I P m Q → I s → P s → m s = (s', Ret a) → I s' ∧ Q a s'.
Proof. intros Hm HI HP E. specialize (Hm s HI HP). by rewrite E in Hm. Qed.
End triples.

(** Handlers that only read. *)
Lemma throw_if_reads {St} b e : preserves (=) (throw_if (St:=St) b e).
Proof. intros s. by destruct b. Qed.

Lemma bind_Throw_reads {St A B} (m : M St A) (f : A → M St B) s s'' e :
  preserves (=) m → (m ≫= f) s = (s'', Throw e) →
  s'' = s ∨ ∃ a, m s = (s, Ret a) ∧ f a s = (s'', Throw e).
Proof.
  intros Hm Hf. specialize (Hm s). apply bind_Throw_inv in Hf as [Hf|(a & s' & Ha & Hf)].
  - left. by rewrite Hf in Hm.
  - rewrite Ha in Hm. simpl in Hm. subst s'. by eauto.
Qed.

Create HintDb preserves.
#[export] Hint Resolve preserves_ret preserves_throw preserves_gets
  preserves_modify preserves_bind preserves_try preserves_transaction
  preserves_if : preserves.

(** ** Automation *)

(** Destruct the binds of a successful run, one after the other. *)
Ltac m_inv H :=
  repeat match type of H with
  | mbind _ _ _ = (_, Ret _) =>
      let a := fresh "x" in let s := fresh "s" in let H1 := fresh "Hm" in
      apply bind_Ret_inv in H as (a & s & H1 & H)
  end.

(** Evaluate the monad's combinators in the goal or a hypothesis. *)
Ltac m_red := unfold mbind, mret, M_bind, M_ret, throw_if, when, gets, modify,
  throw, try_catch, transaction in *; simpl in *.

Ltac case_matches := repeat (case_match; simplify_eq/=; try done).

(** ** Small facts shared by the components *)

Lemma lookup_Some_inj {A} (o : option A) x y : o = Some x → o = Some y → x = y.
Proof. congruence. Qed.

Lemma bool_decide_neq {A} `{EqDecision A} (x y : A) :
  x ≠ y → bool_decide (x = y) = false.
Proof. intros H. by apply bool_decide_eq_false. Qed.

(** Sums of an integer column. *)
Definition sumZ {A} (f : A → Z) (l : list A) : Z := foldr (λ a n, f a + n) 0 l.

Lemma sumZ_app {A} (f : A → Z) l1 l2 : sumZ f (l1 ++ l2) = sumZ f l1 + sumZ f l2.
Proof. induction l1 as [|a l1 IH]; simpl; [lia|]. unfold sumZ in *. simpl. lia. Qed.

#[export] Instance sumZ_perm {A} (f : A → Z) : Proper ((≡ₚ) ==> (=)) (sumZ f).
Proof. intros l1 l2. unfold sumZ. induction 1; simpl; lia. Qed.

Lemma sumZ_nonneg {A} (f : A → Z) l : (∀ a, a ∈ l → 0 <= f a) → 0 <= sumZ f l.
Proof.
  induction l as [|a l IH]; intros H; [done|].
  assert (0 <= f a) by (apply H; set_solver).
  assert (0 <= sumZ f l) by (apply IH; set_solver). unfold sumZ in *. simpl. lia.
Qed.

Lemma sumZ_le_const {A} (f : A → Z) c l :
  (∀ a, a ∈ l → f a <= c) → sumZ f l <= Z.of_nat (length l) * c.
Proof.
  induction l as [|a l IH]; intros H; [done|].
  assert (f a <= c) by (apply H; set_solver).
  assert (sumZ f l <= Z.of_nat (length l) * c) by (apply IH; set_solver).
  unfold sumZ in *. simpl length. simpl. lia.
Qed.
