(* ===== verification/Text.v ===== *)
(** * Text: the string operations of JavaScript the services use

    A JavaScript string is modelled as a sequence of 8-bit characters (a
    [string]); case mapping is the ASCII one and white space is the set that
    [trim] and [\s] share on these characters.  The loops over characters are
    written on [list ascii]; [chars] and [str] convert. *)

From Stdlib Require Import ZArith Lia Ascii String.
From stdpp Require Import base list sets strings.
From S2P Require Import Prelude.

Abbreviation chars := list_ascii_of_string.
Abbreviation str := string_of_list_ascii.

Definition code (c : ascii) : Z := Z.of_nat (nat_of_ascii c).

(** Decidable character classes. *)
Definition is_ws (c : ascii) : bool :=
  ((9 <=? code c) && (code c <=? 13)) || (code c =? 32) || (code c =? 160).
Definition is_digit (c : ascii) : bool := (48 <=? code c) && (code c <=? 57).
Definition is_upper (c : ascii) : bool := (65 <=? code c) && (code c <=? 90).
Definition is_lower (c : ascii) : bool := (97 <=? code c) && (code c <=? 122).
Definition is_alnum (c : ascii) : bool := is_digit c || is_upper c || is_lower c.

Definition char_lower (c : ascii) : ascii :=
  if is_upper c then ascii_of_nat (nat_of_ascii c + 32) else c.
Definition char_upper (c : ascii) : ascii :=
  if is_lower c then ascii_of_nat (nat_of_ascii c - 32) else c.

Definition js_length (s : string) : Z := Z.of_nat (String.length s).
Definition map_chars (f : ascii → ascii) (s : string) : string := str (f <$> chars s).
Definition toLowerCase : string → string := map_chars char_lower.
Definition toUpperCase : string → string := map_chars char_upper.
Definition filter_chars (p : ascii → bool) (s : string) : string :=
  str (List.filter p (chars s)).

Fixpoint drop_while (p : ascii → bool) (l : list ascii) : list ascii :=
  match l with
  | [] => []
  | c :: l' => if p c then drop_while p l' else l
  end.
Definition trim_chars (l : list ascii) : list ascii :=
  rev (drop_while is_ws (rev (drop_while is_ws l))).
Definition js_trim (s : string) : string := str (trim_chars (chars s)).

(** [s.split(c)] for a one-character separator, and [parts.join(c)]. *)
Fixpoint split_chars (c : ascii) (l : list ascii) : list (list ascii) :=
  match l with
  | [] => [[]]
  | x :: l' =>
      if bool_decide (x = c) then [] :: split_chars c l'
      else match split_chars c l' with
           | h :: t => (x :: h) :: t
           | [] => [[x]]
           end
  end.
Definition js_split (c : ascii) (s : string) : list string :=
  str <$> split_chars c (chars s).
Fixpoint join_chars (c : ascii) (ls : list (list ascii)) : list ascii :=
  match ls with
  | [] => []
  | [l] => l
  | l :: ls' => l ++ c :: join_chars c ls'
  end.
Definition js_join (c : ascii) (ls : list string) : string :=
  str (join_chars c (chars <$> ls)).

Definition starts_with (p s : string) : bool := String.prefix p s.
Fixpoint includes (p s : string) : bool :=
  String.prefix p s || match s with
                       | EmptyString => false
                       | String _ s' => includes p s'
                       end.
Definition ends_with (p s : string) : bool :=
  String.prefix (str (rev (chars p))) (str (rev (chars s))).

(** [s.replace(p, r)] with a string pattern: the first occurrence only. *)
Fixpoint replace_first (p r s : string) : string :=
  if String.prefix p s
  then (r +:+ String.substring (String.length p) (String.length s) s)
  else match s with
       | EmptyString => EmptyString
       | String c s' => String c (replace_first p r s')
       end.

Declare Scope js_scope.
Delimit Scope js_scope with js.

(** [a || b] on strings: the empty string is falsy. *)
Definition truthy (s : string) : bool := negb (bool_decide (s = ""%string)).
Definition str_or (a b : string) : string := if truthy a then a else b.
Notation "a '||s' b" := (str_or a b) (at level 50, left associativity) : js_scope.

(** [o || d] where [o : string | undefined]. *)
Definition opt_or (o : option string) (d : string) : string :=
  match o with Some s => str_or s d | None => d end.
Definition opt_truthy (o : option string) : bool :=
  match o with Some s => truthy s | None => false end.

(** [o || null]: keep a defined, non-empty string. *)
Definition nonempty (s : string) : option string := if truthy s then Some s else None.

(** ** Lemmas *)

Lemma chars_str l : chars (str l) = l.
Proof. apply list_ascii_of_string_of_list_ascii. Qed.
Lemma str_chars s : str (chars s) = s.
Proof. apply string_of_list_ascii_of_string. Qed.
Create Rewrite HintDb text.
#[export] Hint Rewrite chars_str str_chars : text.

Lemma str_inj l1 l2 : str l1 = str l2 → l1 = l2.
Proof. intros H. by rewrite <-(chars_str l1), H, chars_str. Qed.

Lemma truthy_true s : truthy s = true ↔ s ≠ ""%string.
Proof. unfold truthy. rewrite negb_true_iff, bool_decide_eq_false. done. Qed.
Lemma truthy_false s : truthy s = false ↔ s = ""%string.
Proof. unfold truthy. rewrite negb_false_iff, bool_decide_eq_true. done. Qed.

Lemma str_or_truthy a b : truthy a = true → str_or a b = a.
Proof. unfold str_or. by intros ->. Qed.

Lemma split_chars_nonnil c l : split_chars c l ≠ [].
Proof. destruct l as [|x l]; simpl; [done|]. case_bool_decide; [done|]. by case_match. Qed.

(** Splitting then joining is the identity. *)
Lemma join_split_chars c l : join_chars c (split_chars c l) = l.
Proof.
  induction l as [|x l IH]; [done|]. simpl.
  pose proof (split_chars_nonnil c l) as Hn.
  case_bool_decide as E; subst.
  - simpl. rewrite IH. by destruct (split_chars c l).
  - destruct (split_chars c l) as [|h t]; [done|]. simpl in *.
    rewrite <-IH. by destruct t.
Qed.

Lemma split_chars_free c l : c ∉ l → split_chars c l = [l].
Proof.
  induction l as [|x l IH]; intros Hc; [done|]. simpl.
  rewrite bool_decide_neq by set_solver. rewrite IH by set_solver. done.
Qed.

(** Splitting at a separator met after a separator-free prefix. *)
Lemma split_chars_app c l r : c ∉ l → split_chars c (l ++ c :: r) = l :: split_chars c r.
Proof.
  induction l as [|x l IH]; intros Hc; simpl.
  - by rewrite bool_decide_true.
  - rewrite bool_decide_neq by set_solver. rewrite IH by set_solver. done.
Qed.

(** Joining separator-free parts then splitting gives the parts back. *)
Lemma split_join_chars c ls :
  ls ≠ [] → Forall (λ l, c ∉ l) ls → split_chars c (join_chars c ls) = ls.
Proof.
  induction ls as [|l ls IH]; intros Hn Hf; [done|].
  apply Forall_cons in Hf as [Hl Hf]. destruct ls as [|l' ls].
  - simpl. by apply split_chars_free.
  - change (join_chars c (l :: l' :: ls)) with (l ++ c :: join_chars c (l' :: ls)).
    rewrite split_chars_app by done. by rewrite IH.
Qed.

Lemma drop_while_all p l : Forall (λ c, p c = true) l → drop_while p l = [].
Proof. induction 1 as [|c l Hc _ IH]; simpl; [done|]. by rewrite Hc. Qed.
Lemma drop_while_none p c l : p c = false → drop_while p (c :: l) = c :: l.
Proof. simpl. by intros ->. Qed.
Lemma drop_while_sub p l c : c ∈ drop_while p l → c ∈ l.
Proof. induction l as [|x l IH]; simpl; [done|]. case_match; set_solver. Qed.

Lemma trim_chars_sub l c : c ∈ trim_chars l → c ∈ l.
Proof.
  unfold trim_chars. rewrite list_elem_of_In, <-in_rev, <-list_elem_of_In.
  intros H%drop_while_sub. rewrite list_elem_of_In, <-in_rev, <-list_elem_of_In in H.
  by eapply drop_while_sub.
Qed.

(** A text without white space is its own trim. *)
Lemma trim_chars_id l : Forall (λ c, is_ws c = false) l → trim_chars l = l.
Proof.
  intros Hf. unfold trim_chars.
  assert (Hid : ∀ l, Forall (λ c, is_ws c = false) l → drop_while is_ws l = l).
  { intros l' [|c l'' Hc _]; [done|]. by apply drop_while_none. }
  rewrite (Hid l Hf), Hid; [apply rev_involutive|]. by apply List.Forall_rev.
Qed.

Lemma append_assoc_s (a b c : string) : (a +:+ b) +:+ c = a +:+ (b +:+ c).
Proof. induction a as [|x a IH]; [done|]. exact (f_equal (String x) IH). Qed.

Lemma prefix_app p s : String.prefix p (p +:+ s) = true.
Proof.
  induction p as [|c p IH]; [by destruct s|]. simpl.
  destruct (ascii_dec c c); done.
Qed.

Lemma prefix_split p s : String.prefix p s = true → ∃ rest, s = p +:+ rest.
Proof.
  revert s. induction p as [|c p IH]; intros s; [by exists s|]. destruct s as [|x s]; simpl; [done|].
  destruct (ascii_dec c x) as [->|]; [|done]. intros (rest & ->)%IH. by exists rest.
Qed.

Lemma includes_prefix p s : String.prefix p s = true → includes p s = true.
Proof. intros H. destruct s; cbn [includes]; by rewrite H. Qed.
