(* ===== verification/Js.v ===== *)
(** * Js: environment variables, numbers and maps of JavaScript

    What the gateways use of the language beyond [Text]: [process.env],
    [Number(text)], the global replacements and slices of strings, and [Map]
    where its insertion order is observable. *)

From Stdlib Require Import ZArith Lia Ascii String.
From stdpp Require Import base list sets strings.
From S2P Require Import Prelude Text.

(** [process.env]: an unset variable is [None]. *)
Definition Env : Type := string → option string.
Definition env_or (env : Env) (k d : string) : string := opt_or (env k) d.

(** [Number(s)] of a text; [None] is NaN.  Of the numeric literals only the
    decimal integers are modelled, with their sign and surrounding space. *)
Definition digit_value (c : ascii) : Z := code c - 48.
Definition decimal (l : list ascii) : Z := foldl (λ n c, 10 * n + digit_value c) 0 l.
Definition js_Number (s : string) : option Z :=
  match chars (js_trim s) with
  | [] => Some 0
  | c :: l =>
      let '(sign, ds) := if bool_decide (c = "-"%char) then (-1, l)
                         else if bool_decide (c = "+"%char) then (1, l) else (1, c :: l) in
      match ds with
      | [] => None
      | _ => if forallb is_digit ds then Some (sign * decimal ds) else None
      end
  end.
(** [Math.max(a, n)]: NaN is contagious. *)
Definition js_max (a : Z) (n : option Z) : option Z := Z.max a <$> n.
(** [a >= n], false when [n] is NaN. *)
Definition js_ge (a : Z) (n : option Z) : bool :=
  match n with Some m => m <=? a | None => false end.

(** [s.slice(-n)] and [s.slice(0, n)] for [n > 0]. *)
Definition slice_tail (n : nat) (s : string) : string :=
  str (drop (length (chars s) - n) (chars s)).
Definition slice_head (n : nat) (s : string) : string := str (take n (chars s)).

Lemma length_str l : String.length (str l) = length l.
Proof. induction l as [|c l IH]; simpl; [done|]. by rewrite IH. Qed.
Lemma length_chars s : length (chars s) = String.length s.
Proof. by rewrite <-length_str, str_chars. Qed.

Lemma slice_tail_length n s : (String.length (slice_tail n s) ≤ n)%nat.
Proof. unfold slice_tail. rewrite length_str, length_drop. lia. Qed.
Lemma slice_tail_id n s : (String.length s ≤ n)%nat → slice_tail n s = s.
Proof.
  intros Hn. unfold slice_tail. rewrite length_chars.
  replace (String.length s - n)%nat with O by lia. apply str_chars.
Qed.

(** [s.replace(/c/g, d)] for one character, and [s.replace(/\s+/g, " ")]. *)
Definition replace_char (c d : ascii) (s : string) : string :=
  map_chars (λ x, if bool_decide (x = c) then d else x) s.
Fixpoint collapse_ws_from (in_ws : bool) (l : list ascii) : list ascii :=
  match l with
  | [] => []
  | c :: l' =>
      if is_ws c then (if in_ws then [] else [" "%char]) ++ collapse_ws_from true l'
      else c :: collapse_ws_from false l'
  end.
Definition collapse_ws (s : string) : string := str (collapse_ws_from false (chars s)).
Lemma collapse_ws_sub b l c : c ∈ collapse_ws_from b l → c = " "%char ∨ c ∈ l ∧ is_ws c = false.
Proof.
  revert b. induction l as [|x l IH]; intros b; simpl; [by intros ?%not_elem_of_nil|].
  destruct (is_ws x) eqn:Ex.
  - rewrite elem_of_app. intros [Hc|Hc].
    + destruct b; [by apply not_elem_of_nil in Hc|]. apply list_elem_of_singleton in Hc. by left.
    + destruct (IH _ Hc) as [|[? ?]]; [by left|right; split; [by right|done]].
  - intros [->|Hc]%elem_of_cons; [right; split; [by left|done]|].
    destruct (IH _ Hc) as [|[? ?]]; [by left|right; split; [by right|done]].
Qed.

(** [s.replace(/ab/g, r)] for a pattern of two characters. *)
Fixpoint replace_pair (a b : ascii) (r : list ascii) (l : list ascii) : list ascii :=
  match l with
  | [] => []
  | x :: l' =>
      match l' with
      | y :: l'' =>
          if bool_decide (x = a) && bool_decide (y = b) then r ++ replace_pair a b r l''
          else x :: replace_pair a b r l'
      | [] => [x]
      end
  end.

(** ** [Map], in insertion order *)

Section jsmap.
Context {V : Type}.
Abbreviation JsMap := (list (string * V)).

Fixpoint jget (k : string) (m : JsMap) : option V :=
  match m with
  | [] => None
  | (k', v) :: m' => if bool_decide (k = k') then Some v else jget k m'
  end.
(** [set] of a present key keeps its place. *)
Fixpoint jset (k : string) (v : V) (m : JsMap) : JsMap :=
  match m with
  | [] => [(k, v)]
  | (k', v') :: m' => if bool_decide (k = k') then (k, v) :: m' else (k', v') :: jset k v m'
  end.
Definition jdelete (k : string) (m : JsMap) : JsMap :=
  List.filter (λ kv, negb (bool_decide (k = kv.1))) m.
Definition jkeys (m : JsMap) : list string := fst <$> m.

Lemma jget_jset k v m k' : jget k' (jset k v m) = if bool_decide (k' = k) then Some v else jget k' m.
Proof.
  induction m as [|[x w] m IH]; simpl; [done|].
  destruct (bool_decide_reflect (k = x)); simpl; [|rewrite IH]; repeat case_bool_decide; congruence.
Qed.

Lemma jget_jdelete k m k' : jget k' (jdelete k m) = if bool_decide (k' = k) then None else jget k' m.
Proof.
  unfold jdelete. induction m as [|[x w] m IH]; simpl; [by case_bool_decide|].
  destruct (bool_decide_reflect (k = x)); simpl; rewrite IH; repeat case_bool_decide; congruence.
Qed.

Lemma jget_Some_key k m v : jget k m = Some v → k ∈ jkeys m.
Proof.
  induction m as [|[x w] m IH]; simpl; [done|].
  case_bool_decide; intros Hv; [subst; by left|right; by apply IH].
Qed.

Lemma jset_present k v m : k ∈ jkeys m → jkeys (jset k v m) = jkeys m.
Proof.
  induction m as [|[x w] m IH]; simpl; [by intros ?%not_elem_of_nil|].
  case_bool_decide as E; simpl; [by subst|]. intros [?|H]%elem_of_cons; [done|].
  by rewrite IH.
Qed.
Lemma jset_absent k v m : k ∉ jkeys m → jset k v m = m ++ [(k, v)].
Proof.
  induction m as [|[x w] m IH]; simpl; [done|]. intros H.
  rewrite bool_decide_neq by set_solver. rewrite IH by set_solver. done.
Qed.
Lemma jkeys_jdelete k m x : x ∈ jkeys (jdelete k m) ↔ x ≠ k ∧ x ∈ jkeys m.
Proof.
  unfold jdelete. induction m as [|[y w] m IH]; simpl; [set_solver|].
  case_bool_decide; simpl; set_solver.
Qed.

Lemma jset_NoDup k v m : NoDup (jkeys m) → NoDup (jkeys (jset k v m)).
Proof.
  intros Hm. destruct (decide (k ∈ jkeys m)) as [Hk|Hk]; [by rewrite jset_present|].
  rewrite jset_absent by done. unfold jkeys. rewrite fmap_app. apply NoDup_app.
  split_and!; [done|set_solver|apply NoDup_singleton].
Qed.
Lemma jdelete_NoDup k m : NoDup (jkeys m) → NoDup (jkeys (jdelete k m)).
Proof.
  induction m as [|[y w] m IH]; simpl; [done|]. intros [Hy Hm]%NoDup_cons.
  unfold jdelete in *. simpl. case_bool_decide; simpl; [by apply IH|].
  constructor; [|by apply IH]. intros [_ Hin]%(jkeys_jdelete k m). done.
Qed.

(** Sums over the entries. *)
Lemma sumZ_jset (f : V → Z) k v m :
  sumZ (f ∘ snd) (jset k v m) = sumZ (f ∘ snd) m + f v - default 0 (f <$> jget k m).
Proof.
  unfold sumZ. induction m as [|[x w] m IH]; simpl; [lia|].
  destruct (bool_decide_reflect (k = x)); simpl in *; lia.
Qed.
Lemma sumZ_jdelete (f : V → Z) k m :
  Forall ((λ w, 0 <= f w) ∘ snd) m → sumZ (f ∘ snd) (jdelete k m) <= sumZ (f ∘ snd) m.
Proof.
  unfold jdelete, sumZ. induction 1 as [|[x w] m Hw _ IH]; simpl in *; [lia|].
  case_bool_decide; simpl in *; lia.
Qed.
Lemma length_jdelete k m : (length (jdelete k m) ≤ length m)%nat.
Proof. unfold jdelete. apply filter_length_le. Qed.
Lemma length_jset k v m : (length (jset k v m) ≤ S (length m))%nat.
Proof. induction m as [|[x w] m IH]; simpl; [lia|]. case_bool_decide; simpl; lia. Qed.
End jsmap.

Lemma sumZ_fmap {A B} (f : B → Z) (g : A → B) (h : A → Z) l :
  (∀ a, f (g a) = h a) → sumZ f (g <$> l) = sumZ h l.
Proof.
  intros Hh. unfold sumZ. induction l as [|a l IH]; [done|].
  rewrite fmap_cons. cbn [foldr]. by rewrite Hh, IH.
Qed.

(** ** Parsed addresses: [new URL(x).hostname] and [.host]; [None] when it throws *)
Class UrlParser := {
  url_hostname : string → option string;
  url_host : string → option string;
}.

(** A value of a pure computation that may throw, inside a handler. *)
Definition lift {St A} (o : outcome A) : M St A := λ s, (s, o).

(** [Buffer.byteLength(s, "utf8")]: the characters beyond ASCII take two bytes. *)
Definition utf8_length (s : string) : Z :=
  sumZ (λ c, if code c <? 128 then 1 else 2) (chars s).
Lemma utf8_length_nonneg s : 0 <= utf8_length s.
Proof. apply sumZ_nonneg. intros c _. by case_match. Qed.
