(* ===== verification/Regex.v ===== *)
(** * Regex: the regular expressions of the services

    The literals the code matches with [test] are values of [regex]: classes
    of characters, sequence, choice, repetition and the assertions [^], [$], [\b]
    and [(?=...)].  [matches] is the reading of the language definition as a relation on
    positions; [ends] enumerates the positions where a match from a given
    position can stop, so that [test] runs.  JavaScript only asks whether some
    match exists, so the order in which its engine tries alternatives does not
    matter here. *)

From Stdlib Require Import ZArith Lia Ascii String.
From stdpp Require Import base list strings.
From S2P Require Import Prelude Text.

Module Regex.

Inductive regex :=
| Class (p : ascii → bool)
| Eps
| Seq (a b : regex)
| Alt (a b : regex)
| Star (a : regex)
| Bol                     (* ^ *)
| Eol                     (* $ *)
| WordB                   (* \b *)
| Look (a : regex).       (* (?=a) *)

Definition is_word (c : ascii) : bool := is_alnum c || bool_decide (c = "_"%char).
(** [.] does not match a line terminator. *)
Definition is_dot (c : ascii) : bool := negb ((code c =? 10) || (code c =? 13)).

Definition Chr (c : ascii) : regex := Class (λ x, bool_decide (x = c)).
(** A character under the flag [i]. *)
Definition ChrI (c : ascii) : regex :=
  Class (λ x, bool_decide (char_lower x = char_lower c)).
Definition Plus (a : regex) : regex := Seq a (Star a).
Definition Opt (a : regex) : regex := Alt a Eps.
Fixpoint Rep (n : nat) (a : regex) : regex :=
  match n with O => Eps | S m => Seq a (Rep m a) end.
Fixpoint Lit (s : list ascii) : regex :=
  match s with [] => Eps | c :: s' => Seq (Chr c) (Lit s') end.
Fixpoint LitI (s : list ascii) : regex :=
  match s with [] => Eps | c :: s' => Seq (ChrI c) (LitI s') end.
Definition alts (rs : list regex) : regex :=
  foldr Alt (Class (λ _, false)) rs.
Definition seqs (rs : list regex) : regex := foldr Seq Eps rs.

Create HintDb regex.

Section semantics.
Context (l : list ascii).

Definition word_at (i : nat) : bool :=
  match l !! i with Some c => is_word c | None => false end.
Definition word_before (i : nat) : bool :=
  match i with O => false | S j => word_at j end.
Definition at_word_boundary (i : nat) : bool := xorb (word_before i) (word_at i).

Inductive matches : regex → nat → nat → Prop :=
| m_class p i c : l !! i = Some c → p c = true → matches (Class p) i (S i)
| m_eps i : matches Eps i i
| m_seq a b i j k : matches a i j → matches b j k → matches (Seq a b) i k
| m_alt_l a b i j : matches a i j → matches (Alt a b) i j
| m_alt_r a b i j : matches b i j → matches (Alt a b) i j
| m_star_nil a i : matches (Star a) i i
| m_star_step a i j k : matches a i j → matches (Star a) j k → matches (Star a) i k
| m_bol : matches Bol 0 0
| m_eol : matches Eol (length l) (length l)
| m_word i : at_word_boundary i = true → matches WordB i i
| m_look a i j : matches a i j → matches (Look a) i i.

(** Repetition: each further round moves on, so the text bounds the rounds. *)
Fixpoint star_ends (f : nat → list nat) (rounds : nat) (i : nat) : list nat :=
  match rounds with
  | O => [i]
  | S n => i :: (List.filter (Nat.ltb i) (f i) ≫= star_ends f n)
  end.

Fixpoint ends (r : regex) (i : nat) : list nat :=
  match r with
  | Class p => match l !! i with
               | Some c => if p c then [S i] else []
               | None => []
               end
  | Eps => [i]
  | Seq a b => ends a i ≫= ends b
  | Alt a b => ends a i ++ ends b i
  | Star a => star_ends (ends a) (length l) i
  | Bol => if (i =? 0)%nat then [i] else []
  | Eol => if (i =? length l)%nat then [i] else []
  | WordB => if at_word_boundary i then [i] else []
  | Look a => if bool_decide (ends a i = []) then [] else [i]
  end.

Definition test_chars (r : regex) : bool :=
  existsb (λ i, negb (bool_decide (ends r i = []))) (seq 0 (S (length l))).

Hint Constructors matches : regex.

Lemma matches_le r i j : matches r i j → (i ≤ j)%nat.
Proof. induction 1; lia. Qed.

Lemma matches_bound r i j : matches r i j → (i ≤ length l → j ≤ length l)%nat.
Proof.
  induction 1 as [p i c Hc _| | | | | | | | | | ]; try (intros; lia); auto.
  intros _. apply lookup_lt_Some in Hc. lia.
Qed.

Lemma star_ends_sound a f n i j :
  (∀ i j, j ∈ f i → matches a i j) → j ∈ star_ends f n i → matches (Star a) i j.
Proof.
  intros Hf. revert i. induction n as [|n IH]; intros i; cbn [star_ends].
  - rewrite list_elem_of_singleton. intros ->. auto with regex.
  - rewrite elem_of_cons, list_elem_of_bind. intros [->|(k & Hj & Hk)]; [auto with regex|].
    rewrite list_elem_of_In, filter_In, <-list_elem_of_In in Hk. destruct Hk as [Hk _].
    eapply m_star_step; [by apply Hf|by apply IH].
Qed.

(** More rounds than there are characters left change nothing. *)
Lemma star_ends_complete a f i j :
  (∀ i j, (i ≤ length l)%nat → matches a i j → j ∈ f i) →
  matches (Star a) i j → ∀ n, (i ≤ length l)%nat → (length l - i ≤ n)%nat → j ∈ star_ends f n i.
Proof.
  intros Hf Hm. remember (Star a) as r eqn:Er. induction Hm; simplify_eq; intros n Hi Hn.
  - destruct n; cbn [star_ends]; [by apply list_elem_of_singleton|]. by left.
  - pose proof (matches_le _ _ _ Hm1). pose proof (matches_bound _ _ _ Hm1 Hi).
    destruct (decide (j = i)) as [->|Hne]; [by apply IHHm2|].
    destruct n as [|n]; [lia|]. cbn [star_ends]. right.
    apply list_elem_of_bind. exists j. split; [apply IHHm2; [done|lia..]|].
    rewrite list_elem_of_In, filter_In, <-list_elem_of_In. split; [by apply Hf|].
    apply Nat.ltb_lt. lia.
Qed.

Lemma ends_sound r i j : j ∈ ends r i → matches r i j.
Proof.
  revert i j. induction r; intros i j; cbn [ends].
  - case_match eqn:Hc; [|by intros ?%not_elem_of_nil]. case_match eqn:Hp;
      [|by intros ?%not_elem_of_nil]. intros ->%list_elem_of_singleton. by econstructor.
  - intros ->%list_elem_of_singleton. constructor.
  - intros (k & Hk & ?)%list_elem_of_bind. eauto with regex.
  - intros [?|?]%elem_of_app; auto with regex.
  - apply star_ends_sound, IHr.
  - destruct i; [|by intros ?%not_elem_of_nil]. intros ->%list_elem_of_singleton. constructor.
  - destruct (Nat.eqb_spec i (length l)) as [->|]; [|by intros ?%not_elem_of_nil].
    intros ->%list_elem_of_singleton. constructor.
  - case_match; [|by intros ?%not_elem_of_nil]. intros ->%list_elem_of_singleton. by constructor.
  - case_bool_decide as E; [by intros ?%not_elem_of_nil|]. intros ->%list_elem_of_singleton.
    destruct (ends r i) as [|k ks] eqn:Ek; [done|]. eapply m_look, IHr. rewrite Ek. by left.
Qed.

Lemma ends_complete r i j : (i ≤ length l)%nat → matches r i j → j ∈ ends r i.
Proof.
  revert i j. induction r; intros i j Hi Hm; cbn [ends].
  5: { by eapply (star_ends_complete r); [apply IHr|..|lia]. }
  all: inversion Hm; subst.
  - simplify_option_eq. case_match; [by left|congruence].
  - by left.
  - apply list_elem_of_bind. eexists. split; [eapply IHr2; [|done]|by eapply IHr1].
    by eapply matches_bound.
  - apply elem_of_app. eauto.
  - apply elem_of_app. eauto.
  - by left.
  - rewrite Nat.eqb_refl. by left.
  - match goal with H : at_word_boundary _ = true |- _ => rewrite H end. by left.
  - case_bool_decide as E; [|by left]. exfalso.
    match goal with H : matches r _ ?k |- _ => apply IHr in H; [|done]; rewrite E in H end.
    by eapply not_elem_of_nil.
Qed.

(** [test] answers true exactly when the expression matches somewhere. *)
Lemma test_chars_spec r :
  test_chars r = true ↔ ∃ i j, (i ≤ length l)%nat ∧ matches r i j.
Proof.
  unfold test_chars. rewrite existsb_exists. split.
  - intros (i & Hi%in_seq & Hb). apply negb_true_iff, bool_decide_eq_false in Hb.
    destruct (ends r i) as [|j js] eqn:E; [done|]. exists i, j. split; [lia|].
    apply ends_sound. rewrite E. by left.
  - intros (i & j & Hi & Hm). exists i. split; [apply in_seq; lia|].
    apply negb_true_iff, bool_decide_eq_false. intros E.
    pose proof (ends_complete _ _ _ Hi Hm) as Hj. rewrite E in Hj. by apply not_elem_of_nil in Hj.
Qed.
End semantics.

(** [r.test(s)] *)
Definition test (r : regex) (s : string) : bool := test_chars (chars s) r.

(** A literal matches exactly where the text continues with it. *)
Lemma Lit_spec l p i j :
  matches l (Lit p) i j ↔ (i ≤ length l)%nat ∧ take (length p) (drop i l) = p ∧ j = (i + length p)%nat ∨
                          (length l < i)%nat ∧ p = [] ∧ j = i.
Proof.
  revert i. induction p as [|c p IH]; intros i; simpl.
  - split.
    + intros Hm. inversion Hm; subst. destruct (decide (j ≤ length l)%nat); [left|right]; split_and!; lia || done.
    + intros [(_ & _ & ->)|(_ & _ & ->)]; [rewrite Nat.add_0_r|]; constructor.
  - split.
    + intros Hm. inversion Hm as [| |? ? ? k ? Hc Hp| | | | | | | |]; subst.
      inversion Hc as [? ? x Hx Ex| | | | | | | | | |]; subst. apply bool_decide_eq_true in Ex. subst x.
      pose proof (lookup_lt_Some _ _ _ Hx). apply IH in Hp as [(_ & Hp & ->)|(Hgt & _)]; [|lia].
      left. split; [lia|]. split; [|lia]. rewrite (drop_S l c i) by done. simpl. by rewrite Hp.
    + intros [(Hi & Ht & ->)|(_ & Hp & _)]; [|done].
      destruct (drop i l) as [|x r] eqn:Ed; [done|]. simpl in Ht. injection Ht as -> Ht.
      assert (Hx : l !! i = Some c) by (rewrite <-(Nat.add_0_r i), <-lookup_drop, Ed; done).
      econstructor; [econstructor; [exact Hx|by apply bool_decide_eq_true]|]. apply IH. left.
      pose proof (lookup_lt_Some _ _ _ Hx). split; [lia|]. split; [|lia].
      rewrite (drop_S l c i Hx) in Ed. by injection Ed as ->.
Qed.

(** An anchored repetition of classes, [/^c1c2...cn$/]. *)
Definition anchored (r : regex) : regex := Seq Bol (Seq r Eol).

Lemma anchored_spec r s :
  test (anchored r) s = true ↔ matches (chars s) r 0 (length (chars s)).
Proof.
  unfold test. rewrite test_chars_spec. split.
  - intros (i & j & _ & Hm). inversion Hm as [| |? ? ? ? ? Hb Hr| | | | | | | |]; subst.
    inversion Hb; subst. inversion Hr as [| |? ? ? ? ? Hr' He| | | | | | | |]; subst.
    by inversion He; subst.
  - intros Hm. exists 0%nat, (length (chars s)). split; [lia|].
    econstructor; [constructor|]. econstructor; [done|constructor].
Qed.

(** A fixed number of characters of a class. *)
Lemma Class_spec l p i j :
  matches l (Class p) i j ↔ j = S i ∧ ∃ c, l !! i = Some c ∧ p c = true.
Proof.
  split; [intros Hm; inversion Hm; subst; eauto|]. intros (-> & c & Hc & Hp). by econstructor.
Qed.

Lemma Rep_spec l n p i j :
  matches l (Rep n (Class p)) i j →
  j = (i + n)%nat ∧ ∀ k, (i ≤ k < j)%nat → ∃ c, l !! k = Some c ∧ p c = true.
Proof.
  revert i. induction n as [|n IH]; intros i Hm; inversion Hm as [| |? ? ? m ? Hc Hr| | | | | | | |]; subst.
  - split; [lia|]. intros k Hk. lia.
  - apply Class_spec in Hc as (-> & c & Hc & Hp). apply IH in Hr as [-> Hr]. split; [lia|].
    intros k Hk. destruct (decide (k = i)) as [->|]; [eauto|]. apply Hr. lia.
Qed.

Lemma Seq_inv l a b i k : matches l (Seq a b) i k → ∃ j, matches l a i j ∧ matches l b j k.
Proof. intros Hm. inversion Hm; subst. eauto. Qed.

Lemma Eps_inv l i j : matches l Eps i j → j = i.
Proof. intros Hm. by inversion Hm. Qed.

Lemma Look_spec l a i j : matches l (Look a) i j ↔ j = i ∧ ∃ k, matches l a i k.
Proof.
  split; [intros Hm; inversion Hm; subst; eauto|]. intros [-> [k Hk]]. by econstructor.
Qed.

(** A run of characters of a class. *)
Lemma Star_class l p i j :
  matches l (Star (Class p)) i j ↔ (i ≤ j)%nat ∧ ∀ k, (i ≤ k < j)%nat → ∃ c, l !! k = Some c ∧ p c = true.
Proof.
  split.
  - intros Hm. remember (Star (Class p)) as r eqn:Er.
    induction Hm as [| | | | |a i|a i m k Ha _ Hs IH| | | |]; simplify_eq; [split; lia|].
    apply Class_spec in Ha as (-> & c & Hc & Hp). destruct (IH eq_refl) as [Hle Hall].
    split; [lia|]. intros n Hn. destruct (decide (n = i)) as [->|]; [eauto|]. apply Hall. lia.
  - intros [Hle Hall]. remember (j - i)%nat as d eqn:Ed. revert i Hle Hall Ed.
    induction d as [|d IH]; intros i Hle Hall Ed; [replace j with i by lia; constructor|].
    destruct (Hall i) as (c & Hc & Hp); [lia|].
    eapply m_star_step; [by econstructor|]. apply IH; [lia|intros k Hk; apply Hall; lia|lia].
Qed.

(** [/^c+$/] *)
Lemma plus_class_spec p s :
  test (anchored (Plus (Class p))) s = true ↔ chars s ≠ [] ∧ Forall (λ c, p c = true) (chars s).
Proof.
  rewrite anchored_spec. split.
  - intros (m & Ha & Hs)%Seq_inv. apply Class_spec in Ha as (-> & c & Hc & Hp).
    apply Star_class in Hs as [_ Hall]. split; [by intros E; rewrite E in Hc|].
    apply Forall_lookup. intros k x Hx. pose proof (lookup_lt_Some _ _ _ Hx).
    destruct k as [|k]; [congruence|]. destruct (Hall (S k)) as (y & Hy & ?); [lia|]. congruence.
  - destruct (chars s) as [|c l] eqn:E; [by intros []|]. intros [_ Hall].
    econstructor; [econstructor; [done|by apply Forall_inv in Hall]|].
    apply Star_class. split; [simpl; lia|]. intros k Hk. destruct (lookup_lt_is_Some_2 (c :: l) k) as [x Hx];
      [simpl in *; lia|]. exists x. split; [done|]. by eapply Forall_lookup_1 in Hall.
Qed.

(** [/^c*$/] *)
Lemma star_class_spec p s :
  test (anchored (Star (Class p))) s = true ↔ Forall (λ c, p c = true) (chars s).
Proof.
  rewrite anchored_spec, Star_class, Forall_lookup. split.
  - intros [_ Hall] k x Hx. pose proof (lookup_lt_Some _ _ _ Hx).
    destruct (Hall k) as (y & Hy & ?); [lia|]. congruence.
  - intros Hall. split; [lia|]. intros k Hk.
    destruct (lookup_lt_is_Some_2 (chars s) k) as [x Hx]; [lia|]. eauto.
Qed.

Lemma exact_spec p s : test (anchored (Lit (chars p))) s = true ↔ s = p.
Proof.
  rewrite anchored_spec, Lit_spec. rewrite drop_0. split.
  - intros [(_ & Ht & Hl)|(Hl & _)]; [|lia]. simpl in Hl. rewrite <-Hl, firstn_all in Ht.
    by rewrite <-(str_chars s), Ht, str_chars.
  - intros ->. left. split_and!; [lia|by rewrite firstn_all|done].
Qed.

Lemma starts_spec p s : test (Seq Bol (Lit (chars p))) (p +:+ s) = true.
Proof.
  unfold test. apply test_chars_spec. exists 0%nat, (length (chars p)). split; [lia|].
  econstructor; [constructor|]. apply Lit_spec. left. split; [lia|].
  split; [|lia]. rewrite drop_0. replace (chars (p +:+ s)) with (chars p ++ chars s); [apply take_app_length|].
  induction p as [|c p IH]; simpl; [done|]. by rewrite IH.
Qed.
End Regex.
