(* ===== verification/Dto.v ===== *)
(** * Dto: request bodies and the validation pipe

    Every service installs the same pipe in its main.ts, [new ValidationPipe({
    whitelist: true, forbidNonWhitelisted: true, transform: true })]: a body with
    an undeclared property or with a property that fails one of its decorators is
    answered 400, and what passes is handed to the controller as it is.  A DTO
    class is its list of properties with their class-validator decorators; the
    dto directories of the auth, user, vm and payment services are translated
    property by property. *)

From Stdlib Require Import ZArith Lia Ascii String QArith Qround.
From stdpp Require Import base list gmap strings.
From S2P Require Import Prelude Text Js Regex.
Import Regex.

Module Dto.

(** A parsed JSON value; the body of a request is an object. *)
Inductive Json :=
| JNull
| JBool (b : bool)
| JNum (q : Q)
| JStr (s : string)
| JArr (l : list Json)
| JObj (l : list (string * Json)).
Abbreviation Body := (gmap string Json).

(** What class-validator delegates to the validator package. *)
Class StringValidators := {
  is_email : string → bool;
  is_uuid : string → bool;
  is_uuid_length s : is_uuid s = true → String.length s = 36%nat;
}.

(** The decorators the DTOs use. *)
Inductive Validator :=
| IsString | IsBoolean | IsInt | IsNumber | IsEmail | IsUUID | IsNotEmpty
| MinLength (n : Z) | MaxLength (n : Z) | Length (lo hi : Z)
| Matches (r : regex)
| Min (q : Q) | Max (q : Q)
| IsIn (l : list string)
| IsOptional.

(** The TypeScript type of a property, and whether it is declared with [?]. *)
Inductive jtype := TString | TNumber | TBoolean | TOneOf (l : list string).
#[export] Instance jtype_eq_dec : EqDecision jtype.
Proof. solve_decision. Defined.
Definition has_type (t : jtype) (j : Json) : bool :=
  match t, j with
  | TString, JStr _ | TNumber, JNum _ | TBoolean, JBool _ => true
  | TOneOf l, JStr s => bool_decide (s ∈ l)
  | _, _ => false
  end.
Inductive field_type := Req (t : jtype) | Opt (t : jtype).
Definition base_type (f : field_type) : jtype := match f with Req t | Opt t => t end.
Definition may_lack (f : field_type) : bool := match f with Req _ => false | Opt _ => true end.

(** A class: each property with its type and its decorators. *)
Abbreviation Schema := (list (string * field_type * list Validator)).

Definition is_integer (q : Q) : bool := Qeq_bool q (inject_Z (Qfloor q)).

Section pipe.
Context `{StringValidators}.

(** One decorator on a value that is present and not null. *)
Definition check (v : Validator) (j : Json) : bool :=
  match v, j with
  | IsString, JStr _ => true
  | IsBoolean, JBool _ => true
  | IsInt, JNum q => is_integer q
  | IsNumber, JNum _ => true
  | IsEmail, JStr s => is_email s
  | IsUUID, JStr s => is_uuid s
  | IsNotEmpty, JStr s => truthy s
  | IsNotEmpty, JNull => false
  | IsNotEmpty, _ => true
  | MinLength n, JStr s => n <=? js_length s
  | MaxLength n, JStr s => js_length s <=? n
  | Length lo hi, JStr s => (lo <=? js_length s) && (js_length s <=? hi)
  | Matches r, JStr s => test r s
  | Min m, JNum q => Qle_bool m q
  | Max m, JNum q => Qle_bool q m
  | IsIn l, JStr s => bool_decide (s ∈ l)
  | IsOptional, _ => true
  | _, _ => false
  end.

Definition is_optional (vs : list Validator) : bool :=
  existsb (λ v, match v with IsOptional => true | _ => false end) vs.

(** [@IsOptional()] skips the other decorators when the value is null or
    undefined; without it an absent value fails them. *)
Definition property_ok (vs : list Validator) (j : option Json) : bool :=
  match j with
  | None => is_optional vs
  | Some JNull => is_optional vs || forallb (λ v, check v JNull) vs
  | Some j => forallb (λ v, check v j) vs
  end.

Definition declared (schema : Schema) (name : string) : bool :=
  bool_decide (name ∈ (fst ∘ fst <$> schema)).

(** The pipe: nothing undeclared, and each declared property passes. *)
Definition validate (schema : Schema) (body : Body) : bool :=
  forallb (λ kv, declared schema kv.1) (map_to_list body)
  && forallb (λ pv, property_ok pv.2 (body !! pv.1.1)) schema.

Definition pipe {St} (schema : Schema) (body : Body) : M St unit :=
  throw_if (negb (validate schema body)) (BadRequestException "Bad Request Exception").
End pipe.

(** Reading a property of a body that passed. *)
Definition str_at (body : Body) (p : string) : option string :=
  match body !! p with Some (JStr s) => Some s | _ => None end.
Definition num_at (body : Body) (p : string) : option Q :=
  match body !! p with Some (JNum q) => Some q | _ => None end.
Definition bool_at (body : Body) (p : string) : option bool :=
  match body !! p with Some (JBool b) => Some b | _ => None end.
Definition null_at (body : Body) (p : string) : bool :=
  match body !! p with Some JNull => true | _ => false end.

(** ** The regular expressions *)

(** [/^(?=.*[a-z])(?=.*[A-Z])(?=.*\d)(?=.*[^A-Za-z\d]).+$/] *)
Definition ahead (p : ascii → bool) : regex := Look (Seq (Star (Class is_dot)) (Class p)).
Definition password_regex : regex :=
  Seq Bol (Seq (ahead is_lower) (Seq (ahead is_upper) (Seq (ahead is_digit)
    (Seq (ahead (λ c, negb (is_alnum c))) (Seq (Plus (Class is_dot)) Eol))))).
(** [/^[^<>]*$/] *)
Definition no_angle (c : ascii) : bool := negb (bool_decide (c = "<"%char) || bool_decide (c = ">"%char)).
Definition no_angle_regex : regex := anchored (Star (Class no_angle)).
(** [/^\d{6}$/] *)
Definition six_digits_regex : regex := anchored (Rep 6 (Class is_digit)).
(** [/^[@.][a-z0-9.-]+\.[a-z]{2,}$/] *)
Definition domain_regex : regex :=
  anchored (seqs [Class (λ c, bool_decide (c = "@"%char) || bool_decide (c = "."%char));
    Plus (Class (λ c, is_lower c || is_digit c || bool_decide (c = "."%char) || bool_decide (c = "-"%char)));
    Chr "."; Class is_lower; Plus (Class is_lower)]).
(** [/^[a-zA-Z0-9-]+$/] and [/^[a-zA-Z0-9_-]+$/] *)
Definition name_regex : regex := anchored (Plus (Class (λ c, is_alnum c || bool_decide (c = "-"%char)))).
Definition username_regex : regex :=
  anchored (Plus (Class (λ c, is_alnum c || bool_decide (c = "_"%char) || bool_decide (c = "-"%char)))).
(** [/^(student|pro|enterprise|unlimited)$/] *)
Definition plan_regex : regex :=
  anchored (alts [Lit (chars "student"); Lit (chars "pro"); Lit (chars "enterprise"); Lit (chars "unlimited")]).
(** [/^(ssh-rsa|ssh-ed25519|ecdsa-sha2-nistp256)\s+\S+/] *)
Definition public_key_regex : regex :=
  seqs [Bol; alts [Lit (chars "ssh-rsa"); Lit (chars "ssh-ed25519"); Lit (chars "ecdsa-sha2-nistp256")];
    Plus (Class is_ws); Plus (Class (λ c, negb (is_ws c)))].

(** ** services/auth/src/auth/dto *)

Definition RegisterDto : Schema := [
  ("email", Req TString, [IsEmail]);
  ("password", Req TString, [IsString; MinLength 8; MaxLength 128; Matches password_regex]);
  ("firstName", Req TString, [IsString; MaxLength 100; Matches no_angle_regex]);
  ("lastName", Req TString, [IsString; MaxLength 100; Matches no_angle_regex])]%string.
Definition LoginDto : Schema := [
  ("email", Req TString, [IsEmail]);
  ("password", Req TString, [IsString; MinLength 8; MaxLength 128; Matches password_regex]);
  ("rememberMe", Opt TBoolean, [IsOptional; IsBoolean]);
  ("captchaToken", Opt TString, [IsOptional; IsString; MinLength 8; MaxLength 4096])]%string.
Definition VerifyMfaDto : Schema := [
  ("challengeId", Req TString, [IsUUID]);
  ("code", Req TString, [IsString; Length 6 6; Matches six_digits_regex])]%string.
Definition EnableMfaDto : Schema := [
  ("code", Req TString, [IsString; Length 6 6; Matches six_digits_regex])]%string.
Definition MfaReauthDto : Schema := [("password", Req TString, [IsString; MinLength 8])]%string.
Definition ChangePasswordDto : Schema := [
  ("oldPassword", Req TString, [IsString]);
  ("newPassword", Req TString, [IsString; MinLength 8; Matches password_regex])]%string.

(** ** services/user/src/user/dto *)

Definition UpdateProfileDto : Schema := [
  ("firstName", Opt TString, [IsOptional; IsString; MinLength 1; MaxLength 100; Matches no_angle_regex]);
  ("lastName", Opt TString, [IsOptional; IsString; MinLength 1; MaxLength 100; Matches no_angle_regex]);
  ("email", Opt TString, [IsOptional; IsEmail])]%string.
Definition UserChangePasswordDto : Schema := [
  ("oldPassword", Req TString, [IsString; MinLength 8; MaxLength 128]);
  ("newPassword", Req TString, [IsString; MinLength 8; MaxLength 128; Matches password_regex])]%string.
Definition AdminUpdateUserDto : Schema := [
  ("role", Opt (TOneOf ["USER"; "ADMIN"]), [IsOptional; IsIn ["USER"; "ADMIN"]]);
  ("isActive", Opt TBoolean, [IsOptional; IsBoolean])]%string.
Definition SubscriptionPlanId : list string := ["student"; "pro"; "enterprise"; "unlimited"]%string.
Definition AdminSetSubscriptionDto : Schema := [("planId", Req (TOneOf SubscriptionPlanId), [IsIn SubscriptionPlanId])]%string.
Definition ConfirmStudentVerificationDto : Schema := [
  ("code", Req TString, [IsString; Length 6 6; Matches six_digits_regex])]%string.
Definition CreateUniversityDto : Schema := [
  ("name", Req TString, [IsString; IsNotEmpty; Length 1 200]);
  ("emailDomain", Req TString, [IsString; IsNotEmpty; Matches domain_regex])]%string.
Definition UpdateUniversityDto : Schema := [
  ("name", Opt TString, [IsOptional; IsString; IsNotEmpty; Length 1 200]);
  ("emailDomain", Opt TString, [IsOptional; IsString; IsNotEmpty; Matches domain_regex])]%string.

(** ** services/vm/src/vm/dto *)

Definition CreateVmDto : Schema := [
  ("name", Req TString, [IsString; MinLength 1; MaxLength 64; Matches name_regex]);
  ("cpu", Req TNumber, [IsInt; Min 1; Max 32]);
  ("ramMb", Req TNumber, [IsInt; Min 512; Max 65536]);
  ("diskGb", Req TNumber, [IsInt; Min 5; Max 400]);
  ("osTemplate", Req TString, [IsString; MinLength 1; MaxLength 100; Matches no_angle_regex]);
  ("planId", Opt TString, [IsOptional; IsString; Matches plan_regex]);
  ("sshPublicKey", Opt TString, [IsOptional; IsString; MinLength 32; MaxLength 4096; Matches public_key_regex]);
  ("vmUsername", Opt TString, [IsOptional; IsString; MinLength 1; MaxLength 32; Matches username_regex]);
  ("vmPassword", Opt TString, [IsOptional; IsString; MinLength 1; MaxLength 128])]%string.
Definition VmActionDto : Schema := [
  ("action", Req (TOneOf ["start"; "stop"; "restart"; "delete"]), [IsString; IsIn ["start"; "stop"; "restart"; "delete"]])]%string.

(** ** services/payment/src/payment/dto *)

Definition CreateCheckoutSessionDto : Schema := [
  ("planId", Req (TOneOf ["student"; "pro"; "enterprise"]), [IsString; IsIn ["student"; "pro"; "enterprise"]])]%string.
Definition ConfirmCheckoutSessionDto : Schema := [("sessionId", Req TString, [IsString; MinLength 10])]%string.
Definition UpdatePlanDto : Schema := [
  ("amountDt", Opt TNumber, [IsOptional; IsNumber; Min (1 # 100)]);
  ("vmHoursMonthly", Opt TNumber, [IsOptional; IsNumber; Min 1]);
  ("maxVms", Opt TNumber, [IsOptional; IsNumber; Min 1]);
  ("maxCpu", Opt TNumber, [IsOptional; IsNumber; Min 1]);
  ("maxRamMb", Opt TNumber, [IsOptional; IsNumber; Min 512]);
  ("maxDiskGb", Opt TNumber, [IsOptional; IsNumber; Min 5])]%string.

(** ** The types the decorators enforce *)

(** The type a decorator enforces, if it enforces one. *)
Definition enforced (v : Validator) : option jtype :=
  match v with
  | IsString | IsEmail | IsUUID | MinLength _ | MaxLength _ | Length _ _ | Matches _ => Some TString
  | IsIn l => Some (TOneOf l)
  | IsInt | IsNumber | Min _ | Max _ => Some TNumber
  | IsBoolean => Some TBoolean
  | IsNotEmpty | IsOptional => None
  end.
Definition enforces (vs : list Validator) (t : jtype) : bool :=
  existsb (λ v, bool_decide (enforced v = Some t)) vs.

(** Every class that a controller's body is validated with. *)
Definition dto_classes : list Schema := [
  RegisterDto; LoginDto; VerifyMfaDto; EnableMfaDto; MfaReauthDto; ChangePasswordDto;
  UpdateProfileDto; UserChangePasswordDto; AdminUpdateUserDto; AdminSetSubscriptionDto;
  ConfirmStudentVerificationDto; CreateUniversityDto; UpdateUniversityDto; CreateVmDto; VmActionDto;
  CreateCheckoutSessionDto; ConfirmCheckoutSessionDto; UpdatePlanDto].

Section facts.
Context `{StringValidators}.

Lemma enforced_sound v t j : enforced v = Some t → check v j = true → has_type t j = true.
Proof. destruct v, j; simpl; intros E Hc; simplify_eq; done. Qed.

Lemma enforces_sound vs t j :
  enforces vs t = true → forallb (λ v, check v j) vs = true → has_type t j = true.
Proof.
  unfold enforces. intros (v & Hin & Ht%bool_decide_eq_true)%existsb_exists Hc.
  rewrite forallb_forall in Hc. by eapply enforced_sound, Hc.
Qed.

Lemma check_at (vs : list Validator) v j :
  forallb (λ v, check v j) vs = true → v ∈ vs → check v j = true.
Proof. rewrite forallb_forall. intros Hf Hv. by apply Hf, list_elem_of_In. Qed.

Lemma validate_inv schema body :
  validate schema body = true →
  (∀ p j, body !! p = Some j → ∃ ft vs, (p, ft, vs) ∈ schema) ∧
  ∀ p ft vs, (p, ft, vs) ∈ schema → property_ok vs (body !! p) = true.
Proof.
  unfold validate. rewrite andb_true_iff, !forallb_forall. intros [Hd Hp]. split.
  - intros p j Hj. assert (Hin : In (p, j) (map_to_list body)) by (by apply list_elem_of_In, elem_of_map_to_list).
    specialize (Hd _ Hin). apply bool_decide_eq_true in Hd.
    apply list_elem_of_fmap in Hd as ([[p' ft] vs] & E & Hin'). simpl in E. subst p'. eauto.
  - intros p ft vs Hin. by apply (Hp (p, ft, vs)), list_elem_of_In.
Qed.

(** What a property may be after validation. *)
Lemma property_typed vs t j :
  enforces vs t = true → property_ok vs j = true →
  match j with
  | None | Some JNull => is_optional vs = true
  | Some j => has_type t j = true ∧ forallb (λ v, check v j) vs = true
  end.
Proof.
  intros Ht. destruct j as [j|]; [|done]. unfold property_ok.
  destruct j; try (intros Hc; split; [by eapply enforces_sound|done]).
  intros [?|Hc]%orb_true_iff; [done|]. pose proof (enforces_sound vs t JNull Ht Hc). by destruct t.
Qed.

(** A required string property is there. *)
Lemma str_present schema body p ft vs :
  validate schema body = true → (p, ft, vs) ∈ schema → enforces vs TString = true → is_optional vs = false →
  ∃ s, body !! p = Some (JStr s) ∧ str_at body p = Some s ∧ ∀ v, v ∈ vs → check v (JStr s) = true.
Proof.
  intros Hv Hin Ht Ho. apply validate_inv in Hv as [_ Hv]. specialize (Hv _ _ _ Hin).
  apply (property_typed _ _ _ Ht) in Hv. unfold str_at. destruct (body !! p) as [[]|]; simpl in *;
    try congruence; destruct Hv as [? Hc]; try done. eexists. split_and!; [done..|].
  intros v. by apply check_at.
Qed.

Lemma num_present schema body p ft vs :
  validate schema body = true → (p, ft, vs) ∈ schema → enforces vs TNumber = true → is_optional vs = false →
  ∃ q, body !! p = Some (JNum q) ∧ num_at body p = Some q ∧ ∀ v, v ∈ vs → check v (JNum q) = true.
Proof.
  intros Hv Hin Ht Ho. apply validate_inv in Hv as [_ Hv]. specialize (Hv _ _ _ Hin).
  apply (property_typed _ _ _ Ht) in Hv. unfold num_at. destruct (body !! p) as [[]|]; simpl in *;
    try congruence; destruct Hv as [? Hc]; try done. eexists. split_and!; [done..|].
  intros v. by apply check_at.
Qed.

(** An optional string property is absent, null or a string that passes. *)
Lemma str_optional schema body p ft vs s :
  validate schema body = true → (p, ft, vs) ∈ schema → str_at body p = Some s →
  ∀ v, v ∈ vs → check v (JStr s) = true.
Proof.
  intros Hv Hin Hs. apply validate_inv in Hv as [_ Hv]. specialize (Hv _ _ _ Hin).
  unfold str_at in Hs. destruct (body !! p) as [[]|]; simplify_eq. intros v. by apply check_at.
Qed.

(** The declared type of each property is the one its decorators enforce. *)
Definition conforms (schema : Schema) : bool :=
  forallb (λ f, enforces f.2 (base_type f.1.2) && Bool.eqb (is_optional f.2) (may_lack f.1.2)) schema.

Lemma conforms_typed schema body p ft vs :
  conforms schema = true → validate schema body = true → (p, ft, vs) ∈ schema →
  match body !! p with
  | None | Some JNull => may_lack ft = true
  | Some j => has_type (base_type ft) j = true
  end.
Proof.
  unfold conforms. rewrite forallb_forall. intros Hf Hv Hin. apply validate_inv in Hv as [_ Hv].
  specialize (Hv _ _ _ Hin). apply list_elem_of_In, Hf, andb_true_iff in Hin as [He Ho%eqb_prop].
  simpl in *. apply (property_typed _ _ _ He) in Hv. destruct (body !! p) as [[]|]; naive_solver congruence.
Qed.

Lemma classes_conform schema : schema ∈ dto_classes → conforms schema = true.
Proof.
  assert (Hall : forallb conforms dto_classes = true) by (vm_compute; reflexivity).
  rewrite forallb_forall in Hall. intros Hin. by apply Hall, list_elem_of_In.
Qed.

End facts.

(** ** The password policy *)

Lemma ahead_spec l p i :
  (∃ k, matches l (ahead p) i k) ↔
  ∃ n c, (i ≤ n)%nat ∧ (∀ k, (i ≤ k < n)%nat → ∃ x, l !! k = Some x ∧ is_dot x = true) ∧ l !! n = Some c ∧ p c = true.
Proof.
  unfold ahead. split.
  - intros [k Hk]. apply Look_spec in Hk as [_ [m Hm]]. apply Seq_inv in Hm as (n & Hs & Hc).
    apply Star_class in Hs as [Hle Hall]. apply Class_spec in Hc as (_ & c & Hc & Hp). eauto 7.
  - intros (n & c & Hle & Hall & Hc & Hp). exists i. apply Look_spec. split; [done|]. exists (S n).
    econstructor; [by apply Star_class|]. by econstructor.
Qed.

(** A password passes exactly when it is one line that contains a lowercase and
    an uppercase letter, a digit and something else. *)
Lemma password_policy s :
  test password_regex s = true ↔
  Forall (λ c, is_dot c = true) (chars s) ∧ Exists (λ c, is_lower c = true) (chars s) ∧
  Exists (λ c, is_upper c = true) (chars s) ∧ Exists (λ c, is_digit c = true) (chars s) ∧
  Exists (λ c, is_alnum c = false) (chars s).
Proof.
  set (l := chars s). unfold test. fold l. rewrite test_chars_spec. split.
  - intros (i & j & _ & Hm). apply Seq_inv in Hm as (i1 & Hb & Hm). inversion Hb; subst.
    assert (Hex : ∀ p r k, matches l (Seq (ahead p) r) 0 k →
              Exists (λ c, p c = true) l ∧ matches l r 0 k).
    { intros p r k (m & Ha & Hr)%Seq_inv. assert (m = 0%nat) as -> by (by apply Look_spec in Ha as [-> _]).
      split; [|done]. destruct (proj1 (ahead_spec l p 0)) as (n & c & _ & _ & Hc & Hp); [eauto|].
      apply Exists_exists. exists c. split; [by eapply list_elem_of_lookup_2|done]. }
    apply Hex in Hm as [Hlow Hm]. apply Hex in Hm as [Hup Hm]. apply Hex in Hm as [Hdig Hm].
    apply Hex in Hm as [Hoth Hm]. split_and!; [|done..|].
    + apply (plus_class_spec is_dot s). apply anchored_spec. fold l.
      apply Seq_inv in Hm as (m & Hp & He). by inversion He; subst.
    + eapply Exists_impl; [exact Hoth|]. intros c Hc. by apply negb_true_iff in Hc.
  - intros (Hdot & Hlow & Hup & Hdig & Hoth). exists 0%nat, (length l). split; [lia|].
    assert (Hex : ∀ p, Exists (λ c, p c = true) l → matches l (ahead p) 0 0).
    { intros p (c & Hc & Hp)%Exists_exists. apply list_elem_of_lookup in Hc as [n Hn].
      destruct (proj2 (ahead_spec l p 0)) as [k Hk].
      - exists n, c. split_and!; [lia| |done..]. intros k Hk.
        destruct (lookup_lt_is_Some_2 l k) as [x Hx]; [apply lookup_lt_Some in Hn; lia|].
        exists x. split; [done|]. by eapply Forall_lookup_1 in Hdot.
      - pose proof Hk as [-> _]%Look_spec. done. }
    econstructor; [constructor|]. do 3 (econstructor; [by apply Hex|]).
    econstructor; [apply Hex; eapply Exists_impl; [exact Hoth|]; intros c Hc; simpl in *; by rewrite Hc|].
    assert (Ha : matches l (Plus (Class is_dot)) 0 (length l)).
    { apply anchored_spec, plus_class_spec. split; [|done]. fold l. intros E. rewrite E in Hlow.
      by apply Exists_nil in Hlow. }
    econstructor; [exact Ha|constructor].
Qed.
End Dto.
