(* ===== verification/Store.v ===== *)
(** * Store: the interfaces of the database and of Redis

    PostgreSQL (through Prisma) and Redis are services the sources only call.
    Their operations are the class methods below and what the code relies on
    is stated as laws: [Database] for tables keyed by primary key, [Redis] for
    a key-value store whose entries expire.  The components are written and
    proved against the classes; [gmap_database] and [map_redis] are instances
    that satisfy the laws, so that every handler can be executed. *)

From stdpp Require Import base list gmap strings sorting.
From Stdlib Require Import ZArith Lia.
From S2P Require Import Prelude.

(** ** Tables *)

Class Database (T : Type → Type) := {
  rows : ∀ {R}, T R → gmap string R;
  (** INSERT or UPDATE of the row under a primary key *)
  put : ∀ {R}, string → R → T R → T R;
  (** UPDATE ... WHERE *)
  update_where : ∀ {R}, (string → R → bool) → (R → R) → T R → T R;
  (** DELETE ... WHERE *)
  delete_where : ∀ {R}, (string → R → bool) → T R → T R;
  (** SELECT ... WHERE, in an order the engine chooses *)
  select : ∀ {R}, (string → R → bool) → T R → list (string * R);
  (** SELECT ... WHERE ... ORDER BY key DESC *)
  select_desc : ∀ {R}, (R → Z) → (string → R → bool) → T R → list (string * R);
}.

Definition matching {R} (p : string → R → bool) (m : gmap string R) : list (string * R) :=
  filter (λ kr, p kr.1 kr.2 = true) (map_to_list m).

Class DatabaseLaws (T : Type → Type) `{Database T} := {
  rows_put {R} k (r : R) t : rows (put k r t) = <[k := r]> (rows t);
  rows_update_where {R} p f (t : T R) k :
    rows (update_where p f t) !! k = (λ r, if p k r then f r else r) <$> rows t !! k;
  rows_delete_where {R} p (t : T R) k :
    rows (delete_where p t) !! k =
      match rows t !! k with
      | Some r => if p k r then None else Some r
      | None => None
      end;
  select_perm {R} p (t : T R) : select p t ≡ₚ matching p (rows t);
  select_desc_perm {R} key p (t : T R) : select_desc key p t ≡ₚ matching p (rows t);
  select_desc_sorted {R} key p (t : T R) :
    StronglySorted (λ a b, key b.2 <= key a.2) (select_desc key p t);
}.

Section queries.
Context {T : Type → Type} `{DatabaseLaws T} {R : Type}.
Implicit Types (p : string → R → bool) (t : T R).

(** The Prisma queries, from the statements above. *)
Definition find_by_id (k : string) (t : T R) : option R := rows t !! k.
Definition find_first (p : string → R → bool) (t : T R) : option (string * R) :=
  head (select p t).
Definition count_where (p : string → R → bool) (t : T R) : Z :=
  Z.of_nat (length (select p t)).
Definition sum_where (col : R → Z) (p : string → R → bool) (t : T R) : Z :=
  sumZ (λ kr, col kr.2) (select p t).

Lemma elem_of_select p t k r :
  (k, r) ∈ select p t ↔ rows t !! k = Some r ∧ p k r = true.
Proof.
  rewrite select_perm. unfold matching.
  rewrite list_elem_of_filter, elem_of_map_to_list. naive_solver.
Qed.

Lemma elem_of_select_desc key p t k r :
  (k, r) ∈ select_desc key p t ↔ rows t !! k = Some r ∧ p k r = true.
Proof.
  rewrite select_desc_perm. unfold matching.
  rewrite list_elem_of_filter, elem_of_map_to_list. naive_solver.
Qed.

Lemma find_first_Some p t k r :
  find_first p t = Some (k, r) → rows t !! k = Some r ∧ p k r = true.
Proof.
  unfold find_first. intros Hh. apply elem_of_select.
  destruct (select p t); simpl in *; [done|]. simplify_eq. set_solver.
Qed.

Lemma find_first_None p t :
  find_first p t = None → ∀ k r, rows t !! k = Some r → p k r = false.
Proof.
  unfold find_first. intros Hh k r Hk.
  destruct (p k r) eqn:E; [|done].
  assert (Hin : (k, r) ∈ select p t) by by apply elem_of_select.
  destruct (select p t); simpl in *; set_solver.
Qed.

(** A query whose predicate holds of one row only returns that row. *)
Lemma find_first_unique p t k r :
  rows t !! k = Some r → p k r = true →
  (∀ k' r', rows t !! k' = Some r' → p k' r' = true → k' = k) →
  find_first p t = Some (k, r).
Proof.
  intros Hk Hp Hu. destruct (find_first p t) as [[k' r']|] eqn:E.
  - apply find_first_Some in E as [Hk' Hp']. pose proof (Hu _ _ Hk' Hp') as ->. congruence.
  - rewrite (find_first_None _ _ E _ _ Hk) in Hp. done.
Qed.

Lemma matching_insert_new p (m : gmap string R) k r :
  m !! k = None →
  matching p (<[k := r]> m) ≡ₚ (if p k r then [(k, r)] else []) ++ matching p m.
Proof.
  intros Hk. unfold matching. rewrite map_to_list_insert by done.
  rewrite filter_cons. simpl. case_decide as E.
  - rewrite E. done.
  - apply not_true_is_false in E. by rewrite E.
Qed.

(** Aggregates after inserting a fresh row. *)
Lemma count_where_put_new p t k r :
  rows t !! k = None →
  count_where p (put k r t) = count_where p t + (if p k r then 1 else 0).
Proof.
  intros Hk. unfold count_where. rewrite !select_perm, rows_put.
  rewrite matching_insert_new by done. rewrite length_app. case_match; simpl; lia.
Qed.

Lemma sum_where_put_new col p t k r :
  rows t !! k = None →
  sum_where col p (put k r t) = sum_where col p t + (if p k r then col r else 0).
Proof.
  intros Hk. unfold sum_where. rewrite !select_perm, rows_put.
  rewrite matching_insert_new by done. rewrite sumZ_app. case_match; unfold sumZ; simpl; lia.
Qed.

(** Aggregates depend on the contents of the table only. *)
Lemma count_where_rows p t1 t2 : rows t1 = rows t2 → count_where p t1 = count_where p t2.
Proof. intros E. unfold count_where. rewrite !select_perm. by rewrite E. Qed.
Lemma sum_where_rows col p t1 t2 :
  rows t1 = rows t2 → sum_where col p t1 = sum_where col p t2.
Proof. intros E. unfold sum_where. rewrite !select_perm. by rewrite E. Qed.

(** Aggregates as sums over the rows, and their monotonicity. *)
Definition total (g : string → R → Z) (m : gmap string R) : Z :=
  sumZ (λ kr, g kr.1 kr.2) (map_to_list m).
Definition contribution (g : string → R → Z) (m : gmap string R) (k : string) : Z :=
  match m !! k with Some r => g k r | None => 0 end.

Lemma sumZ_filter_where (col : R → Z) p (l : list (string * R)) :
  sumZ (λ kr, col kr.2) (filter (λ kr, p kr.1 kr.2 = true) l) =
  sumZ (λ kr, if p kr.1 kr.2 then col kr.2 else 0) l.
Proof.
  induction l as [|[k r] l IH]; [done|]. rewrite filter_cons. simpl. unfold sumZ in *.
  case_decide as E; simpl; rewrite IH.
  - by rewrite E.
  - apply not_true_is_false in E. by rewrite E.
Qed.

Lemma sum_where_total col p t :
  sum_where col p t = total (λ k r, if p k r then col r else 0) (rows t).
Proof. unfold sum_where, total. rewrite select_perm. apply (sumZ_filter_where col). Qed.

Lemma count_where_total p t :
  count_where p t = total (λ k r, if p k r then 1 else 0) (rows t).
Proof.
  transitivity (sum_where (λ _, 1) p t); [|apply (sum_where_total (λ _, 1))].
  unfold count_where, sum_where. induction (select p t) as [|x l IH]; [done|].
  unfold sumZ in *. simpl length. simpl. lia.
Qed.

Lemma total_insert g m k r : m !! k = None → total g (<[k := r]> m) = g k r + total g m.
Proof. intros Hk. unfold total. by rewrite map_to_list_insert. Qed.

Lemma total_delete g m k r : m !! k = Some r → total g m = g k r + total g (delete k m).
Proof.
  intros Hk. rewrite <-(insert_delete_id m k r Hk) at 1. apply total_insert, lookup_delete_eq.
Qed.

Lemma total_mono g m : ∀ m', (∀ k, contribution g m' k <= contribution g m k) → total g m' <= total g m.
Proof.
  unfold contribution. induction m as [|k r m Hk IH] using map_ind; intros m' Hm.
  - assert (Hneg : 0 <= sumZ (λ kr, - g kr.1 kr.2) (map_to_list m')).
    { apply sumZ_nonneg. intros [k r] Hkr%elem_of_map_to_list. specialize (Hm k).
      rewrite Hkr, lookup_empty in Hm. simpl. lia. }
    assert (Hopp : ∀ l : list (string * R), sumZ (λ kr, - g kr.1 kr.2) l = - sumZ (λ kr, g kr.1 kr.2) l).
    { induction l as [|x l IHl]; [done|]. unfold sumZ in *. simpl. lia. }
    rewrite Hopp in Hneg. unfold total. rewrite map_to_list_empty. unfold sumZ at 2. simpl. lia.
  - rewrite total_insert by done. pose proof (Hm k) as Hmk. rewrite lookup_insert_eq in Hmk.
    assert (Hrest : ∀ k', k' ≠ k → match m' !! k' with Some r' => g k' r' | None => 0 end
              <= match m !! k' with Some r' => g k' r' | None => 0 end).
    { intros k' Hne. specialize (Hm k'). by rewrite lookup_insert_ne in Hm by done. }
    destruct (m' !! k) as [r'|] eqn:E.
    + rewrite (total_delete g m' k r' E). enough (total g (delete k m') <= total g m) by lia.
      apply IH. intros k'. destruct (decide (k' = k)) as [->|Hne].
      * by rewrite lookup_delete_eq, Hk.
      * rewrite lookup_delete_ne by done. by apply Hrest.
    + enough (total g m' <= total g m) by lia. apply IH. intros k'.
      destruct (decide (k' = k)) as [->|Hne]; [by rewrite E, Hk|by apply Hrest].
Qed.

Lemma count_where_zero p t k r : count_where p t = 0 → rows t !! k = Some r → p k r = false.
Proof.
  unfold count_where. intros Hz Hk. destruct (p k r) eqn:E; [|done].
  assert (Hin : (k, r) ∈ select p t) by by apply elem_of_select.
  destruct (select p t); [by apply not_elem_of_nil in Hin|]. simpl in Hz. lia.
Qed.

Lemma count_where_nonneg p t : 0 <= count_where p t.
Proof. unfold count_where. lia. Qed.
End queries.

(** ** Unique columns *)

(** No two rows share a (present) value of the column. *)
Definition unique_by {R X} (col : R → option X) (m : gmap string R) : Prop :=
  ∀ k1 k2 r1 r2 x, m !! k1 = Some r1 → m !! k2 = Some r2 → col r1 = Some x → col r2 = Some x → k1 = k2.

Lemma unique_by_empty {R X} (col : R → option X) : unique_by col ∅.
Proof. intros k1 k2 r1 r2 x Hk. by rewrite lookup_empty in Hk. Qed.

Lemma unique_by_insert {R X} (col : R → option X) (m : gmap string R) k r :
  (∀ k' r' x, k' ≠ k → m !! k' = Some r' → col r = Some x → col r' ≠ Some x) →
  unique_by col m → unique_by col (<[k := r]> m).
Proof.
  intros Hno Hu k1 k2 r1 r2 x H1 H2 C1 C2.
  apply lookup_insert_Some in H1 as [[<- <-]|[N1 H1]]; apply lookup_insert_Some in H2 as [[<- <-]|[N2 H2]].
  - done.
  - by destruct (Hno _ _ _ (not_eq_sym N2) H2 C1).
  - by destruct (Hno _ _ _ (not_eq_sym N1) H1 C2).
  - by eapply Hu.
Qed.

Lemma unique_by_sub {R X} (col : R → option X) (m m' : gmap string R) :
  (∀ k r, m' !! k = Some r → m !! k = Some r) → unique_by col m → unique_by col m'.
Proof. intros Hsub Hu k1 k2 r1 r2 x H1%Hsub H2%Hsub. by eapply Hu. Qed.

Create Rewrite HintDb store.
#[export] Hint Rewrite @rows_put @rows_update_where @rows_delete_where using (exact _) : store.

(** The reference instance: a table is its contents. *)
Definition desc_rel {R} (key : R → Z) (a b : string * R) : Prop := key b.2 <= key a.2.
#[export] Instance desc_rel_dec {R} (key : R → Z) : RelDecision (desc_rel key).
Proof. intros a b. unfold desc_rel. apply _. Defined.
#[export] Instance desc_rel_total {R} (key : R → Z) : Total (desc_rel key).
Proof. intros a b. unfold desc_rel. lia. Qed.
#[export] Instance desc_rel_trans {R} (key : R → Z) : Transitive (desc_rel key).
Proof. intros a b c. unfold desc_rel. lia. Qed.

#[export] Instance gmap_database : Database (gmap string) := {
  rows := λ R t, t;
  put := λ R k r t, <[k := r]> t;
  update_where := λ R p f t, map_imap (λ k r, Some (if p k r then f r else r)) t;
  delete_where := λ R p t, map_imap (λ k r, if p k r then None else Some r) t;
  select := λ R p t, matching p t;
  select_desc := λ R key p t, merge_sort (desc_rel key) (matching p t);
}.

#[export] Instance gmap_database_laws : DatabaseLaws (gmap string).
Proof.
  split; intros; simpl; try done.
  - rewrite map_lookup_imap. by destruct (t !! k).
  - rewrite map_lookup_imap. by destruct (t !! k).
  - apply merge_sort_Permutation.
  - apply (StronglySorted_merge_sort (desc_rel key)).
Qed.

(** ** Redis *)

(** What a key holds: a counter, a JSON document of the payloads [O] the
    service writes, or other text. *)
Inductive rvalue (O : Type) :=
| RInt (n : Z)
| RJson (o : O)
| RText (s : string).
Arguments RInt {_} _.
Arguments RJson {_} _.
Arguments RText {_} _.

Definition alive (e : option Z) (t : Z) : bool :=
  match e with None => true | Some x => t <? x end.

Class Redis (RS O : Type) := {
  (** the value and the expiry instant (ms) of a key at an instant *)
  r_look : RS → Z → string → option (rvalue O * option Z);
  (** SET key value EX seconds, at an instant *)
  r_set_ex : string → rvalue O → Z → Z → RS → RS;
  r_incr : string → Z → RS → Z * RS;
  r_expire : string → Z → Z → RS → RS;
  r_ttl : string → Z → RS → Z;
  r_del : list string → RS → RS;
}.

Definition r_get {RS O} `{Redis RS O} (k : string) (now : Z) (rs : RS) : option (rvalue O) :=
  fst <$> r_look rs now k.

Class RedisLaws (RS O : Type) `{Redis RS O} := {
  (** an entry stays until its expiry instant *)
  look_later rs now t k : now <= t →
    r_look rs t k = match r_look rs now k with
                    | Some (v, e) => if alive e t then Some (v, e) else None
                    | None => None
                    end;
  look_set_ex k v ttl now rs t k' : now <= t →
    r_look (r_set_ex k v ttl now rs) t k' =
      if decide (k = k')
      then (if t <? now + ttl * 1000 then Some (v, Some (now + ttl * 1000)) else None)
      else r_look rs t k';
  incr_missing k now rs : r_look rs now k = None →
    (r_incr k now rs).1 = 1 ∧
    ∀ t k', now <= t → r_look (r_incr k now rs).2 t k' =
      if decide (k = k') then Some (RInt 1, None) else r_look rs t k';
  incr_present k now rs n e : r_look rs now k = Some (RInt n, e) →
    (r_incr k now rs).1 = n + 1 ∧
    ∀ t k', now <= t → r_look (r_incr k now rs).2 t k' =
      if decide (k = k') then (if alive e t then Some (RInt (n + 1), e) else None)
      else r_look rs t k';
  (** INCR touches its own key only *)
  incr_other k now rs t k' : k ≠ k' → r_look (r_incr k now rs).2 t k' = r_look rs t k';
  look_expire k ttl now rs t k' : now <= t →
    r_look (r_expire k ttl now rs) t k' =
      if decide (k = k')
      then match r_look rs now k with
           | Some (v, _) =>
               if t <? now + ttl * 1000 then Some (v, Some (now + ttl * 1000)) else None
           | None => None
           end
      else r_look rs t k';
  ttl_missing k now rs : r_look rs now k = None → r_ttl k now rs = -2;
  ttl_bounds k now rs v e : r_look rs now k = Some (v, Some e) →
    (e - now) / 1000 <= r_ttl k now rs <= (e - now) / 1000 + 1;
  look_del ks rs t k :
    r_look (r_del ks rs) t k = if decide (k ∈ ks) then None else r_look rs t k;
}.

Create Rewrite HintDb redis.

Section redis_facts.
Context {RS O : Type} `{RedisLaws RS O}.

Lemma get_set_ex_same k (v : rvalue O) ttl now t (rs : RS) :
  now <= t → t < now + ttl * 1000 → r_get k t (r_set_ex k v ttl now rs) = Some v.
Proof.
  intros Hn Ht. unfold r_get. rewrite look_set_ex by done.
  rewrite decide_True by done. apply Z.ltb_lt in Ht. by rewrite Ht.
Qed.

Lemma get_set_ex_other k k' (v : rvalue O) ttl now t (rs : RS) :
  now <= t → k ≠ k' → r_get k' t (r_set_ex k v ttl now rs) = r_get k' t rs.
Proof. intros Hn Hk. unfold r_get. rewrite look_set_ex by done. by rewrite decide_False. Qed.

Lemma get_del_same k ks t (rs : RS) : k ∈ ks → r_get k t (r_del (O:=O) ks rs) = None.
Proof. intros Hk. unfold r_get. rewrite look_del. by rewrite decide_True. Qed.

Lemma get_del_other k ks t (rs : RS) :
  k ∉ ks → r_get k t (r_del (O:=O) ks rs) = r_get k t rs.
Proof. intros Hk. unfold r_get. rewrite look_del. by rewrite decide_False. Qed.

Lemma get_later_None k now t (rs : RS) :
  now <= t → r_get (O:=O) k now rs = None → r_get (O:=O) k t rs = None.
Proof.
  unfold r_get. intros Hn Hk. rewrite (look_later rs now t) by done.
  by destruct (r_look rs now k).
Qed.
End redis_facts.

(** The reference instance: entries with their expiry, dropped when read late. *)
Section map_redis.
Context {O : Type}.
Abbreviation store := (gmap string (rvalue O * option Z)).

Definition map_look (rs : store) (now : Z) (k : string) : option (rvalue O * option Z) :=
  match rs !! k with
  | Some (v, e) => if alive e now then Some (v, e) else None
  | None => None
  end.

#[export] Instance map_redis : Redis store O := {
  r_look := map_look;
  r_set_ex := λ k v ttl now rs, <[k := (v, Some (now + ttl * 1000))]> rs;
  r_incr := λ k now rs,
    match map_look rs now k with
    | Some (RInt n, e) => (n + 1, <[k := (RInt (n + 1), e)]> rs)
    | _ => (1, <[k := (RInt 1, None)]> rs)
    end;
  r_expire := λ k ttl now rs,
    match map_look rs now k with
    | Some (v, _) => <[k := (v, Some (now + ttl * 1000))]> rs
    | None => delete k rs
    end;
  r_ttl := λ k now rs,
    match map_look rs now k with
    | Some (_, Some e) => (e - now + 500) / 1000
    | Some (_, None) => -1
    | None => -2
    end;
  r_del := λ ks rs, foldr delete rs ks;
}.

Lemma alive_later e now t : now <= t → alive e t = true → alive e now = true.
Proof. destruct e; simpl; [|done]. lia. Qed.

Lemma lookup_foldr_delete ks (rs : store) k :
  foldr delete rs ks !! k = if decide (k ∈ ks) then None else rs !! k.
Proof.
  induction ks as [|x ks IH]; simpl; [done|].
  rewrite lookup_delete, IH. repeat case_decide; set_solver.
Qed.

#[export] Instance map_redis_laws : RedisLaws store O.
Proof.
  split.
  - intros rs now t k Ht. simpl. unfold map_look. destruct (rs !! k) as [[v e]|]; [|done].
    destruct (alive e now) eqn:E1; [done|]. destruct (alive e t) eqn:E2; [|done].
    by rewrite (alive_later e now t) in E1.
  - intros k v ttl now rs t k' _. simpl. unfold map_look. rewrite lookup_insert. by case_decide.
  - intros k now rs Hk. simpl in *. rewrite Hk. simpl. split; [done|].
    intros t k' _. unfold map_look. rewrite lookup_insert. by case_decide.
  - intros k now rs n e Hk. simpl in *. rewrite Hk. simpl. split; [done|].
    intros t k' _. unfold map_look. rewrite lookup_insert. by case_decide.
  - intros k now rs t k' Hk. simpl.
    destruct (map_look rs now k) as [[[n| |] e]|]; simpl; unfold map_look;
      by rewrite lookup_insert_ne.
  - intros k ttl now rs t k' _. simpl.
    destruct (map_look rs now k) as [[v e]|] eqn:E; unfold map_look.
    + rewrite lookup_insert. by case_decide.
    + rewrite lookup_delete. by case_decide.
  - intros k now rs Hk. simpl in *. by rewrite Hk.
  - intros k now rs v e Hk. simpl in *. rewrite Hk. split; [apply Z.div_le_mono; lia|].
    rewrite <-Z.div_add by lia. apply Z.div_le_mono; lia.
  - intros ks rs t k. simpl. unfold map_look. rewrite lookup_foldr_delete. by case_decide.
Qed.
End map_redis.
