(* ===== verification/Crypto.v ===== *)
(** * Crypto: the cryptographic functions and codecs the services call

    node:crypto, bcrypt, jsonwebtoken and decodeURIComponent are parameters of
    the model.  Each class states the documented behaviour the code relies on
    and nothing more: in particular no class says that a hash has no
    collisions.  The [sample_*] definitions satisfy the laws; they are not
    declared as instances here, only where a concrete run needs them. *)

From Stdlib Require Import ZArith Lia Ascii String.
From stdpp Require Import base list gmap strings countable.
From S2P Require Import Prelude Text.

(** ** Hashes *)

Class Hashing := {
  sha256_hex : string → string;
  sha256_hex_length s : String.length (sha256_hex s) = 64%nat;
}.

Class Bcrypt := {
  (** [bcrypt.hash(p, 10)]; the random salt is an argument *)
  bcrypt_hash : string → string → string;
  bcrypt_compare : string → string → bool;
  bcrypt_compare_hash p salt : bcrypt_compare p (bcrypt_hash p salt) = true;
}.

(** HMAC-SHA1 on byte lists. *)
Definition is_byte (b : Z) : Prop := 0 <= b < 256.
Class Hmac := {
  hmac_sha1 : list Z → list Z → list Z;
  hmac_sha1_length key msg : length (hmac_sha1 key msg) = 20%nat;
  hmac_sha1_bytes key msg : Forall is_byte (hmac_sha1 key msg);
}.

(** ** encodeURIComponent, and decodeURIComponent, which throws URIError on
    malformed input *)

(** The characters that survive encoding, and the escape. *)
Definition uri_char (c : ascii) : bool :=
  is_alnum c || bool_decide (c ∈ chars "-_.!~*'()%").
Class UriCodec := {
  encodeURIComponent : string → string;
  decodeURIComponent : string → option string;
  decode_plain s : "%"%char ∉ chars s → decodeURIComponent s = Some s;
  uri_decode_encode s : decodeURIComponent (encodeURIComponent s) = Some s;
  uri_encode_chars s : Forall (λ c, uri_char c = true) (chars (encodeURIComponent s));
}.

(** ** JSON Web Tokens *)

(** A claims set; an absent claim is [None]. *)
Record Claims := {
  c_sub : option string; c_email : option string; c_role : option string;
  c_fp : option string; c_type : option string; c_jti : option string;
  c_vmId : option string; c_vmName : option string; c_action : option string;
  c_exp : option Z;
}.

Definition no_claims : Claims :=
  {| c_sub := None; c_email := None; c_role := None; c_fp := None; c_type := None;
     c_jti := None; c_vmId := None; c_vmName := None; c_action := None; c_exp := None |}.

Definition with_exp (x : Z) (c : Claims) : Claims :=
  {| c_sub := c_sub c; c_email := c_email c; c_role := c_role c; c_fp := c_fp c;
     c_type := c_type c; c_jti := c_jti c; c_vmId := c_vmId c; c_vmName := c_vmName c;
     c_action := c_action c; c_exp := Some x |}.

Class Jwt := {
  (** secret, claims, lifetime in seconds, instant in ms *)
  jwt_sign : string → Claims → Z → Z → string;
  (** secret, token, instant in ms; [None] when verification throws *)
  jwt_verify : string → string → Z → option Claims;
  jwt_verify_sign secret c ttl now t :
    t / 1000 < now / 1000 + ttl →
    jwt_verify secret (jwt_sign secret c ttl now) t = Some (with_exp (now / 1000 + ttl) c);
  jwt_verify_expired secret c ttl now t :
    now / 1000 + ttl <= t / 1000 →
    jwt_verify secret (jwt_sign secret c ttl now) t = None;
  jwt_sign_truthy secret c ttl now : truthy (jwt_sign secret c ttl now) = true;
  (** the instant only decides the expiry, the claims are the token's *)
  jwt_verify_claims secret token t t' c c' :
    jwt_verify secret token t = Some c → jwt_verify secret token t' = Some c' → c' = c;
}.

(** [expiresIn] strings such as "15m", converted to seconds by jsonwebtoken;
    [None] when [sign] throws because it is not a timespan. *)
Class Timespan := { timespan_seconds : string → option Z }.

Section jwt_facts.
Context `{Jwt}.

(** Tokens signed with one secret for different claims are different. *)
Lemma jwt_sign_inj secret c1 c2 ttl1 ttl2 now1 now2 :
  jwt_sign secret c1 ttl1 now1 = jwt_sign secret c2 ttl2 now2 →
  with_exp 0 c1 = with_exp 0 c2.
Proof.
  intros E.
  set (t := 1000 * (Z.min (now1 / 1000 + ttl1) (now2 / 1000 + ttl2) - 1)).
  assert (Ht : t / 1000 = Z.min (now1 / 1000 + ttl1) (now2 / 1000 + ttl2) - 1).
  { unfold t. rewrite Z.mul_comm. by rewrite Z.div_mul. }
  pose proof (jwt_verify_sign secret c1 ttl1 now1 t ltac:(lia)) as H1.
  pose proof (jwt_verify_sign secret c2 ttl2 now2 t ltac:(lia)) as H2.
  rewrite E in H1. rewrite H1 in H2. inversion H2. unfold with_exp. by f_equal.
Qed.
End jwt_facts.

(** ** Functions that satisfy the laws *)

Definition sample_hashing : Hashing.
Proof.
  refine {| sha256_hex := λ s,
    String.substring 0 64 (s +:+ str (replicate 64 "0"%char)) |}.
  intros s.
  assert (Hrep : ∀ n, String.length (str (replicate n "0"%char)) = n).
  { induction n as [|n IH]; simpl; [done|]. by rewrite IH. }
  assert (Hsub : ∀ n u, (n <= String.length u)%nat → String.length (String.substring 0 n u) = n).
  { induction n as [|n IH]; intros [|c u] Hu; simpl in *; [done..|lia|]. by rewrite IH by lia. }
  assert (Happ : ∀ u v, String.length (u +:+ v) = (String.length u + String.length v)%nat).
  { induction u as [|c u IH]; intros v; simpl; [done|]. by rewrite IH. }
  apply Hsub. rewrite Happ, Hrep. lia.
Defined.

Definition sample_bcrypt : Bcrypt.
Proof.
  refine {| bcrypt_hash := λ p salt, ("$2b$" +:+ p)%string;
            bcrypt_compare := λ p h, bool_decide (h = ("$2b$" +:+ p)%string) |}.
  intros. by apply bool_decide_eq_true.
Defined.

Definition sample_hmac : Hmac.
Proof.
  refine {| hmac_sha1 := λ key msg,
    replicate 20 ((sumZ id key + sumZ id msg * 7) mod 256) |}.
  - intros. apply length_replicate.
  - intros. apply Forall_replicate. apply Z.mod_pos_bound. lia.
Defined.

(** Percent encoding, byte by byte. *)
Definition hex_char (n : nat) : ascii := ascii_of_nat (if (n <? 10)%nat then 48 + n else 55 + n).
Definition unhex (c : ascii) : option nat :=
  let n := nat_of_ascii c in
  if is_digit c then Some (n - 48)%nat
  else if (65 <=? code c) && (code c <=? 70) then Some (n - 55)%nat else None.
Definition pct_char (c : ascii) : list ascii :=
  if uri_char c && negb (bool_decide (c = "%"%char)) then [c]
  else ["%"%char; hex_char (nat_of_ascii c / 16); hex_char (nat_of_ascii c mod 16)].
Fixpoint pct_decode (l : list ascii) : option (list ascii) :=
  match l with
  | [] => Some []
  | c :: l' =>
      if bool_decide (c = "%"%char) then
        match l' with
        | a :: b :: l'' =>
            v ← unhex a; w ← unhex b; rest ← pct_decode l''; Some (ascii_of_nat (v * 16 + w) :: rest)
        | _ => None
        end
      else cons c <$> pct_decode l'
  end.

Lemma pct_decode_char c l : pct_decode (pct_char c ++ l) = cons c <$> pct_decode l.
Proof. destruct c as [[] [] [] [] [] [] [] []]; reflexivity. Qed.
Lemma pct_char_ok c : Forall (λ x, uri_char x = true) (pct_char c).
Proof. destruct c as [[] [] [] [] [] [] [] []]; repeat constructor. Qed.

Definition sample_uri : UriCodec.
Proof.
  refine {| encodeURIComponent := λ s, str (chars s ≫= pct_char);
            decodeURIComponent := λ s, str <$> pct_decode (chars s) |}.
  - intros s Hs. assert (pct_decode (chars s) = Some (chars s)) as ->; [|simpl; by rewrite str_chars].
    induction (chars s) as [|c l IH]; [done|]. cbn [pct_decode]. apply not_elem_of_cons in Hs as [Hc Hl].
    rewrite bool_decide_false by congruence. by rewrite IH.
  - intros s. rewrite chars_str. assert (pct_decode (chars s ≫= pct_char) = Some (chars s)) as ->.
    { induction (chars s) as [|c l IH]; [done|]. rewrite bind_cons, pct_decode_char. by rewrite IH. }
    simpl. by rewrite str_chars.
  - intros s. rewrite chars_str. apply Forall_bind, Forall_true. apply pct_char_ok.
Defined.

(** A reversible rendering of claims: the bits of their encoding. *)
Fixpoint bits_of (p : positive) : string :=
  match p with
  | xH => "."
  | xO p' => String "0" (bits_of p')
  | xI p' => String "1" (bits_of p')
  end%string.
Fixpoint of_bits (s : string) : option positive :=
  match s with
  | EmptyString => None
  | String c s' =>
      if bool_decide (c = "."%char) then Some xH
      else p ← of_bits s'; Some (if bool_decide (c = "1"%char) then xI p else xO p)
  end.
Lemma of_bits_of p : of_bits (bits_of p) = Some p.
Proof. induction p as [p IH|p IH|]; simpl; [by rewrite IH..|done]. Qed.

#[export] Instance Claims_eq_dec : EqDecision Claims.
Proof. solve_decision. Defined.

Definition claims_list (c : Claims) : list (option string) * option Z :=
  ([c_sub c; c_email c; c_role c; c_fp c; c_type c; c_jti c; c_vmId c; c_vmName c; c_action c], c_exp c).
Definition list_claims (x : list (option string) * option Z) : option Claims :=
  match x with
  | ([a; b; c; d; e; f; g; h; i], j) =>
      Some {| c_sub := a; c_email := b; c_role := c; c_fp := d; c_type := e; c_jti := f;
              c_vmId := g; c_vmName := h; c_action := i; c_exp := j |}
  | _ => None
  end.
#[export] Instance Claims_countable : Countable Claims :=
  inj_countable claims_list list_claims (λ '(Build_Claims _ _ _ _ _ _ _ _ _ _), eq_refl).

Definition sample_jwt : Jwt.
Proof.
  refine {|
    jwt_sign := λ secret c ttl now,
      bits_of (encode (secret, with_exp (now / 1000 + ttl) c));
    jwt_verify := λ secret token t,
      p ← of_bits token;
      sc ← decode (A := string * Claims) p;
      x ← c_exp sc.2;
      if bool_decide (sc.1 = secret) && (t / 1000 <? x) then Some sc.2 else None |}.
  - intros secret c ttl now t Ht. rewrite of_bits_of. cbn [mbind option_bind].
    rewrite decode_encode. cbn [mbind option_bind fst snd with_exp c_exp].
    rewrite bool_decide_true by done. apply Z.ltb_lt in Ht. by rewrite Ht.
  - intros secret c ttl now t Ht. rewrite of_bits_of. cbn [mbind option_bind].
    rewrite decode_encode. cbn [mbind option_bind fst snd with_exp c_exp].
    apply Z.ltb_ge in Ht. rewrite Ht. by rewrite andb_false_r.
  - intros. apply truthy_true. by destruct (encode _).
  - intros secret token t t' c c'. destruct (of_bits token) as [p|]; [|done]. cbn [mbind option_bind].
    destruct (decode p) as [sc|]; [|done]. cbn [mbind option_bind]. destruct (c_exp sc.2); [|done].
    cbn [mbind option_bind]. intros E1 E2. repeat case_match; congruence.
Defined.

Definition sample_timespan : Timespan := {| timespan_seconds := λ s,
  if bool_decide (s = "15m"%string) then Some 900
  else if bool_decide (s = "7d"%string) then Some 604800
  else if bool_decide (s = "30s"%string) then Some 30 else None |}.
