(* ===== verification/RequestSecurity.v ===== *)
(** * RequestSecurity: client identification, fingerprints and access tokens

    services/*/src/common/security/request-security.util.ts (the five copies
    are the same text), the JwtStrategy and RolesGuard of the services, the
    socket-side fingerprint of the WebSocket gateways, and the internal token
    the AI service signs for its calls. *)

From Stdlib Require Import ZArith Lia Ascii String.
From stdpp Require Import base list gmap strings.
From S2P Require Import Prelude Text Crypto.

Module RequestSecurity.

(** A header as Express delivers it: [string | string[]]. *)
Inductive header :=
| HOne (s : string)
| HMany (l : list string).

Record Request := {
  headers : gmap string header;
  req_ip : option string;
  remoteAddress : option string;
}.

Definition normalizeIp (rawIp : string) : string :=
  if negb (truthy rawIp) then "unknown"
  else
    let normalized := js_trim (replace_first "::ffff:" "" rawIp) in
    if bool_decide (normalized = "::1"%string) || bool_decide (normalized = "127.0.0.1"%string)
    then "127.0.0.1" else normalized.

Definition firstHeaderValue (value : option header) : option string :=
  match value with
  | None => None
  | Some (HMany l) => v ← head l; nonempty (js_trim v)
  | Some (HOne s) => if truthy s then nonempty (js_trim s) else None
  end.

(** [forwardedFor ? forwardedFor.split(",")[0] : null] *)
Definition firstSegment (v : string) : string :=
  default "" (head (js_split "," v)).

Definition getClientIp (req : Request) : string :=
  let forwardedFor := firstHeaderValue (headers req !! "x-forwarded-for") in
  let realIp := firstHeaderValue (headers req !! "x-real-ip") in
  let rawIp :=
    opt_or (firstSegment <$> forwardedFor)
      (opt_or realIp (opt_or (req_ip req) (opt_or (remoteAddress req) "unknown"))) in
  normalizeIp rawIp.

Definition getUserAgent (req : Request) : string :=
  match headers req !! "user-agent" with
  | Some (HOne ua) => if truthy (js_trim ua) then js_trim ua else "unknown"
  | _ => "unknown"
  end.

Section hashing.
Context `{Hashing}.

Definition buildRequestFingerprint (req : Request) : string :=
  sha256_hex (getClientIp req +:+ "|" +:+ getUserAgent req).
End hashing.

(** [for (const item of cookies)]: the first cookie of that name, decoded. *)
Section cookies.
Context `{UriCodec}.

Fixpoint find_cookie (cookieName : string) (items : list string) : outcome (option string) :=
  match items with
  | [] => Ret None
  | item :: rest =>
      match js_split "=" (js_trim item) with
      | name :: valueParts =>
          if bool_decide (name = cookieName)
          then match decodeURIComponent (js_join "=" valueParts) with
               | Some v => Ret (Some v)
               | None => Throw (JsError "URI malformed")
               end
          else find_cookie cookieName rest
      | [] => find_cookie cookieName rest
      end
  end.

Definition parseCookie (req : Request) (cookieName : string) : outcome (option string) :=
  match headers req !! "cookie" with
  | Some (HOne raw) =>
      if truthy raw then find_cookie cookieName (js_split ";" raw) else Ret None
  | _ => Ret None
  end.
End cookies.

(** ** JwtStrategy.validate and the roles guard *)

Record Identity := { userId : option string; email : option string; role : option string }.

Section strategy.
Context `{Hashing}.

Definition validate (req : Request) (payload : Claims) : outcome Identity :=
  let expected := buildRequestFingerprint req in
  match c_fp payload with
  | Some fp =>
      if negb (truthy fp) || negb (bool_decide (fp = expected))
      then Throw (UnauthorizedException "Token fingerprint mismatch")
      else Ret {| userId := c_sub payload; email := c_email payload; role := c_role payload |}
  | None => Throw (UnauthorizedException "Token fingerprint mismatch")
  end.
End strategy.

(** RolesGuard of the vm and user services; [user = None] is a request without
    an authenticated user. *)
Definition rolesGuard (requiredRoles : option (list string)) (user : option Identity) : outcome bool :=
  match requiredRoles with
  | None | Some [] => Ret true
  | Some roles =>
      match user with
      | None => Throw (UnauthorizedException "Missing authenticated user")
      | Some u =>
          Ret (match role u with Some r => bool_decide (r ∈ roles) | None => false end)
      end
  end.

(** AiService.createInternalToken: the token of the AI service's own calls. *)
Section internal.
Context `{Jwt}.

Definition internal_claims (u : Identity) : Claims :=
  {| c_sub := userId u; c_email := email u; c_role := role u; c_fp := None;
     c_type := None; c_jti := None; c_vmId := None; c_vmName := None;
     c_action := None; c_exp := None |}.

Definition createInternalToken (jwtSecret : string) (u : Identity) (now : Z) : outcome string :=
  if negb (truthy jwtSecret)
  then Throw (HttpException 503 "Internal JWT secret is not configured")
  else Ret (jwt_sign jwtSecret (internal_claims u) 300 now).

(** A protected endpoint of another service given a bearer token: passport
    verifies the signature and the expiry, then calls [validate]. *)
Definition authenticate `{Hashing} (jwtSecret : string) (req : Request) (token : string) (now : Z)
    : outcome Identity :=
  match jwt_verify jwtSecret token now with
  | Some payload => validate req payload
  | None => Throw (UnauthorizedException "Unauthorized")
  end.
End internal.

(** ** The WebSocket gateways' own fingerprint *)

Record Socket := {
  handshake_headers : gmap string header;
  conn_remoteAddress : option string;
  handshake_address : option string;
}.

(** [Array.isArray(v) ? v[0] : v] *)
Definition header_first (v : option header) : option string :=
  match v with
  | Some (HMany l) => head l
  | Some (HOne s) => Some s
  | None => None
  end.

Definition getSocketClientIp (client : Socket) : string :=
  let forwardedForValue := header_first (handshake_headers client !! "x-forwarded-for") in
  let realIpValue := header_first (handshake_headers client !! "x-real-ip") in
  let rawIp :=
    str_or (match forwardedForValue with
            | Some v => if truthy (js_trim v) then firstSegment v else ""
            | None => ""
            end)
      (str_or (default "" realIpValue)
         (opt_or (conn_remoteAddress client)
            (opt_or (handshake_address client) "unknown"))) in
  let normalized := js_trim (replace_first "::ffff:" "" rawIp) in
  if bool_decide (normalized = "::1"%string) || bool_decide (normalized = "127.0.0.1"%string)
  then "127.0.0.1" else normalized.

Definition socketUserAgent (client : Socket) : string :=
  js_trim (match handshake_headers client !! "user-agent" with
           | Some (HOne ua) => ua
           | _ => "unknown"
           end).

Definition buildSocketFingerprint `{Hashing} (client : Socket) : string :=
  sha256_hex (getSocketClientIp client +:+ "|" +:+ socketUserAgent client).

(** ** Lemmas *)

(** A forwarding header as the edge proxy writes it: the client's address,
    then possibly a comma and further hops. *)
Definition forwarded (ip v : string) : Prop :=
  ip ≠ ""%string ∧ ","%char ∉ chars ip ∧ Forall (λ c, is_ws c = false) (chars ip) ∧
  (v = ip ∨ (∃ r, v = ip +:+ String "," r)).

Lemma chars_app a b : chars (a +:+ b) = chars a ++ chars b.
Proof. induction a as [|c a IH]; simpl; [done|]. by rewrite IH. Qed.

Lemma drop_while_stop p l1 c l2 :
  p c = false → drop_while p (l1 ++ c :: l2) = drop_while p l1 ++ c :: l2.
Proof.
  intros Hc. induction l1 as [|x l1 IH]; simpl; [by rewrite Hc|].
  destruct (p x); [done|]. done.
Qed.

Lemma trim_chars_stop l c r :
  l ≠ [] → Forall (λ x, is_ws x = false) l → is_ws c = false →
  ∃ r', trim_chars (l ++ c :: r) = l ++ c :: r'.
Proof.
  intros Hn Hf Hc. unfold trim_chars.
  assert (Hd : drop_while is_ws (l ++ c :: r) = l ++ c :: r).
  { destruct l as [|x l]; [done|]. apply Forall_cons in Hf as [Hx _]. by apply drop_while_none. }
  rewrite Hd, rev_app_distr. simpl. rewrite <-app_assoc. simpl.
  rewrite drop_while_stop by done. rewrite rev_app_distr. simpl.
  rewrite rev_involutive, <-app_assoc. simpl. eauto.
Qed.

Lemma firstSegment_free ip : ","%char ∉ chars ip → firstSegment ip = ip.
Proof.
  intros H. unfold firstSegment, js_split. rewrite split_chars_free by done.
  simpl. apply str_chars.
Qed.

Lemma firstSegment_app ip r : ","%char ∉ chars ip → firstSegment (ip +:+ String "," r) = ip.
Proof.
  intros H. unfold firstSegment, js_split. rewrite chars_app.
  cbn [list_ascii_of_string]. rewrite split_chars_app by done.
  simpl. apply str_chars.
Qed.

Lemma forwarded_firstSegment ip v : forwarded ip v → firstSegment v = ip.
Proof.
  intros (_ & Hc & _ & [->|[r ->]]); [by apply firstSegment_free|by apply firstSegment_app].
Qed.

Lemma chars_nil s : chars s = [] → s = ""%string.
Proof. intros H. by rewrite <-(str_chars s), H. Qed.

(** Trimming keeps the first address of a forwarding header. *)
Lemma forwarded_trim ip v : forwarded ip v → forwarded ip (js_trim v).
Proof.
  intros (Hne & Hc & Hws & Hv). split_and!; [done..|]. destruct Hv as [->|[r ->]].
  - left. unfold js_trim. rewrite trim_chars_id by done. apply str_chars.
  - right. unfold js_trim. rewrite chars_app. cbn [list_ascii_of_string].
    destruct (trim_chars_stop (chars ip) "," (chars r)) as [r' ->];
      [intros E; by apply Hne, chars_nil|done|done|].
    exists (str r'). rewrite <-(str_chars ip) at 2.
    rewrite <-(str_chars (_ +:+ _)), chars_app. simpl. by rewrite !chars_str.
Qed.

Lemma forwarded_truthy ip v : forwarded ip v → truthy v = true.
Proof.
  intros (Hne & _ & _ & [->|[r ->]]); apply truthy_true; [done|].
  by destruct ip.
Qed.

Section theorems.
Context `{Hashing}.

Lemma sha256_hex_truthy s : truthy (sha256_hex s) = true.
Proof.
  apply truthy_true. intros E. pose proof (sha256_hex_length s) as Hl.
  by rewrite E in Hl.
Qed.

(** [JwtStrategy.validate] accepts a token exactly when its [fp] claim is
    the SHA-256 fingerprint of the requesting client's address and user
    agent, and then the caller's identity is the one the claims state; every
    other token (no claim, empty claim, other client) is rejected with 401. *)
Theorem validate_iff_fingerprint req payload :
  (∀ id, validate req payload = Ret id ↔
     c_fp payload = Some (buildRequestFingerprint req) ∧
     id = {| userId := c_sub payload; email := c_email payload; role := c_role payload |}) ∧
  (c_fp payload ≠ Some (buildRequestFingerprint req) →
     validate req payload = Throw (UnauthorizedException "Token fingerprint mismatch")).
Proof.
  unfold validate. pose proof (sha256_hex_truthy (getClientIp req +:+ "|" +:+ getUserAgent req)) as Ht.
  fold (buildRequestFingerprint req) in Ht.
  destruct (c_fp payload) as [fp|]; [|split; [naive_solver|done]].
  destruct (decide (fp = buildRequestFingerprint req)) as [->|Hne].
  - rewrite Ht, bool_decide_true by done. simpl. naive_solver.
  - rewrite (bool_decide_false (fp = _)) by done. rewrite orb_true_r. naive_solver.
Qed.

(** The fingerprint a WebSocket gateway computes equals the one the HTTP
    services bind into the access token, when both see the forwarding header
    the edge proxy sets and a user agent that is not blank: a session opened
    over HTTP is the session the terminal and event sockets accept. *)
Theorem socket_fingerprint_agrees req client ip v ua :
  headers req = handshake_headers client →
  headers req !! "x-forwarded-for" = Some (HOne v) → forwarded ip v →
  headers req !! "user-agent" = Some (HOne ua) → js_trim ua ≠ ""%string →
  buildSocketFingerprint client = buildRequestFingerprint req.
Proof.
  intros Hh Hx Hv Hua Hne. unfold buildSocketFingerprint, buildRequestFingerprint.
  assert (Htr := forwarded_truthy _ _ (forwarded_trim _ _ Hv)).
  assert (Hip : truthy ip = true) by (apply truthy_true; apply Hv).
  assert (Hua' : socketUserAgent client = getUserAgent req).
  { unfold socketUserAgent, getUserAgent. rewrite <-Hh, Hua.
    apply truthy_true in Hne. by rewrite Hne. }
  rewrite Hua'. do 2 f_equal.
  unfold getSocketClientIp, getClientIp, normalizeIp. rewrite <-Hh, Hx. cbn [header_first].
  rewrite Htr, (forwarded_firstSegment _ _ Hv). rewrite str_or_truthy by done.
  cbn [firstHeaderValue]. rewrite (forwarded_truthy _ _ Hv). unfold nonempty. rewrite Htr.
  cbn [fmap option_fmap option_map opt_or].
  rewrite (forwarded_firstSegment _ _ (forwarded_trim _ _ Hv)).
  rewrite str_or_truthy by done. by rewrite Hip.
Qed.
End theorems.

(** The AI service's internal token carries no [fp] claim, so the VM and
    user services reject it with 401 whoever the user is, whatever the request
    looks like, and however early it is presented: the AI service's context
    queries and confirmed VM actions cannot be authorised. *)
Theorem internal_token_rejected `{Jwt, Hashing} jwtSecret u req token now t :
  createInternalToken jwtSecret u now = Ret token →
  t / 1000 < now / 1000 + 300 →
  authenticate jwtSecret req token t =
    Throw (UnauthorizedException "Token fingerprint mismatch").
Proof.
  unfold createInternalToken. case_match; [done|]. intros [= <-] Ht.
  unfold authenticate. by rewrite jwt_verify_sign.
Qed.

(** ** Witnesses *)

Definition sample_headers : gmap string header :=
  {[ "x-forwarded-for" := HOne "10.0.0.7, 172.18.0.2"; "user-agent" := HOne "Mozilla/5.0" ]}.
Definition sample_request : Request :=
  {| headers := sample_headers; req_ip := Some "172.18.0.2"; remoteAddress := None |}.
Definition sample_socket : Socket :=
  {| handshake_headers := sample_headers; conn_remoteAddress := Some "172.18.0.2";
     handshake_address := None |}.
Definition sample_identity : Identity :=
  {| userId := Some "u1"; email := Some "u1@x.tn"; role := Some "USER" |}.

Lemma sample_forwarded : forwarded "10.0.0.7" "10.0.0.7, 172.18.0.2".
Proof.
  split_and!; [done| |repeat constructor|].
  - refine (bool_decide_unpack _ _). vm_compute. exact I.
  - right. by exists " 172.18.0.2"%string.
Qed.

Lemma socket_fingerprint_witness :
  getSocketClientIp sample_socket = "10.0.0.7"%string ∧
  @buildSocketFingerprint sample_hashing sample_socket =
    @buildRequestFingerprint sample_hashing sample_request.
Proof.
  split; [reflexivity|].
  apply (@socket_fingerprint_agrees sample_hashing sample_request sample_socket
           "10.0.0.7" "10.0.0.7, 172.18.0.2" "Mozilla/5.0");
    [reflexivity|reflexivity|apply sample_forwarded|reflexivity|].
  vm_compute. discriminate.
Defined.

Lemma internal_token_rejected_witness :
  ∃ token, @createInternalToken sample_jwt "s3cret" sample_identity 0 = Ret token ∧
    @authenticate sample_jwt sample_hashing "s3cret" sample_request token 1000 =
      Throw (UnauthorizedException "Token fingerprint mismatch").
Proof.
  eexists. split; [reflexivity|].
  apply (@internal_token_rejected sample_jwt sample_hashing "s3cret" sample_identity
           sample_request _ 0 1000); [reflexivity|vm_compute; reflexivity].
Defined.

End RequestSecurity.
