(* ===== verification/Sockets.v ===== *)
(** * Sockets: who is behind a WebSocket

    The four socket.io gateways (terminal, VM events, VNC, AI chat) find the
    access token of a handshake in the same way and check it by the same
    comparison; each source file has its own copy of these functions
    (services/vm/src/terminal/terminal.gateway.ts, vm/vm-events.gateway.ts,
    vnc/vnc.gateway.ts and services/ai/src/ai/ai-chat.gateway.ts). *)

From Stdlib Require Import ZArith Lia Ascii String.
From stdpp Require Import base list gmap strings.
From S2P Require Import Prelude Text Js Crypto RequestSecurity.
Import RequestSecurity.

Module Sockets.

Record TSocket := { socket_id : string; handshake : Socket; auth_token : option string }.

Section token.
Context `{UriCodec}.

Definition extractCookieValue (rawCookie : option string) (cookieName : string)
    : outcome (option string) :=
  match rawCookie with
  | Some raw => if truthy raw then find_cookie cookieName (js_split ";" raw) else Ret None
  | None => Ret None
  end.

(** A header that is read as a string; a repeated one is an array, on which
    the string methods are missing. *)
Definition string_header (sock : TSocket) (name : string) : outcome (option string) :=
  match handshake_headers (handshake sock) !! name with
  | Some (HOne v) => Ret (Some v)
  | Some (HMany _) => Throw (JsError "not a function")
  | None => Ret None
  end.

(** [auth.token || authorization.replace("Bearer ", "") || cookie] *)
Definition handshakeToken (sock : TSocket) : outcome (option string) :=
  if opt_truthy (auth_token sock) then Ret (auth_token sock)
  else match string_header sock "authorization" with
       | Throw e => Throw e
       | Ret authorization =>
           let bearer := replace_first "Bearer " "" <$> authorization in
           if opt_truthy bearer then Ret bearer
           else match string_header sock "cookie" with
                | Throw e => Throw e
                | Ret cookie =>
                    match extractCookieValue cookie "accessToken" with
                    | Throw e => Throw e
                    | Ret token => Ret (token ≫= nonempty)
                    end
                end
       end.
End token.

Section verify.
Context `{Hashing, Jwt}.

(** [payload.fp && payload.fp === buildSocketFingerprint(client)] *)
Definition fingerprint_matches (sock : TSocket) (user : Claims) : bool :=
  opt_truthy (c_fp user) && bool_decide (c_fp user = Some (buildSocketFingerprint (handshake sock))).

(** [jwtService.verify] and the fingerprint; [None] is the [catch]. *)
Definition verifyBound (secret : string) (skipFp : bool) (t : Z) (sock : TSocket) (token : string)
    : option Claims :=
  user ← jwt_verify secret token t;
  if skipFp || fingerprint_matches sock user then Some user else None.

Lemma verifyBound_spec secret skipFp t sock token user :
  verifyBound secret skipFp t sock token = Some user →
  jwt_verify secret token t = Some user ∧
  (skipFp = true ∨ c_fp user = Some (buildSocketFingerprint (handshake sock))).
Proof.
  unfold verifyBound, fingerprint_matches. intros (u & Hu & E)%bind_Some.
  case_match eqn:Hc; [|done]. injection E as ->. split; [done|].
  apply orb_true_iff in Hc as [->|[_ Hf%bool_decide_eq_true]%andb_true_iff]; auto.
Qed.
End verify.

(** TERMINAL_SKIP_FINGERPRINT_CHECK, read by the terminal and the VM events. *)
Definition skipFingerprint (env : Env) : bool :=
  bool_decide (toLowerCase (env_or env "TERMINAL_SKIP_FINGERPRINT_CHECK" "") = "true"%string).
End Sockets.
