(* ===== verification/Cookies.v ===== *)
(** * Cookies: what a response sets and what a browser sends back

    [res.cookie] and [res.clearCookie] of Express as the services call them, and
    the browser's cookie store for one site (RFC 6265): storing, expiry, the
    Cookie header, and the part that scripts see.  The services read the header
    with [parseCookie] (RequestSecurity). *)

From Stdlib Require Import ZArith Lia Ascii String.
From stdpp Require Import base list gmap strings.
From S2P Require Import Prelude Text Js Crypto RequestSecurity.
Import RequestSecurity.

Module Cookies.

Inductive SameSite := Strict | Lax.
#[export] Instance SameSite_eq_dec : EqDecision SameSite.
Proof. solve_decision. Defined.

(** One Set-Cookie header: [value = None] clears the cookie. *)
Record SetCookie := {
  ck_name : string; ck_value : option string; ck_httpOnly : bool; ck_secure : bool;
  ck_sameSite : SameSite; ck_maxAge : option Z;
}.

(** ** The browser's store, in the order of creation *)

Record Stored := {
  st_value : string; st_httpOnly : bool; st_secure : bool; st_sameSite : SameSite;
  st_expires : option Z;
}.
Abbreviation Jar := (list (string * Stored)).

(** A page reached over plain http cannot set a Secure cookie. *)
Definition store_cookie (t : Z) (https : bool) (jar : Jar) (ck : SetCookie) : Jar :=
  if ck_secure ck && negb https then jar
  else match ck_value ck with
       | None => jdelete (ck_name ck) jar
       | Some v => jset (ck_name ck)
           {| st_value := v; st_httpOnly := ck_httpOnly ck; st_secure := ck_secure ck;
              st_sameSite := ck_sameSite ck; st_expires := Z.add t <$> ck_maxAge ck |} jar
       end.
Definition store_cookies (t : Z) (https : bool) (cks : list SetCookie) (jar : Jar) : Jar :=
  foldl (store_cookie t https) jar cks.

Definition live_cookie (t : Z) (https : bool) (sc : Stored) : bool :=
  (negb (st_secure sc) || https) &&
  match st_expires sc with Some e => t <? e | None => true end.
(** A request from another site carries no Strict cookie; a navigation carries
    the Lax ones. *)
Definition sent_cross_site (navigation : bool) (sc : Stored) : bool :=
  match st_sameSite sc with Strict => false | Lax => navigation end.

Definition pair_text (kv : string * Stored) : string := kv.1 +:+ "=" +:+ st_value kv.2.
Definition sendable (t : Z) (https : bool) (jar : Jar) : Jar :=
  List.filter (λ kv, live_cookie t https kv.2) jar.
Definition cookie_header (cks : Jar) : string := String.concat "; " (pair_text <$> cks).

(** [document.cookie]: scripts do not see the HttpOnly cookies. *)
Definition script_view (t : Z) (https : bool) (jar : Jar) : Jar :=
  List.filter (λ kv, negb (st_httpOnly kv.2)) (sendable t https jar).
(** A script cannot replace or remove an HttpOnly cookie either. *)
Definition script_store (t : Z) (https : bool) (jar : Jar) (ck : SetCookie) : Jar :=
  match jget (ck_name ck) jar with
  | Some sc => if st_httpOnly sc then jar else store_cookie t https jar ck
  | None => store_cookie t https jar ck
  end.

(** The request a browser sends. *)
Definition with_cookies (cks : Jar) (r : Request) : Request :=
  {| headers := match cks with
                | [] => delete "cookie" (headers r)
                | _ => <["cookie" := HOne (cookie_header cks)]> (headers r)
                end;
     req_ip := req_ip r; remoteAddress := remoteAddress r |}.

(** ** The header is read back *)

(** Names and values as the programs write them. *)
Definition cookie_name_ok (s : string) : Prop :=
  s ≠ ""%string ∧ Forall (λ c, is_alnum c || bool_decide (c = "_"%char) = true) (chars s).
Definition cookie_value_ok (s : string) : Prop := Forall (λ c, uri_char c = true) (chars s).
Definition jar_ok (jar : Jar) : Prop :=
  Forall (λ kv, cookie_name_ok kv.1 ∧ cookie_value_ok (st_value kv.2)) jar ∧ NoDup (jkeys jar).

Lemma word_char_facts c :
  is_alnum c || bool_decide (c = "_"%char) = true → c ≠ ";"%char ∧ c ≠ "="%char ∧ is_ws c = false.
Proof. destruct c as [[] [] [] [] [] [] [] []]; (discriminate || (intros _; split_and!; done)). Qed.
Lemma uri_char_facts c : uri_char c = true → c ≠ ";"%char ∧ c ≠ "="%char ∧ is_ws c = false.
Proof. destruct c as [[] [] [] [] [] [] [] []]; (discriminate || (intros _; split_and!; done)). Qed.

Lemma name_free s c : cookie_name_ok s → c = ";"%char ∨ c = "="%char ∨ is_ws c = true → c ∉ chars s.
Proof.
  intros [_ Hf] Hc Hin. rewrite Forall_forall in Hf. specialize (Hf _ Hin).
  apply word_char_facts in Hf as (? & ? & ?). destruct Hc as [?|[?|?]]; congruence.
Qed.
Lemma value_free s c : cookie_value_ok s → c = ";"%char ∨ c = "="%char ∨ is_ws c = true → c ∉ chars s.
Proof.
  intros Hf Hc Hin. unfold cookie_value_ok in Hf. rewrite Forall_forall in Hf. specialize (Hf _ Hin).
  apply uri_char_facts in Hf as (? & ? & ?). destruct Hc as [?|[?|?]]; congruence.
Qed.

Definition entry_ok (kv : string * Stored) : Prop :=
  cookie_name_ok kv.1 ∧ cookie_value_ok (st_value kv.2).

Lemma pair_chars kv : chars (pair_text kv) = chars kv.1 ++ "="%char :: chars (st_value kv.2).
Proof. unfold pair_text. by rewrite !chars_app. Qed.
Lemma pair_no_semi kv : entry_ok kv → ";"%char ∉ chars (pair_text kv).
Proof.
  intros [Hn Hv]. rewrite pair_chars. intros [Hin|[?|Hin]%elem_of_cons]%elem_of_app.
  - by apply (name_free kv.1 ";") in Hin; [|done|left].
  - done.
  - by apply (value_free (st_value kv.2) ";") in Hin; [|done|left].
Qed.
Lemma pair_no_ws kv : entry_ok kv → Forall (λ c, is_ws c = false) (chars (pair_text kv)).
Proof.
  intros [Hn Hv]. rewrite pair_chars. apply Forall_app. split; [|constructor; [done|]].
  - apply Forall_forall. intros c Hc. destruct (is_ws c) eqn:E; [|done].
    by apply (name_free kv.1 c) in Hc; [|done|right; right].
  - apply Forall_forall. intros c Hc. destruct (is_ws c) eqn:E; [|done].
    by apply (value_free (st_value kv.2) c) in Hc; [|done|right; right].
Qed.

(** Splitting the header at its semicolons. *)
Lemma split_header kv (l : Jar) :
  Forall entry_ok (kv :: l) →
  js_split ";" (cookie_header (kv :: l)) =
    pair_text kv :: ((λ x, String " " (pair_text x)) <$> l).
Proof.
  unfold js_split, cookie_header. revert kv. induction l as [|kv2 l IH]; intros kv Hok.
  - cbn. rewrite split_chars_free by (apply pair_no_semi; by inversion Hok). simpl. by rewrite str_chars.
  - apply Forall_cons in Hok as [H1 Hok].
    change (String.concat "; " (pair_text <$> kv :: kv2 :: l))
      with (pair_text kv +:+ (String ";" (String " " (String.concat "; " (pair_text <$> kv2 :: l))))).
    rewrite chars_app. cbn [list_ascii_of_string]. rewrite split_chars_app by (by apply pair_no_semi).
    rewrite fmap_cons, str_chars. f_equal. specialize (IH kv2 Hok).
    destruct (split_chars ";" (chars (String.concat "; " (pair_text <$> kv2 :: l)))) as [|s0 ss] eqn:Es;
      [by apply split_chars_nonnil in Es|].
    cbn [split_chars]. rewrite bool_decide_false by done. rewrite Es.
    rewrite fmap_cons in IH |- *. injection IH as Hs0 Hss. rewrite fmap_cons, Hss. f_equal.
    cbn [string_of_list_ascii]. by rewrite Hs0.
Qed.

Lemma trim_space s : Forall (λ c, is_ws c = false) (chars s) → js_trim (String " " s) = s.
Proof.
  intros Hs. unfold js_trim. cbn [list_ascii_of_string].
  assert (trim_chars (" "%char :: chars s) = trim_chars (chars s)) as -> by done.
  rewrite trim_chars_id by done. apply str_chars.
Qed.
Lemma trim_id s : Forall (λ c, is_ws c = false) (chars s) → js_trim s = s.
Proof. intros Hs. unfold js_trim. rewrite trim_chars_id by done. apply str_chars. Qed.

Lemma split_pair kv : entry_ok kv → js_split "=" (pair_text kv) = [kv.1; st_value kv.2].
Proof.
  intros [Hn Hv]. unfold js_split. rewrite pair_chars.
  rewrite split_chars_app by (eapply name_free; [done|auto]).
  rewrite split_chars_free by (eapply value_free; [done|auto]). simpl. by rewrite !str_chars.
Qed.

Section codec.
Context `{UriCodec}.

(** [res.cookie(name, value, options)] *)
Definition res_cookie (name value : string) (httpOnly secure : bool) (ss : SameSite)
    (maxAge : option Z) : SetCookie :=
  {| ck_name := name; ck_value := Some (encodeURIComponent value); ck_httpOnly := httpOnly;
     ck_secure := secure; ck_sameSite := ss; ck_maxAge := maxAge |}.
Definition res_clearCookie (name : string) (httpOnly secure : bool) (ss : SameSite) : SetCookie :=
  {| ck_name := name; ck_value := None; ck_httpOnly := httpOnly; ck_secure := secure;
     ck_sameSite := ss; ck_maxAge := None |}.

Lemma find_cookie_list (f : string * Stored → string) name (l : Jar) :
  Forall entry_ok l → (∀ kv, entry_ok kv → js_trim (f kv) = pair_text kv) →
  find_cookie name (f <$> l) =
  match jget name l with
  | None => Ret None
  | Some sc => match decodeURIComponent (st_value sc) with
               | Some v => Ret (Some v)
               | None => Throw (JsError "URI malformed")
               end
  end.
Proof.
  intros Hok Hf. induction Hok as [|kv l Hkv Hok IH]; [done|]. rewrite fmap_cons. cbn [find_cookie].
  rewrite Hf, split_pair by done. destruct kv as [k sc]; simpl.
  destruct (bool_decide_reflect (k = name)) as [->|Hne].
  - rewrite bool_decide_true by done. unfold js_join. simpl. by rewrite str_chars.
  - by rewrite (bool_decide_false (name = k)) by congruence.
Qed.

(** A cookie the browser sends is the cookie [parseCookie] finds. *)
Lemma parse_sent r name (cks : Jar) :
  Forall entry_ok cks →
  parseCookie (with_cookies cks r) name =
  match jget name cks with
  | None => Ret None
  | Some sc => match decodeURIComponent (st_value sc) with
               | Some v => Ret (Some v)
               | None => Throw (JsError "URI malformed")
               end
  end.
Proof.
  intros Hok. unfold parseCookie, with_cookies. destruct cks as [|kv l].
  - simpl. by rewrite lookup_delete_eq.
  - cbn [headers]. rewrite lookup_insert_eq.
    assert (truthy (cookie_header (kv :: l)) = true) as ->.
    { apply truthy_true. intros E. assert (Hc : chars (cookie_header (kv :: l)) = []) by (by rewrite E).
      apply Forall_cons in Hok as [[[Hne _] _] _]. unfold cookie_header in Hc. simpl in Hc.
      destruct (kv.1) as [|c s] eqn:Ek; [done|]. unfold pair_text in Hc. rewrite Ek in Hc.
      by destruct l. }
    rewrite split_header by done. apply Forall_cons in Hok as [Hkv Hok].
    pose proof (find_cookie_list (λ x, String " " (pair_text x)) name l Hok
      (λ kv Hkv, trim_space _ (pair_no_ws kv Hkv))) as Hl.
    cbn [find_cookie]. rewrite (trim_id (pair_text kv)) by (by apply pair_no_ws).
    rewrite split_pair by done. destruct kv as [k sc]; simpl.
    destruct (bool_decide_reflect (k = name)) as [->|Hne].
    + rewrite bool_decide_true by done. unfold js_join. simpl. by rewrite str_chars.
    + by rewrite (bool_decide_false (name = k)) by congruence.
Qed.

(** Encoded values survive the header. *)
Lemma encoded_ok v : cookie_value_ok (encodeURIComponent v).
Proof. apply uri_encode_chars. Qed.
End codec.

(** ** The store *)

Lemma store_cookie_get t https jar ck name :
  jget name (store_cookie t https jar ck) =
  if ck_secure ck && negb https then jget name jar
  else if bool_decide (name = ck_name ck)
  then (λ v, {| st_value := v; st_httpOnly := ck_httpOnly ck; st_secure := ck_secure ck;
                st_sameSite := ck_sameSite ck; st_expires := Z.add t <$> ck_maxAge ck |}) <$> ck_value ck
  else jget name jar.
Proof.
  unfold store_cookie. destruct (ck_secure ck && negb https); [done|].
  destruct (ck_value ck); [apply jget_jset|apply jget_jdelete].
Qed.

Lemma jset_Forall {V} (P : string * V → Prop) k v m : Forall P m → P (k, v) → Forall P (jset k v m).
Proof.
  intros Hm Hp. induction Hm as [|[x w] m Hx Hm IH]; simpl; [by repeat constructor|].
  case_bool_decide; by constructor.
Qed.
Lemma jdelete_Forall {V} (P : string * V → Prop) k m : Forall P m → Forall P (jdelete k m).
Proof.
  unfold jdelete. rewrite !Forall_forall. intros Hm x. rewrite list_elem_of_In, filter_In.
  intros [Hx _]. by apply Hm, list_elem_of_In.
Qed.

Lemma store_cookie_ok t https jar ck :
  jar_ok jar → cookie_name_ok (ck_name ck) → (∀ v, ck_value ck = Some v → cookie_value_ok v) →
  jar_ok (store_cookie t https jar ck).
Proof.
  intros [Hf Hn] Hk Hv. unfold store_cookie. destruct (_ && _); [done|].
  destruct (ck_value ck) as [v|].
  - split; [|by apply jset_NoDup]. apply jset_Forall; [done|]. split; [done|]. by apply Hv.
  - split; [by apply jdelete_Forall|by apply jdelete_NoDup].
Qed.

Lemma store_cookies_ok t https cks jar :
  jar_ok jar →
  Forall (λ ck, cookie_name_ok (ck_name ck) ∧ ∀ v, ck_value ck = Some v → cookie_value_ok v) cks →
  jar_ok (store_cookies t https cks jar).
Proof.
  intros Hj Hc. revert jar Hj. induction Hc as [|ck cks [Hn Hv] Hc IH]; intros jar Hj; [done|].
  apply IH. by apply store_cookie_ok.
Qed.

Lemma sendable_entries t https jar : jar_ok jar → Forall entry_ok (sendable t https jar).
Proof.
  intros [Hf _]. unfold sendable. rewrite Forall_forall in Hf |- *. intros x.
  rewrite list_elem_of_In, filter_In. intros [Hx _]. by apply Hf, list_elem_of_In.
Qed.

Lemma jget_filter {V} (p : V → bool) k (m : list (string * V)) :
  NoDup (jkeys m) →
  jget k (List.filter (λ kv, p kv.2) m) = (v ← jget k m; if p v then Some v else None).
Proof.
  induction m as [|[x w] m IH]; [done|]. intros [Hx Hm]%NoDup_cons. cbn [List.filter jget snd].
  specialize (IH Hm). destruct (p w) eqn:Ep; cbn [jget].
  - case_bool_decide; [simpl; by rewrite Ep|done].
  - case_bool_decide as E; [|done]. simpl. rewrite Ep, IH. subst x.
    destruct (jget k m) eqn:E; [|done]. apply jget_Some_key in E. by destruct Hx.
Qed.

(** Scripts see a cookie exactly when it is sent and not HttpOnly. *)
Lemma script_view_get t https jar k :
  NoDup (jkeys jar) →
  jget k (script_view t https jar) =
  (sc ← jget k jar; if live_cookie t https sc && negb (st_httpOnly sc) then Some sc else None).
Proof.
  intros Hn. unfold script_view, sendable. rewrite (jget_filter (λ sc, negb (st_httpOnly sc))).
  - rewrite jget_filter by done. destruct (jget k jar) as [sc|]; [|done]. simpl.
    destruct (live_cookie t https sc); [|done]. simpl. by destruct (st_httpOnly sc).
  - revert Hn. unfold jkeys. induction jar as [|[x w] m IH]; [done|]. simpl.
    intros [Hx Hm]%NoDup_cons. destruct (live_cookie t https w); [|by apply IH]. simpl.
    constructor; [|by apply IH]. intros Hin. apply Hx. apply list_elem_of_fmap in Hin as (kv & -> & Hin).
    apply list_elem_of_fmap. exists kv. split; [done|].
    rewrite list_elem_of_In, filter_In in Hin. by apply list_elem_of_In, Hin.
Qed.
End Cookies.
