(* ===== verification/Totp.v ===== *)
(** * Totp: base32, one-time codes and their verification

    services/auth/src/common/security/totp.util.ts.  JavaScript's bit
    operators work on 32-bit integers; they are written out here, so the
    accumulators of the base32 loops wrap exactly as in the source. *)

From Stdlib Require Import ZArith Lia Ascii String.
From stdpp Require Import base list gmap strings.
From S2P Require Import Prelude Text Crypto.

Module Totp.

(** ** JavaScript's 32-bit operators *)
Definition int32 (z : Z) : Z := (z + 2 ^ 31) mod 2 ^ 32 - 2 ^ 31.
Definition shl32 (a k : Z) : Z := int32 (Z.shiftl (int32 a) k).
Definition or32 (a b : Z) : Z := int32 (Z.lor (int32 a) (int32 b)).
Definition and32 (a b : Z) : Z := int32 (Z.land (int32 a) (int32 b)).
Definition ushr32 (a k : Z) : Z := Z.shiftr (a mod 2 ^ 32) k.

(** ** Base32 *)
Definition BASE32_ALPHABET : list ascii := chars "ABCDEFGHIJKLMNOPQRSTUVWXYZ234567".
Definition symbol (i : Z) : ascii := nth (Z.to_nat i) BASE32_ALPHABET "?"%char.

(** [while (bits >= 5) { output += ...; bits -= 5 }] *)
Fixpoint emit (fuel : nat) (value bits : Z) : list ascii * Z :=
  match fuel with
  | O => ([], bits)
  | S n =>
      if 5 <=? bits then
        let '(out, b) := emit n value (bits - 5) in
        (symbol (and32 (ushr32 value (bits - 5)) 31) :: out, b)
      else ([], bits)
  end.

(** [for (const byte of buffer)]; the fuel covers the at most 12 pending bits. *)
Fixpoint encode_loop (buffer : list Z) (value bits : Z) : list ascii :=
  match buffer with
  | [] => if 0 <? bits then [symbol (and32 (shl32 value (5 - bits)) 31)] else []
  | byte :: rest =>
      let value' := or32 (shl32 value 8) byte in
      let '(out, bits') := emit 3 value' (bits + 8) in
      out ++ encode_loop rest value' bits'
  end.

(** [while (output.length % 8 !== 0) output += "="] *)
Definition pad8 (l : list ascii) : list ascii :=
  l ++ replicate ((8 - length l mod 8) mod 8) "="%char.

Definition base32Encode (buffer : list Z) : string := str (pad8 (encode_loop buffer 0 0)).

Fixpoint index_of (c : ascii) (l : list ascii) : Z :=
  match l with
  | [] => -1
  | x :: l' =>
      if bool_decide (x = c) then 0
      else let i := index_of c l' in if i <? 0 then -1 else i + 1
  end.

(** [input.toUpperCase().replace(/=+$/g, "").replace(/\s+/g, "")] *)
Definition is_pad (c : ascii) : bool := bool_decide (c = "="%char).
Definition base32_normalize (l : list ascii) : list ascii :=
  List.filter (λ c, negb (is_ws c)) (rev (drop_while is_pad (rev (char_upper <$> l)))).

Fixpoint decode_loop (input : list ascii) (value bits : Z) : outcome (list Z) :=
  match input with
  | [] => Ret []
  | c :: rest =>
      let index := index_of c BASE32_ALPHABET in
      if index <? 0 then Throw (JsError "Invalid base32 character")
      else
        let value' := or32 (shl32 value 5) index in
        let bits' := bits + 5 in
        if 8 <=? bits' then
          match decode_loop rest value' (bits' - 8) with
          | Ret bytes => Ret (and32 (ushr32 value' (bits' - 8)) 255 :: bytes)
          | Throw e => Throw e
          end
        else decode_loop rest value' bits'
  end.

Definition base32Decode (input : string) : outcome (list Z) :=
  decode_loop (base32_normalize (chars input)) 0 0.

Definition generateTotpSecret (random20 : list Z) : string := base32Encode random20.

(** ** Decimal codes *)
Definition digit_char (d : Z) : ascii := ascii_of_nat (Z.to_nat (48 + d)).

(** [n.toString()] for a non-negative integer. *)
Fixpoint decimal (fuel : nat) (n : Z) (acc : list ascii) : list ascii :=
  match fuel with
  | O => acc
  | S f =>
      let acc' := digit_char (n mod 10) :: acc in
      if n <? 10 then acc' else decimal f (n / 10) acc'
  end.
Definition toString (n : Z) : list ascii := decimal (S (Z.to_nat (Z.log2 n))) n [].
Definition padStart6 (l : list ascii) : list ascii := replicate (6 - length l) "0"%char ++ l.

Definition generateMfaCode (randomInt : Z) : string := str (padStart6 (toString randomInt)).

Definition buildOtpAuthUrl `{UriCodec} (secret label issuer : string) : string :=
  "otpauth://totp/" +:+ encodeURIComponent label +:+ "?secret=" +:+ secret +:+
  "&issuer=" +:+ encodeURIComponent issuer +:+ "&algorithm=SHA1&digits=6&period=30".

(** [buffer.writeUInt32BE(v)], which throws outside the 32-bit range. *)
Definition be32 (v : Z) : list Z :=
  [Z.land (Z.shiftr v 24) 255; Z.land (Z.shiftr v 16) 255; Z.land (Z.shiftr v 8) 255;
   Z.land v 255].
Definition writeUInt32BE (v : Z) : outcome (list Z) :=
  if (0 <=? v) && (v <? 2 ^ 32) then Ret (be32 v)
  else Throw (JsError "ERR_OUT_OF_RANGE").

(** [hmac[i]]; an index out of range is [undefined], which the masks read as 0. *)
Definition byte_at (l : list Z) (i : Z) : Z := nth (Z.to_nat i) l 0.

Definition truncate (hmac : list Z) : Z :=
  let offset := Z.land (byte_at hmac (Z.of_nat (length hmac) - 1)) 15 in
  let binary :=
    or32 (or32 (or32 (shl32 (Z.land (byte_at hmac offset) 127) 24)
                     (shl32 (Z.land (byte_at hmac (offset + 1)) 255) 16))
               (shl32 (Z.land (byte_at hmac (offset + 2)) 255) 8))
         (Z.land (byte_at hmac (offset + 3)) 255) in
  Z.rem binary 1000000.

Section totp.
Context `{Hmac}.

Definition generateTotpCode (secret : string) (forUnixTime : Z) : outcome string :=
  match base32Decode secret with
  | Throw e => Throw e
  | Ret secretKey =>
      let timestep := forUnixTime / 1000 / 30 in
      match writeUInt32BE (timestep / 2 ^ 32), writeUInt32BE (timestep mod 2 ^ 32) with
      | Ret hi, Ret lo =>
          Ret (str (padStart6 (toString (truncate (hmac_sha1 secretKey (hi ++ lo))))))
      | Throw e, _ | _, Throw e => Throw e
      end
  end.

(** [/^\d{6}$/] *)
Definition six_digits (s : string) : bool :=
  (length (chars s) =? 6)%nat && forallb is_digit (chars s).

(** [for (let offset = -window; offset <= window; offset++)] *)
Fixpoint try_offsets (secret code : string) (now : Z) (offsets : list Z) : outcome bool :=
  match offsets with
  | [] => Ret false
  | o :: rest =>
      match generateTotpCode secret (now + o * 30000) with
      | Throw e => Throw e
      | Ret candidate =>
          if bool_decide (candidate = code) then Ret true
          else try_offsets secret code now rest
      end
  end.

Definition window_offsets (window : nat) : list Z :=
  (λ i, Z.of_nat i - Z.of_nat window) <$> seq 0 (2 * window + 1).

Definition verifyTotpCode (secret code : string) (window : nat) (now : Z) : outcome bool :=
  let normalizedCode := js_trim code in
  if negb (six_digits normalizedCode) then Ret false
  else try_offsets secret normalizedCode now (window_offsets window).
End totp.

(** ** Bits of a word, most significant first *)

Fixpoint bitsn (n : nat) (v : Z) : list bool :=
  match n with
  | O => []
  | S m => Z.testbit v (Z.of_nat m) :: bitsn m v
  end.

Lemma length_bitsn n v : length (bitsn n v) = n.
Proof. induction n as [|n IH]; simpl; [done|]. by rewrite IH. Qed.

Lemma bitsn_ext n v w :
  (∀ i, 0 <= i < Z.of_nat n → Z.testbit v i = Z.testbit w i) → bitsn n v = bitsn n w.
Proof.
  induction n as [|n IH]; intros Hb; simpl; [done|].
  rewrite IH by (intros; apply Hb; lia). f_equal. apply Hb. lia.
Qed.

Lemma bitsn_app n m v w u :
  (∀ i, 0 <= i < Z.of_nat n → Z.testbit w (i + Z.of_nat m) = Z.testbit v i) →
  (∀ i, 0 <= i < Z.of_nat m → Z.testbit w i = Z.testbit u i) →
  bitsn (n + m) w = bitsn n v ++ bitsn m u.
Proof.
  induction n as [|n IH]; intros Hh Hl; simpl; [by apply bitsn_ext|].
  rewrite IH; [|intros; apply Hh; lia|done]. f_equal.
  rewrite <-Hh by lia. f_equal. lia.
Qed.

Lemma bitsn_inj n v w : 0 <= v < 2 ^ Z.of_nat n → 0 <= w < 2 ^ Z.of_nat n →
  bitsn n v = bitsn n w → v = w.
Proof.
  intros Hv Hw E. apply Z.bits_inj'. intros i Hi.
  destruct (Z.lt_ge_cases i (Z.of_nat n)) as [Hlt|Hge].
  - clear Hv Hw. induction n as [|n IH]; [lia|]. simpl in E. injection E as E0 E1.
    destruct (decide (i = Z.of_nat n)) as [->|]; [done|]. apply IH; [done|lia].
  - assert (Hhi : ∀ x, 0 <= x < 2 ^ Z.of_nat n → Z.testbit x i = false).
    { intros x Hx. rewrite <-(Z.mod_small x (2 ^ Z.of_nat n)) by done.
      apply Z.mod_pow2_bits_high. lia. }
    by rewrite !Hhi.
Qed.

(** ** The 32-bit operators keep the low 32 bits *)

Lemma testbit_int32 z i : 0 <= i < 32 → Z.testbit (int32 z) i = Z.testbit z i.
Proof.
  intros Hi. unfold int32.
  rewrite <-(Z.mod_pow2_bits_low _ 32 i) by lia.
  rewrite <-(Z.mod_pow2_bits_low z 32 i) by lia. f_equal.
  rewrite Zminus_mod_idemp_l. f_equal. lia.
Qed.

Lemma testbit_shl32 a k i : 0 <= i < 32 → 0 <= k →
  Z.testbit (shl32 a k) i = if i <? k then false else Z.testbit a (i - k).
Proof.
  intros Hi Hk. unfold shl32. rewrite testbit_int32, Z.shiftl_spec by lia.
  destruct (Z.ltb_spec i k).
  - apply Z.testbit_neg_r. lia.
  - apply testbit_int32. lia.
Qed.

Lemma testbit_or32 a b i : 0 <= i < 32 →
  Z.testbit (or32 a b) i = Z.testbit a i || Z.testbit b i.
Proof. intros Hi. unfold or32. by rewrite testbit_int32, Z.lor_spec, !testbit_int32 by lia. Qed.

Lemma testbit_and32 a b i : 0 <= i < 32 →
  Z.testbit (and32 a b) i = Z.testbit a i && Z.testbit b i.
Proof. intros Hi. unfold and32. by rewrite testbit_int32, Z.land_spec, !testbit_int32 by lia. Qed.

Lemma testbit_ushr32 a k i : 0 <= i → 0 <= k → i + k < 32 →
  Z.testbit (ushr32 a k) i = Z.testbit a (i + k).
Proof.
  intros Hi Hk Hs. unfold ushr32. rewrite Z.shiftr_spec by lia.
  apply Z.mod_pow2_bits_low. lia.
Qed.

Lemma testbit_small v n i : 0 <= v < 2 ^ n → n <= i → Z.testbit v i = false.
Proof.
  intros Hv Hi. destruct (Z.lt_ge_cases n 0) as [Hn|Hn].
  - rewrite Z.pow_neg_r in Hv by done. lia.
  - rewrite <-(Z.mod_small v (2 ^ n)) by done. by apply Z.mod_pow2_bits_high.
Qed.

Lemma mask_testbit n i : 0 <= n → 0 <= i → Z.testbit (2 ^ n - 1) i = (i <? n).
Proof.
  intros Hn Hi. rewrite Z.sub_1_r, <-Z.ones_equiv.
  destruct (Z.ltb_spec i n); [by apply Z.ones_spec_low|by apply Z.ones_spec_high].
Qed.

Lemma and32_mask_range a n : 0 <= n < 31 → 0 <= and32 a (2 ^ n - 1) < 2 ^ n.
Proof.
  intros Hn. unfold and32.
  assert (Hp : 0 < 2 ^ n < 2 ^ 31).
  { split; [apply Z.pow_pos_nonneg; lia|apply Z.pow_lt_mono_r; lia]. }
  assert (Hi : ∀ z, 0 <= z < 2 ^ 31 → int32 z = z).
  { intros z Hz. unfold int32. rewrite Z.mod_small; lia. }
  rewrite (Hi (2 ^ n - 1)) by lia.
  rewrite Z.sub_1_r, <-Z.ones_equiv, Z.land_ones by lia.
  assert (Hm := Z.mod_pos_bound (int32 a) (2 ^ n) ltac:(lia)). rewrite Hi; lia.
Qed.

(** Appending [m] bits to the accumulator and splitting off its top. *)
Lemma bitsn_push n m v x : Z.of_nat n + Z.of_nat m <= 32 → 0 <= x < 2 ^ Z.of_nat m →
  bitsn (n + m) (or32 (shl32 v (Z.of_nat m)) x) = bitsn n v ++ bitsn m x.
Proof.
  intros Hs Hx. apply bitsn_app; intros i Hi.
  - rewrite testbit_or32, testbit_shl32 by lia.
    destruct (Z.ltb_spec (i + Z.of_nat m) (Z.of_nat m)); [lia|].
    rewrite (testbit_small x (Z.of_nat m)) by lia. rewrite orb_false_r. f_equal. lia.
  - rewrite testbit_or32, testbit_shl32 by lia.
    destruct (Z.ltb_spec i (Z.of_nat m)); [done|lia].
Qed.

Lemma bitsn_top n m v : Z.of_nat n + Z.of_nat m <= 32 → (n < 31)%nat →
  bitsn (n + m) v =
    bitsn n (and32 (ushr32 v (Z.of_nat m)) (2 ^ Z.of_nat n - 1)) ++ bitsn m v.
Proof.
  intros Hs Hn. apply bitsn_app; intros i Hi; [|done].
  rewrite testbit_and32, mask_testbit by lia.
  destruct (Z.ltb_spec i (Z.of_nat n)); [|lia].
  by rewrite testbit_ushr32, andb_true_r by lia.
Qed.

(** ** The alphabet *)

Definition in_alphabet (c : ascii) : Prop := c ∈ BASE32_ALPHABET.

Definition alphabet_ok : bool :=
  forallb (λ c, bool_decide (char_upper c = c) && negb (is_pad c) && negb (is_ws c)
                && (0 <=? index_of c BASE32_ALPHABET) && (index_of c BASE32_ALPHABET <? 32))
          BASE32_ALPHABET
  && forallb (λ i, index_of (symbol (Z.of_nat i)) BASE32_ALPHABET =? Z.of_nat i) (seq 0 32).

Lemma alphabet_checked : alphabet_ok = true.
Proof. vm_compute. reflexivity. Qed.

Lemma in_alphabet_facts c : in_alphabet c →
  char_upper c = c ∧ is_pad c = false ∧ is_ws c = false ∧
  0 <= index_of c BASE32_ALPHABET < 2 ^ 5.
Proof.
  intros Hc. pose proof alphabet_checked as Hok. unfold alphabet_ok in Hok.
  apply andb_true_iff in Hok as [Hok _].
  assert (Hx := proj1 (forallb_forall _ _) Hok c (proj1 (list_elem_of_In _ _) Hc)).
  repeat (apply andb_true_iff in Hx as [Hx ?]).
  apply bool_decide_eq_true in Hx. rewrite !negb_true_iff in *.
  split_and!; [done..|lia|]. change (2 ^ 5) with 32. lia.
Qed.

Lemma symbol_facts i : 0 <= i < 2 ^ 5 →
  in_alphabet (symbol i) ∧ index_of (symbol i) BASE32_ALPHABET = i.
Proof.
  intros Hi. change (2 ^ 5) with 32 in Hi. split.
  - unfold in_alphabet, symbol. apply list_elem_of_In, nth_In.
    change (length BASE32_ALPHABET) with 32%nat. lia.
  - pose proof alphabet_checked as Hok. unfold alphabet_ok in Hok.
    apply andb_true_iff in Hok as [_ Hok].
    assert (Hin : In (Z.to_nat i) (seq 0 32)) by (apply in_seq; lia).
    assert (Hx := proj1 (forallb_forall _ _) Hok _ Hin). cbv beta in Hx.
    rewrite Z2Nat.id in Hx by lia. lia.
Qed.

#[local] Arguments index_of : simpl never.
#[local] Arguments symbol : simpl never.
#[local] Arguments bitsn : simpl never.

(** The bits a run of symbols stands for. *)
Definition sym_bits (l : list ascii) : list bool :=
  concat ((λ c, bitsn 5 (index_of c BASE32_ALPHABET)) <$> l).
Definition byte_bits (l : list Z) : list bool := concat (bitsn 8 <$> l).

Lemma sym_bits_cons i l : 0 <= i < 2 ^ 5 → sym_bits (symbol i :: l) = bitsn 5 i ++ sym_bits l.
Proof. intros Hi. unfold sym_bits. simpl. by rewrite (proj2 (symbol_facts i Hi)). Qed.

Lemma sym_bits_app l1 l2 : sym_bits (l1 ++ l2) = sym_bits l1 ++ sym_bits l2.
Proof. unfold sym_bits. by rewrite fmap_app, concat_app. Qed.

(** ** The encoder writes the bits of its input, then zeros *)

Lemma emit_bits fuel n v out b :
  emit fuel v (Z.of_nat n) = (out, b) → (n < 5 * fuel + 5)%nat → (n <= 32)%nat →
  ∃ m, b = Z.of_nat m ∧ (m < 5)%nat ∧ Forall in_alphabet out ∧
       sym_bits out ++ bitsn m v = bitsn n v.
Proof.
  revert n out b. induction fuel as [|f IH]; intros n out b He Hf Hn; simpl in He.
  { simplify_eq. exists n. split_and!; [done|lia|constructor|done]. }
  destruct (Z.leb_spec 5 (Z.of_nat n)) as [H5|H5].
  - replace (Z.of_nat n - 5) with (Z.of_nat (n - 5)) in He by lia.
    destruct (emit f v (Z.of_nat (n - 5))) as [out' b'] eqn:E. simplify_eq.
    apply IH in E as (m & -> & Hm & Hal & Hb); [|lia|lia].
    pose proof (and32_mask_range (ushr32 v (Z.of_nat (n - 5))) 5 ltac:(lia)) as Hr.
    change (2 ^ 5 - 1) with 31 in Hr.
    exists m. split_and!; [done|done|constructor; [by apply symbol_facts|done]|].
    rewrite sym_bits_cons by done. rewrite <-app_assoc, Hb.
    replace n with (5 + (n - 5))%nat at 3 by lia.
    rewrite (bitsn_top 5 (n - 5)) by lia. done.
  - simplify_eq. exists n. split_and!; [done|lia|constructor|done].
Qed.

Lemma last_symbol_bits n v : (0 < n < 5)%nat →
  bitsn 5 (and32 (shl32 v (5 - Z.of_nat n)) 31) = bitsn n v ++ replicate (5 - n) false.
Proof.
  intros Hn.
  assert (Hz : replicate (5 - n) false = bitsn (5 - n) 0).
  { destruct n as [|[|[|[|[|n]]]]]; [lia|done..|lia]. }
  rewrite Hz. replace 5%nat with (n + (5 - n))%nat at 1 by lia.
  assert (Hm : ∀ i, 0 <= i < 5 → Z.testbit 31 i = true).
  { intros i Hi. change 31 with (2 ^ 5 - 1). rewrite mask_testbit by lia. lia. }
  apply bitsn_app; intros i Hi.
  - rewrite testbit_and32, testbit_shl32, Hm, andb_true_r by lia.
    destruct (Z.ltb_spec (i + Z.of_nat (5 - n)) (5 - Z.of_nat n)); [lia|]. f_equal. lia.
  - rewrite testbit_and32, testbit_shl32 by lia.
    destruct (Z.ltb_spec i (5 - Z.of_nat n)); [|lia]. by rewrite Z.testbit_0_l.
Qed.

Lemma encode_loop_bits bs n v : Forall is_byte bs → (n < 5)%nat →
  Forall in_alphabet (encode_loop bs v (Z.of_nat n)) ∧
  ∃ z, (z < 5)%nat ∧ sym_bits (encode_loop bs v (Z.of_nat n)) =
    bitsn n v ++ byte_bits bs ++ replicate z false.
Proof.
  intros Hbs. revert n v. induction Hbs as [|x bs Hx Hbs IH]; intros n v Hn.
  - simpl. destruct (Z.ltb_spec 0 (Z.of_nat n)) as [Hpos|Hz].
    + pose proof (and32_mask_range (shl32 v (5 - Z.of_nat n)) 5 ltac:(lia)) as Hr.
      change (2 ^ 5 - 1) with 31 in Hr.
      split; [constructor; [by apply symbol_facts|constructor]|].
      exists (5 - n)%nat. split; [lia|]. rewrite sym_bits_cons by done.
      rewrite last_symbol_bits by lia. by rewrite app_nil_r.
    + assert (n = 0)%nat as -> by lia. split; [constructor|]. exists 0%nat. split; [lia|done].
  - cbn [encode_loop]. replace (Z.of_nat n + 8) with (Z.of_nat (n + 8)) by lia.
    destruct (emit 3 (or32 (shl32 v 8) x) (Z.of_nat (n + 8))) as [out b] eqn:E.
    apply emit_bits in E as (m & -> & Hm & Hal & Hb); [|lia|lia].
    destruct (IH m (or32 (shl32 v 8) x) Hm) as (Hal' & z & Hz & Hs).
    split; [by apply Forall_app|]. exists z. split; [done|].
    rewrite sym_bits_app, Hs, app_assoc, Hb.
    change 8 with (Z.of_nat 8) at 1. rewrite bitsn_push by (unfold is_byte in Hx; simpl; lia).
    unfold byte_bits. simpl. by rewrite <-!app_assoc.
Qed.

(** ** The decoder reads whole bytes and drops what is left *)

Lemma decode_loop_bits l n v : Forall in_alphabet l → (n < 8)%nat →
  ∃ bytes pend, decode_loop l v (Z.of_nat n) = Ret bytes ∧ Forall is_byte bytes ∧
    (length pend < 8)%nat ∧ bitsn n v ++ sym_bits l = byte_bits bytes ++ pend.
Proof.
  intros Hl. revert n v. induction Hl as [|c l Hc Hl IH]; intros n v Hn.
  - exists [], (bitsn n v). rewrite length_bitsn, app_nil_r. done.
  - destruct (in_alphabet_facts c Hc) as (_ & _ & _ & Hr).
    cbn [decode_loop]. set (x := index_of c BASE32_ALPHABET) in *.
    destruct (Z.ltb_spec x 0); [lia|].
    replace (Z.of_nat n + 5) with (Z.of_nat (n + 5)) by lia.
    set (v' := or32 (shl32 v 5) x).
    assert (Hpush : bitsn n v ++ sym_bits (c :: l) = bitsn (n + 5) v' ++ sym_bits l).
    { change (sym_bits (c :: l)) with (bitsn 5 x ++ sym_bits l).
      rewrite app_assoc. f_equal. symmetry. apply (bitsn_push n 5 v x); simpl; lia. }
    rewrite Hpush. destruct (Z.leb_spec 8 (Z.of_nat (n + 5))) as [H8|H8].
    + replace (Z.of_nat (n + 5) - 8) with (Z.of_nat (n + 5 - 8)) by lia.
      destruct (IH (n + 5 - 8)%nat v' ltac:(lia)) as (bytes & pend & -> & Hby & Hp & Hb).
      pose proof (and32_mask_range (ushr32 v' (Z.of_nat (n + 5 - 8))) 8 ltac:(lia)) as Hr8.
      change (2 ^ 8 - 1) with 255 in Hr8.
      exists (and32 (ushr32 v' (Z.of_nat (n + 5 - 8))) 255 :: bytes), pend.
      split_and!; [done|by constructor|done|].
      replace (n + 5)%nat with (8 + (n + 5 - 8))%nat at 1 by lia.
      rewrite (bitsn_top 8) by lia. rewrite <-app_assoc, Hb.
      unfold byte_bits. simpl. done.
    + apply IH. lia.
Qed.

Lemma byte_bits_prefix_inj bs bs' zs pend :
  Forall is_byte bs → Forall is_byte bs' → (length zs < 8)%nat → (length pend < 8)%nat →
  byte_bits bs ++ zs = byte_bits bs' ++ pend → bs = bs'.
Proof.
  intros Hbs. revert bs'. induction Hbs as [|x bs Hx Hbs IH]; intros bs' Hbs' Hz Hp E.
  - destruct bs' as [|y bs']; [done|]. apply (f_equal length) in E.
    unfold byte_bits in E. simpl in E. rewrite !length_app in E. simpl in E. lia.
  - destruct Hbs' as [|y bs' Hy Hbs'].
    + apply (f_equal length) in E. unfold byte_bits in E. simpl in E.
      rewrite !length_app in E. simpl in E. lia.
    + unfold byte_bits in E. cbn [fmap list_fmap concat] in E. rewrite <-!app_assoc in E.
      apply app_inj_1 in E as [E1 E2]; [|by rewrite !length_bitsn].
      f_equal; [by apply (bitsn_inj 8)|]. by apply IH.
Qed.

(** Decoding undoes the padding and the case folding of the alphabet. *)
Lemma normalize_pad8 l : Forall in_alphabet l → base32_normalize (pad8 l) = l.
Proof.
  intros Hl. unfold base32_normalize, pad8.
  set (k := ((8 - length l mod 8) mod 8)%nat).
  assert (Hup : char_upper <$> l = l).
  { clear k. induction Hl as [|c l Hc Hl IH]; [done|]. rewrite fmap_cons, IH.
    by rewrite (proj1 (in_alphabet_facts c Hc)). }
  rewrite fmap_app, Hup, rev_app_distr.
  assert (Hdrop : ∀ k r, drop_while is_pad (rev (char_upper <$> replicate k "="%char) ++ r) =
                         drop_while is_pad r).
  { clear. intros k r. rewrite fmap_replicate. change (char_upper "=") with "="%char.
    assert (Hr : rev (replicate k "="%char) = replicate k "="%char).
    { rewrite rev_alt. apply reverse_replicate. }
    rewrite Hr. clear Hr. induction k as [|k IH]; [done|]. exact IH. }
  rewrite Hdrop.
  assert (Hrev : drop_while is_pad (rev l) = rev l).
  { destruct (rev l) as [|c r] eqn:E; [done|]. apply drop_while_none.
    apply in_alphabet_facts. rewrite Forall_forall in Hl. apply Hl.
    rewrite list_elem_of_In, in_rev, E. by left. }
  rewrite Hrev, rev_involutive. clear -Hl.
  induction Hl as [|c l Hc Hl IH]; [done|]. simpl.
  rewrite (proj1 (proj2 (proj2 (in_alphabet_facts c Hc)))). simpl. by rewrite IH.
Qed.

(** Base32 round trip.  Decoding the text [base32Encode] writes for a byte
    buffer of any length gives that buffer back, although both loops keep their
    accumulator in a 32-bit integer that wraps: no secret is corrupted. *)
Theorem base32_roundtrip bs : Forall is_byte bs → base32Decode (base32Encode bs) = Ret bs.
Proof.
  intros Hbs. unfold base32Decode, base32Encode. rewrite chars_str.
  destruct (encode_loop_bits bs 0 0 Hbs ltac:(lia)) as (Hal & z & Hz & Hs).
  rewrite normalize_pad8 by done. change (Z.of_nat 0) with 0 in *.
  destruct (decode_loop_bits _ 0 0 Hal ltac:(lia)) as (bytes & pend & Hd & Hby & Hp & Hb).
  change (Z.of_nat 0) with 0 in Hd. rewrite Hd. f_equal. simpl in *. rewrite Hs in Hb.
  symmetry. eapply byte_bits_prefix_inj; [done|done| |exact Hp|exact Hb].
  rewrite length_replicate. lia.
Qed.

(** ** Codes *)

Lemma int32_small z : 0 <= z < 2 ^ 31 → int32 z = z.
Proof. intros Hz. unfold int32. rewrite Z.mod_small; lia. Qed.

Lemma or32_range a b : 0 <= a < 2 ^ 31 → 0 <= b < 2 ^ 31 → 0 <= or32 a b < 2 ^ 31.
Proof.
  intros Ha Hb. unfold or32. rewrite !(int32_small a), !(int32_small b) by done.
  assert (Hr : 0 <= Z.lor a b < 2 ^ 31).
  { assert (Hnn : 0 <= Z.lor a b) by (apply Z.lor_nonneg; lia). split; [done|].
    destruct (Z.eq_dec (Z.lor a b) 0) as [->|]; [done|].
    apply Z.log2_lt_pow2; [lia|]. rewrite Z.log2_lor by lia.
    destruct (Z.eq_dec a 0), (Z.eq_dec b 0); subst; [by rewrite !Z.log2_nonpos by done| | |];
      apply Z.max_lub_lt;
      first [apply Z.log2_lt_pow2; lia | rewrite Z.log2_nonpos by lia; lia]. }
  by rewrite int32_small.
Qed.

Lemma land_mask_range v n : 0 <= n → 0 <= Z.land v (2 ^ n - 1) < 2 ^ n.
Proof.
  intros Hn. rewrite Z.sub_1_r, <-Z.ones_equiv, Z.land_ones by done.
  apply Z.mod_pos_bound. by apply Z.pow_pos_nonneg.
Qed.

Lemma shl32_range v n k : 0 <= v < 2 ^ n → 0 <= n → 0 <= k → n + k <= 31 →
  0 <= shl32 v k < 2 ^ 31.
Proof.
  intros Hv Hn Hk Hs.
  assert (Hp : 2 ^ n * 2 ^ k <= 2 ^ 31).
  { rewrite <-Z.pow_add_r by done. apply Z.pow_le_mono_r; lia. }
  assert (1 <= 2 ^ k) by (assert (0 < 2 ^ k) by (apply Z.pow_pos_nonneg; lia); lia).
  unfold shl32. rewrite (int32_small v) by nia.
  rewrite Z.shiftl_mul_pow2 by done. rewrite int32_small; nia.
Qed.

Lemma truncate_range hmac : 0 <= truncate hmac < 1000000.
Proof.
  unfold truncate. set (o := Z.land (byte_at hmac (Z.of_nat (length hmac) - 1)) 15).
  pose proof (land_mask_range (byte_at hmac o) 7 ltac:(lia)) as H0.
  pose proof (land_mask_range (byte_at hmac (o + 1)) 8 ltac:(lia)) as H1.
  pose proof (land_mask_range (byte_at hmac (o + 2)) 8 ltac:(lia)) as H2.
  pose proof (land_mask_range (byte_at hmac (o + 3)) 8 ltac:(lia)) as H3.
  change (2 ^ 7 - 1) with 127 in *. change (2 ^ 8 - 1) with 255 in *.
  match goal with |- context [Z.rem ?b _] => assert (Hb : 0 <= b < 2 ^ 31) end.
  { apply or32_range; [|lia]. apply or32_range; [apply or32_range|].
    - apply (shl32_range _ 7); lia.
    - apply (shl32_range _ 8); lia.
    - apply (shl32_range _ 8); lia. }
  rewrite Z.rem_mod_nonneg by lia. apply Z.mod_pos_bound. lia.
Qed.

Lemma digit_char_is_digit d : 0 <= d < 10 → is_digit (digit_char d) = true.
Proof.
  intros Hd. assert (Hin : In (Z.to_nat d) (seq 0 10)) by (apply in_seq; lia).
  replace d with (Z.of_nat (Z.to_nat d)) by lia. revert Hin.
  generalize (Z.to_nat d). intros n Hin. simpl in Hin.
  repeat (destruct Hin as [<-|Hin]; [reflexivity|]). done.
Qed.

Lemma decimal_digits f n acc : 0 <= n → Forall (λ c, is_digit c = true) acc →
  Forall (λ c, is_digit c = true) (decimal f n acc).
Proof.
  revert n acc. induction f as [|f IH]; intros n acc Hn Ha; [done|]. simpl.
  assert (Hd : Forall (λ c, is_digit c = true) (digit_char (n mod 10) :: acc)).
  { constructor; [|done]. apply digit_char_is_digit, Z.mod_pos_bound. lia. }
  destruct (n <? 10); [done|]. apply IH; [apply Z.div_pos; lia|done].
Qed.

Lemma decimal_length f n k acc : 0 <= n < 10 ^ Z.of_nat (S k) →
  (length (decimal f n acc) <= S k + length acc)%nat.
Proof.
  revert n k acc. induction f as [|f IH]; intros n k acc Hn; simpl; [lia|].
  destruct (Z.ltb_spec n 10) as [Hlt|Hge]; [simpl; lia|].
  destruct k as [|k]; [simpl in Hn; lia|].
  assert (0 <= n / 10 < 10 ^ Z.of_nat (S k)).
  { split; [apply Z.div_pos; lia|]. apply Z.div_lt_upper_bound; [lia|].
    rewrite <-Z.pow_succ_r, <-Nat2Z.inj_succ by lia. apply Hn. }
  specialize (IH (n / 10) k (digit_char (n mod 10) :: acc) ltac:(done)). simpl in IH. lia.
Qed.

Lemma padded_six_digits n : 0 <= n < 1000000 → six_digits (str (padStart6 (toString n))) = true.
Proof.
  intros Hn. unfold six_digits. rewrite chars_str.
  assert (Hl : (length (toString n) <= 6)%nat).
  { apply (decimal_length _ n 5 []). change (10 ^ Z.of_nat 6) with 1000000. lia. }
  apply andb_true_iff. split.
  - apply Nat.eqb_eq. unfold padStart6. rewrite length_app, length_replicate. lia.
  - apply forallb_forall. intros c Hc. apply list_elem_of_In in Hc. revert c Hc.
    apply Forall_forall. unfold padStart6. apply Forall_app. split.
    + by apply Forall_replicate.
    + apply decimal_digits; [lia|constructor].
Qed.

(** Six digits have no white space to trim. *)
Lemma six_digits_trim s : six_digits s = true → js_trim s = s.
Proof.
  unfold six_digits. rewrite andb_true_iff. intros [_ Hd]. unfold js_trim.
  rewrite trim_chars_id; [apply str_chars|].
  apply Forall_forall. intros c Hc. rewrite forallb_forall in Hd.
  specialize (Hd c (proj1 (list_elem_of_In _ _) Hc)). unfold is_digit in Hd.
  unfold is_ws. lia.
Qed.

Section verify.
Context `{Hmac}.

(** The code of a key at a 30-second step. *)
Definition code_at (key : list Z) (step : Z) : string :=
  str (padStart6 (toString (truncate (hmac_sha1 key
    (be32 (step / 2 ^ 32) ++ be32 (step mod 2 ^ 32)))))).

(** The instants whose step counter fits the 8-byte buffer. *)
Definition in_clock (t : Z) : Prop := 0 <= t < 2 ^ 64 * 30000.
#[local] Opaque truncate toString be32 Z.div.

Lemma writeUInt32BE_ok v : 0 <= v < 2 ^ 32 → writeUInt32BE v = Ret (be32 v).
Proof.
  intros Hv. unfold writeUInt32BE.
  destruct (Z.leb_spec 0 v), (Z.ltb_spec v (2 ^ 32)); done || lia.
Qed.

Lemma generate_code_at secret key t :
  base32Decode secret = Ret key → in_clock t →
  generateTotpCode secret t = Ret (code_at key (t / 30000)).
Proof.
  intros Hk Ht. unfold generateTotpCode, in_clock in *. rewrite Hk.
  replace (t / 1000 / 30) with (t / 30000) by (rewrite Z.div_div by lia; done).
  assert (Hs : 0 <= t / 30000 < 2 ^ 64).
  { split; [apply Z.div_pos; lia|]. apply Z.div_lt_upper_bound; lia. }
  assert (Hhi : 0 <= t / 30000 / 2 ^ 32 < 2 ^ 32).
  { split; [apply Z.div_pos; lia|]. apply Z.div_lt_upper_bound; [lia|].
    change (2 ^ 32 * 2 ^ 32) with (2 ^ 64). lia. }
  pose proof (Z.mod_pos_bound (t / 30000) (2 ^ 32) ltac:(lia)) as Hlo.
  rewrite (writeUInt32BE_ok _ Hhi), (writeUInt32BE_ok _ Hlo).
  unfold code_at. exact (eq_refl (Ret _)).
Qed.

Lemma try_offsets_spec secret key code now offsets :
  base32Decode secret = Ret key →
  (∀ o, o ∈ offsets → in_clock (now + o * 30000)) →
  try_offsets secret code now offsets =
    Ret (bool_decide (Exists (λ o, code_at key ((now + o * 30000) / 30000) = code) offsets)).
Proof.
  intros Hk. induction offsets as [|o os IH]; intros Ho; simpl.
  { done. }
  rewrite (generate_code_at _ key _ Hk (Ho o ltac:(constructor))).
  destruct (decide (code_at key ((now + o * 30000) / 30000) = code)) as [E|E].
  - rewrite (bool_decide_true (code_at _ _ = code)) by done. f_equal. symmetry.
    apply bool_decide_eq_true. by constructor.
  - rewrite bool_decide_false by done. rewrite IH by (intros; apply Ho; by constructor). f_equal.
    apply bool_decide_ext. rewrite Exists_cons. naive_solver.
Qed.

Lemma elem_of_window w o : o ∈ window_offsets w ↔ - Z.of_nat w <= o <= Z.of_nat w.
Proof.
  unfold window_offsets. rewrite list_elem_of_fmap. split.
  - intros (i & -> & Hi). apply elem_of_seq in Hi. lia.
  - intros Ho. exists (Z.to_nat (o + Z.of_nat w)). split; [lia|]. apply elem_of_seq. lia.
Qed.

(** C24: what [verifyTotpCode] accepts.  For a decodable secret and a clock in
    range it never throws, and it answers true exactly when the trimmed input
    is the code of one of the 2w+1 thirty-second steps around the present one:
    every code shown within the window is accepted and nothing else is. *)
Theorem verify_totp_iff secret key code w now :
  base32Decode secret = Ret key →
  Z.of_nat w * 30000 <= now → now + Z.of_nat w * 30000 < 2 ^ 64 * 30000 →
  ∃ b, verifyTotpCode secret code w now = Ret b ∧
    (b = true ↔ ∃ step, now / 30000 - Z.of_nat w <= step <= now / 30000 + Z.of_nat w ∧
                        js_trim code = code_at key step).
Proof.
  intros Hk Hlo Hhi. unfold verifyTotpCode.
  assert (Hstep : ∀ o, (now + o * 30000) / 30000 = now / 30000 + o)
    by (intros; apply Z.div_add; lia).
  destruct (six_digits (js_trim code)) eqn:E6; cbn [negb].
  - rewrite (try_offsets_spec _ key _ _ _ Hk) by
      (intros o Ho%elem_of_window; unfold in_clock; nia).
    eexists. split; [done|]. rewrite bool_decide_eq_true, Exists_exists. split.
    + intros (o & Ho%elem_of_window & Hc). rewrite Hstep in Hc. exists (now / 30000 + o).
      split; [lia|done].
    + intros (step & Hs & Hc). exists (step - now / 30000). rewrite elem_of_window, Hstep.
      split; [lia|]. rewrite Hc. f_equal. lia.
  - exists false. split; [done|]. split; [done|]. intros (step & _ & Hc).
    rewrite Hc in E6. unfold code_at in E6. by rewrite padded_six_digits in E6 by apply truncate_range.
Qed.
End verify.

(** ** Witnesses *)

Definition sample_secret_bytes : list Z := [222; 173; 190; 239; 0; 255; 1; 128; 7; 42].

Lemma sample_bytes_ok : Forall is_byte sample_secret_bytes.
Proof. repeat constructor; lia. Qed.

Lemma base32_roundtrip_witness :
  base32Encode sample_secret_bytes = "32W353YA74AYABZK"%string ∧
  base32Decode (base32Encode sample_secret_bytes) = Ret sample_secret_bytes.
Proof. split; [vm_compute; reflexivity|]. apply base32_roundtrip, sample_bytes_ok. Defined.

Lemma verify_totp_witness :
  ∃ b, @verifyTotpCode sample_hmac "32W353YA74AYABZK" " 123456 " 1 1700000000000 = Ret b ∧
    (b = true ↔ ∃ step,
      1700000000000 / 30000 - Z.of_nat 1 <= step <= 1700000000000 / 30000 + Z.of_nat 1 ∧
      js_trim " 123456 " = @code_at sample_hmac sample_secret_bytes step).
Proof.
  apply (@verify_totp_iff sample_hmac); [vm_compute; reflexivity|lia|lia].
Defined.

End Totp.
