(* ===== verification/AuthModel.v ===== *)
(** * AuthModel: the data, configuration and helpers of the auth service

    services/auth/src/auth/auth.service.ts: the rows of the Prisma schema the
    service writes, the payloads it keeps in Redis, its configuration with the
    defaults and floors of the constructor, the Redis keys, the duration
    parser and the best-effort calls (audit rows, projection sync, login
    context) that every flow shares. *)

From Stdlib Require Import ZArith Lia Ascii String.
From stdpp Require Import base list gmap strings.
From S2P Require Import Prelude Text Store Crypto RequestSecurity Totp.

Module AuthModel.

Inductive Role := USER | ADMIN.
#[export] Instance Role_eq_dec : EqDecision Role.
Proof. solve_decision. Defined.
Definition role_string (r : Role) : string :=
  match r with USER => "USER" | ADMIN => "ADMIN" end.

(** ** Rows; the primary key is the key of the table *)

Record User := {
  u_email : string; u_googleId : option string; u_password : string;
  u_firstName : string; u_lastName : string; u_role : Role; u_isActive : bool;
  u_mfaEnabled : bool; u_mfaSecret : option string; u_mfaEnabledAt : option Z;
  u_mfaRecoveryCodeHashes : list string; u_mfaRecoveryCodesGeneratedAt : option Z;
}.

Record RefreshToken := {
  rt_token : string; rt_userId : string; rt_expiresAt : Z; rt_createdAt : Z;
}.

(** [metadata] of an audit row. *)
Inductive MfaMeta :=
| SetupIssued (setupExpiresInSeconds : Z) (wasPreviouslyEnabled : bool)
| RecoveryCodesCount (n : Z).

Record MfaAuditLog := {
  ma_userId : string; ma_action : string; ma_ip : option string;
  ma_userAgent : option string; ma_metadata : option MfaMeta; ma_createdAt : Z;
}.

Record Quota := { q_maxVms : Z; q_maxCpu : Z; q_maxRamMb : Z; q_maxDiskGb : Z }.

(** ** Redis payloads *)

Inductive MfaMode := temporary | totp.

Record MfaChallengePayload := {
  ch_userId : string; ch_email : string; ch_fingerprint : string;
  ch_rememberMe : bool; ch_mode : MfaMode; ch_code : option string;
}.

Record MfaPendingSetupPayload := {
  su_userId : string; su_email : string; su_secret : string; su_fingerprint : string;
}.

(** [lastSeenAt] as the instant it denotes, [None] when it does not parse. *)
Record LoginContextPayload := {
  lc_fingerprint : string; lc_ip : string; lc_userAgent : string; lc_lastSeenAt : option Z;
}.

Inductive AuthPayload :=
| Challenge (c : MfaChallengePayload)
| PendingSetup (p : MfaPendingSetupPayload)
| LoginContext (l : LoginContextPayload).

(** The body POSTed to the user service. *)
Record SyncPayload := {
  sy_id : string; sy_email : string; sy_googleId : option string; sy_firstName : string;
  sy_lastName : string; sy_role : Role; sy_isActive : bool; sy_mfaEnabled : bool;
  sy_mfaEnabledAt : option Z;
}.

(** ** Configuration *)

(** The environment's numbers, after [Number(...)]; [None] is an unset variable. *)
Record AuthEnvironment := {
  AUTH_LOCK_WINDOW_MINUTES : option Z; AUTH_LOCK_PROGRESSIVE_MULTIPLIER : option Z;
  AUTH_LOCK_MAX_MINUTES : option Z; AUTH_LOCK_MAX_ATTEMPTS : option Z;
  AUTH_CAPTCHA_ENABLED : option string; AUTH_CAPTCHA_FAIL_THRESHOLD : option Z;
  AUTH_CAPTCHA_SHARED_SECRET : option string; ADMIN_MFA_ENABLED : option string;
  ADMIN_MFA_TTL_SECONDS : option Z; ADMIN_MFA_ISSUER : option string;
  ADMIN_MFA_SETUP_TTL_SECONDS : option Z; ADMIN_MFA_TEMP_BOOTSTRAP_ENABLED : option string;
  ADMIN_MFA_MAX_ATTEMPTS : option Z; ADMIN_MFA_RECOVERY_CODES_COUNT : option Z;
  AUTH_ANOMALY_RISK_THRESHOLD : option Z; AUTH_ANOMALY_MODE : option string;
  AUTH_LOGIN_CONTEXT_TTL_SECONDS : option Z;
  JWT_SECRET : option string; JWT_REFRESH_SECRET : option string;
  JWT_EXPIRES_IN : option string; JWT_REFRESH_EXPIRES_IN : option string;
  INTER_SERVICE_SYNC_TOKEN : option string;
}.

Inductive AnomalyMode := block | log.

Record Config := {
  lockWindowSeconds : Z; lockProgressiveMultiplier : Z; lockMaxSeconds : Z;
  maxFailedAttempts : Z; captchaEnabled : bool; captchaFailThreshold : Z;
  captchaSharedSecret : string; adminMfaEnabled : bool; mfaTtlSeconds : Z;
  mfaIssuer : string; mfaSetupTtlSeconds : Z; mfaTempBootstrapEnabled : bool;
  mfaMaxAttempts : Z; mfaRecoveryCodesCount : Z; anomalyRiskThreshold : Z;
  anomalyMode : AnomalyMode; loginContextTtlSeconds : Z;
  jwtSecret : string; jwtRefreshSecret : string; jwtExpiresIn : string;
  jwtRefreshExpiresIn : string; syncToken : string;
}.

Definition loadConfig (e : AuthEnvironment) : Config := {|
  lockWindowSeconds := Z.max 1 (default 15 (AUTH_LOCK_WINDOW_MINUTES e)) * 60;
  lockProgressiveMultiplier := Z.max 1 (default 1 (AUTH_LOCK_PROGRESSIVE_MULTIPLIER e));
  lockMaxSeconds := Z.max 1 (default 60 (AUTH_LOCK_MAX_MINUTES e)) * 60;
  maxFailedAttempts := Z.max 1 (default 5 (AUTH_LOCK_MAX_ATTEMPTS e));
  captchaEnabled :=
    bool_decide (toLowerCase (opt_or (AUTH_CAPTCHA_ENABLED e) "false") = "true"%string);
  captchaFailThreshold := Z.max 1 (default 3 (AUTH_CAPTCHA_FAIL_THRESHOLD e));
  captchaSharedSecret := js_trim (opt_or (AUTH_CAPTCHA_SHARED_SECRET e) "");
  adminMfaEnabled :=
    negb (bool_decide (toLowerCase (opt_or (ADMIN_MFA_ENABLED e) "true") = "false"%string));
  mfaTtlSeconds := Z.max 60 (default 300 (ADMIN_MFA_TTL_SECONDS e));
  mfaIssuer := opt_or (ADMIN_MFA_ISSUER e) "CloudVM";
  mfaSetupTtlSeconds := Z.max 60 (default 600 (ADMIN_MFA_SETUP_TTL_SECONDS e));
  mfaTempBootstrapEnabled :=
    negb (bool_decide
      (toLowerCase (opt_or (ADMIN_MFA_TEMP_BOOTSTRAP_ENABLED e) "true") = "false"%string));
  mfaMaxAttempts := Z.max 1 (default 5 (ADMIN_MFA_MAX_ATTEMPTS e));
  mfaRecoveryCodesCount := Z.max 5 (default 10 (ADMIN_MFA_RECOVERY_CODES_COUNT e));
  anomalyRiskThreshold := Z.max 1 (default 70 (AUTH_ANOMALY_RISK_THRESHOLD e));
  anomalyMode :=
    if bool_decide (toLowerCase (js_trim (opt_or (AUTH_ANOMALY_MODE e) "log")) = "block"%string)
    then block else log;
  loginContextTtlSeconds :=
    Z.max 3600 (default (90 * 24 * 60 * 60) (AUTH_LOGIN_CONTEXT_TTL_SECONDS e));
  jwtSecret := opt_or (JWT_SECRET e) "";
  jwtRefreshSecret := opt_or (JWT_REFRESH_SECRET e) "";
  jwtExpiresIn := opt_or (JWT_EXPIRES_IN e) "15m";
  jwtRefreshExpiresIn := opt_or (JWT_REFRESH_EXPIRES_IN e) "7d";
  syncToken := js_trim (opt_or (INTER_SERVICE_SYNC_TOKEN e) "");
|}.

(** What the constructor's [Math.max] calls guarantee. *)
Record config_ok (c : Config) : Prop := {
  window_pos : 60 <= lockWindowSeconds c;
  multiplier_pos : 1 <= lockProgressiveMultiplier c;
  lock_max_pos : 60 <= lockMaxSeconds c;
  attempts_pos : 1 <= maxFailedAttempts c;
  mfa_ttl_pos : 60 <= mfaTtlSeconds c;
  mfa_setup_ttl_pos : 60 <= mfaSetupTtlSeconds c;
  mfa_attempts_pos : 1 <= mfaMaxAttempts c;
  recovery_count : 5 <= mfaRecoveryCodesCount c;
  context_ttl_pos : 3600 <= loginContextTtlSeconds c;
}.

Lemma loadConfig_ok e : config_ok (loadConfig e).
Proof. split; simpl; lia. Qed.

(** ** One request: its clock, its randomness and the answers of its calls *)

Inductive SyncAnswer := SyncStatus (status : Z) | SyncNetworkError.

Record Call := {
  now : Z;
  req : RequestSecurity.Request;
  redisUp : bool;
  syncAnswer : SyncAnswer;
  newUserId : string; newChallengeId : string; newJti : string;
  newTokenRowId : string; newAuditId : string;
  randomCode : Z;
  random20 : list Z;
  random32hex : string;
  randomRecovery : nat → list Z;
  salt : nat → string;
}.

(** ** The duration parser *)

Fixpoint take_digits (l : list ascii) : list ascii * list ascii :=
  match l with
  | c :: l' =>
      if is_digit c then let '(d, r) := take_digits l' in (c :: d, r) else ([], l)
  | [] => ([], [])
  end.
Definition digits_value (l : list ascii) : Z :=
  foldl (λ n c, n * 10 + (code c - 48)) 0 l.

Definition unit_factor (u : string) : option Z :=
  if bool_decide (u = "ms") then Some 1
  else if bool_decide (u = "s") then Some 1000
  else if bool_decide (u = "m") then Some 60000
  else if bool_decide (u = "h") then Some 3600000
  else if bool_decide (u = "d") then Some 86400000
  else None.

(** [raw.match(/^(\d+)(ms|s|m|h|d)?$/i)] and the product of its groups. *)
Definition parseDurationMs (value : string) (fallbackMs : Z) : Z :=
  let raw := js_trim value in
  let '(digits, suffix) := take_digits (chars raw) in
  let u := if bool_decide (suffix = []) then "ms"%string else toLowerCase (str suffix) in
  match digits, unit_factor u with
  | _ :: _, Some factor => digits_value digits * factor
  | _, _ => fallbackMs
  end.

(** [Math.ceil(x / 1000)] *)
Definition parseDurationSeconds (value : string) (fallbackSeconds : Z) : Z :=
  - ((- parseDurationMs value (fallbackSeconds * 1000)) / 1000).

(** ** Redis keys *)

Definition getLockKey (email : string) : string := "security:auth:lock:" +:+ toLowerCase email.
Definition getFailKey (email : string) : string := "security:auth:fail:" +:+ toLowerCase email.
Definition getRefreshReuseKey (jti : string) : string := "security:auth:refresh-used:" +:+ jti.
Definition getLockStreakKey (email : string) : string :=
  "security:auth:lock-streak:" +:+ toLowerCase email.
Definition getMfaChallengeKey (id : string) : string := "security:auth:mfa:challenge:" +:+ id.
Definition getMfaAttemptsKey (id : string) : string := "security:auth:mfa:attempts:" +:+ id.
Definition getMfaSetupKey (userId : string) : string := "security:auth:mfa:setup:" +:+ userId.
Definition getLoginContextKey (userId : string) : string :=
  "security:auth:login-context:" +:+ userId.

(** The service's own [getUserAgent], which does not trim. *)
Definition getUserAgent (r : RequestSecurity.Request) : string :=
  match RequestSecurity.headers r !! "user-agent" with
  | Some (RequestSecurity.HMany l) => opt_or (head l) "unknown"
  | Some (RequestSecurity.HOne s) => str_or s "unknown"
  | None => "unknown"
  end.

(** [(process.env.USER_SERVICE_URL || "http://user:3003").replace(/\/+$/, "")] *)
Definition strip_slashes (s : string) : string :=
  str (rev (drop_while (λ c, bool_decide (c = "/"%char)) (rev (chars s)))).
Definition getUserSyncUrl (syncUrl userServiceUrl : option string) : string :=
  if opt_truthy (js_trim <$> syncUrl) then js_trim (default "" syncUrl)
  else strip_slashes (opt_or userServiceUrl "http://user:3003") +:+ "/users/internal/sync".

(** [Buffer.from(a)], lengths compared, then [timingSafeEqual]. *)
Definition safeCodeEqual (expected received : string) : bool :=
  let left := chars expected in
  let right := chars received in
  if negb (length left =? length right)%nat then false
  else bool_decide (left = right).

(** AUTH_FREE_PLAN_* after [Number]; an unset variable takes its default. *)
Definition getFreePlanQuota (vms cpu ram disk : option Z) : outcome Quota :=
  let freePlanMaxVms := default 2 vms in
  let freePlanMaxCpu := default 2 cpu in
  let freePlanMaxRamMb := default 4096 ram in
  let freePlanMaxDiskGb := default 40 disk in
  if (freePlanMaxVms <? 1) || (freePlanMaxCpu <? 1) || (freePlanMaxRamMb <? 512)
     || (freePlanMaxDiskGb <? 5)
  then Throw (InternalServerErrorException "Invalid AUTH_FREE_PLAN_* configuration")
  else Ret {| q_maxVms := freePlanMaxVms; q_maxCpu := freePlanMaxCpu;
              q_maxRamMb := freePlanMaxRamMb; q_maxDiskGb := freePlanMaxDiskGb |}.

(** [const { password, ...userWithoutPassword } = user] *)
Record UserWithoutPassword := {
  v_id : string; v_email : string; v_googleId : option string; v_firstName : string;
  v_lastName : string; v_role : Role; v_isActive : bool; v_mfaEnabled : bool;
  v_mfaSecret : option string; v_mfaEnabledAt : option Z;
  v_mfaRecoveryCodeHashes : list string; v_mfaRecoveryCodesGeneratedAt : option Z;
}.
Definition excludePassword (id : string) (u : User) : UserWithoutPassword := {|
  v_id := id; v_email := u_email u; v_googleId := u_googleId u;
  v_firstName := u_firstName u; v_lastName := u_lastName u; v_role := u_role u;
  v_isActive := u_isActive u; v_mfaEnabled := u_mfaEnabled u;
  v_mfaSecret := u_mfaSecret u; v_mfaEnabledAt := u_mfaEnabledAt u;
  v_mfaRecoveryCodeHashes := u_mfaRecoveryCodeHashes u;
  v_mfaRecoveryCodesGeneratedAt := u_mfaRecoveryCodesGeneratedAt u |}.

(** ** The store of the service *)

Record AuthState (T : Type → Type) (RS : Type) := {
  users : T User;
  refreshTokens : T RefreshToken;
  mfaAuditLogs : T MfaAuditLog;
  userQuotas : T Quota;
  redis : RS;
  synced : list SyncPayload;
}.
Arguments users {_ _} _.
Arguments refreshTokens {_ _} _.
Arguments mfaAuditLogs {_ _} _.
Arguments userQuotas {_ _} _.
Arguments redis {_ _} _.
Arguments synced {_ _} _.

Section state.
Context {T : Type → Type} {RS : Type}.
Abbreviation St := (AuthState T RS).

Definition set_users (x : T User) (s : St) : St :=
  {| users := x; refreshTokens := refreshTokens s; mfaAuditLogs := mfaAuditLogs s;
     userQuotas := userQuotas s; redis := redis s; synced := synced s |}.
Definition set_refreshTokens (x : T RefreshToken) (s : St) : St :=
  {| users := users s; refreshTokens := x; mfaAuditLogs := mfaAuditLogs s;
     userQuotas := userQuotas s; redis := redis s; synced := synced s |}.
Definition set_mfaAuditLogs (x : T MfaAuditLog) (s : St) : St :=
  {| users := users s; refreshTokens := refreshTokens s; mfaAuditLogs := x;
     userQuotas := userQuotas s; redis := redis s; synced := synced s |}.
Definition set_redis (x : RS) (s : St) : St :=
  {| users := users s; refreshTokens := refreshTokens s; mfaAuditLogs := mfaAuditLogs s;
     userQuotas := userQuotas s; redis := x; synced := synced s |}.
Definition set_synced (x : list SyncPayload) (s : St) : St :=
  {| users := users s; refreshTokens := refreshTokens s; mfaAuditLogs := mfaAuditLogs s;
     userQuotas := userQuotas s; redis := redis s; synced := x |}.

Definition ensureRedisConnected (c : Call) : M St unit :=
  throw_if (negb (redisUp c)) (JsError "Redis connection failed").

(** [if (raw)]: a missing key reads as null, and the empty text is falsy. *)
Definition present (o : option (rvalue AuthPayload)) : option (rvalue AuthPayload) :=
  match o with
  | Some (RText t) => if truthy t then o else None
  | _ => o
  end.

Lemma present_Some o v : present o = Some v → o = Some v.
Proof. destruct o as [[| |t]|]; simpl; try done. by destruct (truthy t). Qed.
Lemma present_None : present None = None.
Proof. done. Qed.

Section redis_calls.
Context `{Redis RS AuthPayload}.
Definition redis_get (c : Call) (k : string) : M St (option (rvalue AuthPayload)) :=
  gets (λ s, r_get k (now c) (redis s)).
Definition redis_set (c : Call) (k : string) (v : rvalue AuthPayload) (ttl : Z) : M St unit :=
  modify (λ s, set_redis (r_set_ex k v ttl (now c) (redis s)) s).
Definition redis_incr (c : Call) (k : string) : M St Z := λ s,
  (set_redis (r_incr k (now c) (redis s)).2 s, Ret (r_incr k (now c) (redis s)).1).
Definition redis_expire (c : Call) (k : string) (ttl : Z) : M St unit :=
  modify (λ s, set_redis (r_expire (O:=AuthPayload) k ttl (now c) (redis s)) s).
Definition redis_ttl (c : Call) (k : string) : M St Z :=
  gets (λ s, r_ttl (O:=AuthPayload) k (now c) (redis s)).
Definition redis_del (ks : list string) : M St unit :=
  modify (λ s, set_redis (r_del (O:=AuthPayload) ks (redis s)) s).
End redis_calls.

Section tables.
Context `{Database T}.

(** [findUnique({ where: { email } })] *)
Definition find_by_email (email : string) : M St (option (string * User)) :=
  gets (λ s, find_first (λ _ u, bool_decide (u_email u = email)) (users s)).
Definition find_user (id : string) : M St (option User) :=
  gets (λ s, find_by_id id (users s)).

(** The unique indexes on users: email and, when set, googleId. *)
Definition clashes (id : string) (u : User) (k : string) (w : User) : bool :=
  negb (bool_decide (k = id)) &&
  (bool_decide (u_email w = u_email u) ||
   match u_googleId w, u_googleId u with
   | Some a, Some b => bool_decide (a = b)
   | _, _ => false
   end).
(** INSERT or UPDATE of a user row under the unique indexes. *)
Definition write_user (id : string) (u : User) : M St unit := λ s,
  match find_first (clashes id u) (users s) with
  | Some _ => (s, Throw (PrismaError "P2002"))
  | None => (set_users (put id u (users s)) s, Ret tt)
  end.

(** refresh_tokens: foreign key to users, unique token. *)
Definition create_refresh_token (id : string) (r : RefreshToken) : M St unit := λ s,
  match find_by_id (rt_userId r) (users s) with
  | None => (s, Throw (PrismaError "P2003"))
  | Some _ =>
      match find_first (λ _ r', bool_decide (rt_token r' = rt_token r)) (refreshTokens s) with
      | Some _ => (s, Throw (PrismaError "P2002"))
      | None => (set_refreshTokens (put id r (refreshTokens s)) s, Ret tt)
      end
  end.
Definition delete_refresh_tokens (p : string → RefreshToken → bool) : M St unit :=
  modify (λ s, set_refreshTokens (delete_where p (refreshTokens s)) s).

Definition logMfaAudit (c : Call) (userId action : string) (metadata : option MfaMeta) : M St unit :=
  try_catch
    (λ s,
      match find_by_id userId (users s) with
      | None => (s, Throw (PrismaError "P2003"))
      | Some _ =>
          let row := {| ma_userId := userId; ma_action := action;
                        ma_ip := Some (RequestSecurity.getClientIp (req c));
                        ma_userAgent := Some (getUserAgent (req c));
                        ma_metadata := metadata; ma_createdAt := now c |} in
          (set_mfaAuditLogs (put (newAuditId c) row (mfaAuditLogs s)) s, Ret tt)
      end)
    (λ _, mret tt).
End tables.

(** The POST to the user service: what was sent, and a throw on a bad answer. *)
Definition projection (id : string) (u : User) : SyncPayload :=
  {| sy_id := id; sy_email := u_email u; sy_googleId := u_googleId u;
     sy_firstName := u_firstName u; sy_lastName := u_lastName u; sy_role := u_role u;
     sy_isActive := u_isActive u; sy_mfaEnabled := u_mfaEnabled u;
     sy_mfaEnabledAt := u_mfaEnabledAt u |}.
Definition syncUserProjection (cfg : Config) (c : Call) (id : string) (u : User) : M St unit :=
  if negb (truthy (syncToken cfg)) then mret tt
  else
    modify (λ s, set_synced (synced s ++ [projection id u]) s);;
    match syncAnswer c with
    | SyncStatus st =>
        throw_if (negb ((200 <=? st) && (st <=? 299))) (JsError "sync failed")
    | SyncNetworkError => throw (JsError "fetch failed")
    end.
(** [try { await this.syncUserProjection(user) } catch { log }] *)
Definition trySync (cfg : Config) (c : Call) (id : string) (u : User) : M St unit :=
  try_catch (syncUserProjection cfg c id u) (λ _, mret tt).

Section context.
Context `{Redis RS AuthPayload} `{Hashing}.

Definition storeLoginContext (cfg : Config) (c : Call) (userId : string) : M St unit :=
  let payload := {| lc_fingerprint := RequestSecurity.buildRequestFingerprint (req c);
                    lc_ip := RequestSecurity.getClientIp (req c);
                    lc_userAgent := getUserAgent (req c); lc_lastSeenAt := Some (now c) |} in
  try_catch
    (ensureRedisConnected c;;
     redis_set c (getLoginContextKey userId) (RJson (LoginContext payload))
       (loginContextTtlSeconds cfg))
    (λ _, mret tt).
End context.
End state.

(** ** The unique indexes as an invariant *)

Section users_wf.
Context {T : Type → Type} `{DatabaseLaws T} {RS : Type}.

Definition users_wf (t : T User) : Prop :=
  ∀ k u, rows t !! k = Some u → find_first (clashes k u) t = None.

Lemma clashes_same id u u' :
  u_email u' = u_email u → u_googleId u' = u_googleId u → clashes id u' = clashes id u.
Proof. intros E1 E2. unfold clashes. by rewrite E1, E2. Qed.

Lemma find_first_none p (t : T User) :
  (∀ k r, rows t !! k = Some r → p k r = false) → find_first p t = None.
Proof.
  intros Hn. destruct (find_first p t) as [[k r]|] eqn:E; [|done].
  apply find_first_Some in E as [Hk Hp]. by rewrite (Hn _ _ Hk) in Hp.
Qed.

Lemma clashes_sym k1 u1 k2 u2 : clashes k1 u1 k2 u2 = clashes k2 u2 k1 u1.
Proof.
  unfold clashes. rewrite (bool_decide_ext (k2 = k1) (k1 = k2)) by done.
  rewrite (bool_decide_ext (u_email u2 = u_email u1) (u_email u1 = u_email u2)) by done.
  f_equal. f_equal. destruct (u_googleId u1), (u_googleId u2); try done. by apply bool_decide_ext.
Qed.

(** Writing a row that clashes with no other keeps the indexes. *)
Lemma users_wf_put k u (t : T User) :
  users_wf t → find_first (clashes k u) t = None → users_wf (put k u t).
Proof.
  intros Hwf Hn k' u' Hk'. rewrite rows_put in Hk'. apply find_first_none. intros k2 u2 Hk2.
  rewrite rows_put in Hk2.
  destruct (decide (k' = k2)) as [->|Hne].
  { unfold clashes. by rewrite bool_decide_true. }
  apply lookup_insert_Some in Hk' as [[-> ->]|[? Hk']];
    apply lookup_insert_Some in Hk2 as [[-> ->]|[? Hk2]]; try done.
  - by apply (find_first_None _ _ Hn).
  - rewrite clashes_sym. by apply (find_first_None _ _ Hn).
  - by apply (find_first_None _ _ (Hwf _ _ Hk')).
Qed.

Lemma write_user_inv k u (s s' : AuthState T RS) :
  write_user k u s = (s', Ret tt) →
  find_first (clashes k u) (users s) = None ∧ s' = set_users (put k u (users s)) s.
Proof. unfold write_user. destruct (find_first _ _); [done|]. by intros [= <-]. Qed.

(** An update that leaves email and googleId alone always goes through. *)
Lemma write_user_same k u u' (s : AuthState T RS) :
  users_wf (users s) → rows (users s) !! k = Some u →
  u_email u' = u_email u → u_googleId u' = u_googleId u →
  write_user k u' s = (set_users (put k u' (users s)) s, Ret tt).
Proof.
  intros Hwf Hk E1 E2. unfold write_user. by rewrite (clashes_same k u u' E1 E2), (Hwf _ _ Hk).
Qed.

Lemma write_user_wf k u (s : AuthState T RS) :
  users_wf (users s) → users_wf (users (write_user k u s).1).
Proof.
  intros Hwf. unfold write_user. destruct (find_first (clashes k u) (users s)) eqn:E; [done|].
  by apply users_wf_put.
Qed.
End users_wf.
End AuthModel.
