(* ===== verification/AuthSession.v ===== *)
(** * AuthSession: tokens, refresh rotation and account operations

    The session half of services/auth/src/auth/auth.service.ts: token issue,
    refresh with reuse detection, logout, the WebSocket ticket, the password
    change and the profile. *)

From Stdlib Require Import ZArith Lia Ascii String.
From stdpp Require Import base list gmap strings.
From S2P Require Import Prelude Text Store Crypto RequestSecurity AuthModel.
Import AuthModel.

Module AuthSession.

Definition reuse_message : string := "Refresh token reuse detected. All sessions revoked.".

Record Tokens := { accessToken : string; refreshToken : string }.
Record SessionResult := { sr_tokens : Tokens; sr_user : UserWithoutPassword }.

Section session.
Context {T : Type → Type} `{Database T} {RS : Type} `{Redis RS AuthPayload}.
Context `{Hashing} `{Bcrypt} `{Jwt} `{Timespan}.
Abbreviation St := (AuthState T RS).
Variable cfg : Config.

(** [jwtService.sign(payload, { secret, expiresIn })] *)
Definition sign (secret : string) (payload : Claims) (expiresIn : string) (t : Z) : M St string :=
  match timespan_seconds expiresIn with
  | Some ttl => mret (jwt_sign secret payload ttl t)
  | None => throw (JsError "expiresIn should be a timespan")
  end.

Definition access_claims (id : string) (u : User) (r : RequestSecurity.Request) : Claims :=
  {| c_sub := Some id; c_email := Some (u_email u); c_role := Some (role_string (u_role u));
     c_fp := Some (RequestSecurity.buildRequestFingerprint r); c_type := None; c_jti := None;
     c_vmId := None; c_vmName := None; c_action := None; c_exp := None |}.
Definition refresh_claims (id jti : string) : Claims :=
  {| c_sub := Some id; c_email := None; c_role := None; c_fp := None;
     c_type := Some "refresh"%string; c_jti := Some jti; c_vmId := None; c_vmName := None;
     c_action := None; c_exp := None |}.

Definition generateTokens (c : Call) (id : string) (u : User) : M St Tokens :=
  at_ ← sign (jwtSecret cfg) (access_claims id u (req c)) (jwtExpiresIn cfg) (now c);
  rt ← sign (jwtRefreshSecret cfg) (refresh_claims id (newJti c)) (jwtRefreshExpiresIn cfg) (now c);
  let expiresAt := now c + parseDurationMs (jwtRefreshExpiresIn cfg) (7 * 24 * 60 * 60000) in
  create_refresh_token (newTokenRowId c)
    {| rt_token := rt; rt_userId := id; rt_expiresAt := expiresAt; rt_createdAt := now c |};;
  mret {| accessToken := at_; refreshToken := rt |}.

Definition wrong_refresh : exn := UnauthorizedException "Invalid refresh token".

Definition refreshTokens (c : Call) (token : string) : M St SessionResult :=
  throw_if (negb (truthy token)) wrong_refresh;;
  match jwt_verify (jwtRefreshSecret cfg) token (now c) with
  | None => throw wrong_refresh
  | Some decoded =>
      match c_sub decoded, c_jti decoded with
      | Some sub, Some jti =>
          throw_if (negb (truthy sub) || negb (truthy jti)
                    || negb (bool_decide (c_type decoded = Some "refresh"%string))) wrong_refresh;;
          ensureRedisConnected c;;
          let reuseKey := getRefreshReuseKey jti in
          wasUsed ← redis_get c reuseKey;
          match present wasUsed with
          | Some _ =>
              delete_refresh_tokens (λ _ r, bool_decide (rt_userId r = sub));;
              throw (UnauthorizedException reuse_message)
          | None =>
              storedToken ← gets (λ s,
                kr ← find_first (λ _ r, bool_decide (rt_token r = token)) (AuthModel.refreshTokens s);
                u ← find_by_id (rt_userId kr.2) (users s);
                Some (kr.1, kr.2, u));
              match storedToken with
              | None =>
                  delete_refresh_tokens (λ _ r, bool_decide (rt_userId r = sub));;
                  throw (UnauthorizedException reuse_message)
              | Some (rowId, row, u) =>
                  if rt_expiresAt row <? now c then
                    delete_refresh_tokens (λ k _, bool_decide (k = rowId));;
                    throw (UnauthorizedException "Refresh token expired")
                  else
                    delete_refresh_tokens (λ k _, bool_decide (k = rowId));;
                    let ttlSeconds := Z.max 1
                      (match c_exp decoded with
                       | Some e => if e =? 0
                           then parseDurationSeconds (jwtRefreshExpiresIn cfg) (7 * 24 * 60 * 60)
                           else e - now c / 1000
                       | None => parseDurationSeconds (jwtRefreshExpiresIn cfg) (7 * 24 * 60 * 60)
                       end) in
                    redis_set c reuseKey (RText "1") ttlSeconds;;
                    tokens ← generateTokens c (rt_userId row) u;
                    mret {| sr_tokens := tokens; sr_user := excludePassword (rt_userId row) u |}
              end
          end
      | _, _ => throw wrong_refresh
      end
  end.

(** [prisma.refreshToken.delete] throws when the token is not there; the
    handler ignores it. *)
Definition logout (token : string) : M St string :=
  try_catch
    (if truthy token
     then λ s,
       match find_first (λ _ r, bool_decide (rt_token r = token)) (AuthModel.refreshTokens s) with
       | Some (k, _) =>
           (set_refreshTokens
              (delete_where (λ k' _, bool_decide (k' = k)) (AuthModel.refreshTokens s)) s, Ret tt)
       | None => (s, Throw (PrismaError "P2025"))
       end
     else mret tt)
    (λ _, mret tt);;
  mret "Logged out successfully"%string.

Definition logoutAllSessions (userId : string) : M St string :=
  delete_refresh_tokens (λ _ r, bool_decide (rt_userId r = userId));;
  mret "Logged out from all sessions"%string.

Definition assertCurrentPassword (userId password : string) : M St User :=
  user ← find_user userId;
  match user with
  | None => throw (UnauthorizedException "User not found or inactive")
  | Some u =>
      throw_if (negb (u_isActive u)) (UnauthorizedException "User not found or inactive");;
      throw_if (negb (bcrypt_compare password (u_password u)))
        (UnauthorizedException "Invalid password for MFA re-authentication");;
      mret u
  end.

Definition with_password (h : string) (u : User) : User :=
  {| u_email := u_email u; u_googleId := u_googleId u; u_password := h;
     u_firstName := u_firstName u; u_lastName := u_lastName u; u_role := u_role u;
     u_isActive := u_isActive u; u_mfaEnabled := u_mfaEnabled u; u_mfaSecret := u_mfaSecret u;
     u_mfaEnabledAt := u_mfaEnabledAt u;
     u_mfaRecoveryCodeHashes := u_mfaRecoveryCodeHashes u;
     u_mfaRecoveryCodesGeneratedAt := u_mfaRecoveryCodesGeneratedAt u |}.

Definition changePassword (c : Call) (userId oldPassword newPassword : string) : M St string :=
  u ← assertCurrentPassword userId oldPassword;
  let hashedPassword := bcrypt_hash newPassword (salt c 0%nat) in
  let u' := with_password hashedPassword u in
  write_user userId u';;
  trySync cfg c userId u';;
  mret "Password changed successfully"%string.

Definition getProfile (userId : string) : M St (UserWithoutPassword * option Quota) :=
  user ← find_user userId;
  match user with
  | None => throw (NotFoundException "User not found")
  | Some u =>
      q ← gets (λ s, find_by_id userId (userQuotas s));
      mret (excludePassword userId u, q)
  end.

Definition ws_claims (id : string) (u : User) (r : RequestSecurity.Request) : Claims :=
  {| c_sub := Some id; c_email := Some (u_email u); c_role := Some (role_string (u_role u));
     c_fp := Some (RequestSecurity.buildRequestFingerprint r);
     c_type := Some "ws-ticket"%string; c_jti := None; c_vmId := None; c_vmName := None;
     c_action := None; c_exp := None |}.

Definition generateWsTicket (c : Call) (userId : string) : M St string :=
  user ← find_user userId;
  match user with
  | None => throw (NotFoundException "User not found")
  | Some u =>
      throw_if (negb (u_isActive u)) (UnauthorizedException "User is inactive");;
      sign (jwtSecret cfg) (ws_claims userId u (req c)) "30s" (now c)
  end.
End session.

(** ** Theorems *)

Section theorems.
Context {T : Type → Type} `{DatabaseLaws T} {RS : Type} `{RedisLaws RS AuthPayload}.
Context `{Hashing} `{Bcrypt} `{Jwt} `{Timespan}.
Abbreviation St := (AuthState T RS).
Variable cfg : Config.
Implicit Types s : St.

(** What a successful [generateTokens] returned and stored. *)
Lemma generateTokens_inv c id u s s' tk :
  generateTokens cfg c id u s = (s', Ret tk) →
  ∃ ttla ttlr,
    timespan_seconds (jwtExpiresIn cfg) = Some ttla ∧
    timespan_seconds (jwtRefreshExpiresIn cfg) = Some ttlr ∧
    accessToken tk = jwt_sign (jwtSecret cfg) (access_claims id u (req c)) ttla (now c) ∧
    refreshToken tk = jwt_sign (jwtRefreshSecret cfg) (refresh_claims id (newJti c)) ttlr (now c) ∧
    s' = set_refreshTokens (put (newTokenRowId c)
           {| rt_token := refreshToken tk; rt_userId := id;
              rt_expiresAt := now c + parseDurationMs (jwtRefreshExpiresIn cfg) (7 * 24 * 60 * 60000);
              rt_createdAt := now c |} (AuthModel.refreshTokens s)) s.
Proof.
  unfold generateTokens, sign, create_refresh_token. m_red. intros Hg.
  case_matches. eauto 10.
Qed.

Lemma generateTokens_frame c id u s :
  redis (generateTokens cfg c id u s).1 = redis s ∧ users (generateTokens cfg c id u s).1 = users s.
Proof. unfold generateTokens, sign, create_refresh_token. m_red. case_matches. Qed.

(** The access token of a session is accepted by [JwtStrategy] for the
    client it was issued to and for no other.  Until it expires, a request
    with the issuing request's fingerprint is authenticated as that user with
    that role; a request with another fingerprint is answered 401. *)
Theorem issued_access_token_bound c id u s s' tk req' t :
  generateTokens cfg c id u s = (s', Ret tk) →
  (∀ ttl, timespan_seconds (jwtExpiresIn cfg) = Some ttl → t / 1000 < now c / 1000 + ttl) →
  RequestSecurity.authenticate (jwtSecret cfg) req' (accessToken tk) t =
    if bool_decide (RequestSecurity.buildRequestFingerprint req' =
                    RequestSecurity.buildRequestFingerprint (req c))
    then Ret {| RequestSecurity.userId := Some id; RequestSecurity.email := Some (u_email u);
                RequestSecurity.role := Some (role_string (u_role u)) |}
    else Throw (UnauthorizedException "Token fingerprint mismatch").
Proof.
  intros (ttla & ttlr & Ha & _ & -> & _)%generateTokens_inv Ht.
  unfold RequestSecurity.authenticate. rewrite jwt_verify_sign by by apply Ht.
  unfold RequestSecurity.validate. cbn [with_exp access_claims c_fp c_sub c_email c_role].
  unfold RequestSecurity.buildRequestFingerprint.
  rewrite RequestSecurity.sha256_hex_truthy. cbn [negb orb].
  repeat case_bool_decide; simpl; congruence.
Qed.

(** A refresh token as this service signs it. *)
Definition is_refresh_token (tok sub jti : string) (ttl t0 : Z) : Prop :=
  tok = jwt_sign (jwtRefreshSecret cfg) (refresh_claims sub jti) ttl t0.

Lemma refresh_token_claims tok sub1 jti1 ttl1 t1 sub2 jti2 ttl2 t2 :
  is_refresh_token tok sub1 jti1 ttl1 t1 → is_refresh_token tok sub2 jti2 ttl2 t2 →
  sub1 = sub2 ∧ jti1 = jti2.
Proof. intros -> E%jwt_sign_inj. by inversion E. Qed.

(** What a success says of the token and of the call. *)
Record accepted (c : Call) (sub jti : string) (ttl t0 : Z) : Prop := {
  acc_sub : truthy sub = true; acc_jti : truthy jti = true;
  acc_time : now c / 1000 < t0 / 1000 + ttl; acc_redis : redisUp c = true }.

Lemma refresh_accepted c tok sub jti ttl t0 s s' r :
  is_refresh_token tok sub jti ttl t0 → refreshTokens cfg c tok s = (s', Ret r) →
  accepted c sub jti ttl t0.
Proof.
  intros -> Hr. unfold refreshTokens in Hr. rewrite jwt_sign_truthy in Hr.
  destruct (Z.lt_ge_cases (now c / 1000) (t0 / 1000 + ttl)) as [Ht|Ht];
    [rewrite jwt_verify_sign in Hr by done | by rewrite jwt_verify_expired in Hr by done].
  cbn [with_exp refresh_claims c_sub c_jti c_type c_exp] in Hr. unfold ensureRedisConnected in Hr.
  destruct (truthy sub) eqn:E1, (truthy jti) eqn:E2, (redisUp c) eqn:E3; done.
Qed.

Definition reuse_ttl (c : Call) (e : Z) : Z :=
  Z.max 1 (if e =? 0 then parseDurationSeconds (jwtRefreshExpiresIn cfg) (7 * 24 * 60 * 60)
           else e - now c / 1000).

(** [refreshTokens] on such a token, past the checks of its claims. *)
Lemma refresh_unfold c tok sub jti ttl t0 s :
  is_refresh_token tok sub jti ttl t0 → accepted c sub jti ttl t0 →
  refreshTokens cfg c tok s =
    match present (r_get (getRefreshReuseKey jti) (now c) (redis s)) with
    | Some _ =>
        (set_refreshTokens (delete_where (λ _ r, bool_decide (rt_userId r = sub))
           (AuthModel.refreshTokens s)) s, Throw (UnauthorizedException reuse_message))
    | None =>
        match (kr ← find_first (λ _ r, bool_decide (rt_token r = tok)) (AuthModel.refreshTokens s);
               u ← find_by_id (rt_userId kr.2) (users s);
               Some (kr.1, kr.2, u)) with
        | None =>
            (set_refreshTokens (delete_where (λ _ r, bool_decide (rt_userId r = sub))
               (AuthModel.refreshTokens s)) s, Throw (UnauthorizedException reuse_message))
        | Some (rowId, row, u) =>
            let s1 := set_refreshTokens (delete_where (λ k _, bool_decide (k = rowId))
                        (AuthModel.refreshTokens s)) s in
            if rt_expiresAt row <? now c
            then (s1, Throw (UnauthorizedException "Refresh token expired"))
            else
              (tokens ← generateTokens cfg c (rt_userId row) u;
               mret {| sr_tokens := tokens; sr_user := excludePassword (rt_userId row) u |})
              (set_redis (r_set_ex (getRefreshReuseKey jti) (RText "1")
                 (reuse_ttl c (t0 / 1000 + ttl)) (now c) (redis s)) s1)
        end
    end.
Proof.
  intros -> [Hsub Hjti Ht Hup]. unfold refreshTokens, ensureRedisConnected, redis_get,
    redis_set, delete_refresh_tokens, reuse_ttl.
  rewrite jwt_sign_truthy, jwt_verify_sign by done.
  cbn [with_exp refresh_claims c_sub c_jti c_type c_exp]. rewrite Hsub, Hjti, Hup.
  m_red. destruct (present _); [done|].
  destruct (find_first _ _) as [[k row]|]; simpl; [|done].
  destruct (find_by_id _ _); simpl; [|done]. by destruct (rt_expiresAt row <? now c).
Qed.

Lemma present_text k t ttl t0 t1 (rs : RS) :
  truthy t = true → t0 <= t1 → t1 < t0 + ttl * 1000 →
  present (r_get k t1 (r_set_ex k (RText t) ttl t0 rs)) = Some (RText t).
Proof. intros Ht Hlo Hhi. rewrite get_set_ex_same by done. simpl. by rewrite Ht. Qed.

(** The state after a successful refresh remembers the token's jti for as long
    as the token verifies. *)
Lemma refresh_marks_used c tok sub jti ttl t0 s s1 r t :
  is_refresh_token tok sub jti ttl t0 → 0 < t0 / 1000 + ttl →
  refreshTokens cfg c tok s = (s1, Ret r) →
  now c <= t → t / 1000 < t0 / 1000 + ttl →
  present (r_get (getRefreshReuseKey jti) t (redis s1)) = Some (RText "1").
Proof.
  intros Htok Hpos Hr Hle Ht. pose proof (refresh_accepted _ _ _ _ _ _ _ _ _ Htok Hr) as Hacc.
  rewrite (refresh_unfold _ _ _ _ _ _ _ Htok Hacc) in Hr. destruct Hacc as [_ _ Hc _].
  destruct (present _); [done|].
  destruct (_ ≫= _) as [[[k row] u]|]; [|done]. cbv zeta in Hr.
  destruct (rt_expiresAt row <? now c); [done|].
  apply bind_Ret_inv in Hr as (tk & s2 & Hg & [= <- _]).
  pose proof (generateTokens_frame c (rt_userId row) u
    (set_redis (r_set_ex (getRefreshReuseKey jti) (RText "1") (reuse_ttl c (t0 / 1000 + ttl))
       (now c) (redis s)) (set_refreshTokens (delete_where (λ k' _, bool_decide (k' = k))
                        (AuthModel.refreshTokens s)) s))) as [Hf _].
  rewrite Hg in Hf. simpl in Hf. rewrite Hf. apply present_text; [done..|].
  unfold reuse_ttl. destruct (Z.eqb_spec (t0 / 1000 + ttl) 0); [lia|].
  pose proof (Z.div_mod (now c) 1000 ltac:(lia)). pose proof (Z.mod_pos_bound (now c) 1000 ltac:(lia)).
  pose proof (Z.div_mod t 1000 ltac:(lia)). pose proof (Z.mod_pos_bound t 1000 ltac:(lia)). lia.
Qed.

(** A token whose jti is marked as used is refused, and costs the user every
    stored session. *)
Lemma refresh_marked_revokes c tok sub jti ttl t0 s v :
  is_refresh_token tok sub jti ttl t0 → accepted c sub jti ttl t0 →
  present (r_get (getRefreshReuseKey jti) (now c) (redis s)) = Some v →
  ∃ s2, refreshTokens cfg c tok s = (s2, Throw (UnauthorizedException reuse_message)) ∧
        (∀ k row, rows (AuthModel.refreshTokens s2) !! k = Some row → rt_userId row ≠ sub) ∧
        users s2 = users s ∧ redis s2 = redis s.
Proof.
  intros Htok Hacc Hm. rewrite (refresh_unfold _ _ _ _ _ _ _ Htok Hacc), Hm.
  eexists. split_and!; [done| |done|done]. intros k row Hk. simpl in Hk.
  rewrite rows_delete_where in Hk. destruct (rows _ !! k) as [row'|]; [|done].
  case_bool_decide; by simplify_eq.
Qed.

(** ** The invariant of the stored sessions *)

(** Every row holds a refresh token this service signed for the row's user, and
    no token is stored twice. *)
Record sessions_wf (t : T RefreshToken) : Prop := {
  wf_signed k row : rows t !! k = Some row →
    ∃ jti ttl t0, is_refresh_token (rt_token row) (rt_userId row) jti ttl t0;
  wf_unique k1 k2 r1 r2 : rows t !! k1 = Some r1 → rows t !! k2 = Some r2 →
    rt_token r1 = rt_token r2 → k1 = k2;
}.
Definition keeps_sessions (s s' : St) : Prop :=
  sessions_wf (AuthModel.refreshTokens s) → sessions_wf (AuthModel.refreshTokens s').
#[local] Instance keeps_sessions_refl : Reflexive keeps_sessions.
Proof. by intros s Hs. Qed.
#[local] Instance keeps_sessions_trans : Transitive keeps_sessions.
Proof. intros s1 s2 s3. unfold keeps_sessions. eauto. Qed.

Lemma delete_lookup p (t : T RefreshToken) k row :
  rows (delete_where p t) !! k = Some row ↔ rows t !! k = Some row ∧ p k row = false.
Proof.
  rewrite rows_delete_where. destruct (rows t !! k) as [r|]; [|naive_solver].
  destruct (p k r) eqn:E; naive_solver congruence.
Qed.

Lemma sessions_wf_delete p (t : T RefreshToken) : sessions_wf t → sessions_wf (delete_where p t).
Proof.
  intros [Hs Hu]. split.
  - intros k row [Hk _]%delete_lookup. eauto.
  - intros k1 k2 r1 r2 [H1k _]%delete_lookup [H2k _]%delete_lookup. eauto.
Qed.

Lemma keeps_delete p : preserves keeps_sessions (delete_refresh_tokens (T:=T) (RS:=RS) p).
Proof. intros s Hs. by apply sessions_wf_delete. Qed.

Lemma keeps_create k row :
  (∃ jti ttl t0, is_refresh_token (rt_token row) (rt_userId row) jti ttl t0) →
  preserves keeps_sessions (create_refresh_token (T:=T) (RS:=RS) k row).
Proof.
  intros Hrow s [Hs Hu]. unfold create_refresh_token.
  destruct (find_by_id _ _); [|by split]. destruct (find_first _ _) eqn:E; [by split|]. simpl.
  assert (Hn : ∀ k' r', rows (AuthModel.refreshTokens s) !! k' = Some r' → rt_token r' ≠ rt_token row).
  { intros k' r' Hk'. pose proof (find_first_None _ _ E _ _ Hk') as Hp.
    by apply bool_decide_eq_false in Hp. }
  split.
  - intros k' r'. rewrite rows_put, lookup_insert_Some. intros [[<- <-]|[_ ?]]; eauto.
  - intros k1 k2 r1 r2. rewrite rows_put, !lookup_insert_Some.
    intros [[<- <-]|[? ?]] [[<- <-]|[? ?]] Et; try done; [naive_solver..|eauto].
Qed.

Lemma sessions_sign secret p e t : preserves keeps_sessions (sign (T:=T) (RS:=RS) secret p e t).
Proof. unfold sign. intros s. by destruct (timespan_seconds e). Qed.

Lemma keeps_generateTokens c id u : preserves keeps_sessions (generateTokens (T:=T) (RS:=RS) cfg c id u).
Proof.
  intros s Hs. unfold generateTokens, sign.
  destruct (timespan_seconds (jwtExpiresIn cfg)); [|done].
  destruct (timespan_seconds (jwtRefreshExpiresIn cfg)) as [ttl|]; [|done].
  m_red.
  match goal with |- context [create_refresh_token ?k ?r s] =>
    pose proof (keeps_create k r ltac:(do 3 eexists; done) s Hs) as Hc end.
  by destruct (create_refresh_token _ _ s) as [s' [?|?]].
Qed.

Lemma sessions_gets {A} (f : St → A) : preserves keeps_sessions (gets f).
Proof. by intros s Hs. Qed.
Lemma keeps_redis_set c k v ttl : preserves keeps_sessions (redis_set (T:=T) (RS:=RS) c k v ttl).
Proof. by intros s Hs. Qed.

Lemma keeps_refresh c tok : preserves keeps_sessions (refreshTokens (T:=T) (RS:=RS) cfg c tok).
Proof.
  unfold refreshTokens, ensureRedisConnected, redis_get, throw_if.
  repeat first [apply keeps_generateTokens | apply keeps_delete | apply keeps_redis_set
    | apply sessions_gets | apply preserves_ret; exact _ | apply preserves_throw; exact _
    | case_match | apply preserves_bind; [exact _..| |intros ?]].
Qed.

Lemma sessions_logout tok : preserves keeps_sessions (logout (T:=T) (RS:=RS) tok).
Proof.
  intros s Hs. unfold logout. m_red. destruct (truthy tok); [|done].
  destruct (find_first _ _) as [[k r]|]; [|done]. simpl. by apply sessions_wf_delete.
Qed.

(** ** Rotation *)

(** A refresh rotates the stored token.  After a success no row holds the
    presented token any more; the new token is stored for the same user with
    the configured lifetime; the sessions of every other row are as before;
    and the user answered is the one the token belongs to. *)
Theorem refresh_rotates c tok sub jti ttl t0 s s' r :
  sessions_wf (AuthModel.refreshTokens s) → is_refresh_token tok sub jti ttl t0 →
  newJti c ≠ jti → rows (AuthModel.refreshTokens s) !! newTokenRowId c = None →
  refreshTokens cfg c tok s = (s', Ret r) →
  (∀ k row, rows (AuthModel.refreshTokens s') !! k = Some row → rt_token row ≠ tok) ∧
  rows (AuthModel.refreshTokens s') !! newTokenRowId c =
    Some {| rt_token := refreshToken (sr_tokens r); rt_userId := sub;
            rt_expiresAt := now c +
              parseDurationMs (jwtRefreshExpiresIn cfg) (7 * 24 * 60 * 60000);
            rt_createdAt := now c |} ∧
  (∀ k row, k ≠ newTokenRowId c → rt_token row ≠ tok →
    (rows (AuthModel.refreshTokens s') !! k = Some row ↔
     rows (AuthModel.refreshTokens s) !! k = Some row)) ∧
  ∃ u, rows (users s) !! sub = Some u ∧ sr_user r = excludePassword sub u.
Proof.
  intros Hwf Htok Hj Hfresh Hr. pose proof (refresh_accepted _ _ _ _ _ _ _ _ _ Htok Hr) as Hacc.
  rewrite (refresh_unfold _ _ _ _ _ _ _ Htok Hacc) in Hr.
  destruct (present _); [done|]. destruct (_ ≫= _) as [[[k row] u]|] eqn:Eb; [|done].
  cbv zeta in Hr. destruct (rt_expiresAt row <? now c); [done|].
  apply bind_Some in Eb as ([k0 row0] & Ef & (u0 & Eu & [= -> -> ->])%bind_Some).
  simpl in Eu. apply find_first_Some in Ef as [Hk Htk%bool_decide_eq_true].
  destruct (wf_signed _ Hwf _ _ Hk) as (jti' & ttl' & t0' & Hrow). rewrite Htk in Hrow.
  destruct (refresh_token_claims _ _ _ _ _ _ _ _ _ Hrow Htok) as [Hsub ->]. rewrite Hsub in *.
  apply bind_Ret_inv in Hr as (tk & s2 & (ttla & ttlr & _ & _ & _ & Hnew & ->)%generateTokens_inv & Hr).
  injection Hr as <- <-. simpl. rewrite rows_put. split_and!.
  - intros k' row'. rewrite lookup_insert_Some. intros [[<- <-]|[_ [Hk' Hp]%delete_lookup]].
    + simpl. intros E. rewrite E in Hnew. by destruct (refresh_token_claims _ _ _ _ _ _ _ _ _ Hnew Htok).
    + apply bool_decide_eq_false in Hp. intros E. apply Hp. eapply (wf_unique _ Hwf); eauto. congruence.
  - apply lookup_insert_eq.
  - intros k' row' Hne Ht'. rewrite lookup_insert_ne by done. rewrite delete_lookup.
    split; [by intros []|]. intros Hk'. split; [done|]. apply bool_decide_eq_false. intros ->. congruence.
  - eauto.
Qed.

(** Logging out of all sessions ends every session of the user and no other.
    Afterwards no refresh token of the user can be refreshed, whatever the
    request, and the rows of the other users are untouched. *)
Theorem logout_all_ends_sessions uid s :
  sessions_wf (AuthModel.refreshTokens s) →
  let s' := (logoutAllSessions uid s).1 in
  (∀ c tok jti ttl t0, is_refresh_token tok uid jti ttl t0 →
     ∃ e, (refreshTokens cfg c tok s').2 = Throw e) ∧
  (∀ k row, rt_userId row ≠ uid →
     (rows (AuthModel.refreshTokens s') !! k = Some row ↔
      rows (AuthModel.refreshTokens s) !! k = Some row)).
Proof.
  intros Hwf. simpl. split.
  - intros c tok jti ttl t0 Htok.
    match goal with |- ∃ e, (?m).2 = _ => destruct m as [s2 [r|e]] eqn:Hr end; [|by eauto].
    exfalso. pose proof (refresh_accepted _ _ _ _ _ _ _ _ _ Htok Hr) as Hacc.
    rewrite (refresh_unfold _ _ _ _ _ _ _ Htok Hacc) in Hr. destruct (present _); [done|].
    destruct (_ ≫= _) as [[[k row] u]|] eqn:Eb; [|done].
    apply bind_Some in Eb as ([k0 row0] & Ef & _).
    apply find_first_Some in Ef as [[Hk Hp]%delete_lookup Htk%bool_decide_eq_true].
    destruct (wf_signed _ Hwf _ _ Hk) as (jti' & ttl' & t0' & Hrow). rewrite Htk in Hrow.
    destruct (refresh_token_claims _ _ _ _ _ _ _ _ _ Hrow Htok) as [Hs _].
    by apply bool_decide_eq_false in Hp.
  - intros k row Hne. rewrite delete_lookup, bool_decide_eq_false. naive_solver.
Qed.
End theorems.
End AuthSession.
