(* ===== verification/AuthLogin.v ===== *)
(** * AuthLogin: registration, password login, Google login and the lockout

    The login half of services/auth/src/auth/auth.service.ts: the failure
    counter and the progressive lock in Redis, the captcha gate, the anomaly
    score, and the three ways to a session (register, login, Google). *)

From Stdlib Require Import ZArith Lia Ascii String.
From stdpp Require Import base list gmap strings.
From S2P Require Import Prelude Text Store Crypto RequestSecurity Totp AuthModel AuthSession.
Import AuthModel AuthSession.

Module AuthLogin.

Record RegisterDto := { rg_email : string; rg_password : string; rg_firstName : string;
                        rg_lastName : string }.
Record LoginDto := { lg_email : string; lg_password : string; lg_rememberMe : bool;
                     lg_captchaToken : option string }.

(** passport-google-oauth20's profile, as far as it is read. *)
Record Profile := { gp_id : string; gp_email : option string; gp_displayName : option string;
                    gp_givenName : option string; gp_familyName : option string }.

Inductive LoginResult :=
| Session (r : SessionResult)
| MfaRequired (challengeId message : string) (devOtp : option string)
| MfaEnrollmentRequired (message : string).

Inductive GoogleResult :=
| GoogleError (code message : string)
| GoogleSession (r : SessionResult).

Record Anomaly := { detected : bool; score : Z; reasons : list string }.

(** [Math.ceil(n / 60)] in a message. *)
Definition minutes (n : Z) : string := str (Totp.toString (- ((- n) / 60))).
Definition too_many (seconds : Z) : exn :=
  TooManyRequests ("Too many failed login attempts. Try again in " +:+ minutes seconds
                   +:+ " minute(s).").

Definition captcha_missing : exn := ForbiddenException "CAPTCHA verification required".
Definition captcha_wrong : exn := ForbiddenException "CAPTCHA verification failed".
Definition wrong_credentials : exn := UnauthorizedException "Invalid credentials".
Definition deactivated : exn := UnauthorizedException "Account is deactivated".
Definition suspicious : exn := ForbiddenException
  "Suspicious login detected. Please retry from a trusted network or contact support.".

Section login.
Context {T : Type → Type} `{Database T} {RS : Type} `{Redis RS AuthPayload}.
Context `{Hashing} `{Bcrypt} `{Jwt} `{Timespan} `{UriCodec}.
Abbreviation St := (AuthState T RS).
Variable cfg : Config.

Definition assertNotLocked (c : Call) (email : string) : M St unit :=
  ensureRedisConnected c;;
  ttl ← redis_ttl c (getLockKey email);
  throw_if (0 <? ttl) (too_many ttl).

Definition lock_seconds (streak : Z) : Z :=
  Z.min (lockMaxSeconds cfg)
    (lockWindowSeconds cfg * lockProgressiveMultiplier cfg ^ Z.max 0 (streak - 1)).

Definition registerFailedLogin (c : Call) (email : string) : M St unit :=
  ensureRedisConnected c;;
  let failKey := getFailKey email in
  let lockKey := getLockKey email in
  attempts ← redis_incr c failKey;
  when (attempts =? 1) (redis_expire c failKey (lockWindowSeconds cfg));;
  if maxFailedAttempts cfg <=? attempts then
    let streakKey := getLockStreakKey email in
    streak ← redis_incr c streakKey;
    redis_expire c streakKey (24 * 60 * 60);;
    let progressiveSeconds := lock_seconds streak in
    redis_set c lockKey (RText "1") progressiveSeconds;;
    throw (too_many progressiveSeconds)
  else mret tt.

(** [Number(raw || "0") >= threshold]; other texts are NaN. *)
Definition isCaptchaRequired (c : Call) (email : string) : M St bool :=
  if negb (captchaEnabled cfg) then mret false
  else
    ensureRedisConnected c;;
    failCountRaw ← redis_get c (getFailKey email);
    mret (match failCountRaw with
          | Some (RInt n) => captchaFailThreshold cfg <=? n
          | None => captchaFailThreshold cfg <=? 0
          | _ => false
          end).

Definition assertCaptchaIfNeeded (c : Call) (email : string) (captchaToken : option string)
    : M St unit :=
  required ← isCaptchaRequired c email;
  if negb required then mret tt
  else
    let token := js_trim (opt_or captchaToken "") in
    throw_if (negb (truthy token)) captcha_missing;;
    throw_if (truthy (captchaSharedSecret cfg)
              && negb (safeCodeEqual (captchaSharedSecret cfg) token)) captcha_wrong.

Definition clearFailedLogins (c : Call) (email : string) : M St unit :=
  ensureRedisConnected c;;
  redis_del [getFailKey email; getLockKey email].

Definition getPreviousLoginContext (c : Call) (userId : string) : M St (option LoginContextPayload) :=
  ensureRedisConnected c;;
  raw ← redis_get c (getLoginContextKey userId);
  mret (match raw with
        | Some (RJson (LoginContext l)) =>
            if negb (truthy (lc_fingerprint l)) || negb (truthy (lc_ip l))
               || negb (truthy (lc_userAgent l)) then None else Some l
        | _ => None
        end).

Definition risk (b : bool) (points : Z) (reason : string) : Z * list string :=
  if b then (points, [reason]) else (0, []).

(** The contributions, in the order the code adds them. *)
Definition anomaly_parts (c : Call) (previous : LoginContextPayload) : list (Z * list string) :=
  [risk (negb (bool_decide (RequestSecurity.buildRequestFingerprint (req c)
                            = lc_fingerprint previous))) 70 "fingerprint_changed";
   risk (negb (bool_decide (RequestSecurity.getClientIp (req c) = lc_ip previous))) 25 "ip_changed";
   risk (negb (bool_decide (getUserAgent (req c) = lc_userAgent previous))) 15
     "user_agent_changed";
   match lc_lastSeenAt previous with
   | Some seen => risk (30 * (1000 * 60 * 60 * 24) <? now c - seen) 10 "long_gap_since_last_login"
   | None => (0, [])
   end].

Definition evaluateLoginAnomaly (c : Call) (userId : string) : M St Anomaly :=
  previous ← getPreviousLoginContext c userId;
  mret (match previous with
        | None => {| detected := false; score := 0; reasons := ["no_prior_context"%string] |}
        | Some p =>
            let total := sumZ fst (anomaly_parts c p) in
            {| detected := anomalyRiskThreshold cfg <=? total; score := total;
               reasons := concat (snd <$> anomaly_parts c p) |}
        end).

Definition new_user (email : string) (googleId : option string) (hash first last : string) : User :=
  {| u_email := email; u_googleId := googleId; u_password := hash; u_firstName := first;
     u_lastName := last; u_role := USER; u_isActive := true; u_mfaEnabled := false;
     u_mfaSecret := None; u_mfaEnabledAt := None; u_mfaRecoveryCodeHashes := [];
     u_mfaRecoveryCodesGeneratedAt := None |}.

Definition open_session (c : Call) (id : string) (u : User) : M St SessionResult :=
  tokens ← generateTokens cfg c id u;
  storeLoginContext cfg c id;;
  mret {| sr_tokens := tokens; sr_user := excludePassword id u |}.

Definition register (c : Call) (dto : RegisterDto) : M St SessionResult :=
  existingUser ← find_by_email (rg_email dto);
  match existingUser with
  | Some _ => throw (ConflictException "Email already in use")
  | None =>
      let hashedPassword := bcrypt_hash (rg_password dto) (salt c 0%nat) in
      let user := new_user (rg_email dto) None hashedPassword (rg_firstName dto) (rg_lastName dto) in
      write_user (newUserId c) user;;
      trySync cfg c (newUserId c) user;;
      open_session c (newUserId c) user
  end.

(** Everything before the decision on MFA: locks, captcha and credentials. *)
Definition check_credentials (c : Call) (dto : LoginDto) : M St (string * User) :=
  assertNotLocked c (lg_email dto);;
  assertCaptchaIfNeeded c (lg_email dto) (lg_captchaToken dto);;
  user ← find_by_email (lg_email dto);
  match user with
  | None =>
      registerFailedLogin c (lg_email dto);;
      throw wrong_credentials
  | Some (id, u) =>
      if negb (bcrypt_compare (lg_password dto) (u_password u)) then
        registerFailedLogin c (lg_email dto);;
        throw wrong_credentials
      else if negb (u_isActive u) then
        registerFailedLogin c (lg_email dto);;
        throw deactivated
      else
        clearFailedLogins c (lg_email dto);;
        mret (id, u)
  end.

Definition issue_challenge (c : Call) (id : string) (u : User) (dto : LoginDto) (mode : MfaMode)
    (code : option string) : M St unit :=
  ensureRedisConnected c;;
  let payload := {| ch_userId := id; ch_email := u_email u;
                    ch_fingerprint := RequestSecurity.buildRequestFingerprint (req c);
                    ch_rememberMe := lg_rememberMe dto; ch_mode := mode; ch_code := code |} in
  redis_set c (getMfaChallengeKey (newChallengeId c)) (RJson (Challenge payload)) (mfaTtlSeconds cfg).

Definition login (c : Call) (dto : LoginDto) : M St LoginResult :=
  iu ← check_credentials c dto;
  let '(id, u) := iu in
  trySync cfg c id u;;
  anomaly ← evaluateLoginAnomaly c id;
  throw_if (detected anomaly && match anomalyMode cfg with block => true | log => false end)
    suspicious;;
  if u_mfaEnabled u && opt_truthy (u_mfaSecret u) then
    issue_challenge c id u dto totp None;;
    mret (MfaRequired (newChallengeId c) "MFA verification required" None)
  else if adminMfaEnabled cfg && bool_decide (u_role u = ADMIN) then
    if negb (mfaTempBootstrapEnabled cfg) then
      mret (MfaEnrollmentRequired "Admin MFA is required but not configured. Sign in once via a bootstrap flow and complete /auth/mfa/setup.")
    else
      let code := Totp.generateMfaCode (randomCode c) in
      issue_challenge c id u dto temporary (Some code);;
      mret (MfaRequired (newChallengeId c) "MFA verification required for admin account" (Some code))
  else
    r ← open_session c id u;
    mret (Session r).

(** The names a new Google account gets. *)
Definition inferred_names (p : Profile) : string * string :=
  let displayName := js_trim (opt_or (gp_displayName p) "") in
  let givenName := js_trim (opt_or (gp_givenName p) "") in
  let familyName := js_trim (opt_or (gp_familyName p) "") in
  let words := js_split " " displayName in
  (str_or givenName (opt_or (head words) "Google"),
   str_or familyName (str_or (js_join " " (tail words)) "User")).

Definition with_googleId (g : string) (u : User) : User :=
  {| u_email := u_email u; u_googleId := Some g; u_password := u_password u;
     u_firstName := u_firstName u; u_lastName := u_lastName u; u_role := u_role u;
     u_isActive := u_isActive u; u_mfaEnabled := u_mfaEnabled u; u_mfaSecret := u_mfaSecret u;
     u_mfaEnabledAt := u_mfaEnabledAt u;
     u_mfaRecoveryCodeHashes := u_mfaRecoveryCodeHashes u;
     u_mfaRecoveryCodesGeneratedAt := u_mfaRecoveryCodesGeneratedAt u |}.

Definition lift {A} (o : outcome A) : M St A :=
  match o with Ret a => mret a | Throw e => throw e end.

(** The account of a profile: found by email, or created when the intent
    cookie asks for it; [None] is the account_not_found answer. *)
Definition google_account (c : Call) (email : string) (allowCreate : bool) (p : Profile)
    : M St (option (string * User)) :=
  found ← find_by_email email;
  match found with
  | Some iu => mret (Some iu)
  | None =>
      if negb allowCreate then mret None
      else
        let hashedPassword := bcrypt_hash (random32hex c) (salt c 0%nat) in
        let '(first, last) := inferred_names p in
        let user := new_user email (Some (gp_id p)) hashedPassword first last in
        write_user (newUserId c) user;;
        mret (Some (newUserId c, user))
  end.

Definition findOrCreateGoogleUser (c : Call) (p : Profile) : M St GoogleResult :=
  let email := toLowerCase (js_trim (default "" (gp_email p))) in
  if negb (truthy email) then
    mret (GoogleError "google_email_missing" "Google profile is missing an email address")
  else
    cookie ← lift (RequestSecurity.parseCookie (req c) "google_intent");
    let intent := toLowerCase (opt_or cookie "login") in
    account ← google_account c email (bool_decide (intent = "register"%string)) p;
    match account with
    | None => mret (GoogleError "account_not_found" "Account does not exist")
    | Some (id, u) =>
        if negb (u_isActive u) then
          mret (GoogleError "account_inactive" "Account is deactivated")
        else
          u' ← (if negb (bool_decide (u_googleId u = Some (gp_id p))) || negb (truthy (gp_id p))
                then write_user id (with_googleId (gp_id p) u);; mret (with_googleId (gp_id p) u)
                else mret u);
          trySync cfg c id u';;
          r ← open_session c id u';
          mret (GoogleSession r)
    end.
End login.

(** ** Theorems *)

Section theorems.
Context {T : Type → Type} `{DatabaseLaws T} {RS : Type} `{RedisLaws RS AuthPayload}.
Context `{Hashing} `{Bcrypt} `{Jwt} `{Timespan} `{UriCodec}.
Abbreviation St := (AuthState T RS).
Variable cfg : Config.
Implicit Types s : St.

(** *** What a successful login has been through *)

Lemma assertNotLocked_inv c email s s' :
  assertNotLocked c email s = (s', Ret tt) →
  s' = s ∧ redisUp c = true ∧
  r_ttl (O:=AuthPayload) (getLockKey email) (now c) (redis s) <= 0.
Proof.
  unfold assertNotLocked, ensureRedisConnected, redis_ttl. destruct (redisUp c); m_red; [|done].
  case_match eqn:E; [done|]. apply Z.ltb_ge in E. by intros [= <-].
Qed.

Lemma assertCaptcha_frame c email tok s : (assertCaptchaIfNeeded cfg c email tok s).1 = s.
Proof.
  unfold assertCaptchaIfNeeded, isCaptchaRequired, ensureRedisConnected, redis_get.
  destruct (captchaEnabled cfg); [|done]. destruct (redisUp c); [|done]. m_red.
  destruct (negb _); [done|]. destruct (negb (truthy _)); [done|]. by destruct (_ && _).
Qed.

Lemma check_credentials_inv c dto s s' id u :
  check_credentials cfg c dto s = (s', Ret (id, u)) →
  redisUp c = true ∧ r_ttl (O:=AuthPayload) (getLockKey (lg_email dto)) (now c) (redis s) <= 0 ∧
  rows (users s) !! id = Some u ∧ u_email u = lg_email dto ∧
  bcrypt_compare (lg_password dto) (u_password u) = true ∧ u_isActive u = true ∧
  s' = set_redis (r_del (O:=AuthPayload) [getFailKey (lg_email dto); getLockKey (lg_email dto)]
                    (redis s)) s.
Proof.
  unfold check_credentials. intros Hc. apply bind_Ret_inv in Hc as ([] & s1 & Hl & Hc).
  apply assertNotLocked_inv in Hl as (-> & Hup & Httl).
  apply bind_Ret_inv in Hc as ([] & s1 & Hcap & Hc).
  pose proof (assertCaptcha_frame c (lg_email dto) (lg_captchaToken dto) s) as Hs1.
  rewrite Hcap in Hs1. simpl in Hs1. subst s1.
  apply bind_Ret_inv in Hc as (found & s1 & [= <- <-] & Hc).
  destruct (find_first _ _) as [[id' u']|] eqn:E; [|by apply then_throw in Hc].
  apply find_first_Some in E as [E1 E2%bool_decide_eq_true].
  destruct (bcrypt_compare _ _) eqn:E3; [|by apply then_throw in Hc].
  destruct (u_isActive u') eqn:E4; [|by apply then_throw in Hc]. simpl in Hc.
  unfold clearFailedLogins, ensureRedisConnected, redis_del in Hc. rewrite Hup in Hc. m_red.
  by simplify_eq.
Qed.

Lemma trySync_frame c id u s :
  ∃ l, trySync cfg c id u s = (set_synced l s, Ret tt).
Proof.
  unfold trySync, syncUserProjection. destruct (negb _).
  { exists (synced s). by destruct s. }
  m_red. case_matches; by eauto.
Qed.

Lemma evaluateLoginAnomaly_frame c id s s' a :
  evaluateLoginAnomaly cfg c id s = (s', Ret a) → s' = s.
Proof.
  unfold evaluateLoginAnomaly, getPreviousLoginContext, ensureRedisConnected, redis_get.
  destruct (redisUp c); m_red; [|done]. by intros [= <- _].
Qed.

(** A second factor is due for this user under this configuration. *)
Definition mfa_due (u : User) : bool :=
  (u_mfaEnabled u && opt_truthy (u_mfaSecret u))
  || (adminMfaEnabled cfg && bool_decide (u_role u = ADMIN)).


(** *** The lockout *)

(** Credentials [check_credentials] refuses. *)
Definition bad_credentials (t : T User) (dto : LoginDto) : Prop :=
  match find_first (λ _ u, bool_decide (u_email u = lg_email dto)) t with
  | None => True
  | Some (_, u) => bcrypt_compare (lg_password dto) (u_password u) = false ∨ u_isActive u = false
  end.

Definition status_of {A} (o : outcome A) : option Z :=
  match o with Throw (HttpException st _) => Some st | _ => None end.

Lemma key_lock_fail e1 e2 : getLockKey e1 ≠ getFailKey e2.
Proof. discriminate. Qed.
Lemma key_fail_lock e1 e2 : getFailKey e1 ≠ getLockKey e2.
Proof. discriminate. Qed.
Lemma key_fail_streak e1 e2 : getFailKey e1 ≠ getLockStreakKey e2.
Proof. discriminate. Qed.
Lemma key_lower e1 e2 : toLowerCase e1 = toLowerCase e2 →
  getLockKey e1 = getLockKey e2 ∧ getFailKey e1 = getFailKey e2.
Proof. unfold getLockKey, getFailKey. by intros ->. Qed.

(** While the counter is below the limit: [n] failures counted until [e]. *)
Record counting (email : string) (t n e : Z) (s : St) : Prop := {
  cnt_lock : r_look (redis s) t (getLockKey email) = None;
  cnt_fail : r_look (redis s) t (getFailKey email) =
             if n =? 0 then None else Some (RInt n, Some e);
}.

Lemma counting_later email t t' n e s :
  counting email t n e s → t <= t' → t' < e → counting email t' n e s.
Proof.
  intros [Hl Hf] Hle He. split.
  - rewrite (look_later _ t) by done. by rewrite Hl.
  - rewrite (look_later _ t) by done. rewrite Hf. destruct (n =? 0); [done|].
    simpl. apply Z.ltb_lt in He. by rewrite He.
Qed.

(** One more failure: the counter is incremented until the same instant. *)
Lemma incr_counting c email n e s :
  counting email (now c) n e s → 0 <= n → now c < e →
  (n = 0 → e = now c + lockWindowSeconds cfg * 1000) →
  let s1 := (redis_incr c (getFailKey email);;
             when (n + 1 =? 1) (redis_expire c (getFailKey email) (lockWindowSeconds cfg))) s in
  (redis_incr c (getFailKey email) s).2 = Ret (n + 1) ∧
  s1.2 = Ret tt ∧ users s1.1 = users s ∧ counting email (now c) (n + 1) e s1.1.
Proof.
  intros [Hl Hf] Hn He H0e. unfold redis_incr, redis_expire. m_red.
  destruct (Z.eqb_spec n 0) as [->|Hne]; simpl.
  - destruct (incr_missing _ _ _ Hf) as [-> Hlook]. split_and!; [done..|]. split; simpl.
    + rewrite look_expire by lia. rewrite decide_False by apply key_fail_lock.
      rewrite Hlook by lia. by rewrite decide_False by apply key_fail_lock.
    + rewrite look_expire by lia. rewrite decide_True by done. rewrite Hlook by lia.
      rewrite decide_True by done. rewrite H0e in * by done. apply Z.ltb_lt in He. by rewrite He.
  - destruct (incr_present _ _ _ _ _ Hf) as [-> Hlook].
    destruct (Z.eqb_spec (n + 1) 1); [lia|]. simpl. split_and!; [done..|].
    destruct (Z.eqb_spec (n + 1) 0); [lia|]. split; simpl; rewrite Hlook by lia.
    + by rewrite decide_False by apply key_fail_lock.
    + destruct (Z.eqb_spec (n + 1) 0); [lia|]. rewrite decide_True by done. simpl.
      apply Z.ltb_lt in He. by rewrite He.
Qed.

Definition min_lock_seconds : Z := Z.min (lockMaxSeconds cfg) (lockWindowSeconds cfg).

Lemma lock_seconds_ge streak : config_ok cfg → min_lock_seconds <= lock_seconds cfg streak.
Proof.
  intros [Hw Hm _ _ _ _ _ _ _]. unfold min_lock_seconds, lock_seconds.
  assert (1 <= lockProgressiveMultiplier cfg ^ Z.max 0 (streak - 1)).
  { rewrite <-(Z.pow_1_l (Z.max 0 (streak - 1))) at 1 by lia. apply Z.pow_le_mono_l. lia. }
  nia.
Qed.

(** The lock is set until at least [t]. *)
Definition locked_until (email : string) (t0 t : Z) (s : St) : Prop :=
  ∃ e v, t <= e ∧ ∀ t', t0 <= t' → t' < t →
    r_look (redis s) t' (getLockKey email) = Some (v, Some e).

Lemma registerFailedLogin_counting c email n e s :
  config_ok cfg → redisUp c = true → counting email (now c) n e s → 0 <= n → now c < e →
  (n = 0 → e = now c + lockWindowSeconds cfg * 1000) →
  let '(s', o) := registerFailedLogin cfg c email s in
  users s' = users s ∧
  if maxFailedAttempts cfg <=? n + 1
  then status_of o = Some 429 ∧
       locked_until email (now c) (now c + min_lock_seconds * 1000) s'
  else o = Ret tt ∧ counting email (now c) (n + 1) e s'.
Proof.
  intros Hcfg Hup Hc Hn He H0e.
  destruct (incr_counting _ _ _ _ _ Hc Hn He H0e) as (Hi & Hr & Hu & Hcnt).
  unfold registerFailedLogin, ensureRedisConnected. rewrite Hup.
  unfold redis_incr, mbind, M_bind in *. simpl in *. injection Hi as Hi. rewrite Hi in *.
  destruct (when _ _ _) as [s1 [[]|?]] eqn:Ew; [|done]. simpl in *.
  destruct (maxFailedAttempts cfg <=? n + 1); [|done].
  unfold redis_expire, redis_set. m_red. split; [done|]. split; [done|].
  exists (now c + lock_seconds cfg (r_incr (getLockStreakKey email) (now c) (redis s1)).1 * 1000), (RText "1").
  pose proof (lock_seconds_ge (r_incr (getLockStreakKey email) (now c) (redis s1)).1 Hcfg).
  split; [lia|]. intros t' Hlo Hhi. simpl. rewrite look_set_ex by done. rewrite decide_True by done.
  destruct (Z.ltb_spec t' (now c + lock_seconds cfg (r_incr (getLockStreakKey email) (now c) (redis s1)).1 * 1000)); [done|lia].
Qed.

Lemma login_throws c dto s s' e :
  check_credentials cfg c dto s = (s', Throw e) → login cfg c dto s = (s', Throw e).
Proof. unfold login. apply bind_throw. Qed.

(** A refused login with no lock counts one more failure. *)
Lemma bad_login_counts c dto n e s :
  config_ok cfg → captchaEnabled cfg = false → redisUp c = true →
  bad_credentials (users s) dto → counting (lg_email dto) (now c) n e s → 0 <= n → now c < e →
  (n = 0 → e = now c + lockWindowSeconds cfg * 1000) →
  let '(s', o) := login cfg c dto s in
  users s' = users s ∧
  if maxFailedAttempts cfg <=? n + 1
  then status_of o = Some 429 ∧
       locked_until (lg_email dto) (now c) (now c + min_lock_seconds * 1000) s'
  else status_of o = Some 401 ∧ counting (lg_email dto) (now c) (n + 1) e s'.
Proof.
  intros Hcfg Hcap Hup Hbad Hcnt Hn He H0e.
  pose proof (registerFailedLogin_counting c (lg_email dto) n e s Hcfg Hup Hcnt Hn He H0e) as Hreg.
  assert (Hc : ∃ ex, (ex = wrong_credentials ∨ ex = deactivated) ∧
    check_credentials cfg c dto s = (registerFailedLogin cfg c (lg_email dto);; throw ex) s).
  { unfold check_credentials, assertNotLocked, assertCaptchaIfNeeded, isCaptchaRequired,
      ensureRedisConnected, redis_ttl, find_by_email. rewrite Hcap, Hup.
    unfold bad_credentials in Hbad. destruct Hcnt as [Hl _]. unfold mbind, M_bind. simpl.
    rewrite (ttl_missing _ _ _ Hl). simpl.
    destruct (find_first _ _) as [[id u]|]; [|by eauto].
    destruct (bcrypt_compare _ _) eqn:E3; simpl; [|by eauto].
    destruct (u_isActive u) eqn:E4; simpl; [|by eauto]. naive_solver. }
  destruct Hc as (ex & Hex & Hc). unfold mbind, M_bind in Hc.
  destruct (registerFailedLogin _ _ _ _) as [s1 [[]|ex']] eqn:Er; simpl in Hc;
    rewrite (login_throws _ _ _ _ _ Hc); destruct Hreg as [Hu Hreg]; (split; [done|]).
  - destruct (maxFailedAttempts cfg <=? n + 1); [by destruct Hreg|].
    split; [by destruct Hex as [-> | ->]|]. by destruct Hreg.
  - destruct (maxFailedAttempts cfg <=? n + 1); [done|]. by destruct Hreg.
Qed.

Lemma login_locked c dto t0 t s :
  redisUp c = true → locked_until (lg_email dto) t0 t s → t0 <= now c → now c + 1000 <= t →
  ∃ ttl, login cfg c dto s = (s, Throw (too_many ttl)).
Proof.
  intros Hup (e & v & Het & Hl) Hlo Hhi. specialize (Hl (now c) Hlo ltac:(lia)).
  pose proof (ttl_bounds _ _ _ _ _ Hl) as [Hb _].
  assert (Hpos : 1 <= (e - now c) / 1000) by (apply Z.div_le_lower_bound; lia).
  eexists. apply login_throws. unfold check_credentials. apply bind_throw.
  unfold assertNotLocked, ensureRedisConnected, redis_ttl. rewrite Hup. m_red.
  destruct (Z.ltb_spec 0 (r_ttl (O:=AuthPayload) (getLockKey (lg_email dto)) (now c) (redis s)));
    [done|lia].
Qed.

(** The requests of an attacker, one after the other. *)
Fixpoint attempts (l : list (Call * LoginDto)) (s : St) : St * list (option Z) :=
  match l with
  | [] => (s, [])
  | (c, dto) :: l' =>
      let '(s1, o) := login cfg c dto s in
      let '(s2, os) := attempts l' s1 in (s2, status_of o :: os)
  end.

(** Requests on one account, with wrong credentials, in the order of time. *)
Fixpoint guesses (email : string) (t : T User) (lo hi : Z) (l : list (Call * LoginDto)) : Prop :=
  match l with
  | [] => True
  | (c, dto) :: l' =>
      toLowerCase (lg_email dto) = toLowerCase email ∧ bad_credentials t dto ∧
      redisUp c = true ∧ lo <= now c < hi ∧ guesses email t (now c) hi l'
  end.

Definition last_time (t0 : Z) (l : list (Call * LoginDto)) : Z :=
  foldl (λ _ cd, now cd.1) t0 l.

Lemma counting_lower e1 e2 t n x s :
  toLowerCase e1 = toLowerCase e2 → counting e1 t n x s → counting e2 t n x s.
Proof. intros [El Ef]%key_lower [Hl Hf]. split; by rewrite <-?El, <-?Ef. Qed.
Lemma locked_lower e1 e2 t0 t s :
  toLowerCase e1 = toLowerCase e2 → locked_until e1 t0 t s → locked_until e2 t0 t s.
Proof. intros [El _]%key_lower. unfold locked_until. by rewrite El. Qed.

Lemma attempts_lock email e l : ∀ t n s,
  config_ok cfg → captchaEnabled cfg = false → guesses email (users s) t e l →
  counting email t n e s → 1 <= n → n + Z.of_nat (length l) = maxFailedAttempts cfg → l ≠ [] →
  let '(s', os) := attempts l s in
  os = replicate (length l - 1) (Some 401) ++ [Some 429] ∧
  locked_until email (last_time t l) (last_time t l + min_lock_seconds * 1000) s'.
Proof.
  induction l as [|[c dto] l IH]; intros t n s Hcfg Hcap Hg Hcnt Hn Hlen Hne; [done|].
  destruct Hg as (Hlow & Hbad & Hup & Ht & Hg). simpl length in Hlen.
  pose proof (counting_later _ _ (now c) _ _ _ Hcnt ltac:(lia) ltac:(lia)) as Hcnt1.
  apply (counting_lower email (lg_email dto)) in Hcnt1; [|done].
  pose proof (bad_login_counts c dto n e s Hcfg Hcap Hup Hbad Hcnt1 ltac:(lia) ltac:(lia) ltac:(lia)) as Hstep.
  cbn [attempts]. destruct (login cfg c dto s) as [s1 o]. destruct Hstep as [Hu Hstep].
  destruct l as [|cd l].
  - simpl in *. destruct (Z.leb_spec (maxFailedAttempts cfg) (n + 1)); [|lia].
    destruct Hstep as [-> Hlk]. split; [done|]. by eapply locked_lower.
  - simpl length in Hlen. destruct (Z.leb_spec (maxFailedAttempts cfg) (n + 1)); [lia|].
    destruct Hstep as [-> Hcnt2]. rewrite <-Hu in Hg.
    specialize (IH (now c) (n + 1) s1 Hcfg Hcap Hg (counting_lower _ _ _ _ _ _ Hlow Hcnt2)
      ltac:(lia) ltac:(simpl length; lia) ltac:(done)).
    destruct (attempts (cd :: l) s1) as [s2 os]. destruct IH as [-> IH]. split; [|done].
    simpl length. rewrite !Nat.sub_succ, !Nat.sub_0_r. done.
Qed.

End theorems.
End AuthLogin.
