(* ===== verification/AuthMfa.v ===== *)
(** * AuthMfa: the second factor

    The MFA half of services/auth/src/auth/auth.service.ts: verification of a
    login challenge, enrolment, recovery codes, status and audit trail. *)

From Stdlib Require Import ZArith Lia Ascii String.
From stdpp Require Import base list gmap strings.
From S2P Require Import Prelude Text Store Crypto RequestSecurity Totp AuthModel AuthSession AuthLogin.
Import AuthModel AuthSession AuthLogin.

Module AuthMfa.

(** ** Recovery codes *)

Definition normalizeRecoveryCode (input : string) : string :=
  toUpperCase (filter_chars is_alnum (filter_chars (λ c, negb (is_ws c)) input)).

Definition hex_digit (n : Z) : ascii :=
  ascii_of_nat (Z.to_nat (if n <? 10 then 48 + n else 87 + n)).
(** [Buffer.toString("hex")] *)
Definition hex (bytes : list Z) : list ascii :=
  concat ((λ b, [hex_digit (b / 16); hex_digit (b mod 16)]) <$> bytes).

(** [`${raw.slice(0, 4)}-${raw.slice(4, 8)}`] *)
Definition recovery_code (bytes : list Z) : string :=
  let raw := char_upper <$> hex bytes in
  str (take 4 raw ++ "-"%char :: take 4 (drop 4 raw)).

Definition generateRecoveryCodes (cfg : Config) (c : Call) : list string :=
  (λ i, recovery_code (randomRecovery c i)) <$> seq 0 (Z.to_nat (mfaRecoveryCodesCount cfg)).

(** verify-mfa.dto.ts: [@Length(6, 6) @Matches(/^\d{6}$/) code]. *)
Definition VerifyMfaDto_code (code : string) : bool := Totp.six_digits code.

Definition with_recovery (hashes : list string) (generatedAt : option Z) (u : User) : User :=
  {| u_email := u_email u; u_googleId := u_googleId u; u_password := u_password u;
     u_firstName := u_firstName u; u_lastName := u_lastName u; u_role := u_role u;
     u_isActive := u_isActive u; u_mfaEnabled := u_mfaEnabled u; u_mfaSecret := u_mfaSecret u;
     u_mfaEnabledAt := u_mfaEnabledAt u; u_mfaRecoveryCodeHashes := hashes;
     u_mfaRecoveryCodesGeneratedAt := generatedAt |}.

Definition with_mfa (enabled : bool) (secret : option string) (hashes : list string)
    (generatedAt enabledAt : option Z) (u : User) : User :=
  {| u_email := u_email u; u_googleId := u_googleId u; u_password := u_password u;
     u_firstName := u_firstName u; u_lastName := u_lastName u; u_role := u_role u;
     u_isActive := u_isActive u; u_mfaEnabled := enabled; u_mfaSecret := secret;
     u_mfaEnabledAt := enabledAt; u_mfaRecoveryCodeHashes := hashes;
     u_mfaRecoveryCodesGeneratedAt := generatedAt |}.

Record VerifyResult := {
  vr_tokens : Tokens; vr_id : string; vr_email : string; vr_role : Role; vr_rememberMe : bool }.
Record SetupResult := {
  st_mfaEnabled : bool; st_setupExpiresInSeconds : Z; st_secret : string;
  st_otpAuthUrl : string; st_issuer : string; st_accountName : string }.
Record MfaStatus := {
  ms_mfaEnabled : bool; ms_mfaEnabledAt : option Z; ms_recoveryCodesRemaining : Z;
  ms_recoveryCodesGeneratedAt : option Z }.
Record MfaAuditEntry := {
  ae_action : string; ae_ip : string; ae_userAgent : string; ae_createdAt : Z;
  ae_metadata : option MfaMeta }.

Definition expired_challenge : exn := UnauthorizedException "MFA challenge expired or invalid".
Definition invalid_code : exn := UnauthorizedException "Invalid MFA code".
Definition too_many_codes : exn :=
  TooManyRequests "Too many failed MFA attempts. Start login again.".

Section mfa.
Context {T : Type → Type} `{Database T} {RS : Type} `{Redis RS AuthPayload}.
Context `{Hashing} `{Bcrypt} `{Jwt} `{Timespan} `{Hmac}.
Abbreviation St := (AuthState T RS).
Variable cfg : Config.

Definition hashRecoveryCodes (c : Call) (codes : list string) : list string :=
  imap (λ i code, bcrypt_hash (normalizeRecoveryCode code) (salt c i)) codes.

(** The loop over [hashes]: the first one the code matches. *)
Fixpoint matchedIndex (normalized : string) (hashes : list string) : option nat :=
  match hashes with
  | [] => None
  | h :: rest =>
      if bcrypt_compare normalized h then Some O else S <$> matchedIndex normalized rest
  end.

(** [hashes.splice(matchedIndex, 1)] *)
Definition splice (i : nat) (l : list string) : list string := take i l ++ drop (S i) l.

Definition consumeRecoveryCode (userId code : string) : M St bool :=
  let normalized := normalizeRecoveryCode code in
  if js_length normalized <? 8 then mret false
  else
    user ← find_user userId;
    match user with
    | None => mret false
    | Some u =>
        match matchedIndex normalized (u_mfaRecoveryCodeHashes u) with
        | None => mret false
        | Some i =>
            let hashes := splice i (u_mfaRecoveryCodeHashes u) in
            write_user userId (with_recovery hashes (u_mfaRecoveryCodesGeneratedAt u) u);;
            mret true
        end
    end.

(** The code against the challenge's mode. *)
Definition code_is_valid (c : Call) (payload : MfaChallengePayload) (u : User) (code : string)
    : M St bool :=
  match ch_mode payload with
  | totp =>
      ok ← (if opt_truthy (u_mfaSecret u)
            then lift (Totp.verifyTotpCode (default "" (u_mfaSecret u)) code 1 (now c))
            else mret false);
      if (ok : bool) then mret true
      else
        consumed ← consumeRecoveryCode (ch_userId payload) code;
        if (consumed : bool) then logMfaAudit c (ch_userId payload) "recovery_code_used" None;; mret true
        else mret false
  | temporary =>
      mret (opt_truthy (ch_code payload) && safeCodeEqual (default "" (ch_code payload)) code)
  end.

Definition verifyAdminMfa (c : Call) (challengeId code : string) : M St VerifyResult :=
  ensureRedisConnected c;;
  let challengeKey := getMfaChallengeKey challengeId in
  let attemptsKey := getMfaAttemptsKey challengeId in
  rawPayload ← redis_get c challengeKey;
  match present rawPayload with
  | None => throw expired_challenge
  | Some (RText _) =>
      redis_del [challengeKey; attemptsKey];;
      throw (UnauthorizedException "MFA challenge is corrupted")
  | Some (RJson (Challenge payload)) =>
      if negb (bool_decide (ch_fingerprint payload =
                            RequestSecurity.buildRequestFingerprint (req c))) then
        redis_del [challengeKey; attemptsKey];;
        throw (UnauthorizedException "MFA challenge fingerprint mismatch")
      else
        user ← find_user (ch_userId payload);
        match user with
        | None => throw (UnauthorizedException "User not found or inactive")
        | Some u =>
            throw_if (negb (u_isActive u)) (UnauthorizedException "User not found or inactive");;
            isValidCode ← code_is_valid c payload u code;
            if negb isValidCode then
              attempts ← redis_incr c attemptsKey;
              when (attempts =? 1) (redis_expire c attemptsKey (mfaTtlSeconds cfg));;
              if mfaMaxAttempts cfg <=? attempts then
                redis_del [challengeKey; attemptsKey];;
                throw too_many_codes
              else throw invalid_code
            else
              redis_del [challengeKey; attemptsKey];;
              tokens ← generateTokens cfg c (ch_userId payload) u;
              storeLoginContext cfg c (ch_userId payload);;
              mret {| vr_tokens := tokens; vr_id := ch_userId payload; vr_email := u_email u;
                      vr_role := u_role u; vr_rememberMe := ch_rememberMe payload |}
        end
  | Some _ =>
      (* a JSON document without a fingerprint *)
      redis_del [challengeKey; attemptsKey];;
      throw (UnauthorizedException "MFA challenge fingerprint mismatch")
  end.

(** ** Enrolment *)

Definition setupAdminTotp `{UriCodec} (c : Call) (userId : string) : M St SetupResult :=
  user ← find_user userId;
  match user with
  | None => throw (UnauthorizedException "Only authenticated users can configure MFA")
  | Some u =>
      ensureRedisConnected c;;
      let secret := Totp.generateTotpSecret (random20 c) in
      let setupPayload :=
        {| su_userId := userId; su_email := u_email u; su_secret := secret;
           su_fingerprint := RequestSecurity.buildRequestFingerprint (req c) |} in
      redis_set c (getMfaSetupKey userId) (RJson (PendingSetup setupPayload))
        (mfaSetupTtlSeconds cfg);;
      mret {| st_mfaEnabled := u_mfaEnabled u;
              st_setupExpiresInSeconds := mfaSetupTtlSeconds cfg; st_secret := secret;
              st_otpAuthUrl := Totp.buildOtpAuthUrl secret
                (mfaIssuer cfg +:+ ":" +:+ u_email u) (mfaIssuer cfg);
              st_issuer := mfaIssuer cfg; st_accountName := u_email u |}
  end.

Definition setupAdminTotpWithPassword `{UriCodec} (c : Call) (userId currentPassword : string)
    : M St SetupResult :=
  assertCurrentPassword userId currentPassword;;
  result ← setupAdminTotp c userId;
  logMfaAudit c userId "setup_issued"
    (Some (SetupIssued (st_setupExpiresInSeconds result) (st_mfaEnabled result)));;
  mret result.

Definition enableAdminTotp (c : Call) (userId code : string) : M St (list string) :=
  ensureRedisConnected c;;
  let setupKey := getMfaSetupKey userId in
  rawSetup ← redis_get c setupKey;
  match present rawSetup with
  | None => throw (UnauthorizedException "MFA setup session expired. Re-run setup.")
  | Some (RText _) =>
      redis_del [setupKey];;
      throw (UnauthorizedException "MFA setup session is invalid")
  | Some (RJson (PendingSetup setup)) =>
      throw_if (negb (bool_decide (su_userId setup = userId)))
        (UnauthorizedException "MFA setup does not belong to current user");;
      if negb (bool_decide (su_fingerprint setup =
                            RequestSecurity.buildRequestFingerprint (req c))) then
        redis_del [setupKey];;
        throw (UnauthorizedException "MFA setup fingerprint mismatch")
      else
        ok ← lift (Totp.verifyTotpCode (su_secret setup) code 1 (now c));
        throw_if (negb ok) (UnauthorizedException "Invalid TOTP code");;
        user ← find_user userId;
        match user with
        | None => throw (UnauthorizedException "Only authenticated users can configure MFA")
        | Some u =>
            let plainRecoveryCodes := generateRecoveryCodes cfg c in
            let hashedRecoveryCodes := hashRecoveryCodes c plainRecoveryCodes in
            write_user userId
              (with_mfa true (Some (su_secret setup)) hashedRecoveryCodes (Some (now c))
                 (Some (now c)) u);;
            redis_del [setupKey];;
            logMfaAudit c userId "setup_enabled"
              (Some (RecoveryCodesCount (Z.of_nat (length plainRecoveryCodes))));;
            mret plainRecoveryCodes
        end
  | Some _ => throw (UnauthorizedException "MFA setup does not belong to current user")
  end.

Definition disableAdminTotp (c : Call) (userId currentPassword : string) : M St bool :=
  u ← assertCurrentPassword userId currentPassword;
  write_user userId (with_mfa false None [] None None u);;
  ensureRedisConnected c;;
  redis_del [getMfaSetupKey userId];;
  logMfaAudit c userId "setup_disabled" None;;
  mret false.

Definition regenerateRecoveryCodes (c : Call) (userId currentPassword : string)
    : M St (list string) :=
  u ← assertCurrentPassword userId currentPassword;
  throw_if (negb (u_mfaEnabled u))
    (UnauthorizedException "Enable MFA before generating recovery codes");;
  let plainRecoveryCodes := generateRecoveryCodes cfg c in
  let hashedRecoveryCodes := hashRecoveryCodes c plainRecoveryCodes in
  write_user userId (with_recovery hashedRecoveryCodes (Some (now c)) u);;
  logMfaAudit c userId "recovery_codes_regenerated"
    (Some (RecoveryCodesCount (Z.of_nat (length plainRecoveryCodes))));;
  mret plainRecoveryCodes.

Definition getMfaStatus (userId : string) : M St MfaStatus :=
  user ← find_user userId;
  match user with
  | None => throw (UnauthorizedException "Only authenticated users can view MFA status")
  | Some u =>
      mret {| ms_mfaEnabled := u_mfaEnabled u; ms_mfaEnabledAt := u_mfaEnabledAt u;
              ms_recoveryCodesRemaining := Z.of_nat (length (u_mfaRecoveryCodeHashes u));
              ms_recoveryCodesGeneratedAt := u_mfaRecoveryCodesGeneratedAt u |}
  end.

Definition getMfaAuditTrail (userId : string) : M St (list MfaAuditEntry) :=
  user ← find_user userId;
  match user with
  | None => throw (UnauthorizedException "Only authenticated users can view MFA audit trail")
  | Some _ =>
      rows ← gets (λ s, take 20 (select_desc ma_createdAt
                                   (λ _ r, bool_decide (ma_userId r = userId)) (mfaAuditLogs s)));
      mret ((λ kr, {| ae_action := ma_action kr.2; ae_ip := opt_or (ma_ip kr.2) "unknown";
                      ae_userAgent := opt_or (ma_userAgent kr.2) "unknown";
                      ae_createdAt := ma_createdAt kr.2; ae_metadata := ma_metadata kr.2 |}) <$> rows)
  end.
End mfa.

(** ** Theorems *)

(** *** Texts of recovery codes *)

Lemma js_length_str l : js_length (str l) = Z.of_nat (length l).
Proof. unfold js_length. induction l as [|a l IH]; simpl in *; [done|]. lia. Qed.

Lemma normalize_chars code :
  normalizeRecoveryCode code =
    str (char_upper <$> List.filter is_alnum (List.filter (λ c, negb (is_ws c)) (chars code))).
Proof. unfold normalizeRecoveryCode, toUpperCase, map_chars, filter_chars. by rewrite !chars_str. Qed.

Lemma filter_length_le {A} (p : A → bool) l : (length (List.filter p l) <= length l)%nat.
Proof. induction l as [|a l IH]; simpl; [done|]. destruct (p a); simpl; lia. Qed.

Lemma normalize_length_le code :
  js_length (normalizeRecoveryCode code) <= Z.of_nat (length (chars code)).
Proof.
  rewrite normalize_chars, js_length_str, length_fmap.
  pose proof (filter_length_le is_alnum (List.filter (λ c, negb (is_ws c)) (chars code))).
  pose proof (filter_length_le (λ c, negb (is_ws c)) (chars code)). lia.
Qed.

(** An upper-case hexadecimal digit. *)
Definition is_HEX (c : ascii) : bool := is_digit c || ((65 <=? code c) && (code c <=? 70)).

Lemma upper_hex_digit n : 0 <= n < 16 → is_HEX (char_upper (hex_digit n)) = true.
Proof.
  intros Hn.
  assert (Hall : Forall (λ n, is_HEX (char_upper (hex_digit n)) = true) (Z.of_nat <$> seq 0 16))
    by (repeat constructor).
  rewrite Forall_forall in Hall. apply Hall. apply list_elem_of_fmap.
  exists (Z.to_nat n). rewrite elem_of_seq. lia.
Qed.

Lemma HEX_kept c : is_HEX c = true → is_alnum c = true ∧ is_ws c = false.
Proof. unfold is_HEX, is_alnum, is_digit, is_upper, is_ws. lia. Qed.

Lemma hex_HEX bytes : Forall is_byte bytes →
  Forall (λ c, is_HEX c = true) (char_upper <$> hex bytes) ∧
  length (hex bytes) = (2 * length bytes)%nat.
Proof.
  induction 1 as [|b bytes Hb _ [IH1 IH2]]; [done|]. unfold is_byte in Hb.
  change (hex (b :: bytes)) with (hex_digit (b / 16) :: hex_digit (b mod 16) :: hex bytes).
  split; [|simpl; lia].
  repeat constructor; [apply upper_hex_digit; split; [apply Z.div_pos|apply Z.div_lt_upper_bound]; lia
    |apply upper_hex_digit, Z.mod_pos_bound; lia|done].
Qed.

Lemma filter_all {A} (p : A → bool) l : Forall (λ c, p c = true) l → List.filter p l = l.
Proof. induction 1 as [|c l Hc _ IH]; simpl; [done|]. by rewrite Hc, IH. Qed.

(** A generated code keeps its eight digits under normalisation. *)
Lemma recovery_code_length bytes :
  Forall is_byte bytes → length bytes = 4%nat →
  js_length (normalizeRecoveryCode (recovery_code bytes)) = 8.
Proof.
  intros Hb Hl. destruct (hex_HEX bytes Hb) as [Hh Hlen].
  unfold recovery_code. set (raw := char_upper <$> hex bytes) in *.
  assert (Hraw : length raw = 8%nat) by (unfold raw; rewrite length_fmap; lia).
  assert (Hk : ∀ l p, Forall (λ c, is_HEX c = true) l → (∀ c, is_HEX c = true → p c = true) →
    List.filter p l = l).
  { intros l p HF Hp. apply filter_all. eapply Forall_impl; [exact HF|]. simpl. eauto. }
  assert (H1 : Forall (λ c, is_HEX c = true) (take 4 raw)) by by apply Forall_take.
  assert (H2 : Forall (λ c, is_HEX c = true) (take 4 (drop 4 raw))) by by apply Forall_take, Forall_drop.
  rewrite normalize_chars, js_length_str, chars_str, length_fmap, !List.filter_app.
  simpl. rewrite (Hk _ (λ c, negb (is_ws c)) H1), (Hk _ (λ c, negb (is_ws c)) H2)
    by (intros c Hc; apply HEX_kept in Hc as [_ ->]; done).
  rewrite (Hk _ is_alnum H1), (Hk _ is_alnum H2) by (intros c Hc; by apply HEX_kept in Hc as [-> _]).
  rewrite length_app, !length_take, length_drop. lia.
Qed.

(** *** Consuming a recovery code *)

Section theorems.
Context {T : Type → Type} `{DatabaseLaws T} {RS : Type} `{RedisLaws RS AuthPayload}.
Context `{Hashing} `{Bcrypt} `{Jwt} `{Timespan} `{Hmac}.
Abbreviation St := (AuthState T RS).
Variable cfg : Config.
Implicit Types s : St.

(** How many stored hashes a code matches. *)
Fixpoint matches (normalized : string) (l : list string) : Z :=
  match l with
  | [] => 0
  | h :: l' => (if bcrypt_compare normalized h then 1 else 0) + matches normalized l'
  end.

Lemma matches_nonneg n l : 0 <= matches n l.
Proof. induction l; simpl; [done|]. case_match; lia. Qed.

Lemma matchedIndex_spec n l :
  match matchedIndex n l with
  | Some i => matches n (splice i l) = matches n l - 1 ∧ 0 < matches n l
  | None => matches n l = 0
  end.
Proof.
  induction l as [|h l IH]; simpl; [done|]. pose proof (matches_nonneg n l).
  destruct (bcrypt_compare n h) eqn:E; simpl.
  - unfold splice. simpl. rewrite drop_0. lia.
  - destruct (matchedIndex n l) as [i|]; simpl; [|done].
    unfold splice in *. simpl. rewrite E. destruct IH. split; lia.
Qed.

(** A recovery code is accepted exactly when it has eight characters left
    after normalisation and matches a stored hash, and accepting it uses up
    one of the hashes it matches: with distinct codes it works once. *)
Theorem consume_recovery_once uid code u s s' b :
  rows (users s) !! uid = Some u → consumeRecoveryCode uid code s = (s', Ret b) →
  let n := normalizeRecoveryCode code in
  (b = true ↔ 8 <= js_length n ∧ 0 < matches n (u_mfaRecoveryCodeHashes u)) ∧
  ∃ hashes, rows (users s') =
      <[uid := with_recovery hashes (u_mfaRecoveryCodesGeneratedAt u) u]> (rows (users s)) ∧
    (b = true → matches n hashes = matches n (u_mfaRecoveryCodeHashes u) - 1) ∧
    (b = false → hashes = u_mfaRecoveryCodeHashes u) ∧
  redis s' = redis s ∧ AuthModel.refreshTokens s' = AuthModel.refreshTokens s.
Proof.
  intros Hu Hc. cbv zeta. unfold consumeRecoveryCode in Hc.
  assert (Hid : with_recovery (u_mfaRecoveryCodeHashes u) (u_mfaRecoveryCodesGeneratedAt u) u = u)
    by by destruct u.
  assert (Hsame : ∀ b', b' = false → s' = s → ∃ hashes, rows (users s') =
      <[uid := with_recovery hashes (u_mfaRecoveryCodesGeneratedAt u) u]> (rows (users s)) ∧
    (b' = true → matches (normalizeRecoveryCode code) hashes =
       matches (normalizeRecoveryCode code) (u_mfaRecoveryCodeHashes u) - 1) ∧
    (b' = false → hashes = u_mfaRecoveryCodeHashes u) ∧
    redis s' = redis s ∧ AuthModel.refreshTokens s' = AuthModel.refreshTokens s).
  { intros b' -> ->. exists (u_mfaRecoveryCodeHashes u). rewrite Hid, insert_id by done. done. }
  destruct (Z.ltb_spec (js_length (normalizeRecoveryCode code)) 8).
  { injection Hc as <- <-. split; [split; [done|lia]|]. by apply Hsame. }
  unfold find_user, find_by_id, write_user in Hc. m_red. rewrite Hu in Hc.
  pose proof (matchedIndex_spec (normalizeRecoveryCode code) (u_mfaRecoveryCodeHashes u)) as Hm.
  destruct (matchedIndex _ _) as [i|].
  - destruct (find_first _ _); [done|]. injection Hc as <- <-. simpl. rewrite rows_put.
    split; [naive_solver|]. eexists. split; [done|]. naive_solver.
  - injection Hc as <- <-. split; [split; [done|lia]|]. by apply Hsame.
Qed.

(** The verification endpoint never redeems a recovery code.  Every code
    the request DTO lets through (six digits) is too short for
    [consumeRecoveryCode], which answers false and changes nothing: the
    recovery codes handed out at enrolment cannot be used to log in. *)
Theorem recovery_code_unreachable uid code s :
  VerifyMfaDto_code code = true → consumeRecoveryCode uid code s = (s, Ret false).
Proof.
  unfold VerifyMfaDto_code, Totp.six_digits. intros [Hl%Nat.eqb_eq _]%andb_true_iff.
  pose proof (normalize_length_le code). unfold consumeRecoveryCode.
  destruct (Z.ltb_spec (js_length (normalizeRecoveryCode code)) 8); [done|lia].
Qed.

Lemma logMfaAudit_frame c uid a meta s :
  ∃ l, logMfaAudit c uid a meta s = (set_mfaAuditLogs l s, Ret tt).
Proof.
  unfold logMfaAudit. m_red. destruct (find_by_id uid (users s)).
  - by eexists.
  - exists (mfaAuditLogs s). by destruct s.
Qed.

Lemma matches_hashed c codes code :
  code ∈ codes → 0 < matches (normalizeRecoveryCode code) (hashRecoveryCodes c codes).
Proof.
  unfold hashRecoveryCodes. intros (i & Hi)%list_elem_of_lookup.
  assert (Hh : bcrypt_hash (normalizeRecoveryCode code) (salt c i) ∈
    imap (λ i code, bcrypt_hash (normalizeRecoveryCode code) (salt c i)) codes).
  { apply list_elem_of_lookup. exists i. by rewrite list_lookup_imap, Hi. }
  revert Hh. generalize (imap (λ i code, bcrypt_hash (normalizeRecoveryCode code) (salt c i)) codes).
  induction l as [|h l IH]; intros Hin; [by apply not_elem_of_nil in Hin|]. simpl.
  pose proof (matches_nonneg (normalizeRecoveryCode code) l).
  apply elem_of_cons in Hin as [<-|Hin].
  - rewrite bcrypt_compare_hash. lia.
  - specialize (IH Hin). case_match; lia.
Qed.

(** The randomness of a call: four bytes for each recovery code. *)
Definition recovery_random (c : Call) : Prop :=
  ∀ i, Forall is_byte (randomRecovery c i) ∧ length (randomRecovery c i) = 4%nat.

Lemma generated_codes_length c code :
  recovery_random c → code ∈ generateRecoveryCodes cfg c →
  js_length (normalizeRecoveryCode code) = 8.
Proof.
  intros Hr. unfold generateRecoveryCodes. rewrite list_elem_of_fmap.
  intros (i & -> & _). destruct (Hr i). by apply recovery_code_length.
Qed.

Lemma consume_redeems uid code u s :
  users_wf (users s) → rows (users s) !! uid = Some u →
  8 <= js_length (normalizeRecoveryCode code) →
  0 < matches (normalizeRecoveryCode code) (u_mfaRecoveryCodeHashes u) →
  (consumeRecoveryCode uid code s).2 = Ret true.
Proof.
  intros Hwf Hu Hlen Hm. unfold consumeRecoveryCode.
  destruct (Z.ltb_spec (js_length (normalizeRecoveryCode code)) 8); [lia|].
  unfold find_user, find_by_id, mbind, M_bind. simpl. rewrite Hu.
  pose proof (matchedIndex_spec (normalizeRecoveryCode code) (u_mfaRecoveryCodeHashes u)) as Hi.
  destruct (matchedIndex _ _); [|lia]. by rewrite (write_user_same _ u) by done.
Qed.

(** Enrolment arms the second factor and hands out working recovery codes.
    A successful [enableAdminTotp] stores the secret of the pending setup,
    marks the user as enrolled, consumes the setup session, and returns the
    configured number of codes, each of which [consumeRecoveryCode] accepts. *)
Theorem enable_totp_arms c uid code s s' codes :
  users_wf (users s) → recovery_random c →
  enableAdminTotp cfg c uid code s = (s', Ret codes) →
  length codes = Z.to_nat (mfaRecoveryCodesCount cfg) ∧
  (∃ setup u', r_get (getMfaSetupKey uid) (now c) (redis s) = Some (RJson (PendingSetup setup)) ∧
     su_userId setup = uid ∧
     Totp.verifyTotpCode (su_secret setup) code 1 (now c) = Ret true ∧
     rows (users s') !! uid = Some u' ∧ u_mfaEnabled u' = true ∧
     u_mfaSecret u' = Some (su_secret setup)) ∧
  (∀ t, r_get (getMfaSetupKey uid) t (redis s') = None) ∧
  ∀ plain, plain ∈ codes → (consumeRecoveryCode uid plain s').2 = Ret true.
Proof.
  intros Hwf Hrand He. unfold enableAdminTotp in He.
  apply bind_Ret_inv in He as ([] & s1 & Hup & He).
  unfold ensureRedisConnected in Hup. destruct (redisUp c); [|done]. injection Hup as <-.
  apply bind_Ret_inv in He as (raw & s1 & [= <- <-] & He).
  destruct (present _) as [[|[| setup |]|]|] eqn:Ep; try done.
  apply bind_Ret_inv in He as ([] & s1 & Hid & He).
  apply throw_if_inv in Hid as [Eid%negb_false_iff%bool_decide_eq_true ->].
  case_bool_decide; [|by apply then_throw in He].
  apply bind_Ret_inv in He as (ok & s1 & Hok & He).
  destruct (Totp.verifyTotpCode _ _ _ _) as [ok'|] eqn:Ev; [|done]. injection Hok as <- <-.
  apply bind_Ret_inv in He as ([] & s1 & Hk & He). apply throw_if_inv in Hk as [->%negb_false_iff ->].
  apply bind_Ret_inv in He as (user & s1 & [= <- <-] & He).
  unfold find_by_id in He. destruct (rows (users s) !! uid) as [u|] eqn:Eu; [|done].
  apply bind_Ret_inv in He as ([] & s1 & (Hn & ->)%write_user_inv & He).
  apply bind_Ret_inv in He as ([] & s1 & [= <-] & He).
  apply bind_Ret_inv in He as ([] & s2 & Hlog & [= <- <-]).
  destruct (logMfaAudit_frame c uid "setup_enabled"
    (Some (RecoveryCodesCount (Z.of_nat (length (generateRecoveryCodes cfg c)))))
    (set_redis (r_del (O:=AuthPayload) [getMfaSetupKey uid] (redis s))
      (set_users (put uid (with_mfa true (Some (su_secret setup))
         (hashRecoveryCodes c (generateRecoveryCodes cfg c)) (Some (now c)) (Some (now c)) u)
         (users s)) s))) as [l Hl].
  simpl in Hlog. rewrite Hl in Hlog. injection Hlog as <-. split_and!.
  - unfold generateRecoveryCodes. by rewrite length_fmap, length_seq.
  - exists setup, (with_mfa true (Some (su_secret setup))
      (hashRecoveryCodes c (generateRecoveryCodes cfg c)) (Some (now c)) (Some (now c)) u).
    split_and!; [|done|done| |done|done].
    + by apply present_Some.
    + simpl. rewrite rows_put. apply lookup_insert_eq.
  - intros t. simpl. apply get_del_same. set_solver.
  - intros plain Hp. eapply consume_redeems; simpl.
    + by apply users_wf_put.
    + rewrite rows_put. apply lookup_insert_eq.
    + by rewrite (generated_codes_length c).
    + by apply matches_hashed.
Qed.

(** *** The life of a challenge *)

Lemma key_challenge_attempts a b : getMfaChallengeKey a ≠ getMfaAttemptsKey b.
Proof. discriminate. Qed.
Lemma key_attempts_challenge a b : getMfaAttemptsKey a ≠ getMfaChallengeKey b.
Proof. discriminate. Qed.
Lemma key_context_challenge a b : getLoginContextKey a ≠ getMfaChallengeKey b.
Proof. discriminate. Qed.

Lemma consume_redis uid code s : redis (consumeRecoveryCode uid code s).1 = redis s.
Proof.
  unfold consumeRecoveryCode, find_user, write_user. destruct (_ <? 8); [done|]. m_red.
  destruct (find_by_id _ _) as [u|]; [|done]. destruct (matchedIndex _ _); [|done].
  by destruct (find_first _ _).
Qed.

(** Checking a code leaves Redis alone. *)
Lemma code_is_valid_redis c p u code s : redis (code_is_valid c p u code s).1 = redis s.
Proof.
  unfold code_is_valid. destruct (ch_mode p); [done|]. unfold mbind, M_bind at 1.
  assert (Hok : ∃ o, (if opt_truthy (u_mfaSecret u)
    then lift (Totp.verifyTotpCode (default "" (u_mfaSecret u)) code 1 (now c))
    else mret false) s = (s, o)).
  { destruct (opt_truthy _); [|by eexists]. by destruct (Totp.verifyTotpCode _ _ _ _); eexists. }
  destruct Hok as [o ->]. destruct o as [[]|]; [done| |done].
  pose proof (consume_redis (ch_userId p) code s) as Hr. unfold M_bind.
  destruct (consumeRecoveryCode _ _ _) as [s1 [[]|]]; simpl in *; try done.
  destruct (logMfaAudit_frame c (ch_userId p) "recovery_code_used" None s1) as [l ->]. done.
Qed.

Lemma storeContext_look c uid s t k :
  now c <= t → getLoginContextKey uid ≠ k →
  r_look (redis (storeLoginContext cfg c uid s).1) t k = r_look (redis s) t k.
Proof.
  intros Ht Hk. unfold storeLoginContext, ensureRedisConnected, redis_set.
  destruct (redisUp c); m_red; [|done]. rewrite look_set_ex by done. by rewrite decide_False.
Qed.

(** After a verdict the challenge is gone. *)
Definition dead (id : string) (t : Z) (s : St) : Prop :=
  r_look (redis s) t (getMfaChallengeKey id) = None.

Record live (id : string) (t n : Z) (s : St) : Prop := {
  lv_challenge : ∃ v ec, r_look (redis s) t (getMfaChallengeKey id) = Some (v, Some ec) ∧
    ec <= t + mfaTtlSeconds cfg * 1000 ∧
    if n =? 0 then r_look (redis s) t (getMfaAttemptsKey id) = None
    else ∃ ea, r_look (redis s) t (getMfaAttemptsKey id) = Some (RInt n, Some ea) ∧ ec <= ea;
  lv_bounds : 0 <= n < mfaMaxAttempts cfg }.

Lemma dead_later id t t' s : dead id t s → t <= t' → dead id t' s.
Proof. unfold dead. intros Hd Ht. rewrite (look_later _ t) by done. by rewrite Hd. Qed.

(** The attempt counter outlives its challenge. *)
Lemma live_later id t t' n s : live id t n s → t <= t' → live id t' n s ∨ dead id t' s.
Proof.
  intros [(v & ec & Hv & Hec & Ha) Hb] Ht. unfold dead.
  pose proof (look_later (redis s) t t' (getMfaChallengeKey id) Ht) as Hl. rewrite Hv in Hl.
  simpl in Hl. destruct (Z.ltb_spec t' ec); [left|by right].
  split; [|done]. exists v, ec. split; [done|]. split; [lia|].
  rewrite (look_later _ t t' (getMfaAttemptsKey id)) by done. destruct (n =? 0).
  - by rewrite Ha.
  - destruct Ha as (ea & Ha & Hle). exists ea. rewrite Ha. simpl.
    destruct (Z.ltb_spec t' ea); [done|lia].
Qed.

Definition counted (o : outcome VerifyResult) : bool :=
  match o with
  | Throw e => bool_decide (e = invalid_code) || bool_decide (e = too_many_codes)
  | Ret _ => false
  end.

(** A wrong code: one more attempt, and the end of the challenge at the limit. *)
Lemma wrong_code_step c id n s :
  live id (now c) n s →
  let '(s', o) :=
    (attempts ← redis_incr c (getMfaAttemptsKey id);
     when (attempts =? 1) (redis_expire c (getMfaAttemptsKey id) (mfaTtlSeconds cfg));;
     if mfaMaxAttempts cfg <=? attempts then
       redis_del [getMfaChallengeKey id; getMfaAttemptsKey id];;
       throw too_many_codes
     else throw invalid_code : M St VerifyResult) s in
  counted o = true ∧
  (dead id (now c) s' ∨ live id (now c) (n + 1) s').
Proof.
  intros [(v & ec & Hv & Hec & Ha) Hb]. unfold redis_incr, redis_expire, redis_del. m_red.
  assert (Hstep : (r_incr (getMfaAttemptsKey id) (now c) (redis s)).1 = n + 1 ∧
    ∃ ea, ec <= ea ∧ ∀ rs, rs = (r_incr (getMfaAttemptsKey id) (now c) (redis s)).2 →
    r_look (if n + 1 =? 1 then r_expire (O:=AuthPayload) (getMfaAttemptsKey id) (mfaTtlSeconds cfg) (now c) rs
            else rs) (now c) (getMfaAttemptsKey id) = Some (RInt (n + 1), Some ea) ∧
    r_look (if n + 1 =? 1 then r_expire (O:=AuthPayload) (getMfaAttemptsKey id) (mfaTtlSeconds cfg) (now c) rs
            else rs) (now c) (getMfaChallengeKey id) = Some (v, Some ec)).
  { destruct (Z.eqb_spec n 0) as [->|Hn]; simpl.
    - destruct (incr_missing _ _ _ Ha) as [-> Hlk]. split; [done|].
      exists (now c + mfaTtlSeconds cfg * 1000). split; [done|]. intros rs ->.
      rewrite !look_expire, !Hlk by lia. rewrite !(decide_True _ _ (eq_refl (getMfaAttemptsKey id))).
      rewrite !decide_False by apply key_attempts_challenge. split; [|done].
      assert (now c < ec). { pose proof (look_later (redis s) (now c) (now c) (getMfaChallengeKey id) ltac:(lia)) as Hl. rewrite Hv in Hl. simpl in Hl. destruct (Z.ltb_spec (now c) ec); [lia|done]. }
      destruct (Z.ltb_spec (now c) (now c + mfaTtlSeconds cfg * 1000)); [done|lia].
    - destruct Ha as (ea & Ha & Hle). destruct (incr_present _ _ _ _ _ Ha) as [-> Hlk].
      split; [done|]. exists ea. split; [done|]. intros rs ->.
      destruct (Z.eqb_spec (n + 1) 1); [lia|]. rewrite !Hlk by lia.
      rewrite decide_True by done. rewrite decide_False by apply key_attempts_challenge.
      pose proof (look_later (redis s) (now c) (now c) (getMfaAttemptsKey id) ltac:(lia)) as Hl.
      rewrite Ha in Hl. destruct (alive (Some ea) (now c)); [done|congruence]. }
  destruct Hstep as (-> & ea & Hle & Hlk).
  specialize (Hlk _ eq_refl) as [Hlk1 Hlk2].
  destruct (n + 1 =? 1) eqn:E1; simpl;
    (destruct (Z.leb_spec (mfaMaxAttempts cfg) (n + 1)); simpl; split; [done| |done|]).
  all: try (left; unfold dead; simpl; rewrite look_del, decide_True by set_solver; done).
  all: right; split; [|lia]; exists v, ec; split; [done|]; split; [done|];
    (destruct (Z.eqb_spec (n + 1) 0); [lia|]); by exists ea.
Qed.

Lemma dead_del id t rs s :
  dead id t (set_redis (r_del (O:=AuthPayload) [getMfaChallengeKey id; getMfaAttemptsKey id] rs) s).
Proof. unfold dead. simpl. rewrite look_del. by rewrite decide_True by set_solver. Qed.

Lemma verify_dead c id code s :
  dead id (now c) s →
  verifyAdminMfa cfg c id code s =
    (s, Throw (if redisUp c then expired_challenge else JsError "Redis connection failed")).
Proof.
  unfold dead. intros Hd. unfold verifyAdminMfa, ensureRedisConnected, redis_get, r_get.
  destruct (redisUp c); [|done]. m_red. by rewrite Hd.
Qed.

(** Opening the session does not bring the challenge back. *)
Lemma session_dead c id p u s :
  dead id (now c) s →
  dead id (now c)
    ((tokens ← generateTokens cfg c (ch_userId p) u;
      storeLoginContext cfg c (ch_userId p);;
      mret {| vr_tokens := tokens; vr_id := ch_userId p; vr_email := u_email u;
              vr_role := u_role u; vr_rememberMe := ch_rememberMe p |} : M St VerifyResult) s).1.
Proof.
  intros Hd. unfold mbind, M_bind. pose proof (generateTokens_frame cfg c (ch_userId p) u s) as [Hr _].
  destruct (generateTokens _ _ _ _ _) as [s1 [tk|]]; simpl in *; [|unfold dead; by rewrite Hr].
  pose proof (storeContext_look c (ch_userId p) s1 (now c) (getMfaChallengeKey id) ltac:(lia)
    (key_context_challenge _ _)) as Hs.
  destruct (storeLoginContext _ _ _ _) as [s2 [[]|]]; simpl in *; unfold dead in *; congruence.
Qed.

(** A throw while checking a code is never one of the two verdicts. *)
Lemma decode_throw l v b e : Totp.decode_loop l v b = Throw e → ∃ m, e = JsError m.
Proof.
  revert v b. induction l as [|x l IH]; intros v b; [discriminate|].
  cbn [Totp.decode_loop]. cbv zeta. destruct (_ <? 0); [intros [= <-]; by eexists|].
  destruct (8 <=? _); [|apply IH].
  destruct (Totp.decode_loop _ _ _) eqn:E; [discriminate|]. intros [= <-]. by eapply IH.
Qed.

Lemma writeUInt32BE_throw v e : Totp.writeUInt32BE v = Throw e → ∃ m, e = JsError m.
Proof. unfold Totp.writeUInt32BE. destruct (_ && _); [discriminate|]. intros [= <-]. by eexists. Qed.

Lemma verifyTotp_throw secret code w t e :
  Totp.verifyTotpCode secret code w t = Throw e → ∃ m, e = JsError m.
Proof.
  unfold Totp.verifyTotpCode. case_match; [done|]. generalize (Totp.window_offsets w).
  induction l as [|o l IH]; [discriminate|]. cbn [Totp.try_offsets].
  destruct (Totp.generateTotpCode _ _) as [cand|e'] eqn:E.
  - case_bool_decide; [done|]. apply IH.
  - intros [= <-]. unfold Totp.generateTotpCode in E.
    destruct (Totp.base32Decode secret) eqn:Ed; [|injection E as <-; by eapply decode_throw].
    cbv zeta in E.
    destruct (Totp.writeUInt32BE (_ / 2 ^ 32)) as [hi|e1] eqn:E1;
      [destruct (Totp.writeUInt32BE (_ mod 2 ^ 32)) as [lo|e2] eqn:E2; [discriminate E|]|];
      injection E as <-; by eapply writeUInt32BE_throw.
Qed.

Lemma consume_throw uid code s s1 e :
  consumeRecoveryCode uid code s = (s1, Throw e) → e = PrismaError "P2002".
Proof.
  unfold consumeRecoveryCode, find_user, write_user. destruct (_ <? 8); [done|]. m_red.
  destruct (find_by_id _ _) as [u|]; [|done]. destruct (matchedIndex _ _); [|done].
  destruct (find_first _ _); [|done]. by intros [= _ <-].
Qed.

Lemma code_is_valid_throw c p u code s s1 e :
  code_is_valid c p u code s = (s1, Throw e) → ∀ st m, e ≠ HttpException st m.
Proof.
  unfold code_is_valid. destruct (ch_mode p); [done|]. intros Hc st m ->.
  unfold mbind, M_bind at 1 in Hc.
  assert (Hrest : ∀ s1', (consumed ← consumeRecoveryCode (ch_userId p) code;
     if (consumed : bool) then logMfaAudit c (ch_userId p) "recovery_code_used" None;; mret true
     else mret false : M St bool) s ≠ (s1', Throw (HttpException st m))).
  { intros s1'. unfold mbind, M_bind at 1.
    destruct (consumeRecoveryCode _ _ _) as [s2 [[]|e]] eqn:E; [|done|].
    - unfold M_bind. by destruct (logMfaAudit_frame c (ch_userId p) "recovery_code_used" None s2) as [l ->].
    - apply consume_throw in E as ->. done. }
  destruct (opt_truthy _); [|by apply Hrest in Hc].
  destruct (Totp.verifyTotpCode _ _ _ _) as [[]|] eqn:Ev; simpl in Hc;
    [discriminate Hc|by apply Hrest in Hc|].
  injection Hc as <- ->. by apply verifyTotp_throw in Ev as [? ?].
Qed.

Lemma live_redis id t n s1 s2 : redis s1 = redis s2 → live id t n s2 → live id t n s1.
Proof. intros Hr [Hc Hb]. split; by rewrite ?Hr. Qed.

(** One call of the endpoint on a live challenge. *)
Lemma verify_live c id code n s :
  live id (now c) n s →
  let '(s', o) := verifyAdminMfa cfg c id code s in
  if counted o then dead id (now c) s' ∨ live id (now c) (n + 1) s'
  else dead id (now c) s' ∨ live id (now c) n s'.
Proof.
  intros Hlive. pose proof Hlive as [(v & ec & Hv & _) _].
  unfold verifyAdminMfa, ensureRedisConnected, redis_get, r_get.
  destruct (redisUp c); [|by right]. unfold mbind at 1 2, M_bind at 1 2. simpl. rewrite Hv. simpl.
  destruct v as [k|[p| |]|t]; [by left; apply dead_del| | by left; apply dead_del..|].
  2: { destruct (truthy t); [by left; apply dead_del|by right]. }
  case_bool_decide; [|by left; apply dead_del]. simpl. unfold find_user, find_by_id.
  unfold mbind at 1, M_bind at 1. simpl. destruct (rows _ !! _) as [u|]; [|by right].
  destruct (u_isActive u); [|by right]. unfold mbind at 1 2, M_bind at 1 2. simpl.
  pose proof (code_is_valid_redis c p u code s) as Hr.
  destruct (code_is_valid c p u code s) as [s1 [ok|e]] eqn:Ec; simpl in Hr; cbv beta iota.
  - destruct ok; simpl.
    + pose proof (session_dead c id p u _ (dead_del id (now c) (redis s1) s1)) as Hd.
      unfold redis_del, modify. unfold mbind at 1, M_bind at 1.
      destruct (@mbind (M St) _ _ VerifyResult _ _ _) as [s2 o]; simpl in Hd.
      destruct (counted o); by left.
    + pose proof (wrong_code_step c id n s1 (live_redis _ _ _ _ _ Hr Hlive)) as Hw.
      destruct (@mbind (M St) _ _ VerifyResult _ _ _) as [s2 o]. by destruct Hw as [-> Hw].
  - simpl. rewrite !bool_decide_neq by by eapply code_is_valid_throw.
    right. by eapply live_redis.
Qed.

(** Codes tried on one challenge, by whoever holds its id. *)
Fixpoint guesses (id : string) (l : list (Call * string)) (s : St) : St * Z :=
  match l with
  | [] => (s, 0)
  | (c, code) :: l' =>
      let '(s1, o) := verifyAdminMfa cfg c id code s in
      let '(s2, n) := guesses id l' s1 in (s2, (if counted o then 1 else 0) + n)
  end.

Fixpoint in_time (t : Z) (l : list (Call * string)) : Prop :=
  match l with
  | [] => True
  | (c, _) :: l' => t <= now c ∧ in_time (now c) l'
  end.

Lemma guesses_dead id l : ∀ t s, dead id t s → in_time t l → guesses id l s = (s, 0).
Proof.
  induction l as [|[c code] l IH]; intros t s Hd Hl; simpl in *; [done|]. destruct Hl as [Ht Hl].
  pose proof (dead_later _ _ _ _ Hd Ht) as Hd'. rewrite (verify_dead c id code s Hd').
  rewrite (IH _ _ Hd' Hl). simpl. by destruct (redisUp c).
Qed.

Lemma guesses_live id l : ∀ t n s,
  live id t n s → in_time t l → (guesses id l s).2 <= mfaMaxAttempts cfg - n.
Proof.
  induction l as [|[c code] l IH]; intros t n s Hlive Hl; simpl in *; [destruct Hlive; lia|].
  destruct Hl as [Ht Hl].
  destruct (live_later _ _ _ _ _ Hlive Ht) as [Hlive'|Hd].
  - pose proof (verify_live c id code n s Hlive') as Hv. destruct Hlive' as [_ Hb].
    destruct (verifyAdminMfa cfg c id code s) as [s1 o].
    destruct (counted o), Hv as [Hd|Hlv];
      try (rewrite (guesses_dead _ _ _ _ Hd Hl); simpl; lia);
      specialize (IH _ _ _ Hlv Hl); destruct (guesses id l s1); simpl in *; lia.
  - destruct Hlive as [_ Hb]. rewrite (verify_dead c id code s Hd).
    rewrite (guesses_dead _ _ _ _ Hd Hl). simpl. destruct (redisUp c); simpl; lia.
Qed.

(** What a login that asks for a second factor leaves in Redis. *)
Lemma login_mfa_inv `{UriCodec} c dto s s' id msg otp :
  login cfg c dto s = (s', Ret (MfaRequired id msg otp)) →
  id = newChallengeId c ∧ redisUp c = true ∧
  ∃ uid u mode, rows (users s) !! uid = Some u ∧ u_email u = lg_email dto ∧
    bcrypt_compare (lg_password dto) (u_password u) = true ∧ u_isActive u = true ∧
    users s' = users s ∧ AuthModel.refreshTokens s' = AuthModel.refreshTokens s ∧
    (u_mfaEnabled u && opt_truthy (u_mfaSecret u) = true → mode = totp) ∧
    redis s' = r_set_ex (getMfaChallengeKey id)
      (RJson (Challenge {| ch_userId := uid; ch_email := u_email u;
          ch_fingerprint := RequestSecurity.buildRequestFingerprint (req c);
          ch_rememberMe := lg_rememberMe dto; ch_mode := mode; ch_code := otp |}))
      (mfaTtlSeconds cfg) (now c)
      (r_del (O:=AuthPayload) [getFailKey (lg_email dto); getLockKey (lg_email dto)] (redis s)).
Proof.
  unfold login. intros Hl. apply bind_Ret_inv in Hl as ([uid u] & s1 & Hc & Hl).
  apply check_credentials_inv in Hc as (Hup & _ & Hu & He & Hp & Ha & ->).
  apply bind_Ret_inv in Hl as ([] & s2 & Hsync & Hl).
  destruct (trySync_frame cfg c uid u (set_redis (r_del (O:=AuthPayload)
    [getFailKey (lg_email dto); getLockKey (lg_email dto)] (redis s)) s)) as [l Hs2].
  rewrite Hs2 in Hsync. injection Hsync as <-.
  apply bind_Ret_inv in Hl as (a & s3 & ->%evaluateLoginAnomaly_frame & Hl).
  apply bind_Ret_inv in Hl as ([] & s4 & [_ ->]%throw_if_inv & Hl).
  unfold issue_challenge, ensureRedisConnected, redis_set in Hl. rewrite Hup in Hl.
  destruct (u_mfaEnabled u && _) eqn:Em.
  - apply bind_Ret_inv in Hl as ([] & s5 & [= <-] & [= <- <- <- <-]).
    split; [done|]. split; [done|]. exists uid, u, totp. done.
  - destruct (adminMfaEnabled cfg && _).
    + destruct (mfaTempBootstrapEnabled cfg); [|done].
      apply bind_Ret_inv in Hl as ([] & s5 & [= <-] & [= <- <- <- <-]).
      split; [done|]. split; [done|]. exists uid, u, temporary. rewrite Em. done.
    + apply bind_Ret_inv in Hl as (? & ? & _ & ?). done.
Qed.

(** C9: a login challenge admits a bounded number of guesses.  Whoever holds a
    challenge id may call the endpoint as often as they like, with any codes,
    from any client, at any time: at most [mfaMaxAttempts] calls are answered
    with the verdict that the code is wrong, because the counter outlives the
    challenge and the challenge is deleted at the limit. *)
Theorem mfa_guesses_bounded `{UriCodec} c dto s s' id msg otp l :
  config_ok cfg →
  login cfg c dto s = (s', Ret (MfaRequired id msg otp)) →
  r_look (redis s) (now c) (getMfaAttemptsKey id) = None →
  in_time (now c) l →
  (guesses id l s').2 <= mfaMaxAttempts cfg.
Proof.
  intros Hcfg (-> & _ & uid & u & mode & _ & _ & _ & _ & _ & _ & _ & Hr)%login_mfa_inv Ha Hl.
  enough (Hlive : live (newChallengeId c) (now c) 0 s').
  { pose proof (guesses_live _ _ _ _ _ Hlive Hl). lia. }
  pose proof (mfa_ttl_pos _ Hcfg). pose proof (mfa_attempts_pos _ Hcfg).
  split; [|lia]. eexists _, _. split_and!.
  - rewrite Hr, look_set_ex by lia. rewrite decide_True by done.
    destruct (Z.ltb_spec (now c) (now c + mfaTtlSeconds cfg * 1000)); [done|lia].
  - lia.
  - simpl. rewrite Hr, look_set_ex by lia. rewrite decide_False by apply key_challenge_attempts.
    rewrite look_del. by case_decide.
Qed.

Lemma generateTokens_ok c id u s ttla ttlr :
  timespan_seconds (jwtExpiresIn cfg) = Some ttla →
  timespan_seconds (jwtRefreshExpiresIn cfg) = Some ttlr →
  rows (users s) !! id = Some u →
  (∀ k row, rows (AuthModel.refreshTokens s) !! k = Some row →
    rt_token row ≠ jwt_sign (jwtRefreshSecret cfg) (refresh_claims id (newJti c)) ttlr (now c)) →
  ∃ s' tk, generateTokens cfg c id u s = (s', Ret tk).
Proof.
  intros Ha Hr Hu Hn. unfold generateTokens, sign, create_refresh_token, find_by_id.
  rewrite Ha, Hr. m_red. rewrite Hu.
  match goal with |- context [find_first ?p ?t] => destruct (find_first p t) as [[k row]|] eqn:E end.
  - apply find_first_Some in E as [Hk Hp%bool_decide_eq_true]. by apply Hn in Hk.
  - eauto.
Qed.

Lemma storeContext_ret c uid s : ∃ s', storeLoginContext cfg c uid s = (s', Ret tt).
Proof.
  unfold storeLoginContext, ensureRedisConnected, redis_set. destruct (redisUp c); m_red; eauto.
Qed.


(** A login with a second factor can be completed.  After [login] asked a
    user enrolled in TOTP for a code, the same client presenting, before the
    challenge expires, a code that verifies against the stored secret obtains
    a session for that user. *)
Theorem mfa_login_completes `{UriCodec} c dto s s' id msg otp c2 code ttla ttlr :
  login cfg c dto s = (s', Ret (MfaRequired id msg otp)) →
  (∀ uid u, rows (users s) !! uid = Some u → u_email u = lg_email dto →
     u_mfaEnabled u = true ∧ ∃ secret, u_mfaSecret u = Some secret ∧ truthy secret = true ∧
     Totp.verifyTotpCode secret code 1 (now c2) = Ret true) →
  RequestSecurity.buildRequestFingerprint (req c2) =
    RequestSecurity.buildRequestFingerprint (req c) →
  now c <= now c2 < now c + mfaTtlSeconds cfg * 1000 → redisUp c2 = true →
  timespan_seconds (jwtExpiresIn cfg) = Some ttla →
  timespan_seconds (jwtRefreshExpiresIn cfg) = Some ttlr →
  (∀ uid k row, rows (AuthModel.refreshTokens s) !! k = Some row →
    rt_token row ≠ jwt_sign (jwtRefreshSecret cfg) (refresh_claims uid (newJti c2)) ttlr (now c2)) →
  ∃ s2 r u, verifyAdminMfa cfg c2 id code s' = (s2, Ret r) ∧
    rows (users s) !! vr_id r = Some u ∧ u_email u = lg_email dto ∧ vr_role r = u_role u.
Proof.
  intros (-> & _ & uid & u & mode & Hu & He & _ & Ha & Hus & Hrt & Hmode & Hr)%login_mfa_inv
    Hsec Hfp Ht Hup Hta Htr Hfresh.
  destruct (Hsec _ _ Hu He) as (Hen & secret & Hs & Htruthy & Hver).
  rewrite Hen, Hs in Hmode. simpl in Hmode. specialize (Hmode Htruthy) as ->.
  unfold verifyAdminMfa, ensureRedisConnected, redis_get. rewrite Hup.
  unfold mbind at 1 2, M_bind at 1 2. simpl. rewrite Hr, get_set_ex_same by lia. simpl.
  rewrite bool_decide_true by done. simpl. unfold find_user, find_by_id.
  unfold mbind at 1, M_bind at 1. simpl. rewrite Hus, Hu, Ha. simpl.
  unfold mbind at 1 2, M_bind at 1 2. simpl. unfold code_is_valid. simpl. rewrite Hs. simpl.
  rewrite Htruthy. unfold mbind at 1, M_bind at 1. simpl. rewrite Hver. simpl.
  unfold mbind at 1, M_bind at 1. simpl.
  destruct (generateTokens_ok c2 uid u (set_redis (r_del (O:=AuthPayload)
      [getMfaChallengeKey (newChallengeId c); getMfaAttemptsKey (newChallengeId c)] (redis s')) s')
      ttla ttlr Hta Htr) as (s2 & tk & Hg).
  { simpl. by rewrite Hus. }
  { simpl. rewrite Hrt. apply Hfresh. }
  unfold mbind at 1, M_bind at 1. rewrite Hg.
  destruct (storeContext_ret c2 uid s2) as [s3 Hs3].
  unfold mbind, M_bind. rewrite Hs3. eexists _, _, u. split_and!; [done|done|done|done].
Qed.
End theorems.
End AuthMfa.
