(* ===== verification/AuthService.v ===== *)
(** * AuthService: the handlers together

    Every endpoint of the auth service as one step, and what holds of every
    state the service can reach, whatever the requests and their order. *)

From Stdlib Require Import ZArith Lia Ascii String.
From stdpp Require Import base list gmap strings.
From S2P Require Import Prelude Text Store Crypto RequestSecurity Totp.
From S2P Require Import AuthModel AuthSession AuthLogin AuthMfa.
Import AuthModel AuthSession AuthLogin AuthMfa.

Module AuthService.

(** One request to auth.controller.ts, with the arguments it passes on. *)
Inductive request :=
| Register (dto : RegisterDto)
| Login (dto : LoginDto)
| GoogleCallback (p : Profile)
| VerifyMfa (challengeId code : string)
| SetupMfa (userId password : string)
| EnableMfa (userId code : string)
| DisableMfa (userId password : string)
| RegenerateRecoveryCodes (userId password : string)
| MfaStatus (userId : string)
| MfaAudit (userId : string)
| Refresh (token : string)
| Logout (token : string)
| LogoutAll (userId : string)
| ChangePassword (userId oldPassword newPassword : string)
| Me (userId : string)
| WsTicket (userId : string).

Section service.
Context {T : Type → Type} `{Database T} {RS : Type} `{Redis RS AuthPayload}.
Context `{Hashing} `{Bcrypt} `{Jwt} `{Timespan} `{Hmac} `{UriCodec}.
Abbreviation St := (AuthState T RS).
Variable cfg : Config.

Definition ignore {A} (m : M St A) : M St unit := m;; mret tt.

Definition handle (c : Call) (r : request) : M St unit :=
  match r with
  | Register dto => ignore (register cfg c dto)
  | Login dto => ignore (login cfg c dto)
  | GoogleCallback p => ignore (findOrCreateGoogleUser cfg c p)
  | VerifyMfa id code => ignore (verifyAdminMfa cfg c id code)
  | SetupMfa uid pw => ignore (setupAdminTotpWithPassword cfg c uid pw)
  | EnableMfa uid code => ignore (enableAdminTotp cfg c uid code)
  | DisableMfa uid pw => ignore (disableAdminTotp c uid pw)
  | RegenerateRecoveryCodes uid pw => ignore (regenerateRecoveryCodes cfg c uid pw)
  | MfaStatus uid => ignore (getMfaStatus uid)
  | MfaAudit uid => ignore (getMfaAuditTrail uid)
  | Refresh tok => ignore (refreshTokens cfg c tok)
  | Logout tok => ignore (logout tok)
  | LogoutAll uid => ignore (logoutAllSessions uid)
  | ChangePassword uid o n => ignore (changePassword cfg c uid o n)
  | Me uid => ignore (getProfile uid)
  | WsTicket uid => ignore (generateWsTicket cfg c uid)
  end.

(** The state after serving requests one after the other; an exception is
    answered and the service goes on. *)
Definition serve (l : list (Call * request)) (s : St) : St :=
  foldl (λ s cr, (handle cr.1 cr.2 s).1) s l.

Inductive reachable : St → Prop :=
| reach_init s : rows (users s) = ∅ → rows (AuthModel.refreshTokens s) = ∅ → reachable s
| reach_step c r s : reachable s → reachable (handle c r s).1.
End service.

Section theorems.
Context {T : Type → Type} `{DatabaseLaws T} {RS : Type} `{RedisLaws RS AuthPayload}.
Context `{Hashing} `{Bcrypt} `{Jwt} `{Timespan} `{Hmac} `{UriCodec}.
Abbreviation St := (AuthState T RS).
Variable cfg : Config.
Implicit Types s : St.

Ltac same := solve [done | by intros ?].

(** What a handler at instant [t] keeps: the unique indexes of the users, the
    shape of the stored sessions, and the marks of used refresh tokens. *)
Record keeps (t : Z) (s s' : St) : Prop := {
  keeps_users : users_wf (users s) → users_wf (users s');
  keeps_tokens : keeps_sessions cfg s s';
  keeps_marks jti t' : t <= t' →
    r_look (redis s') t' (getRefreshReuseKey jti) = r_look (redis s) t' (getRefreshReuseKey jti) }.

#[local] Instance keeps_refl t : Reflexive (keeps t).
Proof. intros s. split; same. Qed.
#[local] Instance keeps_trans t : Transitive (keeps t).
Proof.
  intros s1 s2 s3 [Hu1 Hs1 Hm1] [Hu2 Hs2 Hm2]. split.
  - auto.
  - intros ?. by apply Hs2, Hs1.
  - intros. by rewrite Hm2, Hm1.
Qed.

(** Keys that are not marks. *)
Definition no_mark (k : string) : Prop := ∀ jti, k ≠ getRefreshReuseKey jti.

Lemma keeps_set c k v ttl : no_mark k → preserves (keeps (now c)) (redis_set (T:=T) (RS:=RS) c k v ttl).
Proof.
  intros Hk s. split; [same..|]. intros jti t' Ht. simpl. rewrite look_set_ex by done.
  by rewrite decide_False by apply Hk.
Qed.
Lemma keeps_incr c k : no_mark k → preserves (keeps (now c)) (redis_incr (T:=T) (RS:=RS) c k).
Proof. intros Hk s. split; [same..|]. intros jti t' Ht. simpl. by apply incr_other. Qed.
Lemma keeps_expire c k ttl : no_mark k → preserves (keeps (now c)) (redis_expire (T:=T) (RS:=RS) c k ttl).
Proof.
  intros Hk s. split; [same..|]. intros jti t' Ht. simpl. rewrite look_expire by done.
  by rewrite decide_False by apply Hk.
Qed.
Lemma keeps_del t ks : Forall no_mark ks → preserves (keeps t) (redis_del (T:=T) (RS:=RS) ks).
Proof.
  intros Hk s. split; [same..|]. intros jti t' Ht. simpl. rewrite look_del.
  rewrite decide_False; [done|]. intros Hin. rewrite Forall_forall in Hk. by eapply Hk.
Qed.
Lemma keeps_write_user t k u : preserves (keeps t) (write_user (T:=T) (RS:=RS) k u).
Proof.
  intros s. split.
  - apply write_user_wf.
  - unfold write_user. by destruct (find_first _ _); intros ?.
  - intros. unfold write_user. by destruct (find_first _ _).
Qed.
Lemma keeps_delete_tokens t p : preserves (keeps t) (delete_refresh_tokens (T:=T) (RS:=RS) p).
Proof. intros s. split; [same| |same]. apply keeps_delete. Qed.
Lemma keeps_tokens_of c id u : preserves (keeps (now c)) (generateTokens (T:=T) (RS:=RS) cfg c id u).
Proof.
  intros s. destruct (generateTokens_frame cfg c id u s) as [Hr Hu]. split.
  - by rewrite Hu.
  - apply keeps_generateTokens.
  - intros. by rewrite Hr.
Qed.
Lemma keeps_audit t c uid a m : preserves (keeps t) (logMfaAudit (T:=T) (RS:=RS) c uid a m).
Proof. intros s. destruct (logMfaAudit_frame c uid a m s) as [l ->]. split; same. Qed.
Lemma keeps_trySync t c id u : preserves (keeps t) (trySync (T:=T) (RS:=RS) cfg c id u).
Proof. intros s. destruct (trySync_frame cfg c id u s) as [l ->]. split; same. Qed.
Lemma keeps_lift {A} t (o : outcome A) : preserves (keeps t) (lift (T:=T) (RS:=RS) o).
Proof. intros s. by destruct o. Qed.
Lemma keeps_sign t k p e t' : preserves (keeps t) (sign (T:=T) (RS:=RS) k p e t').
Proof. intros s. unfold sign. by destruct (timespan_seconds e). Qed.
Lemma keeps_ret {A} t (a : A) : preserves (keeps t) (mret a : M St A).
Proof. apply preserves_ret; exact _. Qed.
Lemma keeps_throw {A} t e : preserves (keeps t) (throw e : M St A).
Proof. apply preserves_throw; exact _. Qed.
Lemma keeps_gets {A} t (f : St → A) : preserves (keeps t) (gets f).
Proof. apply preserves_gets; exact _. Qed.
Lemma keeps_bind {A B} t (m : M St A) (f : A → M St B) :
  preserves (keeps t) m → (∀ a, preserves (keeps t) (f a)) → preserves (keeps t) (m ≫= f).
Proof. apply preserves_bind; exact _. Qed.
Lemma keeps_try {A} t (m : M St A) h :
  preserves (keeps t) m → (∀ e, preserves (keeps t) (h e)) → preserves (keeps t) (try_catch m h).
Proof. apply preserves_try; exact _. Qed.
End theorems.

(** Walk through a handler, closing each primitive by its lemma. *)
Ltac keeps_with tac := repeat first
  [ tac | apply keeps_tokens_of | apply keeps_audit | apply keeps_trySync | apply keeps_write_user
  | apply keeps_delete_tokens | apply keeps_sign | apply keeps_lift
  | apply keeps_set; intros ?; discriminate
  | apply keeps_incr; intros ?; discriminate
  | apply keeps_expire; intros ?; discriminate
  | apply keeps_del; repeat constructor; intros ?; discriminate
  | apply keeps_gets | apply keeps_ret | apply keeps_throw
  | case_match
  | apply keeps_bind; [|intros ?] | apply keeps_try; [|intros ?] ].
Ltac keeps_handler := keeps_with fail.

Section handlers.
Context {T : Type → Type} `{DatabaseLaws T} {RS : Type} `{RedisLaws RS AuthPayload}.
Context `{Hashing} `{Bcrypt} `{Jwt} `{Timespan} `{Hmac} `{UriCodec}.
Abbreviation St := (AuthState T RS).
Variable cfg : Config.
Implicit Types s : St.

Abbreviation kept c m := (preserves (keeps cfg (now c)) (m : M St _)).

Lemma keeps_context c id : kept c (storeLoginContext cfg c id).
Proof. unfold storeLoginContext, ensureRedisConnected, throw_if. keeps_handler. Qed.

Lemma keeps_open_session c id u : kept c (open_session cfg c id u).
Proof. unfold open_session. keeps_with ltac:(apply keeps_context). Qed.

Lemma keeps_register c dto : kept c (register cfg c dto).
Proof. unfold register, find_by_email. keeps_with ltac:(apply keeps_open_session). Qed.

Lemma keeps_failed c email : kept c (registerFailedLogin cfg c email).
Proof. unfold registerFailedLogin, ensureRedisConnected, throw_if, when. keeps_handler. Qed.

Lemma keeps_captcha c email tok : kept c (assertCaptchaIfNeeded cfg c email tok).
Proof. intros s. rewrite assertCaptcha_frame. apply keeps_refl. Qed.

Lemma keeps_check c dto : kept c (check_credentials cfg c dto).
Proof.
  unfold check_credentials, assertNotLocked, clearFailedLogins, ensureRedisConnected, throw_if,
    redis_ttl, find_by_email.
  keeps_with ltac:(first [apply keeps_failed | apply keeps_captcha]).
Qed.

Lemma keeps_login c dto : kept c (login cfg c dto).
Proof.
  unfold login, evaluateLoginAnomaly, getPreviousLoginContext, issue_challenge,
    ensureRedisConnected, throw_if, redis_get.
  keeps_with ltac:(first [apply keeps_check | apply keeps_open_session]).
Qed.

Lemma keeps_google c p : kept c (findOrCreateGoogleUser cfg c p).
Proof.
  unfold findOrCreateGoogleUser, google_account, find_by_email.
  keeps_with ltac:(apply keeps_open_session).
Qed.

Lemma keeps_code c p u code : kept c (code_is_valid c p u code).
Proof. unfold code_is_valid, consumeRecoveryCode, find_user. keeps_handler. Qed.

Lemma keeps_verify c id code : kept c (verifyAdminMfa cfg c id code).
Proof.
  unfold verifyAdminMfa, ensureRedisConnected, throw_if, when, redis_get, find_user.
  keeps_with ltac:(first [apply keeps_code | apply keeps_context]).
Qed.

Lemma keeps_password c uid pw : kept c (assertCurrentPassword uid pw).
Proof. unfold assertCurrentPassword, find_user, throw_if. keeps_handler. Qed.

Lemma keeps_setup c uid pw : kept c (setupAdminTotpWithPassword cfg c uid pw).
Proof.
  unfold setupAdminTotpWithPassword, setupAdminTotp, ensureRedisConnected, throw_if, find_user.
  keeps_with ltac:(apply keeps_password).
Qed.

Lemma keeps_enable c uid code : kept c (enableAdminTotp cfg c uid code).
Proof.
  unfold enableAdminTotp, ensureRedisConnected, throw_if, redis_get, find_user. keeps_handler.
Qed.

Lemma keeps_disable c uid pw : kept c (disableAdminTotp c uid pw).
Proof.
  unfold disableAdminTotp, ensureRedisConnected, throw_if. keeps_with ltac:(apply keeps_password).
Qed.

Lemma keeps_regenerate c uid pw : kept c (regenerateRecoveryCodes cfg c uid pw).
Proof. unfold regenerateRecoveryCodes, throw_if. keeps_with ltac:(apply keeps_password). Qed.

Lemma keeps_changePassword c uid o n : kept c (changePassword cfg c uid o n).
Proof. unfold changePassword. keeps_with ltac:(apply keeps_password). Qed.

Lemma keeps_logout c tok : kept c (logout tok).
Proof.
  intros s. split; [|apply sessions_logout|].
  - unfold logout. m_red. by case_matches.
  - intros. unfold logout. m_red. by case_matches.
Qed.

(** Every handler but the refresh keeps the three invariants. *)
Lemma keeps_handle c r : (∀ tok, r ≠ Refresh tok) → kept c (handle cfg c r).
Proof.
  intros Hr. destruct r; unfold handle, ignore; (apply keeps_bind; [|intros ?; apply keeps_ret]);
    first [ apply keeps_register | apply keeps_login | apply keeps_google | apply keeps_verify
          | apply keeps_setup | apply keeps_enable | apply keeps_disable | apply keeps_regenerate
          | apply keeps_logout | apply keeps_changePassword | by destruct (Hr token) | idtac ];
    unfold getMfaStatus, getMfaAuditTrail, logoutAllSessions, getProfile, generateWsTicket,
      find_user, throw_if; keeps_handler.
Qed.

(** A refresh writes at most the mark of a token that had none. *)
Lemma refresh_redis c tok s :
  users (refreshTokens cfg c tok s).1 = users s ∧
  (redis (refreshTokens cfg c tok s).1 = redis s ∨
   ∃ jti ttl, present (r_get (getRefreshReuseKey jti) (now c) (redis s)) = None ∧
     redis (refreshTokens cfg c tok s).1 =
       r_set_ex (getRefreshReuseKey jti) (RText "1") ttl (now c) (redis s)).
Proof.
  unfold refreshTokens, throw_if, ensureRedisConnected, redis_get, delete_refresh_tokens, redis_set.
  destruct (negb (truthy tok)); [by auto|]. unfold mbind at 1, M_bind at 1. simpl.
  destruct (jwt_verify _ _ _) as [d|]; [|by auto].
  destruct (c_sub d) as [sub|], (c_jti d) as [jti|]; try by auto.
  destruct (_ || _ || _); [by auto|]. destruct (redisUp c); [|by auto].
  m_red. destruct (present _) eqn:Ep; [by auto|].
  destruct (find_first _ _) as [[k row]|]; simpl; [|by auto].
  destruct (find_by_id _ _) as [u|]; simpl; [|by auto].
  destruct (rt_expiresAt row <? now c); [by auto|]. simpl.
  match goal with |- context [generateTokens cfg c ?id u ?s1] =>
    destruct (generateTokens_frame cfg c id u s1) as [Hr Hu];
    destruct (generateTokens cfg c id u s1) as [s2 [tk|]] end;
    simpl in *; rewrite Hr, Hu; simpl; eauto 10.
Qed.

(** *** Invariants of the reachable states *)

Definition auth_wf (s : St) : Prop :=
  users_wf (users s) ∧ sessions_wf cfg (AuthModel.refreshTokens s).

Lemma handle_wf c r s : auth_wf s → auth_wf (handle cfg c r s).1.
Proof.
  intros [Hu Hs].
  assert ((∃ tok, r = Refresh tok) ∨ ∀ tok, r ≠ Refresh tok) as [[tok ->]|Hr]
    by (destruct r; naive_solver).
  - destruct (refresh_redis c tok s) as [Hus _]. pose proof (keeps_refresh cfg c tok s Hs) as Hk.
    unfold handle, ignore, mbind, M_bind. unfold auth_wf.
    destruct (refreshTokens cfg c tok s) as [s1 [?|?]]; simpl in *; by rewrite Hus.
  - destruct (keeps_handle c r Hr s) as [Hu' Hs' _]. split; [by apply Hu'|by apply Hs'].
Qed.


(** *** Used refresh tokens stay used *)

Definition marked (jti : string) (lo hi : Z) (s : St) : Prop :=
  ∀ t, lo <= t → t < hi → ∃ v, present (r_get (getRefreshReuseKey jti) t (redis s)) = Some v.

Lemma handle_marked c r jti lo hi s :
  lo <= now c → marked jti lo hi s → marked jti (now c) hi (handle cfg c r s).1.
Proof.
  intros Hlo Hm.
  assert ((∃ tok, r = Refresh tok) ∨ ∀ tok, r ≠ Refresh tok) as [[tok ->]|Hr]
    by (destruct r; naive_solver).
  - assert (Hh : redis (handle cfg c (Refresh tok) s).1 = redis (refreshTokens cfg c tok s).1).
    { unfold handle, ignore, mbind, M_bind. by destruct (refreshTokens cfg c tok s) as [s1 [?|?]]. }
    intros t Ht Hhi. rewrite Hh. destruct (refresh_redis c tok s) as [_ [->|(j & ttl & Hn & ->)]].
    + apply Hm; lia.
    + destruct (decide (j = jti)) as [->|Hj].
      * destruct (Hm (now c) ltac:(lia) ltac:(lia)) as [v Hv]. congruence.
      * rewrite get_set_ex_other; [apply Hm; lia|done|].
        unfold getRefreshReuseKey. intros E. by apply (inj (String.append _)) in E.
  - destruct (keeps_handle c r Hr s) as [_ _ Hk]. intros t Ht Hhi. unfold r_get.
    rewrite Hk by done. apply Hm; lia.
Qed.

(** Requests in the order of time, up to an instant. *)
Fixpoint ordered (t : Z) (l : list (Call * request)) (t' : Z) : Prop :=
  match l with
  | [] => t <= t'
  | (c, _) :: l' => t <= now c ∧ ordered (now c) l' t'
  end.

Lemma serve_marked l : ∀ jti lo hi s t',
  ordered lo l t' → marked jti lo hi s → marked jti t' hi (serve cfg l s).
Proof.
  induction l as [|[c r] l IH]; intros jti lo hi s t' Ho Hm; simpl in *.
  - intros t Ht. apply Hm. lia.
  - destruct Ho as [Hle Ho]. eapply IH; [done|]. by eapply handle_marked.
Qed.

(** C1: refresh tokens are single use, and reuse revokes every session.  Once
    a refresh with a token succeeded, then whatever requests the service
    serves in between, presenting the same token again at any instant at which
    it still verifies is answered 401 and leaves the user without any stored
    refresh token. *)
Theorem refresh_reuse_revokes c c2 tok sub jti ttl t0 s s1 r l :
  is_refresh_token cfg tok sub jti ttl t0 → 0 < t0 / 1000 + ttl →
  refreshTokens cfg c tok s = (s1, Ret r) →
  ordered (now c) l (now c2) → now c2 / 1000 < t0 / 1000 + ttl → redisUp c2 = true →
  ∃ s3, refreshTokens cfg c2 tok (serve cfg l s1) =
          (s3, Throw (UnauthorizedException reuse_message)) ∧
        ∀ k row, rows (AuthModel.refreshTokens s3) !! k = Some row → rt_userId row ≠ sub.
Proof.
  intros Htok Hpos Hr Ho Ht Hup2.
  destruct (refresh_accepted _ _ _ _ _ _ _ _ _ _ Htok Hr) as [Hsub Hjti _ _].
  assert (Hm : marked jti (now c) ((t0 / 1000 + ttl) * 1000) s1).
  { intros t Hlo Hhi. eexists. eapply refresh_marks_used; [done..|].
    apply Z.div_lt_upper_bound; lia. }
  pose proof (serve_marked _ _ _ _ _ _ Ho Hm) as Hm2.
  destruct (Hm2 (now c2)) as [v Hv]; [lia| |].
  { pose proof (Z.div_mod (now c2) 1000 ltac:(lia)).
    pose proof (Z.mod_pos_bound (now c2) 1000 ltac:(lia)). lia. }
  destruct (refresh_marked_revokes cfg c2 tok sub jti ttl t0 (serve cfg l s1) v Htok
    ltac:(by split) Hv) as (s3 & -> & Hrows & _). eauto.
Qed.
End handlers.
End AuthService.
