(* ===== verification/AuthWitness.v ===== *)
(** * AuthWitness: concrete runs of the auth service

    A small configuration and a few states, on the reference instances of the
    stores and the sample functions of Crypto, on which the hypotheses of the
    theorems about the auth service hold; and the runs behind the findings. *)

From Stdlib Require Import ZArith Lia Ascii String.
From stdpp Require Import base list gmap strings.
From S2P Require Import Prelude Text Store Crypto RequestSecurity Totp.
From S2P Require Import AuthModel AuthSession AuthLogin AuthMfa AuthService.
Import AuthModel AuthSession AuthLogin AuthMfa AuthService.

Module AuthWitness.
#[local] Existing Instances sample_hashing sample_bcrypt sample_hmac sample_uri sample_jwt
  sample_timespan.

Abbreviation St := (AuthState (gmap string) (gmap string (rvalue AuthPayload * option Z))).

Definition sample_env : AuthEnvironment := {|
  AUTH_LOCK_WINDOW_MINUTES := None; AUTH_LOCK_PROGRESSIVE_MULTIPLIER := Some 2;
  AUTH_LOCK_MAX_MINUTES := None; AUTH_LOCK_MAX_ATTEMPTS := Some 3;
  AUTH_CAPTCHA_ENABLED := None; AUTH_CAPTCHA_FAIL_THRESHOLD := None;
  AUTH_CAPTCHA_SHARED_SECRET := None; ADMIN_MFA_ENABLED := None;
  ADMIN_MFA_TTL_SECONDS := None; ADMIN_MFA_ISSUER := None;
  ADMIN_MFA_SETUP_TTL_SECONDS := None; ADMIN_MFA_TEMP_BOOTSTRAP_ENABLED := None;
  ADMIN_MFA_MAX_ATTEMPTS := None; ADMIN_MFA_RECOVERY_CODES_COUNT := None;
  AUTH_ANOMALY_RISK_THRESHOLD := None; AUTH_ANOMALY_MODE := None;
  AUTH_LOGIN_CONTEXT_TTL_SECONDS := None;
  JWT_SECRET := Some "access-key"%string; JWT_REFRESH_SECRET := Some "refresh-key"%string;
  JWT_EXPIRES_IN := None; JWT_REFRESH_EXPIRES_IN := None; INTER_SERVICE_SYNC_TOKEN := None |}.
Definition cfg : Config := loadConfig sample_env.

(** Monday morning, in milliseconds. *)
Definition t0 : Z := 1700000000000.
Definition call (t : Z) (tag : string) : Call := {|
  now := t; req := RequestSecurity.sample_request; redisUp := true; syncAnswer := SyncStatus 200;
  newUserId := "u" +:+ tag; newChallengeId := "ch" +:+ tag; newJti := "jti" +:+ tag;
  newTokenRowId := "rt" +:+ tag; newAuditId := "au" +:+ tag; randomCode := 123456;
  random20 := Totp.sample_secret_bytes; random32hex := "00ff";
  randomRecovery := λ i, [Z.of_nat i mod 256; 17; 34; 51]; salt := λ i, "salt"%string |}.

Definition empty_state : St :=
  {| users := ∅; AuthModel.refreshTokens := ∅; mfaAuditLogs := ∅; userQuotas := ∅; redis := ∅;
     synced := [] |}.
Definition reg : RegisterDto :=
  {| rg_email := "a@b.tn"; rg_password := "Passw0rd!"; rg_firstName := "A"; rg_lastName := "B" |}.

(** After the registration of one user. *)
Definition s1 : St := (register cfg (call t0 "1") reg empty_state).1.
Definition tok1 : string :=
  jwt_sign "refresh-key" (refresh_claims "u1" "jti1") 604800 t0.
Definition creds (p : string) : LoginDto :=
  {| lg_email := "A@b.tn"; lg_password := p; lg_rememberMe := true; lg_captchaToken := None |}.
Definition good : LoginDto :=
  {| lg_email := "a@b.tn"; lg_password := "Passw0rd!"; lg_rememberMe := true;
     lg_captchaToken := None |}.

Lemma tok1_signed : is_refresh_token cfg tok1 "u1" "jti1" 604800 t0.
Proof. reflexivity. Qed.

Lemma s1_reachable : reachable cfg s1.
Proof.
  assert (Hr : s1 = (handle cfg (call t0 "1") (Register reg) empty_state).1).
  { unfold handle, ignore, s1, mbind, M_bind. by destruct (register _ _ _ _) as [? [?|?]]. }
  rewrite Hr. apply reach_step. apply reach_init; reflexivity.
Qed.

Definition wf_of_reach (s : St) (Hr : reachable cfg s) : auth_wf cfg s.
Proof.
  induction Hr as [s Hu Hs|c r s _ IH]; [|by apply handle_wf]. split.
  - intros k u Hk. by rewrite Hu in Hk.
  - split; intros *; rewrite Hs; done.
Qed.
Lemma s1_wf : auth_wf cfg s1.
Proof. apply wf_of_reach, s1_reachable. Qed.

Lemma issued_access_token_witness :
  ∃ s' tk, generateTokens cfg (call t0 "2") "u1" (new_user "a@b.tn" None "h" "A" "B") s1 = (s', Ret tk) ∧
  RequestSecurity.authenticate (jwtSecret cfg) RequestSecurity.sample_request (accessToken tk)
    (t0 + 60000) =
  Ret {| RequestSecurity.userId := Some "u1"%string; RequestSecurity.email := Some "a@b.tn"%string;
         RequestSecurity.role := Some "USER"%string |}.
Proof.
  destruct (ret_eta (generateTokens cfg (call t0 "2") "u1" (new_user "a@b.tn" None "h" "A" "B")) s1)
    as [tk Htk]; [vm_compute; reflexivity|].
  eexists _, tk. split; [exact Htk|].
  pose proof (issued_access_token_bound cfg _ _ _ _ _ _ RequestSecurity.sample_request
    (t0 + 60000) Htk) as Hb.
  rewrite Hb by (intros ttl [= <-]; vm_compute; reflexivity).
  rewrite bool_decide_true by reflexivity. reflexivity.
Defined.

Lemma refresh_reuse_witness :
  ∃ s' r s3, refreshTokens cfg (call (t0 + 1000) "2") tok1 s1 = (s', Ret r) ∧
    refreshTokens cfg (call (t0 + 90000) "4") tok1
      (serve cfg [(call (t0 + 2000) "3", Login good); (call (t0 + 3000) "3", Logout tok1)] s') =
      (s3, Throw (UnauthorizedException reuse_message)) ∧
    ∀ k row, rows (AuthModel.refreshTokens s3) !! k = Some row → rt_userId row ≠ "u1"%string.
Proof.
  destruct (ret_eta (refreshTokens cfg (call (t0 + 1000) "2") tok1) s1) as [r Hr];
    [vm_compute; reflexivity|].
  destruct (refresh_reuse_revokes cfg _ (call (t0 + 90000) "4") _ _ _ _ _ _ _ _
    [(call (t0 + 2000) "3", Login good); (call (t0 + 3000) "3", Logout tok1)]
    tok1_signed ltac:(vm_compute; reflexivity) Hr) as (s3 & H3 & Hrows).
  - simpl. unfold t0. lia.
  - vm_compute. reflexivity.
  - reflexivity.
  - eexists _, r, s3. split; [exact Hr|]. split; [exact H3|exact Hrows].
Defined.

Lemma refresh_rotates_witness :
  ∃ s' r, refreshTokens cfg (call (t0 + 1000) "2") tok1 s1 = (s', Ret r) ∧
    ∀ k row, rows (AuthModel.refreshTokens s') !! k = Some row → rt_token row ≠ tok1.
Proof.
  destruct (ret_eta (refreshTokens cfg (call (t0 + 1000) "2") tok1) s1) as [r Hr];
    [vm_compute; reflexivity|].
  eexists _, r. split; [exact Hr|].
  assert (Hj : newJti (call (t0 + 1000) "2") ≠ "jti1"%string) by discriminate.
  assert (Hf : rows (AuthModel.refreshTokens s1) !! newTokenRowId (call (t0 + 1000) "2") = None)
    by (vm_compute; reflexivity).
  destruct (refresh_rotates cfg (call (t0 + 1000) "2") tok1 "u1" "jti1" 604800 t0 s1 _ r
    (proj2 s1_wf) tok1_signed Hj Hf Hr) as [Hgone _]. exact Hgone.
Defined.

Lemma logout_all_witness :
  ∃ e, (refreshTokens cfg (call (t0 + 1000) "2") tok1 (logoutAllSessions "u1" s1).1).2 = Throw e.
Proof.
  exact (proj1 (logout_all_ends_sessions cfg "u1" s1 (proj2 s1_wf)) (call (t0 + 1000) "2") tok1
    "jti1" 604800 t0 tok1_signed).
Defined.

(** *** Login and lockout *)

Definition is_session (o : outcome LoginResult) : bool :=
  match o with Ret (Session _) => true | _ => false end.
Definition is_challenge (id : string) (o : outcome LoginResult) : bool :=
  match o with Ret (MfaRequired i _ _) => bool_decide (i = id) | _ => false end.


Definition guess (t : Z) : Call * LoginDto := (call t "9", creds "Wr0ng-pass").


(** *** Second factor *)

Definition secret1 : string := Totp.generateTotpSecret Totp.sample_secret_bytes.
Definition totp_at (t : Z) : string :=
  match Totp.generateTotpCode secret1 t with Ret c => c | Throw _ => "" end.

Definition s2 : St := (setupAdminTotpWithPassword cfg (call (t0 + 1000) "2") "u1" "Passw0rd!" s1).1.
Definition s3 : St := (enableAdminTotp cfg (call (t0 + 2000) "3") "u1" (totp_at (t0 + 2000)) s2).1.

Lemma s2_wf : users_wf (users s2).
Proof.
  assert (Hr : s2 = (handle cfg (call (t0 + 1000) "2") (SetupMfa "u1" "Passw0rd!") s1).1).
  { unfold handle, ignore, s2, mbind, M_bind. by destruct (setupAdminTotpWithPassword _ _ _ _ _) as [? [?|?]]. }
  rewrite Hr. apply handle_wf, s1_wf.
Qed.

Lemma sample_recovery_random t tag : recovery_random (call t tag).
Proof.
  intros i. simpl. split; [|reflexivity].
  repeat constructor; unfold is_byte; try lia; apply Z.mod_pos_bound; lia.
Qed.

Lemma enable_totp_witness :
  ∃ s' codes, enableAdminTotp cfg (call (t0 + 2000) "3") "u1" (totp_at (t0 + 2000)) s2 = (s', Ret codes) ∧
    length codes = 10%nat ∧ ∀ plain, plain ∈ codes → (consumeRecoveryCode "u1" plain s').2 = Ret true.
Proof.
  destruct (ret_eta (enableAdminTotp cfg (call (t0 + 2000) "3") "u1" (totp_at (t0 + 2000))) s2)
    as [codes Hc]; [vm_compute; reflexivity|].
  destruct (enable_totp_arms cfg _ _ _ _ _ _ s2_wf (sample_recovery_random _ _) Hc)
    as (Hlen & _ & _ & Hall).
  eexists _, codes. split; [exact Hc|]. split; [exact Hlen|exact Hall].
Defined.

Lemma consume_recovery_witness :
  ∃ s' u hashes, consumeRecoveryCode "u1" "0011-2233" s3 = (s', Ret true) ∧
    rows (users s3) !! "u1"%string = Some u ∧
    rows (users s') = <["u1"%string := with_recovery hashes (u_mfaRecoveryCodesGeneratedAt u) u]> (rows (users s3)) ∧
    matches (normalizeRecoveryCode "0011-2233") hashes =
      matches (normalizeRecoveryCode "0011-2233") (u_mfaRecoveryCodeHashes u) - 1.
Proof.
  destruct (ret_eta (consumeRecoveryCode "u1" "0011-2233") s3) as [b Hb]; [vm_compute; reflexivity|].
  assert (Hbt : (consumeRecoveryCode "u1" "0011-2233" s3).2 = Ret true) by (vm_compute; reflexivity).
  assert (Hb' : b = true) by (rewrite Hb in Hbt; simpl in Hbt; by injection Hbt). subst b. clear Hbt.
  assert (Hu : bool_decide (is_Some (rows (users s3) !! "u1"%string)) = true) by (vm_compute; reflexivity).
  apply bool_decide_eq_true in Hu as [u Eu].
  destruct (consume_recovery_once "u1" "0011-2233" u s3 _ true Eu Hb)
    as (_ & hashes & Hrows & Hm & _).
  eexists _, u, hashes. split; [exact Hb|]. split; [exact Eu|]. split; [exact Hrows|].
  apply Hm. reflexivity.
Defined.

Lemma recovery_unreachable_witness : consumeRecoveryCode "u1" "001122" s3 = (s3, Ret false).
Proof. apply recovery_code_unreachable. reflexivity. Defined.

Definition s4 : St := (login cfg (call (t0 + 60000) "4") good s3).1.
Lemma s4_login : ∃ msg otp,
  login cfg (call (t0 + 60000) "4") good s3 = (s4, Ret (MfaRequired "ch4" msg otp)).
Proof.
  assert (Hs : is_challenge "ch4" (login cfg (call (t0 + 60000) "4") good s3).2 = true)
    by (vm_compute; reflexivity).
  unfold s4. destruct (login cfg (call (t0 + 60000) "4") good s3) as [s' [[|id msg otp|]|]];
    try discriminate Hs. simpl in Hs. apply bool_decide_eq_true in Hs as ->. by eauto.
Qed.

Lemma mfa_guesses_witness :
  (AuthMfa.guesses cfg "ch4" (replicate 9 (call (t0 + 61000) "5", "000000"%string)) s4).2 <=
    mfaMaxAttempts cfg.
Proof.
  destruct s4_login as (msg & otp & Hl).
  apply (mfa_guesses_bounded cfg _ _ _ _ _ _ _ _ (loadConfig_ok sample_env) Hl).
  - vm_compute. reflexivity.
  - simpl. unfold t0. lia.
Defined.


(** A check of every row of a concrete table. *)
Lemma all_rows {R} (p : string → R → bool) (m : gmap string R) :
  forallb (λ kr, p kr.1 kr.2) (map_to_list m) = true →
  ∀ k r, m !! k = Some r → p k r = true.
Proof.
  intros Hf k r Hk%elem_of_map_to_list. rewrite forallb_forall in Hf.
  by apply (Hf (k, r)), list_elem_of_In.
Qed.

Lemma mfa_completes_witness :
  ∃ s' r u, verifyAdminMfa cfg (call (t0 + 62000) "5") "ch4" (totp_at (t0 + 62000)) s4 = (s', Ret r) ∧
    rows (users s3) !! vr_id r = Some u ∧ u_email u = "a@b.tn"%string ∧ vr_role r = u_role u.
Proof.
  destruct s4_login as (msg & otp & Hl).
  apply (mfa_login_completes cfg _ _ _ _ _ _ _ (call (t0 + 62000) "5") (totp_at (t0 + 62000))
    900 604800 Hl); [| |vm_compute; split; [discriminate|reflexivity]|reflexivity..|].
  - intros uid u Hu He.
    assert (Hall : forallb (λ kr : string * User, u_mfaEnabled kr.2 &&
      bool_decide (u_mfaSecret kr.2 = Some secret1)) (map_to_list (users s3)) = true)
      by (vm_compute; reflexivity).
    apply (all_rows (λ _ u, u_mfaEnabled u && bool_decide (u_mfaSecret u = Some secret1)) _ Hall)
      in Hu as [Hen Hsec%bool_decide_eq_true]%andb_true_iff.
    split; [exact Hen|]. exists secret1. split; [exact Hsec|]. split; vm_compute; reflexivity.
  - reflexivity.
  - intros uid k row Hk.
    assert (Hall : forallb (λ kr : string * RefreshToken, bool_decide (rt_token kr.2 = tok1))
      (map_to_list (AuthModel.refreshTokens s3)) = true) by (vm_compute; reflexivity).
    apply (all_rows (λ _ r, bool_decide (rt_token r = tok1)) _ Hall) in Hk.
    apply bool_decide_eq_true in Hk as ->. intros E%jwt_sign_inj. by inversion E.
Defined.


(** *** Runs behind the findings *)

Definition profile1 : Profile :=
  {| gp_id := "google-1"; gp_email := Some "A@b.tn"%string; gp_displayName := None;
     gp_givenName := None; gp_familyName := None |}.
Definition google_user (o : outcome GoogleResult) : option UserWithoutPassword :=
  match o with Ret (GoogleSession r) => Some (sr_user r) | _ => None end.

(** Google login opens a session for a user enrolled in TOTP without asking
    for a code, where the password login of the same user asks for one. *)
Example google_login_skips_second_factor :
  v_mfaEnabled <$> google_user (findOrCreateGoogleUser cfg (call (t0 + 60000) "4") profile1 s3).2
    = Some true ∧
  is_challenge "ch4" (login cfg (call (t0 + 60000) "4") good s3).2 = true.
Proof. split; vm_compute; reflexivity. Qed.

Definition deactivate (u : User) : User :=
  {| u_email := u_email u; u_googleId := u_googleId u; u_password := u_password u;
     u_firstName := u_firstName u; u_lastName := u_lastName u; u_role := u_role u;
     u_isActive := false; u_mfaEnabled := u_mfaEnabled u; u_mfaSecret := u_mfaSecret u;
     u_mfaEnabledAt := u_mfaEnabledAt u; u_mfaRecoveryCodeHashes := u_mfaRecoveryCodeHashes u;
     u_mfaRecoveryCodesGeneratedAt := u_mfaRecoveryCodesGeneratedAt u |}.

(** A deactivated user cannot log in but can still refresh a session. *)
Example refresh_ignores_deactivation :
  let s := set_users (update_where (λ _ _, true) deactivate (users s1)) s1 in
  is_ret (login cfg (call (t0 + 1000) "2") good s).2 = false ∧
  is_ret (refreshTokens cfg (call (t0 + 1000) "2") tok1 s).2 = true.
Proof. split; vm_compute; reflexivity. Qed.

Definition promote (u : User) : User :=
  {| u_email := u_email u; u_googleId := u_googleId u; u_password := u_password u;
     u_firstName := u_firstName u; u_lastName := u_lastName u; u_role := ADMIN;
     u_isActive := u_isActive u; u_mfaEnabled := u_mfaEnabled u; u_mfaSecret := u_mfaSecret u;
     u_mfaEnabledAt := u_mfaEnabledAt u; u_mfaRecoveryCodeHashes := u_mfaRecoveryCodeHashes u;
     u_mfaRecoveryCodesGeneratedAt := u_mfaRecoveryCodesGeneratedAt u |}.
Definition devOtp (o : outcome LoginResult) : option string :=
  match o with Ret (MfaRequired _ _ otp) => otp | _ => None end.

(** The temporary admin code is part of the login response itself. *)
Example login_discloses_admin_code :
  let s := set_users (update_where (λ _ _, true) promote (users s1)) s1 in
  devOtp (login cfg (call (t0 + 1000) "2") good s).2 = Some "123456"%string.
Proof. vm_compute. reflexivity. Qed.
End AuthWitness.
