(* ===== verification/VmKeyCrypto.v ===== *)
(** * VmKeyCrypto: VM private keys at rest

    services/vm/src/vm/vm-ssh-key.crypto.ts.  AES-256-GCM, HKDF and base64 are
    node's; the class states what the round trip relies on.  A buffer is the
    string of its bytes. *)

From Stdlib Require Import ZArith Lia Ascii String.
From stdpp Require Import base list gmap strings.
From S2P Require Import Prelude Text.

Module VmKeyCrypto.

Class Aead := {
  (** [hkdfSync("sha256", secret, salt, info, 32)] *)
  hkdf : string → string → string → string;
  (** key, iv, plaintext: ciphertext and authentication tag *)
  gcm_seal : string → string → string → string * string;
  (** key, iv, tag, ciphertext; [None] when [final] throws *)
  gcm_open : string → string → string → string → option string;
  gcm_open_seal key iv pt :
    gcm_open key iv (gcm_seal key iv pt).2 (gcm_seal key iv pt).1 = Some pt;
  gcm_tag_nonempty key iv pt : truthy (gcm_seal key iv pt).2 = true;
  gcm_length key iv pt : String.length (gcm_seal key iv pt).1 = String.length pt;
}.

Class Base64 := {
  base64 : string → string;
  unbase64 : string → string;
  unbase64_base64 s : unbase64 (base64 s) = s;
  base64_truthy s : truthy s = true → truthy (base64 s) = true;
  (** the alphabet has no dot *)
  base64_alphabet s : "."%char ∉ chars (base64 s);
}.

Section crypto.
Context `{Aead} `{Base64}.

(** [process.env.VM_SSH_KEY_SECRET] *)
Definition getEncryptionKey (secret : option string) : outcome string :=
  let s := js_trim (default "" secret) in
  if negb (truthy s) then Throw (JsError "Missing VM_SSH_KEY_SECRET")
  else Ret (hkdf s "cloudvm-vm-ssh-key-salt" "cloudvm-vm-ssh-key-encryption").

Definition encryptVmPrivateKey (secret : option string) (iv plainTextPem : string) : outcome string :=
  match getEncryptionKey secret with
  | Throw e => Throw e
  | Ret key =>
      let '(encrypted, authTag) := gcm_seal key iv plainTextPem in
      Ret (js_join "." [base64 iv; base64 authTag; base64 encrypted])
  end.

Definition decryptVmPrivateKey (secret : option string) (cipherPayload : string) : outcome string :=
  match js_split "." cipherPayload with
  | ivB64 :: tagB64 :: encryptedB64 :: _ =>
      if negb (truthy ivB64) || negb (truthy tagB64) || negb (truthy encryptedB64)
      then Throw (JsError "Invalid encrypted VM private key payload format")
      else
        match getEncryptionKey secret with
        | Throw e => Throw e
        | Ret key =>
            match gcm_open key (unbase64 ivB64) (unbase64 tagB64) (unbase64 encryptedB64) with
            | Some pt => Ret pt
            | None => Throw (JsError "Unsupported state or unable to authenticate data")
            end
        end
  | _ => Throw (JsError "Invalid encrypted VM private key payload format")
  end.

Lemma split_join_strings c (ls : list string) :
  ls ≠ [] → Forall (λ s, c ∉ chars s) ls → js_split c (js_join c ls) = ls.
Proof.
  intros Hn Hf. unfold js_split, js_join. rewrite chars_str, split_join_chars.
  - rewrite <-list_fmap_compose. rewrite <-(list_fmap_id ls) at 2. apply list_fmap_ext.
    intros i s _. apply str_chars.
  - by destruct ls.
  - by apply Forall_fmap.
Qed.

Lemma truthy_length s : truthy s = true ↔ String.length s ≠ 0%nat.
Proof. rewrite truthy_true. by destruct s. Qed.

(** A stored key decrypts to the key that was stored. *)
Lemma decrypt_encrypt secret iv pem payload :
  truthy iv = true → truthy pem = true →
  encryptVmPrivateKey secret iv pem = Ret payload →
  decryptVmPrivateKey secret payload = Ret pem ∧ truthy payload = true.
Proof.
  intros Hiv Hpem. unfold encryptVmPrivateKey, decryptVmPrivateKey.
  destruct (getEncryptionKey secret) as [key|e] eqn:Ek; [|done].
  pose proof (gcm_open_seal key iv pem) as Ho. pose proof (gcm_tag_nonempty key iv pem) as Ht.
  pose proof (gcm_length key iv pem) as Hl.
  destruct (gcm_seal key iv pem) as [ct tag]. simpl in *. intros [= <-].
  assert (Hct : truthy ct = true) by (apply truthy_length; rewrite Hl; by apply truthy_length).
  split.
  - rewrite split_join_strings; [|done|].
    + rewrite !base64_truthy by done. simpl. by rewrite !unbase64_base64, Ho.
    + repeat constructor; apply base64_alphabet.
  - apply truthy_true. intros E. apply (f_equal chars) in E. unfold js_join in E.
    rewrite chars_str in E. simpl in E. by destruct (chars (base64 iv)).
Qed.
End crypto.

(** ** Functions that satisfy the laws *)

Definition sample_aead : Aead.
Proof.
  refine {| hkdf := λ s _ _, s; gcm_seal := λ key iv pt, (pt, "tag"%string);
            gcm_open := λ key iv tag ct, if bool_decide (tag = "tag"%string) then Some ct else None |};
    intros; reflexivity.
Defined.

(** Hexadecimal in place of base64: reversible, and free of dots. *)
Definition hexit (n : nat) : ascii := ascii_of_nat (65 + n).
Definition unhexit (c : ascii) : nat := nat_of_ascii c - 65.
Fixpoint enc_chars (l : list ascii) : list ascii :=
  match l with
  | [] => []
  | c :: l' => hexit (nat_of_ascii c / 16) :: hexit (nat_of_ascii c mod 16) :: enc_chars l'
  end.
Fixpoint dec_chars (l : list ascii) : list ascii :=
  match l with
  | a :: b :: l' => ascii_of_nat (unhexit a * 16 + unhexit b) :: dec_chars l'
  | _ => []
  end.
Lemma dec_enc_chars l : dec_chars (enc_chars l) = l.
Proof.
  induction l as [|c l IH]; [done|]. cbn [enc_chars dec_chars]. rewrite IH. f_equal.
  by destruct c as [[] [] [] [] [] [] [] []].
Qed.
Lemma enc_chars_alphabet l : "."%char ∉ enc_chars l.
Proof.
  induction l as [|c l IH]; [apply not_elem_of_nil|]. cbn [enc_chars].
  rewrite !not_elem_of_cons. split_and!; [..|done];
    by destruct c as [[] [] [] [] [] [] [] []].
Qed.

Definition sample_base64 : Base64.
Proof.
  refine {| base64 := λ s, str (enc_chars (chars s)); unbase64 := λ s, str (dec_chars (chars s)) |}.
  - intros s. by rewrite chars_str, dec_enc_chars, str_chars.
  - intros s Hs. apply truthy_true. apply truthy_true in Hs. by destruct s.
  - intros s. rewrite chars_str. apply enc_chars_alphabet.
Defined.
End VmKeyCrypto.
