(* ===== verification/Vm.v ===== *)
(** * Vm: virtual machines, their quota and their life cycle

    services/vm/src/vm/vm.service.ts (the REST operations on VMs) and
    services/vm/src/nats/nats.service.ts (publishing to the worker and
    persisting the status updates it sends back). *)

From Stdlib Require Import ZArith Lia Ascii String.
From stdpp Require Import base list gmap strings pretty.
From S2P Require Import Prelude Text Store Crypto VmKeyCrypto.
Import VmKeyCrypto.

Module Vm.

Inductive VmStatus := PENDING | RUNNING | STOPPED | SUSPENDED | ERROR | DELETED.
#[export] Instance VmStatus_eq_dec : EqDecision VmStatus.
Proof. solve_decision. Defined.

Definition status_string (s : VmStatus) : string :=
  match s with
  | PENDING => "PENDING" | RUNNING => "RUNNING" | STOPPED => "STOPPED"
  | SUSPENDED => "SUSPENDED" | ERROR => "ERROR" | DELETED => "DELETED"
  end.
Definition all_statuses : list VmStatus := [PENDING; RUNNING; STOPPED; SUSPENDED; ERROR; DELETED].
(** [DB_STATUSES.has(status)], and the status it names. *)
Definition parse_status (s : string) : option VmStatus :=
  list_find (λ x, status_string x = s) all_statuses ≫= λ ix, Some ix.2.

Record VirtualMachine := {
  vm_name : string; vm_oneVmId : option Z; vm_status : VmStatus; vm_cpu : Z; vm_ramMb : Z;
  vm_diskGb : Z; vm_ipAddress : option string; vm_osTemplate : string; vm_userId : string;
  vm_planId : option string; vm_sshHost : option string; vm_sshPort : option Z;
  vm_sshUsername : option string; vm_sshPrivateKeyEncrypted : option string;
  vm_stoppedAt : option Z; vm_createdAt : Z;
}.

(** user_quotas, keyed by the unique userId. *)
Record UserQuota := { uq_maxVms : Z; uq_maxCpu : Z; uq_maxRamMb : Z; uq_maxDiskGb : Z }.

Record InternalQuotaSnapshot := {
  hasActiveSubscription : bool; qs_planId : option string; qs_quota : option UserQuota }.
Record InternalSubscriptionAccessSnapshot := {
  activePlanId : option string; vmHoursUsed : option Z; vmHoursIncluded : option Z }.

Record CreateVmDto := {
  d_name : string; d_cpu : Z; d_ramMb : Z; d_diskGb : Z; d_osTemplate : string;
  d_planId : option string; d_sshPublicKey : option string; d_vmUsername : option string;
  d_vmPassword : option string;
}.

(** The numeric bounds of create-vm.dto.ts. *)
Definition CreateVmDto_ok (d : CreateVmDto) : bool :=
  ((1 <=? d_cpu d) && (d_cpu d <=? 32)) && ((512 <=? d_ramMb d) && (d_ramMb d <=? 65536))
  && ((5 <=? d_diskGb d) && (d_diskGb d <=? 400)).

(** Messages on the subjects the worker consumes. *)
Inductive NatsMessage :=
| VmCreate (vmId name : string) (cpu ramMb diskGb : Z) (osTemplate userId : string)
           (vmUsername vmPassword : option string) (sshPublicKey : string)
| VmAction (vmId : string) (oneVmId : option Z) (action userId : string)
| VmDelete (vmId : string) (oneVmId : option Z) (userId : string).

(** An answer of the user service. *)
Inductive Answer (A : Type) := Http (status : Z) (body : A) | NetworkError.
Arguments Http {_} _ _.
Arguments NetworkError {_}.

(** One request: clock, randomness, configuration and answers of its calls. *)
Record Call := {
  now : Z; newVmId : string; natsConnected : bool; jetStreamOk : bool;
  syncToken : option string; keySecret : option string; iv : string;
  keyPair : string * string;       (* the exported private PEM and the OpenSSH public key *)
  quotaAnswer : Answer InternalQuotaSnapshot;
  accessAnswer : Answer InternalSubscriptionAccessSnapshot;
  templatesAnswer : option (list (Z * string));
}.

Record VmState (T : Type → Type) := {
  vms : T VirtualMachine;
  userQuotas : T UserQuota;
  published : list NatsMessage;
}.
Arguments vms {_} _.
Arguments userQuotas {_} _.
Arguments published {_} _.

Definition MAX_SAFE_INTEGER : Z := 2 ^ 53 - 1.

Definition validTransitions (action : string) : option (list VmStatus) :=
  if bool_decide (action = "start") then Some [STOPPED; SUSPENDED; ERROR]
  else if bool_decide (action = "stop") then Some [RUNNING]
  else if bool_decide (action = "restart") then Some [RUNNING]
  else if bool_decide (action = "delete")
  then Some [RUNNING; STOPPED; SUSPENDED; ERROR; PENDING]
  else None.

Definition not_found : exn := NotFoundException "Virtual machine not found".
Definition access_denied : exn := ForbiddenException "Access denied".
Definition no_subscription : exn := ForbiddenException
  "No active subscription found. Please purchase a plan before creating VMs.".
Definition vm_quota_exceeded (maxVms : Z) : exn := ForbiddenException
  ("VM quota exceeded. Maximum " +:+ pretty maxVms +:+ " VMs allowed.").
(** [`${what} quota exceeded. Used: ${used}${unit}, Requested: ..., Max: ...`] *)
Definition resource_exceeded (what unit : string) (used requested max : Z) : exn :=
  ForbiddenException
    (what +:+ " quota exceeded. Used: " +:+ pretty used +:+ unit +:+ ", Requested: "
     +:+ pretty requested +:+ unit +:+ ", Max: " +:+ pretty max +:+ unit).

Section vm.
Context {T : Type → Type} `{Database T} `{Aead} `{Base64}.
Abbreviation St := (VmState T).

Definition set_vms (x : T VirtualMachine) (s : St) : St :=
  {| vms := x; userQuotas := userQuotas s; published := published s |}.
Definition set_userQuotas (x : T UserQuota) (s : St) : St :=
  {| vms := vms s; userQuotas := x; published := published s |}.
Definition set_published (x : list NatsMessage) (s : St) : St :=
  {| vms := vms s; userQuotas := userQuotas s; published := x |}.

(** NatsService.publish on a JetStream subject. *)
Definition publish (c : Call) (m : NatsMessage) : M St unit :=
  if negb (natsConnected c) then mret tt
  else if jetStreamOk c then modify (λ s, set_published (published s ++ [m]) s)
  else throw (JsError "JetStream publish failed").

(** [fetchWithTimeout], the status checks, and the body. *)
Definition fetch_internal {A} (c : Call) (a : Answer A) (message : string) : M St (option A) :=
  throw_if (negb (truthy (js_trim (default "" (syncToken c)))))
    (InternalServerErrorException "Missing INTER_SERVICE_SYNC_TOKEN configuration");;
  match a with
  | NetworkError => throw (InternalServerErrorException message)
  | Http status body =>
      if status =? 404 then mret None
      else if (200 <=? status) && (status <=? 299) then mret (Some body)
      else throw (InternalServerErrorException message)
  end.
Definition fetchInternalQuotaSnapshot (c : Call) : M St (option InternalQuotaSnapshot) :=
  fetch_internal c (quotaAnswer c) "Failed to load user quota snapshot".
Definition fetchInternalSubscriptionAccessSnapshot (c : Call)
    : M St (option InternalSubscriptionAccessSnapshot) :=
  fetch_internal c (accessAnswer c) "Failed to load subscription access snapshot".

Definition generateVmSshKeyPair (c : Call) : M St (string * string) :=
  let '(privateKeyPem, publicKeySsh) := keyPair c in
  throw_if (negb (truthy publicKeySsh) || negb (starts_with "ssh-rsa" publicKeySsh))
    (InternalServerErrorException "Generated public key does not look like a valid ssh-rsa key");;
  mret (privateKeyPem, publicKeySsh).

Definition active_of (userId : string) (_ : string) (v : VirtualMachine) : bool :=
  bool_decide (vm_userId v = userId) && negb (bool_decide (vm_status v = DELETED)).

(** The unique index on (userId, name), which counts deleted rows too. *)
Definition same_name (v : VirtualMachine) (_ : string) (w : VirtualMachine) : bool :=
  bool_decide (vm_userId w = vm_userId v) && bool_decide (vm_name w = vm_name v).
Definition create_vm_row (id : string) (v : VirtualMachine) : M St unit := λ s,
  match find_first (same_name v) (vms s) with
  | Some _ => (s, Throw (PrismaError "P2002"))
  | None => (set_vms (put id v (vms s)) s, Ret tt)
  end.

Definition new_vm (c : Call) (dto : CreateVmDto) (userId : string) (encrypted : option string)
    : VirtualMachine :=
  {| vm_name := d_name dto; vm_oneVmId := None; vm_status := PENDING; vm_cpu := d_cpu dto;
     vm_ramMb := d_ramMb dto; vm_diskGb := d_diskGb dto; vm_ipAddress := None;
     vm_osTemplate := d_osTemplate dto; vm_userId := userId;
     vm_planId := d_planId dto ≫= nonempty; vm_sshHost := None; vm_sshPort := Some 22;
     vm_sshUsername := Some (opt_or (js_trim <$> d_vmUsername dto) "cloudvm");
     vm_sshPrivateKeyEncrypted := encrypted; vm_stoppedAt := None; vm_createdAt := now c |}.

(** The body of [prisma.$transaction] in [createVm]. *)
Definition create_tx (c : Call) (dto : CreateVmDto) (userId : string) (isAdmin : bool)
    (remoteQuota : option InternalQuotaSnapshot) (encrypted : option string) : M St VirtualMachine :=
  quota0 ← gets (λ s, find_by_id userId (userQuotas s));
  quota ← (match (if isAdmin then None else remoteQuota) with
           | Some rq =>
               match hasActiveSubscription rq, qs_quota rq with
               | true, Some q =>
                   modify (λ s, set_userQuotas (put userId q (userQuotas s)) s);; mret (Some q)
               | _, _ => mret quota0
               end
           | None => mret quota0
           end);
  activeVms ← gets (λ s, count_where (active_of userId) (vms s));
  let limit (f : UserQuota → Z) :=
    if isAdmin then MAX_SAFE_INTEGER else match quota with Some q => f q | None => 0 end in
  throw_if (limit uq_maxVms <=? activeVms) (vm_quota_exceeded (limit uq_maxVms));;
  usedCpu ← gets (λ s, sum_where vm_cpu (active_of userId) (vms s));
  usedRam ← gets (λ s, sum_where vm_ramMb (active_of userId) (vms s));
  usedDisk ← gets (λ s, sum_where vm_diskGb (active_of userId) (vms s));
  throw_if (limit uq_maxCpu <? usedCpu + d_cpu dto)
    (resource_exceeded "CPU" "" usedCpu (d_cpu dto) (limit uq_maxCpu));;
  throw_if (limit uq_maxRamMb <? usedRam + d_ramMb dto)
    (resource_exceeded "RAM" "MB" usedRam (d_ramMb dto) (limit uq_maxRamMb));;
  throw_if (limit uq_maxDiskGb <? usedDisk + d_diskGb dto)
    (resource_exceeded "Disk" "GB" usedDisk (d_diskGb dto) (limit uq_maxDiskGb));;
  let v := new_vm c dto userId encrypted in
  create_vm_row (newVmId c) v;;
  mret v.

Definition is_admin (role : string) : bool := bool_decide (role = "ADMIN"%string).

(** The key material: (public key, generated private key, its encryption). *)
Definition vm_keys (c : Call) (dto : CreateVmDto) : M St (string * option string * option string) :=
  let provided := js_trim (default "" (d_sshPublicKey dto)) in
  if truthy provided then mret (provided, None, None)
  else
    kp ← generateVmSshKeyPair c;
    match encryptVmPrivateKey (keySecret c) (iv c) kp.1 with
    | Ret enc => mret (kp.2, Some kp.1, Some enc)
    | Throw e => throw e
    end.

Definition createVm (c : Call) (dto : CreateVmDto) (userId role : string)
    : M St (string * VirtualMachine * option string) :=
  let isAdmin := is_admin role in
  remoteQuota ← (if isAdmin then mret None else fetchInternalQuotaSnapshot c);
  throw_if (negb isAdmin &&
            negb (match remoteQuota with Some q => hasActiveSubscription q | None => false end))
    no_subscription;;
  keys ← vm_keys c dto;
  let '(sshPublicKeyForVm, generatedSshPrivateKey, encryptedPrivateKey) := keys in
  vm ← try_catch (transaction (create_tx c dto userId isAdmin remoteQuota encryptedPrivateKey))
         (λ error,
            if bool_decide (error = PrismaError "P2002")
            then throw (ConflictException "You already have a VM with this name")
            else throw error);
  publish c (VmCreate (newVmId c) (vm_name vm) (vm_cpu vm) (vm_ramMb vm) (vm_diskGb vm)
               (vm_osTemplate vm) userId (vm_sshUsername vm) (d_vmPassword dto) sshPublicKeyForVm);;
  mret (newVmId c, vm, generatedSshPrivateKey).

(** ** Reads *)

Record VmQuery := { vq_status : option string; vq_search : option string; vq_page : option Z;
                    vq_limit : option Z }.
Record VmPage := { pg_data : list (string * VirtualMachine); pg_total : Z; pg_page : Z;
                   pg_limit : Z; pg_totalPages : option Z }.

Definition contains_insensitive (search : string) (o : option string) : bool :=
  match o with
  | Some v => includes (toLowerCase search) (toLowerCase v)
  | None => false
  end.
Definition list_where (userId role : string) (q : VmQuery) (st : option VmStatus)
    (_ : string) (v : VirtualMachine) : bool :=
  (is_admin role || bool_decide (vm_userId v = userId))
  && (match st with
      | Some x => bool_decide (vm_status v = x)
      | None => negb (bool_decide (vm_status v = DELETED))
      end)
  && (if opt_truthy (vq_search q)
      then contains_insensitive (default "" (vq_search q)) (Some (vm_name v))
           || contains_insensitive (default "" (vq_search q)) (vm_ipAddress v)
      else true).

(** Prisma's [skip]/[take]: a negative [skip] is refused, a negative [take]
    counts from the end. *)
Definition page_of {A} (skip take_ : Z) (l : list A) : outcome (list A) :=
  if skip <? 0 then Throw (JsError "Invalid value for skip argument")
  else if 0 <=? take_ then Ret (take (Z.to_nat take_) (drop (Z.to_nat skip) l))
  else Ret (rev (take (Z.to_nat (- take_)) (drop (Z.to_nat skip) (rev l)))).

(** [Math.ceil(total / limit)]; not a number when the limit is 0. *)
Definition total_pages (total limit : Z) : option Z :=
  if limit =? 0 then None else Some (- ((- total) / limit)).

Definition listVms (userId role : string) (q : VmQuery) : M St VmPage :=
  let page := default 1 (vq_page q) in
  let limit := Z.min (default 20 (vq_limit q)) 100 in
  let skip := (page - 1) * limit in
  let fetch (st : option VmStatus) : M St VmPage := λ s,
    let p := list_where userId role q st in
    match page_of skip limit (select_desc vm_createdAt p (vms s)) with
    | Ret data =>
        let total := count_where p (vms s) in
        (s, Ret {| pg_data := data; pg_total := total; pg_page := page; pg_limit := limit;
                   pg_totalPages := total_pages total limit |})
    | Throw e => (s, Throw e)
    end in
  if opt_truthy (vq_status q)
  then match parse_status (default "" (vq_status q)) with
       | Some st => fetch (Some st)
       | None => throw (JsError "Invalid value for argument status")
       end
  else fetch None.

Definition getVm (vmId userId role : string) : M St VirtualMachine :=
  vm ← gets (λ s, find_by_id vmId (vms s));
  match vm with
  | None => throw not_found
  | Some v =>
      throw_if (negb (is_admin role) && negb (bool_decide (vm_userId v = userId))) access_denied;;
      mret v
  end.

Definition getVmSshPrivateKey (c : Call) (vmId userId role : string)
    : M St (string * string * string) :=
  vm ← gets (λ s, find_by_id vmId (vms s));
  match vm with
  | None => throw not_found
  | Some v =>
      throw_if (negb (is_admin role) && negb (bool_decide (vm_userId v = userId))) access_denied;;
      throw_if (negb (opt_truthy (vm_sshPrivateKeyEncrypted v)))
        (NotFoundException "SSH private key is not available for this VM");;
      match decryptVmPrivateKey (keySecret c) (default "" (vm_sshPrivateKeyEncrypted v)) with
      | Ret privateKey => mret (vmId, vm_name v, privateKey)
      | Throw _ => throw (InternalServerErrorException "Failed to decrypt SSH private key")
      end
  end.

(** The gate on start and restart: an active plan with hours left. *)
Definition assert_hours_left (access : option InternalSubscriptionAccessSnapshot) : M St unit :=
  match access with
  | Some a =>
      if opt_truthy (activePlanId a) then
        throw_if (negb (bool_decide (activePlanId a = Some "unlimited"%string)) &&
                  match vmHoursIncluded a, vmHoursUsed a with
                  | Some included, Some used => included <=? used
                  | _, _ => false
                  end)
          (ForbiddenException "VM-hour limit reached for the current billing cycle. Stop VMs or upgrade your plan.")
      else throw (ForbiddenException "No active subscription found. Please purchase a plan.")
  | None => throw (ForbiddenException "No active subscription found. Please purchase a plan.")
  end.

Definition vmAction (c : Call) (vmId action userId role : string) : M St string :=
  v ← getVm vmId userId role;
  when (negb (is_admin role) &&
        (bool_decide (action = "start"%string) || bool_decide (action = "restart"%string)))
    (access ← fetchInternalSubscriptionAccessSnapshot c;
     assert_hours_left access);;
  throw_if (negb (match validTransitions action with
                  | Some allowed => bool_decide (vm_status v ∈ allowed)
                  | None => false
                  end))
    (BadRequestException ("Cannot perform '" +:+ action +:+ "' on a VM with status '"
                          +:+ status_string (vm_status v) +:+ "'"));;
  publish c (VmAction vmId (vm_oneVmId v) action userId);;
  mret ("Action '" +:+ action +:+ "' queued for VM " +:+ vm_name v).

Definition deleteVm (c : Call) (vmId userId role : string) : M St string :=
  v ← getVm vmId userId role;
  throw_if (bool_decide (vm_status v = DELETED))
    (BadRequestException ("VM '" +:+ vm_name v +:+ "' is already deleted"));;
  publish c (VmDelete vmId (vm_oneVmId v) userId);;
  mret ("VM '" +:+ vm_name v +:+ "' deletion queued").

(** [nats.request]: null when disconnected or on a failed request. *)
Definition getTemplates (c : Call) : M St (list (Z * string)) :=
  mret (if natsConnected c then default [] (templatesAnswer c) else []).

Record Stats := { s_total : Z; s_running : Z; s_stopped : Z; s_pending : Z; s_error : Z;
                  s_totalCpu : Z; s_totalRamMb : Z; s_totalDiskGb : Z }.

Definition getStats (userId role : string) : M St Stats := λ s,
  let mine (v : VirtualMachine) := is_admin role || bool_decide (vm_userId v = userId) in
  let count st := count_where (λ _ v, mine v && bool_decide (vm_status v = st)) (vms s) in
  let used (_ : string) v := mine v && bool_decide (vm_status v ∈ [RUNNING; STOPPED; PENDING]) in
  (s, Ret {| s_total := count_where (λ _ v, mine v && negb (bool_decide (vm_status v = DELETED))) (vms s);
             s_running := count RUNNING; s_stopped := count STOPPED; s_pending := count PENDING;
             s_error := count ERROR; s_totalCpu := sum_where vm_cpu used (vms s);
             s_totalRamMb := sum_where vm_ramMb used (vms s);
             s_totalDiskGb := sum_where vm_diskGb used (vms s) |}).

(** ** Status updates from the worker *)

Record StatusUpdate := {
  su_vmId : string; su_status : string; su_ipAddress : option string; su_oneVmId : option Z;
  su_sshHost : option string; su_sshPort : option Z }.

(** [if (x) updateData.x = x] for strings and numbers. *)
Definition keep_str (new old : option string) : option string :=
  if opt_truthy new then new else old.
Definition keep_num (new old : option Z) : option Z :=
  match new with Some n => if n =? 0 then old else Some n | None => old end.

Definition mark_deleted (v : VirtualMachine) : VirtualMachine :=
  {| vm_name := vm_name v; vm_oneVmId := vm_oneVmId v; vm_status := DELETED; vm_cpu := vm_cpu v;
     vm_ramMb := vm_ramMb v; vm_diskGb := vm_diskGb v; vm_ipAddress := vm_ipAddress v;
     vm_osTemplate := vm_osTemplate v; vm_userId := vm_userId v; vm_planId := vm_planId v;
     vm_sshHost := vm_sshHost v; vm_sshPort := vm_sshPort v; vm_sshUsername := vm_sshUsername v;
     vm_sshPrivateKeyEncrypted := vm_sshPrivateKeyEncrypted v;
     vm_stoppedAt := vm_stoppedAt v; vm_createdAt := vm_createdAt v |}.
Definition mark_stopped (t : Z) (v : VirtualMachine) : VirtualMachine :=
  {| vm_name := vm_name v; vm_oneVmId := vm_oneVmId v; vm_status := vm_status v; vm_cpu := vm_cpu v;
     vm_ramMb := vm_ramMb v; vm_diskGb := vm_diskGb v; vm_ipAddress := vm_ipAddress v;
     vm_osTemplate := vm_osTemplate v; vm_userId := vm_userId v; vm_planId := vm_planId v;
     vm_sshHost := vm_sshHost v; vm_sshPort := vm_sshPort v; vm_sshUsername := vm_sshUsername v;
     vm_sshPrivateKeyEncrypted := vm_sshPrivateKeyEncrypted v;
     vm_stoppedAt := Some t; vm_createdAt := vm_createdAt v |}.
Definition apply_update (t : Z) (st : VmStatus) (d : StatusUpdate) (v : VirtualMachine)
    : VirtualMachine :=
  {| vm_name := vm_name v; vm_oneVmId := keep_num (su_oneVmId d) (vm_oneVmId v); vm_status := st;
     vm_cpu := vm_cpu v; vm_ramMb := vm_ramMb v; vm_diskGb := vm_diskGb v;
     vm_ipAddress := keep_str (su_ipAddress d) (vm_ipAddress v);
     vm_osTemplate := vm_osTemplate v; vm_userId := vm_userId v; vm_planId := vm_planId v;
     vm_sshHost := keep_str (su_sshHost d) (vm_sshHost v);
     vm_sshPort := keep_num (su_sshPort d) (vm_sshPort v); vm_sshUsername := vm_sshUsername v;
     vm_sshPrivateKeyEncrypted := vm_sshPrivateKeyEncrypted v;
     vm_stoppedAt := match st with
                     | STOPPED | SUSPENDED | ERROR => Some t
                     | RUNNING => None
                     | _ => vm_stoppedAt v
                     end;
     vm_createdAt := vm_createdAt v |}.

(** The callback of [subscribe("vm.status.update", ...)]. *)
Definition onStatusUpdate (t : Z) (d : StatusUpdate) : M St unit :=
  let here (k : string) (_ : VirtualMachine) := bool_decide (k = su_vmId d) in
  match parse_status (su_status d) with
  | None => mret tt
  | Some DELETED =>
      found ← gets (λ s, count_where here (vms s));
      modify (λ s, set_vms (update_where here mark_deleted (vms s)) s);;
      if found =? 0 then mret tt
      else modify (λ s, set_vms (update_where
             (λ k v, here k v && bool_decide (vm_stoppedAt v = None)) (mark_stopped t) (vms s)) s)
  | Some st => modify (λ s, set_vms (update_where here (apply_update t st d) (vms s)) s)
  end.
End vm.

(** ** Theorems *)

Section theorems.
Context {T : Type → Type} `{DatabaseLaws T} `{Aead} `{Base64}.
Abbreviation St := (VmState T).
Implicit Types s : St.

(** *** Creation *)

(** The quota the transaction applies. *)
Definition applied_quota (isAdmin : bool) (rq : option InternalQuotaSnapshot) (stored : option UserQuota)
    : option UserQuota :=
  match (if isAdmin then None else rq) with
  | Some r => if hasActiveSubscription r
              then match qs_quota r with Some q => Some q | None => stored end else stored
  | None => stored
  end.
Definition limit_of (isAdmin : bool) (quota : option UserQuota) (f : UserQuota → Z) : Z :=
  if isAdmin then MAX_SAFE_INTEGER else match quota with Some q => f q | None => 0 end.

Record fits (isAdmin : bool) (quota : option UserQuota) (dto : CreateVmDto) (uid : string)
    (t : T VirtualMachine) : Prop := {
  fit_vms : count_where (active_of uid) t < limit_of isAdmin quota uq_maxVms;
  fit_cpu : sum_where vm_cpu (active_of uid) t + d_cpu dto <= limit_of isAdmin quota uq_maxCpu;
  fit_ram : sum_where vm_ramMb (active_of uid) t + d_ramMb dto <= limit_of isAdmin quota uq_maxRamMb;
  fit_disk : sum_where vm_diskGb (active_of uid) t + d_diskGb dto <= limit_of isAdmin quota uq_maxDiskGb }.

Lemma create_tx_inv c dto uid adm rq enc s s' v :
  create_tx c dto uid adm rq enc s = (s', Ret v) →
  let quota := applied_quota adm rq (rows (userQuotas s) !! uid) in
  v = new_vm c dto uid enc ∧ fits adm quota dto uid (vms s) ∧
  find_first (same_name v) (vms s) = None ∧
  vms s' = put (newVmId c) v (vms s) ∧ published s' = published s ∧
  rows (userQuotas s') !! uid = quota ∧
  ∀ uid', uid' ≠ uid → rows (userQuotas s') !! uid' = rows (userQuotas s) !! uid'.
Proof.
  unfold create_tx. intros Hc. apply bind_Ret_inv in Hc as (q0 & s0 & [= <- <-] & Hc).
  apply bind_Ret_inv in Hc as (quota & s1 & Hq & Hc).
  assert (Hs1 : quota = applied_quota adm rq (rows (userQuotas s) !! uid) ∧ vms s1 = vms s ∧
    published s1 = published s ∧ rows (userQuotas s1) !! uid = quota ∧
    ∀ uid', uid' ≠ uid → rows (userQuotas s1) !! uid' = rows (userQuotas s) !! uid').
  { unfold applied_quota, find_by_id in *. destruct (if adm then None else rq) as [r|].
    - destruct (hasActiveSubscription r); [destruct (qs_quota r) as [q|]|]; m_red; simplify_eq/=.
      + rewrite rows_put. split_and!; [done..|apply lookup_insert_eq|].
        intros. by rewrite lookup_insert_ne.
      + done.
      + done.
    - injection Hq as <- <-. done. }
  destruct Hs1 as (-> & Hv & Hp & Hu & Ho).
  apply bind_Ret_inv in Hc as (n & s2 & [= <- <-] & Hc).
  apply bind_Ret_inv in Hc as ([] & s2 & [H1c%Z.leb_gt ->]%throw_if_inv & Hc).
  apply bind_Ret_inv in Hc as (? & s2 & [= <- <-] & Hc).
  apply bind_Ret_inv in Hc as (? & s2 & [= <- <-] & Hc).
  apply bind_Ret_inv in Hc as (? & s2 & [= <- <-] & Hc).
  apply bind_Ret_inv in Hc as ([] & s2 & [H2c%Z.ltb_ge ->]%throw_if_inv & Hc).
  apply bind_Ret_inv in Hc as ([] & s2 & [H3c%Z.ltb_ge ->]%throw_if_inv & Hc).
  apply bind_Ret_inv in Hc as ([] & s2 & [H4c%Z.ltb_ge ->]%throw_if_inv & Hc).
  apply bind_Ret_inv in Hc as ([] & s2 & Hrow & [= <- <-]).
  rewrite Hv in *. unfold create_vm_row in Hrow. rewrite Hv in Hrow.
  destruct (find_first _ _) eqn:Ef; [done|]. injection Hrow as <-. simpl.
  split_and!; done.
Qed.

(** What a successful [createVm] did. *)
Lemma createVm_inv c dto uid role s s' r :
  createVm c dto uid role s = (s', Ret r) →
  ∃ rq pub gen enc msgs,
    (is_admin role = false → ∃ q, rq = Some q ∧ hasActiveSubscription q = true ∧
       ∃ st, quotaAnswer c = Http st q) ∧
    (is_admin role = true → rq = None) ∧
    vm_keys c dto s = (s, Ret (pub, gen, enc)) ∧
    r = (newVmId c, new_vm c dto uid enc, gen) ∧
    let quota := applied_quota (is_admin role) rq (rows (userQuotas s) !! uid) in
    fits (is_admin role) quota dto uid (vms s) ∧
    vms s' = put (newVmId c) (new_vm c dto uid enc) (vms s) ∧
    rows (userQuotas s') !! uid = quota ∧
    (∀ uid', uid' ≠ uid → rows (userQuotas s') !! uid' = rows (userQuotas s) !! uid') ∧
    published s' = published s ++ msgs ∧
    (msgs = if natsConnected c
            then [VmCreate (newVmId c) (d_name dto) (d_cpu dto) (d_ramMb dto) (d_diskGb dto)
                    (d_osTemplate dto) uid (vm_sshUsername (new_vm c dto uid enc))
                    (d_vmPassword dto) pub]
            else []).
Proof.
  unfold createVm. intros Hc. apply bind_Ret_inv in Hc as (rq & s1 & Hrq & Hc).
  assert (s1 = s ∧ (is_admin role = true → rq = None) ∧
    (is_admin role = false → ∀ q, rq = Some q → ∃ st, quotaAnswer c = Http st q)) as (-> & Hadm & Hfet).
  { destruct (is_admin role); [by injection Hrq as <- <-|].
    unfold fetchInternalQuotaSnapshot, fetch_internal in Hrq.
    apply bind_Ret_inv in Hrq as ([] & s2 & [_ ->]%throw_if_inv & Hrq).
    destruct (quotaAnswer c) as [st q|]; [|done].
    destruct (st =? 404); [injection Hrq as <- <-; naive_solver|].
    destruct (_ && _); [injection Hrq as <- <-; naive_solver|done]. }
  apply bind_Ret_inv in Hc as ([] & s1 & [Hsub ->]%throw_if_inv & Hc).
  apply bind_Ret_inv in Hc as ([[pub gen] enc] & s1 & Hk & Hc).
  assert (Hs1 : s1 = s).
  { unfold vm_keys, generateVmSshKeyPair in Hk. destruct (truthy _); [by injection Hk as <-|].
    destruct (keyPair c) as [priv pk]. apply bind_Ret_inv in Hk as (kp & s2 & Hk2 & Hk).
    apply bind_Ret_inv in Hk2 as ([] & s3 & [_ ->]%throw_if_inv & [= <- <-]).
    destruct (encryptVmPrivateKey _ _ _); [by injection Hk as <-|done]. }
  subst s1. apply bind_Ret_inv in Hc as (v & s1 & Htx & Hc).
  unfold try_catch, transaction in Htx.
  destruct (create_tx _ _ _ _ _ _ _) as [s2 [v'|e]] eqn:Etx; [|by case_bool_decide].
  injection Htx as <- <-. apply create_tx_inv in Etx as (-> & Hfit & _ & Hv & Hp & Hq & Ho).
  apply bind_Ret_inv in Hc as ([] & s3 & Hpub & [= <- <-]).
  exists rq, pub, gen, enc, (if natsConnected c
            then [VmCreate (newVmId c) (d_name dto) (d_cpu dto) (d_ramMb dto) (d_diskGb dto)
                    (d_osTemplate dto) uid (vm_sshUsername (new_vm c dto uid enc))
                    (d_vmPassword dto) pub]
            else []).
  split. { intros Ha. rewrite Ha in Hsub. destruct rq as [q|]; [|done]. simpl in Hsub.
           exists q. split; [done|]. split; [by destruct (hasActiveSubscription q)|]. by apply Hfet. }
  unfold publish in Hpub. destruct (natsConnected c); simpl in Hpub.
  - destruct (jetStreamOk c); [|done]. injection Hpub as <-. simpl. rewrite Hp. split_and!; done.
  - injection Hpub as <-. rewrite app_nil_r. split_and!; done.
Qed.

(** *** Status updates *)

(** What an update does to the row it names. *)
Definition updated (t : Z) (d : StatusUpdate) (v : VirtualMachine) : VirtualMachine :=
  match parse_status (su_status d) with
  | None => v
  | Some DELETED =>
      if bool_decide (vm_stoppedAt v = None) then mark_stopped t (mark_deleted v) else mark_deleted v
  | Some st => apply_update t st d v
  end.

Lemma status_rows t d s k :
  rows (vms (onStatusUpdate t d s).1) !! k =
    (λ v, if bool_decide (k = su_vmId d) then updated t d v else v) <$> rows (vms s) !! k.
Proof.
  unfold onStatusUpdate, updated. destruct (parse_status _) as [st|] eqn:Ep.
  2: { simpl. destruct (rows (vms s) !! k); simpl; [|done]. by case_bool_decide. }
  destruct st; try (m_red; rewrite rows_update_where; done).
  m_red. destruct (Z.eqb_spec (count_where (λ k _, bool_decide (k = su_vmId d)) (vms s)) 0) as [Hz|Hz];
    simpl; rewrite ?rows_update_where; destruct (rows (vms s) !! k) as [v|] eqn:E; simpl; try done.
  - pose proof (count_where_zero _ _ _ _ Hz E) as Hn. simpl in Hn. by rewrite Hn.
  - case_bool_decide; simpl; [|done]. by case_bool_decide.
Qed.

Lemma status_frame t d s :
  userQuotas (onStatusUpdate t d s).1 = userQuotas s ∧
  published (onStatusUpdate t d s).1 = published s.
Proof. unfold onStatusUpdate. destruct (parse_status _) as [[]|]; m_red; by case_matches. Qed.

Lemma updated_fields t d v :
  let w := updated t d v in
  vm_userId w = vm_userId v ∧ vm_name w = vm_name v ∧ vm_cpu w = vm_cpu v ∧
  vm_ramMb w = vm_ramMb v ∧ vm_diskGb w = vm_diskGb v ∧
  vm_sshPrivateKeyEncrypted w = vm_sshPrivateKeyEncrypted v.
Proof. unfold updated. destruct (parse_status _) as [[]|]; try done. by case_bool_decide. Qed.

(** An update revives a VM when it gives a deleted row another status. *)
Definition revives (d : StatusUpdate) (t : T VirtualMachine) : Prop :=
  ∃ v st, rows t !! su_vmId d = Some v ∧ vm_status v = DELETED ∧
          parse_status (su_status d) = Some st ∧ st ≠ DELETED.

Definition nonneg_resources (t : T VirtualMachine) : Prop :=
  ∀ k v, rows t !! k = Some v → 0 <= vm_cpu v ∧ 0 <= vm_ramMb v ∧ 0 <= vm_diskGb v.

Lemma status_active t d s k v uid :
  ¬ revives d (vms s) → rows (vms s) !! k = Some v →
  active_of uid k (if bool_decide (k = su_vmId d) then updated t d v else v) = true →
  active_of uid k v = true.
Proof.
  intros Hn Hk. case_bool_decide as E; [|done]. subst k.
  destruct (updated_fields t d v) as (Hu & _). unfold active_of. rewrite Hu.
  destruct (bool_decide (vm_userId v = uid)); [|done]. simpl.
  destruct (bool_decide_reflect (vm_status v = DELETED)) as [Hd|Hd]; [|done]. simpl. intros Ha.
  exfalso. apply Hn. unfold updated in Ha.
  destruct (parse_status (su_status d)) as [st|] eqn:Ep; [|by rewrite Hd in Ha].
  exists v, st. split_and!; try done. intros ->.
  by destruct (bool_decide (vm_stoppedAt v = None)).
Qed.

(** Without revival an update never raises anybody's usage. *)
Lemma status_usage t d s uid (col : VirtualMachine → Z) :
  ¬ revives d (vms s) →
  (∀ k v, rows (vms s) !! k = Some v → 0 <= col v) →
  (∀ v, col (updated t d v) = col v) →
  total (λ k v, if active_of uid k v then col v else 0) (rows (vms (onStatusUpdate t d s).1)) <=
  total (λ k v, if active_of uid k v then col v else 0) (rows (vms s)).
Proof.
  intros Hn Hpos Hcol. apply total_mono. intros k. unfold contribution. rewrite status_rows.
  destruct (rows (vms s) !! k) as [v|] eqn:E; simpl; [|done].
  pose proof (status_active t d s k v uid Hn E) as Ha. specialize (Hpos _ _ E).
  destruct (active_of uid k (if bool_decide (k = su_vmId d) then updated t d v else v)) eqn:E1.
  - rewrite Ha by done. case_bool_decide; by rewrite ?Hcol.
  - destruct (active_of uid k v); lia.
Qed.

(** *** The quota *)

Definition quota_le (q1 q2 : UserQuota) : Prop :=
  uq_maxVms q1 <= uq_maxVms q2 ∧ uq_maxCpu q1 <= uq_maxCpu q2 ∧
  uq_maxRamMb q1 <= uq_maxRamMb q2 ∧ uq_maxDiskGb q1 <= uq_maxDiskGb q2.

Definition within (q : UserQuota) (uid : string) (t : T VirtualMachine) : Prop :=
  count_where (active_of uid) t <= uq_maxVms q ∧
  sum_where vm_cpu (active_of uid) t <= uq_maxCpu q ∧
  sum_where vm_ramMb (active_of uid) t <= uq_maxRamMb q ∧
  sum_where vm_diskGb (active_of uid) t <= uq_maxDiskGb q.

(** The states a service reaches while the user service never grants [uid] more
    than [q]: any requests by anybody, in any order, successful or not, and any
    messages of the worker that do not revive a deleted VM. *)
Inductive quota_run (q : UserQuota) (uid : string) : St → Prop :=
| qr_init s : rows (vms s) = ∅ → rows (userQuotas s) = ∅ → quota_run q uid s
| qr_create c dto uid' role s :
    quota_run q uid s → CreateVmDto_ok dto = true → rows (vms s) !! newVmId c = None →
    (uid' = uid → is_admin role = false ∧
       ∀ st r q', quotaAnswer c = Http st r → qs_quota r = Some q' → quota_le q' q) →
    quota_run q uid (createVm c dto uid' role s).1
| qr_status t d s :
    quota_run q uid s → ¬ revives d (vms s) → quota_run q uid (onStatusUpdate t d s).1
| qr_action c vmId action uid' role s :
    quota_run q uid s → quota_run q uid (vmAction c vmId action uid' role s).1
| qr_delete c vmId uid' role s :
    quota_run q uid s → quota_run q uid (deleteVm c vmId uid' role s).1.

Record quota_inv (q : UserQuota) (uid : string) (s : St) : Prop := {
  qi_within : within q uid (vms s);
  qi_stored : ∀ q', rows (userQuotas s) !! uid = Some q' → quota_le q' q;
  qi_nonneg : nonneg_resources (vms s) }.

Lemma fetch_internal_pure {A} c (a : Answer A) msg s :
  ∃ o, fetch_internal c a msg s = (s, o) ∧ ∀ q, o = Ret (Some q) → ∃ st, a = Http st q.
Proof.
  unfold fetch_internal, throw_if. destruct (negb (truthy (js_trim (default "" (syncToken c))))).
  { eexists. split; [reflexivity|done]. }
  destruct a as [st body|]; [|eexists; split; [reflexivity|done]].
  m_red. destruct (st =? 404); [eexists; split; [reflexivity|done]|].
  destruct (_ && _); eexists; (split; [reflexivity|naive_solver]).
Qed.

Lemma vm_keys_pure c dto s : ∃ o, vm_keys c dto s = (s, o).
Proof.
  unfold vm_keys, generateVmSshKeyPair. destruct (truthy (js_trim _)); [by eexists|].
  destruct (keyPair c) as [priv pub]. m_red. destruct (_ || _); [by eexists|]. simpl.
  destruct (encryptVmPrivateKey (keySecret c) (iv c) priv); by eexists.
Qed.

(** Whatever its outcome, a creation leaves the tables alone or commits one
    transaction; the latter happens on success, and when the broker refuses
    the message afterwards. *)
Lemma createVm_effect c dto uid role s :
  let '(s', o) := createVm c dto uid role s in
  (s' = s ∧ is_ret o = false) ∨
  ∃ rq enc v s1, create_tx c dto uid (is_admin role) rq enc s = (s1, Ret v) ∧
    vms s' = vms s1 ∧ userQuotas s' = userQuotas s1 ∧
    (is_admin role = false → ∃ q st, rq = Some q ∧ quotaAnswer c = Http st q) ∧
    is_ret o = negb (natsConnected c) || jetStreamOk c ∧
    ∃ l, published s' = published s1 ++ l ∧
      Forall (λ m, ∃ n cpu ram disk os us pw key, m = VmCreate (newVmId c) n cpu ram disk os uid us pw key) l.
Proof.
  unfold createVm.
  assert (Hrq : ∃ o, (if is_admin role then mret None else fetchInternalQuotaSnapshot c) s = (s, o) ∧
      ∀ q, o = Ret (Some q) → ∃ st, quotaAnswer c = Http st q).
  { destruct (is_admin role); [by exists (Ret None)|]. apply fetch_internal_pure. }
  destruct Hrq as (o & Hrq & Hans). unfold mbind at 1, M_bind at 1. rewrite Hrq.
  destruct o as [rq|e']; [|by left].
  unfold mbind at 1, M_bind at 1. unfold throw_if.
  destruct (negb (is_admin role) && _) eqn:Esub; [by left|]. simpl.
  destruct (vm_keys_pure c dto s) as (o' & Hk). unfold mbind at 1, M_bind at 1. rewrite Hk.
  destruct o' as [[[pub gen] enc]|e']; [|by left].
  unfold mbind at 1, M_bind at 1, try_catch, transaction.
  destruct (create_tx _ _ _ _ _ _ _) as [s2 [v|e']] eqn:Etx; [|by case_bool_decide; left].
  unfold mbind, M_bind, publish.
  assert (Ha : is_admin role = false → ∃ q st, rq = Some q ∧ quotaAnswer c = Http st q).
  { intros Ha. rewrite Ha in Esub. destruct rq as [q|]; [|done].
    destruct (Hans q eq_refl) as [st ?]. eauto. }
  destruct (natsConnected c); simpl; [destruct (jetStreamOk c)|]; simpl; right;
    exists rq, enc, v, s2; split_and!; try done.
  2, 3: exists []; by rewrite app_nil_r.
  eexists. split; [reflexivity|]. constructor; [|done]. by repeat eexists.
Qed.

Lemma within_put q uid t v id quota dto :
  within q uid t → rows t !! id = None →
  vm_cpu v = d_cpu dto → vm_ramMb v = d_ramMb dto → vm_diskGb v = d_diskGb dto →
  (vm_userId v = uid → fits false quota dto uid t ∧ ∀ q', quota = Some q' → quota_le q' q) →
  0 <= uq_maxVms q → 0 <= uq_maxCpu q → 0 <= uq_maxRamMb q → 0 <= uq_maxDiskGb q →
  within q uid (put id v t).
Proof.
  intros (Hn & Hc & Hr & Hd) Hid E1 E2 E3 Hfit Q1 Q2 Q3 Q4. unfold within.
  rewrite count_where_put_new, !sum_where_put_new by done. rewrite E1, E2, E3.
  destruct (active_of uid id v) eqn:Ea; [|lia].
  unfold active_of in Ea. apply andb_true_iff in Ea as [Ea%bool_decide_eq_true _].
  destruct (Hfit Ea) as [[F1 F2 F3 F4] Hle]. unfold limit_of in *.
  destruct quota as [q'|]; [destruct (Hle _ eq_refl) as (? & ? & ? & ?)|]; lia.
Qed.

Lemma quota_inv_stored q uid c dto uid' adm rq s s' enc v :
  quota_inv q uid s → create_tx c dto uid' adm rq enc s = (s', Ret v) →
  CreateVmDto_ok dto = true → rows (vms s) !! newVmId c = None →
  (uid' = uid → adm = false ∧ ∀ r q', rq = Some r → qs_quota r = Some q' → quota_le q' q) →
  0 <= uq_maxVms q → 0 <= uq_maxCpu q → 0 <= uq_maxRamMb q → 0 <= uq_maxDiskGb q →
  quota_inv q uid s'.
Proof.
  intros [Hw Hs Hn] Htx Hdto Hid Hq Q1 Q2 Q3 Q4.
  apply create_tx_inv in Htx as (-> & Hfit & _ & Hv & _ & Hu & Ho).
  assert (Hle : uid' = uid →
    ∀ q', applied_quota adm rq (rows (userQuotas s) !! uid') = Some q' → quota_le q' q).
  { intros -> q'. destruct (Hq eq_refl) as [-> Hr]. unfold applied_quota.
    destruct rq as [r|]; [|apply Hs]. destruct (hasActiveSubscription r); [|apply Hs].
    destruct (qs_quota r) as [q0|] eqn:E; [|apply Hs]. intros [= <-]. by eapply Hr. }
  unfold CreateVmDto_ok in Hdto. split.
  - rewrite Hv. eapply within_put; try done. intros Hu'. simpl in Hu'. subst uid'.
    destruct (Hq eq_refl) as [-> _]. split; [exact Hfit|]. by apply Hle.
  - intros q' Hq'. destruct (decide (uid' = uid)) as [->|Hne].
    + apply Hle; [done|]. by rewrite <-Hu.
    + apply Hs. by rewrite <-(Ho uid) by done.
  - intros k w. rewrite Hv, rows_put, lookup_insert_Some. intros [[<- <-]|[_ Hk]]; [|by eapply Hn].
    simpl. lia.
Qed.

Lemma quota_inv_status q uid t d s :
  quota_inv q uid s → ¬ revives d (vms s) → quota_inv q uid (onStatusUpdate t d s).1.
Proof.
  intros [(W1 & W2 & W3 & W4) Hs Hn] Hr. destruct (status_frame t d s) as [Eu _]. split.
  - unfold within in *. rewrite count_where_total, !sum_where_total in *.
    pose proof (status_usage t d s uid (λ _, 1) Hr ltac:(done) ltac:(done)).
    pose proof (status_usage t d s uid vm_cpu Hr ltac:(intros; by edestruct Hn)
      ltac:(intros; by destruct (updated_fields t d v) as (_ & _ & ? & _))).
    pose proof (status_usage t d s uid vm_ramMb Hr ltac:(intros; by edestruct Hn as (_ & ? & _))
      ltac:(intros; by destruct (updated_fields t d v) as (_ & _ & _ & ? & _))).
    pose proof (status_usage t d s uid vm_diskGb Hr ltac:(intros; by edestruct Hn as (_ & _ & ?))
      ltac:(intros; by destruct (updated_fields t d v) as (_ & _ & _ & _ & ? & _))).
    cbv beta in *. lia.
  - by rewrite Eu.
  - intros k v. rewrite status_rows. destruct (rows (vms s) !! k) as [w|] eqn:E; [|done].
    simpl. intros [= <-]. specialize (Hn _ _ E).
    destruct (updated_fields t d w) as (_ & _ & E1 & E2 & E3 & _).
    destruct (bool_decide (k = su_vmId d)); by rewrite ?E1, ?E2, ?E3.
Qed.

Lemma getVm_pure vmId uid role s : ∃ o, getVm vmId uid role s = (s, o).
Proof.
  unfold getVm. m_red. destruct (find_by_id _ _) as [v|]; [|by eexists].
  destruct (_ && _); by eexists.
Qed.

Lemma hours_gate_pure c action role s :
  ∃ o, when (negb (is_admin role) &&
        (bool_decide (action = "start"%string) || bool_decide (action = "restart"%string)))
    (access ← fetchInternalSubscriptionAccessSnapshot c;
     assert_hours_left access) s = (s, o).
Proof.
  unfold when. destruct (_ && _); [|by eexists]. unfold mbind, M_bind.
  destruct (fetch_internal_pure c (accessAnswer c) "Failed to load subscription access snapshot" s)
    as (o & Hp & _).
  unfold fetchInternalSubscriptionAccessSnapshot. rewrite Hp.
  destruct o as [[a|]|]; [|by eexists..]. unfold assert_hours_left, throw_if.
  destruct (opt_truthy _); [|by eexists]. destruct (_ && _); by eexists.
Qed.

Lemma action_frame c vmId action uid role s :
  vms (vmAction c vmId action uid role s).1 = vms s ∧
  userQuotas (vmAction c vmId action uid role s).1 = userQuotas s.
Proof.
  enough (∃ l o, vmAction c vmId action uid role s = (set_published l s, o)) as (l & o & ->) by done.
  assert (Hid : ∀ o : outcome string, ∃ l o', (s, o) = (set_published l s, o'))
    by (intros o; exists (published s), o; by destruct s).
  unfold vmAction. unfold mbind at 1, M_bind at 1.
  destruct (getVm_pure vmId uid role s) as [[v|e] ->]; [|apply Hid].
  unfold mbind at 1, M_bind at 1.
  destruct (hours_gate_pure c action role s) as [[[]|e] ->]; [|apply Hid].
  unfold mbind, M_bind, throw_if, publish.
  destruct (validTransitions action) as [allowed|]; [|apply Hid].
  destruct (bool_decide (vm_status v ∈ allowed)); [|apply Hid]. simpl.
  destruct (natsConnected c); simpl; [destruct (jetStreamOk c)|]; [eauto|apply Hid..].
Qed.

Lemma delete_frame c vmId uid role s :
  vms (deleteVm c vmId uid role s).1 = vms s ∧
  userQuotas (deleteVm c vmId uid role s).1 = userQuotas s.
Proof.
  unfold deleteVm, getVm, publish. m_red. destruct (find_by_id _ _) as [v|]; [|done].
  destruct (_ && _); simpl; [done|]. case_bool_decide; simpl; [done|].
  destruct (natsConnected c); simpl; [|done]. by destruct (jetStreamOk c).
Qed.

(** Nobody exceeds the quota the user service grants.  Whatever users
    request, in whatever order, and whatever the worker reports short of
    reviving a deleted VM, the VMs of a user that are not deleted stay within
    the largest quota granted: in number, in CPUs, in memory and in disk. *)
Theorem quota_respected q uid s :
  0 <= uq_maxVms q → 0 <= uq_maxCpu q → 0 <= uq_maxRamMb q → 0 <= uq_maxDiskGb q →
  quota_run q uid s → within q uid (vms s).
Proof.
  intros Q1 Q2 Q3 Q4 Hrun. enough (Hinv : quota_inv q uid s) by by destruct Hinv.
  induction Hrun as [s Hv Hu|c dto uid' role s _ IH Hdto Hid Hq|t d s _ IH Hn
                    |c vmId action uid' role s _ IH|c vmId uid' role s _ IH].
  - split.
    + unfold within. rewrite count_where_total, !sum_where_total, Hv. unfold total.
      rewrite !map_to_list_empty. unfold sumZ. simpl. lia.
    + intros q'. by rewrite Hu.
    + intros k v. by rewrite Hv.
  - pose proof (createVm_effect c dto uid' role s) as He.
    destruct (createVm c dto uid' role s) as [s' o]. simpl.
    destruct He as [[-> _]|(rq & enc & v & s1 & Htx & Ev & Eu & Hans & _)]; [done|].
    assert (Hinv : quota_inv q uid s1).
    { eapply quota_inv_stored; try done. intros Hu. destruct (Hq Hu) as [Ha Hqa].
      split; [done|]. intros r q' -> Hr. destruct (Hans Ha) as (r' & st & [= <-] & Hst).
      by eapply Hqa. }
    destruct Hinv. split; by rewrite ?Ev, ?Eu.
  - by apply quota_inv_status.
  - destruct (action_frame c vmId action uid' role s) as [Ev Eu]. destruct IH.
    split; by rewrite ?Ev, ?Eu.
  - destruct (delete_frame c vmId uid' role s) as [Ev Eu]. destruct IH.
    split; by rewrite ?Ev, ?Eu.
Qed.

(** *** The life cycle *)

(** A running VM has no stop instant; a VM that left the running state has one. *)
Definition life_ok (v : VirtualMachine) : Prop :=
  match vm_status v with
  | RUNNING => vm_stoppedAt v = None
  | STOPPED | SUSPENDED | ERROR | DELETED => is_Some (vm_stoppedAt v)
  | PENDING => True
  end.
Definition life_wf (t : T VirtualMachine) : Prop := ∀ k v, rows t !! k = Some v → life_ok v.

(** Everything that can happen to the service, in any order. *)
Inductive vm_reachable : St → Prop :=
| vr_init s : rows (vms s) = ∅ → vm_reachable s
| vr_create c dto uid role s : vm_reachable s → vm_reachable (createVm c dto uid role s).1
| vr_status t d s : vm_reachable s → vm_reachable (onStatusUpdate t d s).1
| vr_action c vmId action uid role s :
    vm_reachable s → vm_reachable (vmAction c vmId action uid role s).1
| vr_delete c vmId uid role s : vm_reachable s → vm_reachable (deleteVm c vmId uid role s).1.

Lemma updated_life t d v : life_ok v → life_ok (updated t d v).
Proof.
  unfold updated, life_ok. destruct (parse_status _) as [[]|]; simpl; try done.
  case_bool_decide as E; simpl; [done|]. by destruct (vm_stoppedAt v).
Qed.

(** The stop instant that billing reads is kept in step with the status.
    In every state the service reaches, a RUNNING machine has no stop instant
    and a STOPPED, SUSPENDED, ERROR or DELETED machine has one. *)
Theorem life_cycle_wf s : vm_reachable s → life_wf (vms s).
Proof.
  induction 1 as [s Hv|c dto uid role s _ IH|t d s _ IH|c vmId action uid role s _ IH
                 |c vmId uid role s _ IH].
  - intros k v. by rewrite Hv.
  - pose proof (createVm_effect c dto uid role s) as He.
    destruct (createVm c dto uid role s) as [s' o]. simpl.
    destruct He as [[-> _]|(rq & enc & v & s1 & Htx & Ev & _)]; [done|].
    apply create_tx_inv in Htx as (-> & _ & _ & Ev1 & _).
    rewrite Ev, Ev1. intros k w. rewrite rows_put, lookup_insert_Some.
    intros [[<- <-]|[_ Hk]]; [done|by eapply IH].
  - intros k v. rewrite status_rows. destruct (rows (vms s) !! k) as [w|] eqn:E; [|done].
    simpl. intros [= <-]. specialize (IH _ _ E). case_bool_decide; [by apply updated_life|done].
  - by rewrite (proj1 (action_frame c vmId action uid role s)).
  - by rewrite (proj1 (delete_frame c vmId uid role s)).
Qed.

(** A creation is all or nothing.  Either it is refused and no table
    changes, or exactly one PENDING machine with the requested resources is
    stored under the fresh id, for a request that fitted the applied quota;
    after storing it, only a broker that refuses the message makes the request
    fail. *)
Theorem create_all_or_nothing c dto uid role s s' o :
  createVm c dto uid role s = (s', o) →
  (s' = s ∧ is_ret o = false) ∨
  ∃ rq enc, let v := new_vm c dto uid enc in
    vms s' = put (newVmId c) v (vms s) ∧ vm_status v = PENDING ∧
    fits (is_admin role) (applied_quota (is_admin role) rq (rows (userQuotas s) !! uid)) dto uid (vms s) ∧
    (∀ k w, rows (vms s) !! k = Some w → vm_userId w = uid → vm_name w ≠ d_name dto) ∧
    (is_admin role = false → ∃ q st, rq = Some q ∧ quotaAnswer c = Http st q) ∧
    (is_ret o = false ↔ natsConnected c = true ∧ jetStreamOk c = false).
Proof.
  intros Hc. pose proof (createVm_effect c dto uid role s) as He. rewrite Hc in He.
  destruct He as [He|(rq & enc & v & s1 & Htx & Ev & _ & Hans & Ho & _)]; [by left|right].
  apply create_tx_inv in Htx as (-> & Hfit & Hn & Ev1 & _). exists rq, enc. cbv zeta.
  rewrite Ev, Ev1, Ho. split_and!; try done.
  - intros k w Hk Hu Hname. pose proof (find_first_None _ _ Hn _ _ Hk) as Hs.
    unfold same_name in Hs. simpl in Hs. rewrite !bool_decide_true in Hs by done. done.
  - destruct (natsConnected c), (jetStreamOk c); naive_solver.
Qed.

(** *** Access *)

(** Who may act on a machine. *)
Definition may_access (uid role : string) (v : VirtualMachine) : Prop :=
  is_admin role = true ∨ vm_userId v = uid.

Lemma getVm_inv vmId uid role s s' v :
  getVm vmId uid role s = (s', Ret v) →
  s' = s ∧ rows (vms s) !! vmId = Some v ∧ may_access uid role v.
Proof.
  unfold getVm. intros Hg. apply bind_Ret_inv in Hg as (o & s1 & [= <- <-] & Hg).
  unfold find_by_id in Hg. destruct (rows (vms s) !! vmId) as [w|]; [|done].
  apply bind_Ret_inv in Hg as ([] & s1 & [Ha ->]%throw_if_inv & [= <- <-]).
  split_and!; [done..|]. unfold may_access. destruct (is_admin role); [by left|right].
  simpl in Ha. by case_bool_decide.
Qed.

Lemma key_access c vmId uid role s s' k :
  getVmSshPrivateKey c vmId uid role s = (s', Ret k) →
  s' = s ∧ ∃ v, rows (vms s) !! vmId = Some v ∧ may_access uid role v.
Proof.
  intros Hk. unfold getVmSshPrivateKey in Hk.
  apply bind_Ret_inv in Hk as (o & s1 & [= <- <-] & Hk). unfold find_by_id in Hk.
  destruct (rows (vms s) !! vmId) as [v|] eqn:Ev; [|done].
  apply bind_Ret_inv in Hk as ([] & s1 & [Ha ->]%throw_if_inv & Hk).
  apply bind_Ret_inv in Hk as ([] & s1 & [_ ->]%throw_if_inv & Hk).
  destruct (decryptVmPrivateKey _ _); [|done]. injection Hk as <- _. split; [done|].
  exists v. split; [done|]. unfold may_access. destruct (is_admin role); [by left|right].
  simpl in Ha. by case_bool_decide.
Qed.

Lemma publish_inv c m s s' : publish c m s = (s', Ret tt) →
  published s' = published s ++ (if natsConnected c then [m] else []) ∧ vms s' = vms s.
Proof.
  unfold publish. destruct (natsConnected c); simpl.
  - destruct (jetStreamOk c); [|done]. by intros [= <-].
  - intros [= <-]. by rewrite app_nil_r.
Qed.

Lemma transitions_deleted action allowed :
  validTransitions action = Some allowed → DELETED ∉ allowed.
Proof.
  assert (Hno : ∀ l : list VmStatus, bool_decide (DELETED ∈ l) = false → Some l = Some allowed →
    DELETED ∉ allowed) by (intros l Hl [= <-]; by apply bool_decide_eq_false in Hl).
  unfold validTransitions.
  destruct (bool_decide (action = "start"%string)); [by apply Hno|].
  destruct (bool_decide (action = "stop"%string)); [by apply Hno|].
  destruct (bool_decide (action = "restart"%string)); [by apply Hno|].
  destruct (bool_decide (action = "delete"%string)); [by apply Hno|done].
Qed.

(** Only the owner or an administrator reads, controls or deletes a
    machine, and only in a status that admits the action.  A success of any of
    the three operations names an existing machine the caller may access; an
    action is one of the documented ones and allowed in the machine's status;
    a deleted machine accepts none; and the worker is told exactly what was
    asked, by the message of this machine and no other. *)
Theorem vm_access_control c vmId uid role s :
  (∀ s' k, getVmSshPrivateKey c vmId uid role s = (s', Ret k) →
     s' = s ∧ ∃ v, rows (vms s) !! vmId = Some v ∧ may_access uid role v) ∧
  (∀ action s' m, vmAction c vmId action uid role s = (s', Ret m) →
     ∃ v allowed, rows (vms s) !! vmId = Some v ∧ may_access uid role v ∧
       validTransitions action = Some allowed ∧ vm_status v ∈ allowed ∧ vm_status v ≠ DELETED ∧
       published s' = published s ++
         (if natsConnected c then [VmAction vmId (vm_oneVmId v) action uid] else [])) ∧
  (∀ s' m, deleteVm c vmId uid role s = (s', Ret m) →
     ∃ v, rows (vms s) !! vmId = Some v ∧ may_access uid role v ∧ vm_status v ≠ DELETED ∧
       published s' = published s ++
         (if natsConnected c then [VmDelete vmId (vm_oneVmId v) uid] else [])).
Proof.
  split_and!.
  - apply key_access.
  - intros action s' m Ha. unfold vmAction in Ha.
    apply bind_Ret_inv in Ha as (v & s1 & (-> & Hv & Hacc)%getVm_inv & Ha).
    apply bind_Ret_inv in Ha as ([] & s1 & Hw & Ha).
    destruct (hours_gate_pure c action role s) as [o Hpure]. rewrite Hpure in Hw.
    injection Hw as <- _.
    apply bind_Ret_inv in Ha as ([] & s1 & [Hok%negb_false_iff ->]%throw_if_inv & Ha).
    apply bind_Ret_inv in Ha as ([] & s1 & [Hp _]%publish_inv & [= <- _]).
    destruct (validTransitions action) as [allowed|] eqn:Et; [|done].
    apply bool_decide_eq_true in Hok. exists v, allowed. split_and!; try done.
    intros Hd. rewrite Hd in Hok. by eapply transitions_deleted.
  - intros s' m Ha. unfold deleteVm in Ha.
    apply bind_Ret_inv in Ha as (v & s1 & (-> & Hv & Hacc)%getVm_inv & Ha).
    apply bind_Ret_inv in Ha as ([] & s1 & [Hok%bool_decide_eq_false ->]%throw_if_inv & Ha).
    apply bind_Ret_inv in Ha as ([] & s1 & [Hp _]%publish_inv & [= <- _]). eauto 10.
Qed.

(** *** Listing *)

Lemma concat_pages {A} (l : list A) (n w : nat) :
  concat ((λ i, take w (drop (i * w) l)) <$> seq 0 n) = take (n * w) l.
Proof.
  induction n as [|n IH]; [by rewrite take_0|].
  rewrite seq_S, fmap_app, concat_app, IH. simpl. rewrite app_nil_r.
  rewrite take_take_drop. f_equal. lia.
Qed.

Definition with_page (q : VmQuery) (page limit : Z) : VmQuery :=
  {| vq_status := vq_status q; vq_search := vq_search q; vq_page := Some page;
     vq_limit := Some limit |}.
Definition data_of (r : St * outcome VmPage) : list (string * VirtualMachine) :=
  match r.2 with Ret p => pg_data p | Throw _ => [] end.

Lemma listVms_page uid role q limit i s :
  1 <= limit <= 100 → opt_truthy (vq_status q) = false →
  let p := list_where uid role q None in
  listVms uid role (with_page q (Z.of_nat i + 1) limit) s =
    (s, Ret {| pg_data := take (Z.to_nat limit) (drop (i * Z.to_nat limit) (select_desc vm_createdAt p (vms s)));
               pg_total := count_where p (vms s); pg_page := Z.of_nat i + 1; pg_limit := limit;
               pg_totalPages := Some (- ((- count_where p (vms s)) / limit)) |}).
Proof.
  intros Hl Hst. unfold listVms. simpl. rewrite Hst.
  rewrite Z.min_l by lia. replace (Z.of_nat i + 1 - 1) with (Z.of_nat i) by lia.
  change (list_where uid role (with_page q (Z.of_nat i + 1) limit) None) with (list_where uid role q None).
  unfold page_of, total_pages.
  destruct (Z.ltb_spec (Z.of_nat i * limit) 0); [lia|].
  destruct (Z.leb_spec 0 limit); [|lia]. destruct (Z.eqb_spec limit 0); [lia|].
  by rewrite Z2Nat.inj_mul, Nat2Z.id by lia.
Qed.

(** The listing is complete and confined.  For any page size from 1 to
    100, the pages 1 to totalPages are answered, each with at most that many
    machines, and put together they are exactly the machines that match, newest
    first, each once; a user who is not an administrator is shown only their
    own machines, and none that is deleted. *)
Theorem list_pages_partition uid role q limit s :
  1 <= limit <= 100 → opt_truthy (vq_status q) = false →
  let p := list_where uid role q None in
  let all := select_desc vm_createdAt p (vms s) in
  let pages := - ((- count_where p (vms s)) / limit) in
  concat ((λ i, data_of (listVms uid role (with_page q (Z.of_nat i + 1) limit) s))
            <$> seq 0 (Z.to_nat pages)) = all ∧
  (∀ k v, (k, v) ∈ all ↔ rows (vms s) !! k = Some v ∧ p k v = true) ∧ NoDup all ∧
  (is_admin role = false → ∀ k v, (k, v) ∈ all → vm_userId v = uid ∧ vm_status v ≠ DELETED).
Proof.
  intros Hl Hst p all pages.
  assert (Hall : ∀ k v, (k, v) ∈ all ↔ rows (vms s) !! k = Some v ∧ p k v = true)
    by (intros; apply elem_of_select_desc).
  split_and!.
  - transitivity (concat ((λ i, take (Z.to_nat limit) (drop (i * Z.to_nat limit) all)) <$> seq 0 (Z.to_nat pages))).
    { f_equal. apply list_fmap_ext. intros j i _. by rewrite listVms_page. }
    rewrite concat_pages. apply take_ge.
    assert (Hlen : Z.of_nat (length all) = count_where p (vms s)).
    { unfold count_where, all. by rewrite select_desc_perm, select_perm. }
    pose proof (Z.mul_div_le (- count_where p (vms s)) limit ltac:(lia)).
    pose proof (count_where_nonneg p (vms s)).
    assert (0 <= pages). { unfold pages. enough (- count_where p (vms s) / limit <= 0) by lia.
      apply Z.div_le_upper_bound; lia. }
    unfold pages in *. nia.
  - exact Hall.
  - unfold all. rewrite select_desc_perm. unfold matching. apply NoDup_filter, NoDup_map_to_list.
  - intros Ha k v [_ Hp]%Hall. unfold p, list_where in Hp. rewrite Ha in Hp. simpl in Hp.
    apply andb_true_iff in Hp as [[Hu Hd]%andb_true_iff _].
    split; [by apply bool_decide_eq_true in Hu|]. by case_bool_decide.
Qed.

(** *** Keys *)

(** The owner can fetch the key of a machine created without one.  When
    [createVm] generated a key pair, then the private key it returned is the
    one [getVmSshPrivateKey] decrypts from the stored row afterwards. *)
Theorem ssh_key_recoverable c dto uid role s s' id v gen c' :
  createVm c dto uid role s = (s', Ret (id, v, Some gen)) →
  truthy (iv c) = true → truthy (keyPair c).1 = true → keySecret c' = keySecret c →
  getVmSshPrivateKey c' id uid role s' = (s', Ret (id, d_name dto, gen)).
Proof.
  intros (rq & pub & gen' & enc & msgs & _ & _ & Hk & [= -> -> <-] & _ & Hv & _)%createVm_inv
    Hiv Hpem Hsec.
  assert (He : ∃ payload, enc = Some payload ∧ gen = (keyPair c).1 ∧
    encryptVmPrivateKey (keySecret c) (iv c) gen = Ret payload).
  { unfold vm_keys, generateVmSshKeyPair in Hk. destruct (truthy (js_trim _)); [done|].
    destruct (keyPair c) as [priv pk]. apply bind_Ret_inv in Hk as (kp & s2 & Hk2 & Hk).
    apply bind_Ret_inv in Hk2 as ([] & s3 & [_ ->]%throw_if_inv & [= <- <-]). simpl in Hk.
    destruct (encryptVmPrivateKey _ _ _) as [payload|] eqn:E; [|done].
    injection Hk as _ <- <-. eauto. }
  destruct He as (payload & -> & -> & He).
  destruct (decrypt_encrypt _ _ _ _ Hiv Hpem He) as [Hd Ht].
  unfold getVmSshPrivateKey, find_by_id. m_red. rewrite Hv, rows_put, lookup_insert_eq.
  rewrite (bool_decide_true (vm_userId _ = uid)) by done. rewrite andb_false_r. simpl.
  rewrite Ht, Hsec, Hd. done.
Qed.
End theorems.
End Vm.
