(* ===== verification/Plans.v ===== *)
(** * Plans: the plan catalogue the payment and user services share

    Both services hold the same code for the plan_configs table: the rows, the
    seed from PLAN_CATALOG_JSON with its validation, the table's creation on
    first use, and the plan named by a payment row.  Amounts in dinars are
    rationals; the rounding of [toFixed] is exact on them. *)

From Stdlib Require Import ZArith QArith Qround Lia Ascii String.
From stdpp Require Import base list gmap strings pretty sorting.
From S2P Require Import Prelude Text Store.

Module Plans.

Inductive PlanId := student | pro | enterprise | unlimited.
#[export] Instance PlanId_eq_dec : EqDecision PlanId.
Proof. solve_decision. Defined.

Definition plan_string (p : PlanId) : string :=
  match p with
  | student => "student" | pro => "pro" | enterprise => "enterprise" | unlimited => "unlimited"
  end.
Definition all_plans : list PlanId := [student; pro; enterprise; unlimited].
Definition REQUIRED_PLAN_IDS : list PlanId := [student; pro; enterprise].

(** [s === "student" || ...] *)
Definition parse_plan (s : string) : option PlanId :=
  list_find (λ p, plan_string p = s) all_plans ≫= λ ip, Some ip.2.

Record PlanConfigRow := {
  pc_amountDt : Q; pc_rank : Z; pc_vmHoursMonthly : Z; pc_maxVms : Z; pc_maxCpu : Z;
  pc_maxRamMb : Z; pc_maxDiskGb : Z }.

(** ** Number formatting *)

(** [Math.round]: the nearest integer, ties upwards. *)
Definition js_round (q : Q) : Z := Qfloor (q + (1 # 2))%Q.
(** [Number(q.toFixed(2))] in hundredths: the nearest, ties away from zero. *)
Definition toFixed2 (q : Q) : Z :=
  if Qle_bool 0 q then js_round (q * 100)%Q else - js_round (- q * 100)%Q.
Definition hundredths (n : Z) : Q := n # 100.
(** The text of a non-negative amount with two decimals. *)
Definition two_digits (n : Z) : string := (if n <? 10 then "0" else "") +:+ pretty n.
Definition fixed2_string (n : Z) : string := pretty (n / 100) +:+ "." +:+ two_digits (n mod 100).

(** ** PLAN_CATALOG_JSON *)

(** A plan entry as parsed; a field that is missing or not finite is [None].
    Fractions in the fields of integer columns, which the database refuses, are
    not represented. *)
Record RawQuota := { rw_maxVms : option Z; rw_maxCpu : option Z; rw_maxRamMb : option Z;
                     rw_maxDiskGb : option Z }.
Record RawPlan := { rw_amountDt : option Q; rw_rank : option Z; rw_vmHoursMonthly : option Z;
                    rw_quota : option RawQuota }.
Inductive EnvCatalog :=
| EnvMissing
| EnvNotJson
| EnvParsed (entry : PlanId → option RawPlan).

Definition at_least (lo : Z) (o : option Z) : option Z :=
  n ← o; if n <? lo then None else Some n.

(** The checks on one entry, and its row; [None] when one of them fails. *)
Definition validate_plan (r : RawPlan) : option PlanConfigRow :=
  amount ← rw_amountDt r;
  if Qle_bool amount 0 then None else
  rank ← at_least 1 (rw_rank r);
  hours ← at_least 1 (rw_vmHoursMonthly r);
  q ← rw_quota r;
  vms ← at_least 1 (rw_maxVms q);
  cpu ← at_least 1 (rw_maxCpu q);
  ram ← at_least 512 (rw_maxRamMb q);
  disk ← at_least 5 (rw_maxDiskGb q);
  Some {| pc_amountDt := amount; pc_rank := rank; pc_vmHoursMonthly := hours; pc_maxVms := vms;
          pc_maxCpu := cpu; pc_maxRamMb := ram; pc_maxDiskGb := disk |}.

Fixpoint validate_plans (entry : PlanId → option RawPlan) (ids : list PlanId)
    : outcome (list (PlanId * PlanConfigRow)) :=
  match ids with
  | [] => Ret []
  | p :: rest =>
      match entry p with
      | None => Throw (JsError ("PLAN_CATALOG_JSON missing '" +:+ plan_string p +:+ "' config"))
      | Some raw =>
          match validate_plan raw with
          | None => Throw (JsError ("Invalid PLAN_CATALOG_JSON values for '" +:+ plan_string p +:+ "'"))
          | Some row =>
              match validate_plans entry rest with
              | Ret l => Ret ((p, row) :: l)
              | Throw e => Throw e
              end
          end
      end
  end.

Definition loadManagedPlanCatalogFromEnv (env : EnvCatalog) : outcome (list (PlanId * PlanConfigRow)) :=
  match env with
  | EnvMissing => Throw (JsError "Missing PLAN_CATALOG_JSON")
  | EnvNotJson => Throw (JsError "Invalid PLAN_CATALOG_JSON: must be valid JSON")
  | EnvParsed entry => validate_plans entry REQUIRED_PLAN_IDS
  end.

(** ** The catalogue built from rows *)

Definition Catalog : Type := PlanId → PlanConfigRow.

Definition UNLIMITED_PLAN_CONFIG : PlanConfigRow :=
  {| pc_amountDt := 0; pc_rank := 99; pc_vmHoursMonthly := 2 ^ 53 - 1; pc_maxVms := 9999;
     pc_maxCpu := 9999; pc_maxRamMb := 999999; pc_maxDiskGb := 99999 |}.

Definition join_plans (l : list PlanId) : string :=
  match plan_string <$> l with
  | [] => ""
  | x :: rest => foldl (λ acc y, acc +:+ ", " +:+ y) x rest
  end.

(** The three managed plans, and the constant unlimited one. *)
Definition buildPlanCatalogFromRows (rows : gmap string PlanConfigRow) : outcome Catalog :=
  let missing := filter (λ p, rows !! plan_string p = None) REQUIRED_PLAN_IDS in
  if bool_decide (missing = []) then
    Ret (λ p, match p with
              | unlimited => UNLIMITED_PLAN_CONFIG
              | _ => default UNLIMITED_PLAN_CONFIG (rows !! plan_string p)
              end)
  else Throw (InternalServerErrorException ("Missing plan configs for: " +:+ join_plans missing)).

(** ** The plan_configs table *)

Record PlanTable (T : Type → Type) := {
  pt_exists : bool;              (* false until ensurePlanConfigTable has run *)
  pt_rows : T PlanConfigRow;     (* keyed by the unique planId *)
}.
Arguments pt_exists {_} _.
Arguments pt_rows {_} _.

Section table.
Context {T : Type → Type} `{Database T}.

(** [createMany({ skipDuplicates: true })] *)
Definition seed_row (pr : PlanId * PlanConfigRow) (t : T PlanConfigRow) : T PlanConfigRow :=
  match find_by_id (plan_string pr.1) t with
  | Some _ => t
  | None => put (plan_string pr.1) pr.2 t
  end.

(** [planConfig.findMany]: P2021 while the table does not exist. *)
Definition find_many : M (PlanTable T) (gmap string PlanConfigRow) := λ s,
  if pt_exists s then (s, Ret (rows (pt_rows s))) else (s, Throw (PrismaError "P2021")).
Definition ensurePlanConfigTable : M (PlanTable T) unit :=
  modify (λ s, {| pt_exists := true; pt_rows := pt_rows s |}).

(** Reading the rows, creating the table and seeding it on first use. *)
Definition load_rows (env : EnvCatalog) : M (PlanTable T) Catalog :=
  rs ← try_catch find_many
         (λ error, if bool_decide (error = PrismaError "P2021")
                   then ensurePlanConfigTable;; find_many else throw error);
  if bool_decide (rs = ∅) then
    match loadManagedPlanCatalogFromEnv env with
    | Throw e => throw e
    | Ret seed =>
        modify (λ s, {| pt_exists := pt_exists s; pt_rows := foldr seed_row (pt_rows s) seed |});;
        seeded ← find_many;
        if bool_decide (seeded = ∅)
        then throw (InternalServerErrorException "Plan catalog seed failed")
        else match buildPlanCatalogFromRows seeded with Ret c => mret c | Throw e => throw e end
    end
  else match buildPlanCatalogFromRows rs with Ret c => mret c | Throw e => throw e end.
End table.

(** ** The plan of a payment row *)

(** [method.match(/:plan:(student|pro|enterprise|unlimited)/)] on a text: the
    leftmost occurrence. *)
Definition plan_prefix (s : string) : option PlanId :=
  list_find (λ p, starts_with (":plan:" +:+ plan_string p) s = true) all_plans ≫= λ ip, Some ip.2.
Fixpoint find_plan_tag (s : string) : option PlanId :=
  match plan_prefix s with
  | Some p => Some p
  | None => match s with EmptyString => None | String _ s' => find_plan_tag s' end
  end.

Definition extractPlanFromPayment (planId method_ : option string) : option PlanId :=
  match planId ≫= parse_plan with
  | Some p => Some p
  | None =>
      let method := toLowerCase (opt_or method_ "") in
      let granted :=
        if starts_with "admin:grant:" method
        then nth_error (js_split ":" method) 2 ≫= parse_plan else None in
      match granted with
      | Some p => Some p
      | None => find_plan_tag method
      end
  end.

(** ** Lemmas *)

Lemma parse_plan_string p : parse_plan (plan_string p) = Some p.
Proof. by destruct p. Qed.

Lemma parse_plan_Some s p : parse_plan s = Some p → s = plan_string p.
Proof.
  unfold parse_plan. intros ([i q] & Hf & [= ->])%bind_Some.
  by apply list_find_Some in Hf as (_ & Hp & _).
Qed.

(** A valid catalogue has positive prices, ranks, hours and quotas. *)
Record row_ok (r : PlanConfigRow) : Prop := {
  ok_amount : (0 < pc_amountDt r)%Q; ok_rank : 1 <= pc_rank r; ok_hours : 1 <= pc_vmHoursMonthly r;
  ok_vms : 1 <= pc_maxVms r; ok_cpu : 1 <= pc_maxCpu r; ok_ram : 512 <= pc_maxRamMb r;
  ok_disk : 5 <= pc_maxDiskGb r }.

Lemma at_least_Some lo o n : at_least lo o = Some n → lo <= n.
Proof.
  unfold at_least. intros (m & _ & Hm)%bind_Some. destruct (Z.ltb_spec m lo); [done|].
  by injection Hm as <-.
Qed.

Lemma validate_plan_ok raw r : validate_plan raw = Some r → row_ok r.
Proof.
  unfold validate_plan. intros (amount & _ & Hr)%bind_Some.
  destruct (Qle_bool amount 0) eqn:Ea; [done|].
  apply bind_Some in Hr as (rank & H1%at_least_Some & Hr).
  apply bind_Some in Hr as (hours & H2%at_least_Some & Hr).
  apply bind_Some in Hr as (q & _ & Hr).
  apply bind_Some in Hr as (vms & H3%at_least_Some & Hr).
  apply bind_Some in Hr as (cpu & H4%at_least_Some & Hr).
  apply bind_Some in Hr as (ram & H5%at_least_Some & Hr).
  apply bind_Some in Hr as (disk & H6%at_least_Some & [= <-]).
  split; simpl; try done. apply Qnot_le_lt. intros Hle%Qle_bool_iff. congruence.
Qed.

Lemma buildPlanCatalog_inv rs c p :
  buildPlanCatalogFromRows rs = Ret c → p ≠ unlimited → rs !! plan_string p = Some (c p).
Proof.
  unfold buildPlanCatalogFromRows. case_bool_decide as E; [|done]. intros [= <-] Hp.
  assert (Hin : p ∈ REQUIRED_PLAN_IDS) by (destruct p; [set_solver..|done]).
  destruct (rs !! plan_string p) as [r|] eqn:Er.
  - by destruct p.
  - exfalso. assert (Hf : p ∈ filter (λ p, rs !! plan_string p = None) REQUIRED_PLAN_IDS)
      by by apply list_elem_of_filter.
    rewrite E in Hf. by apply not_elem_of_nil in Hf.
Qed.

Lemma buildPlanCatalog_unlimited rs c :
  buildPlanCatalogFromRows rs = Ret c → c unlimited = UNLIMITED_PLAN_CONFIG.
Proof. unfold buildPlanCatalogFromRows. case_bool_decide; [|done]. by intros [= <-]. Qed.
End Plans.
