(* ===== verification/Payment.v ===== *)
(** * Payment: checkout, Stripe confirmation and the plan catalogue

    services/payment/src/payment/payment.service.ts.  Stripe and the user
    service are calls whose answers are inputs of a request; what is sent to
    them is recorded.  The texts shown to the buyer (product name and
    description) are not modelled. *)

From Stdlib Require Import ZArith QArith Qround Lia Ascii String.
From stdpp Require Import base list gmap strings pretty sorting.
From S2P Require Import Prelude Text Store Plans.
Import Plans.

Module Payment.

Record PaymentRow := {
  py_userId : string; py_planId : option string; py_amount : Q; py_currency : string;
  py_status : string; py_method : option string; py_createdAt : Z }.

Record SubscriptionAccessSnapshot := {
  sa_activePlanId : option PlanId; sa_canPurchaseSameOrLower : bool; sa_usageRatio : Q;
  sa_cycleEndsAt : option string (* as the page shows it *) }.

(** An answer of the user service: its body, an error body, or no answer. *)
Inductive Answer (A : Type) := Answered (body : A) | Refused (body : string) | NetworkError.
Arguments Answered {_} _.
Arguments Refused {_} _.
Arguments NetworkError {_}.

Record StripeSession := { ss_id : string; ss_userId : option string; ss_paid : bool }.

Inductive EventType := SessionCompleted | SessionExpired | OtherEvent (type_ : string).
Record StripeEvent := { ev_id : string; ev_type : EventType; ev_session : string }.

(** One request: clock, fresh ids, configuration and the answers of its calls. *)
Record Call := {
  now : Z; newPaymentId : string; stripeConfigured : bool; syncToken : option string;
  usdRate : option (option Q)  (* [Some None]: not a number *); catalogEnv : EnvCatalog;
  access1 : Answer SubscriptionAccessSnapshot; access2 : Answer SubscriptionAccessSnapshot;
  studentVerified : Answer bool;
  createdSession : option string;                (* checkout.sessions.create *)
  retrieved : option (option StripeSession);     (* checkout.sessions.retrieve *)
  webhookSecret : option string; constructed : option StripeEvent;
  activation : nat → Answer unit                 (* the i-th subscription-activate *)
}.

(** What the service asked Stripe to charge. *)
Record Charge := { cg_userId : string; cg_planId : PlanId; cg_usdCents : Z;
                   cg_upgradeFrom : option PlanId }.

Record PaymentState (T : Type → Type) := {
  payments : T PaymentRow;
  plans : PlanTable T;
  stripeWebhookEvents : T EventType;      (* keyed by the unique eventId *)
  planCatalog : option Catalog;           (* the cache of the instance *)
  charges : list Charge;
  activations : list (string * PlanId);   (* POSTed to subscription-activate *)
}.
Arguments payments {_} _.
Arguments plans {_} _.
Arguments stripeWebhookEvents {_} _.
Arguments planCatalog {_} _.
Arguments charges {_} _.
Arguments activations {_} _.

Definition PLAN_LABEL (p : PlanId) : string :=
  match p with
  | student => "Student" | pro => "Pro" | enterprise => "Enterprise" | unlimited => "Unlimited"
  end.

(** [body.replace(/\s+/g, " ").slice(0, 300)] *)
Fixpoint collapse_ws (in_ws : bool) (l : list ascii) : list ascii :=
  match l with
  | [] => []
  | c :: l' =>
      if is_ws c then (if in_ws then collapse_ws true l' else " "%char :: collapse_ws true l')
      else c :: collapse_ws false l'
  end.
Definition error_detail (body : string) : string := str (take 300 (collapse_ws false (chars body))).

Definition settled (status : string) : bool :=
  bool_decide (status = "paid"%string) || bool_decide (status = "admin_granted"%string).

Definition with_status (st : string) (p : PaymentRow) : PaymentRow :=
  {| py_userId := py_userId p; py_planId := py_planId p; py_amount := py_amount p;
     py_currency := py_currency p; py_status := st; py_method := py_method p;
     py_createdAt := py_createdAt p |}.

(** [method: { startsWith: `stripe:${sessionId}` }] *)
Definition of_session (sessionId : string) (_ : string) (p : PaymentRow) : bool :=
  match py_method p with
  | Some m => starts_with ("stripe:" +:+ sessionId) m
  | None => false
  end.

Definition getPlanRank (p : option PlanId) (catalog : Catalog) : Z :=
  match p with
  | None => 0
  | Some unlimited => 99
  | Some q => pc_rank (catalog q)
  end.

Definition stripe_missing : exn :=
  InternalServerErrorException "Stripe is not configured on this environment".

(** The amount charged for an upgrade or a full plan, in dinars. *)
Definition charge_of (catalog : Catalog) (planId : PlanId) (currentPlanId : option PlanId) : Q :=
  match currentPlanId with
  | Some cur =>
      if getPlanRank (Some cur) catalog <? getPlanRank (Some planId) catalog
      then hundredths (Z.max 0 (toFixed2 (pc_amountDt (catalog planId) - pc_amountDt (catalog cur))%Q))
      else pc_amountDt (catalog planId)
  | None => pc_amountDt (catalog planId)
  end.
Definition is_upgrade (catalog : Catalog) (planId : PlanId) (currentPlanId : option PlanId) : bool :=
  match currentPlanId with
  | Some cur => getPlanRank (Some cur) catalog <? getPlanRank (Some planId) catalog
  | None => false
  end.
(** [Number((chargeDt * rate).toFixed(2))], in cents. *)
Definition usd_cents (chargeDt rate : Q) : Z := toFixed2 (chargeDt * rate)%Q.

Definition stripe_method (sessionId : string) (planId : PlanId) (cents : Z) : string :=
  "stripe:" +:+ sessionId +:+ ":plan:" +:+ plan_string planId +:+ ":usd:" +:+ fixed2_string cents.

Record Checkout := { co_sessionId : string; co_amountDt : Q; co_usdCents : Z }.

Section payment.
Context {T : Type → Type} `{Database T}.
Abbreviation St := (PaymentState T).

Definition set_payments (x : T PaymentRow) (s : St) : St :=
  {| payments := x; plans := plans s; stripeWebhookEvents := stripeWebhookEvents s;
     planCatalog := planCatalog s; charges := charges s; activations := activations s |}.
Definition set_plans (x : PlanTable T) (s : St) : St :=
  {| payments := payments s; plans := x; stripeWebhookEvents := stripeWebhookEvents s;
     planCatalog := planCatalog s; charges := charges s; activations := activations s |}.
Definition set_events (x : T EventType) (s : St) : St :=
  {| payments := payments s; plans := plans s; stripeWebhookEvents := x;
     planCatalog := planCatalog s; charges := charges s; activations := activations s |}.
Definition set_catalog (x : option Catalog) (s : St) : St :=
  {| payments := payments s; plans := plans s; stripeWebhookEvents := stripeWebhookEvents s;
     planCatalog := x; charges := charges s; activations := activations s |}.
Definition set_charges (x : list Charge) (s : St) : St :=
  {| payments := payments s; plans := plans s; stripeWebhookEvents := stripeWebhookEvents s;
     planCatalog := planCatalog s; charges := x; activations := activations s |}.
Definition set_activations (x : list (string * PlanId)) (s : St) : St :=
  {| payments := payments s; plans := plans s; stripeWebhookEvents := stripeWebhookEvents s;
     planCatalog := planCatalog s; charges := charges s; activations := x |}.

Definition assertAdminRole (actorRole : option string) : M St unit :=
  throw_if (negb (bool_decide (actorRole = Some "ADMIN"%string)))
    (ForbiddenException "Admin role required").

Definition assertPlanId (planId : string) : M St PlanId :=
  match parse_plan planId with
  | Some unlimited | None => throw (BadRequestException "Invalid plan id")
  | Some p => mret p
  end.

Definition loadPlanCatalog (c : Call) : M St Catalog :=
  zoom plans set_plans (load_rows (catalogEnv c)).
Definition getPlanCatalog (c : Call) : M St Catalog :=
  cached ← gets planCatalog;
  match cached with
  | Some cat => mret cat
  | None =>
      cat ← loadPlanCatalog c;
      modify (set_catalog (Some cat));;
      mret cat
  end.
Definition refreshPlanCatalog (c : Call) : M St unit :=
  cat ← loadPlanCatalog c;
  modify (set_catalog (Some cat)).
(** A process starts with an empty cache and fills it. *)
Definition onModuleInit (c : Call) : M St unit :=
  modify (set_catalog None);;
  cat ← loadPlanCatalog c;
  modify (set_catalog (Some cat)).

(** [fetchWithTimeout] with the sync token. *)
Definition fetch {A} (c : Call) (a : Answer A) (errorMessage : string) : M St A :=
  throw_if (negb (truthy (js_trim (default "" (syncToken c)))))
    (InternalServerErrorException "Missing INTER_SERVICE_SYNC_TOKEN configuration");;
  match a with
  | Answered body => mret body
  | Refused body =>
      throw (InternalServerErrorException
               (if truthy (error_detail body)
                then errorMessage +:+ ": " +:+ error_detail body else errorMessage))
  | NetworkError => throw (InternalServerErrorException errorMessage)
  end.
Definition getSubscriptionAccessSnapshot (c : Call) (a : Answer SubscriptionAccessSnapshot)
    : M St SubscriptionAccessSnapshot := fetch c a "Failed to verify subscription access state".
Definition getStudentVerification (c : Call) : M St bool :=
  fetch c (studentVerified c) "Failed to fetch student verification status".

(** The POST to subscription-activate, recorded once it was accepted. *)
Definition syncQuotaForPlan (c : Call) (i : nat) (userId : string) (planId : option PlanId) : M St unit :=
  match planId with
  | None => mret tt
  | Some p =>
      fetch c (activation c i) "Failed to activate subscription quota";;
      modify (λ s, set_activations (activations s ++ [(userId, p)]) s)
  end.

Definition getUsdPerTndRate (c : Call) : M St Q :=
  match default (Some (32 # 100)%Q) (usdRate c) with
  | Some rate =>
      if Qle_bool rate 0
      then throw (InternalServerErrorException "Invalid STRIPE_TND_TO_USD_RATE configuration")
      else mret rate
  | None => throw (InternalServerErrorException "Invalid STRIPE_TND_TO_USD_RATE configuration")
  end.

Definition enforcePlanPurchaseRules (c : Call) (requestedPlanId : PlanId) (catalog : Catalog)
    : M St unit :=
  snapshot ← getSubscriptionAccessSnapshot c (access1 c);
  match sa_activePlanId snapshot with
  | None => mret tt
  | Some unlimited =>
      throw (ForbiddenException "Admin/unlimited accounts cannot purchase paid plans")
  | Some currentPlanId =>
      let currentRank := getPlanRank (Some currentPlanId) catalog in
      let requestedRank := getPlanRank (Some requestedPlanId) catalog in
      if currentRank <? requestedRank then mret tt
      else if sa_canPurchaseSameOrLower snapshot then mret tt
      else
        let usagePct := js_round (sa_usageRatio snapshot * 100)%Q in
        let cycleEndText := opt_or (sa_cycleEndsAt snapshot) "the current cycle end" in
        if bool_decide (requestedPlanId = currentPlanId)
        then throw (BadRequestException
               ("You already have the " +:+ plan_string currentPlanId +:+
                " plan. Renewal is locked until you reach 90% usage or until " +:+ cycleEndText
                +:+ ". Current usage: " +:+ pretty usagePct +:+ "%."))
        else throw (BadRequestException
               ("You currently have an active " +:+ plan_string currentPlanId +:+
                " plan. Same or lower plans unlock at 90% usage (or cycle end). Current usage: "
                +:+ pretty usagePct +:+ "%."))
  end.

(** The loop over the matched payments. *)
Fixpoint apply_plans (c : Call) (i : nat) (matched : list (string * PaymentRow)) : M St (list PlanId) :=
  match matched with
  | [] => mret []
  | (_, payment) :: rest =>
      let planId := extractPlanFromPayment (py_planId payment) (py_method payment) in
      syncQuotaForPlan c i (py_userId payment) planId;;
      applied ← apply_plans c (S i) rest;
      mret (match planId with Some p => p :: applied | None => applied end)
  end.

Definition markStripeSessionAsPaid (c : Call) (sessionId : string) (expectedUserId : option string)
    : M St (Z * list PlanId) :=
  matched ← gets (λ s, select (of_session sessionId) (payments s));
  match matched with
  | [] => mret (0, [])
  | _ =>
      throw_if (opt_truthy expectedUserId &&
                existsb (λ kp, negb (bool_decide (Some (py_userId kp.2) = expectedUserId))) matched)
        (ForbiddenException "Checkout session does not belong to this account");;
      modify (λ s, set_payments (update_where
        (λ k p, bool_decide (k ∈ fst <$> matched) && negb (settled (py_status p)))
        (with_status "paid") (payments s)) s);;
      appliedPlanIds ← apply_plans c 0 matched;
      mret (Z.of_nat (length matched), appliedPlanIds)
  end.

Definition createCheckoutSession (c : Call) (userId role : string) (planId : PlanId)
    : M St Checkout :=
  throw_if (negb (stripeConfigured c)) stripe_missing;;
  throw_if (bool_decide (role = "ADMIN"%string))
    (ForbiddenException "Admin accounts have unlimited access and cannot purchase plans");;
  catalog ← getPlanCatalog c;
  throw_if (bool_decide (planId = unlimited)) (BadRequestException "Invalid plan id");;
  when (bool_decide (planId = student))
    (verified ← getStudentVerification c;
     throw_if (negb verified) (ForbiddenException
       "Student email verification is required before purchasing the Student plan."));;
  enforcePlanPurchaseRules c planId catalog;;
  snapshot ← getSubscriptionAccessSnapshot c (access2 c);
  let currentPlanId := match sa_activePlanId snapshot with
                       | Some unlimited => None
                       | other => other
                       end in
  let chargeDt := charge_of catalog planId currentPlanId in
  rate ← getUsdPerTndRate c;
  let cents := usd_cents chargeDt rate in
  match createdSession c with
  | None => throw (JsError "StripeError")
  | Some sessionId =>
      modify (λ s, set_charges (charges s ++
        [{| cg_userId := userId; cg_planId := planId; cg_usdCents := cents;
            cg_upgradeFrom := if is_upgrade catalog planId currentPlanId
                              then currentPlanId else None |}]) s);;
      modify (λ s, set_payments (put (newPaymentId c)
        {| py_userId := userId; py_planId := Some (plan_string planId); py_amount := chargeDt;
           py_currency := "TND"; py_status := "pending";
           py_method := Some (stripe_method sessionId planId cents);
           py_createdAt := now c |} (payments s)) s);;
      mret {| co_sessionId := sessionId; co_amountDt := chargeDt; co_usdCents := cents |}
  end.

Definition listPayments (userId : string) : M St (list (string * PaymentRow)) :=
  gets (λ s, select_desc py_createdAt (λ _ p, bool_decide (py_userId p = userId)) (payments s)).

Definition confirmCheckoutSession (c : Call) (userId sessionId : string)
    : M St (Z * list PlanId) :=
  throw_if (negb (stripeConfigured c)) stripe_missing;;
  throw_if (negb (truthy (js_trim sessionId))) (BadRequestException "Missing Stripe session id");;
  match retrieved c with
  | None => throw (JsError "StripeError")
  | Some None => throw (BadRequestException "Stripe session not found")
  | Some (Some session) =>
      throw_if (opt_truthy (ss_userId session) && negb (bool_decide (ss_userId session = Some userId)))
        (ForbiddenException "Checkout session does not belong to this account");;
      throw_if (negb (ss_paid session)) (BadRequestException "Stripe session is not paid yet");;
      markStripeSessionAsPaid c sessionId (Some userId)
  end.

(** INSERT under the unique index on eventId. *)
Definition create_event (e : StripeEvent) : M St unit := λ s,
  match find_by_id (ev_id e) (stripeWebhookEvents s) with
  | Some _ => (s, Throw (PrismaError "P2002"))
  | None => (set_events (put (ev_id e) (ev_type e) (stripeWebhookEvents s)) s, Ret tt)
  end.

Definition process_event (c : Call) (e : StripeEvent) : M St unit :=
  match ev_type e with
  | SessionCompleted => markStripeSessionAsPaid c (ev_session e) None;; mret tt
  | SessionExpired =>
      modify (λ s, set_payments (update_where
        (λ k p, of_session (ev_session e) k p && bool_decide (py_status p = "pending"%string))
        (with_status "expired") (payments s)) s)
  | OtherEvent _ => mret tt
  end.

Definition handleWebhook (c : Call) (stripeSignature : option string) : M St unit :=
  throw_if (negb (stripeConfigured c)) stripe_missing;;
  throw_if (negb (opt_truthy (webhookSecret c)))
    (InternalServerErrorException "Missing STRIPE_WEBHOOK_SECRET");;
  throw_if (negb (opt_truthy stripeSignature)) (BadRequestException "Missing stripe-signature header");;
  match constructed c with
  | None => throw (BadRequestException "Invalid Stripe webhook signature")
  | Some event =>
      fresh ← try_catch (create_event event;; mret true)
                (λ error, if bool_decide (error = PrismaError "P2002") then mret false else throw error);
      if (fresh : bool) then process_event c event else mret tt
  end.

(** ** Plans *)

Record PublicPlan := { pp_id : PlanId; pp_name : string; pp_row : PlanConfigRow;
                       pp_features : list string }.
Definition toPublicPlan (p : PlanId) (raw : PlanConfigRow) : PublicPlan :=
  {| pp_id := p; pp_name := PLAN_LABEL p; pp_row := raw;
     pp_features :=
       [pretty (pc_maxVms raw) +:+ " VMs"; pretty (pc_vmHoursMonthly raw) +:+ " VM hours/month";
        pretty (pc_maxCpu raw) +:+ " vCPU · " +:+ pretty (js_round (pc_maxRamMb raw # 1024))
        +:+ " GB RAM · " +:+ pretty (pc_maxDiskGb raw) +:+ " GB disk"] |}.

Definition rank_le (a b : PublicPlan) : Prop := pc_rank (pp_row a) <= pc_rank (pp_row b).
#[export] Instance rank_le_dec : RelDecision rank_le.
Proof. intros a b. unfold rank_le. apply _. Defined.

Definition getPublicPlans (c : Call) : M St (list PublicPlan) :=
  catalog ← getPlanCatalog c;
  mret (merge_sort rank_le ((λ p, toPublicPlan p (catalog p)) <$> REQUIRED_PLAN_IDS)).

Definition adminGetAllPlans (c : Call) (actorRole : option string) : M St (list PublicPlan) :=
  assertAdminRole actorRole;;
  getPlanCatalog c;;
  rs ← gets (λ s, rows (pt_rows (plans s)));
  mret (merge_sort rank_le
    (omap (λ p, toPublicPlan p <$> rs !! plan_string p) REQUIRED_PLAN_IDS)).

(** [data: payload]: the given fields replace the stored ones. *)
Record PlanPatch := {
  ch_amountDt : option Q; ch_rank : option Z; ch_vmHoursMonthly : option Z; ch_maxVms : option Z;
  ch_maxCpu : option Z; ch_maxRamMb : option Z; ch_maxDiskGb : option Z }.
Definition empty_patch (d : PlanPatch) : bool :=
  match d with
  | Build_PlanPatch None None None None None None None => true
  | _ => false
  end.
Definition patch_row (d : PlanPatch) (r : PlanConfigRow) : PlanConfigRow :=
  {| pc_amountDt := default (pc_amountDt r) (ch_amountDt d);
     pc_rank := default (pc_rank r) (ch_rank d);
     pc_vmHoursMonthly := default (pc_vmHoursMonthly r) (ch_vmHoursMonthly d);
     pc_maxVms := default (pc_maxVms r) (ch_maxVms d);
     pc_maxCpu := default (pc_maxCpu r) (ch_maxCpu d);
     pc_maxRamMb := default (pc_maxRamMb r) (ch_maxRamMb d);
     pc_maxDiskGb := default (pc_maxDiskGb r) (ch_maxDiskGb d) |}.

Definition adminUpdatePlan (c : Call) (actorRole : option string) (planId : string) (payload : PlanPatch)
    : M St PlanConfigRow :=
  assertAdminRole actorRole;;
  normalizedId ← assertPlanId planId;
  zoom plans set_plans find_many;;
  existing ← gets (λ s, find_by_id (plan_string normalizedId) (pt_rows (plans s)));
  match existing with
  | None => throw (NotFoundException "Plan config not found")
  | Some row =>
      if empty_patch payload then mret row
      else
        let updated := patch_row payload row in
        modify (λ s, set_plans {| pt_exists := pt_exists (plans s);
                  pt_rows := put (plan_string normalizedId) updated (pt_rows (plans s)) |} s);;
        refreshPlanCatalog c;;
        mret updated
  end.
End payment.
End Payment.
