(* ===== verification/PaymentProps.v ===== *)
(** * PaymentProps: what the payment service guarantees

    The service as a transition system over its requests, the invariants of
    the payment table, the webhook log, the activations and the plan cache,
    and the theorems on checkout and on the webhook. *)

From Stdlib Require Import ZArith QArith Qround Qabs Qminmax Lqa Lia Ascii String.
From stdpp Require Import base list gmap strings pretty sorting relations.
From S2P Require Import Prelude Text Store Plans Payment.
Import Plans Payment.

Module PaymentProps.

(** ** Rounding *)

Lemma js_round_close q : (Qabs (inject_Z (js_round q) - q) <= 1 # 2)%Q.
Proof.
  unfold js_round. pose proof (Qfloor_le (q + (1 # 2))) as H1.
  pose proof (Qlt_floor (q + (1 # 2))) as H2. rewrite inject_Z_plus in H2.
  change (inject_Z 1) with 1%Q in H2. apply Qabs_Qle_condition. split; lra.
Qed.

Lemma hundredths_Q n : (hundredths n == inject_Z n * (1 # 100))%Q.
Proof. unfold hundredths, Qeq. simpl. lia. Qed.

Lemma toFixed2_close q : (Qabs (hundredths (toFixed2 q) - q) <= 1 # 200)%Q.
Proof.
  apply Qabs_Qle_condition. rewrite hundredths_Q. unfold toFixed2.
  destruct (Qle_bool 0 q).
  - pose proof (js_round_close (q * 100)) as Hr. apply Qabs_Qle_condition in Hr. lra.
  - pose proof (js_round_close (- q * 100)) as Hr. apply Qabs_Qle_condition in Hr.
    rewrite inject_Z_opp. lra.
Qed.

Lemma toFixed2_nonneg q : (0 <= q)%Q → 0 <= toFixed2 q.
Proof.
  intros Hq. unfold toFixed2. rewrite (proj2 (Qle_bool_iff 0 q) Hq). unfold js_round.
  change 0 with (Qfloor 0). apply Qfloor_resp_le. lra.
Qed.

Lemma charge_nonneg cat p cur : (∀ q, (0 <= pc_amountDt (cat q))%Q) → (0 <= charge_of cat p cur)%Q.
Proof.
  intros Hpos. unfold charge_of. destruct cur as [q|]; [|done]. destruct (_ <? _); [|done].
  rewrite hundredths_Q. assert (0 <= inject_Z (Z.max 0 (toFixed2 (pc_amountDt (cat p) - pc_amountDt (cat q)))))%Q.
  { change 0%Q with (inject_Z 0). rewrite <-Zle_Qle. lia. }
  lra.
Qed.

Lemma max_toFixed2_close x : (Qabs (hundredths (Z.max 0 (toFixed2 x)) - Qmax 0 x) <= 1 # 200)%Q.
Proof.
  pose proof (toFixed2_close x) as Hc. apply Qabs_Qle_condition in Hc. apply Qabs_Qle_condition.
  rewrite hundredths_Q in *. destruct (Z.max_spec 0 (toFixed2 x)) as [[Hz ->]|[Hz ->]];
    rewrite Zle_Qle in Hz || rewrite Zlt_Qlt in Hz; change (inject_Z 0) with 0%Q in *;
    destruct (Q.max_spec 0 x) as [[Hx ->]|[Hx ->]]; lra.
Qed.

Lemma charge_close cat p cur : 
  match cur with
  | Some q =>
      if is_upgrade cat p cur
      then (Qabs (charge_of cat p cur - Qmax 0 (pc_amountDt (cat p) - pc_amountDt (cat q))) <= 1 # 200)%Q
      else charge_of cat p cur = pc_amountDt (cat p)
  | None => charge_of cat p cur = pc_amountDt (cat p)
  end.
Proof.
  destruct cur as [q|]; [|done]. unfold is_upgrade, charge_of. destruct (_ <? _); [|done].
  apply max_toFixed2_close.
Qed.

Section props.
Context {T : Type → Type} `{DatabaseLaws T}.
Abbreviation St := (PaymentState T).

(** ** The requests *)

Inductive step (s : St) : St → Prop :=
| step_checkout c userId role planId :
    rows (payments s) !! newPaymentId c = None →
    step s (createCheckoutSession c userId role planId s).1
| step_confirm c userId sessionId : step s (confirmCheckoutSession c userId sessionId s).1
| step_webhook c signature : step s (handleWebhook c signature s).1
| step_start c : step s (onModuleInit c s).1
| step_public c : step s (getPublicPlans c s).1
| step_admin_list c role : step s (adminGetAllPlans c role s).1
| step_admin_update c role planId payload : step s (adminUpdatePlan c role planId payload s).1.
Definition later : St → St → Prop := rtc step.

(** A service on a fresh database. *)
Record init (s : St) : Prop := {
  init_payments : rows (payments s) = ∅; init_charges : charges s = [];
  init_activations : activations s = []; init_catalog : planCatalog s = None;
  init_plans : rows (pt_rows (plans s)) = ∅ }.
Definition reachable (s : St) : Prop := ∃ s0, init s0 ∧ later s0 s.

(** ** How a stored payment evolves *)

Definition status_evolves (a b : string) : Prop :=
  a = b ∨ (settled a = false ∧ b = "paid"%string) ∨ (a = "pending"%string ∧ b = "expired"%string).
Definition row_evolves (p q : PaymentRow) : Prop :=
  q = with_status (py_status q) p ∧ status_evolves (py_status p) (py_status q).
(** Rows and recorded events stay; a row changes only by [status_evolves]. *)
Record evolves (s s' : St) : Prop := {
  ev_rows k p : rows (payments s) !! k = Some p →
                ∃ q, rows (payments s') !! k = Some q ∧ row_evolves p q;
  ev_events k e : rows (stripeWebhookEvents s) !! k = Some e →
                  rows (stripeWebhookEvents s') !! k = Some e }.

Lemma row_evolves_refl p : row_evolves p p.
Proof. split; [by destruct p|by left]. Qed.

Lemma status_evolves_trans a b c : status_evolves a b → status_evolves b c → status_evolves a c.
Proof. intros [->|[[? ->]|[-> ->]]] [<-|[[? ->]|[? ->]]]; unfold status_evolves; naive_solver. Qed.

Lemma row_evolves_trans p q r : row_evolves p q → row_evolves q r → row_evolves p r.
Proof.
  intros [E1 H1] [E2 H2]. split; [|by eapply status_evolves_trans].
  rewrite E2, E1. by destruct p.
Qed.

#[local] Instance evolves_refl : Reflexive evolves.
Proof. intros s. split; [|done]. intros k p Hk. exists p. split; [done|apply row_evolves_refl]. Qed.
#[local] Instance evolves_trans : Transitive evolves.
Proof.
  intros s1 s2 s3 [R1 E1] [R2 E2]. split; [|by eauto].
  intros k p (q & Hq & Hpq)%R1. apply R2 in Hq as (r & Hr & Hqr).
  exists r. split; [done|by eapply row_evolves_trans].
Qed.

(** A handler that leaves the payments and the webhook log alone. *)
Lemma evolves_frame s s' :
  payments s' = payments s → stripeWebhookEvents s' = stripeWebhookEvents s → evolves s s'.
Proof.
  intros Ep Ee. split; rewrite ?Ep, ?Ee; [|done]. intros k p Hk. exists p.
  split; [done|apply row_evolves_refl].
Qed.

Lemma evolves_update pr st s :
  (∀ k p, pr k p = true → status_evolves (py_status p) st) →
  evolves s (set_payments (update_where pr (with_status st) (payments s)) s).
Proof.
  intros Hst. split; [|done]. intros k p Hk. simpl. rewrite rows_update_where, Hk. simpl.
  eexists. split; [done|]. destruct (pr k p) eqn:E; [|apply row_evolves_refl].
  split; [done|]. simpl. by eapply Hst.
Qed.

(** ** The plan catalogue *)

Definition full (rs : gmap string PlanConfigRow) : Prop :=
  ∀ p, p ≠ unlimited → is_Some (rs !! plan_string p).
(** The table is empty or holds the three managed plans. *)
Definition table_ok (t : PlanTable T) : Prop :=
  rows (pt_rows t) = ∅ ∨ (pt_exists t = true ∧ full (rows (pt_rows t))).

Lemma full_not_empty rs : full rs → rs ≠ ∅.
Proof. intros Hf ->. by destruct (Hf student). Qed.

Lemma full_build rs : full rs → ∃ cat, buildPlanCatalogFromRows rs = Ret cat.
Proof.
  intros Hf. unfold buildPlanCatalogFromRows. rewrite bool_decide_eq_true_2; [by eauto|].
  apply elem_of_nil_inv. intros p [Hn Hp]%list_elem_of_filter.
  destruct (Hf p) as [? ?]; [|congruence].
  intros ->. by apply list_elem_of_In in Hp as [?|[?|[?|?]]].
Qed.

Lemma validate_plans_ids entry ids l : validate_plans entry ids = Ret l → l.*1 = ids.
Proof.
  revert l. induction ids as [|p ids IH]; intros l; simpl; [by intros [= <-]|].
  repeat case_match; intros [= <-]. simpl. f_equal. by apply IH.
Qed.

Lemma seed_rows_lookup seed (t : T PlanConfigRow) p :
  p ∈ seed.*1 → is_Some (rows (foldr seed_row t seed) !! plan_string p).
Proof.
  assert (Hone : ∀ pr u q, is_Some (rows u !! plan_string q) ∨ q = pr.1 →
                   is_Some (rows (seed_row pr u) !! plan_string q)).
  { intros pr u q Hq. unfold seed_row, find_by_id. case_match; [destruct Hq; subst; by eauto|].
    rewrite rows_put. destruct (decide (plan_string pr.1 = plan_string q)) as [->|Hne].
    - rewrite lookup_insert_eq. by eauto.
    - rewrite lookup_insert_ne by done. destruct Hq as [?| ->]; done. }
  induction seed as [|pr seed IH]; simpl; [by set_solver|].
  intros Hin. apply Hone. apply elem_of_cons in Hin as [->|Hin]; [by right|left; by apply IH].
Qed.

Lemma seed_full entry seed (t : T PlanConfigRow) :
  validate_plans entry REQUIRED_PLAN_IDS = Ret seed → full (rows (foldr seed_row t seed)).
Proof.
  intros Hs p Hp. apply validate_plans_ids in Hs. apply seed_rows_lookup. rewrite Hs.
  destruct p; [set_solver..|done].
Qed.

(** A full table is only read. *)
Lemma load_rows_full env (t : PlanTable T) :
  pt_exists t = true → full (rows (pt_rows t)) →
  ∃ cat, load_rows env t = (t, Ret cat) ∧ buildPlanCatalogFromRows (rows (pt_rows t)) = Ret cat.
Proof.
  intros He Hf. unfold load_rows, find_many. m_red. rewrite He.
  rewrite bool_decide_eq_false_2 by by apply full_not_empty.
  destruct (full_build _ Hf) as [cat Hc]. rewrite Hc. by eauto.
Qed.

Lemma load_rows_spec env (t : PlanTable T) :
  table_ok t →
  match load_rows env t with
  | (t', Ret cat) => pt_exists t' = true ∧ full (rows (pt_rows t')) ∧
                     buildPlanCatalogFromRows (rows (pt_rows t')) = Ret cat
  | (t', Throw e) => rows (pt_rows t') = ∅
  end.
Proof.
  intros Ht. unfold load_rows, find_many, ensurePlanConfigTable. m_red.
  destruct Ht as [Ht|[He Hf]].
  - destruct (pt_exists t) eqn:He; simpl; rewrite Ht; simpl;
      rewrite (bool_decide_eq_true_2 (@eq (gmap string PlanConfigRow) ∅ ∅)) by done;
      (destruct (loadManagedPlanCatalogFromEnv env) as [seed|e] eqn:Es; simpl; [|by rewrite ?Ht]);
      (destruct env as [| |entry]; [done..|]);
      pose proof (seed_full entry seed (pt_rows t) Es) as Hfull; rewrite ?He; simpl;
      rewrite (bool_decide_eq_false_2 (rows _ = ∅)) by (by apply full_not_empty);
      destruct (full_build _ Hfull) as [cat Hc]; rewrite Hc; simpl; done.
  - pose proof (load_rows_full env t He Hf) as Hl. destruct Hl as (cat & Hr & Hb).
    unfold load_rows, find_many, ensurePlanConfigTable in Hr. m_red. rewrite Hr. done.
Qed.

(** The cache holds what the table says. *)
Record catalog_ok (s : St) : Prop := {
  co_table : table_ok (plans s);
  co_cache cat : planCatalog s = Some cat →
    full (rows (pt_rows (plans s))) ∧ buildPlanCatalogFromRows (rows (pt_rows (plans s))) = Ret cat }.
(** What the catalogue's handlers leave alone. *)
Definition ledger (s : St) := (payments s, stripeWebhookEvents s, charges s, activations s).
Definition same_ledger (s s' : St) : Prop := ledger s' = ledger s.
#[local] Instance same_ledger_refl : Reflexive same_ledger.
Proof. by intros s. Qed.
#[local] Instance same_ledger_trans : Transitive same_ledger.
Proof. unfold same_ledger. intros s1 s2 s3. congruence. Qed.

Lemma loadPlanCatalog_ledger c : preserves same_ledger (loadPlanCatalog (T:=T) c).
Proof. intros s. unfold loadPlanCatalog, zoom. by destruct (load_rows _ _). Qed.

Lemma getPlanCatalog_ledger c : preserves same_ledger (getPlanCatalog (T:=T) c).
Proof.
  intros s. unfold getPlanCatalog. m_red. destruct (planCatalog s); [done|].
  pose proof (loadPlanCatalog_ledger c s) as Hl. by destruct (loadPlanCatalog c s) as [s1 [cat|e]].
Qed.

Lemma getPlanCatalog_spec c s :
  catalog_ok s →
  match getPlanCatalog c s with
  | (s', Ret cat) => catalog_ok s' ∧ planCatalog s' = Some cat
  | (s', Throw e) => catalog_ok s'
  end.
Proof.
  intros [Ht Hc]. unfold getPlanCatalog, loadPlanCatalog, zoom. m_red.
  destruct (planCatalog s) as [cat|] eqn:E.
  - split; [|done]. split; [done|]. rewrite E. exact Hc.
  - pose proof (load_rows_spec (catalogEnv c) (plans s) Ht) as Hl.
    destruct (load_rows _ _) as [t [cat|e]]; simpl in *.
    + destruct Hl as (He & Hf & Hb). split; [|done]. split; simpl; [by right|].
      by intros ? [= <-].
    + split; simpl; [by left|]. rewrite E. done.
Qed.

Lemma assertPlanId_spec planId (s : St) :
  (∃ e, assertPlanId planId s = (s, Throw e)) ∨
  ∃ p, planId = plan_string p ∧ p ≠ unlimited ∧ assertPlanId planId s = (s, Ret p).
Proof.
  unfold assertPlanId. destruct (parse_plan planId) as [p|] eqn:Ep; [|left; by eexists].
  apply parse_plan_Some in Ep. destruct p; [right; by eexists..|left; by eexists].
Qed.

Lemma full_put p row (t : T PlanConfigRow) :
  full (rows t) → full (rows (put (plan_string p) row t)).
Proof.
  intros Hf q Hq. rewrite rows_put. destruct (decide (plan_string p = plan_string q)) as [->|Hne].
  - rewrite lookup_insert_eq. by eauto.
  - rewrite lookup_insert_ne by done. by apply Hf.
Qed.

Lemma adminUpdatePlan_spec c role planId payload s :
  catalog_ok s →
  match adminUpdatePlan c role planId payload s with
  | (s', Ret row) => catalog_ok s' ∧ ∃ p, planId = plan_string p ∧ p ≠ unlimited ∧
      rows (pt_rows (plans s')) !! planId = Some row
  | (s', Throw e) => s' = s
  end.
Proof.
  intros [Ht Hc]. unfold adminUpdatePlan, assertAdminRole.
  destruct (bool_decide (role = _)); [|done]. simpl.
  assert (Hs : set_plans (plans s) s = s) by by destruct s.
  destruct (assertPlanId_spec planId s) as [[e He]|(p & -> & Hp & He)]; m_red; rewrite He; [done|].
  clear He. unfold zoom, find_many. destruct Ht as [Ht|[Hex Hf]].
  - destruct (pt_exists (plans s)); simpl; rewrite Hs; unfold find_by_id; rewrite ?Ht, ?lookup_empty; done.
  - rewrite Hex, Hs. unfold find_by_id at 1.
    destruct (rows (pt_rows (plans s)) !! plan_string p) as [row|] eqn:Er; [|done].
    destruct (empty_patch payload).
    { split; [split; [by right|done]|]. by eauto. }
    pose proof (full_put p (patch_row payload row) _ Hf) as Hf'.
    unfold refreshPlanCatalog, loadPlanCatalog, zoom. m_red.
    match goal with |- context [load_rows ?e ?t] =>
      destruct (load_rows_full e t Hex Hf') as (cat & -> & Hb) end. simpl.
    split; [split; simpl; [by right|]; by intros ? [= <-]|].
    exists p. rewrite rows_put, lookup_insert_eq. done.
Qed.

(** ** Marking a session as paid *)

Lemma fetch_state {A} c (a : Answer A) msg (s : St) : (fetch c a msg s).1 = s.
Proof. unfold fetch. m_red. destruct (negb _); [done|]. by destruct a. Qed.

(** The plans handed to the user service are those of the matched rows. *)
Lemma apply_plans_run c l : ∀ i (s : St), ∃ new,
  (apply_plans c i l s).1 = set_activations (activations s ++ new) s ∧
  ∀ u p, (u, p) ∈ new → ∃ k row, (k, row) ∈ l ∧ py_userId row = u ∧
    extractPlanFromPayment (py_planId row) (py_method row) = Some p.
Proof.
  induction l as [|[k row] l IH]; intros i s; simpl.
  { exists []. rewrite app_nil_r. split; [by destruct s|]. by intros ?? ?%not_elem_of_nil. }
  unfold syncQuotaForPlan. m_red.
  destruct (extractPlanFromPayment (py_planId row) (py_method row)) as [p|] eqn:Ep; simpl.
  - pose proof (fetch_state c (activation c i) "Failed to activate subscription quota" s) as Hs.
    destruct (fetch c _ _ s) as [s1 [[]|e]]; simpl in Hs; subst s1.
    + destruct (IH (S i) (set_activations (activations s ++ [(py_userId row, p)]) s)) as (new & Hr & Hn).
      exists ((py_userId row, p) :: new).
      destruct (apply_plans c (S i) l _) as [s2 [ps|e]]; simpl in *; subst s2;
        (split; [by rewrite <-app_assoc|]);
        intros u q [[= -> ->]|(k' & row' & ? & ?)%Hn]%elem_of_cons; set_solver.
    + exists []. rewrite app_nil_r. split; [by destruct s|]. by intros ?? ?%not_elem_of_nil.
  - destruct (IH (S i) s) as (new & Hr & Hn). exists new.
    destruct (apply_plans c (S i) l s) as [s2 [ps|e]]; simpl in *; subst s2;
      (split; [done|]); intros u q (k' & row' & ? & ?)%Hn; set_solver.
Qed.

Definition mark_paid (sessionId : string) (s : St) : St :=
  set_payments (update_where (λ k p, bool_decide (k ∈ fst <$> select (of_session sessionId) (payments s))
                                     && negb (settled (py_status p)))
                 (with_status "paid") (payments s)) s.

Lemma mark_paid_evolves sessionId s : evolves s (mark_paid sessionId s).
Proof.
  apply evolves_update. intros k p Hp%andb_true_iff. destruct Hp as [_ Hp].
  right; left. by apply negb_true_iff in Hp.
Qed.

Lemma mark_paid_row sessionId s k p :
  (k, p) ∈ select (of_session sessionId) (payments s) →
  ∃ st, rows (payments (mark_paid sessionId s)) !! k = Some (with_status st p) ∧ settled st = true.
Proof.
  intros Hin. pose proof Hin as [Hk _]%elem_of_select. simpl. rewrite rows_update_where, Hk. simpl.
  rewrite (bool_decide_eq_true_2 (k ∈ _)) by (apply list_elem_of_fmap; by exists (k, p)).
  simpl. destruct (settled (py_status p)) eqn:E; simpl.
  - exists (py_status p). split; [by destruct p|done].
  - by exists "paid"%string.
Qed.

(** Whatever the outcome: nothing, or the matched rows are settled and some of
    their plans were handed on. *)
Lemma markStripeSessionAsPaid_run c sessionId expected s :
  (markStripeSessionAsPaid c sessionId expected s).1 = s ∨ ∃ new,
  (markStripeSessionAsPaid c sessionId expected s).1
    = set_activations (activations s ++ new) (mark_paid sessionId s) ∧
  ∀ u p, (u, p) ∈ new → ∃ k row, rows (payments (mark_paid sessionId s)) !! k = Some row ∧
    settled (py_status row) = true ∧ py_userId row = u ∧
    extractPlanFromPayment (py_planId row) (py_method row) = Some p.
Proof.
  unfold markStripeSessionAsPaid. rewrite (bind_eval _ _ s s _ eq_refl).
  pose proof (mark_paid_row sessionId s) as Hrow.
  destruct (select (of_session sessionId) (payments s)) as [|x l] eqn:El; [by left|].
  set (L := x :: l) in *. clearbody L.
  destruct (opt_truthy expected && _); [by left|]. right.
  destruct (apply_plans_run c L 0 (mark_paid sessionId s)) as (new & Hr & Hn).
  exists new. split.
  - etransitivity; [|exact Hr]. unfold mark_paid. rewrite El. clear. m_red.
    by destruct (apply_plans c 0 L _) as [s2 [ps|e]].
  - intros u p (k & row & Hin & <- & Hx)%Hn. destruct (Hrow k row Hin) as (st & Hq & Hst).
    by exists k, (with_status st row).
Qed.

(** ** Checkout *)

(** What the purchase rules allow, given the buyer's subscription. *)
Definition may_purchase (cat : Catalog) (snap : SubscriptionAccessSnapshot) (p : PlanId) : Prop :=
  match sa_activePlanId snap with
  | None => True
  | Some unlimited => False
  | Some cur => getPlanRank (Some cur) cat < getPlanRank (Some p) cat ∨
                sa_canPurchaseSameOrLower snap = true
  end.
(** The plan an upgrade is charged against. *)
Definition upgrade_base (snap : SubscriptionAccessSnapshot) : option PlanId :=
  match sa_activePlanId snap with Some unlimited => None | other => other end.

Definition pending_row (c : Call) (u sid : string) (p : PlanId) (charge : Q) (cents : Z) : PaymentRow :=
  {| py_userId := u; py_planId := Some (plan_string p); py_amount := charge; py_currency := "TND";
     py_status := "pending"; py_method := Some (stripe_method sid p cents); py_createdAt := now c |}.

Lemma fetch_inv {A} c (a : Answer A) msg (s s' : St) x :
  fetch c a msg s = (s', Ret x) → s' = s ∧ a = Answered x.
Proof. unfold fetch. intros Hf. m_inv Hf. apply throw_if_inv in Hm as [_ ->]. destruct a; [|done..]. by injection Hf as -> ->. Qed.

Lemma enforce_inv c p cat (s s' : St) u :
  enforcePlanPurchaseRules c p cat s = (s', Ret u) →
  s' = s ∧ ∃ snap, access1 c = Answered snap ∧ may_purchase cat snap p.
Proof.
  unfold enforcePlanPurchaseRules, may_purchase. intros Hf. m_inv Hf.
  apply fetch_inv in Hm as [-> Ha]. unfold mret, M_ret, throw in Hf.
  assert (Hcur : ∀ cur, cur ≠ unlimited → sa_activePlanId x = Some cur →
            s' = s ∧ (getPlanRank (Some cur) cat < getPlanRank (Some p) cat ∨
                      sa_canPurchaseSameOrLower x = true)).
  { intros cur Hne Hc. rewrite Hc in Hf. destruct cur; [..|done];
      (destruct (_ <? _) eqn:Hr; [apply Z.ltb_lt in Hr|]);
      (destruct (sa_canPurchaseSameOrLower x); simpl in Hf; [by simplify_eq; auto|]);
      try (by simplify_eq; auto); by case_bool_decide. }
  destruct (sa_activePlanId x) as [cur|] eqn:Ec.
  - destruct (decide (cur = unlimited)) as [->|Hne]; [done|].
    destruct (Hcur cur Hne eq_refl) as [-> Hr]. split; [done|]. exists x. rewrite Ec.
    split; [done|]. by destruct cur.
  - simplify_eq. split; [done|]. exists x. by rewrite Ec.
Qed.

Lemma student_gate_inv (b : bool) (c : Call) (s s' : St) u :
  when b (verified ← getStudentVerification c;
          throw_if (negb verified) (ForbiddenException
       "Student email verification is required before purchasing the Student plan.")) s = (s', Ret u) →
  s' = s ∧ (b = true → studentVerified c = Answered true).
Proof.
  destruct b; simpl; [|by intros [= <-]]. intros Hf. m_inv Hf.
  apply fetch_inv in Hm as [-> Ha]. apply throw_if_inv in Hf as [Hn ->].
  destruct x; by rewrite ?Ha.
Qed.

Lemma rate_inv c (s s' : St) rate :
  getUsdPerTndRate c s = (s', Ret rate) → s' = s ∧ (0 < rate)%Q ∧ default (Some (32 # 100)%Q) (usdRate c) = Some rate.
Proof.
  unfold getUsdPerTndRate. destruct (default _ _) as [q|]; [|done].
  destruct (Qle_bool q 0) eqn:E; [done|]. intros [= <- <-].
  split_and!; [done| |done]. apply Qnot_le_lt. intros Hle%Qle_bool_iff. congruence.
Qed.

Lemma checkout_inv c u role p (s s' : St) co :
  createCheckoutSession c u role p s = (s', Ret co) →
  role ≠ "ADMIN"%string ∧ p ≠ unlimited ∧ (p = student → studentVerified c = Answered true) ∧
  ∃ s1 cat snap1 snap2 rate sid,
    getPlanCatalog c s = (s1, Ret cat) ∧
    access1 c = Answered snap1 ∧ may_purchase cat snap1 p ∧ access2 c = Answered snap2 ∧
    (0 < rate)%Q ∧ default (Some (32 # 100)%Q) (usdRate c) = Some rate ∧ createdSession c = Some sid ∧
    let charge := charge_of cat p (upgrade_base snap2) in
    let cents := usd_cents charge rate in
    co = {| co_sessionId := sid; co_amountDt := charge; co_usdCents := cents |} ∧
    s' = set_payments (put (newPaymentId c) (pending_row c u sid p charge cents) (payments s1))
          (set_charges (charges s1 ++
             [{| cg_userId := u; cg_planId := p; cg_usdCents := cents;
                 cg_upgradeFrom := if is_upgrade cat p (upgrade_base snap2)
                                   then upgrade_base snap2 else None |}]) s1).
Proof.
  unfold createCheckoutSession. intros Hf. m_inv Hf.
  apply throw_if_inv in Hm as [_ ->]. apply throw_if_inv in Hm0 as [Hr%bool_decide_eq_false ->].
  apply throw_if_inv in Hm2 as [Hp%bool_decide_eq_false ->].
  apply student_gate_inv in Hm3 as [-> Hst]. rewrite bool_decide_eq_true in Hst.
  apply enforce_inv in Hm4 as (-> & snap1 & Ha1 & Hmay). apply fetch_inv in Hm5 as [-> Ha2].
  apply rate_inv in Hm6 as (-> & Hrate & Erate).
  destruct (createdSession c) as [sid|] eqn:Es; [|done].
  split_and!; [done..|]. exists s2, x1, snap1, x5, x6, sid.
  split_and!; try done; injection Hf as <- <-; done.
Qed.

Lemma fetch_reads {A} c (a : Answer A) msg : preserves (=) (fetch (T:=T) c a msg).
Proof. intros s. by rewrite fetch_state. Qed.
Lemma student_gate_reads (b : bool) (c : Call) e :
  preserves (=) (when b (verified ← getStudentVerification (T:=T) c; throw_if (negb verified) e)).
Proof.
  destruct b; [|by intros s]. apply preserves_bind; [exact _|apply fetch_reads|].
  intros v. apply throw_if_reads.
Qed.
Lemma enforce_reads c p cat : preserves (=) (enforcePlanPurchaseRules (T:=T) c p cat).
Proof.
  apply preserves_bind; [exact _|apply fetch_reads|]. intros snap s.
  destruct (sa_activePlanId snap) as [[]|]; try done;
    cbv zeta; (destruct (Z.ltb _ _); [done|]); (destruct (sa_canPurchaseSameOrLower snap); [done|]);
    by case_bool_decide.
Qed.
Lemma rate_reads c : preserves (=) (getUsdPerTndRate (T:=T) c).
Proof. intros s. unfold getUsdPerTndRate. destruct (default _ _) as [q|]; [|done]. by destruct (Qle_bool q 0). Qed.

Lemma checkout_throw_state c u role p (s s' : St) e :
  createCheckoutSession c u role p s = (s', Throw e) → s' = s ∨ s' = (getPlanCatalog c s).1.
Proof.
  unfold createCheckoutSession. intros Hf.
  apply bind_Throw_reads in Hf as [->|([] & _ & Hf)]; [by left| |apply throw_if_reads].
  apply bind_Throw_reads in Hf as [->|([] & _ & Hf)]; [by left| |apply throw_if_reads].
  right. apply bind_Throw_inv in Hf as [Hf|(cat & s1 & Hm & Hf)]; [by rewrite Hf|].
  rewrite Hm. simpl. clear Hm.
  apply bind_Throw_reads in Hf as [->|([] & _ & Hf)]; [done| |apply throw_if_reads].
  apply bind_Throw_reads in Hf as [->|([] & _ & Hf)]; [done| |apply student_gate_reads].
  apply bind_Throw_reads in Hf as [->|([] & _ & Hf)]; [done| |apply enforce_reads].
  apply bind_Throw_reads in Hf as [->|(snap & _ & Hf)]; [done| |apply fetch_reads].
  apply bind_Throw_reads in Hf as [->|(rate & _ & Hf)]; [done| |apply rate_reads].
  destruct (createdSession c); [done|]. by injection Hf as ->.
Qed.

(** ** The ledger's invariant *)

(** A stored payment names a managed plan, twice, and was submitted to Stripe. *)
Definition row_inv (s : St) (row : PaymentRow) : Prop :=
  ∃ sid cg, cg ∈ charges s ∧ cg_userId cg = py_userId row ∧ cg_planId cg ≠ unlimited ∧
    py_planId row = Some (plan_string (cg_planId cg)) ∧
    py_method row = Some (stripe_method sid (cg_planId cg) (cg_usdCents cg)).
Record inv (s : St) : Prop := {
  inv_rows k row : rows (payments s) !! k = Some row → row_inv s row;
  inv_activations u p : (u, p) ∈ activations s → ∃ k row,
    rows (payments s) !! k = Some row ∧ settled (py_status row) = true ∧ py_userId row = u ∧
    extractPlanFromPayment (py_planId row) (py_method row) = Some p }.

Lemma settled_stays a b : status_evolves a b → settled a = true → a = b.
Proof. intros [->|[[Hn _]|[-> _]]]; [done|congruence|by vm_compute]. Qed.

Lemma inv_frame s s' : same_ledger s s' → inv s → inv s'.
Proof.
  unfold same_ledger, ledger. intros [= Ep _ Ec Ea] [Hr Ha].
  split; unfold row_inv; rewrite ?Ep, ?Ec, ?Ea; done.
Qed.

Lemma inv_update pr st s :
  (∀ k p, pr k p = true → status_evolves (py_status p) st) →
  inv s → inv (set_payments (update_where pr (with_status st) (payments s)) s).
Proof.
  intros Hst [Hr Ha]. split; simpl.
  - intros k row Hk. rewrite rows_update_where in Hk. apply fmap_Some in Hk as (p & Hk & ->).
    apply Hr in Hk. by destruct (pr k p).
  - intros u p (k & row & Hk & Hs & Hrow)%Ha.
    exists k, row. rewrite rows_update_where, Hk. simpl. split; [|done].
    destruct (pr k row) eqn:E; [|done]. apply Hst in E. apply settled_stays in E; [|done].
    rewrite <-E. by destruct row.
Qed.

Lemma inv_activate s new :
  (∀ u p, (u, p) ∈ new → ∃ k row, rows (payments s) !! k = Some row ∧
     settled (py_status row) = true ∧ py_userId row = u ∧
     extractPlanFromPayment (py_planId row) (py_method row) = Some p) →
  inv s → inv (set_activations (activations s ++ new) s).
Proof. intros Hn [Hr Ha]. split; [done|]. intros u p [Hp|Hp]%elem_of_app; simpl; by eauto. Qed.

Lemma mark_inv c sessionId expected s :
  inv s → inv (markStripeSessionAsPaid c sessionId expected s).1.
Proof.
  intros Hi. destruct (markStripeSessionAsPaid_run c sessionId expected s) as [->|(new & -> & Hn)]; [done|].
  apply (inv_activate (mark_paid sessionId s)); [done|]. apply inv_update; [|done].
  intros k p [_ Hp%negb_true_iff]%andb_true_iff. by right; left.
Qed.
Lemma mark_evolves c sessionId expected s :
  evolves s (markStripeSessionAsPaid c sessionId expected s).1.
Proof.
  destruct (markStripeSessionAsPaid_run c sessionId expected s) as [->|(new & -> & _)]; [done|].
  etransitivity; [apply (mark_paid_evolves sessionId)|by apply evolves_frame].
Qed.
Lemma mark_catalog c sessionId expected s :
  catalog_ok s → catalog_ok (markStripeSessionAsPaid c sessionId expected s).1.
Proof.
  intros [Ht Hc].
  by destruct (markStripeSessionAsPaid_run c sessionId expected s) as [->|(new & -> & _)].
Qed.

Lemma checkout_inv_step c u role p s :
  rows (payments s) !! newPaymentId c = None → inv s → inv (createCheckoutSession c u role p s).1.
Proof.
  intros Hfresh Hi. destruct (createCheckoutSession c u role p s) as [s' [co|e]] eqn:E; simpl.
  - apply checkout_inv in E as (_ & Hp & _ & s1 & cat & snap1 & snap2 & rate & sid & Hc & _ & _ & _ & _ & _ & _ & -> & ->).
    pose proof (getPlanCatalog_ledger c s) as Hl. rewrite Hc in Hl. simpl in Hl.
    pose proof (inv_frame _ _ Hl Hi) as [Hr Ha]. unfold same_ledger, ledger in Hl.
    injection Hl as Hl _ _ _. rewrite <-Hl in Hfresh. split; simpl.
    + intros k row. rewrite rows_put. intros [[<- <-]|[_ Hk]]%lookup_insert_Some.
      * exists sid. eexists. split; [apply elem_of_app; right; by apply list_elem_of_singleton|]. done.
      * apply Hr in Hk as (sid' & cg & Hin & Hcg). exists sid', cg. split; [by apply elem_of_app; left|done].
    + intros u' q (k & row & Hk & Hrow)%Ha. exists k, row. split; [|done].
      rewrite rows_put, lookup_insert_ne; [done|]. congruence.
  - destruct (checkout_throw_state _ _ _ _ _ _ _ E) as [->| ->]; [done|].
    by eapply inv_frame; [apply getPlanCatalog_ledger|].
Qed.

(** ** The webhook *)

(** The request carries a well-signed event. *)
Definition accepts (c : Call) (signature : option string) (e : StripeEvent) : Prop :=
  stripeConfigured c = true ∧ opt_truthy (webhookSecret c) = true ∧ opt_truthy signature = true ∧
  constructed c = Some e.
Definition record_event (e : StripeEvent) (s : St) : St :=
  set_events (put (ev_id e) (ev_type e) (stripeWebhookEvents s)) s.

Lemma handleWebhook_accepts c signature e (s : St) :
  accepts c signature e →
  handleWebhook c signature s =
    match rows (stripeWebhookEvents s) !! ev_id e with
    | Some _ => (s, Ret tt)
    | None => process_event c e (record_event e s)
    end.
Proof.
  intros (H1 & H2 & H3 & H4). unfold handleWebhook, create_event, find_by_id. rewrite H1, H2, H3, H4. m_red.
  by destruct (rows (stripeWebhookEvents s) !! ev_id e).
Qed.

Lemma handleWebhook_cases c signature (s : St) :
  (∃ e, accepts c signature e) ∨ (handleWebhook c signature s).1 = s.
Proof.
  unfold accepts, handleWebhook. m_red.
  destruct (stripeConfigured c); [|by right]. destruct (opt_truthy (webhookSecret c)); [|by right].
  destruct (opt_truthy signature); [|by right]. destruct (constructed c) as [e|]; [|by right].
  left. by exists e.
Qed.

Lemma record_event_evolves e s :
  rows (stripeWebhookEvents s) !! ev_id e = None → evolves s (record_event e s).
Proof.
  intros Hn. split; simpl.
  - intros k p Hk. exists p. split; [done|apply row_evolves_refl].
  - intros k x Hk. rewrite rows_put, lookup_insert_ne; [done|]. congruence.
Qed.

Lemma process_event_cases c e (s : St) :
  let s' := (process_event c e s).1 in
  s' = s ∨ s' = (markStripeSessionAsPaid c (ev_session e) None s).1 ∨
  s' = set_payments (update_where
        (λ k p, of_session (ev_session e) k p && bool_decide (py_status p = "pending"%string))
        (with_status "expired") (payments s)) s.
Proof.
  unfold process_event. destruct (ev_type e); simpl; [right; left|by right; right|by left].
  m_red. by destruct (markStripeSessionAsPaid _ _ _ s) as [? [?|?]].
Qed.

Lemma expire_status sid k p :
  of_session sid k p && bool_decide (py_status p = "pending"%string) = true →
  status_evolves (py_status p) "expired".
Proof. intros [_ Hp%bool_decide_eq_true]%andb_true_iff. by right; right. Qed.

(** An operation that a payment's life, the invariant and the cache survive. *)
Record safe (s s' : St) : Prop := {
  safe_evolves : evolves s s'; safe_inv : inv s → inv s'; safe_catalog : catalog_ok s → catalog_ok s' }.

Lemma safe_refl s : safe s s.
Proof. by split. Qed.
Lemma safe_trans s1 s2 s3 : safe s1 s2 → safe s2 s3 → safe s1 s3.
Proof. intros [] []. split; [by etransitivity|by auto..]. Qed.

Lemma safe_mark c sessionId expected s : safe s (markStripeSessionAsPaid c sessionId expected s).1.
Proof. split; [apply mark_evolves|apply mark_inv|apply mark_catalog]. Qed.

Lemma safe_process c e s : safe s (process_event c e s).1.
Proof.
  destruct (process_event_cases c e s) as [->|[->| ->]]; [apply safe_refl|apply safe_mark|].
  split; [apply evolves_update|apply inv_update|by intros []]; intros k p; apply expire_status.
Qed.

Lemma safe_webhook c signature s : safe s (handleWebhook c signature s).1.
Proof.
  destruct (handleWebhook_cases c signature s) as [[e He]| ->]; [|apply safe_refl].
  rewrite (handleWebhook_accepts _ _ e) by done.
  destruct (rows (stripeWebhookEvents s) !! ev_id e) eqn:E; [apply safe_refl|].
  eapply safe_trans; [|apply safe_process].
  split; [by apply record_event_evolves|(by intros [])..].
Qed.

Lemma safe_catalog_op s s' : same_ledger s s' → (catalog_ok s → catalog_ok s') → safe s s'.
Proof.
  intros Hl Hc. split; [|by apply inv_frame|done]. unfold same_ledger, ledger in Hl.
  injection Hl as ????. by apply evolves_frame.
Qed.

(** ** Every request *)

Lemma getPlanCatalog_keeps c s : catalog_ok s → catalog_ok (getPlanCatalog c s).1.
Proof. intros Hc%(getPlanCatalog_spec c). destruct (getPlanCatalog c s) as [? [?|?]]; naive_solver. Qed.

Lemma safe_getPlanCatalog c s : safe s (getPlanCatalog c s).1.
Proof. apply safe_catalog_op; [apply getPlanCatalog_ledger|apply getPlanCatalog_keeps]. Qed.

Lemma adminUpdatePlan_ledger c role planId payload :
  preserves same_ledger (adminUpdatePlan (T:=T) c role planId payload).
Proof.
  intros s. unfold adminUpdatePlan, assertAdminRole, zoom, find_many, refreshPlanCatalog.
  destruct (assertPlanId_spec planId s) as [[e He]|(p & _ & _ & He)]; m_red;
    (destruct (bool_decide _); [|done]); simpl; rewrite He; [done|].
  destruct (pt_exists (plans s)); [|done]. simpl. destruct (find_by_id _ _); [|done].
  destruct (empty_patch payload); [done|].
  match goal with |- context [loadPlanCatalog c ?s1] =>
    pose proof (loadPlanCatalog_ledger c s1) as Hl; destruct (loadPlanCatalog c s1) as [s2 [?|?]] end;
    simpl in *; (etransitivity; [|exact Hl]); done.
Qed.

Lemma safe_adminUpdate c role planId payload s : safe s (adminUpdatePlan c role planId payload s).1.
Proof.
  apply safe_catalog_op; [apply adminUpdatePlan_ledger|]. intros Hc.
  pose proof (adminUpdatePlan_spec c role planId payload s Hc) as Hs.
  destruct (adminUpdatePlan c role planId payload s) as [s' [row|e]]; simpl; naive_solver.
Qed.

Lemma checkout_catalog c u role p s :
  catalog_ok s → catalog_ok (createCheckoutSession c u role p s).1.
Proof.
  intros Hc. pose proof (getPlanCatalog_keeps c s Hc) as Hk.
  destruct (createCheckoutSession c u role p s) as [s' [co|e]] eqn:E; simpl.
  - apply checkout_inv in E as (_ & _ & _ & s1 & ? & ? & ? & ? & ? & Hcat & _ & _ & _ & _ & _ & _ & _ & ->).
    rewrite Hcat in Hk. by destruct Hk.
  - by destruct (checkout_throw_state _ _ _ _ _ _ _ E) as [->| ->].
Qed.

Lemma safe_checkout c u role p s :
  rows (payments s) !! newPaymentId c = None → safe s (createCheckoutSession c u role p s).1.
Proof.
  intros Hfresh. split; [|by apply checkout_inv_step|apply checkout_catalog].
  pose proof (safe_evolves _ _ (safe_getPlanCatalog c s)) as Hg.
  destruct (createCheckoutSession c u role p s) as [s' [co|e]] eqn:E; simpl.
  - apply checkout_inv in E as (_ & _ & _ & s1 & ? & ? & ? & ? & ? & Hcat & _ & _ & _ & _ & _ & _ & _ & ->).
    pose proof (getPlanCatalog_ledger c s) as Hl. rewrite Hcat in Hg, Hl. unfold same_ledger, ledger in Hl.
    injection Hl as Hl _ _ _. etransitivity; [exact Hg|]. split; [|done]. simpl. intros k q Hk.
    exists q. split; [|apply row_evolves_refl]. rewrite rows_put, lookup_insert_ne; [done|].
    simpl in *. congruence.
  - by destruct (checkout_throw_state _ _ _ _ _ _ _ E) as [->| ->].
Qed.

Lemma safe_start c s : safe s (onModuleInit c s).1.
Proof.
  apply (safe_trans _ (set_catalog None s)).
  - split; [by apply evolves_frame|by apply inv_frame|]. intros [Ht _]. by split.
  - pose proof (safe_getPlanCatalog c (set_catalog None s)) as Hg.
    unfold getPlanCatalog, onModuleInit in *. m_red.
    by destruct (loadPlanCatalog c (set_catalog None s)) as [s1 [cat|e]].
Qed.

Lemma safe_step s s' : step s s' → safe s s'.
Proof.
  destruct 1 as [c u r p Hf|c u sid|c sg|c|c|c r|c r pid pl].
  - by apply safe_checkout.
  - unfold confirmCheckoutSession. m_red. destruct (stripeConfigured c); [|apply safe_refl].
    destruct (truthy (js_trim sid)); [|apply safe_refl].
    destruct (retrieved c) as [[ss|]|]; [|apply safe_refl..]. simpl.
    destruct (_ && _); [apply safe_refl|]. destruct (ss_paid ss); [apply safe_mark|apply safe_refl].
  - apply safe_webhook.
  - apply safe_start.
  - pose proof (safe_getPlanCatalog c s) as Hg. unfold getPublicPlans. m_red.
    by destruct (getPlanCatalog c s) as [? [?|?]].
  - pose proof (safe_getPlanCatalog c s) as Hg. unfold adminGetAllPlans, assertAdminRole. m_red.
    destruct (bool_decide _); [|apply safe_refl]. simpl. by destruct (getPlanCatalog c s) as [? [?|?]].
  - apply safe_adminUpdate.
Qed.

Lemma safe_later s s' : later s s' → safe s s'.
Proof.
  induction 1 as [|s1 s2 s3 Hs _ IH]; [apply safe_refl|].
  by eapply safe_trans; [apply safe_step|].
Qed.

Lemma reachable_ok s : reachable s → inv s ∧ catalog_ok s.
Proof.
  intros (s0 & [Hp Hc Ha Hk Ht] & [_ Hi Hcat]%safe_later). split; [apply Hi|apply Hcat]; split.
  - rewrite Hp. by intros k row ?%lookup_empty_Some.
  - rewrite Ha. by intros u p ?%not_elem_of_nil.
  - by left.
  - by rewrite Hk.
Qed.

(** ** A paid session reaches the user service *)

(** The user service accepts the calls of this request. *)
Definition user_service_up (c : Call) : Prop :=
  truthy (js_trim (default "" (syncToken c))) = true ∧ ∀ i, activation c i = Answered tt.

Definition plan_grant (kr : string * PaymentRow) : option (string * PlanId) :=
  p ← extractPlanFromPayment (py_planId kr.2) (py_method kr.2); Some (py_userId kr.2, p).

Lemma apply_plans_up c l : user_service_up c → ∀ i (s : St), ∃ ps,
  apply_plans c i l s = (set_activations (activations s ++ omap plan_grant l) s, Ret ps).
Proof.
  intros [Ht Ha]. induction l as [|[k row] l IH]; intros i s; simpl.
  { exists []. rewrite app_nil_r. by destruct s. }
  unfold plan_grant at 1, syncQuotaForPlan, fetch. simpl. rewrite Ha, Ht. m_red.
  destruct (extractPlanFromPayment (py_planId row) (py_method row)) as [p|]; simpl.
  - destruct (IH (S i) (set_activations (activations s ++ [(py_userId row, p)]) s)) as [ps ->].
    eexists. simpl. by rewrite <-app_assoc.
  - destruct (IH (S i) s) as [ps ->]. by eexists.
Qed.

Lemma mark_up c sid (s : St) :
  user_service_up c → select (of_session sid) (payments s) ≠ [] →
  ∃ r, markStripeSessionAsPaid c sid None s =
    (set_activations (activations s ++ omap plan_grant (select (of_session sid) (payments s)))
       (mark_paid sid s), Ret r).
Proof.
  intros Hup Hne. unfold markStripeSessionAsPaid. rewrite (bind_eval _ _ s s _ eq_refl).
  destruct (apply_plans_up c (select (of_session sid) (payments s)) Hup 0 (mark_paid sid s)) as [ps Hr].
  unfold mark_paid in *. destruct (select (of_session sid) (payments s)) as [|x l] eqn:El; [done|].
  clear Hne El. set (L := x :: l) in *. clearbody L. simpl opt_truthy. cbv iota.
  eexists. cbn [andb]. rewrite (bind_eval _ _ s s tt eq_refl). rewrite (bind_eval _ _ s _ tt eq_refl).
  by rewrite (bind_eval _ _ _ _ _ Hr).
Qed.

Lemma of_session_method sid p cents k row :
  py_method row = Some (stripe_method sid p cents) → of_session sid k row = true.
Proof.
  intros Hm. unfold of_session, stripe_method, starts_with in *. rewrite Hm.
  rewrite <-(append_assoc_s "stripe:" sid). apply prefix_app.
Qed.

(** ** Theorems *)

(** C4: a Stripe event has its effect at most once: once a well-signed event
    was handled, with whatever outcome, a later request that carries an event
    of the same id changes nothing, and returns normally if it is well signed. *)
Theorem webhook_at_most_once c signature e s c' signature' e' s' :
  accepts c signature e → later (handleWebhook c signature s).1 s' →
  constructed c' = Some e' → ev_id e' = ev_id e →
  (handleWebhook c' signature' s').1 = s' ∧
  (accepts c' signature' e' → (handleWebhook c' signature' s').2 = Ret tt).
Proof.
  intros Ha Hl Hc Hid.
  assert (Hseen : is_Some (rows (stripeWebhookEvents (handleWebhook c signature s).1) !! ev_id e)).
  { rewrite (handleWebhook_accepts _ _ e) by done.
    destruct (rows (stripeWebhookEvents s) !! ev_id e) eqn:E; simpl; [by rewrite E|].
    exists (ev_type e). apply (ev_events _ _ (safe_evolves _ _ (safe_process c e (record_event e s)))).
    simpl. by rewrite rows_put, lookup_insert_eq. }
  destruct Hseen as [ty Hty]. apply (ev_events _ _ (safe_evolves _ _ (safe_later _ _ Hl))) in Hty.
  destruct (handleWebhook_cases c' signature' s') as [[e2 He2]|Hs].
  - assert (e2 = e') as -> by (destruct He2 as (_ & _ & _ & ?); congruence).
    rewrite (handleWebhook_accepts _ _ e') by done. rewrite Hid, Hty. done.
  - split; [done|]. intros He. rewrite (handleWebhook_accepts _ _ e') by done. by rewrite Hid, Hty.
Qed.

(** Payments are never removed or rewritten: over any sequence of requests
    a stored payment keeps its buyer, plan, amount, method and date, its status
    moves only from pending to expired or to paid and from expired to paid, and
    a settled payment never changes again. *)
Theorem payments_permanent s s' k p :
  later s s' → rows (payments s) !! k = Some p →
  ∃ q, rows (payments s') !! k = Some q ∧ q = with_status (py_status q) p ∧
       status_evolves (py_status p) (py_status q) ∧ (settled (py_status p) = true → q = p).
Proof.
  intros Hl Hk. apply (ev_rows _ _ (safe_evolves _ _ (safe_later _ _ Hl))) in Hk as (q & Hq & He & Hst).
  exists q. split_and!; [done..|]. intros Hs. rewrite He, <-(settled_stays _ _ Hst Hs). by destruct p.
Qed.


(** C27: a checkout only goes through for a non-administrator who buys a
    managed plan, with a verified student address for the student plan, and
    whom the purchase rules allow; it then stores one pending payment with the
    charged amount under the session Stripe created and submits that charge,
    and nothing else of the ledger changes. *)
Theorem checkout_sound c u role p s s' co :
  createCheckoutSession c u role p s = (s', Ret co) →
  role ≠ "ADMIN"%string ∧ p ≠ unlimited ∧ (p = student → studentVerified c = Answered true) ∧
  ∃ cat snap1 snap2,
    (getPlanCatalog c s).2 = Ret cat ∧
    access1 c = Answered snap1 ∧ may_purchase cat snap1 p ∧
    access2 c = Answered snap2 ∧ co_amountDt co = charge_of cat p (upgrade_base snap2) ∧
    payments s' = put (newPaymentId c)
      (pending_row c u (co_sessionId co) p (co_amountDt co) (co_usdCents co)) (payments s) ∧
    (∃ cg, charges s' = charges s ++ [cg] ∧ cg_userId cg = u ∧ cg_planId cg = p ∧
           cg_usdCents cg = co_usdCents co) ∧
    activations s' = activations s ∧ stripeWebhookEvents s' = stripeWebhookEvents s.
Proof.
  intros (Hr & Hp & Hst & s1 & cat & snap1 & snap2 & rate & sid & Hc & H1 & Hm & H2 & _ & _ & _ & -> & ->)%checkout_inv.
  pose proof (getPlanCatalog_ledger c s) as Hl. rewrite Hc in Hl. unfold same_ledger, ledger in Hl.
  injection Hl as Hl1 Hl2 Hl3 Hl4. simpl in *.
  split_and!; [done..|]. exists cat, snap1, snap2. rewrite Hc. split_and!; try done.
  - by rewrite Hl1.
  - eexists. by rewrite Hl3.
Qed.


(** What a buyer pays: with non-negative prices a plan costs its full
    price, or on an upgrade the difference to the current plan's price (never
    below zero) up to half a hundredth of a dinar; the dollar amount is that
    charge at the exchange rate up to half a cent, and not negative. *)
Theorem charge_correct cat p cur rate :
  (∀ q, (0 <= pc_amountDt (cat q))%Q) → (0 < rate)%Q →
  let charge := charge_of cat p cur in
  (0 <= charge)%Q ∧
  match cur with
  | Some q =>
      if is_upgrade cat p cur
      then (Qabs (charge - Qmax 0 (pc_amountDt (cat p) - pc_amountDt (cat q))) <= 1 # 200)%Q
      else charge = pc_amountDt (cat p)
  | None => charge = pc_amountDt (cat p)
  end ∧
  0 <= usd_cents charge rate ∧
  (Qabs (hundredths (usd_cents charge rate) - charge * rate) <= 1 # 200)%Q.
Proof.
  intros Hpos Hrate charge.
  assert (Hc : (0 <= charge)%Q) by by apply charge_nonneg.
  split_and!; [done|by apply charge_close|..].
  - apply toFixed2_nonneg. nra.
  - apply toFixed2_close.
Qed.

(** An administrator's price change takes effect at once: in a reachable
    state, after a successful [adminUpdatePlan] the catalogue the service uses
    next, cached or reloaded, holds the row that call returned. *)
Theorem plan_update_takes_effect c role planId payload s s' row c' :
  reachable s → adminUpdatePlan c role planId payload s = (s', Ret row) →
  ∃ p cat, planId = plan_string p ∧ (getPlanCatalog c' s').2 = Ret cat ∧ cat p = row.
Proof.
  intros [_ Hc]%reachable_ok Hu. pose proof (adminUpdatePlan_spec c role planId payload s Hc) as Hs.
  rewrite Hu in Hs. destruct Hs as ([[Hempty|[Hex Hf]] Hcache] & p & -> & Hp & Hrow).
  { by rewrite Hempty, lookup_empty in Hrow. }
  destruct (full_build _ Hf) as [cat Hb]. exists p, cat. split; [done|].
  assert (Hcp : cat p = row) by (pose proof (buildPlanCatalog_inv _ _ _ Hb Hp); congruence).
  unfold getPlanCatalog, loadPlanCatalog, zoom. m_red. destruct (planCatalog s') as [cat'|] eqn:E.
  - split; [|done]. destruct (Hcache _ eq_refl) as [_ Hb']. simpl. congruence.
  - destruct (load_rows_full (catalogEnv c') _ Hex Hf) as (cat' & -> & Hb'). simpl. by split; [congruence|].
Qed.

End props.
End PaymentProps.
