(* ===== verification/PaymentWitness.v ===== *)
(** * PaymentWitness: the payment service executed

    A buyer checks out, pays and is activated; the theorems of [PaymentProps]
    applied to those runs, and two runs that show what the service does when
    the user service is down and when a session is confirmed again. *)

From Stdlib Require Import ZArith QArith Qround Qabs Qminmax Lia Ascii String.
From stdpp Require Import base list gmap strings pretty sorting relations.
From S2P Require Import Prelude Text Store Plans Payment PaymentProps.
Import Plans Payment PaymentProps.

Module PaymentWitness.

Abbreviation State := (PaymentState (gmap string)).

Definition raw (amount : Q) (rank : Z) : RawPlan :=
  {| rw_amountDt := Some amount; rw_rank := Some rank; rw_vmHoursMonthly := Some 100;
     rw_quota := Some {| rw_maxVms := Some 2; rw_maxCpu := Some 4; rw_maxRamMb := Some 4096;
                         rw_maxDiskGb := Some 50 |} |}.
Definition sample_env : EnvCatalog :=
  EnvParsed (λ p, match p with
                  | student => Some (raw 10 1) | pro => Some (raw (75 # 2) 2)
                  | enterprise => Some (raw 120 3) | unlimited => None
                  end).

Definition snapshot (p : option PlanId) : SubscriptionAccessSnapshot :=
  {| sa_activePlanId := p; sa_canPurchaseSameOrLower := false; sa_usageRatio := 1 # 2;
     sa_cycleEndsAt := None |}.
Definition paid_session : StripeSession :=
  {| ss_id := "cs_1"; ss_userId := Some "u1"%string; ss_paid := true |}.
Definition completed : StripeEvent :=
  {| ev_id := "evt_1"; ev_type := SessionCompleted; ev_session := "cs_1" |}.

Definition call (up : bool) : Call :=
  {| now := 1000; newPaymentId := "p1"; stripeConfigured := true; syncToken := Some "tok"%string;
     usdRate := None; catalogEnv := sample_env;
     access1 := Answered (snapshot (Some student)); access2 := Answered (snapshot (Some student));
     studentVerified := Answered false; createdSession := Some "cs_1"%string;
     retrieved := Some (Some paid_session); webhookSecret := Some "whsec"%string;
     constructed := Some completed;
     activation := λ _, if up then Answered tt else NetworkError |}.
Definition sig_header : option string := Some "t=1,v1=ab"%string.

Definition s0 : State :=
  {| payments := ∅; plans := {| pt_exists := false; pt_rows := ∅ |}; stripeWebhookEvents := ∅;
     planCatalog := None; charges := []; activations := [] |}.
Definition s1 : State := (createCheckoutSession (call true) "u1" "USER" pro s0).1.
Definition s2 : State := (handleWebhook (call true) sig_header s1).1.

Lemma fresh_service : init s0.
Proof. by split. Qed.
Lemma checkout_reachable : reachable s1.
Proof. exists s0. split; [apply fresh_service|]. apply rtc_once. by apply step_checkout. Qed.
Lemma webhook_reachable : reachable s2.
Proof.
  exists s0. split; [apply fresh_service|]. eapply rtc_l; [by apply (step_checkout _ (call true) "u1" "USER" pro)|].
  apply rtc_once. apply step_webhook.
Qed.
Lemma call_accepts b : accepts (call b) sig_header completed.
Proof. by split_and!. Qed.

Lemma webhook_at_most_once_witness :
  (handleWebhook (call false) sig_header s2).1 = s2 ∧
  (accepts (call false) sig_header completed → (handleWebhook (call false) sig_header s2).2 = Ret tt).
Proof.
  apply (webhook_at_most_once (call true) sig_header completed s1 (call false) sig_header completed s2);
    [by split_and!|apply rtc_refl|reflexivity|reflexivity].
Defined.

Definition paid_row : PaymentRow :=
  {| py_userId := "u1"; py_planId := Some "pro"%string; py_amount := hundredths 2750;
     py_currency := "TND"; py_status := "paid"; py_method := Some "stripe:cs_1:plan:pro:usd:8.80"%string;
     py_createdAt := 1000 |}.

Lemma payments_permanent_witness :
  ∃ q, rows (payments s2) !! "p1"%string = Some q ∧
       q = with_status (py_status q) (with_status "pending" paid_row) ∧
       status_evolves (py_status (with_status "pending" paid_row)) (py_status q) ∧
       (settled (py_status (with_status "pending" paid_row)) = true → q = with_status "pending" paid_row).
Proof.
  apply (payments_permanent s1 s2 "p1" (with_status "pending" paid_row));
    [apply rtc_once, step_webhook|by vm_compute].
Defined.


Lemma checkout_sound_witness :
  "USER"%string ≠ "ADMIN"%string ∧ pro ≠ unlimited ∧
  (pro = student → studentVerified (call true) = Answered true) ∧
  ∃ cat snap1 snap2,
    (getPlanCatalog (call true) s0).2 = Ret cat ∧
    access1 (call true) = Answered snap1 ∧ may_purchase cat snap1 pro ∧
    access2 (call true) = Answered snap2 ∧
    hundredths 2750 = charge_of cat pro (upgrade_base snap2) ∧
    payments s1 = put (newPaymentId (call true)) (pending_row (call true) "u1" "cs_1" pro (hundredths 2750) 880)
      (payments s0) ∧
    (∃ cg, charges s1 = charges s0 ++ [cg] ∧ cg_userId cg = "u1"%string ∧ cg_planId cg = pro ∧
           cg_usdCents cg = 880) ∧
    activations s1 = activations s0 ∧ stripeWebhookEvents s1 = stripeWebhookEvents s0.
Proof.
  apply (checkout_sound (call true) "u1" "USER" pro s0 s1
    {| co_sessionId := "cs_1"; co_amountDt := hundredths 2750; co_usdCents := 880 |}).
  reflexivity.
Defined.


Definition sample_catalog : Catalog := λ p,
  {| pc_amountDt := match p with student => 10 | pro => 75 # 2 | enterprise => 120 | unlimited => 0 end;
     pc_rank := match p with student => 1 | pro => 2 | enterprise => 3 | unlimited => 99 end;
     pc_vmHoursMonthly := 100; pc_maxVms := 2; pc_maxCpu := 4; pc_maxRamMb := 4096; pc_maxDiskGb := 50 |}.

Lemma charge_correct_witness :
  (0 <= charge_of sample_catalog pro (Some student))%Q ∧
  (Qabs (charge_of sample_catalog pro (Some student) - Qmax 0 ((75 # 2) - 10)) <= 1 # 200)%Q ∧
  0 <= usd_cents (charge_of sample_catalog pro (Some student)) (32 # 100) ∧
  (Qabs (hundredths (usd_cents (charge_of sample_catalog pro (Some student)) (32 # 100))
     - charge_of sample_catalog pro (Some student) * (32 # 100)) <= 1 # 200)%Q.
Proof. apply (charge_correct sample_catalog pro (Some student) (32 # 100)); [by intros []|done]. Defined.

Definition dearer : PlanPatch :=
  {| ch_amountDt := Some 50%Q; ch_rank := None; ch_vmHoursMonthly := None; ch_maxVms := None;
     ch_maxCpu := None; ch_maxRamMb := None; ch_maxDiskGb := None |}.
Definition updated_row : PlanConfigRow :=
  {| pc_amountDt := 50; pc_rank := 2; pc_vmHoursMonthly := 100; pc_maxVms := 2; pc_maxCpu := 4;
     pc_maxRamMb := 4096; pc_maxDiskGb := 50 |}.
Definition s1u : State := (adminUpdatePlan (call true) (Some "ADMIN"%string) "pro" dearer s1).1.
Lemma plan_update_witness :
  ∃ p cat, "pro"%string = plan_string p ∧ (getPlanCatalog (call true) s1u).2 = Ret cat ∧ cat p = updated_row.
Proof.
  apply (plan_update_takes_effect (call true) (Some "ADMIN"%string) "pro" dearer s1 s1u updated_row (call true));
    [apply checkout_reachable|reflexivity].
Defined.

(** ** What the service also does *)

(** The event is recorded before it is processed: when the user service is
    down the webhook fails with the payment already marked as paid, and
    Stripe's retry of that event is answered with success and does nothing, so
    the plan is never activated. *)
Example failed_activation_is_not_retried :
  let down := handleWebhook (call false) sig_header s1 in
  let retry := handleWebhook (call true) sig_header down.1 in
  is_ret down.2 = false ∧
  (py_status <$> rows (payments down.1) !! "p1"%string) = Some "paid"%string ∧
  activations down.1 = [] ∧ retry.2 = Ret tt ∧ activations retry.1 = [].
Proof. by vm_compute. Qed.

(** Confirming a paid session again hands the plan to the user service again,
    which starts from a fresh quota each time. *)
Example confirm_activates_again :
  let once := (confirmCheckoutSession (call true) "u1" "cs_1" s1).1 in
  let twice := (confirmCheckoutSession (call true) "u1" "cs_1" once).1 in
  activations once = [("u1"%string, pro)] ∧ activations twice = [("u1"%string, pro); ("u1"%string, pro)].
Proof. by vm_compute. Qed.
End PaymentWitness.
