(* ===== verification/User.v ===== *)
(** * User: accounts, subscriptions, universities and student verification

    services/user/src/user/user.service.ts and the service-to-service routes of
    user-internal.controller.ts.  The service keeps its own copy of the users
    (fed by the auth service), the quotas, the universities, the pending
    student verifications, and reads payments and VMs of its database.  Hours
    are hundredths of an hour, computed exactly. *)

From Stdlib Require Import ZArith QArith Qround Lia Ascii String.
From stdpp Require Import base list gmap strings pretty sorting.
From S2P Require Import Prelude Text Store Crypto AuthModel Vm Plans Payment.
Import Plans.

Module User.

#[local] Existing Instance Vm.VmStatus_eq_dec.
#[local] Existing Instance AuthModel.Role_eq_dec.

Abbreviation Role := AuthModel.Role.
Abbreviation ADMIN := AuthModel.ADMIN.
Abbreviation USER := AuthModel.USER.

Record UserRow := {
  u_email : string; u_googleId : option string; u_password : string; u_firstName : string;
  u_lastName : string; u_role : Role; u_isActive : bool; u_mfaEnabled : bool;
  u_mfaEnabledAt : option Z; u_studentEmailVerified : bool; u_studentEmailVerifiedAt : option Z;
  u_createdAt : Z }.

(** user_quotas, keyed by the unique userId. *)
Record QuotaRow := { q_limits : Vm.UserQuota; q_planId : option PlanId }.

Record Verification := { sv_userId : string; sv_email : string; sv_codeHash : string;
                         sv_expiresAt : Z }.
Record University := { un_name : string; un_emailDomain : string; un_isActive : bool;
                       un_createdBy : string }.

Record UserState (T : Type → Type) := {
  users : T UserRow;
  quotas : T QuotaRow;
  verifications : T Verification;
  universities : T University;
  payments : T Payment.PaymentRow;
  vms : T Vm.VirtualMachine;
  plans : PlanTable T;
  outbox : list (string * string);     (* mails sent: address and code *)
}.
Arguments users {_} _.
Arguments quotas {_} _.
Arguments verifications {_} _.
Arguments universities {_} _.
Arguments payments {_} _.
Arguments vms {_} _.
Arguments plans {_} _.
Arguments outbox {_} _.

(** One request: clock, fresh ids, random values, configuration, and whether
    the mail server accepts a message. *)
Record Call := {
  now : Z; startOfMonth : Z; newVerificationId : string; newUniversityId : string;
  randomCode : string; bcryptSalt : string; planEnv : EnvCatalog; syncTokenEnv : option string;
  mailError : option string; localeDate : Z → string }.

(** ** Pure helpers *)

Definition normalizeUniversityDomain (domain : string) : string := js_trim domain.

(** [/^[@.][a-z0-9.-]+\.[a-z]{2,}$/]: the letters after the last dot, and what
    precedes it. *)
Fixpoint take_while (p : ascii → bool) (l : list ascii) : list ascii :=
  match l with c :: l' => if p c then c :: take_while p l' else [] | [] => [] end.
Definition domain_char (c : ascii) : bool :=
  is_lower c || is_digit c || bool_decide (c = "."%char) || bool_decide (c = "-"%char).
Definition domain_format (domain : string) : bool :=
  match chars domain with
  | c :: rest =>
      (bool_decide (c = "@"%char) || bool_decide (c = "."%char)) &&
      let r := rev rest in
      let tld := take_while is_lower r in
      (2 <=? Z.of_nat (length tld)) &&
      match drop (length tld) r with
      | d :: body => bool_decide (d = "."%char) && negb (bool_decide (body = [])) && forallb domain_char body
      | [] => false
      end
  | [] => false
  end.

Definition validateUniversityDomain (domain : string) : outcome string :=
  if negb (truthy domain) then Throw (BadRequestException "Email domain is required.")
  else if negb (bool_decide (domain = toLowerCase domain))
  then Throw (BadRequestException "Email domain must be lowercase.")
  else if includes " " domain
  then Throw (BadRequestException "Email domain must not contain spaces.")
  else if negb (domain_format domain)
  then Throw (BadRequestException
    "Email domain must start with @ or . and match the expected university format.")
  else Ret domain.

Definition plan_limits (r : PlanConfigRow) : Vm.UserQuota :=
  {| Vm.uq_maxVms := pc_maxVms r; Vm.uq_maxCpu := pc_maxCpu r; Vm.uq_maxRamMb := pc_maxRamMb r;
     Vm.uq_maxDiskGb := pc_maxDiskGb r |}.
Definition UNLIMITED_QUOTA : Vm.UserQuota := plan_limits UNLIMITED_PLAN_CONFIG.

Definition resolvePlanFromQuota (quota : option Vm.UserQuota) (catalog : Catalog) : option PlanId :=
  match quota with
  | None => None
  | Some q =>
      let reaches p := (pc_maxVms (catalog p) <=? Vm.uq_maxVms q) &&
                       (pc_maxCpu (catalog p) <=? Vm.uq_maxCpu q) in
      if (pc_maxVms (catalog unlimited) <=? Vm.uq_maxVms q)
         || (pc_maxCpu (catalog unlimited) <=? Vm.uq_maxCpu q) then Some unlimited
      else if reaches enterprise then Some enterprise
      else if reaches pro then Some pro
      else if reaches student then Some student
      else None
  end.

Definition resolvePlanForUser (role : Role) (quota : option Vm.UserQuota) (catalog : Catalog)
    : option PlanId :=
  match role with
  | AuthModel.ADMIN => Some unlimited
  | AuthModel.USER => resolvePlanFromQuota quota catalog
  end.

Definition getBillingCycleEnd (startedAt : Z) : Z := startedAt + 30 * 24 * 60 * 60 * 1000.

Definition isFullPricePayment (p : Payment.PaymentRow) (catalog : Catalog) : bool :=
  match extractPlanFromPayment (Payment.py_planId p) (Payment.py_method p) with
  | None => false
  | Some unlimited => true
  | Some planId =>
      Qle_bool (hundredths (toFixed2 (pc_amountDt (catalog planId) - (1 # 100)))) (Payment.py_amount p)
  end.

(** The span of one VM inside the cycle, in ms. *)
Definition vm_span (cycleStart cycleEnd : Z) (v : Vm.VirtualMachine) : Z :=
  let started := if cycleStart <? Vm.vm_createdAt v then Vm.vm_createdAt v else cycleStart in
  let nonRunningEnd := default cycleEnd (Vm.vm_stoppedAt v) in
  let ended := if bool_decide (Vm.vm_status v = Vm.RUNNING) then cycleEnd
               else if nonRunningEnd <? cycleEnd then nonRunningEnd else cycleEnd in
  if ended <=? started then 0 else ended - started.
Definition MS_PER_HOUR : positive := 3600000.
(** [Number(totalHours.toFixed(2))], in hundredths of an hour. *)
Definition estimateVmHoursUsed (l : list Vm.VirtualMachine) (cycleStart cycleEnd : Z) : Z :=
  toFixed2 (sumZ (vm_span cycleStart cycleEnd) l # MS_PER_HOUR).

Definition with_student_verified (t : Z) (u : UserRow) : UserRow :=
  {| u_email := u_email u; u_googleId := u_googleId u; u_password := u_password u;
     u_firstName := u_firstName u; u_lastName := u_lastName u; u_role := u_role u;
     u_isActive := u_isActive u; u_mfaEnabled := u_mfaEnabled u; u_mfaEnabledAt := u_mfaEnabledAt u;
     u_studentEmailVerified := true; u_studentEmailVerifiedAt := Some t; u_createdAt := u_createdAt u |}.
Definition with_password (h : string) (u : UserRow) : UserRow :=
  {| u_email := u_email u; u_googleId := u_googleId u; u_password := h;
     u_firstName := u_firstName u; u_lastName := u_lastName u; u_role := u_role u;
     u_isActive := u_isActive u; u_mfaEnabled := u_mfaEnabled u; u_mfaEnabledAt := u_mfaEnabledAt u;
     u_studentEmailVerified := u_studentEmailVerified u;
     u_studentEmailVerifiedAt := u_studentEmailVerifiedAt u; u_createdAt := u_createdAt u |}.
Definition with_role_active (r : option Role) (a : option bool) (u : UserRow) : UserRow :=
  {| u_email := u_email u; u_googleId := u_googleId u; u_password := u_password u;
     u_firstName := u_firstName u; u_lastName := u_lastName u; u_role := default (u_role u) r;
     u_isActive := default (u_isActive u) a; u_mfaEnabled := u_mfaEnabled u;
     u_mfaEnabledAt := u_mfaEnabledAt u; u_studentEmailVerified := u_studentEmailVerified u;
     u_studentEmailVerifiedAt := u_studentEmailVerifiedAt u; u_createdAt := u_createdAt u |}.

Record UpdateProfileDto := { up_firstName : option string; up_lastName : option string;
                             up_email : option string }.
Definition with_profile (d : UpdateProfileDto) (u : UserRow) : UserRow :=
  {| u_email := default (u_email u) (up_email d); u_googleId := u_googleId u; u_password := u_password u;
     u_firstName := default (u_firstName u) (up_firstName d);
     u_lastName := default (u_lastName u) (up_lastName d); u_role := u_role u;
     u_isActive := u_isActive u; u_mfaEnabled := u_mfaEnabled u; u_mfaEnabledAt := u_mfaEnabledAt u;
     u_studentEmailVerified := u_studentEmailVerified u;
     u_studentEmailVerifiedAt := u_studentEmailVerifiedAt u; u_createdAt := u_createdAt u |}.

(** The body of POST /users/internal/sync; [su_googleId] is [None] when the
    field is absent and [Some None] when it is null. *)
Record SyncUserPayload := {
  su_id : string; su_email : string; su_googleId : option (option string); su_firstName : string;
  su_lastName : string; su_role : option string; su_isActive : option bool;
  su_mfaEnabled : option bool; su_mfaEnabledAt : option Z }.

Definition sync_role (p : SyncUserPayload) : Role :=
  if bool_decide (su_role p = Some "ADMIN"%string) then ADMIN else USER.
Definition sync_update (p : SyncUserPayload) (u : UserRow) : UserRow :=
  {| u_email := su_email p; u_googleId := default (u_googleId u) (su_googleId p);
     u_password := u_password u; u_firstName := su_firstName p; u_lastName := su_lastName p;
     u_role := sync_role p; u_isActive := default true (su_isActive p);
     u_mfaEnabled := default false (su_mfaEnabled p); u_mfaEnabledAt := su_mfaEnabledAt p;
     u_studentEmailVerified := u_studentEmailVerified u;
     u_studentEmailVerifiedAt := u_studentEmailVerifiedAt u; u_createdAt := u_createdAt u |}.
Definition sync_create (t : Z) (p : SyncUserPayload) : UserRow :=
  {| u_email := su_email p; u_googleId := default None (su_googleId p) ≫= nonempty; u_password := "";
     u_firstName := su_firstName p; u_lastName := su_lastName p; u_role := sync_role p;
     u_isActive := default true (su_isActive p); u_mfaEnabled := default false (su_mfaEnabled p);
     u_mfaEnabledAt := su_mfaEnabledAt p; u_studentEmailVerified := false;
     u_studentEmailVerifiedAt := None; u_createdAt := t |}.

Record Subscription := {
  sb_planId : PlanId; sb_cycleStartedAt : Z; sb_cycleEndsAt : Z; sb_vmHoursIncluded : Z;
  sb_vmHoursUsed : Z; sb_vmHoursRemaining : Z; sb_canRenewSamePlan : bool }.

(** The subscription block of a profile.  Hours used and remaining are in
    hundredths, [vmHoursIncluded] in hours; the unlock ratio is 0.9. *)
Definition subscription_of (t : Z) (catalog : Catalog) (planId : PlanId) (cycleStartedAt : Z)
    (l : list Vm.VirtualMachine) : Subscription :=
  let cycleEndsAt := getBillingCycleEnd cycleStartedAt in
  let included := pc_vmHoursMonthly (catalog planId) in
  let used := estimateVmHoursUsed l cycleStartedAt (if t <? cycleEndsAt then t else cycleEndsAt) in
  {| sb_planId := planId; sb_cycleStartedAt := cycleStartedAt; sb_cycleEndsAt := cycleEndsAt;
     sb_vmHoursIncluded := included; sb_vmHoursUsed := used;
     sb_vmHoursRemaining := if bool_decide (planId = unlimited) then 100 * (2 ^ 53 - 1)
                            else Z.max 0 (100 * included - used);
     sb_canRenewSamePlan :=
       if bool_decide (planId = unlimited) then false
       else (cycleEndsAt <=? t) || ((0 <? included) && (90 * included <=? used)) |}.

Record Usage := { us_vmCount : Z; us_cpu : Z; us_ramMb : Z; us_diskGb : Z }.
Record Profile := { pr_user : UserRow; pr_quota : option Vm.UserQuota; pr_usage : option Usage;
                    pr_subscription : option Subscription }.

(** The password is left out of what is returned. *)
Definition excludePassword (u : UserRow) : UserRow := with_password "" u.

(** [localeDate] renders the date the payment service shows to the buyer. *)
Definition subscriptionAccess (localeDate : Z → string) (sub : option Subscription) : Payment.SubscriptionAccessSnapshot :=
  match sub with
  | None => {| Payment.sa_activePlanId := None; Payment.sa_canPurchaseSameOrLower := true;
               Payment.sa_usageRatio := 0; Payment.sa_cycleEndsAt := None |}
  | Some sb =>
      if bool_decide (sb_planId sb = unlimited)
      then {| Payment.sa_activePlanId := Some unlimited; Payment.sa_canPurchaseSameOrLower := false;
              Payment.sa_usageRatio := 1; Payment.sa_cycleEndsAt := None |}
      else {| Payment.sa_activePlanId := Some (sb_planId sb);
              Payment.sa_canPurchaseSameOrLower := sb_canRenewSamePlan sb;
              Payment.sa_usageRatio :=
                if 0 <? sb_vmHoursIncluded sb
                then js_round (hundredths (sb_vmHoursUsed sb) / inject_Z (sb_vmHoursIncluded sb) * 10000) # 10000
                else 0;
              Payment.sa_cycleEndsAt := Some (localeDate (sb_cycleEndsAt sb)) |}
  end.

(** ** The service *)

Record CreateUniversityDto := { cu_name : string; cu_emailDomain : string }.
Record UpdateUniversityDto := { uu_name : option string; uu_emailDomain : option string }.
Record AdminUpdateUserDto := { au_role : option Role; au_isActive : option bool }.

Record QuotaSnapshot := { qs_hasActiveSubscription : bool; qs_planId : option PlanId;
                          qs_quota : option Vm.UserQuota }.

Section user.
Context {T : Type → Type} `{Database T} `{Hashing} `{Bcrypt}.
Abbreviation St := (UserState T).

Definition set_users (x : T UserRow) (s : St) : St :=
  {| users := x; quotas := quotas s; verifications := verifications s; universities := universities s;
     payments := payments s; vms := vms s; plans := plans s; outbox := outbox s |}.
Definition set_quotas (x : T QuotaRow) (s : St) : St :=
  {| users := users s; quotas := x; verifications := verifications s; universities := universities s;
     payments := payments s; vms := vms s; plans := plans s; outbox := outbox s |}.
Definition set_verifications (x : T Verification) (s : St) : St :=
  {| users := users s; quotas := quotas s; verifications := x; universities := universities s;
     payments := payments s; vms := vms s; plans := plans s; outbox := outbox s |}.
Definition set_universities (x : T University) (s : St) : St :=
  {| users := users s; quotas := quotas s; verifications := verifications s; universities := x;
     payments := payments s; vms := vms s; plans := plans s; outbox := outbox s |}.
Definition set_plans (x : PlanTable T) (s : St) : St :=
  {| users := users s; quotas := quotas s; verifications := verifications s; universities := universities s;
     payments := payments s; vms := vms s; plans := x; outbox := outbox s |}.
Definition set_outbox (x : list (string * string)) (s : St) : St :=
  {| users := users s; quotas := quotas s; verifications := verifications s; universities := universities s;
     payments := payments s; vms := vms s; plans := plans s; outbox := x |}.

(** The unique indexes on email and googleId. *)
Definition user_clash (id : string) (u : UserRow) (k : string) (w : UserRow) : bool :=
  negb (bool_decide (k = id)) &&
  (bool_decide (u_email w = u_email u) ||
   match u_googleId u with Some g => bool_decide (u_googleId w = Some g) | None => false end).
(** INSERT or UPDATE of a user row. *)
Definition write_user (id : string) (u : UserRow) : M St unit := λ s,
  match find_first (user_clash id u) (users s) with
  | Some _ => (s, Throw (PrismaError "P2002"))
  | None => (set_users (put id u (users s)) s, Ret tt)
  end.
(** [user.update]: P2025 when the row is missing. *)
Definition update_user (id : string) (f : UserRow → UserRow) : M St UserRow :=
  row ← gets (λ s, find_by_id id (users s));
  match row with
  | None => throw (PrismaError "P2025")
  | Some u => write_user id (f u);; mret (f u)
  end.

(** The unique indexes on name and emailDomain. *)
Definition university_clash (id name emailDomain : string) (k : string) (w : University) : bool :=
  negb (bool_decide (k = id)) &&
  (bool_decide (un_name w = name) || bool_decide (un_emailDomain w = emailDomain)).
Definition write_university (id : string) (u : University) : M St University := λ s,
  match find_first (university_clash id (un_name u) (un_emailDomain u)) (universities s) with
  | Some _ => (s, Throw (PrismaError "P2002"))
  | None => (set_universities (put id u (universities s)) s, Ret u)
  end.

Definition getPlanCatalog (c : Call) : M St Catalog := zoom plans set_plans (load_rows (planEnv c)).

Definition assertAdminUser (adminId : string) : M St unit :=
  admin ← gets (λ s, find_by_id adminId (users s));
  throw_if (negb (bool_decide (u_role <$> admin = Some ADMIN))) (ForbiddenException "Admin role required").

Definition assertAdminRole (actorRole : option string) : M St unit :=
  throw_if (negb (bool_decide (actorRole = Some "ADMIN"%string))) (ForbiddenException "Admin role required").

Definition find_user (id : string) : M St UserRow :=
  u ← gets (λ s, find_by_id id (users s));
  match u with Some u => mret u | None => throw (NotFoundException "User not found") end.

Definition lift {A} (o : outcome A) : M St A := λ s, (s, o).

(** *** Student verification *)

Definition isStudentEmailAsync (email : string) : M St bool :=
  gets (λ s, existsb (λ ku, ends_with (toLowerCase (un_emailDomain ku.2)) (toLowerCase email))
               (select (λ _ un, un_isActive un) (universities s))).

Definition sendStudentVerificationCode (c : Call) (to_ code : string) : M St unit :=
  match mailError c with
  | Some m => throw (InternalServerErrorException ("Failed to send verification email: " +:+ m))
  | None => modify (λ s, set_outbox (outbox s ++ [(to_, code)]) s)
  end.

Definition requestStudentEmailVerification (c : Call) (userId : string) : M St string :=
  user ← find_user userId;
  recognised ← isStudentEmailAsync (u_email user);
  throw_if (negb recognised) (BadRequestException
    "Your email address does not belong to a recognised student domain.");;
  if u_studentEmailVerified user then mret "Student email is already verified."
  else
    let code := randomCode c in
    modify (λ s, set_verifications
      (delete_where (λ _ v, bool_decide (sv_userId v = userId)) (verifications s)) s);;
    modify (λ s, set_verifications (put (newVerificationId c)
      {| sv_userId := userId; sv_email := u_email user; sv_codeHash := sha256_hex code;
         sv_expiresAt := now c + 15 * 60 * 1000 |} (verifications s)) s);;
    sendStudentVerificationCode c (u_email user) code;;
    mret "Verification code sent to your email.".

Definition confirmStudentEmailVerification (c : Call) (userId code : string) : M St string :=
  throw_if (negb (truthy code)) (BadRequestException "Verification code is required.");;
  let codeHash := sha256_hex (js_trim code) in
  record ← gets (λ s, find_first (λ _ v, bool_decide (sv_userId v = userId)
                                        && bool_decide (sv_codeHash v = codeHash)) (verifications s));
  match record with
  | None => throw (BadRequestException "Invalid verification code.")
  | Some (id, v) =>
      if sv_expiresAt v <? now c then
        modify (λ s, set_verifications (delete_where (λ k _, bool_decide (k = id)) (verifications s)) s);;
        throw (BadRequestException "Verification code has expired. Please request a new one.")
      else
        update_user userId (with_student_verified (now c));;
        modify (λ s, set_verifications
          (delete_where (λ _ v, bool_decide (sv_userId v = userId)) (verifications s)) s);;
        mret "Student email verified successfully."
  end.

Definition getStudentVerificationStatus (userId : string) : M St (bool * option Z) :=
  u ← find_user userId;
  mret (u_studentEmailVerified u, u_studentEmailVerifiedAt u).

(** *** Universities *)

(** The order by name is left to the engine. *)
Definition listUniversities (adminId : string) : M St (list (string * University)) :=
  assertAdminUser adminId;;
  gets (λ s, select (λ _ _, true) (universities s)).

Definition university_exists : exn := ConflictException "University name or email domain already exists.".

Definition createUniversity (c : Call) (dto : CreateUniversityDto) (adminId : string) : M St University :=
  assertAdminUser adminId;;
  let name := js_trim (cu_name dto) in
  emailDomain ← lift (validateUniversityDomain (normalizeUniversityDomain (cu_emailDomain dto)));
  existing ← gets (λ s, find_first (λ _ w, bool_decide (un_name w = name)
                                         || bool_decide (un_emailDomain w = emailDomain)) (universities s));
  match existing with
  | Some _ => throw university_exists
  | None => write_university (newUniversityId c)
              {| un_name := name; un_emailDomain := emailDomain; un_isActive := true; un_createdBy := adminId |}
  end.

Definition find_university (id : string) : M St University :=
  u ← gets (λ s, find_by_id id (universities s));
  match u with Some u => mret u | None => throw (NotFoundException "University not found") end.

Definition updateUniversity (id : string) (dto : UpdateUniversityDto) (adminId : string) : M St University :=
  assertAdminUser adminId;;
  university ← find_university id;
  let name := match uu_name dto with Some n => js_trim n | None => un_name university end in
  emailDomain ← match uu_emailDomain dto with
                | Some d => lift (validateUniversityDomain (normalizeUniversityDomain d))
                | None => mret (un_emailDomain university)
                end;
  duplicate ← gets (λ s, find_first (university_clash id name emailDomain) (universities s));
  match duplicate with
  | Some _ => throw university_exists
  | None => write_university id
              {| un_name := name; un_emailDomain := emailDomain; un_isActive := un_isActive university;
                 un_createdBy := un_createdBy university |}
  end.

Definition deleteUniversity (id adminId : string) : M St string :=
  assertAdminUser adminId;;
  university ← find_university id;
  verifiedStudent ← gets (λ s, find_first (λ _ u, u_studentEmailVerified u &&
      ends_with (toLowerCase (un_emailDomain university)) (toLowerCase (u_email u))) (users s));
  match verifiedStudent with
  | Some _ => throw (ConflictException
      "This university cannot be deleted because verified students still use this email domain.")
  | None =>
      modify (λ s, set_universities (delete_where (λ k _, bool_decide (k = id)) (universities s)) s);;
      mret "University deleted successfully"
  end.

Definition toggleUniversityActive (id adminId : string) : M St University :=
  assertAdminUser adminId;;
  university ← find_university id;
  write_university id
    {| un_name := un_name university; un_emailDomain := un_emailDomain university;
       un_isActive := negb (un_isActive university); un_createdBy := un_createdBy university |}.

(** *** Quotas and the copy of the accounts *)

(** INSERT or UPDATE of a quota row, which references its user. *)
Definition write_quota (userId : string) (q : QuotaRow) : M St QuotaRow := λ s,
  match find_by_id userId (quotas s), find_by_id userId (users s) with
  | None, None => (s, Throw (PrismaError "P2003"))
  | _, _ => (set_quotas (put userId q (quotas s)) s, Ret q)
  end.
(** [None] stands for an id the catalogue does not have: reading its limits
    throws. *)
Definition upsertQuota (c : Call) (userId : string) (planId : option PlanId) : M St QuotaRow :=
  catalog ← getPlanCatalog c;
  match planId with
  | None => throw (JsError "TypeError")
  | Some p => write_quota userId {| q_limits := plan_limits (catalog p); q_planId := Some p |}
  end.

Definition syncFromAuth (c : Call) (payload : SyncUserPayload) : M St UserRow :=
  existing ← gets (λ s, find_by_id (su_id payload) (users s));
  let user := match existing with
              | Some u => sync_update payload u
              | None => sync_create (now c) payload
              end in
  write_user (su_id payload) user;;
  when (bool_decide (sync_role payload = ADMIN)) (upsertQuota c (su_id payload) (Some unlimited);; mret tt);;
  mret user.

(** The first 20 settled payments, newest first. *)
Definition settled_payments (userId : string) (s : St) : list Payment.PaymentRow :=
  take 20 ((select_desc Payment.py_createdAt
    (λ _ p, bool_decide (Payment.py_userId p = userId) && Payment.settled (Payment.py_status p))
    (payments s)).*2).

Definition getLatestBillingCycleStart (c : Call) (userId : string) : M St (option Z) :=
  l ← gets (settled_payments userId);
  match l with
  | [] => mret None
  | newest :: _ =>
      catalog ← getPlanCatalog c;
      mret (Some (Payment.py_createdAt
        (default newest (snd <$> list_find (λ p, isFullPricePayment p catalog = true) l))))
  end.

Definition vms_of (userId : string) (s : St) : list Vm.VirtualMachine :=
  (select (λ _ v, bool_decide (Vm.vm_userId v = userId)) (vms s)).*2.
Definition live_vm (userId : string) (_ : string) (v : Vm.VirtualMachine) : bool :=
  bool_decide (Vm.vm_userId v = userId) && negb (bool_decide (Vm.vm_status v = Vm.DELETED)).

Definition effective_quota (u : UserRow) (q : option QuotaRow) : option Vm.UserQuota :=
  if bool_decide (u_role u = ADMIN) then Some UNLIMITED_QUOTA else q_limits <$> q.

Definition getProfile (c : Call) (userId : string) : M St Profile :=
  user ← gets (λ s, find_by_id userId (users s));
  quota ← gets (λ s, find_by_id userId (quotas s));
  usage ← gets (λ s, {| us_vmCount := count_where (live_vm userId) (vms s);
                        us_cpu := sum_where Vm.vm_cpu (live_vm userId) (vms s);
                        us_ramMb := sum_where Vm.vm_ramMb (live_vm userId) (vms s);
                        us_diskGb := sum_where Vm.vm_diskGb (live_vm userId) (vms s) |});
  vmsForHours ← gets (vms_of userId);
  cycleStartOverride ← getLatestBillingCycleStart c userId;
  match user with
  | None => throw (NotFoundException "User not found")
  | Some u =>
      catalog ← getPlanCatalog c;
      mret {| pr_user := excludePassword u; pr_quota := effective_quota u quota; pr_usage := Some usage;
              pr_subscription :=
                planId ← resolvePlanForUser (u_role u) (q_limits <$> quota) catalog;
                Some (subscription_of (now c) catalog planId
                        (default (u_createdAt u) cycleStartOverride) vmsForHours) |}
  end.

Definition getProfileSummary (c : Call) (userId : string) : M St Profile :=
  u ← find_user userId;
  quota ← gets (λ s, find_by_id userId (quotas s));
  catalog ← getPlanCatalog c;
  subscription ← match resolvePlanForUser (u_role u) (q_limits <$> quota) catalog with
                 | None => mret None
                 | Some planId =>
                     start ← getLatestBillingCycleStart c userId;
                     vmsForHours ← gets (vms_of userId);
                     mret (Some (subscription_of (now c) catalog planId
                                   (default (u_createdAt u) start) vmsForHours))
                 end;
  mret {| pr_user := excludePassword u; pr_quota := effective_quota u quota; pr_usage := None;
          pr_subscription := subscription |}.

Definition getInternalSubscriptionAccess (c : Call) (userId : string)
    : M St (Payment.SubscriptionAccessSnapshot * option Subscription) :=
  profile ← getProfile c userId;
  mret (subscriptionAccess (localeDate c) (pr_subscription profile), pr_subscription profile).

Definition getInternalQuotaSnapshot (userId : string) : M St QuotaSnapshot :=
  user ← find_user userId;
  quota ← gets (λ s, find_by_id userId (quotas s));
  if bool_decide (u_role user = ADMIN)
  then mret {| qs_hasActiveSubscription := true; qs_planId := Some unlimited;
               qs_quota := Some UNLIMITED_QUOTA |}
  else match quota with
       | None => mret {| qs_hasActiveSubscription := false; qs_planId := None; qs_quota := None |}
       | Some q => mret {| qs_hasActiveSubscription := bool_decide (is_Some (q_planId q));
                           qs_planId := q_planId q; qs_quota := Some (q_limits q) |}
       end.

Definition activateSubscriptionPlanFromInternal (c : Call) (userId planId : string)
    : M St (option PlanId * QuotaRow) :=
  user ← find_user userId;
  let finalPlan := if bool_decide (u_role user = ADMIN) then Some unlimited else parse_plan planId in
  quota ← upsertQuota c userId finalPlan;
  mret (finalPlan, quota).

(** *** Accounts *)

Definition updateProfile (userId : string) (dto : UpdateProfileDto) : M St UserRow :=
  when (opt_truthy (up_email dto))
    (existing ← gets (λ s, find_first (λ _ u, bool_decide (Some (u_email u) = up_email dto)) (users s));
     match existing with
     | Some (k, _) => throw_if (negb (bool_decide (k = userId))) (ConflictException "Email already in use")
     | None => mret tt
     end);;
  user ← update_user userId (with_profile dto);
  mret (excludePassword user).

Definition changePassword (c : Call) (userId oldPassword newPassword : string) : M St string :=
  user ← find_user userId;
  throw_if (negb (bcrypt_compare oldPassword (u_password user)))
    (BadRequestException "Current password is incorrect");;
  update_user userId (with_password (bcrypt_hash newPassword (bcryptSalt c)));;
  mret "Password changed successfully".

Definition search_where (search : option string) (_ : string) (u : UserRow) : bool :=
  if opt_truthy search
  then existsb (λ f, Vm.contains_insensitive (default "" search) (Some f))
         [u_email u; u_firstName u; u_lastName u]
  else true.

Record UserPage := { pg_data : list (string * UserRow * option QuotaRow); pg_total : Z; pg_page : Z;
                     pg_limit : Z; pg_totalPages : option Z }.
Definition user_page (page limit : Z) (search : option string) (s : St)
    : outcome (list (string * UserRow * option QuotaRow)) :=
  match Vm.page_of ((page - 1) * limit) limit (select_desc u_createdAt (search_where search) (users s)) with
  | Ret l => Ret ((λ ku, (ku.1, excludePassword ku.2, find_by_id ku.1 (quotas s))) <$> l)
  | Throw e => Throw e
  end.

Definition findAll (page limit : Z) (search actorRole : option string) : M St UserPage :=
  assertAdminRole actorRole;;
  data ← (λ s, (s, user_page page limit search s));
  total ← gets (λ s, count_where (search_where search) (users s));
  mret {| pg_data := data; pg_total := total; pg_page := page; pg_limit := limit;
          pg_totalPages := Vm.total_pages total limit |}.

(** The SSH keys of the account are left out. *)
Definition findById (id : string) (actorRole : option string)
    : M St (UserRow * option QuotaRow * list Vm.VirtualMachine) :=
  assertAdminRole actorRole;;
  u ← find_user id;
  q ← gets (λ s, find_by_id id (quotas s));
  vs ← gets (vms_of id);
  mret (excludePassword u, q, vs).

Definition adminUpdateUser (c : Call) (id : string) (dto : AdminUpdateUserDto)
    (actorRole actorUserId : option string) : M St UserRow :=
  assertAdminRole actorRole;;
  user ← find_user id;
  let self := bool_decide (actorUserId = Some id) in
  throw_if (self && bool_decide (au_role dto = Some USER))
    (ForbiddenException "You cannot remove your own admin role");;
  throw_if (self && bool_decide (au_isActive dto = Some false))
    (ForbiddenException "You cannot deactivate your own account");;
  updated ← update_user id (with_role_active (au_role dto) (au_isActive dto));
  when (bool_decide (au_role dto = Some ADMIN)) (upsertQuota c id (Some unlimited);; mret tt);;
  when (bool_decide (u_role user = ADMIN) && bool_decide (au_role dto = Some USER))
    (upsertQuota c id (Some student);; mret tt);;
  mret (excludePassword updated).

Definition setUserSubscription (c : Call) (id : string) (planId : PlanId)
    (actorRole actorUserId : option string) : M St (PlanId * QuotaRow) :=
  assertAdminRole actorRole;;
  user ← find_user id;
  let admin := bool_decide (u_role user = ADMIN) in
  throw_if (bool_decide (actorUserId = Some id) && admin && negb (bool_decide (planId = unlimited)))
    (ForbiddenException "Admin accounts must remain on unlimited subscription");;
  let finalPlan := if admin then unlimited else planId in
  quota ← upsertQuota c id (Some finalPlan);
  mret (finalPlan, quota).

(** Payments are always reported as none ([billingSource: "quota_only"]). *)
Definition getUserBillingSummary (c : Call) (id : string) (actorRole : option string)
    : M St (UserRow * option PlanId) :=
  assertAdminRole actorRole;;
  catalog ← getPlanCatalog c;
  u ← find_user id;
  q ← gets (λ s, find_by_id id (quotas s));
  mret (excludePassword u, resolvePlanForUser (u_role u) (q_limits <$> q) catalog).

Definition getAdminBillingOverview (c : Call) (actorRole : option string) (page limit : Z)
    (search : option string) : M St (Z * list (string * UserRow * option PlanId)) :=
  assertAdminRole actorRole;;
  catalog ← getPlanCatalog c;
  data ← (λ s, (s, user_page page limit search s));
  totalUsers ← gets (λ s, count_where (λ _ _, true) (users s));
  mret (totalUsers, (λ kuq, (kuq.1, resolvePlanForUser (u_role kuq.1.2) (q_limits <$> kuq.2) catalog)) <$> data).

(** [user.delete], with the rows that reference the account (ON DELETE CASCADE). *)
Definition deleteUser (id : string) (actorRole : option string) : M St string :=
  assertAdminRole actorRole;;
  find_user id;;
  modify (λ s,
    {| users := delete_where (λ k _, bool_decide (k = id)) (users s);
       quotas := delete_where (λ k _, bool_decide (k = id)) (quotas s);
       verifications := delete_where (λ _ v, bool_decide (sv_userId v = id)) (verifications s);
       universities := universities s;
       payments := delete_where (λ _ p, bool_decide (Payment.py_userId p = id)) (payments s);
       vms := delete_where (λ _ v, bool_decide (Vm.vm_userId v = id)) (vms s);
       plans := plans s; outbox := outbox s |});;
  mret "User deleted successfully".

Definition getStats (c : Call) (actorRole : option string) : M St (Z * Z * Z) :=
  assertAdminRole actorRole;;
  total ← gets (λ s, count_where (λ _ _, true) (users s));
  active ← gets (λ s, count_where (λ _ u, u_isActive u) (users s));
  newThisMonth ← gets (λ s, count_where (λ _ u, startOfMonth c <=? u_createdAt u) (users s));
  mret (total, active, newThisMonth).

(** ** The service-to-service routes *)

Definition assertSyncToken (c : Call) (syncToken : option string) : M St unit :=
  let expected := js_trim (default "" (syncTokenEnv c)) in
  throw_if (negb (truthy expected) || negb (opt_truthy syncToken)
            || negb (bool_decide (Some expected = syncToken)))
    (UnauthorizedException "Invalid sync token").

Definition syncUser (c : Call) (syncToken : option string) (payload : SyncUserPayload) : M St string :=
  assertSyncToken c syncToken;;
  throw_if (negb (truthy (su_id payload)) || negb (truthy (su_email payload)))
    (BadRequestException "Missing required sync payload fields");;
  syncFromAuth c payload;;
  mret (su_id payload).

Definition getSubscriptionAccess (c : Call) (syncToken : option string) (userId : string)
    : M St (Payment.SubscriptionAccessSnapshot * option Subscription) :=
  assertSyncToken c syncToken;;
  throw_if (negb (truthy userId)) (BadRequestException "Missing userId");;
  getInternalSubscriptionAccess c userId.

Definition getQuotaSnapshot (c : Call) (syncToken : option string) (userId : string) : M St QuotaSnapshot :=
  assertSyncToken c syncToken;;
  throw_if (negb (truthy userId)) (BadRequestException "Missing userId");;
  getInternalQuotaSnapshot userId.

Definition getStudentVerification (c : Call) (syncToken : option string) (userId : string)
    : M St (bool * option Z) :=
  assertSyncToken c syncToken;;
  throw_if (negb (truthy userId)) (BadRequestException "Missing userId");;
  getStudentVerificationStatus userId.

Definition activateSubscription (c : Call) (syncToken : option string) (userId planId : string)
    : M St (option PlanId * QuotaRow) :=
  assertSyncToken c syncToken;;
  throw_if (negb (truthy userId) || negb (truthy planId)) (BadRequestException "Missing userId or planId");;
  activateSubscriptionPlanFromInternal c userId planId.
End user.
End User.
