(* ===== verification/UserProps.v ===== *)
(** * UserProps: what the user service guarantees

    The service's requests as one operation type, the integrity of the
    directory over any sequence of them, the student verification, the quota a
    subscription grants and what the VM and payment services then see. *)

From Stdlib Require Import ZArith QArith Qround Qabs Lqa Lia Ascii String.
From stdpp Require Import base list gmap strings pretty sorting relations.
From S2P Require Import Prelude Text Store Crypto AuthModel Vm Plans Payment User PaymentProps.
Import Plans User.

Module UserProps.

#[local] Existing Instance Vm.VmStatus_eq_dec.
#[local] Existing Instance AuthModel.Role_eq_dec.

(** ** The requests *)

Inductive op :=
| RequestStudent (c : Call) (userId : string)
| ConfirmStudent (c : Call) (userId code : string)
| CreateUniversity (c : Call) (dto : CreateUniversityDto) (adminId : string)
| UpdateUniversity (id : string) (dto : UpdateUniversityDto) (adminId : string)
| DeleteUniversity (id adminId : string)
| ToggleUniversity (id adminId : string)
| SyncUser (c : Call) (token : option string) (payload : SyncUserPayload)
| Activate (c : Call) (token : option string) (userId planId : string)
| Access (c : Call) (token : option string) (userId : string)
| Profile_ (c : Call) (userId : string)
| Summary (c : Call) (userId : string)
| UpdateProfile (userId : string) (dto : UpdateProfileDto)
| ChangePassword (c : Call) (userId oldPassword newPassword : string)
| AdminUpdate (c : Call) (id : string) (dto : AdminUpdateUserDto) (role actor : option string)
| SetSubscription (c : Call) (id : string) (planId : PlanId) (role actor : option string)
| Billing (c : Call) (id : string) (role : option string)
| Overview (c : Call) (role : option string) (page limit : Z) (search : option string)
| DeleteUser (id : string) (role : option string).

Create HintDb calm.

Section props.
Context {T : Type → Type} `{DatabaseLaws T} `{Hashing} `{Bcrypt}.
Abbreviation St := (UserState T).

Definition run (o : op) (s : St) : St :=
  match o with
  | RequestStudent c u => (requestStudentEmailVerification c u s).1
  | ConfirmStudent c u code => (confirmStudentEmailVerification c u code s).1
  | CreateUniversity c dto a => (createUniversity c dto a s).1
  | UpdateUniversity id dto a => (updateUniversity id dto a s).1
  | DeleteUniversity id a => (deleteUniversity id a s).1
  | ToggleUniversity id a => (toggleUniversityActive id a s).1
  | SyncUser c tok p => (syncUser c tok p s).1
  | Activate c tok u p => (activateSubscription c tok u p s).1
  | Access c tok u => (getSubscriptionAccess c tok u s).1
  | Profile_ c u => (getProfile c u s).1
  | Summary c u => (getProfileSummary c u s).1
  | UpdateProfile u dto => (updateProfile u dto s).1
  | ChangePassword c u a b => (changePassword c u a b s).1
  | AdminUpdate c id dto r a => (adminUpdateUser c id dto r a s).1
  | SetSubscription c id p r a => (setUserSubscription c id p r a s).1
  | Billing c id r => (getUserBillingSummary c id r s).1
  | Overview c r p l q => (getAdminBillingOverview c r p l q s).1
  | DeleteUser id r => (deleteUser id r s).1
  end.

(** The database generates ids that are not in use. *)
Definition fresh (o : op) (s : St) : Prop :=
  match o with
  | RequestStudent c _ => rows (verifications s) !! newVerificationId c = None
  | CreateUniversity c _ _ => rows (universities s) !! newUniversityId c = None
  | _ => True
  end.
Inductive steps (s : St) : St → Prop :=
| steps_nil : steps s s
| steps_cons o s' : steps s s' → fresh o s' → steps s (run o s').
Record init (s : St) : Prop := {
  init_users : rows (users s) = ∅; init_quotas : rows (quotas s) = ∅;
  init_verifications : rows (verifications s) = ∅; init_universities : rows (universities s) = ∅ }.

(** ** Integrity of the directory *)

Record wf (s : St) : Prop := {
  wf_email : unique_by (λ u, Some (u_email u)) (rows (users s));
  wf_google : unique_by u_googleId (rows (users s));
  wf_uni_name : unique_by (λ u, Some (un_name u)) (rows (universities s));
  wf_uni_domain : unique_by (λ u, Some (un_emailDomain u)) (rows (universities s));
  wf_domain k u : rows (universities s) !! k = Some u →
    validateUniversityDomain (un_emailDomain u) = Ret (un_emailDomain u);
  wf_quota k : is_Some (rows (quotas s) !! k) → is_Some (rows (users s) !! k);
  wf_verification k v : rows (verifications s) !! k = Some v → is_Some (rows (users s) !! sv_userId v) }.

(** What every request but the two of the student flow does: it keeps the
    directory intact, sets no student flag and issues no verification. *)
Record calm (s s' : St) : Prop := {
  calm_wf : wf s → wf s';
  calm_flag k u' : rows (users s') !! k = Some u' → u_studentEmailVerified u' = true →
    ∃ u, rows (users s) !! k = Some u ∧ u_studentEmailVerified u = true;
  calm_verification k v : rows (verifications s') !! k = Some v → rows (verifications s) !! k = Some v }.
#[local] Instance calm_refl : Reflexive calm.
Proof. intros s. split; by eauto. Qed.
#[local] Instance calm_trans : Transitive calm.
Proof.
  intros s1 s2 s3 [W1 F1 V1] [W2 F2 V2]. split; [by auto| |by eauto].
  intros k u3 Hu3 Hf3. destruct (F2 k u3 Hu3 Hf3) as (u2 & Hu2 & Hf2). by eapply F1.
Qed.

(** Only the catalogue, the mail or nothing of the tables changes. *)
Lemma calm_frame s s' :
  users s' = users s → quotas s' = quotas s → verifications s' = verifications s →
  universities s' = universities s → calm s s'.
Proof.
  intros Eu Eq Ev En. split.
  - intros []. split; rewrite ?Eu, ?Eq, ?Ev, ?En; done.
  - rewrite Eu. by eauto.
  - by rewrite Ev.
Qed.

Lemma calm_catalog c : preserves calm (getPlanCatalog (T:=T) c).
Proof. intros s. unfold getPlanCatalog, zoom. destruct (load_rows _ _). by apply calm_frame. Qed.

(** *** Writes of user rows *)

Lemma find_clash_None id u (s : St) :
  find_first (user_clash id u) (users s) = None →
  ∀ k w, k ≠ id → rows (users s) !! k = Some w →
    u_email w ≠ u_email u ∧ (∀ g, u_googleId u = Some g → u_googleId w ≠ Some g).
Proof.
  intros Hn k w Hk Hw. pose proof (find_first_None _ _ Hn k w Hw) as Hc. unfold user_clash in Hc.
  rewrite (bool_decide_neq k id Hk) in Hc. simpl in Hc. apply orb_false_iff in Hc as [Hc Hg].
  apply bool_decide_eq_false in Hc. split; [done|]. intros g Hg'. rewrite Hg' in Hg.
  by apply bool_decide_eq_false in Hg.
Qed.

Lemma wf_write_user id u (s : St) :
  find_first (user_clash id u) (users s) = None → wf s → wf (set_users (put id u (users s)) s).
Proof.
  intros Hn W. pose proof (find_clash_None _ _ _ Hn) as Hno. destruct W.
  assert (Hdom : ∀ k, is_Some (rows (users s) !! k) → is_Some (<[id := u]> (rows (users s)) !! k)).
  { intros k Hk. destruct (decide (id = k)) as [->|Hne]; [rewrite lookup_insert_eq; by eauto|].
    by rewrite lookup_insert_ne. }
  split; simpl; rewrite ?rows_put; try done; [..|by eauto|by eauto].
  - apply unique_by_insert; [|done]. intros k r x Hk Hr [= <-] [= E]. by destruct (Hno k r Hk Hr).
  - apply unique_by_insert; [|done]. intros k r x Hk Hr Hg. destruct (Hno k r Hk Hr) as [_ Hg']. by apply Hg'.
Qed.

(** A write that neither sets the student flag nor clashes. *)
Lemma calm_write_user id u (s : St) :
  (u_studentEmailVerified u = true →
     ∃ w, rows (users s) !! id = Some w ∧ u_studentEmailVerified w = true) →
  calm s (write_user id u s).1.
Proof.
  intros Hflag. unfold write_user. destruct (find_first _ _) eqn:E; [done|].
  pose proof (find_clash_None _ _ _ E) as Hno. split; simpl; [|rewrite rows_put|done].
  - intros W. by apply wf_write_user.
  - intros k u' [[<- <-]|[_ Hk]]%lookup_insert_Some; by eauto.
Qed.

Lemma calm_update_user id f :
  (∀ u, u_studentEmailVerified (f u) = u_studentEmailVerified u) →
  preserves calm (update_user (T:=T) id f).
Proof.
  intros Hf s. unfold update_user. rewrite (bind_eval _ _ s s _ eq_refl). cbv beta. unfold find_by_id.
  destruct (rows (users s) !! id) as [u|] eqn:E; [|done].
  assert (Hc : calm s (write_user id (f u) s).1) by (apply calm_write_user; rewrite Hf; by eauto).
  m_red. by destruct (write_user id (f u) s) as [s' [[]|e]].
Qed.

(** *** Writes of quota and university rows *)

Lemma calm_write_quota id q : preserves calm (write_quota (T:=T) id q).
Proof.
  intros s. unfold write_quota, find_by_id.
  assert (Hput : is_Some (rows (quotas s) !! id) ∨ is_Some (rows (users s) !! id) →
            calm s (set_quotas (put id q (quotas s)) s)).
  { intros Hex. split; simpl; [|by eauto|done]. intros []. split; simpl; try done.
    intros k. rewrite rows_put. intros [q' [[<- _]|[_ Hk]]%lookup_insert_Some]; [naive_solver|by eauto]. }
  destruct (rows (quotas s) !! id), (rows (users s) !! id); simpl; [by apply Hput; eauto..|done].
Qed.

Lemma calm_upsertQuota c id p : preserves calm (upsertQuota (T:=T) c id p).
Proof.
  apply preserves_bind; [exact _|apply calm_catalog|]. intros cat.
  destruct p; [apply calm_write_quota|by intros s].
Qed.

Lemma validate_idem d d' : validateUniversityDomain d = Ret d' → validateUniversityDomain d' = Ret d'.
Proof.
  intros Hv. enough (d' = d) as -> by done. unfold validateUniversityDomain in Hv.
  repeat (case_match; [done|]). by injection Hv.
Qed.

Lemma calm_write_university id u (s : St) :
  (wf s → validateUniversityDomain (un_emailDomain u) = Ret (un_emailDomain u)) →
  calm s (write_university id u s).1.
Proof.
  intros Hd. unfold write_university. destruct (find_first _ _) eqn:E; [done|].
  assert (Hno : ∀ k w, k ≠ id → rows (universities s) !! k = Some w →
            un_name w ≠ un_name u ∧ un_emailDomain w ≠ un_emailDomain u).
  { intros k w Hk Hw. pose proof (find_first_None _ _ E k w Hw) as Hc. unfold university_clash in Hc.
    rewrite (bool_decide_neq k id Hk) in Hc. simpl in Hc.
    by apply orb_false_iff in Hc as [?%bool_decide_eq_false ?%bool_decide_eq_false]. }
  split; simpl; [|by eauto|done]. intros W. pose proof (Hd W) as Hdom. destruct W.
  split; simpl; rewrite ?rows_put; try done.
  - apply unique_by_insert; [|done]. intros k r x Hk Hr [= <-] [= E']. by destruct (Hno k r Hk Hr).
  - apply unique_by_insert; [|done]. intros k r x Hk Hr [= <-] [= E']. by destruct (Hno k r Hk Hr).
  - intros k w [[<- <-]|[_ Hk]]%lookup_insert_Some; by eauto.
Qed.

(** Deleting rows of a table keeps what was left. *)
Lemma delete_sub {R} p (t : T R) k r : rows (delete_where p t) !! k = Some r → rows t !! k = Some r.
Proof. rewrite rows_delete_where. destruct (rows t !! k); [|done]. by destruct (p k _). Qed.

Lemma calm_delete_verifications p (s : St) :
  calm s (set_verifications (delete_where p (verifications s)) s).
Proof.
  split; simpl; [|by eauto|by intros k v ?%delete_sub].
  intros []. split; simpl; try done. intros k v ?%delete_sub. by eauto.
Qed.

Lemma calm_delete_universities p (s : St) :
  calm s (set_universities (delete_where p (universities s)) s).
Proof.
  split; simpl; [|by eauto|done]. intros []. split; simpl; try done.
  - by eapply unique_by_sub; [apply delete_sub|].
  - by eapply unique_by_sub; [apply delete_sub|].
  - intros k u ?%delete_sub. by eauto.
Qed.

(** *** The handlers *)

Lemma calm_ret {A} (a : A) : preserves calm (mret a : M St A).
Proof. by intros s. Qed.
Lemma calm_throw {A} e : preserves calm (throw e : M St A).
Proof. by intros s. Qed.
Lemma calm_gets {A} (f : St → A) : preserves calm (gets f).
Proof. by intros s. Qed.
Lemma calm_pure {A} (f : St → outcome A) : preserves calm (λ s, (s, f s)).
Proof. by intros s. Qed.
Lemma calm_throw_if b e : preserves calm (throw_if b e : M St unit).
Proof. intros s. by destruct b. Qed.
Lemma calm_when b (m : M St unit) : preserves calm m → preserves calm (when b m).
Proof. intros Hm. destruct b; [done|apply calm_ret]. Qed.
Lemma calm_bind {A B} (m : M St A) (f : A → M St B) :
  preserves calm m → (∀ a, preserves calm (f a)) → preserves calm (m ≫= f).
Proof. apply preserves_bind. exact _. Qed.
Lemma calm_find_user id : preserves calm (find_user (T:=T) id).
Proof. apply calm_bind; [apply calm_gets|]. intros [u|]; [apply calm_ret|apply calm_throw]. Qed.
Lemma calm_find_university id : preserves calm (find_university (T:=T) id).
Proof. apply calm_bind; [apply calm_gets|]. intros [u|]; [apply calm_ret|apply calm_throw]. Qed.
Lemma calm_assertAdminUser id : preserves calm (assertAdminUser (T:=T) id).
Proof. apply calm_bind; [apply calm_gets|]. intros u. apply calm_throw_if. Qed.
Lemma calm_cycleStart c u : preserves calm (getLatestBillingCycleStart (T:=T) c u).
Proof.
  apply calm_bind; [apply calm_gets|]. intros [|p l]; [apply calm_ret|].
  apply calm_bind; [apply calm_catalog|]. intros cat. apply calm_ret.
Qed.

#[local] Hint Resolve calm_ret calm_throw calm_gets calm_pure calm_throw_if calm_find_user
  calm_find_university calm_assertAdminUser calm_cycleStart calm_catalog calm_upsertQuota calm_write_quota : calm.
Ltac calm := repeat first
  [ solve [auto with calm]
  | apply calm_update_user; by intros []
  | apply calm_bind; [|intros ?]
  | apply calm_when
  | case_match ].

Lemma calm_getProfile c u : preserves calm (getProfile (T:=T) c u).
Proof. unfold getProfile. calm. Qed.
Lemma calm_summary c u : preserves calm (getProfileSummary (T:=T) c u).
Proof. unfold getProfileSummary. calm. Qed.
Lemma calm_access c tok u : preserves calm (getSubscriptionAccess (T:=T) c tok u).
Proof.
  unfold getSubscriptionAccess, assertSyncToken, getInternalSubscriptionAccess.
  calm.
Qed.
Lemma calm_activate c tok u p : preserves calm (activateSubscription (T:=T) c tok u p).
Proof. unfold activateSubscription, assertSyncToken, activateSubscriptionPlanFromInternal. calm. Qed.
Lemma calm_updateProfile u dto : preserves calm (updateProfile (T:=T) u dto).
Proof. unfold updateProfile. calm. Qed.
Lemma calm_changePassword c u a b : preserves calm (changePassword (T:=T) c u a b).
Proof. unfold changePassword. calm. Qed.
Lemma calm_adminUpdate c id dto r a : preserves calm (adminUpdateUser (T:=T) c id dto r a).
Proof. unfold adminUpdateUser, User.assertAdminRole. calm. Qed.
Lemma calm_setSubscription c id p r a : preserves calm (setUserSubscription (T:=T) c id p r a).
Proof. unfold setUserSubscription, User.assertAdminRole. calm. Qed.
Lemma calm_billing c id r : preserves calm (getUserBillingSummary (T:=T) c id r).
Proof. unfold getUserBillingSummary, User.assertAdminRole. calm. Qed.
Lemma calm_overview c r p l q : preserves calm (getAdminBillingOverview (T:=T) c r p l q).
Proof. unfold getAdminBillingOverview, User.assertAdminRole. calm. Qed.
Lemma calm_deleteUniversity id a : preserves calm (deleteUniversity (T:=T) id a).
Proof.
  unfold deleteUniversity. calm. intros s. apply calm_delete_universities.
Qed.

Lemma calm_deleteUser id r : preserves calm (deleteUser (T:=T) id r).
Proof.
  unfold deleteUser, User.assertAdminRole. calm. intros s. split; simpl.
  - intros []. split; simpl; try done.
    + by eapply unique_by_sub; [apply delete_sub|].
    + by eapply unique_by_sub; [apply delete_sub|].
    + intros k. rewrite !rows_delete_where. intros [q Hq].
      destruct (rows (quotas s) !! k) eqn:E; [|done]. destruct (bool_decide (k = id)) eqn:Ek; [done|].
      destruct (wf_quota0 k) as [u Hu]; [by rewrite E|]. rewrite Hu. by eauto.
    + intros k v. rewrite !rows_delete_where. intros Hv.
      destruct (rows (verifications s) !! k) as [v'|] eqn:E; [|done].
      case_bool_decide as Ek; [done|]. simplify_eq. destruct (wf_verification0 k v E) as [u Hu].
      rewrite Hu, bool_decide_neq by done. by eauto.
  - intros k u' Hk%delete_sub Hf. by eauto.
  - by intros k v ?%delete_sub.
Qed.

Lemma calm_sync c tok p : preserves calm (syncUser (T:=T) c tok p).
Proof.
  unfold syncUser, assertSyncToken. apply calm_bind; [apply calm_throw_if|intros _].
  apply calm_bind; [apply calm_throw_if|intros _]. apply calm_bind; [|intros ?; apply calm_ret].
  intros s. unfold syncFromAuth. rewrite (bind_eval _ _ s s _ eq_refl). cbv beta zeta. unfold find_by_id.
  set (u := match rows (users s) !! su_id p with Some u => _ | None => _ end).
  assert (Hw : calm s (write_user (su_id p) u s).1).
  { apply calm_write_user. unfold u. destruct (rows (users s) !! su_id p); by eauto. }
  clearbody u. unfold mbind at 1, M_bind at 1. destruct (write_user (su_id p) u s) as [s' [[]|e]]; [|done].
  simpl in Hw. etransitivity; [exact Hw|].
  match goal with |- calm _ (?m s').1 => enough (Hm : preserves calm m) by apply Hm end. calm.
Qed.

Lemma calm_createUniversity c dto a : preserves calm (createUniversity (T:=T) c dto a).
Proof.
  unfold createUniversity. apply calm_bind; [auto with calm|intros _]. intros s. cbv zeta.
  unfold lift. m_red. destruct (validateUniversityDomain _) as [d|e] eqn:Ed; [|done].
  destruct (find_first _ _); [done|]. apply calm_write_university. intros _. simpl.
  by apply validate_idem in Ed as ->.
Qed.

Lemma calm_updateUniversity id dto a : preserves calm (updateUniversity (T:=T) id dto a).
Proof.
  unfold updateUniversity. apply calm_bind; [auto with calm|intros _]. intros s.
  unfold find_university, lift, find_by_id. m_red.
  destruct (rows (universities s) !! id) as [w|] eqn:E; [|done]. simpl.
  destruct (uu_emailDomain dto) as [dm|].
  - destruct (validateUniversityDomain _) as [d|e] eqn:Ed; [|done].
    destruct (find_first _ _); [done|]. apply calm_write_university. intros _. simpl.
    by apply validate_idem in Ed as ->.
  - destruct (find_first _ _); [done|]. apply calm_write_university. intros W. simpl. by eapply (wf_domain _ W).
Qed.

Lemma calm_toggle id a : preserves calm (toggleUniversityActive (T:=T) id a).
Proof.
  unfold toggleUniversityActive. apply calm_bind; [auto with calm|intros _]. intros s.
  unfold find_university, find_by_id. m_red.
  destruct (rows (universities s) !! id) as [w|] eqn:E; [|done]. simpl.
  apply calm_write_university. intros W. simpl. by eapply (wf_domain _ W).
Qed.

(** *** The student flow *)

Definition requested (c : Call) (userId : string) (u : UserRow) : Verification :=
  {| sv_userId := userId; sv_email := u_email u; sv_codeHash := sha256_hex (randomCode c);
     sv_expiresAt := now c + 15 * 60 * 1000 |}.
Definition of_user (userId : string) (_ : string) (v : Verification) : bool :=
  bool_decide (sv_userId v = userId).
(** The store after a request, before the mail. *)
Definition issue (c : Call) (userId : string) (u : UserRow) (s : St) : St :=
  set_verifications (put (newVerificationId c) (requested c userId u)
    (delete_where (of_user userId) (verifications s))) s.
(** The address belongs to an active university. *)
Definition student_address (email : string) (s : St) : Prop :=
  ∃ k un, rows (universities s) !! k = Some un ∧ un_isActive un = true ∧
    ends_with (toLowerCase (un_emailDomain un)) (toLowerCase email) = true.

Lemma isStudentEmail_true email s :
  (isStudentEmailAsync email s).2 = Ret true → student_address email s.
Proof.
  intros [= He]. apply existsb_exists in He as ([k un] & Hin & Hends).
  apply list_elem_of_In, elem_of_select in Hin as [Hk Ha]. by exists k, un.
Qed.

Lemma request_cases c userId (s : St) :
  let s' := (requestStudentEmailVerification c userId s).1 in
  s' = s ∨ ∃ u, rows (users s) !! userId = Some u ∧ student_address (u_email u) s ∧
    ((mailError c = None ∧ s' = set_outbox (outbox s ++ [(u_email u, randomCode c)]) (issue c userId u s)) ∨
     (is_Some (mailError c) ∧ s' = issue c userId u s)).
Proof.
  cbv zeta. unfold requestStudentEmailVerification, find_user, find_by_id, sendStudentVerificationCode. m_red.
  destruct (rows (users s) !! userId) as [u|] eqn:Eu; [|by left]. simpl.
  pose proof (isStudentEmail_true (u_email u) s) as Hst. unfold isStudentEmailAsync in *. m_red.
  destruct (existsb _ _); [|by left]. specialize (Hst eq_refl). simpl. destruct (u_studentEmailVerified u); [by left|]. right. exists u. split; [done|].
  split; [done|]. unfold issue. destruct (mailError c); simpl; [right|left]; by eauto.
Qed.

Lemma wf_issue c userId u s : rows (users s) !! userId = Some u → wf s → wf (issue c userId u s).
Proof.
  intros Hu []. split; simpl; try done. intros k v. rewrite rows_put.
  intros [[_ <-]|[_ Hk%delete_sub]]%lookup_insert_Some; [simpl; by rewrite Hu|by eauto].
Qed.

(** A confirmation that is refused, or that goes through. *)
Lemma confirm_cases c userId code (s : St) :
  let s' := (confirmStudentEmailVerification c userId code s).1 in
  calm s s' ∨ ∃ k v u, rows (verifications s) !! k = Some v ∧ sv_userId v = userId ∧
    sv_codeHash v = sha256_hex (js_trim code) ∧ now c <= sv_expiresAt v ∧
    rows (users s) !! userId = Some u ∧
    find_first (user_clash userId (with_student_verified (now c) u)) (users s) = None ∧
    s' = set_verifications (delete_where (of_user userId) (verifications s))
          (set_users (put userId (with_student_verified (now c) u) (users s)) s).
Proof.
  cbv zeta. unfold confirmStudentEmailVerification. m_red.
  destruct (truthy code); simpl; [|by left].
  destruct (find_first _ (verifications s)) as [[k v]|] eqn:Ef; [|by left].
  apply find_first_Some in Ef as [Hk [<-%bool_decide_eq_true Hh%bool_decide_eq_true]%andb_true_iff].
  destruct (Z.ltb_spec (sv_expiresAt v) (now c)); simpl; [left; apply calm_delete_verifications|].
  unfold update_user, find_by_id, write_user. m_red.
  destruct (rows (users s) !! sv_userId v) as [u|] eqn:Eu; [|by left]. simpl.
  destruct (find_first (user_clash _ _) (users s)) eqn:Ec; [by left|]. right. simpl.
  exists k, v, u. done.
Qed.

(** Every request but the two of the student flow is calm. *)
Lemma op_cases o :
  (∃ c u, o = RequestStudent c u) ∨ (∃ c u code, o = ConfirmStudent c u code) ∨ (∀ s, calm s (run o s)).
Proof.
  destruct o; [left; by eauto|right; left; by eauto 6|right; right..].
  - apply calm_createUniversity.
  - apply calm_updateUniversity.
  - apply calm_deleteUniversity.
  - apply calm_toggle.
  - apply calm_sync.
  - apply calm_activate.
  - apply calm_access.
  - apply calm_getProfile.
  - apply calm_summary.
  - apply calm_updateProfile.
  - apply calm_changePassword.
  - apply calm_adminUpdate.
  - apply calm_setSubscription.
  - apply calm_billing.
  - apply calm_overview.
  - apply calm_deleteUser.
Qed.

Lemma wf_run o s : wf s → wf (run o s).
Proof.
  intros W. destruct (op_cases o) as [(c & u & ->)|[(c & u & code & ->)|Hcalm]]; simpl.
  - destruct (request_cases c u s) as [->|(w & Hw & _ & [[_ ->]|[_ ->]])]; [done| |by apply wf_issue].
    apply (wf_issue c u w) in W; [|done]. by destruct W.
  - destruct (confirm_cases c u code s) as [Hcalm|(k & v & w & _ & _ & _ & _ & Hw & Hn & ->)].
    + by apply (calm_wf _ _ Hcalm).
    + apply (wf_write_user _ _ _ Hn) in W.
      by apply (calm_wf _ _ (calm_delete_verifications (of_user u) (set_users (put u _ (users s)) s))).
  - by apply (calm_wf _ _ (Hcalm s)).
Qed.

(** A calm request verifies nobody and issues nothing. *)
Lemma calm_no_flag s s' u w' :
  calm s s' → rows (users s') !! u = Some w' → u_studentEmailVerified w' = true →
  (∀ w, rows (users s) !! u = Some w → u_studentEmailVerified w = false) → False.
Proof.
  intros Hc Hw Hf Hno. destruct (calm_flag _ _ Hc u w' Hw Hf) as (w & Hw0 & Hf0).
  rewrite (Hno w Hw0) in Hf0. done.
Qed.

Lemma verification_gone userId (t : T Verification) k v :
  rows (delete_where (of_user userId) t) !! k = Some v → sv_userId v ≠ userId.
Proof.
  rewrite rows_delete_where. destruct (rows t !! k) as [v'|]; [|done]. unfold of_user.
  case_bool_decide; [done|]. by intros [= <-].
Qed.

Lemma issue_verification c userId u (s : St) k v :
  rows (verifications (issue c userId u s)) !! k = Some v → rows (verifications s) !! k ≠ Some v →
  k = newVerificationId c ∧ v = requested c userId u ∧
  ∀ k' v', rows (verifications (issue c userId u s)) !! k' = Some v' → sv_userId v' = userId → k' = k.
Proof.
  simpl. rewrite rows_put. intros [[<- <-]|[_ Hk%delete_sub]]%lookup_insert_Some Hno; [|done].
  split_and!; [done..|]. intros k' v' [[<- _]|[_ Hk']]%lookup_insert_Some Hu; [done|].
  by apply verification_gone in Hk'.
Qed.

(** ** Subscriptions *)

(** A catalogue in which a higher plan is not within a lower one's limits and
    the managed plans are below the unlimited one. *)
Definition below (cat : Catalog) (p q : PlanId) : Prop :=
  pc_maxVms (cat p) < pc_maxVms (cat q) ∨ pc_maxCpu (cat p) < pc_maxCpu (cat q).
Record graded (cat : Catalog) : Prop := {
  gr_sp : below cat student pro; gr_se : below cat student enterprise; gr_pe : below cat pro enterprise;
  gr_top p : p ≠ unlimited → pc_maxVms (cat p) < pc_maxVms (cat unlimited) ∧
                             pc_maxCpu (cat p) < pc_maxCpu (cat unlimited) }.

Lemma resolve_graded cat p : graded cat → resolvePlanFromQuota (Some (plan_limits (cat p))) cat = Some p.
Proof.
  intros [Hsp Hse Hpe Htop]. unfold below in *. simpl.
  destruct p;
    try (destruct (Htop student) as [? ?]; [done|]; destruct (Htop pro) as [? ?]; [done|];
         destruct (Htop enterprise) as [? ?]; [done|]);
    repeat (match goal with |- context [?a <=? ?b] => destruct (Z.leb_spec a b) end; simpl; try lia; try done).
Qed.

Lemma find_user_inv id (s s' : St) u :
  find_user id s = (s', Ret u) → s' = s ∧ rows (users s) !! id = Some u.
Proof.
  unfold find_user, find_by_id. m_red. destruct (rows (users s) !! id); [|done]. by intros [= <- <-].
Qed.

(** A profile's subscription is computed from some cycle start and VMs. *)
Lemma profile_subscription c u (s s' : St) pr sb :
  getProfile c u s = (s', Ret pr) → pr_subscription pr = Some sb →
  ∃ cat q start l, sb = subscription_of (now c) cat q start l.
Proof.
  unfold getProfile. intros Hp Hsb. m_inv Hp. destruct x as [w|]; [|done]. m_inv Hp.
  injection Hp as <- <-. simpl in Hsb. apply bind_Some in Hsb as (p & _ & [= <-]). simpl. by eauto.
Qed.

(** A successful write of a quota, read back. *)
Lemma upsertQuota_inv c id p s s' q :
  upsertQuota c id p s = (s', Ret q) →
  ∃ pl cat, p = Some pl ∧ (getPlanCatalog c s).2 = Ret cat ∧
    q = {| q_limits := plan_limits (cat pl); q_planId := Some pl |} ∧
    users s' = users s ∧ rows (quotas s') !! id = Some q.
Proof.
  unfold upsertQuota. intros Hq. apply bind_Ret_inv in Hq as (cat & s1 & Hc & Hq).
  destruct p as [pl|]; [|done]. exists pl, cat. rewrite Hc.
  assert (Hu : users s1 = users s).
  { unfold getPlanCatalog, zoom in Hc. destruct (load_rows _ _). by injection Hc as <- _. }
  unfold write_quota in Hq. destruct (find_by_id id (quotas s1)), (find_by_id id (users s1));
    try done; injection Hq as <- <-; simpl; by rewrite rows_put, lookup_insert_eq.
Qed.

Lemma catalog_unlimited c (s : St) cat :
  (getPlanCatalog c s).2 = Ret cat → cat unlimited = UNLIMITED_PLAN_CONFIG.
Proof.
  unfold getPlanCatalog, zoom, load_rows. m_red.
  destruct (find_many (plans s)) as [t1 [rs|e]]; simpl.
  all: repeat (case_match; simplify_eq/=; try done); intros; simplify_eq; by eapply buildPlanCatalog_unlimited.
Qed.

(** An update of the own account, whatever its outcome. *)
Definition same_users (s s' : St) : Prop := users s' = users s.
#[local] Instance same_users_trans : Transitive same_users.
Proof. unfold same_users. intros s1 s2 s3. congruence. Qed.

Lemma upsertQuota_users c id p : preserves same_users (upsertQuota (T:=T) c id p).
Proof.
  apply preserves_bind; [exact _| |].
  - intros s. unfold getPlanCatalog, zoom. by destruct (load_rows _ _).
  - intros cat s. destruct p; [|done]. unfold write_quota. by repeat case_match.
Qed.

Lemma self_update c id dto r u s :
  rows (users s) !! id = Some u →
  ∃ u', rows (users (adminUpdateUser c id dto r (Some id) s).1) !! id = Some u' ∧
        (u_role u = ADMIN → u_role u' = ADMIN) ∧ (u_isActive u = true → u_isActive u' = true).
Proof.
  intros Hu. unfold adminUpdateUser, User.assertAdminRole, find_user, find_by_id.
  destruct (bool_decide (r = _)); [|by eauto]. m_red. rewrite Hu. simpl.
  rewrite (bool_decide_eq_true_2 (Some id = Some id)) by done. simpl.
  case_bool_decide as Hr; [by eauto|]. simpl. case_bool_decide as Ha; [by eauto|]. simpl.
  unfold update_user, write_user, find_by_id. m_red. rewrite Hu. simpl.
  destruct (find_first _ _); [by eauto|]. simpl.
  set (w := with_role_active (au_role dto) (au_isActive dto) u).
  assert (Hw : (u_role u = ADMIN → u_role w = ADMIN) ∧ (u_isActive u = true → u_isActive w = true)).
  { subst w. simpl. destruct (au_role dto) as [[]|], (au_isActive dto) as [[]|]; done. }
  match goal with |- ∃ u', rows (users ?s') !! id = _ ∧ _ =>
    assert (Hs : users s' = put id w (users s)); [|rewrite Hs, rows_put, lookup_insert_eq; by eauto] end.
  rewrite andb_false_r. destruct (bool_decide _); [|done].
  pose proof (upsertQuota_users c id (Some unlimited) (set_users (put id w (users s)) s)) as Hq.
  by destruct (upsertQuota c id _ _) as [s' [?|?]].
Qed.

(** ** VM hours *)

Lemma toFixed2_mono p q : (0 <= p)%Q → (p <= q)%Q → toFixed2 p <= toFixed2 q.
Proof.
  intros Hp Hpq. unfold toFixed2. rewrite (proj2 (Qle_bool_iff 0 p) Hp).
  rewrite (proj2 (Qle_bool_iff 0 q)) by lra. unfold js_round. apply Qfloor_resp_le. lra.
Qed.

(** When the VM stops counting. *)
Definition span_end (b : Z) (v : Vm.VirtualMachine) : Z :=
  if bool_decide (Vm.vm_status v = Vm.RUNNING) then b else Z.min (default b (Vm.vm_stoppedAt v)) b.
Lemma vm_span_eq a b v : vm_span a b v = Z.max 0 (span_end b v - Z.max a (Vm.vm_createdAt v)).
Proof.
  unfold vm_span, span_end. destruct (Z.ltb_spec a (Vm.vm_createdAt v));
    case_bool_decide; [|destruct (Z.ltb_spec (default b (Vm.vm_stoppedAt v)) b)| |
                        destruct (Z.ltb_spec (default b (Vm.vm_stoppedAt v)) b)];
    match goal with |- context [?x <=? ?y] => destruct (Z.leb_spec x y) end; lia.
Qed.
Lemma span_end_mono b b' v : b <= b' → span_end b v <= span_end b' v.
Proof. intros Hb. unfold span_end. case_bool_decide; [done|]. destruct (Vm.vm_stoppedAt v); simpl; lia. Qed.
Lemma span_end_le b v : span_end b v <= b.
Proof. unfold span_end. case_bool_decide; lia. Qed.

Lemma sumZ_mono {A} (f g : A → Z) l : (∀ a, f a <= g a) → sumZ f l <= sumZ g l.
Proof. intros Hfg. unfold sumZ. induction l as [|a l IH]; simpl; [lia|]. specialize (Hfg a). lia. Qed.

Lemma spans_nonneg a b l : 0 <= sumZ (vm_span a b) l.
Proof. apply sumZ_nonneg. intros v _. rewrite vm_span_eq. lia. Qed.

Lemma Qmake_nonneg n d : 0 <= n → (0 <= n # d)%Q.
Proof. intros Hn. unfold Qle. cbn [Qnum Qden]. lia. Qed.
Lemma Qmake_le n m d : n <= m → (n # d <= m # d)%Q.
Proof. intros Hn. unfold Qle. cbn [Qnum Qden]. nia. Qed.
Lemma toFixed2_int n : 0 <= n → toFixed2 (inject_Z n) = 100 * n.
Proof.
  intros Hn. unfold toFixed2. rewrite (proj2 (Qle_bool_iff 0 _)) by by apply Qmake_nonneg.
  unfold js_round, Qfloor, Qplus, Qmult, inject_Z. cbn [Qnum Qden].
  change (Z.pos (1 * 1 * 2)) with 2. rewrite Z.mul_1_r.
  symmetry. apply (Z.div_unique _ _ _ 1); lia.
Qed.

Lemma estimate_mono a b b' l : b <= b' → estimateVmHoursUsed l a b <= estimateVmHoursUsed l a b'.
Proof.
  intros Hb. apply toFixed2_mono; [apply Qmake_nonneg, spans_nonneg|apply Qmake_le].
  apply sumZ_mono. intros v. rewrite !vm_span_eq. pose proof (span_end_mono b b' v Hb). lia.
Qed.

Lemma estimate_bounds a b l n :
  b <= a + n * 3600000 → 0 <= n → 0 <= estimateVmHoursUsed l a b <= 100 * (n * Z.of_nat (length l)).
Proof.
  intros Hb Hn. pose proof (spans_nonneg a b l) as Hpos.
  assert (Hle : sumZ (vm_span a b) l <= Z.of_nat (length l) * (n * 3600000)).
  { apply sumZ_le_const. intros v _. rewrite vm_span_eq. pose proof (span_end_le b v). lia. }
  split; [by apply PaymentProps.toFixed2_nonneg, Qmake_nonneg|].
  rewrite <-toFixed2_int by nia. apply toFixed2_mono; [by apply Qmake_nonneg|].
  unfold Qle, inject_Z, MS_PER_HOUR. cbn [Qnum Qden]. lia.
Qed.

(** ** Theorems *)

(** The directory stays intact: from an empty one, after any sequence of
    requests, no two accounts share an e-mail or a Google id, no two
    universities a name or a domain, every stored domain is valid, and quotas
    and pending verifications belong to existing accounts. *)
Theorem directory_wf s0 s : init s0 → steps s0 s → wf s.
Proof.
  intros [Hu Hq Hv Hn] Hs. induction Hs as [|o s' _ IH _]; [|by apply wf_run].
  split; rewrite ?Hu, ?Hq, ?Hv, ?Hn; try apply unique_by_empty.
  - intros k u. by rewrite lookup_empty.
  - intros k. rewrite lookup_empty. by intros [? ?].
  - intros k v. by rewrite lookup_empty.
Qed.

(** C14: the student flag comes only from the code: if a request leaves an
    account verified that was not, it is that account's confirmation, with a
    code whose hash is that of one of its verifications that had not expired,
    and none of its verifications remains.  A verification in turn only
    appears by a request of its account, whose address belongs to an active
    university; it replaces the earlier ones, holds the hash of the fresh code
    for 15 minutes, and the code goes to that address and nowhere else. *)
Theorem student_verification_sound o s :
  (∀ u w', rows (users (run o s)) !! u = Some w' → u_studentEmailVerified w' = true →
     (∀ w, rows (users s) !! u = Some w → u_studentEmailVerified w = false) →
     ∃ c code k v, o = ConfirmStudent c u code ∧ rows (verifications s) !! k = Some v ∧
       sv_userId v = u ∧ sv_codeHash v = sha256_hex (js_trim code) ∧ now c <= sv_expiresAt v ∧
       ∀ k' v', rows (verifications (run o s)) !! k' = Some v' → sv_userId v' ≠ u) ∧
  (∀ k v, rows (verifications (run o s)) !! k = Some v → rows (verifications s) !! k ≠ Some v →
     ∃ c w, o = RequestStudent c (sv_userId v) ∧ rows (users s) !! sv_userId v = Some w ∧
       student_address (u_email w) s ∧ v = requested c (sv_userId v) w ∧
       (∀ k' v', rows (verifications (run o s)) !! k' = Some v' → sv_userId v' = sv_userId v → k' = k) ∧
       outbox (run o s) = outbox s ++ match mailError c with
                                      | None => [(u_email w, randomCode c)] | Some _ => [] end).
Proof.
  destruct (op_cases o) as [(c & u & ->)|[(c & u & code & ->)|Hcalm]]; simpl.
  - destruct (request_cases c u s) as [->|(w & Hw & Hst & Hmail)].
    { split; [|done]. intros u' w' Hw Hf Hno. by rewrite (Hno w' Hw) in Hf. }
    split.
    { destruct Hmail as [[_ ->]|[_ ->]]; simpl; intros u' w' Hw' Hf Hno; by rewrite (Hno w' Hw') in Hf. }
    intros k v Hk Hno.
    assert (Hiss : rows (verifications (requestStudentEmailVerification c u s).1)
                   = rows (verifications (issue c u w s))) by by destruct Hmail as [[_ ->]|[_ ->]].
    rewrite Hiss in *. destruct (issue_verification c u w s k v Hk Hno) as (_ & -> & Huniq).
    exists c, w. simpl. split_and!; [done..|].
    destruct Hmail as [[-> ->]|[[? ->] ->]]; simpl; [done|by rewrite app_nil_r].
  - destruct (confirm_cases c u code s) as [Hcalm|(k & v & w & Hk & Hu & Hh & He & Hw & _ & ->)]; simpl.
    { split; [|intros k v Hk Hno; by destruct (Hno (calm_verification _ _ Hcalm k v Hk))].
      intros u' w' Hw Hf Hno. by destruct (calm_no_flag _ _ _ _ Hcalm Hw Hf Hno). }
    split; [|by intros k' v' ?%delete_sub].
    intros u' w'. rewrite rows_put. intros [[<- _]|[_ Hw']]%lookup_insert_Some Hf Hno.
    + exists c, code, k, v. split_and!; try done. intros k' v'. apply verification_gone.
    + by rewrite (Hno w' Hw') in Hf.
  - split; [|intros k v Hk Hno; by destruct (Hno (calm_verification _ _ (Hcalm s) k v Hk))].
    intros u' w' Hw Hf Hno. by destruct (calm_no_flag _ _ _ _ (Hcalm s) Hw Hf Hno).
Qed.

(** A plan the payment service hands over is granted: after a successful
    activation the quota the VM service is given is active, names that plan
    (the unlimited one for administrators) and carries the limits the catalogue
    had; and if the catalogue grades its plans, the profile, which recomputes
    the plan from the limits, resolves to it as well. *)
Theorem activation_grants_plan c tok u planId s s' r :
  activateSubscription c tok u planId s = (s', Ret r) →
  ∃ w cat pl,
    rows (users s) !! u = Some w ∧ (getPlanCatalog c s).2 = Ret cat ∧
    (if bool_decide (u_role w = ADMIN) then pl = unlimited else planId = plan_string pl) ∧
    getInternalQuotaSnapshot u s' =
      (s', Ret {| qs_hasActiveSubscription := true; qs_planId := Some pl;
                  qs_quota := Some (plan_limits (cat pl)) |}) ∧
    (graded cat → resolvePlanForUser (u_role w) (q_limits <$> rows (quotas s') !! u) cat = Some pl).
Proof.
  unfold activateSubscription, assertSyncToken, activateSubscriptionPlanFromInternal.
  intros Hr. m_inv Hr. apply throw_if_inv in Hm as [_ ->]. apply throw_if_inv in Hm0 as [_ ->].
  apply find_user_inv in Hm1 as [-> Ew]. rename x1 into w. apply upsertQuota_inv in Hm2 as (pl & cat & Hpl & Hcat & -> & Hu & Hq). injection Hr as -> _.
  exists w, cat, pl. unfold getInternalQuotaSnapshot, find_user, find_by_id. m_red.
  rewrite Hu, Ew, Hq. simpl. split_and!; [done|done|..].
  - case_bool_decide; [by simplify_eq|by apply parse_plan_Some].
  - case_bool_decide; simpl; [|done]. simplify_eq. unfold UNLIMITED_QUOTA.
    by rewrite <-(catalog_unlimited c s cat Hcat).
  - intros Hg. unfold resolvePlanForUser. destruct (u_role w) eqn:Er; [by apply resolve_graded|].
    rewrite bool_decide_eq_true_2 in Hpl by done. by simplify_eq.
Qed.

(** The hours a subscription reports are sound: they lie between 0 and 720
    per VM (the 30 days of a cycle), never decrease as time passes, and the
    remaining hours lie between 0 and the included ones. *)
Theorem vm_hours_sound t t' cat p start l :
  p ≠ unlimited → 1 <= pc_vmHoursMonthly (cat p) → t <= t' →
  let sb := subscription_of t cat p start l in
  0 <= sb_vmHoursUsed sb <= 100 * (720 * Z.of_nat (length l)) ∧
  sb_vmHoursUsed sb <= sb_vmHoursUsed (subscription_of t' cat p start l) ∧
  0 <= sb_vmHoursRemaining sb <= 100 * sb_vmHoursIncluded sb.
Proof.
  intros Hp Hinc Ht. unfold subscription_of, getBillingCycleEnd. simpl.
  change (30 * 24 * 60 * 60 * 1000) with 2592000000. rewrite (bool_decide_neq p unlimited Hp).
  assert (Hused : 0 <= estimateVmHoursUsed l start (if t <? start + 2592000000 then t else start + 2592000000)
                  <= 100 * (720 * Z.of_nat (length l))).
  { apply estimate_bounds; [|lia]. destruct (Z.ltb_spec t (start + 2592000000)); lia. }
  split_and!; try lia.
  apply estimate_mono. destruct (Z.ltb_spec t (start + 2592000000)), (Z.ltb_spec t' (start + 2592000000)); lia.
Qed.

(** C18: renewal is locked while the plan lasts: with the subscription state
    the user service reports for a running cycle that is less than 90% used,
    no checkout of the payment service for a plan of the same or a lower rank
    goes through. *)
Theorem renewal_locked {TP : Type → Type} `{!Database TP, !DatabaseLaws TP} c tok u (s s1 : St) snap sb
    (pc : Payment.Call) buyer role p (ps : Payment.PaymentState TP) ps1 pcat :
  getSubscriptionAccess c tok u s = (s1, Ret (snap, Some sb)) →
  sb_planId sb ≠ unlimited → now c < sb_cycleEndsAt sb →
  sb_vmHoursUsed sb < 90 * sb_vmHoursIncluded sb →
  Payment.access1 pc = Payment.Answered snap →
  Payment.getPlanCatalog pc ps = (ps1, Ret pcat) →
  Payment.getPlanRank (Some p) pcat <= Payment.getPlanRank (Some (sb_planId sb)) pcat →
  ∀ ps' co, Payment.createCheckoutSession pc buyer role p ps ≠ (ps', Ret co).
Proof.
  intros Ha Hp Hnow Hused Hacc Hcat Hrank ps' co Hco.
  apply PaymentProps.checkout_inv in Hco as (_ & _ & _ & ? & cat & snap1 & ? & ? & ? & Hc & Hacc1 & Hmay & _).
  rewrite Hcat in Hc. injection Hc as <- <-. rewrite Hacc in Hacc1. injection Hacc1 as <-.
  unfold getSubscriptionAccess, getInternalSubscriptionAccess in Ha. m_inv Ha. injection Ha as <- <- Hsub.
  pose proof (profile_subscription _ _ _ _ _ _ Hm1 Hsub) as (cat & q & start & l & Hsb).
  rewrite Hsub in Hmay. unfold PaymentProps.may_purchase, subscriptionAccess in Hmay.
  rewrite (bool_decide_neq _ _ Hp) in Hmay. simpl in Hmay.
  assert (Hlock : sb_canRenewSamePlan sb = false).
  { clear Hmay Hrank Hacc. subst sb. unfold subscription_of, getBillingCycleEnd in *. simpl in *. rewrite (bool_decide_neq _ _ Hp).
    destruct (Z.leb_spec (start + 30 * 24 * 60 * 60 * 1000) (now c)); [lia|]. simpl. apply andb_false_iff. right.
    apply Z.leb_gt. lia. }
  rewrite Hlock in Hmay. destruct (sb_planId sb); simpl in *; [destruct Hmay; [lia|done]..|done].
Qed.

(** Administration is gated and cannot lock itself out: an administrative
    request without the ADMIN role, or on universities by an account that is
    not an administrator, changes nothing; and an administrator's update of the
    own account neither drops the role nor deactivates it. *)
Theorem admin_gate s :
  (∀ r, r ≠ Some "ADMIN"%string → ∀ c id dto a p n m q,
     run (AdminUpdate c id dto r a) s = s ∧ run (SetSubscription c id p r a) s = s ∧
     run (Billing c id r) s = s ∧ run (Overview c r n m q) s = s ∧ run (DeleteUser id r) s = s) ∧
  (∀ a, u_role <$> rows (users s) !! a ≠ Some ADMIN → ∀ c cdto udto id,
     run (CreateUniversity c cdto a) s = s ∧ run (UpdateUniversity id udto a) s = s ∧
     run (DeleteUniversity id a) s = s ∧ run (ToggleUniversity id a) s = s) ∧
  (∀ c id dto r u, rows (users s) !! id = Some u →
     ∃ u', rows (users (run (AdminUpdate c id dto r (Some id)) s)) !! id = Some u' ∧
           (u_role u = ADMIN → u_role u' = ADMIN) ∧ (u_isActive u = true → u_isActive u' = true)).
Proof.
  split_and!.
  - intros r Hr c id dto a p n m q.
    simpl. unfold adminUpdateUser, setUserSubscription, getUserBillingSummary, getAdminBillingOverview,
      deleteUser, User.assertAdminRole. rewrite (bool_decide_neq _ _ Hr). by split_and!.
  - intros a Ha c cdto udto id.
    simpl. unfold createUniversity, updateUniversity, deleteUniversity, toggleUniversityActive, assertAdminUser,
      find_by_id. m_red. rewrite (bool_decide_neq _ _ Ha). by split_and!.
  - intros c id dto r u Hu. simpl. by apply self_update.
Qed.

End props.
End UserProps.
