(* ===== verification/UserWitness.v ===== *)
(** * UserWitness: the user service executed

    An administrator registers a university, a student verifies the address
    and is given a plan; the theorems of [UserProps] applied to those runs, and
    runs that show where the copy of the accounts and the recomputed plan
    differ from what was stored. *)

From Stdlib Require Import ZArith QArith Lia Ascii String.
From stdpp Require Import base list gmap strings pretty sorting relations.
From S2P Require Import Prelude Text Store Crypto AuthModel Vm Plans Payment User PaymentProps UserProps.
From S2P Require Import PaymentWitness.
Import Plans User UserProps.

Module UserWitness.

#[local] Existing Instance AuthModel.Role_eq_dec.
#[local] Existing Instance sample_hashing.
#[local] Existing Instance sample_bcrypt.

Abbreviation State := (UserState (gmap string)).

Definition call (t : Z) : Call :=
  {| now := t; startOfMonth := 0; newVerificationId := "v1"; newUniversityId := "n1";
     randomCode := "123456"; bcryptSalt := "salt"; planEnv := PaymentWitness.sample_env;
     syncTokenEnv := Some "tok"%string; mailError := None; localeDate := λ _, "soon"%string |}.
Definition tok : option string := Some "tok"%string.

Definition account (id email role : string) : SyncUserPayload :=
  {| su_id := id; su_email := email; su_googleId := None; su_firstName := "F"; su_lastName := "L";
     su_role := Some role; su_isActive := Some true; su_mfaEnabled := None; su_mfaEnabledAt := None |}.
Definition school : CreateUniversityDto := {| cu_name := " ENIS "; cu_emailDomain := "@enis.tn" |}.

Definition s0 : State :=
  {| users := ∅; quotas := ∅; verifications := ∅; universities := ∅; payments := ∅; vms := ∅;
     plans := {| pt_exists := false; pt_rows := ∅ |}; outbox := [] |}.
Definition s1 : State := run (SyncUser (call 0) tok (account "root" "root@cloud.tn" "ADMIN")) s0.
Definition s2 : State := run (CreateUniversity (call 1) school "root") s1.
Definition s3 : State := run (SyncUser (call 2) tok (account "u1" "Ali@ENIS.tn" "USER")) s2.
Definition s4 : State := run (RequestStudent (call 3) "u1") s3.
Definition s5 : State := run (ConfirmStudent (call 4) "u1" " 123456") s4.
Definition s6 : State := run (Activate (call 5) tok "u1" "student") s5.

Lemma empty_directory : init s0.
Proof. by split. Qed.
Lemma s6_steps : steps s0 s6.
Proof.
  unfold s6, s5, s4, s3, s2, s1. repeat (apply steps_cons; [|by vm_compute]). apply steps_nil.
Qed.

Lemma directory_wf_witness : wf s6.
Proof. apply (directory_wf s0 s6); [apply empty_directory|apply s6_steps]. Defined.

Lemma student_verification_witness :
  u_studentEmailVerified <$> rows (users s5) !! "u1"%string = Some true ∧
  ∃ c code k v, ConfirmStudent (call 4) "u1" " 123456" = ConfirmStudent c "u1" code ∧
    rows (verifications s4) !! k = Some v ∧ sv_userId v = "u1"%string ∧
    sv_codeHash v = sha256_hex (js_trim code) ∧ now c <= sv_expiresAt v ∧
    ∀ k' v', rows (verifications s5) !! k' = Some v' → sv_userId v' ≠ "u1"%string.
Proof.
  split; [by vm_compute|].
  destruct (student_verification_sound (ConfirmStudent (call 4) "u1" " 123456") s4) as [Hf _].
  destruct (rows (users s5) !! "u1"%string) as [w|] eqn:E.
  - eapply (Hf "u1"%string w); [exact E| |].
    + assert (u_studentEmailVerified <$> rows (users s5) !! "u1"%string = Some true) as Hv by by vm_compute.
      rewrite E in Hv. by injection Hv.
    + intros w0 Hw. assert (u_studentEmailVerified <$> rows (users s4) !! "u1"%string = Some false) as Hv
        by by vm_compute. rewrite Hw in Hv. by injection Hv.
  - exfalso. assert (is_Some (rows (users s5) !! "u1"%string)) as [? Hs] by (vm_compute; by eauto). congruence.
Defined.

Definition student_limits : Vm.UserQuota :=
  {| Vm.uq_maxVms := 2; Vm.uq_maxCpu := 4; Vm.uq_maxRamMb := 4096; Vm.uq_maxDiskGb := 50 |}.

Lemma activation_grants_witness :
  ∃ w cat pl,
    rows (users s5) !! "u1"%string = Some w ∧ (getPlanCatalog (call 5) s5).2 = Ret cat ∧
    (if bool_decide (u_role w = ADMIN) then pl = unlimited else "student"%string = plan_string pl) ∧
    getInternalQuotaSnapshot "u1" s6 =
      (s6, Ret {| qs_hasActiveSubscription := true; qs_planId := Some pl;
                  qs_quota := Some (plan_limits (cat pl)) |}) ∧
    (graded cat → resolvePlanForUser (u_role w) (q_limits <$> rows (quotas s6) !! "u1"%string) cat = Some pl).
Proof.
  apply (activation_grants_plan (call 5) tok "u1" "student" s5 s6
    (Some student, {| q_limits := student_limits; q_planId := Some student |})).
  reflexivity.
Defined.

(** The catalogue of the sample configuration, with graded limits. *)
Definition graded_catalog : Catalog := λ p,
  let n := match p with student => 1 | pro => 2 | enterprise => 3 | unlimited => 9999 end in
  {| pc_amountDt := 10; pc_rank := n; pc_vmHoursMonthly := 100; pc_maxVms := n; pc_maxCpu := n;
     pc_maxRamMb := 4096; pc_maxDiskGb := 50 |}.
Example graded_catalog_ok : graded graded_catalog.
Proof. split; unfold below; simpl; [lia..|]. intros []; simpl; by try lia. Qed.

Definition machine (st : Vm.VmStatus) (stopped : option Z) : Vm.VirtualMachine :=
  {| Vm.vm_name := "m"; Vm.vm_oneVmId := None; Vm.vm_status := st; Vm.vm_cpu := 1; Vm.vm_ramMb := 512;
     Vm.vm_diskGb := 5; Vm.vm_ipAddress := None; Vm.vm_osTemplate := "ubuntu"; Vm.vm_userId := "u1";
     Vm.vm_planId := None; Vm.vm_sshHost := None; Vm.vm_sshPort := None; Vm.vm_sshUsername := None;
     Vm.vm_sshPrivateKeyEncrypted := None; Vm.vm_stoppedAt := stopped; Vm.vm_createdAt := 0 |}.

Lemma vm_hours_witness :
  let sb := subscription_of 7200000 graded_catalog pro 0 [machine Vm.RUNNING None] in
  0 <= sb_vmHoursUsed sb <= 100 * (720 * Z.of_nat (length [machine Vm.RUNNING None])) ∧
  sb_vmHoursUsed sb <= sb_vmHoursUsed (subscription_of 9000000 graded_catalog pro 0 [machine Vm.RUNNING None]) ∧
  0 <= sb_vmHoursRemaining sb <= 100 * sb_vmHoursIncluded sb.
Proof.
  apply (vm_hours_sound 7200000 9000000 graded_catalog pro 0 [machine Vm.RUNNING None]);
    [done|vm_compute; discriminate|lia].
Defined.

(** The subscription the service reports for the student in [s6]: the limits of
    the three sample plans coincide, so the plan resolves to enterprise. *)
Definition reported : Subscription :=
  {| sb_planId := enterprise; sb_cycleStartedAt := 2; sb_cycleEndsAt := 2592000002;
     sb_vmHoursIncluded := 100; sb_vmHoursUsed := 0; sb_vmHoursRemaining := 10000;
     sb_canRenewSamePlan := false |}.
Definition reported_access : Payment.SubscriptionAccessSnapshot :=
  {| Payment.sa_activePlanId := Some enterprise; Payment.sa_canPurchaseSameOrLower := false;
     Payment.sa_usageRatio := 0 # 10000; Payment.sa_cycleEndsAt := Some "soon"%string |}.
Definition buyer_call : Payment.Call :=
  {| Payment.now := 7; Payment.newPaymentId := "p1"; Payment.stripeConfigured := true;
     Payment.syncToken := tok; Payment.usdRate := None; Payment.catalogEnv := PaymentWitness.sample_env;
     Payment.access1 := Payment.Answered reported_access; Payment.access2 := Payment.Answered reported_access;
     Payment.studentVerified := Payment.Answered true; Payment.createdSession := Some "cs_1"%string;
     Payment.retrieved := None; Payment.webhookSecret := None; Payment.constructed := None;
     Payment.activation := λ _, Payment.Answered tt |}.
Definition shop : Payment.PaymentState (gmap string) := PaymentWitness.s1u.
Definition shop_catalog : Catalog :=
  match (Payment.getPlanCatalog buyer_call shop).2 with Ret cat => cat | Throw _ => graded_catalog end.

Lemma renewal_locked_witness :
  (getSubscriptionAccess (call 6) tok "u1" s6).2 = Ret (reported_access, Some reported) ∧
  ∀ ps' co, Payment.createCheckoutSession buyer_call "u1" "USER" enterprise shop ≠ (ps', Ret co).
Proof.
  split; [reflexivity|].
  apply (renewal_locked (TP:=gmap string) (call 6) tok "u1" s6 s6 reported_access reported
    buyer_call "u1" "USER" enterprise shop shop shop_catalog);
    [reflexivity|done|by vm_compute|by vm_compute|done|reflexivity|done].
Defined.

Lemma admin_gate_witness :
  run (DeleteUser "root" (Some "USER"%string)) s6 = s6 ∧ run (ToggleUniversity "n1" "u1") s6 = s6 ∧
  ∃ u', rows (users (run (AdminUpdate (call 7) "root" {| au_role := Some USER; au_isActive := Some false |}
          (Some "ADMIN"%string) (Some "root"%string)) s6)) !! "root"%string = Some u' ∧
        u_role u' = ADMIN ∧ u_isActive u' = true.
Proof.
  destruct (admin_gate s6) as (Hrole & Huni & Hself). split_and!.
  - apply (Hrole (Some "USER"%string) ltac:(done) (call 7) "root"%string
             {| au_role := None; au_isActive := None |} None student 1 1 None).
  - apply (Huni "u1"%string ltac:(by vm_compute) (call 7) school
             {| uu_name := None; uu_emailDomain := None |} "n1"%string).
  - destruct (rows (users s6) !! "root"%string) as [u|] eqn:E; [|by vm_compute in E].
    assert (u_role <$> rows (users s6) !! "root"%string = Some ADMIN) as Hr by by vm_compute.
    assert (u_isActive <$> rows (users s6) !! "root"%string = Some true) as Ha by by vm_compute.
    rewrite E in Hr, Ha. injection Hr as Hr. injection Ha as Ha.
    destruct (Hself (call 7) "root"%string {| au_role := Some USER; au_isActive := Some false |}
                (Some "ADMIN"%string) u E) as (u' & Hu' & H1 & H2). by eauto.
Defined.

(** ** What the service also does *)

(** The quota row says student, while the profile, which compares the stored
    limits with the current catalogue, reports the enterprise plan. *)
Example profile_reports_another_plan :
  (q_planId <$> rows (quotas s6) !! "u1"%string) = Some (Some student) ∧
  ∃ s7, getSubscriptionAccess (call 6) tok "u1" s6 = (s7, Ret (reported_access, Some reported)).
Proof. split; [by vm_compute|]. exists s6. reflexivity. Qed.

(** An administrator deactivates an account here; the next synchronisation from
    the auth service, which was not told, activates it again. *)
Example deactivation_undone_by_sync :
  let deactivate := {| au_role := None; au_isActive := Some false |} in
  let s7 := run (AdminUpdate (call 7) "u1" deactivate (Some "ADMIN"%string) (Some "root"%string)) s6 in
  let s8 := run (SyncUser (call 8) tok (account "u1" "Ali@ENIS.tn" "USER")) s7 in
  (u_isActive <$> rows (users s7) !! "u1"%string) = Some false ∧
  (u_isActive <$> rows (users s8) !! "u1"%string) = Some true.
Proof. by vm_compute. Qed.

(** A verified student who changes the address stays verified. *)
Example verification_survives_address_change :
  let dto := {| up_firstName := None; up_lastName := None; up_email := Some "ali@mail.com"%string |} in
  let s7 := run (UpdateProfile "u1" dto) s6 in
  (λ u, (u_email u, u_studentEmailVerified u)) <$> rows (users s7) !! "u1"%string
    = Some ("ali@mail.com"%string, true).
Proof. by vm_compute. Qed.

(** A VM that runs now counts from its creation, whatever time it was stopped. *)
Example stopped_time_is_billed :
  estimateVmHoursUsed [machine Vm.RUNNING (Some 3600000)] 0 36000000 = 1000 ∧
  estimateVmHoursUsed [machine Vm.STOPPED (Some 3600000)] 0 36000000 = 100.
Proof. by vm_compute. Qed.
End UserWitness.
