(* ===== verification/SshKey.v ===== *)
(** * SshKey: the users' SSH public keys

    services/user/src/ssh-key/ssh-key.service.ts with its DTOs: registering a
    key, generating one (the OpenSSH wire format of an RSA key is written byte by
    byte), listing and deleting.  A Buffer is a list of 8-bit characters. *)

From Stdlib Require Import ZArith Lia Ascii String.
From stdpp Require Import base list gmap sets strings pretty.
From S2P Require Import Prelude Text Js Regex Store VmKeyCrypto.
Import VmKeyCrypto.

Module SshKey.

Abbreviation Buffer := (list ascii).
Definition byte_of (n : Z) : ascii := ascii_of_nat (Z.to_nat n).

(** [crypto.createHash("sha256").update(x).digest("base64")] *)
Class Sha256Base64 := { sha256_base64 : string → string }.

Section wire.
Context `{Base64}.

Definition base64UrlToBuffer (value : string) : Buffer :=
  let normalized := replace_char "_" "/" (replace_char "-" "+" value) in
  let pad := (String.length normalized mod 4)%nat in
  let padded := if (pad =? 0)%nat then normalized
                else normalized +:+ str (replicate (4 - pad) "="%char) in
  chars (unbase64 padded).

(** [writeUInt32BE], which throws on a length beyond 32 bits. *)
Definition uint32be (n : Z) : Buffer :=
  [byte_of (n / 2 ^ 24 mod 256); byte_of (n / 2 ^ 16 mod 256); byte_of (n / 2 ^ 8 mod 256);
   byte_of (n mod 256)].
Definition encodeSshField (data : Buffer) : outcome Buffer :=
  let len := Z.of_nat (length data) in
  if 2 ^ 32 <=? len then Throw (JsError "ERR_OUT_OF_RANGE") else Ret (uint32be len ++ data).

(** [while (value.length > 1 && value[0] === 0) value = value.subarray(1)] *)
Fixpoint drop_zeros (value : Buffer) : Buffer :=
  match value with
  | c :: ((_ :: _) as rest) => if code c =? 0 then drop_zeros rest else value
  | _ => value
  end.
Definition encodeMpint (data : Buffer) : outcome Buffer :=
  let v1 := drop_zeros data in
  let v2 := match v1 with [] => [byte_of 0] | _ => v1 end in
  let v3 := match v2 with
            | c :: _ => if Z.land (code c) 128 =? 0 then v2 else byte_of 0 :: v2
            | [] => v2
            end in
  encodeSshField v3.

Definition buildSshRsaPublicKeyFromJwk (n e : string) : outcome string :=
  let exponent := base64UrlToBuffer e in
  let modulus := base64UrlToBuffer n in
  match encodeSshField (chars "ssh-rsa"), encodeMpint exponent, encodeMpint modulus with
  | Ret t, Ret x, Ret m => Ret ("ssh-rsa " +:+ base64 (str (t ++ x ++ m)))
  | Throw err, _, _ | _, Throw err, _ | _, _, Throw err => Throw err
  end.
End wire.

(** [[^a-zA-Z0-9-_ ]] is removed. *)
Definition name_char (c : ascii) : bool :=
  is_alnum c || bool_decide (c = "-"%char) || bool_decide (c = "_"%char) || bool_decide (c = " "%char).
(** [.replace(/\s+/g, "-")] *)
Definition spaces_to_dash (s : string) : string := replace_char " " "-" (collapse_ws s).
Definition sanitizeKeyName (input : string) : string :=
  let base := slice_head 48
    (spaces_to_dash (filter_chars name_char (js_trim (str_or input "generated-key")))) in
  if truthy base then base else "generated-key".

(** ** The service *)

Record SshKeyRow := { k_name : string; k_publicKey : string; k_fingerprint : string;
                      k_userId : string; k_createdAt : Z }.
Record CreateSshKeyDto := { dto_name : string; dto_publicKey : string }.

(** The validators of create-ssh-key.dto.ts and generate-ssh-key.dto.ts. *)
Definition name_ok (s : string) : bool :=
  (1 <=? js_length s) && (js_length s <=? 100)
  && forallb (λ c, negb (bool_decide (c = "<"%char) || bool_decide (c = ">"%char))) (chars s).
Definition CreateSshKeyDto_ok (d : CreateSshKeyDto) : bool :=
  name_ok (dto_name d) && (js_length (dto_publicKey d) <=? 4096)
  && starts_with "ssh-" (dto_publicKey d).
Definition GenerateSshKeyDto_ok (name : option string) : bool :=
  match name with Some s => name_ok s | None => true end.

(** One request: clock, fresh id, the generated pair (JWK n and e, private PEM),
    and which users exist (the foreign key). *)
Record Call := {
  now : Z; newId : string; jwk_n : option string; jwk_e : option string; privatePem : string;
  isoDate : string; userExists : string → bool;
}.
Record Generated := { g_key : string * SshKeyRow; g_privateKey : string; g_filename : string;
                      g_notice : string }.

Section service.
Context {T : Type → Type} `{Database T} `{Base64} `{Sha256Base64}.
Abbreviation St := (T SshKeyRow).

(** [s.replace(/=+$/g, "")] *)
Definition strip_padding (s : string) : string :=
  str (rev (drop_while (λ c, bool_decide (c = "="%char)) (rev (chars s)))).
(** [publicKey.trim().split(/\s+/)] *)
Definition key_parts (publicKey : string) : list string :=
  js_split " " (collapse_ws (js_trim publicKey)).

Definition generateFingerprint (publicKey : string) : outcome string :=
  match key_parts publicKey with
  | _ :: data :: _ => Ret ("SHA256:" +:+ strip_padding (sha256_base64 (unbase64 data)))
  | _ => Throw (BadRequestException "Invalid SSH public key format")
  end.

Definition of_user (userId : string) (_ : string) (k : SshKeyRow) : bool :=
  bool_decide (k_userId k = userId).
Definition findAllByUser (userId : string) : M St (list (string * SshKeyRow)) :=
  gets (select_desc k_createdAt (of_user userId)).

(** INSERT, with the unique (userId, fingerprint) and the foreign key. *)
Definition same_key (k : SshKeyRow) (_ : string) (k' : SshKeyRow) : bool :=
  bool_decide (k_userId k' = k_userId k) && bool_decide (k_fingerprint k' = k_fingerprint k).
Definition insert_key (c : Call) (k : SshKeyRow) : M St (string * SshKeyRow) := λ s,
  match find_first (same_key k) s with
  | Some _ => (s, Throw (PrismaError "P2002"))
  | None =>
      if userExists c (k_userId k) then (put (newId c) k s, Ret (newId c, k))
      else (s, Throw (PrismaError "P2003"))
  end.
Definition insert_or_conflict (c : Call) (k : SshKeyRow) : M St (string * SshKeyRow) :=
  try_catch (insert_key c k) (λ error,
    if bool_decide (error = PrismaError "P2002")
    then throw (ConflictException "This SSH key is already registered to your account")
    else throw error).

Definition create (c : Call) (userId : string) (dto : CreateSshKeyDto) : M St (string * SshKeyRow) :=
  fingerprint ← lift (generateFingerprint (dto_publicKey dto));
  insert_or_conflict c {| k_name := dto_name dto; k_publicKey := dto_publicKey dto;
    k_fingerprint := fingerprint; k_userId := userId; k_createdAt := now c |}.

Definition generateAndCreate (c : Call) (userId : string) (desiredName : option string)
    : M St Generated :=
  let safeName := sanitizeKeyName (opt_or desiredName "My Generated Key") in
  match jwk_n c ≫= nonempty, jwk_e c ≫= nonempty with
  | Some n, Some e =>
      sshPublicKey ← lift (buildSshRsaPublicKeyFromJwk n e);
      fingerprint ← lift (generateFingerprint sshPublicKey);
      created ← insert_or_conflict c {| k_name := safeName; k_publicKey := sshPublicKey;
        k_fingerprint := fingerprint; k_userId := userId; k_createdAt := now c |};
      mret {| g_key := created; g_privateKey := privatePem c;
              g_filename := "cloudvm-" +:+ safeName +:+ "-" +:+ isoDate c +:+ ".pem";
              g_notice := "This private key is shown once. Save it securely now." |}
  | _, _ => throw (BadRequestException "Unable to generate SSH key pair")
  end.

Definition delete (id userId : string) : M St string :=
  key ← gets (find_by_id id);
  match key with
  | None => throw (NotFoundException "SSH key not found")
  | Some k =>
      if negb (bool_decide (k_userId k = userId))
      then throw (ForbiddenException "You do not own this SSH key")
      else modify (delete_where (λ k' _, bool_decide (k' = id)));;
           mret "SSH key deleted successfully"%string
  end.
End service.
End SshKey.
