(* ===== verification/SshKeyProps.v ===== *)
(** * SshKeyProps: the wire format of the keys, and the key table

    The public key line a generated key gets is read back by the OpenSSH wire
    format; the table keeps one row per user and key. *)

From Stdlib Require Import ZArith Lia Ascii String.
From stdpp Require Import base list gmap sets strings pretty.
From S2P Require Import Prelude Text Js Regex Store VmKeyCrypto SshKey.
Import VmKeyCrypto SshKey.

Module SshKeyProps.

(** ** Reading the wire format (RFC 4251, RFC 4253) *)

(** The big-endian number of a byte sequence. *)
Definition be_value (l : Buffer) : Z := foldl (λ n c, 256 * n + code c) 0 l.

Definition read_field (l : Buffer) : option (Buffer * Buffer) :=
  match l with
  | a :: b :: c :: d :: rest =>
      let n := be_value [a; b; c; d] in
      if n <=? Z.of_nat (length rest)
      then Some (take (Z.to_nat n) rest, drop (Z.to_nat n) rest) else None
  | _ => None
  end.

(** A positive mpint: its first bit is clear. *)
Definition read_mpint (l : Buffer) : option (Z * Buffer) :=
  '(v, rest) ← read_field l;
  match v with
  | c :: _ => if code c <? 128 then Some (be_value v, rest) else None
  | [] => Some (0, rest)
  end.

Record RsaKey := { rk_type : string; rk_e : Z; rk_n : Z }.
Definition read_key (l : Buffer) : option RsaKey :=
  '(t, l1) ← read_field l;
  '(e, l2) ← read_mpint l1;
  '(n, l3) ← read_mpint l2;
  match l3 with [] => Some {| rk_type := str t; rk_e := e; rk_n := n |} | _ => None end.

(** ** Bytes and numbers *)

Lemma code_bounds c : 0 <= code c < 256.
Proof. unfold code. pose proof (nat_ascii_bounded c). lia. Qed.
Lemma code_byte n : 0 <= n < 256 → code (byte_of n) = n.
Proof. intros. unfold code, byte_of. rewrite nat_ascii_embedding; lia. Qed.
Lemma code_inj c d : code c = code d → c = d.
Proof.
  unfold code. intros E. rewrite <-(ascii_nat_embedding c), <-(ascii_nat_embedding d). f_equal. lia.
Qed.

Lemma be_value_snoc l c : be_value (l ++ [c]) = 256 * be_value l + code c.
Proof. unfold be_value. by rewrite foldl_app. Qed.
Lemma be_value_app l1 l2 : be_value (l1 ++ l2) = be_value l1 * 256 ^ Z.of_nat (length l2) + be_value l2.
Proof.
  induction l2 as [|c l2 IH] using rev_ind; [rewrite app_nil_r; change (be_value []) with 0; simpl; lia|].
  rewrite app_assoc, !be_value_snoc, IH, length_app. simpl.
  rewrite Nat2Z.inj_add, Z.pow_add_r by lia. lia.
Qed.
Lemma be_value_bounds l : 0 <= be_value l < 256 ^ Z.of_nat (length l).
Proof.
  induction l as [|c l IH] using rev_ind; [done|].
  rewrite be_value_snoc, length_app, Nat2Z.inj_add, Z.pow_add_r by lia. simpl.
  pose proof (code_bounds c). lia.
Qed.
Lemma be_value_cons c l : be_value (c :: l) = code c * 256 ^ Z.of_nat (length l) + be_value l.
Proof. change (c :: l) with ([c] ++ l). rewrite be_value_app. f_equal. Qed.

Lemma be_value_inj l1 l2 : length l1 = length l2 → be_value l1 = be_value l2 → l1 = l2.
Proof.
  revert l2. induction l1 as [|c l1 IH]; intros [|d l2]; simpl; try done. intros [= Hl] E.
  rewrite !be_value_cons, Hl in E.
  pose proof (be_value_bounds l1) as B1. pose proof (be_value_bounds l2) as B2. rewrite Hl in B1.
  set (P := 256 ^ Z.of_nat (length l2)) in *.
  assert (code c = code d).
  { assert (code c = (code c * P + be_value l1) / P) as -> by (rewrite Z.div_add_l, Z.div_small; lia).
    rewrite E. rewrite Z.div_add_l, Z.div_small; lia. }
  f_equal; [by apply code_inj|]. apply IH; [done|]. nia.
Qed.

(** ** Fields *)

Lemma uint32be_value n : 0 <= n < 2 ^ 32 → be_value (uint32be n) = n.
Proof.
  intros Hn. unfold uint32be, be_value. cbn [foldl].
  rewrite !code_byte by (apply Z.mod_pos_bound; lia).
  change (2 ^ 24) with (256 * 256 * 256). change (2 ^ 16) with (256 * 256). change (2 ^ 8) with 256.
  rewrite <-!Z.div_div by lia.
  pose proof (Z.div_mod n 256 ltac:(lia)). pose proof (Z.div_mod (n / 256) 256 ltac:(lia)).
  pose proof (Z.div_mod (n / 256 / 256) 256 ltac:(lia)).
  assert (n / 256 / 256 / 256 < 256).
  { rewrite !Z.div_div by lia. apply Z.div_lt_upper_bound; lia. }
  assert (0 <= n / 256 / 256 / 256) by (rewrite !Z.div_div by lia; apply Z.div_pos; lia).
  rewrite (Z.mod_small (n / 256 / 256 / 256)) by lia. lia.
Qed.

Lemma read_encoded_field d b rest : encodeSshField d = Ret b → read_field (b ++ rest) = Some (d, rest).
Proof.
  unfold encodeSshField. destruct (Z.leb_spec (2 ^ 32) (Z.of_nat (length d))); [done|].
  intros [= <-]. unfold uint32be. cbn [app]. unfold read_field.
  fold (uint32be (Z.of_nat (length d))). change [_; _; _; _] with (uint32be (Z.of_nat (length d))).
  rewrite uint32be_value by lia. rewrite length_app.
  rewrite (proj2 (Z.leb_le _ _)) by lia. rewrite Nat2Z.id, take_app_length, drop_app_length. done.
Qed.

(** ** Integers *)

(** The bytes [encodeMpint] writes behind the length. *)
Definition mpint_bytes (data : Buffer) : Buffer :=
  let v := match drop_zeros data with [] => [byte_of 0] | v => v end in
  match v with
  | c :: _ => if Z.land (code c) 128 =? 0 then v else byte_of 0 :: v
  | [] => v
  end.
Lemma encodeMpint_bytes data : encodeMpint data = encodeSshField (mpint_bytes data).
Proof. unfold encodeMpint, mpint_bytes. by destruct (drop_zeros data). Qed.

Lemma high_bit c : (Z.land (code c) 128 =? 0) = (code c <? 128).
Proof. destruct c as [[][][][][][][][]]; reflexivity. Qed.

Lemma drop_zeros_cons c d l :
  drop_zeros (c :: d :: l) = if code c =? 0 then drop_zeros (d :: l) else c :: d :: l.
Proof. done. Qed.
Lemma drop_zeros_value l : be_value (drop_zeros l) = be_value l.
Proof.
  induction l as [|c l IH]; [done|]. destruct l as [|d l]; [done|].
  rewrite drop_zeros_cons. destruct (Z.eqb_spec (code c) 0) as [E|]; [|done].
  rewrite IH, (be_value_cons c), E. lia.
Qed.

(** No superfluous zero byte is left in front. *)
Lemma drop_zeros_minimal l c d r : drop_zeros l = c :: d :: r → code c ≠ 0.
Proof.
  induction l as [|x l IH]; [done|]. destruct l as [|y l]; [done|].
  rewrite drop_zeros_cons. destruct (Z.eqb_spec (code x) 0) as [E|E]; [apply IH|].
  by intros [= -> -> ->].
Qed.

Lemma mpint_value data : be_value (mpint_bytes data) = be_value data.
Proof.
  unfold mpint_bytes. rewrite <-(drop_zeros_value data).
  destruct (drop_zeros data) as [|c r] eqn:E; [by vm_compute|].
  case_match; [done|]. rewrite be_value_cons, (code_byte 0) by lia. lia.
Qed.

(** The encoding is positive and minimal. *)
Lemma mpint_canonical data : ∃ c r, mpint_bytes data = c :: r ∧ code c < 128 ∧
  (code c = 0 → ∀ d r', r = d :: r' → 128 <= code d).
Proof.
  unfold mpint_bytes. pose proof (drop_zeros_minimal data) as Hmin.
  destruct (drop_zeros data) as [|c r] eqn:E.
  - exists (byte_of 0), []. by vm_compute.
  - rewrite high_bit. destruct (Z.ltb_spec (code c) 128) as [Hc|Hc].
    + exists c, r. split_and!; [done..|]. intros E0 d r' ->. by destruct (Hmin c d r').
    + exists (byte_of 0), (c :: r). rewrite code_byte by lia. split_and!; [done|lia|].
      by intros _ d r' [= -> ->].
Qed.

(** Equal numbers have equal encodings. *)
Definition minimal (l : Buffer) : Prop :=
  match l with [] => False | [_] => True | c :: _ => code c ≠ 0 end.

Lemma minimal_shorter l l' : minimal l' → be_value l = be_value l' → ¬ (0 < length l < length l')%nat.
Proof.
  intros Hm E Hl. destruct l' as [|c [|d r]]; simpl in Hl; [lia..|].
  assert (Hc : 1 <= code c) by (pose proof (code_bounds c); simpl in Hm; lia).
  pose proof (be_value_bounds l) as [_ Hup]. pose proof (be_value_bounds (d :: r)) as [Hlo _].
  rewrite E, be_value_cons in Hup.
  assert (256 ^ Z.of_nat (length l) <= 256 ^ Z.of_nat (length (d :: r)))
    by (apply Z.pow_le_mono_r; simpl; lia).
  pose proof (Z.pow_pos_nonneg 256 (Z.of_nat (length (d :: r))) ltac:(lia) ltac:(lia)). nia.
Qed.
Lemma minimal_inj l l' : minimal l → minimal l' → be_value l = be_value l' → l = l'.
Proof.
  intros Hm Hm' E. apply be_value_inj; [|done].
  pose proof (minimal_shorter l l' Hm' E). pose proof (minimal_shorter l' l Hm (eq_sym E)).
  assert (length l ≠ 0 ∧ length l' ≠ 0)%nat by (destruct l, l'; done). lia.
Qed.

Definition normalised (data : Buffer) : Buffer :=
  match drop_zeros data with [] => [byte_of 0] | v => v end.
Lemma normalised_minimal data : minimal (normalised data) ∧ be_value (normalised data) = be_value data.
Proof.
  unfold normalised. rewrite <-(drop_zeros_value data). pose proof (drop_zeros_minimal data) as Hmin.
  destruct (drop_zeros data) as [|c [|d r]]; [by vm_compute|done|]. split; [by eapply Hmin|done].
Qed.

Lemma mpint_unique a b : be_value a = be_value b → encodeMpint a = encodeMpint b.
Proof.
  intros E. destruct (normalised_minimal a) as [Ma Va], (normalised_minimal b) as [Mb Vb].
  assert (En : normalised a = normalised b) by (apply minimal_inj; congruence).
  rewrite !encodeMpint_bytes. unfold mpint_bytes. fold (normalised a) (normalised b). by rewrite En.
Qed.

Lemma read_encoded_mpint data b rest :
  encodeMpint data = Ret b → read_mpint (b ++ rest) = Some (be_value data, rest).
Proof.
  rewrite encodeMpint_bytes. intros E. unfold read_mpint. rewrite (read_encoded_field _ _ _ E).
  cbn [mbind option_bind]. destruct (mpint_canonical data) as (c & r & Em & Hc & _).
  rewrite Em, (proj2 (Z.ltb_lt _ _)) by done. by rewrite <-Em, mpint_value.
Qed.

(** A buffer a field can hold, with the sign byte. *)
Lemma encodeMpint_total data : Z.of_nat (length data) < 2 ^ 32 - 1 → ∃ b, encodeMpint data = Ret b.
Proof.
  intros Hl. rewrite encodeMpint_bytes. unfold encodeSshField.
  assert (Hd : (length (drop_zeros data) ≤ length data)%nat).
  { clear. induction data as [|c l IH]; [done|]. destruct l as [|d l]; [done|].
    rewrite drop_zeros_cons. case_match; [|done]. simpl in *. lia. }
  assert (Hm : (length (mpint_bytes data) ≤ S (length data))%nat).
  { unfold mpint_bytes. destruct (drop_zeros data); simpl in *; repeat case_match; simpl; lia. }
  rewrite (proj2 (Z.leb_gt _ _)) by lia. eauto.
Qed.

(** C15: a generated key is a well-formed OpenSSH public key.  For every exponent
    and modulus, the line the service stores is [ssh-rsa] and a base64 text that
    decodes, by the wire format, to the type [ssh-rsa] and exactly these two
    positive numbers; and the text depends on the numbers only, not on how the
    JWK padded them. *)
Theorem ssh_public_key_roundtrip `{Base64} n e :
  Z.of_nat (length (base64UrlToBuffer n)) < 2 ^ 32 - 1 →
  Z.of_nat (length (base64UrlToBuffer e)) < 2 ^ 32 - 1 →
  (∃ blob, buildSshRsaPublicKeyFromJwk n e = Ret ("ssh-rsa " +:+ blob) ∧
     read_key (chars (unbase64 blob)) =
       Some {| rk_type := "ssh-rsa"; rk_e := be_value (base64UrlToBuffer e);
               rk_n := be_value (base64UrlToBuffer n) |}) ∧
  (∀ n' e', be_value (base64UrlToBuffer n') = be_value (base64UrlToBuffer n) →
     be_value (base64UrlToBuffer e') = be_value (base64UrlToBuffer e) →
     buildSshRsaPublicKeyFromJwk n' e' = buildSshRsaPublicKeyFromJwk n e).
Proof.
  intros Hn He. split.
  - destruct (encodeMpint_total _ Hn) as [bn En]. destruct (encodeMpint_total _ He) as [be Ee].
    unfold buildSshRsaPublicKeyFromJwk. rewrite En, Ee.
    assert (Et : encodeSshField (chars "ssh-rsa") = Ret (uint32be 7 ++ chars "ssh-rsa")) by done.
    rewrite Et. eexists. split; [done|]. rewrite unbase64_base64, chars_str. unfold read_key.
    rewrite (read_encoded_field _ _ _ Et). cbn [mbind option_bind].
    rewrite (read_encoded_mpint _ _ _ Ee). cbn [mbind option_bind].
    rewrite <-(app_nil_r bn), (read_encoded_mpint _ _ _ En). done.
  - intros n' e' Hn' He'. unfold buildSshRsaPublicKeyFromJwk.
    by rewrite (mpint_unique _ _ Hn'), (mpint_unique _ _ He').
Qed.

(** ** Names *)

Definition safe_char (c : ascii) : bool :=
  is_alnum c || bool_decide (c = "-"%char) || bool_decide (c = "_"%char).

(** A generated key's name, and so the downloaded file's name, is 1 to 48
    letters, digits, dashes and underscores, whatever the user asked for. *)
Lemma sanitizeKeyName_safe input :
  1 <= js_length (sanitizeKeyName input) <= 48 ∧
  Forall (λ c, safe_char c = true) (chars (sanitizeKeyName input)).
Proof.
  unfold sanitizeKeyName. set (w := filter_chars name_char _).
  destruct (truthy (slice_head 48 (spaces_to_dash w))) eqn:Et; [|by repeat constructor; vm_compute].
  unfold slice_head in *. split.
  - unfold js_length. rewrite length_str, length_take. apply truthy_true in Et.
    destruct (chars (spaces_to_dash w)); [done|]. cbn [length]. lia.
  - rewrite chars_str. apply Forall_take. unfold spaces_to_dash, replace_char, map_chars.
    rewrite chars_str. apply Forall_fmap, Forall_forall. intros c Hc.
    unfold collapse_ws in Hc. rewrite chars_str in Hc. simpl.
    destruct (collapse_ws_sub _ _ _ Hc) as [->|[Hin Hws]]; [done|].
    unfold w, filter_chars in Hin. rewrite chars_str in Hin.
    apply list_elem_of_In, filter_In in Hin as [_ Hn].
    case_bool_decide as Esp; [by subst|]. unfold name_char in Hn.
    rewrite (bool_decide_false (c = " "%char)), orb_false_r in Hn by done. exact Hn.
Qed.

(** ** The table *)

Section table.
Context {T : Type → Type} `{DatabaseLaws T} `{Base64} `{Sha256Base64}.
Abbreviation St := (T SshKeyRow).

Definition owner_key (k : SshKeyRow) : option (string * string) := Some (k_userId k, k_fingerprint k).
Record keys_ok (t : St) : Prop := {
  ko_unique : unique_by owner_key (rows t);
  ko_fingerprint : ∀ id k, rows t !! id = Some k →
    generateFingerprint (k_publicKey k) = Ret (k_fingerprint k);
}.

(** The routes, behind the JWT guard: the user is the one of the token. *)
Inductive Request :=
| RCreate (dto : CreateSshKeyDto)
| RGenerate (name : option string)
| RDelete (id : string).
Definition handle (c : Call) (userId : string) (r : Request) : M St unit :=
  match r with
  | RCreate dto => create c userId dto;; mret tt
  | RGenerate name => generateAndCreate c userId name;; mret tt
  | RDelete id => delete id userId;; mret tt
  end.
Definition run (reqs : list (Call * string * Request)) (s : St) : St :=
  foldl (λ s cur, (handle cur.1.1 cur.1.2 cur.2 s).1) s reqs.

(** What a request of [userId] may do to the table: nothing, add a row of this
    user whose key is new to them, or remove one row of this user. *)
Inductive key_step (c : Call) (userId : string) (s s' : St) : Prop :=
| ks_same : s' = s → key_step c userId s s'
| ks_add k : rows s' = <[newId c := k]> (rows s) → k_userId k = userId →
    generateFingerprint (k_publicKey k) = Ret (k_fingerprint k) →
    (∀ id' k', rows s !! id' = Some k' → owner_key k' ≠ owner_key k) → key_step c userId s s'
| ks_remove id k : rows s !! id = Some k → k_userId k = userId →
    rows s' = base.delete id (rows s) → key_step c userId s s'.

Lemma insert_step c k s :
  generateFingerprint (k_publicKey k) = Ret (k_fingerprint k) →
  key_step c (k_userId k) s (insert_or_conflict c k s).1.
Proof.
  intros Hf. unfold insert_or_conflict, insert_key, try_catch.
  destruct (find_first (same_key k) s) as [p|] eqn:E; [by apply ks_same|].
  destruct (userExists c (k_userId k)); [|by apply ks_same].
  apply (ks_add c _ s _ k); [apply rows_put|done..|]. intros id' k' Hk' [= E1 E2].
  pose proof (find_first_None _ _ E _ _ Hk') as Hs. unfold same_key in Hs.
  by rewrite E1, E2, !bool_decide_true in Hs.
Qed.

Lemma handle_step c userId r s : key_step c userId s (handle c userId r s).1.
Proof.
  destruct r as [dto|name|id]; cbn [handle]; rewrite then_unit.
  - unfold create. unfold mbind at 1, M_bind at 1, lift.
    destruct (generateFingerprint (dto_publicKey dto)) as [fp|e] eqn:E; [|by apply ks_same].
    by apply (insert_step c {| k_name := _; k_publicKey := _; k_fingerprint := fp; k_userId := userId;
                               k_createdAt := _ |}).
  - unfold generateAndCreate.
    destruct (jwk_n c ≫= nonempty) as [n|]; [|by apply ks_same].
    destruct (jwk_e c ≫= nonempty) as [e|]; [|by apply ks_same].
    unfold mbind at 1, M_bind at 1, lift at 1.
    destruct (buildSshRsaPublicKeyFromJwk n e) as [pk|err]; [|by apply ks_same].
    unfold mbind at 1, M_bind at 1, lift at 1.
    destruct (generateFingerprint pk) as [fp|err] eqn:E; [|by apply ks_same].
    set (k := {| k_name := _; k_publicKey := pk; k_fingerprint := fp; k_userId := userId; k_createdAt := _ |}).
    pose proof (insert_step c k s E) as Hst. unfold mbind, M_bind.
    by destruct (insert_or_conflict c k s) as [s' [kr|err]].
  - unfold delete. m_red. unfold find_by_id. destruct (rows s !! id) as [k|] eqn:E; [|by apply ks_same].
    destruct (bool_decide_reflect (k_userId k = userId)) as [Hu|Hu]; simpl; [|by apply ks_same].
    apply (ks_remove c userId s _ id k); [done..|]. apply map_eq. intros id'.
    rewrite rows_delete_where, lookup_delete. destruct (rows s !! id') as [k'|] eqn:E'; [|by case_decide].
    case_bool_decide; case_decide; congruence.
Qed.

Lemma keys_ok_step c userId s s' : key_step c userId s s' → keys_ok s → keys_ok s'.
Proof.
  intros [->|k Er Hu Hf Hn|id k Hk Hu Er] [Hun Hfp]; [done|..]; split; rewrite Er.
  - apply unique_by_insert; [|done]. intros k' r' x _ Hr' Hx Hx'. eapply Hn; [exact Hr'|congruence].
  - intros id k'. rewrite lookup_insert_Some. intros [[_ <-]|[_ Hk']]; [done|by eapply Hfp].
  - eapply unique_by_sub; [|exact Hun]. intros k1 r1. rewrite lookup_delete_Some. naive_solver.
  - intros id' k'. rewrite lookup_delete_Some. intros [_ Hk']. by eapply Hfp.
Qed.

(** The key table is sound in every reachable state.  No user has one key
    twice, every stored fingerprint is the fingerprint of its public key, and a
    request changes only rows of the user who sent it: every row of another user
    (under an id that is not handed out again) stays as it was. *)
Theorem ssh_keys_sound reqs s0 (s := run reqs s0) :
  rows s0 = ∅ →
  keys_ok s ∧
  ∀ c userId r id k, rows s !! id = Some k → k_userId k ≠ userId → id ≠ newId c →
    rows (handle c userId r s).1 !! id = Some k.
Proof.
  intros H0'. split.
  - assert (Hok : keys_ok s0) by (split; rewrite H0'; [apply unique_by_empty|done]).
    subst s. revert s0 H0' Hok. unfold run. induction reqs as [|[[c u] r] reqs IH] using rev_ind;
      intros s0 H0' Hok; [done|]. rewrite foldl_app. simpl.
    eapply keys_ok_step; [apply handle_step|]. by apply IH.
  - intros c userId r id k Hk Hu Hid.
    destruct (handle_step c userId r s) as [E|k' Er _ _ _|id' k' Hk' Hu' Er].
    + by rewrite E.
    + rewrite Er, lookup_insert_ne by done. done.
    + rewrite Er, lookup_delete_ne; [done|]. intros ->. congruence.
Qed.
End table.
End SshKeyProps.
