(* ===== verification/Telemetry.v ===== *)
(** * Telemetry: counters and audit trail of the terminal gateway

    services/vm/src/terminal/terminal-telemetry.service.ts and the metrics route
    of terminal-metrics.controller.ts.  [at] and [connectedAt] are instants in
    milliseconds; the clock of a call is its [now] argument. *)

From Stdlib Require Import ZArith Lia Ascii String.
From stdpp Require Import base list sets strings pretty.
From S2P Require Import Prelude Text Js RequestSecurity.
Import RequestSecurity.

Module Telemetry.

Inductive AuditKind :=
| connect_attempt | connect_success | connect_denied | connect_failed
| disconnect | input_rejected | input_accepted.

Record TerminalAuditEvent := {
  a_at : Z; a_event : AuditKind; a_clientId : string; a_vmId : option string;
  a_userId : option string; a_detail : option string;
}.

Record TerminalClientStats := {
  connectedAt : Z; cs_vmId : option string; cs_userId : option string;
  inputBytes : Z; outputBytes : Z;
}.

Record TerminalTelemetry := {
  startedAt : Z;
  clients : list (string * TerminalClientStats);
  audits : list TerminalAuditEvent;
  totalConnections : Z; failedConnections : Z; rejectedInputs : Z;
  totalInputBytes : Z; totalOutputBytes : Z;
}.

Definition maxAudits : nat := 300.

Definition new_telemetry (now : Z) : TerminalTelemetry :=
  {| startedAt := now; clients := []; audits := []; totalConnections := 0;
     failedConnections := 0; rejectedInputs := 0; totalInputBytes := 0; totalOutputBytes := 0 |}.

Definition set_clients (x : list (string * TerminalClientStats)) (t : TerminalTelemetry) :=
  {| startedAt := startedAt t; clients := x; audits := audits t;
     totalConnections := totalConnections t; failedConnections := failedConnections t;
     rejectedInputs := rejectedInputs t; totalInputBytes := totalInputBytes t;
     totalOutputBytes := totalOutputBytes t |}.
Definition set_audits (x : list TerminalAuditEvent) (t : TerminalTelemetry) :=
  {| startedAt := startedAt t; clients := clients t; audits := x;
     totalConnections := totalConnections t; failedConnections := failedConnections t;
     rejectedInputs := rejectedInputs t; totalInputBytes := totalInputBytes t;
     totalOutputBytes := totalOutputBytes t |}.
(** The increments of the five counters. *)
Definition add_counters (connections failed rejected input output : Z) (t : TerminalTelemetry) :=
  {| startedAt := startedAt t; clients := clients t; audits := audits t;
     totalConnections := totalConnections t + connections;
     failedConnections := failedConnections t + failed;
     rejectedInputs := rejectedInputs t + rejected;
     totalInputBytes := totalInputBytes t + input;
     totalOutputBytes := totalOutputBytes t + output |}.

(** [push], then [splice(0, length - maxAudits)]. *)
Definition recordAudit (e : TerminalAuditEvent) (t : TerminalTelemetry) : TerminalTelemetry :=
  let pushed := audits t ++ [e] in
  set_audits (if (maxAudits <? length pushed)%nat
              then drop (length pushed - maxAudits) pushed else pushed) t.

Definition audit (now : Z) (k : AuditKind) (clientId : string) (vmId userId detail : option string)
    : TerminalTelemetry → TerminalTelemetry :=
  recordAudit {| a_at := now; a_event := k; a_clientId := clientId; a_vmId := vmId;
                 a_userId := userId; a_detail := detail |}.

Definition markConnectAttempt (now : Z) (clientId : string) (vmId userId : option string)
    : TerminalTelemetry → TerminalTelemetry :=
  audit now connect_attempt clientId vmId userId None.

Definition markConnectSuccess (now : Z) (clientId : string) (vmId userId : option string)
    (t : TerminalTelemetry) : TerminalTelemetry :=
  let t1 := add_counters 1 0 0 0 0 t in
  let t2 := set_clients (jset clientId {| connectedAt := now; cs_vmId := vmId; cs_userId := userId;
                                          inputBytes := 0; outputBytes := 0 |} (clients t1)) t1 in
  audit now connect_success clientId vmId userId None t2.

Definition markConnectDenied (now : Z) (clientId detail : string) (vmId userId : option string)
    (t : TerminalTelemetry) : TerminalTelemetry :=
  audit now connect_denied clientId vmId userId (Some detail) (add_counters 0 1 0 0 0 t).

Definition markConnectFailed (now : Z) (clientId detail : string) (vmId userId : option string)
    (t : TerminalTelemetry) : TerminalTelemetry :=
  audit now connect_failed clientId vmId userId (Some detail) (add_counters 0 1 0 0 0 t).

Definition markDisconnect (now : Z) (clientId : string) (detail : option string)
    (t : TerminalTelemetry) : TerminalTelemetry :=
  let existing := jget clientId (clients t) in
  let t1 := audit now disconnect clientId (existing ≫= cs_vmId) (existing ≫= cs_userId) detail t in
  set_clients (jdelete clientId (clients t1)) t1.

Definition add_bytes (input output : Z) (s : TerminalClientStats) : TerminalClientStats :=
  {| connectedAt := connectedAt s; cs_vmId := cs_vmId s; cs_userId := cs_userId s;
     inputBytes := inputBytes s + input; outputBytes := outputBytes s + output |}.
(** [if (existing) existing.inputBytes += bytes]: the entry is shared with the map. *)
Definition bump_client (clientId : string) (input output : Z) (t : TerminalTelemetry) :=
  match jget clientId (clients t) with
  | Some s => set_clients (jset clientId (add_bytes input output s) (clients t)) t
  | None => t
  end.

Definition addInputBytes (now : Z) (clientId : string) (bytes : Z) (t : TerminalTelemetry)
    : TerminalTelemetry :=
  let existing := jget clientId (clients t) in
  audit now input_accepted clientId (existing ≫= cs_vmId) (existing ≫= cs_userId)
    (Some (pretty bytes +:+ " bytes"))
    (add_counters 0 0 0 bytes 0 (bump_client clientId bytes 0 t)).

Definition addOutputBytes (clientId : string) (bytes : Z) (t : TerminalTelemetry) : TerminalTelemetry :=
  add_counters 0 0 0 0 bytes (bump_client clientId 0 bytes t).

Definition markInputRejected (now : Z) (clientId detail : string) (t : TerminalTelemetry)
    : TerminalTelemetry :=
  let t1 := add_counters 0 0 1 0 0 t in
  let existing := jget clientId (clients t1) in
  audit now input_rejected clientId (existing ≫= cs_vmId) (existing ≫= cs_userId) (Some detail) t1.

(** What the metrics route answers. *)
Record ActiveClient := {
  ac_clientId : string; ac_vmId : option string; ac_userId : option string;
  ac_connectedForSeconds : Z; ac_inputBytes : Z; ac_outputBytes : Z;
}.
Record Snapshot := {
  uptimeSeconds : Z; activeSessions : Z; sn_totalConnections : Z; sn_failedConnections : Z;
  sn_rejectedInputs : Z; sn_totalInputBytes : Z; sn_totalOutputBytes : Z;
  activeClients : list ActiveClient; recentAuditEvents : list TerminalAuditEvent;
}.

Definition getSnapshot (now : Z) (t : TerminalTelemetry) : Snapshot :=
  {| uptimeSeconds := (now - startedAt t) / 1000;
     activeSessions := Z.of_nat (length (clients t));
     sn_totalConnections := totalConnections t; sn_failedConnections := failedConnections t;
     sn_rejectedInputs := rejectedInputs t; sn_totalInputBytes := totalInputBytes t;
     sn_totalOutputBytes := totalOutputBytes t;
     activeClients := (λ '(clientId, s),
       {| ac_clientId := clientId; ac_vmId := cs_vmId s; ac_userId := cs_userId s;
          ac_connectedForSeconds := (now - connectedAt s) / 1000;
          ac_inputBytes := inputBytes s; ac_outputBytes := outputBytes s |}) <$> clients t;
     recentAuditEvents := drop (length (audits t) - 100) (audits t) |}.

(** TerminalMetricsController.getMetrics, behind the JWT guard. *)
Definition getMetrics (now : Z) (user : Identity) (t : TerminalTelemetry) : outcome Snapshot :=
  if negb (bool_decide (role user = Some "ADMIN"%string))
  then Throw (ForbiddenException "Only admins can access terminal metrics")
  else Ret (getSnapshot now t).

(** ** The invariant of the counters *)

Record wf (t : TerminalTelemetry) : Prop := {
  wf_audits : (length (audits t) ≤ maxAudits)%nat;
  wf_keys : NoDup (jkeys (clients t));
  wf_bytes : Forall (λ kv, 0 <= inputBytes kv.2 ∧ 0 <= outputBytes kv.2) (clients t);
  wf_input : sumZ (inputBytes ∘ snd) (clients t) <= totalInputBytes t;
  wf_output : sumZ (outputBytes ∘ snd) (clients t) <= totalOutputBytes t;
  wf_active : Z.of_nat (length (clients t)) <= totalConnections t;
}.
Create HintDb telemetry.

Lemma wf_new now : wf (new_telemetry now).
Proof. split; simpl; try done; [lia|constructor]. Qed.

Lemma wf_audit now k c v u d t : wf t → wf (audit now k c v u d t).
Proof.
  intros [Ha Hk Hb Hi Ho Hc]. split; simpl; try done.
  case_match eqn:E; [|by apply Nat.ltb_ge in E]. rewrite length_drop. unfold maxAudits in *. lia.
Qed.

Lemma wf_counters c f r i o t : 0 <= c → 0 <= i → 0 <= o → wf t → wf (add_counters c f r i o t).
Proof. intros ??? [Ha Hk Hb Hi Ho Hc]. split; simpl; try done; lia. Qed.

Lemma Forall_jset {V} (P : V → Prop) k v (m : list (string * V)) :
  Forall (P ∘ snd) m → P v → Forall (P ∘ snd) (jset k v m).
Proof.
  intros Hm Hv. induction Hm as [|[x w] m Hw Hm IH]; simpl; [by repeat constructor|].
  case_bool_decide; by constructor.
Qed.
Lemma Forall_jdelete {V} (P : V → Prop) k (m : list (string * V)) :
  Forall (P ∘ snd) m → Forall (P ∘ snd) (jdelete k m).
Proof.
  unfold jdelete. induction 1 as [|[x w] m Hw Hm IH]; simpl; [constructor|].
  case_match; [by constructor|done].
Qed.
Lemma jget_Forall {V} (P : V → Prop) k v (m : list (string * V)) :
  Forall (P ∘ snd) m → jget k m = Some v → P v.
Proof.
  induction 1 as [|[x w] m Hw Hm IH]; simpl; [done|]. case_bool_decide; naive_solver.
Qed.

Abbreviation nonneg_stats := (λ s, 0 <= inputBytes s ∧ 0 <= outputBytes s).

Lemma sumZ_jset_zero {V} (f : V → Z) k v (m : list (string * V)) :
  Forall ((λ w, 0 <= f w) ∘ snd) m → f v = 0 →
  sumZ (f ∘ snd) (jset k v m) <= sumZ (f ∘ snd) m.
Proof.
  intros Hm Hv. rewrite sumZ_jset. destruct (jget k m) as [w|] eqn:E; simpl; [|lia].
  apply (jget_Forall (λ w, 0 <= f w)) in E; [lia|done].
Qed.

Lemma nonneg_stats_split (m : list (string * TerminalClientStats)) :
  Forall (nonneg_stats ∘ snd) m →
  Forall ((λ s, 0 <= inputBytes s) ∘ snd) m ∧ Forall ((λ s, 0 <= outputBytes s) ∘ snd) m.
Proof. intros Hm. split; eapply Forall_impl; try exact Hm; by intros [? ?] [? ?]. Qed.

Lemma wf_connected k v t :
  wf t → inputBytes v = 0 → outputBytes v = 0 →
  wf (set_clients (jset k v (clients t)) (add_counters 1 0 0 0 0 t)).
Proof.
  intros [Ha Hk Hb Hi Ho Hc] Hvi Hvo.
  destruct (nonneg_stats_split _ Hb) as [Hbi Hbo]. split; simpl; try done.
  - by apply jset_NoDup.
  - apply (Forall_jset nonneg_stats); [done|lia].
  - pose proof (sumZ_jset_zero inputBytes k v _ Hbi Hvi). lia.
  - pose proof (sumZ_jset_zero outputBytes k v _ Hbo Hvo). lia.
  - pose proof (length_jset k v (clients t)). lia.
Qed.

Lemma wf_bump k i o t :
  wf t → 0 <= i → 0 <= o → wf (add_counters 0 0 0 i o (bump_client k i o t)).
Proof.
  intros Ht Hi0 Ho0. unfold bump_client.
  destruct (jget k (clients t)) as [s|] eqn:E; [|by apply wf_counters].
  destruct Ht as [Ha Hk Hb Hi Ho Hc]. pose proof (jget_Some_key _ _ _ E) as Hin.
  pose proof (jget_Forall nonneg_stats _ _ _ Hb E) as [? ?].
  split; simpl; try done.
  - by apply jset_NoDup.
  - apply (Forall_jset nonneg_stats); [done|simpl; lia].
  - rewrite sumZ_jset, E. simpl. lia.
  - rewrite sumZ_jset, E. simpl. lia.
  - rewrite <-(length_fmap fst (jset _ _ _)). fold (jkeys (jset k (add_bytes i o s) (clients t))).
    rewrite jset_present by done. unfold jkeys. rewrite length_fmap. lia.
Qed.

Lemma wf_delete k t : wf t → wf (set_clients (jdelete k (clients t)) t).
Proof.
  intros [Ha Hk Hb Hi Ho Hc]. destruct (nonneg_stats_split _ Hb) as [Hbi Hbo].
  split; simpl; try done.
  - by apply jdelete_NoDup.
  - by apply (Forall_jdelete nonneg_stats).
  - pose proof (sumZ_jdelete inputBytes k _ Hbi). lia.
  - pose proof (sumZ_jdelete outputBytes k _ Hbo). lia.
  - pose proof (length_jdelete k (clients t)). lia.
Qed.
#[export] Hint Resolve wf_new wf_audit wf_counters wf_connected wf_bump wf_delete : telemetry.

(** Every method keeps the invariant. *)
Lemma wf_attempt now c v u t : wf t → wf (markConnectAttempt now c v u t).
Proof. unfold markConnectAttempt. auto with telemetry. Qed.
Lemma wf_success now c v u t : wf t → wf (markConnectSuccess now c v u t).
Proof. intros. unfold markConnectSuccess. apply wf_audit. by apply (wf_connected c _ t). Qed.
Lemma wf_denied now c d v u t : wf t → wf (markConnectDenied now c d v u t).
Proof. intros. unfold markConnectDenied. by apply wf_audit, wf_counters. Qed.
Lemma wf_failed now c d v u t : wf t → wf (markConnectFailed now c d v u t).
Proof. intros. unfold markConnectFailed. by apply wf_audit, wf_counters. Qed.
Lemma wf_disconnect now c d t : wf t → wf (markDisconnect now c d t).
Proof. unfold markDisconnect. auto with telemetry. Qed.
Lemma wf_addInput now c n t : 0 <= n → wf t → wf (addInputBytes now c n t).
Proof. intros. unfold addInputBytes. apply wf_audit, wf_bump; [done|done|lia]. Qed.
Lemma wf_addOutput c n t : 0 <= n → wf t → wf (addOutputBytes c n t).
Proof. intros. unfold addOutputBytes. apply wf_bump; [done|lia|done]. Qed.
Lemma wf_rejected now c d t : wf t → wf (markInputRejected now c d t).
Proof. intros. unfold markInputRejected. by apply wf_audit, wf_counters. Qed.
#[export] Hint Resolve wf_attempt wf_success wf_denied wf_failed wf_disconnect
  wf_addInput wf_addOutput wf_rejected : telemetry.

(** The snapshot an administrator reads is bounded and consistent with itself. *)
Lemma snapshot_sound now t (n := getSnapshot now t) : wf t →
  (length (recentAuditEvents n) ≤ 100)%nat ∧
  Z.of_nat (length (activeClients n)) = activeSessions n ∧
  activeSessions n <= sn_totalConnections n ∧
  sumZ ac_inputBytes (activeClients n) <= sn_totalInputBytes n ∧
  sumZ ac_outputBytes (activeClients n) <= sn_totalOutputBytes n.
Proof.
  intros [Ha Hk Hb Hi Ho Hc]. subst n. split_and!; simpl; try done.
  - rewrite length_drop. lia.
  - by rewrite length_fmap.
  - by rewrite (sumZ_fmap _ _ (inputBytes ∘ snd)) by (by intros [k s]).
  - by rewrite (sumZ_fmap _ _ (outputBytes ∘ snd)) by (by intros [k s]).
Qed.
End Telemetry.
