(* ===== verification/TerminalProps.v ===== *)
(** * TerminalProps: who gets a terminal, and what passes through it

    Invariants of [Terminal.run] from the empty gateway, whatever messages the
    browsers send and whatever ssh2 and the timers do. *)

From Stdlib Require Import ZArith QArith Qround Lia Ascii String.
From stdpp Require Import base list gmap sets strings pretty.
From S2P Require Import Prelude Text Js Regex Crypto RequestSecurity Sockets Telemetry VmKeyCrypto Vm Terminal.
Import RequestSecurity Sockets Terminal.
#[local] Open Scope Z_scope.
#[local] Existing Instance Vm.VmStatus_eq_dec.

Module TerminalProps.
Section props.
Context `{Hashing, UriCodec, Jwt, KeyParser, UrlParser}.

(** ** Admission *)

(** A token that the handshake of the socket carries. *)
Definition presents (sock : TSocket) (token : string) : Prop :=
  handshakeToken sock = Ret (Some token).

(** The flow was opened by this message of this socket, whose token is bound to
    the socket's client and names an administrator or the owner of the running
    machine the database returned. *)
Record admitted (c : Call) (sock : TSocket) (p : ConnectPayload) (f : Flow) : Prop := {
  ad_client : fl_client f = socket_id sock;
  ad_payload : fl_payload f = p;
  ad_vmId : p_vmId p = Some (fl_vmId f);
  ad_user : ∃ token, presents sock token ∧
    jwt_verify (default "" (env c "JWT_SECRET")) token (now c) = Some (fl_user f) ∧
    (skipFingerprint (env c) = true ∨
     c_fp (fl_user f) = Some (buildSocketFingerprint (handshake sock)));
  ad_vm : findVm c (fl_vmId f) = Ret (Some (fl_vm f));
  ad_may : c_role (fl_user f) = Some "ADMIN"%string ∨ c_sub (fl_user f) = Some (Vm.vm_userId (fl_vm f));
  ad_running : Vm.vm_status (fl_vm f) = Vm.RUNNING;
  ad_host : opt_truthy (Vm.vm_sshHost (fl_vm f)) = true;
}.

(** The part of a flow its closures never assign. *)
Definition static (f : Flow) : Flow := set_timer None [] (set_attempts false false false f).
Definition statics (s : State) : list Flow := static <$> flows s.

(** What an effect needs: its flow, and the event that justifies it. *)
Definition effect_ok (evs : list (Call * Event)) (fs : list Flow) (e : Effect) : Prop :=
  match e with
  | StreamWrite r d => ∃ f c,
      fs !! cr_flow r = Some f ∧ (c, EvInput (fl_client f) (Some d)) ∈ evs
  | Emit id (MOutput d) => ∃ i r f c,
      fs !! i = Some f ∧ fl_client f = id ∧ (c, EvData i r d) ∈ evs
  | Emit id (MConnected _) => ∃ i f, fs !! i = Some f ∧ fl_client f = id
  | SshConnect r o => ∃ f, fs !! cr_flow r = Some f ∧
      match cr_role r with
      | Bastion => ∃ b, fl_bastionConfig f = Some b ∧ co_target o = Some (b_host b, b_port b)
      | Via => co_target o = None
      | _ => co_target o = Some (sshHost f, sshPort f)
      end
  | ForwardOut r h p => ∃ f, fs !! cr_flow r = Some f ∧ h = sshHost f ∧ p = sshPort f
  | SetWindow _ rows cols => 10 <= rows <= 200 ∧ 20 <= cols <= 500
  | _ => True
  end.

Record Inv (evs : list (Call * Event)) (s : State) : Prop := {
  inv_flows : ∀ i f, statics s !! i = Some f →
    ∃ c sock p, (c, EvConnect sock p) ∈ evs ∧ admitted c sock p f;
  inv_sessions : ∀ id ss, sessions s !! id = Some ss →
    ∃ f, statics s !! cr_flow (stream ss) = Some f ∧ fl_client f = id;
  inv_effects : ∀ e, e ∈ effects s → effect_ok evs (statics s) e;
}.

(** Handlers on behalf of flow [i] keep the invariant and its flow. *)
Definition flow_at (i : nat) (f : Flow) (s : State) : Prop := statics s !! i = Some (static f).
Definition keeps (evs : list (Call * Event)) (K : State → Prop) (s s' : State) : Prop :=
  Inv evs s ∧ K s → Inv evs s' ∧ K s'.

#[local] Instance keeps_refl evs K : Reflexive (keeps evs K).
Proof. intros s HI. exact HI. Qed.
#[local] Instance keeps_trans evs K : Transitive (keeps evs K).
Proof. intros s1 s2 s3 H12 H23 HI. by apply H23, H12. Qed.

(** Facts that depend only on the static part of the flows. *)
Definition static_fact (K : State → Prop) : Prop :=
  ∀ s s', statics s = statics s' → K s → K s'.
Lemma flow_at_static i f : static_fact (flow_at i f).
Proof. intros s s' E. unfold flow_at. by rewrite E. Qed.
Lemma true_static : static_fact (λ _, True).
Proof. done. Qed.
Create HintDb terminal.
#[local] Hint Resolve flow_at_static true_static : terminal.

Section rules.
Context (evs : list (Call * Event)) (K : State → Prop) (HK : static_fact K).
Abbreviation R := (keeps evs K).

Lemma Inv_same s s' :
  statics s = statics s' → sessions s' ⊆ sessions s → effects s' = effects s →
  Inv evs s → Inv evs s'.
Proof.
  intros E1 E2 E3 [Hf Hs He]. split.
  - rewrite <-E1. done.
  - rewrite <-E1. intros id ss Hid. apply Hs. by eapply lookup_weaken.
  - rewrite <-E1, E3. done.
Qed.

Lemma keeps_tele g : preserves R (tele g).
Proof.
  apply preserves_modify. intros s [HI Hk]. split; [|by eapply HK; [|exact Hk]].
  by eapply Inv_same; [| | |exact HI].
Qed.

Lemma keeps_limits (w : State → gmap string Window) e d b :
  preserves R (modify (λ s, set_limits (w s) (e s) (d s) (b s) s)).
Proof.
  apply preserves_modify. intros s [HI Hk]. split; [|by eapply HK; [|exact Hk]].
  by eapply Inv_same; [| | |exact HI].
Qed.

Lemma keeps_act e :
  (∀ s, Inv evs s → K s → effect_ok evs (statics s) e) → preserves R (act e).
Proof.
  intros He. apply preserves_modify. intros s [HI Hk]. pose proof (He s HI Hk) as Hok.
  split; [|by eapply HK; [|exact Hk]]. destruct HI as [Hf Hs Hes]. split; [exact Hf|exact Hs|].
  intros e' [Hin|Hin]%elem_of_app; [by apply Hes|].
  apply list_elem_of_singleton in Hin as ->. exact Hok.
Qed.

Lemma statics_alter g i s :
  (∀ f, static (g f) = static f) → statics (set_flows (alter g i (flows s)) s) = statics s.
Proof.
  intros Hg. unfold statics. simpl. apply list_eq. intros j. rewrite !list_lookup_fmap.
  destruct (decide (i = j)) as [->|Hne].
  - rewrite list_lookup_alter_eq. destruct (flows s !! j) as [f|]; simpl; [|done]. by rewrite Hg.
  - by rewrite list_lookup_alter_ne.
Qed.

Lemma keeps_alter i g : (∀ f, static (g f) = static f) → preserves R (alter_flow i g).
Proof.
  intros Hg. apply preserves_modify. intros s [HI Hk].
  pose proof (statics_alter g i s Hg) as E. split; [|by eapply HK; [|exact Hk]].
  by eapply Inv_same; [| | |exact HI].
Qed.

Lemma keeps_detach id : preserves R (modify (λ s, set_sessions (delete id (sessions s)) s)).
Proof.
  apply preserves_modify. intros s [HI Hk]. split; [|by eapply HK; [|exact Hk]].
  eapply (Inv_same s); [done| |done|exact HI]. apply delete_subseteq.
Qed.

Lemma keeps_insert id ss i f :
  cr_flow (stream ss) = i → fl_client f = id → (∀ s, K s → flow_at i f s) →
  preserves R (modify (λ s, set_sessions (<[id := ss]> (sessions s)) s)).
Proof.
  intros Ei Ef Hf. apply preserves_modify. intros s [[Hfl Hs He] Hk].
  split; [|by eapply HK; [|exact Hk]]. split; [exact Hfl| |exact He].
  intros id' ss'. simpl. rewrite lookup_insert_Some. intros [[<- <-]|[_ Hid]]; [|by apply Hs].
  exists (static f). rewrite Ei. split; [exact (Hf s Hk)|exact Ef].
Qed.

Lemma keeps_lifted {A} (o : outcome A) : preserves R (lift o).
Proof. intros s. simpl. reflexivity. Qed.
End rules.

#[local] Hint Resolve keeps_tele keeps_limits keeps_act keeps_alter keeps_detach keeps_lifted : terminal.

(** Decompose a handler into its elementary actions. *)
Ltac keeps_auto :=
  repeat first
    [ match goal with |- ∀ _, _ => intro end
    | apply preserves_ret; apply _
    | apply preserves_throw; apply _
    | apply preserves_gets; apply _
    | apply keeps_lifted
    | apply keeps_tele; solve [eauto with terminal]
    | apply keeps_act; [solve [eauto with terminal]|done]
    | apply keeps_alter; [solve [eauto with terminal]|done]
    | apply keeps_detach; solve [eauto with terminal]
    | apply keeps_limits; solve [eauto with terminal]
    | match goal with |- preserves _ (mbind _ _) => apply preserves_bind; [apply _| |] end
    | match goal with |- context [match ?x with _ => _ end] => destruct x eqn:? end
    | progress unfold when, throw_if ].

Lemma keeps_cleanup evs K id : static_fact K → preserves (keeps evs K) (cleanupSession id).
Proof. intros HK. unfold cleanupSession. keeps_auto. Qed.
#[local] Hint Resolve keeps_cleanup : terminal.
Ltac keeps_handler := keeps_auto; try solve [eauto with terminal].

Lemma keeps_deny evs K c client detail v u m :
  static_fact K → preserves (keeps evs K) (deny c client detail v u m).
Proof. intros. unfold deny. keeps_handler. Qed.
Lemma keeps_fail evs K c f detail m :
  static_fact K → preserves (keeps evs K) (fail_connect c f detail m).
Proof. intros. unfold fail_connect. keeps_handler. Qed.
Lemma keeps_clear evs K i : static_fact K → preserves (keeps evs K) (clearConnectTimeout i).
Proof.
  intros. apply keeps_alter; [done|]. intros f. unfold disarm. by case_match.
Qed.
#[local] Hint Resolve keeps_deny keeps_fail keeps_clear : terminal.

(** *** The callbacks of a flow *)
Section callbacks.
Context (evs : list (Call * Event)) (c : Call) (i : nat) (f : Flow).
Abbreviation K := (flow_at i f).
Abbreviation R := (keeps evs K).

Lemma keeps_connect r o :
  (match r with
   | Bastion => ∃ b, fl_bastionConfig f = Some b ∧ co_target o = Some (b_host b, b_port b)
   | Via => co_target o = None
   | _ => co_target o = Some (sshHost f, sshPort f)
   end) → preserves R (ssh_connect c (ref i r) o).
Proof.
  intros Ho. unfold ssh_connect. keeps_auto. apply keeps_act; [auto with terminal|].
  intros s _ Hk. exists (static f). split; [exact Hk|]. exact Ho.
Qed.

Lemma keeps_bastion : preserves R (tryBastionFallback c i f).
Proof.
  unfold tryBastionFallback. keeps_handler. apply keeps_connect. eauto.
Qed.
Lemma keeps_retry : preserves R (tryPasswordOnlyRetry c i f).
Proof. unfold tryPasswordOnlyRetry. keeps_handler. by apply keeps_connect. Qed.

Lemma keeps_onReady r : preserves R (onReady i r f).
Proof.
  unfold onReady. keeps_handler. apply keeps_act; [auto with terminal|].
  intros s _ Hk. exists (static f). by split.
Qed.
Lemma keeps_onShell r ok : preserves R (onShell c i r ok f).
Proof.
  unfold onShell. keeps_handler;
    first [ by eapply keeps_insert; [auto with terminal|..]
          | apply keeps_act; [auto with terminal|]; intros s _ Hk; exists i, (static f); by split ].
Qed.
Lemma keeps_onForward ok : preserves R (onForward c i ok f).
Proof. unfold onForward. keeps_handler; by apply keeps_connect. Qed.
Lemma keeps_onError r m : preserves R (onError c i r m f).
Proof.
  unfold onError, onDirectError. pose proof keeps_bastion. pose proof keeps_retry. keeps_handler.
Qed.
Lemma keeps_onClose r : preserves R (onClose c i r f).
Proof. unfold onClose. keeps_handler. Qed.
Lemma keeps_onStreamData r d : (c, EvData i r d) ∈ evs → preserves R (onStreamData d f).
Proof.
  intros Hev. unfold onStreamData. keeps_handler. apply keeps_act; [auto with terminal|].
  intros s _ Hk. exists i, r, (static f), c. by split_and!.
Qed.
Lemma keeps_onStreamClose : preserves R (onStreamClose c f).
Proof. unfold onStreamClose. keeps_handler. Qed.
Lemma keeps_onTimeout k : preserves R (onTimeout c i k f).
Proof. unfold onTimeout. pose proof keeps_bastion. keeps_handler. Qed.
End callbacks.
#[local] Hint Resolve keeps_onReady keeps_onShell keeps_onForward keeps_onError keeps_onClose
  keeps_onStreamData keeps_onStreamClose keeps_onTimeout : terminal.

Lemma keeps_with_flow evs i k :
  (∀ f, preserves (keeps evs (flow_at i f)) (k f)) →
  preserves (keeps evs (λ _, True)) (with_flow i k).
Proof.
  intros Hk s [HI _]. unfold with_flow. destruct (flows s !! i) as [f|] eqn:E; [|done].
  destruct (Hk f s) as [HI' _]; [|done]. split; [done|].
  unfold flow_at, statics. by rewrite list_lookup_fmap, E.
Qed.

(** *** Messages of the browser *)

Lemma keeps_rate evs K t id n : static_fact K → preserves (keeps evs K) (allowInputRate t id n).
Proof. intros. unfold allowInputRate, set_inputWindow. keeps_handler. Qed.
Lemma keeps_eventRate evs K t id : static_fact K → preserves (keeps evs K) (allowInputEventRate t id).
Proof. intros. unfold allowInputEventRate, set_eventWindow. keeps_handler. Qed.
Lemma keeps_inspect evs K cf id d :
  static_fact K → preserves (keeps evs K) (inspectSubmittedCommands cf id d).
Proof. intros. unfold inspectSubmittedCommands, set_buffers, set_violations. keeps_handler. Qed.
Lemma keeps_reject evs K c id d m : static_fact K → preserves (keeps evs K) (reject c id d m).
Proof. intros. unfold reject. keeps_handler. Qed.
#[local] Hint Resolve keeps_rate keeps_eventRate keeps_inspect keeps_reject : terminal.

(** The session of a socket belongs to a flow of that socket. *)
Definition owns (id : string) (ss : SshSession) (s : State) : Prop :=
  ∃ f, statics s !! cr_flow (stream ss) = Some f ∧ fl_client f = id.
Lemma owns_static id ss : static_fact (owns id ss).
Proof. intros s s' E. unfold owns. by rewrite E. Qed.
#[local] Hint Resolve owns_static : terminal.

Lemma keeps_session evs id (k : option SshSession → M State unit) :
  preserves (keeps evs (λ _, True)) (k None) →
  (∀ ss, preserves (keeps evs (owns id ss)) (k (Some ss))) →
  preserves (keeps evs (λ _, True)) (session ← gets (λ s, sessions s !! id); k session).
Proof.
  intros H0' H1' s [HI _]. m_red. destruct (sessions s !! id) as [ss|] eqn:E.
  - destruct (H1' ss s) as [HI' _]; [|done]. split; [done|]. by apply (inv_sessions _ _ HI).
  - by apply H0'.
Qed.

Lemma keeps_input evs c id data :
  (c, EvInput id data) ∈ evs → preserves (keeps evs (λ _, True)) (handleInput c id data).
Proof.
  intros Hev. unfold handleInput. apply keeps_session; [keeps_auto|]. intros ss.
  keeps_handler. apply keeps_act; [auto with terminal|].
  intros st _ (f & Hf & <-). by exists f, c.
Qed.

Lemma clamp_bounds lo hi d x : lo <= d <= hi → lo <= clamp lo hi d x <= hi.
Proof. intros. destruct x; simpl; lia. Qed.

Lemma keeps_resize evs id payload : preserves (keeps evs (λ _, True)) (handleResize id payload).
Proof.
  unfold handleResize. apply keeps_session; [keeps_auto|]. intros ss. keeps_auto.
  apply keeps_act; [auto with terminal|]. intros s _ _. split; by apply clamp_bounds.
Qed.

(** *** Opening a flow *)

Lemma Inv_open evs f s :
  (∃ c sock p, (c, EvConnect sock p) ∈ evs ∧ admitted c sock p (static f)) →
  Inv evs s →
  let s' := set_flows (flows s ++ [f]) s in
  Inv evs s' ∧ flow_at (length (flows s)) f s'.
Proof.
  intros Had [Hf Hs He]. unfold flow_at, statics in *. simpl. rewrite fmap_app. simpl.
  assert (Hext : ∀ i x, (static <$> flows s) !! i = Some x →
                        ((static <$> flows s) ++ [static f]) !! i = Some x).
  { intros i x Hx. by apply lookup_app_l_Some. }
  split; [split; unfold statics; simpl; rewrite ?fmap_app; simpl|].
  - intros i x [Hx|[_ Hx]]%lookup_app_Some; [by eapply Hf|].
    apply list_lookup_singleton_Some in Hx as [_ <-]. done.
  - intros id ss Hid. destruct (Hs id ss Hid) as (x & Hx & E). eauto.
  - intros e Hin. specialize (He e Hin). destruct e as [id m| | | | | | | |]; try done; simpl in *.
    + destruct m; naive_solver.
    + naive_solver.
    + naive_solver.
    + naive_solver.
  - rewrite lookup_app_r by (by rewrite length_fmap). by rewrite length_fmap, Nat.sub_diag.
Qed.

Lemma keeps_open evs c f :
  (∃ c sock p, (c, EvConnect sock p) ∈ evs ∧ admitted c sock p (static f)) →
  preserves (keeps evs (λ _, True)) (open_flow c f).
Proof.
  intros Had s [HI _]. unfold open_flow. m_red.
  destruct (Inv_open evs f s Had HI) as [HI' Hfl].
  set (s' := set_flows _ _) in *. set (i := length (flows s)) in *.
  set (m := alter_flow i (arm DirectTimeout) ;; match credentials c f with
    | (None, None) => deny c (fl_client f) "no_credentials" (p_vmId (fl_payload f)) (userSub f)
        "No SSH credentials provided. Supply a private key or password."
    | (key, pw) => ssh_connect c (ref i Direct) (vm_options (Some (sshHost f, sshPort f)) f key pw)
    end).
  assert (Hm : preserves (keeps evs (flow_at i f)) m).
  { unfold m. keeps_handler; by apply keeps_connect. }
  destruct (Hm s' (conj HI' Hfl)) as [HI'' _]. split; [exact HI''|done].
Qed.

(** A bind whose continuation may rely on what the first part returned. *)
Lemma preserves_bind_val {A B} (R : State → State → Prop) `{!Transitive R}
    (m : M State A) (k : A → M State B) :
  preserves R m → (∀ a s s', m s = (s', Ret a) → preserves R (k a)) → preserves R (m ≫= k).
Proof.
  intros Hm Hk s. unfold mbind, M_bind. specialize (Hm s).
  destruct (m s) as [s' [a|e]] eqn:E; simpl in *; [|done].
  etransitivity; [exact Hm|]. by eapply Hk.
Qed.

Lemma may_open_spec user vm :
  may_open user vm = true →
  c_role user = Some "ADMIN"%string ∨ c_sub user = Some (Vm.vm_userId vm).
Proof. unfold may_open. by rewrite orb_true_iff, !bool_decide_eq_true. Qed.

Lemma keeps_open_vm evs c sock p vmId user token :
  (c, EvConnect sock p) ∈ evs → p_vmId p = Some vmId →
  presents sock token → verifyUser c sock token = Some user →
  preserves (keeps evs (λ _, True)) (open_vm c (socket_id sock) p vmId user).
Proof.
  intros Hev Hid Htok [Hver Hfp]%verifyBound_spec. unfold open_vm.
  apply preserves_bind_val; [apply _|keeps_auto|]. intros vm s s' [= _ Hvm].
  keeps_handler. apply keeps_open. exists c, sock, p. split; [done|].
  repeat match goal with E : negb _ = false |- _ => apply negb_false_iff in E end.
  apply bool_decide_eq_true in Heqb0. split; simpl; eauto using may_open_spec.
Qed.

Lemma nonempty_Some s x : nonempty s = Some x → s = x.
Proof. unfold nonempty. case_match; congruence. Qed.

Lemma keeps_connectSsh evs c sock p :
  (c, EvConnect sock p) ∈ evs → preserves (keeps evs (λ _, True)) (handleConnectSsh c sock p).
Proof.
  intros Hev. unfold handleConnectSsh. apply preserves_try; [apply _| |keeps_handler].
  unfold connect_body. destruct (p_vmId p ≫= nonempty) as [vmId|] eqn:Ev; [|keeps_handler].
  apply bind_Some in Ev as (v & Ev & Hv%nonempty_Some). subst v.
  do 2 (case_match; [keeps_handler|]).
  apply preserves_bind; [apply _|auto with terminal|]. intros [].
  apply preserves_bind_val; [apply _| |].
  { apply keeps_lifted. }
  intros [token|] s s' Et; [|keeps_handler].
  assert (Htok : presents sock token) by (by injection Et).
  destruct (verifyUser c sock token) as [user|] eqn:Eu; [|keeps_handler].
  keeps_auto. by eapply keeps_open_vm.
Qed.

(** ** Reachable states *)

Lemma Inv_mono evs evs' s : evs ⊆ evs' → Inv evs s → Inv evs' s.
Proof.
  intros Hsub [Hf Hs He]. split; [|exact Hs|].
  - intros i f Hi. destruct (Hf i f Hi) as (c & sock & p & Hin & Ha). eauto 6.
  - intros e Hin. specialize (He e Hin).
    destruct e as [id m| | | | | | | |]; try done; simpl in *; [destruct m|]; naive_solver.
Qed.

Lemma Inv_step evs c e s : (c, e) ∈ evs → Inv evs s → Inv evs (handle c e s).1.
Proof.
  intros Hev HI. enough (Hp : preserves (keeps evs (λ _, True)) (handle c e)).
  { by destruct (Hp s (conj HI I)). }
  destruct e; simpl; try (apply keeps_with_flow; intros f); eauto with terminal.
  - by apply keeps_connectSsh.
  - by apply keeps_input.
  - apply keeps_resize.
  - unfold handleDisconnect. keeps_handler.
  - keeps_handler.
Qed.

Lemma run_snoc evs ce s : run (evs ++ [ce]) s = (handle ce.1 ce.2 (run evs s)).1.
Proof. unfold run. by rewrite foldl_app. Qed.

Lemma Inv_run evs t : Inv evs (run evs (init t)).
Proof.
  induction evs as [|[c e] evs IH] using rev_ind.
  - split; [by intros []|intros id ss Hid; simpl in Hid; by rewrite lookup_empty in Hid|by intros e ?%not_elem_of_nil].
  - rewrite run_snoc. apply Inv_step; [set_solver|]. eapply Inv_mono; [|exact IH]. set_solver.
Qed.

(** C3: a terminal is only ever attached to a machine its socket was admitted
    to.  In every state the gateway can reach, each session of a socket comes
    from a connect-ssh message of that socket whose handshake token verified
    and is bound to the socket's client (unless that check is switched off), for
    a user who is an administrator or the machine's owner, for a machine
    that was RUNNING with an SSH host when the database answered. *)
Theorem terminal_sessions_admitted evs t id ss :
  sessions (run evs (init t)) !! id = Some ss →
  ∃ f c sock p, flows (run evs (init t)) !! cr_flow (stream ss) = Some f ∧
    (c, EvConnect sock p) ∈ evs ∧ socket_id sock = id ∧ admitted c sock p f.
Proof.
  intros Hid. pose proof (Inv_run evs t) as HI.
  destruct (inv_sessions _ _ HI id ss Hid) as (f & Hf & Hcl).
  destruct (inv_flows _ _ HI _ _ Hf) as (c & sock & p & Hin & Ha).
  unfold statics in Hf. rewrite list_lookup_fmap in Hf.
  destruct (flows _ !! _) as [f0|]; [|done]. injection Hf as <-.
  exists f0, c, sock, p. split_and!; [done..| |].
  - destruct Ha as [Ha _ _ _ _ _ _ _]. by rewrite <-Ha.
  - by destruct Ha as [????????]; split.
Qed.

(** C10: what passes through the gateway stays between a socket and its own
    flow.  Bytes are written to a shell only if the socket of that shell's flow
    sent them; output is emitted only to the socket of the flow whose shell
    produced it; SSH connections are opened only to the admitted machine or to
    the configured bastion, and tunnels only to the admitted machine; and every
    window size set on a shell is within 10..200 rows and 20..500 columns. *)
Theorem terminal_isolation evs t (s := run evs (init t)) :
  (∀ r d, StreamWrite r d ∈ effects s → ∃ f c,
     flows s !! cr_flow r = Some f ∧ (c, EvInput (fl_client f) (Some d)) ∈ evs) ∧
  (∀ id d, Emit id (MOutput d) ∈ effects s → ∃ i r f c,
     flows s !! i = Some f ∧ fl_client f = id ∧ (c, EvData i r d) ∈ evs) ∧
  (∀ r o, SshConnect r o ∈ effects s → ∃ f, flows s !! cr_flow r = Some f ∧
     (co_target o = None ∧ cr_role r = Via ∨
      co_target o = Some (sshHost f, sshPort f) ∨
      (∃ b, fl_bastionConfig f = Some b ∧ co_target o = Some (b_host b, b_port b) ∧ cr_role r = Bastion))) ∧
  (∀ r h p, ForwardOut r h p ∈ effects s → ∃ f,
     flows s !! cr_flow r = Some f ∧ h = sshHost f ∧ p = sshPort f) ∧
  (∀ r rows cols, SetWindow r rows cols ∈ effects s → 10 <= rows <= 200 ∧ 20 <= cols <= 500).
Proof.
  pose proof (inv_effects _ _ (Inv_run evs t)) as He. fold s in He.
  assert (Hst : ∀ i f, statics s !! i = Some f → ∃ f0, flows s !! i = Some f0 ∧ f = static f0).
  { intros i f. unfold statics. rewrite list_lookup_fmap.
    destruct (flows s !! i) as [f0|]; naive_solver. }
  split_and!.
  - intros r d Hin. destruct (He _ Hin) as (f & c & (f0 & Hf & ->)%Hst & Hev). eauto.
  - intros id d Hin. destruct (He _ Hin) as (i & r & f & c & (f0 & Hf & ->)%Hst & Hcl & Hev). eauto 7.
  - intros r o Hin. destruct (He _ Hin) as (f & (f0 & Hf & ->)%Hst & Ht). exists f0.
    split; [done|]. destruct (cr_role r); naive_solver.
  - intros r h p Hin. destruct (He _ Hin) as (f & (f0 & Hf & ->)%Hst & -> & ->). eauto.
  - intros r rows cols Hin. exact (He _ Hin).
Qed.
End props.
End TerminalProps.
