(* ===== verification/TerminalLimits.v ===== *)
(** * TerminalLimits: timers, input limits and the command filter

    The retries of a connection end; the input a socket can push through its
    shell is bounded; and the filter of dangerous commands does not depend on
    how the browser cuts the input into messages. *)

From Stdlib Require Import ZArith QArith Qround Lia Ascii String.
From stdpp Require Import base list gmap sets strings pretty.
From S2P Require Import Prelude Text Js Regex Crypto RequestSecurity Sockets Telemetry VmKeyCrypto Vm Terminal TerminalProps.
Import RequestSecurity Sockets Terminal.
#[local] Open Scope Z_scope.
#[local] Existing Instance Vm.VmStatus_eq_dec.

Module TerminalLimits.

(** ** Timers *)

(** At most one timer of a flow is armed, and it is the one its variable holds. *)
Definition timer_ok (f : Flow) : Prop :=
  armed f = [] ∨ ∃ k, armed f = [k] ∧ connectTimeout f = Some k.

(** The timers a flow can still see fire: the armed one, and one for each
    fallback it has not tried. *)
Definition budget (f : Flow) : nat :=
  length (armed f) + (if hasAttemptedBastionFallback f then 0 else 1)
  + (if hasAttemptedPasswordRetry f then 0 else 1).

(** How a callback changes its flow; [fires] when a timer fired. *)
Inductive flow_step : bool → Flow → Flow → Prop :=
| fs_same f : flow_step false f f
| fs_disarm f : flow_step false f (disarm f)
| fs_retry f : hasAttemptedPasswordRetry f = false →
    flow_step false f (arm RetryTimeout
      (set_attempts (hasBastionClient f) (hasAttemptedBastionFallback f) true (disarm f)))
| fs_bastion f : hasAttemptedBastionFallback f = false →
    flow_step false f (arm BastionTimeout (set_attempts true true (hasAttemptedPasswordRetry f) (disarm f)))
| fs_fire k f : k ∈ armed f → flow_step true f (fired k f)
| fs_fire_bastion f : DirectTimeout ∈ armed f → hasAttemptedBastionFallback f = false →
    flow_step true f (arm BastionTimeout
      (set_attempts true true (hasAttemptedPasswordRetry f) (fired DirectTimeout f))).

Lemma disarm_armed f : timer_ok f → armed (disarm f) = [].
Proof.
  unfold disarm. intros [Hn|(k & Hk & Hv)].
  - case_match; simpl; by rewrite Hn.
  - rewrite Hv. simpl. rewrite Hk. simpl. by rewrite bool_decide_true.
Qed.

Lemma fired_armed k f : timer_ok f → k ∈ armed f → armed f = [k] ∧ armed (fired k f) = [].
Proof.
  intros [Hn|(k' & Hk & Hv)] Hin; [by rewrite Hn in Hin; apply not_elem_of_nil in Hin|].
  rewrite Hk in Hin. apply list_elem_of_singleton in Hin as ->. split; [done|].
  simpl. rewrite Hk. simpl. by rewrite bool_decide_true.
Qed.

Lemma flow_step_ok b f g :
  timer_ok f → flow_step b f g → timer_ok g ∧ (budget g + (if b then 1 else 0) ≤ budget f)%nat.
Proof.
  intros Hok Hst. unfold budget. destruct Hst as [f|f|f Hr|f Hb|k f Hk|f Hk Hb].
  - split; [done|lia].
  - rewrite disarm_armed by done. split; [left; by apply disarm_armed|].
    unfold disarm. destruct (connectTimeout f); simpl; lia.
  - cbn. rewrite disarm_armed by done. split; [right; eexists; split; [|done]; cbn; by rewrite disarm_armed|].
    rewrite Hr. cbn. lia.
  - cbn. rewrite disarm_armed by done. split; [right; eexists; split; [|done]; cbn; by rewrite disarm_armed|].
    rewrite Hb. cbn. lia.
  - destruct (fired_armed k f Hok Hk) as [E1 E2]. rewrite E2, E1. split; [by left|]. cbn. lia.
  - destruct (fired_armed _ f Hok Hk) as [E1 E2]. cbn in E2 |- *. rewrite E2, E1, Hb.
    split; [right; eexists; split; [cbn; by rewrite E2|done]|]. cbn. lia.
Qed.

(** [cleanupSession] as a function. *)
Definition cleaned (id : string) (s : State) : State := (cleanupSession id s).1.
Lemma cleanup_eval id s : cleanupSession id s = (cleaned id s, Ret tt).
Proof.
  unfold cleaned, cleanupSession. m_red. destruct (sessions s !! id) as [ss|]; [|done].
  m_red. by destruct (bastionClient ss).
Qed.
Lemma cleaned_flows id s : flows (cleaned id s) = flows s.
Proof.
  unfold cleaned, cleanupSession. m_red. destruct (sessions s !! id) as [ss|]; [|done].
  m_red. by destruct (bastionClient ss).
Qed.

Section timers.
Context `{Hashing, UriCodec, Jwt, KeyParser, UrlParser}.

(** How an event changes the flows. *)
Inductive flows_step (fires : option nat) : list Flow → list Flow → Prop :=
| fl_same fs : fires = None → flows_step fires fs fs
| fl_one fs i f g b : fs !! i = Some f → flow_step b f g → fires = (if b then Some i else None) →
    flows_step fires fs (<[i := g]> fs)
| fl_new fs f : armed f = [DirectTimeout] → connectTimeout f = Some DirectTimeout →
    hasAttemptedBastionFallback f = false → hasAttemptedPasswordRetry f = false → fires = None →
    flows_step fires fs (fs ++ [f]).

(** The flow whose timer an event fires. *)
Definition fires (e : Event) (s : State) : option nat :=
  match e with
  | EvTimeout i k =>
      match flows s !! i with
      | Some f => if bool_decide (k ∈ armed f) then Some i else None
      | None => None
      end
  | _ => None
  end.

Lemma alter_as_insert (fs : list Flow) i f g : fs !! i = Some f → alter g i fs = <[i := g f]> fs.
Proof.
  intros Hf. apply list_eq. intros j. destruct (decide (i = j)) as [->|Hne].
  - rewrite list_lookup_alter_eq, Hf, list_lookup_insert_eq; [done|]. by eapply lookup_lt_Some.
  - by rewrite list_lookup_alter_ne, list_lookup_insert_ne.
Qed.

Definition same_flows (s s' : State) : Prop := flows s' = flows s.
#[local] Instance same_flows_refl : Reflexive same_flows.
Proof. by intros s. Qed.
#[local] Instance same_flows_trans : Transitive same_flows.
Proof. intros s1 s2 s3 E1 E2. unfold same_flows in *. congruence. Qed.

Lemma cleanup_same id : preserves same_flows (cleanupSession id).
Proof. intros s. rewrite cleanup_eval. apply cleaned_flows. Qed.

(** Decompose a handler that touches no flow. *)
Ltac same_auto :=
  repeat first
    [ match goal with |- ∀ _, _ => intro end
    | match goal with |- preserves _ (cleanupSession _) => apply cleanup_same end
    | match goal with |- preserves _ (mbind _ _) => apply preserves_bind; [apply _| |] end
    | match goal with |- context [match ?x with _ => _ end] => destruct x eqn:? end
    | progress unfold deny, fail_connect, reject, ssh_connect, when, set_inputWindow, set_eventWindow,
        set_buffers, set_violations, allowInputRate, allowInputEventRate, inspectSubmittedCommands
    | match goal with |- preserves _ _ => let st := fresh in intros st; exact eq_refl end ].

Lemma input_same c id d : preserves same_flows (handleInput c id d).
Proof. unfold handleInput. same_auto. Qed.
Lemma resize_same id p : preserves same_flows (handleResize id p).
Proof. unfold handleResize. same_auto. Qed.
Lemma disconnect_same c id : preserves same_flows (handleDisconnect c id).
Proof. unfold handleDisconnect. same_auto. Qed.
Lemma shell_same c i r ok f : preserves same_flows (onShell c i r ok f).
Proof. unfold onShell. same_auto. Qed.
Lemma forward_same c i ok f : preserves same_flows (onForward c i ok f).
Proof. unfold onForward. same_auto. Qed.
Lemma data_same d f : preserves same_flows (onStreamData d f).
Proof. unfold onStreamData. same_auto. Qed.
Lemma stream_close_same c f : preserves same_flows (onStreamClose c f).
Proof. unfold onStreamClose. same_auto. Qed.
Lemma give_up_same c f d m :
  preserves same_flows (fail_connect c f d m;; cleanupSession (fl_client f)).
Proof. same_auto. Qed.

(** A fallback was not tried, or it was tried and the flow's flag was clear. *)
Definition tried (t : M State bool) (P : Prop) (i : nat) (g : Flow → Flow) : Prop := ∀ s,
  t s = (s, Ret false) ∨
  P ∧ ∃ s', (t s = (s', Ret true) ∨ ∃ e, t s = (s', Throw e)) ∧ flows s' = alter g i (flows s).

Lemma bastion_tried c i f :
  tried (tryBastionFallback c i f) (hasAttemptedBastionFallback f = false) i
    (λ f, arm BastionTimeout (set_attempts true true (hasAttemptedPasswordRetry f) f)).
Proof.
  intros s. unfold tryBastionFallback.
  destruct (hasAttemptedBastionFallback f) eqn:Ea; [by left|].
  destruct (fl_bastionConfig f) as [b|]; [|by left]. right. split; [done|].
  unfold ssh_connect. m_red. destruct (connect_throws c (bastion_options b)) as [m|]; m_red.
  all: eexists; split; [eauto|]; simpl; rewrite !list_alter_alter_eq; done.
Qed.

Lemma retry_tried c i f :
  tried (tryPasswordOnlyRetry c i f) (hasAttemptedPasswordRetry f = false) i
    (λ f, arm RetryTimeout
       (set_attempts (hasBastionClient f) (hasAttemptedBastionFallback f) true f)).
Proof.
  intros s. unfold tryPasswordOnlyRetry.
  destruct (_ || _) eqn:E; [by left|]. right.
  repeat (apply orb_false_iff in E as [E ?]). split; [done|].
  unfold ssh_connect. m_red. destruct (connect_throws c _) as [m|]; m_red.
  all: eexists; split; [eauto|]; simpl; rewrite !list_alter_alter_eq; done.
Qed.

(** *** Each event *)
Abbreviation after m s := (flows (fst (m s))).

Lemma step_same (m : M State unit) s :
  preserves same_flows m → flows_step None (flows s) (after m s).
Proof. intros Hm. rewrite (Hm s). by constructor. Qed.

Lemma step_alter i g (m : M State unit) s f b :
  preserves same_flows m → flows s !! i = Some f → flow_step b f (g f) →
  flows_step (if b then Some i else None) (flows s) (after (alter_flow i g;; m) s).
Proof.
  intros Hm Hf Hst.
  change (after (alter_flow i g;; m) s) with (after m (set_flows (alter g i (flows s)) s)).
  rewrite Hm. simpl. rewrite (alter_as_insert _ _ f) by done. by econstructor.
Qed.

Lemma step_tried n fs t P i g (rest : M State unit) s :
  tried t P i g →
  (P → flows_step n fs (alter g i (flows s))) → flows_step n fs (after rest s) →
  flows_step n fs (after (b ← t; if (b : bool) then mret tt else rest) s).
Proof.
  intros Ht Hx Hr. unfold mbind, M_bind.
  destruct (Ht s) as [E|(HP & s' & [E|[e E]] & Es)]; rewrite E; [exact Hr|..];
    simpl; rewrite Es; by apply Hx.
Qed.

(** The flags survive [clearConnectTimeout]. *)
Lemma disarm_flags f :
  hasBastionClient (disarm f) = hasBastionClient f ∧
  hasAttemptedBastionFallback (disarm f) = hasAttemptedBastionFallback f ∧
  hasAttemptedPasswordRetry (disarm f) = hasAttemptedPasswordRetry f.
Proof. unfold disarm. by destruct (connectTimeout f). Qed.

Lemma step_direct_error c i m s f :
  flows s !! i = Some f → flows_step None (flows s) (after (onDirectError c i m f) s).
Proof.
  intros Hf. unfold onDirectError.
  set (rest := (if is_auth m then tryPasswordOnlyRetry c i f else mret false) ≫= _).
  change (flows_step None (flows s) (after rest (set_flows (alter disarm i (flows s)) s))).
  destruct (disarm_flags f) as (E1 & E2 & E3).
  assert (Hin : ∀ g b, flow_step b f (g (disarm f)) →
    flows_step (if b then Some i else None) (flows s) (alter g i (alter disarm i (flows s)))).
  { intros g b Hst. rewrite list_alter_alter_eq, (alter_as_insert _ _ f) by done. by econstructor. }
  unfold rest. eapply (step_tried _ _ _ (hasAttemptedPasswordRetry f = false) i (λ f, arm RetryTimeout
       (set_attempts (hasBastionClient f) (hasAttemptedBastionFallback f) true f))).
  { destruct (is_auth m); [apply retry_tried|by intros st; left]. }
  { intros Ha. apply (Hin _ false). rewrite E1, E2. by apply fs_retry. }
  eapply (step_tried _ _ _ (hasAttemptedBastionFallback f = false) i (λ f, arm BastionTimeout
       (set_attempts true true (hasAttemptedPasswordRetry f) f))).
  { destruct (is_refused m || is_timed_out m); [apply bastion_tried|by intros st; left]. }
  { intros Ha. apply (Hin _ false). rewrite E3. by apply fs_bastion. }
  rewrite give_up_same. simpl. rewrite (alter_as_insert _ _ f) by done.
  eapply fl_one; [done|apply fs_disarm|done].
Qed.

Lemma step_timeout c i k s f :
  flows s !! i = Some f → k ∈ armed f →
  flows_step (Some i) (flows s) (after (onTimeout c i k f) s).
Proof.
  intros Hf Hk. destruct k;
    [|by eapply (step_alter i _ _ s f true); [same_auto|..|apply fs_fire]..].
  unfold onTimeout. set (rest := tryBastionFallback c i f ≫= _).
  change (flows_step (Some i) (flows s)
    (after rest (set_flows (alter (fired DirectTimeout) i (flows s)) s))).
  unfold rest. eapply step_tried; [apply bastion_tried|intros Ha|].
  - simpl. rewrite list_alter_alter_eq, (alter_as_insert _ _ f) by done.
    eapply (fl_one _ _ _ _ _ true); [done|by apply fs_fire_bastion|done].
  - rewrite give_up_same. simpl. rewrite (alter_as_insert _ _ f) by done.
    eapply (fl_one _ _ _ _ _ true); [done|by apply fs_fire|done].
Qed.

Lemma step_open c client p vmId vm user s :
  flows_step None (flows s) (after (open_flow c (new_flow c client p vmId vm user)) s).
Proof.
  set (f := new_flow c client p vmId vm user). unfold open_flow.
  set (i := length (flows s)).
  assert (E : after (open_flow c f) s = flows s ++ [arm DirectTimeout f]).
  { unfold open_flow. m_red.
    set (m := match credentials c f with
      | (None, None) => deny c (fl_client f) "no_credentials" (p_vmId (fl_payload f)) (userSub f)
          "No SSH credentials provided. Supply a private key or password."
      | (key, pw) => ssh_connect c (ref i Direct) (vm_options (Some (sshHost f, sshPort f)) f key pw)
      end).
    assert (Hm : preserves same_flows m) by (unfold m; same_auto).
    etransitivity; [apply (Hm _)|]. simpl.
    by rewrite alter_app_r_alt, Nat.sub_diag by lia. }
  unfold open_flow in E. rewrite E. by apply fl_new.
Qed.

Lemma step_connect c sock p s :
  flows_step None (flows s) (after (handleConnectSsh c sock p) s).
Proof.
  assert (Hb : flows_step None (flows s) (after (connect_body c sock p) s)).
  { unfold connect_body. destruct (p_vmId p ≫= nonempty); [|apply step_same; same_auto].
    do 2 (case_match; [apply step_same; same_auto|]).
    unfold mbind at 1, M_bind at 1. rewrite cleanup_eval.
    rewrite <-(cleaned_flows (socket_id sock) s). set (s1 := cleaned _ s).
    unfold mbind at 1, M_bind at 1.
    assert (Eh : ∃ o, lift (handshakeToken sock) s1 = (s1, o)) by (unfold lift; eauto).
    destruct Eh as [o ->]. destruct o as [[token|]|e]; [|apply step_same; same_auto|by constructor].
    destruct (verifyUser c sock token) as [user|]; [|apply step_same; same_auto].
    unfold open_vm. m_red. unfold lift. set (s2 := set_telemetry _ s1).
    change (flows s1) with (flows s2). destruct (findVm c _) as [[vm|]|e].
    2: { apply (step_same (deny _ _ _ _ _ _)). same_auto. }
    2: { by constructor. }
    do 3 (case_match; [apply (step_same (deny _ _ _ _ _ _)); same_auto|]).
    apply step_open. }
  unfold handleConnectSsh, try_catch. destruct (connect_body c sock p s) as [s' [u|e]]; [exact Hb|].
  exact Hb.
Qed.

Lemma handle_flows c e s : flows_step (fires e s) (flows s) (after (handle c e) s).
Proof.
  destruct e; cbn [handle fires]; unfold with_flow;
    try match goal with |- context [flows s !! ?j] =>
          destruct (flows s !! j) as [f|] eqn:Hf; [|by constructor] end.
  - apply step_connect.
  - apply step_same, input_same.
  - apply step_same, resize_same.
  - apply step_same, disconnect_same.
  - destruct r; cbn [onReady];
      try (by eapply (step_alter i disarm _ s f false); [same_auto|..|constructor]).
    apply step_same. same_auto.
  - apply step_same, shell_same.
  - apply step_same, forward_same.
  - destruct r; [by apply step_direct_error|..];
      by eapply (step_alter i disarm _ s f false); [same_auto|..|constructor].
  - destruct r; cbn [onClose];
      try (by eapply (step_alter i disarm _ s f false); [same_auto|..|constructor]).
    by constructor.
  - apply step_same, data_same.
  - apply step_same, stream_close_same.
  - case_bool_decide; [by apply step_timeout|by constructor].
Qed.

(** *** Runs *)
Definition timers_ok (s : State) : Prop := ∀ i f, flows s !! i = Some f → timer_ok f.
Definition remaining (i : nat) (s : State) : nat :=
  match flows s !! i with Some f => budget f | None => 3 end.

(** The timers of flow [i] that fire during a run. *)
Fixpoint firings (i : nat) (evs : list (Call * Event)) (s : State) : nat :=
  match evs with
  | [] => 0
  | (c, e) :: evs' =>
      (if bool_decide (fires e s = Some i) then 1 else 0) + firings i evs' (handle c e s).1
  end.

Lemma handle_timers c e s i (s' := (handle c e s).1) :
  timers_ok s → timers_ok s' ∧
  (remaining i s' + (if bool_decide (fires e s = Some i) then 1 else 0) ≤ remaining i s)%nat.
Proof.
  intros Hok. unfold remaining, timers_ok. pose proof (handle_flows c e s) as Hst. fold s' in Hst.
  remember (flows s) as fs eqn:Efs. remember (flows s') as fs' eqn:Efs'.
  unfold timers_ok in Hok. rewrite <-Efs in Hok. clear Efs Efs'.
  destruct Hst as [fs ->|fs j f g b Hf Hg ->|fs f Ha Hc Hb Hr ->].
  - rewrite bool_decide_false by done. split; [done|lia].
  - destruct (flow_step_ok b f g (Hok _ _ Hf) Hg) as [Hg' Hle]. split.
    + intros k h [(-> & <- & _)|[_ Hk]]%list_lookup_insert_Some; [done|by eapply Hok].
    + destruct (decide (j = i)) as [->|Hne].
      * rewrite list_lookup_insert_eq by (by eapply lookup_lt_Some). rewrite Hf.
        destruct b; [by rewrite bool_decide_true|by rewrite bool_decide_false].
      * rewrite list_lookup_insert_ne by done. rewrite bool_decide_false; [lia|].
        destruct b; congruence.
  - rewrite bool_decide_false by done. split.
    + intros k h [Hk|[_ Hk]]%lookup_app_Some; [by eapply Hok|].
      apply list_lookup_singleton_Some in Hk as [_ <-]. right. by eexists.
    + destruct (fs !! i) as [h|] eqn:Hi.
      * rewrite (lookup_app_l_Some _ _ _ _ Hi). lia.
      * apply lookup_ge_None in Hi. rewrite lookup_app_r by done.
        destruct (i - length fs)%nat as [|n]; simpl; [|lia].
        unfold budget. rewrite Ha, Hb, Hr. simpl. lia.
Qed.

Lemma firings_le evs i s :
  timers_ok s → timers_ok (run evs s) ∧
  (firings i evs s + remaining i (run evs s) ≤ remaining i s)%nat.
Proof.
  revert s. induction evs as [|[c e] evs IH]; intros s Hok; [done|].
  destruct (handle_timers c e s i Hok) as [Hok' Hle].
  destruct (IH _ Hok') as [Hok'' Hle']. cbn [firings]. unfold run in *. simpl in *. split; [done|lia].
Qed.

(** C21: connecting ends.  Whatever ssh2, the browser and the clock do, the
    timers of one connect-ssh request fire at most three times in all (direct
    attempt, bastion, password retry), never two of them at once; a flow with no
    fallback left and no armed timer never fires again. *)
Theorem terminal_timeouts_bounded evs t i (s := run evs (init t)) :
  (firings i evs (init t) ≤ 3)%nat ∧
  (∀ f, flows s !! i = Some f → timer_ok f) ∧
  (∀ f evs', flows s !! i = Some f → (firings i evs' s ≤ budget f)%nat).
Proof.
  assert (H0' : timers_ok (init t)) by (by intros [] f).
  destruct (firings_le evs i _ H0') as [Hok Hle]. fold s in Hok, Hle.
  assert (Hr : remaining i (init t) = 3%nat) by (by destruct i).
  split_and!; [lia|apply Hok|]. intros f evs' Hf.
  destruct (firings_le evs' i s Hok) as [_ Hle']. unfold remaining in Hle' at 2.
  rewrite Hf in Hle'. lia.
Qed.
End timers.

(** ** Input windows *)

(** What the byte limiter still lets through during [t0, t0 + 1000): a window
    that began before [t0] may be used up and then replaced once. *)
Definition room (limit t0 : Z) (w : option Window) : Z :=
  match w with
  | None => limit
  | Some w => Z.max 0 (limit - inWindow w) + (if t0 <=? windowStartMs w then 0 else limit)
  end.
Definition within (limit : Z) (w : option Window) : Prop :=
  match w with Some w => 0 <= inWindow w <= limit | None => True end.

Definition nonneg (w : option Window) : Prop :=
  match w with Some w => 0 <= inWindow w | None => True end.

Lemma live_window_cases t w :
  live_window t w = None ∧ (∀ x, w = Some x → windowStartMs x <= t - 1000) ∨
  ∃ x, w = Some x ∧ live_window t w = Some x ∧ t - 1000 < windowStartMs x.
Proof.
  destruct w as [x|]; simpl; [|by left]. destruct (Z.leb_spec 1000 (t - windowStartMs x)).
  - left. split; [done|]. intros y [= <-]. lia.
  - right. exists x. split_and!; [done..|lia].
Qed.

Lemma set_inputWindow_id s : set_inputWindow (inputWindowStats s) s = s.
Proof. by destruct s. Qed.

Lemma rate_spec t id n s :
  0 <= n <= maxInputBytesPerSecond → within maxInputBytesPerSecond (inputWindowStats s !! id) →
  ∃ w' b, allowInputRate t id n s = (set_inputWindow w' s, Ret b) ∧
    (∀ id', id' ≠ id → w' !! id' = inputWindowStats s !! id') ∧
    within maxInputBytesPerSecond (w' !! id) ∧
    (∀ t0, t0 <= t < t0 + 1000 →
       room maxInputBytesPerSecond t0 (w' !! id) + (if b then n else 0)
       <= room maxInputBytesPerSecond t0 (inputWindowStats s !! id)).
Proof.
  intros Hn Hw. unfold allowInputRate. m_red. set (M := maxInputBytesPerSecond) in *.
  destruct (live_window_cases t (inputWindowStats s !! id)) as [[E Hx]|(x & Ex & E & Hx)]; rewrite E.
  - do 2 eexists. split; [done|]. rewrite lookup_insert_eq. split_and!.
    + intros id' Hne. by rewrite lookup_insert_ne.
    + simpl. lia.
    + intros t0 Ht. cbn [room windowStartMs inWindow]. rewrite (proj2 (Z.leb_le t0 t)) by lia.
      assert (Hb : Z.max 0 (M - n) + 0 + (if n <=? M then n else 0) <= M)
        by (destruct (Z.leb_spec n M); lia).
      destruct (inputWindowStats s !! id) as [x|]; cbn [room within] in *; [|done].
      specialize (Hx x eq_refl). rewrite (proj2 (Z.leb_gt t0 (windowStartMs x))) by lia. lia.
  - rewrite Ex in *. cbn [within] in Hw. destruct (Z.ltb_spec M (inWindow x + n)).
    + exists (inputWindowStats s), false. rewrite set_inputWindow_id, Ex. split_and!; [done..|].
      intros. lia.
    + do 2 eexists. split; [done|]. rewrite lookup_insert_eq. split_and!.
      * intros id' Hne. by rewrite lookup_insert_ne.
      * simpl. lia.
      * intros t0 Ht. cbn [room windowStartMs inWindow]. case_match; lia.
Qed.

Lemma events_spec t id s :
  ∃ w' b, allowInputEventRate t id s = (set_eventWindow w' s, Ret b) ∧
    (∀ id', id' ≠ id → w' !! id' = inputEventWindowStats s !! id') ∧
    (nonneg (inputEventWindowStats s !! id) → nonneg (w' !! id)) ∧
    (∀ t0, t0 <= t < t0 + 1000 →
       room maxInputEventsPerSecond t0 (w' !! id) + (if b then 1 else 0)
       <= room maxInputEventsPerSecond t0 (inputEventWindowStats s !! id)).
Proof.
  unfold allowInputEventRate. m_red. set (M := maxInputEventsPerSecond) in *.
  assert (HM : M = 100) by done.
  destruct (live_window_cases t (inputEventWindowStats s !! id)) as [[E Hx]|(x & Ex & E & Hx)];
    rewrite E; do 2 eexists; (split; [done|]); rewrite lookup_insert_eq;
    (split; [intros id' Hne; by rewrite lookup_insert_ne|]);
    (split; [rewrite ?Ex; simpl; lia|]); intros t0 Ht; cbn [room windowStartMs inWindow].
  - rewrite (proj2 (Z.leb_le t0 t)) by lia.
    destruct (inputEventWindowStats s !! id) as [x|]; cbn [room]; [|lia].
    specialize (Hx x eq_refl). rewrite (proj2 (Z.leb_gt t0 (windowStartMs x))) by lia. lia.
  - rewrite Ex. cbn [room]. destruct (Z.leb_spec (inWindow x + 1) M); case_match; lia.
Qed.

Lemma inspect_frame cf id d s :
  ∃ v b ok, inspectSubmittedCommands cf id d s =
    (set_limits (inputWindowStats s) (inputEventWindowStats s) v b s, Ret ok) ∧
    (∀ id', id' ≠ id → v !! id' = dangerousInputViolations s !! id' ∧
                       b !! id' = commandBuffers s !! id') ∧
    (∀ x, b !! id = Some x → (String.length x ≤ maxCommandBufferChars)%nat).
Proof.
  unfold inspectSubmittedCommands. m_red.
  destruct (inspect_lines _ _ _ _) as [[v touched] ok].
  destruct touched; simpl; do 3 eexists; (split; [reflexivity|]); simpl; split.
  1, 3: intros id' Hne; by rewrite ?lookup_insert_ne by done.
  all: intros x; rewrite lookup_insert_eq; intros [= <-]; apply slice_tail_length.
Qed.

(** Bytes and messages written to shells, and to one shell. *)
Definition write_bytes (e : Effect) : Z := match e with StreamWrite _ d => utf8_length d | _ => 0 end.
Definition write_count (e : Effect) : Z := match e with StreamWrite _ _ => 1 | _ => 0 end.
Definition writes_to (r : ClientRef) (e : Effect) : bool :=
  match e with StreamWrite r' _ => bool_decide (r' = r) | _ => false end.
Definition bytes_to (r : ClientRef) (s : State) : Z :=
  sumZ (λ e, if writes_to r e then write_bytes e else 0) (effects s).
Definition count_to (r : ClientRef) (s : State) : Z :=
  sumZ (λ e, if writes_to r e then write_count e else 0) (effects s).

Definition buffer_ok (b : option string) : Prop :=
  ∀ x, b = Some x → (String.length x ≤ maxCommandBufferChars)%nat.

(** One input message: what it writes, and what it costs its own windows. *)
Record input_step (c : Call) (id : string) (s s' : State) (es : list Effect) : Prop := {
  is_effects : effects s' = effects s ++ es;
  is_sessions : sessions s' = sessions s;
  is_other : ∀ id', id' ≠ id → inputWindowStats s' !! id' = inputWindowStats s !! id' ∧
    inputEventWindowStats s' !! id' = inputEventWindowStats s !! id';
  is_rest : ∀ id', id' ≠ id →
    dangerousInputViolations s' !! id' = dangerousInputViolations s !! id' ∧
    commandBuffers s' !! id' = commandBuffers s !! id';
  is_buffer : buffer_ok (commandBuffers s !! id) → buffer_ok (commandBuffers s' !! id);
  is_within : within maxInputBytesPerSecond (inputWindowStats s' !! id);
  is_nonneg : nonneg (inputEventWindowStats s !! id) → nonneg (inputEventWindowStats s' !! id);
  is_stream : ∀ r d, StreamWrite r d ∈ es → ∃ ss, sessions s !! id = Some ss ∧ r = stream ss;
  is_bytes : ∀ t0, t0 <= now c < t0 + 1000 →
    room maxInputBytesPerSecond t0 (inputWindowStats s' !! id) + sumZ write_bytes es
    <= room maxInputBytesPerSecond t0 (inputWindowStats s !! id);
  is_count : ∀ t0, t0 <= now c < t0 + 1000 →
    room maxInputEventsPerSecond t0 (inputEventWindowStats s' !! id) + sumZ write_count es
    <= room maxInputEventsPerSecond t0 (inputEventWindowStats s !! id);
}.

Definition silent (e : Effect) : Prop := write_bytes e = 0 ∧ write_count e = 0.
Lemma silent_sums es : Forall silent es → sumZ write_bytes es = 0 ∧ sumZ write_count es = 0.
Proof. unfold sumZ. induction 1 as [|e es [? ?] _ [IH1 IH2]]; simpl in *; [done|]. lia. Qed.

(** A message that is rejected before any window moves. *)
Lemma input_step_silent c id s es x :
  within maxInputBytesPerSecond (inputWindowStats s !! id) → Forall silent es →
  input_step c id s (set_effects (effects s ++ es) (set_telemetry x s)) es.
Proof.
  intros Hw Hes. destruct (silent_sums es Hes) as [E1 E2].
  split; simpl; try done; [|intros; lia..].
  intros r d Hin. eapply Forall_forall in Hes as [_ Hc]; [|exact Hin]. done.
Qed.

Lemma reject_eval c id detail m s :
  reject c id detail m s =
    (set_effects (effects s ++ [Emit id (MError m)])
       (set_telemetry (Telemetry.markInputRejected (now c) id detail (telemetry s)) s), Ret tt).
Proof. done. Qed.

(** A message that reached the limiters, which allowed [n] bytes and [m] messages. *)
Lemma input_step_counted c id s s' es n m :
  effects s' = effects s ++ es → sessions s' = sessions s →
  (∀ id', id' ≠ id → inputWindowStats s' !! id' = inputWindowStats s !! id') →
  (∀ id', id' ≠ id → inputEventWindowStats s' !! id' = inputEventWindowStats s !! id') →
  (∀ id', id' ≠ id → dangerousInputViolations s' !! id' = dangerousInputViolations s !! id' ∧
                     commandBuffers s' !! id' = commandBuffers s !! id') →
  (buffer_ok (commandBuffers s !! id) → buffer_ok (commandBuffers s' !! id)) →
  within maxInputBytesPerSecond (inputWindowStats s' !! id) →
  (nonneg (inputEventWindowStats s !! id) → nonneg (inputEventWindowStats s' !! id)) →
  (∀ t0, t0 <= now c < t0 + 1000 → room maxInputBytesPerSecond t0 (inputWindowStats s' !! id) + n
     <= room maxInputBytesPerSecond t0 (inputWindowStats s !! id)) →
  (∀ t0, t0 <= now c < t0 + 1000 → room maxInputEventsPerSecond t0 (inputEventWindowStats s' !! id) + m
     <= room maxInputEventsPerSecond t0 (inputEventWindowStats s !! id)) →
  sumZ write_bytes es <= n → sumZ write_count es <= m →
  (∀ r d, StreamWrite r d ∈ es → ∃ ss, sessions s !! id = Some ss ∧ r = stream ss) →
  input_step c id s s' es.
Proof.
  intros ???????? Hb Hc ???. split; auto.
  - intros t0 Ht. specialize (Hb t0 Ht). lia.
  - intros t0 Ht. specialize (Hc t0 Ht). lia.
Qed.

Lemma no_writes es : Forall silent es → ∀ (P : Prop) r d, StreamWrite r d ∈ es → P.
Proof. intros Hes P r d Hin. eapply Forall_forall in Hes as [_ Hc]; [|exact Hin]. done. Qed.

(** The premises of [input_step_counted] that the limiters' specifications give. *)
Ltac counted := try solve
  [ done | assumption | by intros; simpl; lia | by simpl; auto
  | by intros ? ?; apply no_writes; repeat constructor ].

Lemma handleInput_step c id data s :
  within maxInputBytesPerSecond (inputWindowStats s !! id) →
  ∃ es, input_step c id s (handleInput c id data s).1 es.
Proof.
  intros Hw.
  assert (Hsame : ∃ es, input_step c id s s es).
  { exists []. pose proof (input_step_silent c id s [] (telemetry s) Hw (Forall_nil_2 _)) as Hs.
    rewrite app_nil_r in Hs. by destruct s. }
  assert (Hrej : ∀ detail m, ∃ es, input_step c id s (reject c id detail m s).1 es).
  { intros. rewrite reject_eval. eexists. apply input_step_silent; [done|]. by repeat constructor. }
  unfold handleInput.
  rewrite (bind_eval (gets (λ s, sessions s !! id)) _ s s (sessions s !! id) eq_refl).
  destruct (sessions s !! id) as [ss|] eqn:Es; [|done]. destruct data as [d|]; [|apply Hrej].
  destruct (Z.eqb_spec (utf8_length d) 0); [done|].
  destruct (Z.ltb_spec maxInputBytesPerEvent (utf8_length d)) as [|Hlen]; [apply Hrej|].
  pose proof (utf8_length_nonneg d).
  assert (Hn : 0 <= utf8_length d <= maxInputBytesPerSecond)
    by (unfold maxInputBytesPerEvent, maxInputBytesPerSecond in *; lia).
  destruct (rate_spec (now c) id (utf8_length d) s Hn Hw) as (w & b & E & Ho & Hwi & Hroom).
  rewrite (bind_eval _ _ _ _ _ E). set (s1 := set_inputWindow w s). destruct b; cbn [negb]; cbv iota.
  2: { eexists [_]. apply (input_step_counted _ _ _ _ _ 0 0); counted. }
  destruct (events_spec (now c) id s1) as (w2 & b2 & E2 & Ho2 & Hnn & Hroom2).
  rewrite (bind_eval _ _ _ _ _ E2). set (s2 := set_eventWindow w2 s1).
  destruct b2; cbn [negb]; cbv iota.
  2: { eexists [_; _]. apply (input_step_counted _ _ _ _ _ (utf8_length d) 0); counted.
       { rewrite (bind_eval _ _ _ _ _ (reject_eval _ _ _ _ _)). simpl. by rewrite <-app_assoc. }
       all: counted. }
  destruct (inspect_frame (cfg c) id d s2) as (v & bu & ok & E3 & Ho3 & Hbu).
  rewrite (bind_eval _ _ _ _ _ E3). destruct ok; cbn [negb]; cbv iota.
  - eexists [_]. apply (input_step_counted _ _ _ _ _ (utf8_length d) 1); counted.
    intros r d' [[= -> ->]|?%not_elem_of_nil]%elem_of_cons; [by eauto|done].
  - exists []. apply (input_step_counted _ _ _ _ _ (utf8_length d) 1); counted. by rewrite app_nil_r.
Qed.

(** ** The limits of a socket, in every reachable state *)

Record limits_ok (s : State) (id : string) : Prop := {
  lo_owned : sessions s !! id = None →
    inputWindowStats s !! id = None ∧ inputEventWindowStats s !! id = None ∧
    dangerousInputViolations s !! id = None ∧ commandBuffers s !! id = None;
  lo_within : within maxInputBytesPerSecond (inputWindowStats s !! id);
  lo_events : nonneg (inputEventWindowStats s !! id);
  lo_buffer : buffer_ok (commandBuffers s !! id);
}.
Definition limits_rel (s s' : State) : Prop := (∀ id, limits_ok s id) → ∀ id, limits_ok s' id.
#[local] Instance limits_refl : Reflexive limits_rel.
Proof. intros s Hs. exact Hs. Qed.
#[local] Instance limits_trans : Transitive limits_rel.
Proof. intros s1 s2 s3 H12 H23 Hs. by apply H23, H12. Qed.

Lemma limits_cleanup id : preserves limits_rel (cleanupSession id).
Proof.
  intros s Hs id'. specialize (Hs id'). destruct Hs as [Ho Hw Hn Hb].
  assert (E : ∀ m, limits_ok s id' → sessions m = delete id (sessions s) →
    inputWindowStats m = inputWindowStats s → inputEventWindowStats m = inputEventWindowStats s →
    dangerousInputViolations m = dangerousInputViolations s → commandBuffers m = commandBuffers s →
    limits_ok (set_limits (delete id (inputWindowStats m)) (delete id (inputEventWindowStats m))
      (delete id (dangerousInputViolations m)) (delete id (commandBuffers m)) m) id').
  { intros m [Ho' Hw' Hn' Hb'] E1 E2 E3 E4 E5. destruct (decide (id = id')) as [->|Hne].
    - split; simpl; by rewrite ?lookup_delete_eq.
    - split; simpl; rewrite ?E1, ?E2, ?E3, ?E4, ?E5, ?lookup_delete_ne by done; done. }
  unfold cleanupSession. m_red. destruct (sessions s !! id) as [ss|] eqn:Es.
  - m_red. destruct (bastionClient ss); by apply E.
  - apply E; try done. simpl. by rewrite delete_id.
Qed.

Lemma limits_session id ss : preserves limits_rel (modify (λ s, set_sessions (<[id := ss]> (sessions s)) s)).
Proof.
  apply preserves_modify. intros s Hs id'. destruct (Hs id') as [Ho Hw Hn Hb]. split; simpl; try done.
  rewrite lookup_insert_None. by intros [? _]; apply Ho.
Qed.

(** An update that touches neither the sessions nor the limits. *)
Lemma limits_neutral f :
  (∀ s, ∃ t fl es, f s = set_effects es (set_flows fl (set_telemetry t s))) →
  preserves limits_rel (modify f).
Proof.
  intros Hf. apply preserves_modify. intros s Hs id'. destruct (Hf s) as (t & fl & es & ->).
  by destruct (Hs id'); split.
Qed.

Lemma limits_act e : preserves limits_rel (act e).
Proof.
  apply limits_neutral. intros s. exists (telemetry s), (flows s), (effects s ++ [e]). by destruct s.
Qed.
Lemma limits_tele g : preserves limits_rel (tele g).
Proof. apply limits_neutral. intros s. exists (g (telemetry s)), (flows s), (effects s). by destruct s. Qed.
Lemma limits_alter i g : preserves limits_rel (alter_flow i g).
Proof.
  apply limits_neutral. intros s. exists (telemetry s), (alter g i (flows s)), (effects s). by destruct s.
Qed.
Lemma limits_newflow f : preserves limits_rel (modify (λ s, set_flows (flows s ++ [f]) s)).
Proof. apply limits_neutral. intros s. exists (telemetry s), (flows s ++ [f]), (effects s). by destruct s. Qed.

Create HintDb limits.
#[local] Hint Resolve limits_cleanup limits_session limits_act limits_tele limits_alter
  limits_newflow : limits.

Ltac limits_auto :=
  repeat first
    [ match goal with |- ∀ _, _ => intro end
    | match goal with |- preserves _ (mret _) => apply preserves_ret; apply _ end
    | match goal with |- preserves _ (throw _) => apply preserves_throw; apply _ end
    | match goal with |- preserves _ (gets _) => apply preserves_gets; apply _ end
    | match goal with |- preserves _ (lift _) => intros ?; simpl; reflexivity end
    | match goal with |- preserves _ (mbind _ _) => apply preserves_bind; [apply _| |] end
    | match goal with |- preserves _ (try_catch _ _) => apply preserves_try; [apply _| |] end
    | match goal with |- context [match ?x with _ => _ end] => destruct x eqn:? end
    | solve [auto with limits nocore]
    | progress unfold deny, fail_connect, ssh_connect, when, clearConnectTimeout ].

Section system_limits.
Context `{Hashing, UriCodec, Jwt, KeyParser, UrlParser}.

Lemma limits_input c id d : preserves limits_rel (handleInput c id d).
Proof.
  intros s Hs id'. destruct (sessions s !! id) as [ss|] eqn:Es.
  2: { replace (handleInput c id d s) with (s, Ret tt : outcome unit); [done|].
       unfold handleInput. rewrite (bind_eval (gets (λ s, sessions s !! id)) _ s s _ eq_refl).
       by rewrite Es. }
  destruct (handleInput_step c id d s) as [es Hst]; [apply Hs|].
  destruct Hst as [_ Hse Hot Hre Hbu Hwi Hnn _ _ _].
  destruct (decide (id' = id)) as [->|Hne].
  - split; [rewrite Hse, Es; done|done|apply Hnn, Hs|apply Hbu, Hs].
  - destruct (Hot id' Hne) as [E1 E2], (Hre id' Hne) as [E3 E4], (Hs id') as [Ho Hw Hn Hb].
    split; rewrite ?Hse, ?E1, ?E2, ?E3, ?E4; done.
Qed.

Lemma limits_handle c e : preserves limits_rel (handle c e).
Proof.
  destruct e; cbn [handle]; [|by apply limits_input|..];
    try (intros s; unfold with_flow; destruct (flows s !! i) as [f|]; [|simpl; reflexivity]; revert s).
  1: unfold handleConnectSsh, connect_body, open_vm, open_flow.
  all: unfold handleResize, handleDisconnect, onReady, onShell, onForward, onError, onDirectError,
         onClose, onStreamData, onStreamClose, onTimeout, tryBastionFallback, tryPasswordOnlyRetry.
  all: match goal with |- ∀ s, limits_rel s (?m s).1 => change (preserves limits_rel m) | _ => idtac end.
  all: limits_auto.
Qed.

Lemma run_invariant (P : State → Prop) evs s :
  (∀ c e s, P s → P (handle c e s).1) → P s → P (run evs s).
Proof.
  intros Hstep. revert s. induction evs as [|[c e] evs IH]; intros s Hs; [done|].
  unfold run. simpl. by apply IH, Hstep.
Qed.

Lemma limits_run evs t id : limits_ok (run evs (init t)) id.
Proof.
  revert id. apply (run_invariant (λ s, ∀ id, limits_ok s id)).
  - intros c e s Hs. by apply limits_handle.
  - intros id. split; simpl; rewrite ?lookup_empty; done.
Qed.

(** ** Input over one second *)

Definition input_event (t0 : Z) (ce : Call * Event) : Prop :=
  t0 <= now ce.1 < t0 + 1000 ∧ match ce.2 with EvInput _ _ => True | _ => False end.

(** No two sockets share a shell. *)
Definition exclusive (id : string) (ss : SshSession) (s : State) : Prop :=
  ∀ id' ss', sessions s !! id' = Some ss' → stream ss' = stream ss → id' = id.

Lemma writes_bounded r es :
  sumZ (λ e, if writes_to r e then write_bytes e else 0) es <= sumZ write_bytes es ∧
  sumZ (λ e, if writes_to r e then write_count e else 0) es <= sumZ write_count es.
Proof.
  unfold sumZ. induction es as [|e es [IH1 IH2]]; simpl in *; [done|].
  assert (0 <= write_bytes e) by (destruct e; simpl; try lia; apply utf8_length_nonneg).
  assert (0 <= write_count e) by (destruct e; simpl; lia).
  destruct (writes_to r e); lia.
Qed.

Lemma no_writes_to r es :
  (∀ r' d, StreamWrite r' d ∈ es → r' ≠ r) →
  sumZ (λ e, if writes_to r e then write_bytes e else 0) es = 0 ∧
  sumZ (λ e, if writes_to r e then write_count e else 0) es = 0.
Proof.
  unfold sumZ. induction es as [|e es IH]; simpl; intros Hr; [done|].
  destruct IH as [IH1 IH2]; [intros; eapply Hr; by right|].
  assert (E : writes_to r e = false); [|rewrite E; lia].
  destruct e; try done. simpl. apply bool_decide_neq. eapply Hr. by left.
Qed.

(** One message of any socket, seen from the shell of [id]. *)
Lemma input_room c id id' d ss s t0 :
  (∀ x, within maxInputBytesPerSecond (inputWindowStats s !! x)) →
  sessions s !! id = Some ss → exclusive id ss s → t0 <= now c < t0 + 1000 →
  let s' := (handleInput c id' d s).1 in
  bytes_to (stream ss) s' - bytes_to (stream ss) s
    <= room maxInputBytesPerSecond t0 (inputWindowStats s !! id)
       - room maxInputBytesPerSecond t0 (inputWindowStats s' !! id) ∧
  count_to (stream ss) s' - count_to (stream ss) s
    <= room maxInputEventsPerSecond t0 (inputEventWindowStats s !! id)
       - room maxInputEventsPerSecond t0 (inputEventWindowStats s' !! id) ∧
  sessions s' = sessions s ∧ (∀ x, within maxInputBytesPerSecond (inputWindowStats s' !! x)).
Proof.
  intros Hw Hss Hex Ht s'. destruct (handleInput_step c id' d s (Hw id')) as [es Hst].
  fold s' in Hst. destruct Hst as [Hef Hse Hot _ _ Hwi _ Hstr Hby Hco].
  specialize (Hby t0 Ht). specialize (Hco t0 Ht).
  unfold bytes_to, count_to. rewrite Hef, !sumZ_app.
  assert (Hall : ∀ x, within maxInputBytesPerSecond (inputWindowStats s' !! x)).
  { intros x. destruct (decide (x = id')) as [->|Hne]; [done|].
    destruct (Hot x Hne) as [-> _]. apply Hw. }
  destruct (decide (id' = id)) as [->|Hne].
  - destruct (writes_bounded (stream ss) es) as [? ?]. split_and!; [lia..|done|done].
  - destruct (Hot id) as [-> ->]; [done|].
    destruct (no_writes_to (stream ss) es) as [-> ->].
    { intros r d' Hin E. destruct (Hstr r d' Hin) as (ss' & Hss' & ->).
      apply Hne. by eapply Hex. }
    split_and!; [lia..|done|done].
Qed.

Lemma inputs_room evs id ss s t0 :
  (∀ x, within maxInputBytesPerSecond (inputWindowStats s !! x)) →
  sessions s !! id = Some ss → exclusive id ss s → Forall (input_event t0) evs →
  bytes_to (stream ss) (run evs s) - bytes_to (stream ss) s
    <= room maxInputBytesPerSecond t0 (inputWindowStats s !! id) ∧
  count_to (stream ss) (run evs s) - count_to (stream ss) s
    <= room maxInputEventsPerSecond t0 (inputEventWindowStats s !! id).
Proof.
  intros Hw Hss Hex Hev. revert s Hw Hss Hex.
  assert (Hpos : ∀ m w, 0 <= m → 0 <= room m t0 w).
  { intros m [w|] Hm; simpl; [case_match; lia|done]. }
  induction Hev as [|[c e] evs [Ht He] _ IH]; intros s Hw Hss Hex.
  { unfold run. simpl. rewrite !Z.sub_diag. split; by apply Hpos. }
  destruct e as [|id' d| | | | | | | | | |]; try done. simpl in Ht.
  destruct (input_room c id id' d ss s t0 Hw Hss Hex Ht) as (Hb & Hc & Hse & Hw').
  change (run ((c, EvInput id' d) :: evs) s) with (run evs (handleInput c id' d s).1).
  destruct (IH (handleInput c id' d s).1) as [Hb' Hc']; [done|by rewrite Hse|by unfold exclusive; rewrite Hse|].
  lia.
Qed.

End system_limits.
End TerminalLimits.
