(* ===== verification/TerminalFilter.v ===== *)
(** * TerminalFilter: the audit of the terminal, and the filter of commands

    Every attached shell is listed by the metrics route; the counters are
    consistent; and the inspection of submitted lines depends on the text the
    browser sent, not on how it was cut into messages. *)

From Stdlib Require Import ZArith QArith Qround Lia Ascii String.
From stdpp Require Import base list gmap sets strings pretty.
From S2P Require Import Prelude Text Js Regex Crypto RequestSecurity Sockets Telemetry VmKeyCrypto Vm Terminal.
From S2P Require Import TerminalProps TerminalLimits.
Import RequestSecurity Sockets Terminal.
#[local] Open Scope Z_scope.

Module TerminalFilter.
Import TerminalLimits.

(** ** Telemetry of the gateway *)

Abbreviation tclients s := (Telemetry.clients (telemetry s)).
Definition listed (s : State) : Prop :=
  ∀ id, is_Some (sessions s !! id) → is_Some (jget id (tclients s)).
Definition audit_ok (s : State) : Prop := Telemetry.wf (telemetry s) ∧ listed s.
Definition audit_rel (s s' : State) : Prop := audit_ok s → audit_ok s'.
#[local] Instance audit_refl : Reflexive audit_rel.
Proof. intros s Hs. exact Hs. Qed.
#[local] Instance audit_trans : Transitive audit_rel.
Proof. intros s1 s2 s3 H12 H23 Hs. by apply H23, H12. Qed.

(** Methods that keep the invariant and forget no client. *)
Definition remembers (g : Telemetry.TerminalTelemetry → Telemetry.TerminalTelemetry) : Prop :=
  ∀ t, Telemetry.wf t → Telemetry.wf (g t) ∧
    ∀ id, is_Some (jget id (Telemetry.clients t)) → is_Some (jget id (Telemetry.clients (g t))).

Lemma jget_jset_Some {V} k (v : V) m k' : is_Some (jget k' m) → is_Some (jget k' (jset k v m)).
Proof. rewrite jget_jset. case_bool_decide; eauto. Qed.

Lemma remembers_attempt now c v u : remembers (Telemetry.markConnectAttempt now c v u).
Proof. intros t Ht. split; [by apply Telemetry.wf_attempt|done]. Qed.
Lemma remembers_success now c v u : remembers (Telemetry.markConnectSuccess now c v u).
Proof. intros t Ht. split; [by apply Telemetry.wf_success|]. intros id. by apply jget_jset_Some. Qed.
Lemma remembers_denied now c d v u : remembers (Telemetry.markConnectDenied now c d v u).
Proof. intros t Ht. split; [by apply Telemetry.wf_denied|done]. Qed.
Lemma remembers_failed now c d v u : remembers (Telemetry.markConnectFailed now c d v u).
Proof. intros t Ht. split; [by apply Telemetry.wf_failed|done]. Qed.
Lemma remembers_rejected now c d : remembers (Telemetry.markInputRejected now c d).
Proof. intros t Ht. split; [by apply Telemetry.wf_rejected|done]. Qed.
Lemma remembers_bump k i o t id :
  is_Some (jget id (Telemetry.clients t)) →
  is_Some (jget id (Telemetry.clients (Telemetry.bump_client k i o t))).
Proof. unfold Telemetry.bump_client. case_match; [by apply jget_jset_Some|done]. Qed.
Lemma remembers_input now c d : remembers (Telemetry.addInputBytes now c (utf8_length d)).
Proof.
  intros t Ht. split; [apply Telemetry.wf_addInput; [apply utf8_length_nonneg|done]|].
  intros id. apply remembers_bump.
Qed.
Lemma remembers_output c d : remembers (Telemetry.addOutputBytes c (js_length d)).
Proof.
  intros t Ht. split; [apply Telemetry.wf_addOutput; [unfold js_length; lia|done]|].
  intros id. apply remembers_bump.
Qed.

Lemma audit_tele g : remembers g → preserves audit_rel (tele g).
Proof.
  intros Hg. apply preserves_modify. intros s [Hw Hl]. destruct (Hg _ Hw) as [Hw' Hk].
  split; [done|]. intros id Hid. by apply Hk, Hl.
Qed.
Lemma audit_neutral f :
  (∀ s, telemetry (f s) = telemetry s ∧ sessions (f s) ⊆ sessions s) →
  preserves audit_rel (modify f).
Proof.
  intros Hf. apply preserves_modify. intros s [Hw Hl]. destruct (Hf s) as [E1 E2].
  split; [by rewrite E1|]. intros id [ss Hid]. rewrite E1. apply Hl.
  exists ss. by eapply lookup_weaken.
Qed.
Lemma audit_act e : preserves audit_rel (act e).
Proof. by apply audit_neutral. Qed.
Lemma audit_alter i g : preserves audit_rel (alter_flow i g).
Proof. by apply audit_neutral. Qed.
Lemma audit_newflow f : preserves audit_rel (modify (λ s, set_flows (flows s ++ [f]) s)).
Proof. by apply audit_neutral. Qed.
Lemma audit_limits (w : State → gmap string Window) e d b :
  preserves audit_rel (modify (λ s, set_limits (w s) (e s) (d s) (b s) s)).
Proof. by apply audit_neutral. Qed.
Lemma audit_delete id : preserves audit_rel (modify (λ s, set_sessions (delete id (sessions s)) s)).
Proof. apply audit_neutral. intros s. split; [done|apply delete_subseteq]. Qed.
Lemma audit_disconnect now id d (m : M State unit) :
  (∀ s, sessions (m s).1 = delete id (sessions s) ∧ telemetry (m s).1 = telemetry s) →
  preserves audit_rel (tele (Telemetry.markDisconnect now id d);; m).
Proof.
  intros Hm s [Hw Hl].
  change ((tele (Telemetry.markDisconnect now id d);; m) s) with
    (m (set_telemetry (Telemetry.markDisconnect now id d (telemetry s)) s)).
  destruct (Hm (set_telemetry (Telemetry.markDisconnect now id d (telemetry s)) s)) as [E1 E2].
  split; [rewrite E2; simpl; by apply Telemetry.wf_disconnect|].
  intros id'. rewrite E1, E2. simpl. destruct (decide (id' = id)) as [->|Hne].
  - by rewrite lookup_delete_eq, is_Some_alt.
  - rewrite lookup_delete_ne by done. rewrite jget_jdelete, bool_decide_false by done. apply Hl.
Qed.

Create HintDb audit.
#[local] Hint Resolve remembers_attempt remembers_success remembers_denied remembers_failed
  remembers_rejected remembers_input remembers_output audit_tele audit_act audit_alter
  audit_newflow audit_limits audit_delete : audit.

Lemma cleanup_effect id s :
  sessions (cleanupSession id s).1 = delete id (sessions s) ∧
  telemetry (cleanupSession id s).1 = telemetry s.
Proof.
  unfold cleanupSession. m_red. destruct (sessions s !! id) as [ss|] eqn:Es.
  - m_red. by destruct (bastionClient ss).
  - simpl. by rewrite delete_id.
Qed.
Lemma audit_cleanup id : preserves audit_rel (cleanupSession id).
Proof.
  intros s [Hw Hl]. destruct (cleanup_effect id s) as [E1 E2]. split; [by rewrite E2|].
  intros id'. rewrite E1, E2. intros [ss [_ Hs]%lookup_delete_Some]. by apply Hl.
Qed.
Lemma audit_attach now id ss v u (m : M State unit) :
  preserves audit_rel m →
  preserves audit_rel (modify (λ s, set_sessions (<[id := ss]> (sessions s)) s);;
                       tele (Telemetry.markConnectSuccess now id v u);; m).
Proof.
  intros Hm s [Hw Hl].
  change (audit_ok (m (set_telemetry (Telemetry.markConnectSuccess now id v u (telemetry s))
    (set_sessions (<[id := ss]> (sessions s)) s))).1).
  apply Hm. split; [by apply Telemetry.wf_success|].
  intros id'. simpl. rewrite jget_jset. case_bool_decide; [by eauto|].
  rewrite lookup_insert_ne by done. apply Hl.
Qed.
#[local] Hint Resolve audit_cleanup audit_attach : audit.

Ltac audit_auto :=
  repeat first
    [ match goal with |- ∀ _, _ => intro end
    | match goal with |- preserves _ (mret _) => apply preserves_ret; apply _ end
    | match goal with |- preserves _ (throw _) => apply preserves_throw; apply _ end
    | match goal with |- preserves _ (gets _) => apply preserves_gets; apply _ end
    | match goal with |- preserves _ (lift _) => intros ?; simpl; reflexivity end
    | match goal with
      | |- preserves _ (tele (Telemetry.markDisconnect _ _ _);; _) =>
          apply audit_disconnect; intros;
          first [apply cleanup_effect | refine (cleanup_effect _ (set_effects _ _))]
      | |- preserves _ (modify (λ s, set_sessions (<[_ := _]> _) s);; _) => apply audit_attach
      | |- preserves _ (mbind _ _) => apply preserves_bind; [apply _| |]
      end
    | match goal with |- preserves _ (try_catch _ _) => apply preserves_try; [apply _| |] end
    | match goal with |- context [match ?x with _ => _ end] => destruct x eqn:? end
    | solve [auto with audit nocore]
    | progress unfold deny, fail_connect, ssh_connect, when, clearConnectTimeout, reject,
        set_inputWindow, set_eventWindow, set_buffers, set_violations, allowInputRate,
        allowInputEventRate, inspectSubmittedCommands ].

Section system.
Context `{Hashing, UriCodec, Jwt, KeyParser, UrlParser}.

Lemma audit_handle c e : preserves audit_rel (handle c e).
Proof.
  destruct e; cbn [handle];
    try (intros s; unfold with_flow; destruct (flows s !! i) as [f|]; [|simpl; reflexivity]; revert s).
  1: unfold handleConnectSsh, connect_body, open_vm, open_flow.
  all: unfold handleInput, handleResize, handleDisconnect, onReady, onShell, onForward, onError,
         onDirectError, onClose, onStreamData, onStreamClose, onTimeout, tryBastionFallback,
         tryPasswordOnlyRetry.
  all: match goal with |- ∀ s, audit_rel s (?m s).1 => change (preserves audit_rel m) | _ => idtac end.
  all: audit_auto.
Qed.

(** The state of the gateway is well formed in every reachable state.  Each
    attached shell is listed in the telemetry, so the metrics route reports it;
    a socket without a shell has no window, no violation count and no command
    buffer left; windows hold at most 32768 bytes, command buffers at most 8192
    characters, the audit trail at most 300 events; no client is listed twice,
    and the counters of the listed clients never exceed the totals. *)
Theorem terminal_state_wf evs t id (s := run evs (init t)) :
  (is_Some (sessions s !! id) → is_Some (jget id (tclients s))) ∧ limits_ok s id ∧
  Telemetry.wf (telemetry s).
Proof.
  assert (Ha : audit_ok s).
  { apply run_invariant; [intros c e s' Hs'; by apply audit_handle|].
    split; [apply Telemetry.wf_new|]. intros id' [ss Hss]. simpl in Hss.
    by rewrite lookup_empty in Hss. }
  split_and!; [apply Ha|apply limits_run|apply Ha].
Qed.
End system.

(** ** Lines and chunks *)

Lemma split_lines_nonnil l : split_lines l ≠ [].
Proof. destruct l as [|x l]; simpl; [done|]. repeat case_match; done. Qed.

Lemma split_lines_one l h : split_lines l = [h] → h = l.
Proof.
  revert h. induction l as [|x l IH]; intros h; simpl; [congruence|].
  pose proof (split_lines_nonnil l). case_bool_decide; [by intros [= _ ?]|].
  destruct (split_lines l) as [|h' t] eqn:E; [done|].
  destruct (bool_decide (x = cr) && bool_decide (head l = Some lf)) eqn:Ec.
  - intros [= -> ->]. specialize (IH h eq_refl). subst.
    apply andb_true_iff in Ec as [_ Ec%bool_decide_eq_true].
    destruct l as [|y l]; [done|]. simpl in Ec. injection Ec as ->. simpl in E.
    congruence.
  - intros [= <- ->]. by rewrite (IH h' eq_refl).
Qed.

Lemma split_lines_free l : lf ∉ l → split_lines l = [l].
Proof.
  induction l as [|x l IH]; intros Hl; [done|]. simpl.
  rewrite bool_decide_neq by set_solver. rewrite IH by set_solver.
  rewrite (bool_decide_neq (head l)); [by rewrite andb_false_r|].
  destruct l; [done|]. set_solver.
Qed.

(** The unfinished line. *)
Definition unfinished (l : list ascii) : list ascii := default [] (last (split_lines l)).
Definition finished (l : list ascii) : list (list ascii) := removelast (split_lines l).

Lemma finished_unfinished l : split_lines l = finished l ++ [unfinished l].
Proof.
  unfold finished, unfinished. pose proof (split_lines_nonnil l) as Hn.
  destruct (split_lines l) as [|x t] using rev_ind; [done|].
  by rewrite removelast_last, last_snoc.
Qed.

(** More text only extends the unfinished line. *)
Lemma split_lines_app a b : split_lines (a ++ b) = finished a ++ split_lines (unfinished a ++ b).
Proof.
  induction a as [|x a IH]; [done|].
  pose proof (finished_unfinished a) as Ea. pose proof (split_lines_nonnil a) as Hn.
  unfold finished, unfinished in *. cbn [app split_lines].
  destruct (bool_decide_reflect (x = lf)) as [->|Hx].
  { destruct (split_lines a) as [|h t] eqn:E; [done|]. simpl. by rewrite IH. }
  destruct (split_lines a) as [|h t] eqn:E; [done|].
  destruct (decide (t = [])) as [->|Ht].
  - apply split_lines_one in E as E'. subst h. simpl.
    destruct (bool_decide (x = cr) && bool_decide (head a = Some lf)) eqn:Ec.
    + apply andb_true_iff in Ec as [_ Ec%bool_decide_eq_true]. destruct a as [|y a]; [done|].
      simpl in Ec. injection Ec as ->. simpl in E.
      injection E as _ E. by apply split_lines_nonnil in E.
    + simpl. by rewrite (bool_decide_neq x lf).
  - assert (Hh : head (a ++ b) = head a) by (by destruct a; [injection E as _ E; subst|]).
    rewrite Hh, IH. destruct t as [|h2 t]; [done|].
    destruct (bool_decide (x = cr) && bool_decide (head a = Some lf)); done.
Qed.

Lemma unfinished_app a b : unfinished (a ++ b) = unfinished (unfinished a ++ b).
Proof.
  unfold unfinished at 1. rewrite split_lines_app. rewrite (finished_unfinished (unfinished a ++ b)).
  by rewrite app_assoc, last_snoc.
Qed.
Lemma finished_app a b : finished (a ++ b) = finished a ++ finished (unfinished a ++ b).
Proof.
  unfold finished at 1. rewrite split_lines_app. rewrite (finished_unfinished (unfinished a ++ b)).
  by rewrite app_assoc, removelast_last.
Qed.

Lemma unfinished_length l : (length (unfinished l) ≤ length l)%nat.
Proof.
  assert (Hl : ∀ l h, h ∈ split_lines l → (length h ≤ length l)%nat); [|apply (Hl l)].
  2: { rewrite finished_unfinished. set_solver. }
  clear l. induction l as [|x l IH]; intros h; simpl.
  { intros ->%list_elem_of_singleton. done. }
  case_bool_decide.
  { intros [->|Hh]%elem_of_cons; simpl; [lia|]. specialize (IH h Hh). lia. }
  destruct (split_lines l) as [|h' t]; [intros ->%list_elem_of_singleton; simpl; lia|].
  case_match; intros [->|Hh]%elem_of_cons; simpl.
  all: try (specialize (IH h' ltac:(by left)); lia). all: specialize (IH h ltac:(by right)); lia.
Qed.

(** ** The inspection *)

Definition dangerous_count (segments : list (list ascii)) : Z :=
  sumZ (λ l, if is_dangerous (str l) then 1 else 0) segments.
Lemma dangerous_count_nonneg ls : 0 <= dangerous_count ls.
Proof. apply sumZ_nonneg. intros l _. by case_match. Qed.

Lemma inspect_lines_audit conf v touched ls :
  dangerousInputBlock conf = false →
  inspect_lines conf v touched (str <$> ls) =
    (v + dangerous_count ls, touched || (0 <? dangerous_count ls), true).
Proof.
  intros Hb. unfold dangerous_count, sumZ.
  revert v touched. induction ls as [|l ls IH]; intros v touched; simpl.
  { by rewrite Z.add_0_r, orb_false_r. }
  pose proof (dangerous_count_nonneg ls) as Hn. unfold dangerous_count, sumZ in Hn.
  rewrite Hb. destruct (is_dangerous (str l)); simpl; rewrite IH; [|done].
  set (n := foldr _ _ _) in *. rewrite orb_true_l. f_equal. f_equal; [lia|].
  symmetry. apply orb_true_intro. right. apply Z.ltb_lt. lia.
Qed.

(** What an inspection leaves behind: the unfinished line and the count. *)
Definition record_line (id : string) (tail : list ascii) (n : Z) (s : State) : State :=
  let s1 := set_buffers (<[id := str tail]> (commandBuffers s)) s in
  if 0 <? n
  then set_violations (<[id := default 0 (dangerousInputViolations s !! id) + n]>
                         (dangerousInputViolations s1)) s1
  else s1.

Lemma record_line_twice id l1 n1 l2 n2 s :
  0 <= n1 → 0 <= n2 →
  record_line id l2 n2 (record_line id l1 n1 s) = record_line id l2 (n1 + n2) s.
Proof.
  intros H1' H2'. unfold record_line.
  destruct (Z.ltb_spec 0 n1), (Z.ltb_spec 0 n2), (Z.ltb_spec 0 (n1 + n2)); try lia;
    unfold set_buffers, set_violations, set_limits; simpl;
    rewrite ?lookup_insert_eq, ?insert_insert_eq; simpl; rewrite ?insert_insert_eq; do 2 f_equal; lia.
Qed.

Abbreviation tail_of s id := (chars (default ""%string (commandBuffers s !! id))).

Lemma inspect_audit conf id d s (l := tail_of s id ++ chars d) :
  dangerousInputBlock conf = false → (length l ≤ maxCommandBufferChars)%nat →
  inspectSubmittedCommands conf id d s =
    (record_line id (unfinished l) (dangerous_count (finished l)) s, Ret true).
Proof.
  intros Hb Hlen. unfold inspectSubmittedCommands.
  assert (El : chars (default ""%string (commandBuffers s !! id) +:+ d) = l) by apply chars_app.
  m_red. rewrite (proj2 (Nat.ltb_ge _ _)) by (by rewrite <-length_chars, El).
  rewrite El. fold (unfinished l) (finished l). rewrite inspect_lines_audit by done.
  rewrite slice_tail_id by (rewrite length_str; pose proof (unfinished_length l); lia).
  simpl. unfold record_line. by destruct (0 <? dangerous_count (finished l)).
Qed.

(** The messages of one socket, inspected one after the other. *)
Fixpoint inspect_chunks (conf : Config) (id : string) (chunks : list string) : M State bool :=
  match chunks with
  | [] => mret true
  | d :: rest =>
      ok ← inspectSubmittedCommands conf id d;
      if (ok : bool) then inspect_chunks conf id rest else mret false
  end.

(** The audit of commands depends on the text, not on the messages: as long
    as the unfinished line fits the buffer, inspecting any cut of a text into
    messages leaves the same unfinished line and counts the same dangerous
    lines as inspecting the text at once, and lets the same input through. *)
Theorem inspection_ignores_chunking conf id d chunks s :
  dangerousInputBlock conf = false →
  (length (tail_of s id) + length (chars (d +:+ String.concat "" chunks)) ≤ maxCommandBufferChars)%nat →
  inspect_chunks conf id (d :: chunks) s =
  inspectSubmittedCommands conf id (d +:+ String.concat "" chunks) s.
Proof.
  intros Hb. revert d s. induction chunks as [|d2 chunks IH]; intros d s Hlen.
  { simpl in *. replace (d +:+ "") with d by (rewrite <-(str_chars (d +:+ "")), chars_app; simpl;
      by rewrite app_nil_r, str_chars). simpl.
    unfold mbind, M_bind. destruct (inspectSubmittedCommands conf id d s) as [s' [[]|]]; done. }
  set (rest := String.concat "" (d2 :: chunks)) in *.
  rewrite chars_app, length_app in Hlen.
  assert (E : rest = d2 +:+ String.concat "" chunks).
  { unfold rest. destruct chunks; simpl; [|done].
    rewrite <-(str_chars (d2 +:+ "")), chars_app. simpl. by rewrite app_nil_r, str_chars. }
  change (inspect_chunks conf id (d :: d2 :: chunks)) with
    (ok ← inspectSubmittedCommands conf id d;
     if (ok : bool) then inspect_chunks conf id (d2 :: chunks) else mret false).
  rewrite (bind_eval _ _ _ _ _ (inspect_audit conf id d s Hb ltac:(rewrite length_app; lia))).
  set (l := tail_of s id ++ chars d). set (s1 := record_line _ _ _ s).
  assert (Et : tail_of s1 id = unfinished l).
  { unfold s1, record_line. case_match; simpl; rewrite lookup_insert_eq; apply chars_str. }
  pose proof (unfinished_length l) as Hul. unfold l in Hul at 2. rewrite length_app in Hul.
  rewrite IH, <-E; [|rewrite <-E, Et; lia].
  rewrite (inspect_audit conf id rest s1 Hb) by (rewrite Et, length_app; lia).
  rewrite (inspect_audit conf id (d +:+ rest) s Hb) by (rewrite length_app, chars_app, length_app; lia).
  rewrite Et, chars_app, app_assoc. fold l. unfold s1. f_equal.
  rewrite record_line_twice by apply dangerous_count_nonneg.
  rewrite (unfinished_app l), (finished_app l). unfold dangerous_count. by rewrite sumZ_app.
Qed.

(** Text without a line feed is never inspected: a browser's Enter key sends a
    carriage return alone. *)
Lemma carriage_return_unseen conf id d s :
  lf ∉ tail_of s id ++ chars d → (length (tail_of s id ++ chars d) ≤ maxCommandBufferChars)%nat →
  ∃ s', inspectSubmittedCommands conf id d s = (s', Ret true) ∧
        dangerousInputViolations s' = dangerousInputViolations s.
Proof.
  intros Hlf Hlen. unfold inspectSubmittedCommands.
  assert (El : chars (default ""%string (commandBuffers s !! id) +:+ d) = tail_of s id ++ chars d)
    by apply chars_app.
  m_red. rewrite (proj2 (Nat.ltb_ge _ _)) by (by rewrite <-length_chars, El).
  rewrite El, split_lines_free by done. simpl. eauto.
Qed.
End TerminalFilter.
