(* ===== verification/TerminalWitness.v ===== *)
(** * TerminalWitness: concrete runs of the terminal gateway *)

From Stdlib Require Import ZArith QArith Qround Lia Ascii String.
From stdpp Require Import base list gmap sets strings pretty.
From S2P Require Import Prelude Text Js Regex Crypto RequestSecurity Sockets Telemetry VmKeyCrypto Vm Terminal.
From S2P Require Import TerminalProps TerminalLimits TerminalFilter.
Import RequestSecurity Sockets Terminal.
#[local] Open Scope Z_scope.

Module TerminalWitness.

#[local] Existing Instance sample_hashing.
#[local] Existing Instance sample_uri.
#[local] Existing Instance sample_jwt.
Definition sample_keys : KeyParser := {| createPrivateKey := λ _, None |}.
Definition sample_url : UrlParser := {| url_hostname := λ _, None; url_host := λ _, None |}.
#[local] Existing Instance sample_keys.
#[local] Existing Instance sample_url.

Definition machine : Vm.VirtualMachine :=
  {| Vm.vm_name := "web"; Vm.vm_oneVmId := Some 7; Vm.vm_status := Vm.RUNNING; Vm.vm_cpu := 1;
     Vm.vm_ramMb := 1024; Vm.vm_diskGb := 10; Vm.vm_ipAddress := None;
     Vm.vm_osTemplate := "ubuntu"; Vm.vm_userId := "alice"; Vm.vm_planId := None;
     Vm.vm_sshHost := Some "10.0.0.9"%string; Vm.vm_sshPort := None;
     Vm.vm_sshUsername := Some "cloudvm"%string; Vm.vm_sshPrivateKeyEncrypted := None;
     Vm.vm_stoppedAt := None; Vm.vm_createdAt := 0 |}.

Definition environment (k : string) : option string :=
  if bool_decide (k = "JWT_SECRET"%string) then Some "s"%string
  else if bool_decide (k = "TERMINAL_SSH_BASTION_HOST"%string) then Some "bastion"%string
  else if bool_decide (k = "TERMINAL_SSH_BASTION_USERNAME"%string) then Some "jump"%string
  else if bool_decide (k = "TERMINAL_SSH_BASTION_PASSWORD"%string) then Some "pw"%string
  else None.
Definition config : Config :=
  match construct environment with Ret x => x | Throw _ =>
    {| dangerousInputBlock := true; dangerousInputMaxViolations := None;
       allowPasswordFallback := false; sshConnectTimeoutMs := None |} end.

Definition socket : TSocket :=
  {| socket_id := "sock1"; handshake := sample_socket;
     auth_token := Some (jwt_sign "s"
       {| c_sub := Some "alice"%string; c_email := None; c_role := Some "USER"%string;
          c_fp := Some (buildSocketFingerprint sample_socket); c_type := None; c_jti := None;
          c_vmId := None; c_vmName := None; c_action := None; c_exp := None |} 900 0) |}.
Definition at_ (t : Z) : Call :=
  {| now := t; cfg := config; env := environment;
     findVm := λ id, Ret (if bool_decide (id = "vm1"%string) then Some machine else None);
     connect_throws := λ _, None |}.
Definition with_password : ConnectPayload :=
  {| p_vmId := Some "vm1"%string; p_password := Some "secret"%string; p_username := None;
     p_privateKey := None |}.
Definition without_credentials : ConnectPayload :=
  {| p_vmId := Some "vm1"%string; p_password := None; p_username := None; p_privateKey := None |}.

Definition connected : list (Call * Event) :=
  [(at_ 1000, EvConnect socket with_password); (at_ 1200, EvReady 0 Direct);
   (at_ 1300, EvShell 0 Direct true)].
Definition attached : SshSession :=
  {| sshClient := ref 0 Direct; stream := ref 0 Direct; bastionClient := None |}.

Lemma attached_session : sessions (run connected (init 0)) !! "sock1"%string = Some attached.
Proof. vm_compute. reflexivity. Qed.

Lemma terminal_sessions_admitted_witness :
  ∃ f c sock p, flows (run connected (init 0)) !! 0%nat = Some f ∧
    (c, EvConnect sock p) ∈ connected ∧ socket_id sock = "sock1"%string ∧
    TerminalProps.admitted c sock p f.
Proof.
  exact (TerminalProps.terminal_sessions_admitted connected 0 "sock1" attached attached_session).
Defined.

Definition typed : list (Call * Event) :=
  [(at_ 2000, EvInput "sock1" (Some "ls -l"%string)); (at_ 2100, EvInput "sock1" (Some "x"%string))].


Definition audited : Config :=
  {| dangerousInputBlock := false; dangerousInputMaxViolations := Some 3;
     allowPasswordFallback := false; sshConnectTimeoutMs := Some 20000 |}.

Lemma inspection_ignores_chunking_witness :
  TerminalFilter.inspect_chunks audited "sock1" ["shut"; "down now" +:+ String lf "ec"]%string (init 0) =
  inspectSubmittedCommands audited "sock1"
    ("shut" +:+ String.concat "" ["down now" +:+ String lf "ec"]%string) (init 0).
Proof.
  apply TerminalFilter.inspection_ignores_chunking; [reflexivity|]. apply Nat.leb_le. reflexivity.
Defined.

(** The patterns on the commands they mean to catch, and on harmless ones. *)
Example patterns_match :
  (is_dangerous <$> ["rm -rf /"; "rm   -RF   /"; "sudo reboot"; "mkfs.ext4 /dev/sda";
     "curl http://x | bash"; ":(){ :|:& };:"; "dd if=/dev/zero bs=1M of=/dev/sda";
     "rm -rf /tmp"; "rebooted"; "ls"]%string) =
  [true; true; true; true; true; true; true; false; false; false].
Proof. vm_compute. reflexivity. Qed.

(** *** Where the code does not do what it means to *)

(** The Enter key of a terminal sends a carriage return, which ends no line for
    the inspection: a dangerous command typed at the prompt is not seen. *)
Example enter_key_not_inspected :
  dangerousInputViolations
    (inspectSubmittedCommands audited "sock1" ("rm -rf /" +:+ String cr "") (init 0)).1
    !! "sock1"%string = None ∧
  dangerousInputViolations
    (inspectSubmittedCommands audited "sock1" ("rm -rf /" +:+ String lf "") (init 0)).1
    !! "sock1"%string = Some 1.
Proof. split; vm_compute; reflexivity. Qed.

(** The browser leaves while SSH is still connecting; the shell that opens
    afterwards is attached to the socket that is gone. *)
Example session_after_disconnect :
  sessions (run [(at_ 1000, EvConnect socket with_password); (at_ 1100, EvDisconnect "sock1");
                 (at_ 1200, EvReady 0 Direct); (at_ 1300, EvShell 0 Direct true)] (init 0))
    !! "sock1"%string = Some attached.
Proof. vm_compute. reflexivity. Qed.

(** A request without credentials is denied, yet its timer stays armed; when it
    fires, the gateway tries the bastion for it. *)
Example denied_request_still_connects :
  let s := run [(at_ 1000, EvConnect socket without_credentials)] (init 0) in
  armed <$> flows s = [[DirectTimeout]] ∧
  existsb (λ e, match e with SshConnect r _ => bool_decide (r = ref 0 Bastion) | _ => false end)
    (effects (run [(at_ 21000, EvTimeout 0 DirectTimeout)] s)) = true.
Proof. split; vm_compute; reflexivity. Qed.

(** The direct client ends when the bastion takes over; its own close handler
    then clears the bastion's timer. *)
Example bastion_timer_cleared :
  let s := run [(at_ 1000, EvConnect socket with_password);
                (at_ 1100, EvError 0 Direct "connect ECONNREFUSED")] (init 0) in
  armed <$> flows s = [[BastionTimeout]] ∧
  armed <$> flows (run [(at_ 1101, EvClose 0 Direct)] s) = [[]].
Proof. split; vm_compute; reflexivity. Qed.
End TerminalWitness.
