(* ===== verification/Gateway.v ===== *)
(** * Gateway: the public entry of the system

    services/gateway/src: the start-up checks and the request filter of main.ts,
    the rate limits of security/*.ts, the WebSocket upgrade routing of main.ts,
    and the proxies of proxy/.  Redis is [Store.Redis]; the point at which a
    call to it fails is part of the request's [Call]. *)

From Stdlib Require Import ZArith Lia Ascii String.
From stdpp Require Import base list gmap sets strings pretty.
From S2P Require Import Prelude Text Js Regex Store RequestSecurity.
Import RequestSecurity Regex.

Module Gateway.

(** ** Start-up *)

Definition DEFAULT_SECRET_MARKERS : list string :=
  ["super-secret-key"; "super-secret-jwt-key-change-in-production";
   "super-secret-refresh-key-change-in-production"; "change-in-production"]%string.
Definition isWeakSecret (value : string) : bool :=
  existsb (λ marker, includes marker (toLowerCase value)) DEFAULT_SECRET_MARKERS.

Definition validateJwtSecretsOrThrow (env : Env) : outcome unit :=
  let jwtSecret := env_or env "JWT_SECRET" "" in
  let jwtRefreshSecret := env_or env "JWT_REFRESH_SECRET" "" in
  if (js_length jwtSecret <? 64) || isWeakSecret jwtSecret
  then Throw (JsError "JWT_SECRET is weak. Use at least 64 chars and never default placeholders.")
  else if (js_length jwtRefreshSecret <? 64) || isWeakSecret jwtRefreshSecret
  then Throw (JsError
    "JWT_REFRESH_SECRET is weak. Use at least 64 chars and never default placeholders.")
  else Ret tt.

(** [.split(",").map(trim).filter(Boolean)] *)
Definition comma_list (s : string) : list string :=
  List.filter truthy (js_trim <$> js_split "," s).
Definition getAllowedOrigins (env : Env) : list string :=
  comma_list (env_or env "CORS_ORIGIN" "http://127.0.0.1:3000").

Definition parseHost (value : option string) : option string :=
  v ← value;
  if negb (truthy v) then None
  else let first := js_trim (firstSegment v) in
       if truthy first then Some (toLowerCase first) else None.

Definition parseSingleHeader (value : option header) : option string :=
  match value with
  | None => None
  | Some (HMany l) => v ← head l; nonempty (js_trim v)
  | Some (HOne v) => if truthy v then nonempty (js_trim v) else None
  end.

Definition Headers : Type := gmap string header.

Definition extractClientIpFromHeaders (headers : Headers) : string :=
  match parseSingleHeader (headers !! "x-real-ip"%string) with
  | Some realIp => replace_first "::ffff:" "" realIp
  | None => "unknown"
  end.

Definition local_hosts : list string :=
  ["localhost"; "127.0.0.1"; "localhost:3001"; "127.0.0.1:3001"]%string.

Definition isLocalFrontendDevRequest (headers : Headers) (allowedOrigins : list string) : bool :=
  let host := parseHost (parseSingleHeader (headers !! "host"%string)) in
  let origin := parseSingleHeader (headers !! "origin"%string) in
  let hasForwardedHeaders :=
    bool_decide (is_Some (parseSingleHeader (headers !! "x-forwarded-for"%string)))
    || bool_decide (is_Some (parseSingleHeader (headers !! "x-forwarded-host"%string)))
    || bool_decide (is_Some (parseSingleHeader (headers !! "x-forwarded-proto"%string))) in
  match host, origin with
  | Some host, Some origin =>
      bool_decide (host ∈ local_hosts) && bool_decide (origin ∈ allowedOrigins)
      && negb hasForwardedHeaders
  | _, _ => false
  end.

Definition getTrustedHosts `{UrlParser} (env : Env) (allowedOrigins : list string) : list string :=
  omap (λ origin, toLowerCase <$> url_host origin) allowedOrigins
  ++ List.filter truthy ((λ h, toLowerCase (js_trim h)) <$> js_split "," (env_or env "TRUSTED_HOSTS" ""))
  ++ local_hosts.

Record GatewayConfig := {
  allowedOrigins : list string; trustedHosts : list string; edgeProxyToken : string;
  isProduction : bool; terminalWsRateLimit : option Z; terminalWsRateWindowSeconds : option Z;
}.

(** [bootstrap] up to the first [app.use]; [uid] is [process.getuid()]. *)
Definition bootstrap `{UrlParser} (env : Env) (uid : option Z) : outcome GatewayConfig :=
  match validateJwtSecretsOrThrow env with
  | Throw e => Throw e
  | Ret _ =>
      if bool_decide (uid = Some 0) then Throw (JsError "SECURITY: Do not run as root. Exiting.")
      else
        let origins := getAllowedOrigins env in
        Ret {| allowedOrigins := origins; trustedHosts := getTrustedHosts env origins;
               edgeProxyToken := js_trim (env_or env "EDGE_PROXY_TOKEN" "");
               isProduction := bool_decide (toLowerCase (env_or env "NODE_ENV" "development")
                                            = "production"%string);
               terminalWsRateLimit :=
                 js_max 1 (js_Number (env_or env "TERMINAL_WS_RATE_LIMIT_PER_MINUTE" "30"));
               terminalWsRateWindowSeconds :=
                 js_max 1 (js_Number (env_or env "TERMINAL_WS_RATE_LIMIT_WINDOW_SECONDS" "60")) |}
  end.

(** ** The request filter *)

(** What a middleware answers: it hands over, or it ends the response. *)
Inductive Verdict :=
| Next
| Respond (status : Z) (message : string) (retryAfter : option Z).
#[export] Instance Verdict_eq_dec : EqDecision Verdict.
Proof. solve_decision. Defined.

(** The shared secret of the edge proxy: the buffers have the same length and
    the same bytes. *)
Definition edge_ok (cfg : GatewayConfig) (headers : Headers) : bool :=
  let allowLocalDevBypass :=
    negb (isProduction cfg) && isLocalFrontendDevRequest headers (allowedOrigins cfg) in
  negb (truthy (edgeProxyToken cfg)) || allowLocalDevBypass
  || match parseSingleHeader (headers !! "x-edge-token"%string) with
     | Some edgeToken => bool_decide (edgeToken = edgeProxyToken cfg)
     | None => false
     end.

Definition requestHost (headers : Headers) : option string :=
  let host_header := header_first (headers !! "host"%string) in
  parseHost (match headers !! "x-forwarded-host"%string with
             | Some (HMany l) => head l
             | Some (HOne v) => if truthy v then Some v else host_header
             | None => host_header
             end).

Definition edgeFilter (cfg : GatewayConfig) (headers : Headers) : Verdict :=
  let forwardedProto := parseSingleHeader (headers !! "x-forwarded-proto"%string) in
  if negb (bool_decide (forwardedProto = None)) && negb (bool_decide (forwardedProto = Some "https"%string))
  then Respond 400 "Invalid forwarded proto" None
  else if negb (edge_ok cfg headers) then Respond 403 "Edge verification failed" None
  else match requestHost headers with
       | Some host => if bool_decide (host ∈ trustedHosts cfg) then Next
                      else Respond 400 "Invalid host header" None
       | None => Next
       end.

(** ** Rate limits *)

Record RateLimitRule := { rule_name : string; rule_method : string; rule_path : regex;
                          limit : Z; windowSeconds : Z }.

Definition defaultRule : RateLimitRule :=
  {| rule_name := "default"; rule_method := "*"; rule_path := Seq Bol (Lit (chars "/api/"));
     limit := 60; windowSeconds := 60 |}.
Definition exact_path (p : string) : regex := anchored (Lit (chars p)).
Definition strictRules : list RateLimitRule :=
  [ {| rule_name := "auth-login"; rule_method := "POST"; rule_path := exact_path "/api/auth/login";
       limit := 10; windowSeconds := 60 |};
    {| rule_name := "auth-register"; rule_method := "POST";
       rule_path := exact_path "/api/auth/register"; limit := 5; windowSeconds := 60 |};
    {| rule_name := "auth-mfa-verify"; rule_method := "POST";
       rule_path := exact_path "/api/auth/mfa/verify"; limit := 8; windowSeconds := 60 |};
    {| rule_name := "ai-chat"; rule_method := "POST"; rule_path := exact_path "/api/ai/chat";
       limit := 20; windowSeconds := 60 |} ].

Record HttpRequest := { r_method : string; r_path : string; r_ip : option string;
                        r_remoteAddress : option string; r_headers : Headers }.

Definition getClientIp (req : HttpRequest) : string :=
  replace_first "::ffff:" "" (opt_or (r_ip req) (opt_or (r_remoteAddress req) "unknown")).

Definition resolveRule (req : HttpRequest) : option RateLimitRule :=
  let method := toUpperCase (r_method req) in
  match List.find (λ rule, bool_decide (rule_method rule = method) && test (rule_path rule) (r_path req))
          strictRules with
  | Some rule => Some rule
  | None => if test (rule_path defaultRule) (r_path req) then Some defaultRule else None
  end.

Definition rate_key (rule : RateLimitRule) (ip : string) : string :=
  "security:gateway:ratelimit:" +:+ rule_name rule +:+ ":" +:+ ip.

(** Where a call to Redis fails, if it does. *)
Inductive FailPoint := FConnect | FIncr | FExpire | FTtl.
#[export] Instance FailPoint_eq_dec : EqDecision FailPoint.
Proof. solve_decision. Defined.
Record Call := { now : Z; env : Env; redis_fail : option FailPoint }.

Section redis.
Context {RS O : Type} `{Redis RS O}.

(** A command at a point that may fail. *)
Definition redis_op {A} (c : Call) (p : FailPoint) (f : RS → A * RS) : M RS A := λ rs,
  if bool_decide (redis_fail c = Some p) then (rs, Throw (JsError "Redis unavailable"))
  else let '(a, rs') := f rs in (rs', Ret a).

(** EXPIRE refuses a window that is not a number. *)
Definition expire (c : Call) (key : string) (window : option Z) : M RS unit :=
  match window with
  | Some w => redis_op c FExpire (λ rs, (tt, r_expire key w (now c) rs))
  | None => throw (JsError "ERR value is not an integer or out of range")
  end.
(** INCR, EXPIRE on the first hit, and TTL when over the limit: [Some ttl] when
    the caller is blocked. *)
Definition count_hit (c : Call) (key : string) (window : option Z) (over : Z → bool)
    : M RS (option Z) :=
  currentHits ← redis_op c FIncr (r_incr key (now c));
  (if currentHits =? 1 then expire c key window else mret tt);;
  if (over currentHits : bool)
  then ttl ← redis_op c FTtl (λ rs, (r_ttl key (now c) rs, rs)); mret (Some (Z.max 1 ttl))
  else mret None.

(** RedisRateLimitMiddleware.use *)
Definition rateLimit (c : Call) (req : HttpRequest) : M RS Verdict :=
  match resolveRule req with
  | None => mret Next
  | Some rule =>
      try_catch
        (redis_op c FConnect (λ rs, (tt, rs));;
         blocked ← count_hit c (rate_key rule (getClientIp req)) (Some (windowSeconds rule))
                     (λ hits, limit rule <? hits);
         match blocked with
         | Some ttl => mret (Respond 429 "Too many requests. Please retry later." (Some ttl))
         | None => mret Next
         end)
        (λ _,
           let failOpen := negb (bool_decide (toLowerCase (env_or (env c) "RATELIMIT_FAIL_BEHAVIOR" "open")
                                              = "closed"%string)) in
           if failOpen then mret Next
           else mret (Respond 503 "Rate limiter unavailable. Please retry later." None))
  end.

(** [a > n], false when [n] is NaN. *)
Definition js_gt (a : Z) (n : option Z) : bool := match n with Some m => m <? a | None => false end.

Record WsDecision := { allowed : bool; retryAfterSeconds : option Z; ws_ip : string }.
Definition ws_key (ip : string) : string := "security:gateway:ratelimit:ws-terminal:" +:+ ip.

Definition checkTerminalWsRateLimit (c : Call) (cfg : GatewayConfig) (headers : Headers)
    : M RS WsDecision :=
  let ip := extractClientIpFromHeaders headers in
  if bool_decide (ip = "unknown"%string)
  then mret {| allowed := true; retryAfterSeconds := None; ws_ip := ip |}
  else
    try_catch
      (blocked ← count_hit c (ws_key ip) (terminalWsRateWindowSeconds cfg)
                   (λ hits, js_gt hits (terminalWsRateLimit cfg));
       match blocked with
       | Some ttl => mret {| allowed := false; retryAfterSeconds := Some ttl; ws_ip := ip |}
       | None => mret {| allowed := true; retryAfterSeconds := None; ws_ip := ip |}
       end)
      (λ _,
         let defaultBehavior := (if isProduction cfg then "closed" else "open")%string in
         let failOpen := negb (bool_decide (toLowerCase (env_or (env c) "WS_RATELIMIT_FAIL_BEHAVIOR"
                                                            defaultBehavior) = "closed"%string)) in
         mret {| allowed := failOpen; retryAfterSeconds := None; ws_ip := ip |}).

(** RedisThrottlerStorage.increment; [ttl] is in milliseconds. *)
Record ThrottlerRecord := { totalHits : Z; timeToExpire : Z; isBlocked : bool; timeToBlockExpire : Z }.

(** PEXPIRE and PTTL, the forms of EXPIRE and TTL in milliseconds. *)
Class RedisMs := {
  r_pexpire : string → Z → Z → RS → RS;
  r_pttl : string → Z → RS → Z;
}.

Definition increment `{RedisMs} (c : Call) (key : string) (ttl lim : Z) : M RS ThrottlerRecord :=
  try_catch
    (redis_op c FConnect (λ rs, (tt, rs));;
     let fullKey := "security:gateway:throttler:" +:+ key in
     hits ← redis_op c FIncr (r_incr fullKey (now c));
     (if hits =? 1 then redis_op c FExpire (λ rs, (tt, r_pexpire fullKey ttl (now c) rs)) else mret tt);;
     pttl ← redis_op c FTtl (λ rs, (r_pttl fullKey (now c) rs, rs));
     let timeToExpire := Z.max 0 pttl in
     let isBlocked := lim <? hits in
     mret {| totalHits := hits; timeToExpire := timeToExpire; isBlocked := isBlocked;
             timeToBlockExpire := if isBlocked then timeToExpire else 0 |})
    (λ _, mret {| totalHits := 0; timeToExpire := 0; isBlocked := false; timeToBlockExpire := 0 |}).

(** ** WebSocket upgrades *)

Inductive WsTarget := TerminalWs | VmEventsWs | VncWs | AiChatWs.
#[export] Instance WsTarget_eq_dec : EqDecision WsTarget.
Proof. solve_decision. Defined.
(** What happens to the socket; [Ignored] leaves it open and unanswered. *)
Inductive UpgradeResult :=
| Forwarded (t : WsTarget)
| Refused (status : Z) (retryAfter : option (option Z))
| Ignored.
#[export] Instance UpgradeResult_eq_dec : EqDecision UpgradeResult.
Proof. solve_decision. Defined.

Definition upgrade (c : Call) (cfg : GatewayConfig) (headers : Headers) (url : string)
    : M RS UpgradeResult :=
  if negb (edge_ok cfg headers) then mret (Refused 403 None)
  else if starts_with "/terminal/" url then
    rateDecision ← checkTerminalWsRateLimit c cfg headers;
    if negb (allowed rateDecision)
    then mret (Refused 429 (Some (match retryAfterSeconds rateDecision with
                                  | Some n => if n =? 0 then terminalWsRateWindowSeconds cfg else Some n
                                  | None => terminalWsRateWindowSeconds cfg
                                  end)))
    else mret (Forwarded TerminalWs)
  else if starts_with "/vm-events/" url then mret (Forwarded VmEventsWs)
  else if starts_with "/vnc/" url then mret (Forwarded VncWs)
  else if starts_with "/ai-chat/" url then mret (Forwarded AiChatWs)
  else mret Ignored.
End redis.

(** ** Proxies *)

(** JSON.parse and JSON.stringify on request bodies. *)
Class JsonBody := { json_doc : Type; json_parse : string → option json_doc;
                    json_stringify : json_doc → string }.

Record Proxy := {
  target : string; rewrite : option (string * string); ws : bool; unavailable : string;
}.
Definition createJsonApiProxy (tgt : string) (pathRewrite : string * string) (message : string) : Proxy :=
  {| target := tgt; rewrite := Some pathRewrite; ws := false; unavailable := message |}.
Definition createWsProxy (tgt message : string) : Proxy :=
  {| target := tgt; rewrite := None; ws := true; unavailable := message |}.

Section proxies.
Context (env : Env).
Definition AUTH_SERVICE_URL : string := env_or env "AUTH_SERVICE_URL" "http://localhost:3002".
Definition USER_SERVICE_URL : string := env_or env "USER_SERVICE_URL" "http://localhost:3003".
Definition VM_SERVICE_URL : string := env_or env "VM_SERVICE_URL" "http://localhost:3004".
Definition AI_SERVICE_URL : string := env_or env "AI_SERVICE_URL" "http://localhost:3006".
Definition AuthOauthProxy : Proxy :=
  {| target := AUTH_SERVICE_URL; rewrite := Some ("/api/auth", "/auth")%string; ws := false;
     unavailable := "Auth service unavailable" |}.
Definition AuthProxy : Proxy :=
  createJsonApiProxy AUTH_SERVICE_URL ("/api/auth", "/auth")%string "Auth service unavailable".
Definition UserProxy : Proxy :=
  createJsonApiProxy USER_SERVICE_URL ("/api/users", "/users")%string "User service unavailable".
Definition SshKeyProxy : Proxy :=
  createJsonApiProxy USER_SERVICE_URL ("/api/ssh-keys", "/ssh-keys")%string "User service unavailable".
Definition VmProxy : Proxy :=
  createJsonApiProxy VM_SERVICE_URL ("/api/vms", "/vms")%string "VM service unavailable".
Definition PlanProxy : Proxy :=
  createJsonApiProxy VM_SERVICE_URL ("/api/plans", "/plans")%string "VM service unavailable".
Definition PaymentProxy : Proxy :=
  createJsonApiProxy (env_or env "PAYMENT_SERVICE_URL" "http://payment:3005")
    ("/api/payments", "/payments")%string "Payment service unavailable".
Definition TerminalApiProxy : Proxy :=
  createJsonApiProxy VM_SERVICE_URL ("/api/terminal", "/terminal")%string "Terminal service unavailable".
Definition AiProxy : Proxy :=
  createJsonApiProxy AI_SERVICE_URL ("/api/ai", "/ai")%string "AI service unavailable".
Definition TerminalProxy : Proxy := createWsProxy VM_SERVICE_URL "Terminal service unavailable".
Definition VmEventsProxy : Proxy := createWsProxy VM_SERVICE_URL "VM events service unavailable".
Definition VncProxy : Proxy := createWsProxy VM_SERVICE_URL "VNC service unavailable".
Definition AiChatProxy : Proxy := createWsProxy AI_SERVICE_URL "AI chat service unavailable".

(** A [forRoutes] entry: the path itself and everything below it. *)
Record Route := { route_base : string; route_methods : option (list string);
                  route_limited : bool; route_proxy : Proxy }.
Definition all_methods (base : string) (limited : bool) (p : Proxy) : Route :=
  {| route_base := base; route_methods := None; route_limited := limited; route_proxy := p |}.

(** ProxyModule.configure *)
Definition routes : list Route :=
  [ {| route_base := "/api/auth"; route_methods := Some ["GET"]%string; route_limited := true;
       route_proxy := AuthOauthProxy |};
    {| route_base := "/api/auth"; route_methods := Some ["POST"; "PUT"; "PATCH"; "DELETE"]%string;
       route_limited := true; route_proxy := AuthProxy |};
    all_methods "/api/users" true UserProxy; all_methods "/api/ssh-keys" true SshKeyProxy;
    all_methods "/api/vms" true VmProxy; all_methods "/api/plans" true PlanProxy;
    all_methods "/api/payments" true PaymentProxy;
    all_methods "/terminal/socket.io" false TerminalProxy;
    all_methods "/api/terminal" true TerminalApiProxy; all_methods "/api/ai" true AiProxy;
    all_methods "/ai-chat/socket.io" false AiChatProxy;
    all_methods "/vm-events/socket.io" false VmEventsProxy;
    all_methods "/vnc/socket.io" false VncProxy ].

Definition route_matches (req : HttpRequest) (r : Route) : bool :=
  (bool_decide (r_path req = route_base r) || starts_with (route_base r +:+ "/") (r_path req))
  && match route_methods r with
     | Some ms => bool_decide (r_method req ∈ ms)
     | None => true
     end.
End proxies.

(** [pathRewrite]: the pattern is anchored at the start of the path. *)
Definition proxied_path (p : Proxy) (path : string) : string :=
  match rewrite p with
  | Some (from, to) => if starts_with from path then replace_first from to path else path
  | None => path
  end.

Definition METHODS_WITH_BODY : list string := ["POST"; "PUT"; "PATCH"; "DELETE"]%string.
(** forwardParsedBody: what is written to the target, and its length; [body] is
    what the JSON parser of the gateway left in [req.body]. *)
Definition forwardParsedBody `{JsonBody} (method : string) (body : option json_doc) : option (string * Z) :=
  if negb (bool_decide (toUpperCase method ∈ METHODS_WITH_BODY)) then None
  else match body with
       | None => None
       | Some doc => Some (json_stringify doc, utf8_length (json_stringify doc))
       end.
(** A request through the gateway's parser and the proxy. *)
Definition forwarded_body `{JsonBody} (method raw : string) : option string :=
  fst <$> forwardParsedBody method (json_parse raw).

(** One HTTP request: the filter, then the first route that matches, with its
    rate limit.  [None] is the framework's own 404. *)
Section pipeline.
Context {RS O : Type} `{Redis RS O}.

Definition handle_request (c : Call) (cfg : GatewayConfig) (req : HttpRequest)
    : M RS (sum Verdict (option Proxy)) :=
  match edgeFilter cfg (r_headers req) with
  | Respond st m ra => mret (inl (Respond st m ra))
  | Next =>
      match List.find (route_matches req) (routes (env c)) with
      | None => mret (inr None)
      | Some r =>
          if route_limited r then
            v ← rateLimit c req;
            match v with
            | Next => mret (inr (Some (route_proxy r)))
            | Respond _ _ _ => mret (inl v)
            end
          else mret (inr (Some (route_proxy r)))
      end
  end.
End pipeline.
End Gateway.
