(* ===== verification/GatewayProps.v ===== *)
(** * GatewayProps: what passes the gateway

    The edge filter, the bound of the rate limits over any second-by-second
    schedule of requests, and the routing. *)

From Stdlib Require Import ZArith Lia Ascii String.
From stdpp Require Import base list gmap sets strings pretty.
From S2P Require Import Prelude Text Js Regex Store RequestSecurity Gateway.
Import RequestSecurity Regex Gateway.

Module GatewayProps.
Section limits.
Context {RS O : Type} `{RedisLaws RS O}.

(** A counter with its expiry, as the limiter writes it. *)
Definition entry_ok (w : Z) (x : option (rvalue O * option Z)) (t : Z) : Prop :=
  match x with
  | None => True
  | Some (RInt n, Some e) => 1 <= n ∧ e <= t + w * 1000
  | _ => False
  end.

(** Requests the limiter still lets through during [t0, t0 + w s). *)
Definition room (lim w t0 : Z) (x : option (rvalue O * option Z)) : Z :=
  match x with
  | Some (RInt n, Some e) => Z.max 0 (lim - n) + (if t0 + w * 1000 <=? e then 0 else lim)
  | _ => lim
  end.

Definition no_failure (c : Call) : Prop := redis_fail c = None.

Lemma redis_op_eval {A} c p (f : RS → A * RS) rs :
  no_failure c → redis_op c p f rs = ((f rs).2, Ret (f rs).1).
Proof. intros Hc. unfold redis_op. rewrite Hc. simpl. by destruct (f rs). Qed.

(** The hits a call counts, and what it leaves under its key. *)
Definition hits (x : option (rvalue O * option Z)) : Z :=
  match x with Some (RInt n, _) => n + 1 | _ => 1 end.
Definition next_entry (w t : Z) (x : option (rvalue O * option Z)) : option (rvalue O * option Z) :=
  match x with
  | Some (RInt n, e) => Some (RInt (n + 1), e)
  | _ => Some (RInt 1, Some (t + w * 1000))
  end.

Lemma look_alive rs t key v e : r_look rs t key = Some (v, e) → alive e t = true.
Proof.
  intros E. pose proof (look_later rs t t key ltac:(lia)) as Hl. rewrite E in Hl.
  by destruct (alive e t).
Qed.

(** INCR and, on the first hit, EXPIRE. *)
Lemma counted c key w rs :
  no_failure c → 1 <= w → entry_ok w (r_look rs (now c) key) (now c) →
  ∃ rs', (currentHits ← redis_op c FIncr (r_incr key (now c));
          (if currentHits =? 1 then expire c key (Some w) else mret tt);;
          mret currentHits) rs = (rs', Ret (hits (r_look rs (now c) key))) ∧
    r_look rs' (now c) key = next_entry w (now c) (r_look rs (now c) key).
Proof.
  intros Hc Hw Hok. rewrite (bind_eval _ _ _ _ _ (redis_op_eval c FIncr (r_incr key (now c)) rs Hc)).
  destruct (r_look rs (now c) key) as [[v oe]|] eqn:E.
  - destruct v as [n| |]; [|done..]. destruct oe as [e|]; [|done]. destruct Hok as [Hn He].
    destruct (incr_present key (now c) rs n (Some e) E) as [E1 E2]. rewrite E1. simpl.
    rewrite (proj2 (Z.eqb_neq _ _)) by lia. eexists. split; [done|].
    rewrite E2, decide_True by (done || lia). by rewrite (look_alive _ _ _ _ _ E).
  - destruct (incr_missing key (now c) rs E) as [E1 E2]. rewrite E1. simpl. unfold expire.
    rewrite (bind_eval _ _ _ _ _ (redis_op_eval c FExpire _ _ Hc)). eexists. split; [done|]. simpl.
    rewrite look_expire, decide_True, E2, decide_True by (done || lia).
    by rewrite (proj2 (Z.ltb_lt _ _)) by lia.
Qed.

Lemma next_entry_bound w t x :
  1 <= w → entry_ok w x t → ∃ n e, next_entry w t x = Some (RInt n, Some e) ∧ 1 <= n ∧
    n = hits x ∧ e <= t + w * 1000.
Proof.
  intros Hw. destruct x as [[v oe]|]; simpl; [|naive_solver lia].
  destruct v as [n| |]; [|done..]. destruct oe as [e|]; [|done]. intros [? ?].
  exists (n + 1), e. split_and!; [done|lia|done|lia].
Qed.

Lemma count_hit_spec c key w over rs :
  no_failure c → 1 <= w → entry_ok w (r_look rs (now c) key) (now c) →
  ∃ rs' o, count_hit c key (Some w) over rs = (rs', Ret o) ∧
    r_look rs' (now c) key = next_entry w (now c) (r_look rs (now c) key) ∧
    (over (hits (r_look rs (now c) key)) = false → o = None) ∧
    (over (hits (r_look rs (now c) key)) = true → ∃ ttl, o = Some ttl ∧ 1 <= ttl <= w + 1).
Proof.
  intros Hc Hw Hok. destruct (counted c key w rs Hc Hw Hok) as (rs' & E & El).
  set (x := r_look rs (now c) key) in *.
  assert (Ec : count_hit c key (Some w) over rs =
    (if over (hits x) then ttl ← redis_op c FTtl (λ rs, (r_ttl key (now c) rs, rs));
       mret (Some (Z.max 1 ttl)) else mret None) rs').
  { unfold count_hit. apply bind_Ret_inv in E as (n & s1 & E1 & E2).
    rewrite (bind_eval _ _ _ _ _ E1). apply bind_Ret_inv in E2 as (u & s2 & E2 & E3).
    rewrite (bind_eval _ _ _ _ _ E2). by injection E3 as -> ->. }
  rewrite Ec. destruct (over (hits x)); [|by exists rs', None].
  rewrite (bind_eval _ _ _ _ _ (redis_op_eval c FTtl _ _ Hc)). simpl.
  eexists rs', (Some _). split; [done|]. split; [done|]. split; [done|]. intros _.
  eexists. split; [done|].
  destruct (next_entry_bound w (now c) x Hw Hok) as (n & e & En & _ & _ & He). rewrite En in El.
  pose proof (ttl_bounds _ _ _ _ _ El) as [_ Ht].
  assert ((e - now c) / 1000 <= w); [|lia]. apply Z.div_le_upper_bound; lia.
Qed.

(** Another key's hit does not touch this one. *)
Lemma count_hit_other c key key' w over rs t :
  no_failure c → key ≠ key' → now c <= t →
  ∃ rs' o, count_hit c key w over rs = (rs', o) ∧ r_look rs' t key' = r_look rs t key'.
Proof.
  intros Hc Hne Ht. unfold count_hit.
  rewrite (bind_eval _ _ _ _ _ (redis_op_eval c FIncr (r_incr key (now c)) rs Hc)).
  set (rs1 := (r_incr key (now c) rs).2).
  assert (E1 : r_look rs1 t key' = r_look rs t key') by (by apply incr_other).
  assert (Hex : ∃ rs2 o2, (if (r_incr key (now c) rs).1 =? 1 then expire c key w else mret tt) rs1
                         = (rs2, o2) ∧ r_look rs2 t key' = r_look rs t key').
  { destruct (_ =? 1); [|by do 2 eexists]. unfold expire. destruct w as [w|]; [|by do 2 eexists].
    rewrite redis_op_eval by done. do 2 eexists. split; [done|]. simpl.
    by rewrite look_expire, decide_False. }
  destruct Hex as (rs2 & o2 & E2 & El). unfold mbind at 1, M_bind at 1. rewrite E2.
  destruct o2 as [[]|e]; [|by eauto]. destruct (over _); [|by eauto].
  rewrite (bind_eval _ _ _ _ _ (redis_op_eval c FTtl _ _ Hc)). simpl. eauto.
Qed.

(** Time passes: the entry stays or expires, and the room does not grow. *)
Lemma entry_later w rs t t' key :
  t <= t' → entry_ok w (r_look rs t key) t → entry_ok w (r_look rs t' key) t'.
Proof.
  intros Ht Hok. rewrite (look_later rs t t' key Ht).
  destruct (r_look rs t key) as [[v oe]|]; [|done].
  destruct v as [n| |]; [|done..]. destruct oe as [e|]; [|done]. simpl in *. case_match; simpl; [lia|done].
Qed.

Lemma room_later lim w t0 rs t t' key :
  0 <= lim → t <= t' < t0 + w * 1000 → room lim w t0 (r_look rs t' key) <= room lim w t0 (r_look rs t key).
Proof.
  intros Hl Ht. rewrite (look_later rs t t' key) by lia.
  destruct (r_look rs t key) as [[v oe]|]; [|done].
  destruct v as [n|o|x]; simpl; [|by destruct (alive oe t')..].
  destruct oe as [e|]; simpl; [|done].
  destruct (Z.ltb_spec t' e); simpl; [done|]. rewrite (proj2 (Z.leb_gt _ _)) by lia. lia.
Qed.

Lemma room_hit lim w t0 t x :
  1 <= lim → t0 <= t < t0 + w * 1000 → entry_ok w x t →
  room lim w t0 (next_entry w t x) + (if lim <? hits x then 0 else 1) <= room lim w t0 x.
Proof.
  intros Hl Ht Hok. destruct x as [[v oe]|]; simpl in *.
  - destruct v as [n| |]; [|done..]. destruct oe as [e|]; [|done]. simpl.
    destruct (Z.ltb_spec lim (n + 1)); case_match; lia.
  - rewrite (proj2 (Z.leb_le _ _)) by lia. rewrite (proj2 (Z.ltb_ge _ _)) by lia. lia.
Qed.

(** *** Requests *)

Definition all_rules : list RateLimitRule := strictRules ++ [defaultRule].

Lemma resolveRule_in req r : resolveRule req = Some r → r ∈ all_rules.
Proof.
  unfold resolveRule, all_rules. destruct (List.find _ strictRules) as [r'|] eqn:E.
  - intros [= <-]. apply find_some in E as [Hin _]. apply list_elem_of_In in Hin. set_solver.
  - case_match; [|done]. intros [= <-]. set_solver.
Qed.

Lemma rules_bounds r : r ∈ all_rules → 1 <= limit r ∧ windowSeconds r = 60.
Proof.
  unfold all_rules, strictRules. simpl. rewrite !elem_of_cons. by intros [->|[->|[->|[->|[->|[]%not_elem_of_nil]]]]].
Qed.

Lemma rate_key_inj r r' ip ip' :
  r ∈ all_rules → r' ∈ all_rules → rate_key r ip = rate_key r' ip' → r = r' ∧ ip = ip'.
Proof.
  unfold all_rules, strictRules. simpl. rewrite !elem_of_cons.
  intros [->|[->|[->|[->|[->|[]%not_elem_of_nil]]]]] [->|[->|[->|[->|[->|[]%not_elem_of_nil]]]]];
    unfold rate_key; simpl; intros E; simplify_eq; done.
Qed.

(** The requests a rule counts for an address. *)
Definition counted_by (r : RateLimitRule) (ip : string) (req : HttpRequest) : Prop :=
  resolveRule req = Some r ∧ getClientIp req = ip.
Definition counted_byb (name ip : string) (req : HttpRequest) : bool :=
  match resolveRule req with
  | Some r => bool_decide (rule_name r = name) && bool_decide (getClientIp req = ip)
  | None => false
  end.
Definition is_next (o : outcome Verdict) : bool := match o with Ret Next => true | _ => false end.

(** How many of them pass when the requests are handled in order. *)
Fixpoint passed (name ip : string) (reqs : list (Call * HttpRequest)) (rs : RS) : Z :=
  match reqs with
  | [] => 0
  | (c, req) :: rest =>
      let res := rateLimit c req rs in
      (if counted_byb name ip req && is_next res.2 then 1 else 0) + passed name ip rest res.1
  end.

(** Redis answers, and the clock does not run backwards. *)
Fixpoint schedule (t hi : Z) (reqs : list (Call * HttpRequest)) : Prop :=
  match reqs with
  | [] => True
  | (c, _) :: rest => no_failure c ∧ t <= now c < hi ∧ schedule (now c) hi rest
  end.

Lemma rules_by_name r r' : r ∈ all_rules → r' ∈ all_rules → rule_name r = rule_name r' → r = r'.
Proof.
  intros Hr Hr' E. apply (rate_key_inj r r' "" "" Hr Hr'). unfold rate_key. by rewrite E.
Qed.

(** One request, seen from the counter of a rule and an address. *)
Lemma rateLimit_same c r req rs :
  no_failure c → resolveRule req = Some r →
  let key := rate_key r (getClientIp req) in
  entry_ok (windowSeconds r) (r_look rs (now c) key) (now c) →
  ∃ rs' v, rateLimit c req rs = (rs', Ret v) ∧
    r_look rs' (now c) key = next_entry (windowSeconds r) (now c) (r_look rs (now c) key) ∧
    if limit r <? hits (r_look rs (now c) key)
    then ∃ ttl, v = Respond 429 "Too many requests. Please retry later." (Some ttl) ∧
                1 <= ttl <= windowSeconds r + 1
    else v = Next.
Proof.
  intros Hc Hr key Hok. destruct (rules_bounds r) as [_ Hw]; [by eapply resolveRule_in|].
  unfold rateLimit. rewrite Hr. fold key.
  destruct (count_hit_spec c key (windowSeconds r) (λ h, limit r <? h) rs Hc ltac:(lia) Hok)
    as (rs' & o & E & El & Hpass & Hblock).
  assert (Eb : (redis_op c FConnect (λ rs, (tt, rs));;
    blocked ← count_hit c key (Some (windowSeconds r)) (λ h, limit r <? h);
    match blocked with
    | Some ttl => mret (Respond 429 "Too many requests. Please retry later." (Some ttl))
    | None => mret Next
    end) rs = (rs', Ret match o with
      | Some ttl => Respond 429 "Too many requests. Please retry later." (Some ttl)
      | None => Next end)).
  { rewrite (bind_eval _ _ _ _ _ (redis_op_eval c FConnect _ rs Hc)). simpl.
    rewrite (bind_eval _ _ _ _ _ E). by destruct o. }
  unfold try_catch. rewrite Eb. do 2 eexists. split; [done|]. split; [done|].
  destruct (limit r <? hits _); [|by rewrite Hpass].
  destruct Hblock as (ttl & -> & Ht); [done|]. eauto.
Qed.

Lemma rateLimit_other c req rs key t :
  no_failure c → now c <= t →
  (∀ r, resolveRule req = Some r → rate_key r (getClientIp req) ≠ key) →
  r_look (rateLimit c req rs).1 t key = r_look rs t key.
Proof.
  intros Hc Ht Hne. unfold rateLimit. destruct (resolveRule req) as [r|]; [|done].
  specialize (Hne r eq_refl). unfold try_catch.
  rewrite (bind_eval _ _ _ _ _ (redis_op_eval c FConnect _ rs Hc)). simpl.
  destruct (count_hit_other c _ key (Some (windowSeconds r)) (λ h, limit r <? h) rs t Hc Hne Ht)
    as (rs' & o & E & El).
  unfold mbind, M_bind. rewrite E. destruct o as [[ttl|]|e]; simpl; [done..|]. by case_match.
Qed.

Lemma passed_room r ip t0 reqs rs t (key := rate_key r ip) :
  r ∈ all_rules → t0 <= t → entry_ok (windowSeconds r) (r_look rs t key) t →
  schedule t (t0 + windowSeconds r * 1000) reqs →
  passed (rule_name r) ip reqs rs <= room (limit r) (windowSeconds r) t0 (r_look rs t key).
Proof.
  intros Hr. destruct (rules_bounds r Hr) as [Hl Hw]. revert rs t.
  induction reqs as [|[c req] reqs IH]; intros rs t Ht Hok; simpl.
  { intros _. destruct (r_look rs t key) as [[v oe]|]; simpl; [|lia].
    destruct v; [|lia..]. destruct oe; [|lia]. case_match; lia. }
  intros (Hc & Hn & Hs).
  pose proof (entry_later _ _ _ _ _ (proj1 Hn) Hok) as Hok'.
  pose proof (room_later (limit r) (windowSeconds r) t0 rs t (now c) key ltac:(lia) ltac:(lia)) as Hroom.
  destruct (counted_byb (rule_name r) ip req) eqn:Ec.
  - unfold counted_byb in Ec. destruct (resolveRule req) as [r'|] eqn:Er; [|done].
    apply andb_true_iff in Ec as [E1%bool_decide_eq_true E2%bool_decide_eq_true].
    assert (r' = r) by (eapply rules_by_name; [by eapply resolveRule_in|done..]). subst r' ip.
    destruct (rateLimit_same c r req rs Hc Er Hok') as (rs' & v & E & El & Hv).
    rewrite E. simpl. pose proof (room_hit (limit r) (windowSeconds r) t0 (now c) _ Hl ltac:(lia) Hok') as Hh.
    assert (Hok2 : entry_ok (windowSeconds r) (r_look rs' (now c) key) (now c)).
    { destruct (next_entry_bound (windowSeconds r) (now c) _ ltac:(lia) Hok') as (n & e & En & ? & _ & ?).
      unfold key in *. rewrite El, En. simpl. lia. }
    specialize (IH rs' (now c) ltac:(lia) Hok2 Hs). unfold key in *. rewrite El in IH.
    destruct (limit r <? hits _); [destruct Hv as (ttl & -> & _)|rewrite Hv]; simpl; lia.
  - simpl. set (rs' := (rateLimit c req rs).1).
    assert (El : r_look rs' (now c) key = r_look rs (now c) key).
    { apply rateLimit_other; [done|lia|]. intros r' Er' Ek. unfold counted_byb in Ec. rewrite Er' in Ec.
      destruct (rate_key_inj r' r (getClientIp req) ip) as [-> <-]; [by eapply resolveRule_in|done..|].
      by rewrite !bool_decide_true in Ec. }
    specialize (IH rs' (now c) ltac:(lia)). rewrite El in IH. specialize (IH Hok' Hs). lia.
Qed.

Definition run_requests (reqs : list (Call * HttpRequest)) (rs : RS) : RS :=
  foldl (λ rs cr, (rateLimit cr.1 cr.2 rs).1) rs reqs.

Lemma entry_request r ip c req rs (key := rate_key r ip) :
  r ∈ all_rules → no_failure c → entry_ok (windowSeconds r) (r_look rs (now c) key) (now c) →
  entry_ok (windowSeconds r) (r_look (rateLimit c req rs).1 (now c) key) (now c).
Proof.
  intros Hr Hc Hok. destruct (rules_bounds r Hr) as [Hl Hw].
  destruct (resolveRule req) as [r'|] eqn:Er.
  2: { rewrite rateLimit_other; [done|done|lia|]. congruence. }
  destruct (decide (rate_key r' (getClientIp req) = key)) as [Ek|Ek].
  - destruct (rate_key_inj r' r (getClientIp req) ip) as [-> <-]; [by eapply resolveRule_in|done..|].
    destruct (rateLimit_same c r req rs Hc Er Hok) as (rs' & v & E & El & _). rewrite E. simpl.
    destruct (next_entry_bound (windowSeconds r) (now c) _ ltac:(lia) Hok) as (n & e & En & ? & _ & ?).
    unfold key in *. rewrite El, En. simpl. lia.
  - rewrite rateLimit_other; [done|done|lia|]. intros r'' Er''. by simplify_eq.
Qed.

Lemma entry_run r ip reqs rs t hi (key := rate_key r ip) :
  r ∈ all_rules → t <= hi → entry_ok (windowSeconds r) (r_look rs t key) t → schedule t hi reqs →
  entry_ok (windowSeconds r) (r_look (run_requests reqs rs) hi key) hi.
Proof.
  intros Hr. revert rs t.
  induction reqs as [|[c req] reqs IH]; intros rs t Ht Hok; [intros _; by eapply entry_later|].
  intros (Hc & Hn & Hs). apply (IH _ (now c)); [lia| |done].
  apply entry_request; [done..|]. eapply entry_later; [apply Hn|exact Hok].
Qed.


(** A request over the limit is answered 429 with a waiting time within the
    window; any other counted request passes. *)
Lemma gateway_overload_answer r c req rs :
  no_failure c → resolveRule req = Some r →
  let key := rate_key r (getClientIp req) in
  entry_ok (windowSeconds r) (r_look rs (now c) key) (now c) →
  ∃ rs', rateLimit c req rs = (rs', Ret Next) ∨
    ∃ ttl, rateLimit c req rs = (rs', Ret (Respond 429 "Too many requests. Please retry later." (Some ttl)))
           ∧ 1 <= ttl <= windowSeconds r + 1.
Proof.
  intros Hc Hr key Hok. destruct (rateLimit_same c r req rs Hc Hr Hok) as (rs' & v & E & _ & Hv).
  exists rs'. rewrite E. destruct (limit r <? _); [|left; by rewrite Hv].
  destruct Hv as (ttl & -> & Ht). right. eauto.
Qed.
End limits.

(** ** The edge *)

Section edge.
Context {RS O : Type} `{Redis RS O}.

Lemma edgeFilter_next cfg h :
  edgeFilter cfg h = Next ↔
  (parseSingleHeader (h !! "x-forwarded-proto"%string) = None ∨
   parseSingleHeader (h !! "x-forwarded-proto"%string) = Some "https"%string) ∧
  edge_ok cfg h = true ∧ (∀ host, requestHost h = Some host → host ∈ trustedHosts cfg).
Proof.
  unfold edgeFilter. set (p := parseSingleHeader (h !! "x-forwarded-proto"%string)).
  destruct (decide (p = None)) as [Hp|Hp]; [rewrite (bool_decide_true (p = None)) by done|
    rewrite (bool_decide_false (p = None)) by done; simpl;
    destruct (decide (p = Some "https"%string)) as [Hq|Hq];
    [rewrite (bool_decide_true (p = Some _)) by done|rewrite (bool_decide_false (p = Some _)) by done; simpl; naive_solver]].
  all: simpl; destruct (edge_ok cfg h); simpl; [|naive_solver];
    destruct (requestHost h) as [host|]; [|naive_solver]; case_bool_decide; naive_solver.
Qed.

Lemma edge_ok_token cfg h :
  isProduction cfg = true → truthy (edgeProxyToken cfg) = true → edge_ok cfg h = true →
  parseSingleHeader (h !! "x-edge-token"%string) = Some (edgeProxyToken cfg).
Proof.
  intros Hp Ht. unfold edge_ok. rewrite Hp, Ht. simpl. case_match; [|done].
  intros E%bool_decide_eq_true. by rewrite E.
Qed.

(** In production nothing gets behind the gateway without the edge proxy's
    secret.  A request that reaches a service, and a WebSocket that is forwarded
    to one, carries the configured token; the HTTP request moreover names a
    trusted host, if any, and was not forwarded over plain HTTP. *)
Theorem edge_secret_required c cfg (rs : RS) :
  isProduction cfg = true → truthy (edgeProxyToken cfg) = true →
  (∀ req rs' p, handle_request c cfg req rs = (rs', Ret (inr (Some p))) →
     parseSingleHeader (r_headers req !! "x-edge-token"%string) = Some (edgeProxyToken cfg) ∧
     (∀ host, requestHost (r_headers req) = Some host → host ∈ trustedHosts cfg) ∧
     (∀ proto, parseSingleHeader (r_headers req !! "x-forwarded-proto"%string) = Some proto →
        proto = "https"%string)) ∧
  (∀ h url rs' t, upgrade c cfg h url rs = (rs', Ret (Forwarded t)) →
     parseSingleHeader (h !! "x-edge-token"%string) = Some (edgeProxyToken cfg)).
Proof.
  intros Hp Ht. split.
  - intros req rs' p. unfold handle_request. destruct (edgeFilter cfg (r_headers req)) eqn:E; [|done].
    intros _. apply edgeFilter_next in E as (Hproto & He & Hhost).
    split_and!; [by apply edge_ok_token|done|]. intros proto Hpr. naive_solver.
  - intros h url rs' t. unfold upgrade. destruct (edge_ok cfg h) eqn:E; [|done]. intros _.
    by apply edge_ok_token.
Qed.

(** Every API route has a rate-limit rule. *)
Lemma limited_routes_have_rule (c : Call) req r :
  List.find (route_matches req) (routes (env c)) = Some r → route_limited r = true →
  is_Some (resolveRule req).
Proof.
  intros [Hin Hm]%find_some Hl. unfold resolveRule.
  destruct (List.find _ strictRules); [by eauto|].
  assert (Hb : ∃ b, route_base r = "/api/" +:+ b).
  { simpl in Hin. repeat destruct Hin as [<-|Hin]; try done; by eexists. }
  destruct Hb as [b Hb]. apply andb_true_iff in Hm as [Hm _]. apply orb_true_iff in Hm.
  assert (Hapi : ∃ rest, r_path req = "/api/" +:+ rest).
  { destruct Hm as [Hm%bool_decide_eq_true|[rest Hm]%prefix_split]; [rewrite Hm, Hb; eauto|].
    rewrite Hm, Hb, !append_assoc_s. eauto. }
  destruct Hapi as [rest ->]. cbn [rule_path defaultRule]. rewrite starts_spec. by eauto.
Qed.
End edge.
End GatewayProps.
