(* ===== verification/GatewayWitness.v ===== *)
(** * GatewayWitness: concrete runs of the API gateway *)

From Stdlib Require Import ZArith Lia Ascii String.
From stdpp Require Import base list gmap sets strings pretty.
From S2P Require Import Prelude Text Js Regex Store RequestSecurity Gateway GatewayProps.
Import RequestSecurity Regex Gateway GatewayProps.

Module GatewayWitness.

Abbreviation rstore := (gmap string (rvalue unit * option Z)).

Definition plain_call (t : Z) : Call := {| now := t; env := λ _, None; redis_fail := None |}.
Definition login (path : string) : HttpRequest :=
  {| r_method := "POST"; r_path := path; r_ip := Some "::ffff:10.0.0.7"%string;
     r_remoteAddress := None; r_headers := ∅ |}.
Definition burst (n : nat) (t : Z) : list (Call * HttpRequest) :=
  (λ i, (plain_call (t + Z.of_nat i), login "/api/auth/login")) <$> seq 0 n.
Definition login_rule : RateLimitRule := default defaultRule (head strictRules).

Lemma burst_schedule n t hi : t + Z.of_nat n <= hi → schedule t hi (burst n t).
Proof.
  intros Hn. unfold burst. assert (Hg : ∀ k m u, u <= t + Z.of_nat k → t + Z.of_nat (k + m) <= hi →
    schedule u hi ((λ i, (plain_call (t + Z.of_nat i), login "/api/auth/login")) <$> seq k m)).
  { intros k m. revert k. induction m as [|m IH]; intros k u Hu Hk; simpl; [done|].
    split; [done|]. split; [lia|]. apply IH; lia. }
  apply Hg; [lia|]. simpl. lia.
Qed.


Definition production : GatewayConfig :=
  {| allowedOrigins := ["https://cloudvm.example"]%string;
     trustedHosts := ["cloudvm.example"]%string; edgeProxyToken := "edge-secret";
     isProduction := true; terminalWsRateLimit := Some 30; terminalWsRateWindowSeconds := Some 60 |}.
Definition edge_headers : Headers :=
  {[ "x-edge-token"%string := HOne "edge-secret"; "host"%string := HOne "CloudVM.example" ]}.
Definition vm_list : HttpRequest :=
  {| r_method := "GET"; r_path := "/api/vms"; r_ip := Some "10.0.0.7"%string;
     r_remoteAddress := None; r_headers := edge_headers |}.

Lemma edge_secret_witness :
  ∃ rs', handle_request (plain_call 0) production vm_list (∅ : rstore) =
           (rs', Ret (inr (Some (VmProxy (λ _, None))))) ∧
  parseSingleHeader (edge_headers !! "x-edge-token"%string) = Some "edge-secret"%string.
Proof.
  eexists. split; [reflexivity|].
  destruct (edge_secret_required (RS := rstore) (O := unit) (plain_call 0) production ∅ eq_refl eq_refl)
    as [Hreq _].
  by destruct (Hreq vm_list _ _ eq_refl) as [Ht _].
Defined.

(** *** Where the code does not do what it means to *)

(** The strict limits apply to the exact path only; the services' routers also
    serve the path with a slash behind it, which has the general limit. *)
Example trailing_slash_escapes_login_limit :
  rule_name <$> resolveRule (login "/api/auth/login") = Some "auth-login"%string ∧
  rule_name <$> resolveRule (login "/api/auth/login/") = Some "default"%string ∧
  proxied_path (AuthProxy (λ _, None)) "/api/auth/login/" = "/auth/login/"%string.
Proof. split_and!; vm_compute; reflexivity. Qed.

(** If Redis fails between INCR and EXPIRE, the counter never expires: after the
    limit is used up the address stays blocked, here more than a year later. *)
Definition failing_first : list (Call * HttpRequest) :=
  ({| now := 0; env := λ _, None; redis_fail := Some FExpire |}, login "/api/auth/login") :: burst 9 1000.
Example counter_without_expiry_blocks_for_ever :
  (rateLimit (plain_call (400 * 24 * 3600 * 1000)) (login "/api/auth/login")
     (run_requests failing_first (∅ : rstore))).2 =
  Ret (Respond 429 "Too many requests. Please retry later." (Some 1)).
Proof. vm_compute. reflexivity. Qed.

(** A WebSocket without the x-real-ip header is never counted. *)
Example unknown_address_not_limited c cfg (h : Headers) (rs : rstore) :
  parseSingleHeader (h !! "x-real-ip"%string) = None →
  checkTerminalWsRateLimit c cfg h rs =
    (rs, Ret {| allowed := true; retryAfterSeconds := None; ws_ip := "unknown" |}).
Proof.
  intros E. unfold checkTerminalWsRateLimit, extractClientIpFromHeaders. by rewrite E.
Qed.

(** The upgrade handler checks neither the host nor the forwarded protocol. *)
Example upgrade_ignores_host :
  let h : Headers := {[ "x-edge-token"%string := HOne "edge-secret"; "host"%string := HOne "evil.example" ]} in
  edgeFilter production h = Respond 400 "Invalid host header" None ∧
  (upgrade (plain_call 0) production h "/vnc/socket.io" (∅ : rstore)).2 = Ret (Forwarded VncWs).
Proof. split; vm_compute; reflexivity. Qed.

(** The gateway parses a JSON body and writes it out again, so the bytes that
    Stripe signed are not the bytes the payment service receives. *)
Definition compact_json : JsonBody :=
  {| json_doc := string; json_parse := λ s, Some (filter_chars (λ c, negb (is_ws c)) s);
     json_stringify := λ d, d |}.
Example webhook_body_is_rewritten :
  @forwarded_body compact_json "POST" "{ id: 1 }" = Some "{id:1}"%string.
Proof. vm_compute. reflexivity. Qed.
End GatewayWitness.
