(* ===== verification/Startup.v ===== *)
(** * Startup: how the services start, and the guard in front of their routes

    main.ts of the auth, user, vm, ai and payment services with the constructors
    of their JwtStrategy classes (services/*/src/**/jwt.strategy.ts), which read
    the signing secret; the guard that the strategies implement; and
    services/ai/src/common/guards/ai-rate-limit.guard.ts.  The check of the
    secrets and the list of allowed origins are the same text in every main.ts
    (auth keeps the check in common/security/startup-security.util.ts) and are
    shared with [Gateway]. *)

From Stdlib Require Import ZArith Lia Ascii String.
From stdpp Require Import base list gmap strings.
From S2P Require Import Prelude Text Js Crypto RequestSecurity Cookies Gateway.
Import RequestSecurity.

Module Startup.

(** ** The secret of each strategy *)

(** [(process.env.JWT_SECRET || "").trim()], at least 64 characters. *)
Definition trimmed_secret (service : string) (env : Env) : outcome string :=
  let jwtSecret := js_trim (env_or env "JWT_SECRET" "") in
  if negb (truthy jwtSecret) || (js_length jwtSecret <? 64)
  then Throw (JsError ("JWT_SECRET is missing or too weak for " +:+ service +:+ " service"))
  else Ret jwtSecret.
Definition userJwtStrategy (env : Env) : outcome string := trimmed_secret "user" env.
Definition vmJwtStrategy (env : Env) : outcome string := trimmed_secret "VM" env.
Definition paymentJwtStrategy (env : Env) : outcome string := trimmed_secret "payment" env.
(** passport-jwt refuses an empty secret. *)
Definition plain_secret (env : Env) : outcome string :=
  let secretOrKey := env_or env "JWT_SECRET" "" in
  if truthy secretOrKey then Ret secretOrKey else Throw (JsError "JwtStrategy requires a secret or key").
Definition authJwtStrategy (env : Env) : outcome string := plain_secret env.
Definition aiJwtStrategy (env : Env) : outcome string := plain_secret env.

(** ** bootstrap *)

(** What a started service listens with. *)
Record Service := {
  sv_port : string; sv_origins : list string; sv_secret : string; sv_bodyLimit : Z;
}.
Definition started (check : outcome unit) (strategy : outcome string) (port : string)
    (bodyLimit : Z) (env : Env) : outcome Service :=
  match check with
  | Throw e => Throw e
  | Ret _ =>
      match strategy with
      | Throw e => Throw e
      | Ret secret => Ret {| sv_port := port; sv_origins := Gateway.getAllowedOrigins env;
                             sv_secret := secret; sv_bodyLimit := bodyLimit |}
      end
  end.

Definition bootstrap_auth (env : Env) : outcome Service :=
  started (Gateway.validateJwtSecretsOrThrow env) (authJwtStrategy env) (env_or env "PORT" "3002")
    (16 * 1024) env.
Definition bootstrap_user (env : Env) : outcome Service :=
  started (Gateway.validateJwtSecretsOrThrow env) (userJwtStrategy env) (env_or env "PORT" "3003")
    (512 * 1024) env.
Definition bootstrap_vm (env : Env) : outcome Service :=
  started (Gateway.validateJwtSecretsOrThrow env) (vmJwtStrategy env) (env_or env "PORT" "3004")
    (512 * 1024) env.
Definition bootstrap_ai (env : Env) : outcome Service :=
  started (Gateway.validateJwtSecretsOrThrow env) (aiJwtStrategy env) (env_or env "AI_PORT" "3006")
    (512 * 1024) env.
(** The payment service does not check the secrets itself. *)
Definition bootstrap_payment (env : Env) : outcome Service :=
  started (Ret tt) (paymentJwtStrategy env) (env_or env "PORT" "3005") (1024 * 1024) env.

(** ** JwtAuthGuard *)

(** [ExtractJwt.fromAuthHeaderAsBearerToken()] on the Authorization header. *)
Class BearerExtractor := {
  bearer_token : string → option string;
  bearer_spec t : t ≠ ""%string → Forall (λ c, is_ws c = false) (chars t) →
    bearer_token ("Bearer " +:+ t) = Some t;
}.

Section guard.
Context `{BearerExtractor, UriCodec, Hashing, Jwt}.

(** The extractors in order; a value that is empty does not count. *)
Definition jwtFromRequest (r : Request) : outcome (option string) :=
  match (match headers r !! "authorization" with
         | Some (HOne v) => bearer_token v
         | _ => None
         end) with
  | Some t => Ret (Some t)
  | None => match parseCookie r "accessToken" with
            | Throw e => Throw e
            | Ret v => Ret (v ≫= nonempty)
            end
  end.

Definition jwtAuthGuard (secret : string) (r : Request) (t : Z) : outcome Identity :=
  match jwtFromRequest r with
  | Throw e => Throw e
  | Ret None => Throw (UnauthorizedException "Unauthorized")
  | Ret (Some token) => authenticate secret r token t
  end.

(** [@UseGuards(JwtAuthGuard)]: the handler runs with the caller's identity. *)
Definition guarded {St A} (secret : string) (r : Request) (t : Z) (m : Identity → M St A) : M St A :=
  u ← lift (jwtAuthGuard secret r t); m u.

(** [@UseGuards(RolesGuard) @Roles("ADMIN")] after the first guard. *)
Definition admin_only {St A} (u : Identity) (m : M St A) : M St A :=
  allowed ← lift (rolesGuard (Some ["ADMIN"%string]) (Some u));
  if (allowed : bool) then m else throw (ForbiddenException "Forbidden resource").

Lemma guarded_denied {St A} secret r t (m : Identity → M St A) e s :
  jwtAuthGuard secret r t = Throw e → guarded secret r t m s = (s, Throw e).
Proof. intros E. unfold guarded, lift. m_red. by rewrite E. Qed.
Lemma guarded_admits {St A} secret r t (m : Identity → M St A) u s :
  jwtAuthGuard secret r t = Ret u → guarded secret r t m s = m u s.
Proof. intros E. unfold guarded, lift. m_red. by rewrite E. Qed.

(** The roles guard lets exactly the administrators through. *)
Lemma admin_only_spec {St A} u (m : M St A) s :
  admin_only u m s =
  if bool_decide (role u = Some "ADMIN"%string) then m s
  else (s, Throw (ForbiddenException "Forbidden resource")).
Proof.
  unfold admin_only, lift, rolesGuard. m_red. destruct (role u) as [ro|]; [|done].
  rewrite (bool_decide_ext (ro ∈ ["ADMIN"%string]) (Some ro = Some "ADMIN"%string)); [by case_bool_decide|].
  rewrite list_elem_of_singleton. naive_solver.
Qed.

(** Who the guard lets in: the token verifies and is bound to the client. *)
Lemma guard_inv secret r t u :
  jwtAuthGuard secret r t = Ret u →
  ∃ token p, jwtFromRequest r = Ret (Some token) ∧ jwt_verify secret token t = Some p ∧
    c_fp p = Some (buildRequestFingerprint r) ∧
    u = {| userId := c_sub p; email := c_email p; role := c_role p |}.
Proof.
  unfold jwtAuthGuard, authenticate. destruct (jwtFromRequest r) as [[token|]|]; [|done..].
  destruct (jwt_verify secret token t) as [p|] eqn:Ev; [|done].
  intros Hv. apply (proj1 (validate_iff_fingerprint r p)) in Hv as [Hfp ->]. eauto 6.
Qed.
End guard.

(** ** AiRateLimitGuard

    The instants of a user's requests within the last minute; the class is not
    applied to any route. *)

Definition windowMs : Z := 60000.
Definition maxRequests (env : Env) : option Z := js_max 1 (js_Number (env_or env "AI_RATE_LIMIT_PER_MIN" "20")).
Abbreviation Hits := (gmap string (list Z)).
Definition recent (now : Z) (l : list Z) : list Z := List.filter (λ ts, now - ts <=? windowMs) l.
(** [recent.length >= maxRequests], false when the limit is not a number. *)
Definition canActivate (limit : option Z) (user : option string) (ip : option string) (now : Z)
    : M Hits bool := λ hits,
  let key := opt_or user (opt_or ip "anonymous") in
  let l := recent now (default [] (hits !! key)) in
  if js_ge (Z.of_nat (length l)) limit
  then (hits, Throw (TooManyRequests "Too many AI requests. Please retry in a moment."))
  else (<[key := l ++ [now]]> hits, Ret true).

(** ** Facts *)

Section facts.
Context `{BearerExtractor, UriCodec, Hashing, Jwt}.

Lemma validate_secrets_inv env :
  Gateway.validateJwtSecretsOrThrow env = Ret tt →
  64 <= js_length (env_or env "JWT_SECRET" "") ∧ Gateway.isWeakSecret (env_or env "JWT_SECRET" "") = false ∧
  64 <= js_length (env_or env "JWT_REFRESH_SECRET" "") ∧
  Gateway.isWeakSecret (env_or env "JWT_REFRESH_SECRET" "") = false.
Proof.
  unfold Gateway.validateJwtSecretsOrThrow. intros Hv. repeat case_match; try done.
  repeat match goal with
  | E : _ || _ = false |- _ => apply orb_false_iff in E as [?%Z.ltb_ge ?]
  end. done.
Qed.

Lemma started_inv check strategy port limit env sv :
  started check strategy port limit env = Ret sv → check = Ret tt ∧ strategy = Ret (sv_secret sv).
Proof. unfold started. intros E. repeat case_match; simplify_eq. split; [by destruct a|done]. Qed.

Lemma trimmed_inv service env s :
  trimmed_secret service env = Ret s → s = js_trim (env_or env "JWT_SECRET" "") ∧ 64 <= js_length s.
Proof.
  unfold trimmed_secret. case_match eqn:E; [done|]. apply orb_false_iff in E as [_ E%Z.ltb_ge].
  by intros [= <-].
Qed.
Lemma plain_inv env s : plain_secret env = Ret s → s = env_or env "JWT_SECRET" "".
Proof. unfold plain_secret. case_match; [|done]. by intros [= <-]. Qed.

(** Services that start from one environment: the secrets that sign and check
    tokens are long, those that auth, user, VM and AI start with contain no
    placeholder, and the services agree on the access tokens exactly when the
    configured secret is not surrounded by white space. *)
Lemma started_services env sa su sv sp si :
  bootstrap_auth env = Ret sa → bootstrap_user env = Ret su → bootstrap_vm env = Ret sv →
  bootstrap_payment env = Ret sp → bootstrap_ai env = Ret si →
  64 <= js_length (sv_secret sa) ∧ 64 <= js_length (sv_secret su) ∧
  Gateway.isWeakSecret (sv_secret sa) = false ∧
  sv_secret si = sv_secret sa ∧ sv_secret sv = sv_secret su ∧ sv_secret sp = sv_secret su ∧
  (sv_secret su = sv_secret sa ↔ js_trim (env_or env "JWT_SECRET" "") = env_or env "JWT_SECRET" "").
Proof.
  intros [Hc Ha]%started_inv [_ Hu]%started_inv [_ Hv]%started_inv
    [_ Hp]%(started_inv (Ret tt) (paymentJwtStrategy env)) [_ Hi]%started_inv.
  apply validate_secrets_inv in Hc as (Hl & Hw & _).
  apply plain_inv in Ha, Hi. apply trimmed_inv in Hu as [Hu Hlu]. apply trimmed_inv in Hv as [Hv _].
  apply trimmed_inv in Hp as [Hp _]. rewrite Ha, Hi, Hv, Hp. rewrite Hu in Hlu |- *. by split_and!.
Qed.

(** The limit of the AI guard: in any window the requests it admits for one
    user stay within the limit. *)
Lemma canActivate_bounded limit user ip now hits hits' :
  canActivate (Some limit) user ip now hits = (hits', Ret true) →
  Z.of_nat (length (recent now (default [] (hits' !! opt_or user (opt_or ip "anonymous"))))) <= limit.
Proof.
  unfold canActivate, js_ge. case_match eqn:E; [done|]. apply Z.leb_gt in E. intros [= <-].
  rewrite lookup_insert_eq. simpl. set (l := recent now _) in *.
  assert (Hle : (length (recent now (l ++ [now])) ≤ length l + 1)%nat); [|lia].
  unfold recent. etransitivity; [apply filter_length_le|]. rewrite length_app. done.
Qed.
End facts.
End Startup.
