(* ===== verification/AuthHttp.v ===== *)
(** * AuthHttp: the auth service over HTTP

    services/auth/src/main.ts (host filter and origin filter), auth.controller.ts
    (every route with its guard, body class, cookies and answer),
    guards/google-auth.guard.ts and strategies/google.strategy.ts.  A request is
    the [Call] of [AuthModel] with the rest of what Express delivers; the cookies
    of the response are collected beside the service's state. *)

From Stdlib Require Import ZArith Lia Ascii String.
From stdpp Require Import base list gmap strings.
From S2P Require Import Prelude Text Js Regex Dto Store Crypto RequestSecurity Cookies Totp.
From S2P Require Import AuthModel AuthSession AuthLogin AuthMfa Gateway Startup.
Import RequestSecurity AuthModel AuthSession AuthLogin AuthMfa Cookies Startup.

Module AuthHttp.

(** [new URL(x).origin]; [None] when it throws. *)
Class UrlOrigin := { url_origin : string → option string }.
(** [String(x)], which the pipe applies to a property taken out of the body. *)
Class JsonText := {
  json_text : Dto.Json → string;
  json_text_str s : json_text (Dto.JStr s) = s;
}.

(** ** main.ts *)

Section edge.
Context `{UrlParser, UrlOrigin, UriCodec}.

Definition normalizeOrigin (value : option string) : option string :=
  v ← value; if truthy v then url_origin v else None.

Definition fixed_hosts : list string :=
  ["localhost"; "127.0.0.1"; "localhost:3002"; "127.0.0.1:3002"; "localhost:3001"; "127.0.0.1:3001"]%string.
Definition getTrustedHosts (env : Env) (allowedOrigins : list string) : list string :=
  omap (λ origin, normalized ← normalizeOrigin (Some origin) ≫= nonempty;
                  toLowerCase <$> url_host normalized) allowedOrigins
  ++ List.filter truthy ((λ h, toLowerCase (js_trim h)) <$> js_split "," (env_or env "TRUSTED_HOSTS" ""))
  ++ fixed_hosts.

(** What Express knows of a request beside its headers and addresses. *)
Record Http := { h_method : string; h_secure : bool; h_protocol : string; h_body : Dto.Body }.

(** [Array.isArray(v) ? v[0] : v || fallback]; an empty array gives undefined. *)
Definition header_or (v : option header) (fallback : option string) : option string :=
  match v with
  | Some (HMany l) => head l
  | Some (HOne s) => if truthy s then Some s else fallback
  | None => fallback
  end.
Definition request_proto (r : Request) (h : Http) : string :=
  default "undefined" (header_or (headers r !! "x-forwarded-proto") (Some (str_or (h_protocol h) "http"))).
Definition request_host (r : Request) : option string :=
  header_or (headers r !! "x-forwarded-host") (header_first (headers r !! "host")).

Definition buildTrustedOrigins (r : Request) (h : Http) (allowedOrigins : list string) : list string :=
  omap (λ origin, normalizeOrigin (Some origin) ≫= nonempty) allowedOrigins
  ++ match request_host r ≫= nonempty with
     | Some host => [request_proto r h +:+ "://" +:+ host]
     | None => []
     end.

(** The first filter; [Gateway.requestHost] is the same expression. *)
Definition hostFilter {St} (trustedHosts : list string) (r : Request) : M St unit :=
  match Gateway.requestHost (headers r) with
  | Some host => throw_if (negb (bool_decide (host ∈ trustedHosts))) (BadRequestException "Invalid host header")
  | None => mret tt
  end.

Definition unsafeMethod (h : Http) : bool :=
  bool_decide (toUpperCase (h_method h) ∈ ["POST"; "PUT"; "PATCH"; "DELETE"]%string).
Definition hasSessionCookie (r : Request) : outcome bool :=
  match parseCookie r "accessToken" with
  | Throw e => Throw e
  | Ret a => if opt_truthy a then Ret true
             else match parseCookie r "refreshToken" with
                  | Throw e => Throw e
                  | Ret b => Ret (opt_truthy b)
                  end
  end.
Definition requestOrigin (r : Request) : option string :=
  match normalizeOrigin (header_first (headers r !! "origin")) ≫= nonempty with
  | Some o => Some o
  | None => normalizeOrigin (header_first (headers r !! "referer")) ≫= nonempty
  end.
Definition wrong_origin : exn := ForbiddenException "Request origin is not allowed".

(** The second filter. *)
Definition originFilter {St} (allowedOrigins : list string) (r : Request) (h : Http) : M St unit :=
  if negb (unsafeMethod h) then mret tt
  else
    session ← Js.lift (hasSessionCookie r);
    if negb (session : bool) then mret tt
    else match requestOrigin r with
         | None => mret tt
         | Some o => throw_if (negb (bool_decide (o ∈ buildTrustedOrigins r h allowedOrigins))) wrong_origin
         end.
End edge.

(** ** auth.controller.ts *)

Inductive GoogleAnswer :=
| GoogleProfile (p : Profile)
| GoogleRefused.

Inductive Route :=
| PostRegister | PostLogin | GetGoogle (intent : option string) | GetGoogleCallback (a : GoogleAnswer)
| PostMfaVerify | PostMfaSetup | PostMfaEnable | PostMfaDisable | PostMfaRegenerate
| GetMfaStatus | GetMfaAudit | PostRefresh | PostLogout | PostLogoutAll | PostPassword | GetMe | GetWsTicket.

Inductive Reply :=
| SessionReply (user : UserWithoutPassword) (tokens : Tokens)
| VerifiedReply (r : VerifyResult)
| LoginReply (r : LoginResult)
| RedirectReply (url : string)
| SetupReply (r : SetupResult)
| CodesReply (codes : list string)
| FlagReply (b : bool)
| StatusReply (r : MfaStatus)
| AuditReply (l : list MfaAuditEntry)
| TextReply (t : string)
| ProfileReply (p : UserWithoutPassword * option Quota).

Section controller.
Context {T : Type → Type} `{Database T} {RS : Type} `{Redis RS AuthPayload}.
Context `{Hashing} `{Bcrypt} `{Jwt} `{Timespan} `{Hmac} `{UriCodec}.
Context `{UrlParser} `{UrlOrigin} `{JsonText} `{BearerExtractor} `{Dto.StringValidators}.
Abbreviation St := (AuthState T RS).
Variable env : Env.
Variable cfg : Config.

(** The service's state and the Set-Cookie headers of the response. *)
Record Web := { store : St; set_cookies : list SetCookie }.
Definition set_store (x : St) (w : Web) : Web := {| store := x; set_cookies := set_cookies w |}.
Definition service {A} (m : M St A) : M Web A := zoom store set_store m.
Definition add_cookies (cks : list SetCookie) : M Web unit :=
  modify (λ w, {| store := store w; set_cookies := set_cookies w ++ cks |}).

(** The controller and the Google guard have the same function. *)
Definition shouldUseSecureCookies (r : Request) (h : Http) : bool :=
  let policy := toLowerCase (env_or env "AUTH_COOKIE_SECURE" "auto") in
  if bool_decide (policy = "true"%string) then true
  else if bool_decide (policy = "false"%string) then false
  else h_secure h || bool_decide (header_first (headers r !! "x-forwarded-proto") = Some "https"%string).

(** The controller's own [parseDurationMs] has the text of the service's. *)
Definition cookieDurationMs (value : string) (fallbackMs : Z) : Z := parseDurationMs value fallbackMs.
(** [...(maxAge ? { maxAge } : {})] *)
Definition max_age (ms : Z) : option Z := if ms =? 0 then None else Some ms.

Definition session_cookies (r : Request) (h : Http) (rememberMe : bool) (tokens : Tokens) : list SetCookie :=
  let secure := shouldUseSecureCookies r h in
  let accessMaxAge :=
    if rememberMe then max_age (cookieDurationMs (env_or env "JWT_EXPIRES_IN" "15m") (15 * 60000)) else None in
  let refreshMaxAge :=
    if rememberMe
    then max_age (cookieDurationMs (env_or env "JWT_REFRESH_EXPIRES_IN" "7d") (7 * 24 * 60 * 60000))
    else None in
  [res_cookie "accessToken" (accessToken tokens) true secure Strict accessMaxAge;
   res_cookie "refreshToken" (refreshToken tokens) true secure Strict refreshMaxAge].
Definition setAuthCookies (r : Request) (h : Http) (rememberMe : bool) (tokens : Tokens) : M Web unit :=
  add_cookies (session_cookies r h rememberMe tokens).
Definition clearAuthCookies (r : Request) (h : Http) : M Web unit :=
  let secure := shouldUseSecureCookies r h in
  add_cookies [res_clearCookie "accessToken" true secure Strict;
               res_clearCookie "refreshToken" true secure Strict].

(** The bodies, after the pipe. *)
Definition register_dto (b : Dto.Body) : AuthLogin.RegisterDto :=
  {| rg_email := default "" (Dto.str_at b "email"); rg_password := default "" (Dto.str_at b "password");
     rg_firstName := default "" (Dto.str_at b "firstName");
     rg_lastName := default "" (Dto.str_at b "lastName") |}.
Definition login_dto (b : Dto.Body) : AuthLogin.LoginDto :=
  {| lg_email := default "" (Dto.str_at b "email"); lg_password := default "" (Dto.str_at b "password");
     lg_rememberMe := bool_decide (Dto.bool_at b "rememberMe" = Some true);
     lg_captchaToken := Dto.str_at b "captchaToken" |}.

Definition register (c : Call) (h : Http) : M Web Reply :=
  Dto.pipe Dto.RegisterDto (h_body h);;
  result ← service (AuthLogin.register cfg c (register_dto (h_body h)));
  setAuthCookies (req c) h true (sr_tokens result);;
  mret (SessionReply (sr_user result) (sr_tokens result)).

Definition login (c : Call) (h : Http) : M Web Reply :=
  Dto.pipe Dto.LoginDto (h_body h);;
  let dto := login_dto (h_body h) in
  result ← service (AuthLogin.login cfg c dto);
  match result with
  | Session r => setAuthCookies (req c) h (lg_rememberMe dto) (sr_tokens r);;
                 mret (SessionReply (sr_user r) (sr_tokens r))
  | _ => mret (LoginReply result)
  end.

(** guards/google-auth.guard.ts, then passport's redirect to Google. *)
Definition googleAuth (c : Call) (h : Http) (intent : option string) : M Web Reply :=
  let intent := if bool_decide (intent = Some "register"%string) then "register"%string else "login"%string in
  add_cookies [res_cookie "google_intent" intent true (shouldUseSecureCookies (req c) h) Lax None];;
  mret (RedirectReply "https://accounts.google.com/o/oauth2/v2/auth").

Definition publicOrigin : string :=
  let originFallback := default "http://127.0.0.1:3000"%string
    (head (List.filter truthy (js_trim <$> js_split "," (env_or env "CORS_ORIGIN" "http://127.0.0.1:3000")))) in
  strip_slashes (opt_or (env "PUBLIC_APP_ORIGIN") originFallback).
Definition google_error_page (code : string) : string :=
  if bool_decide (code = "account_not_found"%string) then publicOrigin +:+ "/login?error=google_account_not_found"
  else if bool_decide (code = "account_inactive"%string) then publicOrigin +:+ "/login?error=google_account_inactive"
  else publicOrigin +:+ "/login?error=google_auth_failed".

(** strategies/google.strategy.ts, then the handler. *)
Definition googleCallback (c : Call) (h : Http) (a : GoogleAnswer) : M Web Reply :=
  match a with
  | GoogleRefused => throw (UnauthorizedException "Unauthorized")
  | GoogleProfile p =>
      user ← service (findOrCreateGoogleUser cfg c p);
      add_cookies [res_clearCookie "google_intent" true (shouldUseSecureCookies (req c) h) Lax];;
      match user with
      | GoogleError code _ => mret (RedirectReply (google_error_page code))
      | GoogleSession r =>
          remember ← Js.lift (parseCookie (req c) "rememberMe");
          setAuthCookies (req c) h (bool_decide (remember = Some "1"%string)) (sr_tokens r);;
          mret (RedirectReply (publicOrigin +:+ "/dashboard"))
      end
  end.

Definition verifyMfa (c : Call) (h : Http) : M Web Reply :=
  Dto.pipe Dto.VerifyMfaDto (h_body h);;
  result ← service (verifyAdminMfa cfg c (default "" (Dto.str_at (h_body h) "challengeId"))
                      (default "" (Dto.str_at (h_body h) "code")));
  setAuthCookies (req c) h (vr_rememberMe result) (vr_tokens result);;
  mret (VerifiedReply result).

(** [bodyRefreshToken || cookieRefreshToken || ""] *)
Definition presented_refresh (c : Call) (h : Http) : M Web string :=
  cookie ← Js.lift (parseCookie (req c) "refreshToken");
  mret (opt_or (json_text <$> (h_body h !! "refreshToken"%string)) (opt_or cookie "")).

Definition refresh (c : Call) (h : Http) : M Web Reply :=
  token ← presented_refresh c h;
  result ← service (AuthSession.refreshTokens cfg c token);
  remember ← Js.lift (parseCookie (req c) "rememberMe");
  setAuthCookies (req c) h (bool_decide (remember = Some "1"%string)) (sr_tokens result);;
  mret (SessionReply (sr_user result) (sr_tokens result)).

Definition logout (c : Call) (h : Http) : M Web Reply :=
  token ← presented_refresh c h;
  clearAuthCookies (req c) h;;
  t ← service (AuthSession.logout token);
  mret (TextReply t).

(** [@UseGuards(JwtAuthGuard)]: the id of the token's subject. *)
Definition as_user {A} (c : Call) (m : string → M Web A) : M Web A :=
  guarded (jwtSecret cfg) (req c) (now c) (λ u, m (default "" (userId u))).
Definition reauth {A} (c : Call) (h : Http) (m : string → string → M St A) (f : A → Reply) : M Web Reply :=
  as_user c (λ uid, Dto.pipe Dto.MfaReauthDto (h_body h);;
    a ← service (m uid (default "" (Dto.str_at (h_body h) "password"))); mret (f a)).

Definition enableMfa (c : Call) (h : Http) : M Web Reply :=
  as_user c (λ uid, Dto.pipe Dto.EnableMfaDto (h_body h);;
    codes ← service (enableAdminTotp cfg c uid (default "" (Dto.str_at (h_body h) "code")));
    mret (CodesReply codes)).
Definition logoutAll (c : Call) (h : Http) : M Web Reply :=
  as_user c (λ uid, clearAuthCookies (req c) h;;
    t ← service (logoutAllSessions uid); mret (TextReply t)).
Definition changePassword (c : Call) (h : Http) : M Web Reply :=
  as_user c (λ uid, Dto.pipe Dto.ChangePasswordDto (h_body h);;
    t ← service (AuthSession.changePassword cfg c uid (default "" (Dto.str_at (h_body h) "oldPassword"))
                   (default "" (Dto.str_at (h_body h) "newPassword"))); mret (TextReply t)).
Definition reads {A} (c : Call) (m : string → M St A) (f : A → Reply) : M Web Reply :=
  as_user c (λ uid, a ← service (m uid); mret (f a)).

Definition controller (c : Call) (h : Http) (route : Route) : M Web Reply :=
  match route with
  | PostRegister => register c h
  | PostLogin => login c h
  | GetGoogle intent => googleAuth c h intent
  | GetGoogleCallback a => googleCallback c h a
  | PostMfaVerify => verifyMfa c h
  | PostMfaSetup => reauth c h (setupAdminTotpWithPassword cfg c) SetupReply
  | PostMfaEnable => enableMfa c h
  | PostMfaDisable => reauth c h (disableAdminTotp c) FlagReply
  | PostMfaRegenerate => reauth c h (regenerateRecoveryCodes cfg c) CodesReply
  | GetMfaStatus => reads c getMfaStatus StatusReply
  | GetMfaAudit => reads c getMfaAuditTrail AuditReply
  | PostRefresh => refresh c h
  | PostLogout => logout c h
  | PostLogoutAll => logoutAll c h
  | PostPassword => changePassword c h
  | GetMe => reads c getProfile ProfileReply
  | GetWsTicket => reads c (generateWsTicket cfg c) TextReply
  end.

Definition route_method (route : Route) : string :=
  match route with
  | GetGoogle _ | GetGoogleCallback _ | GetMfaStatus | GetMfaAudit | GetMe | GetWsTicket => "GET"
  | _ => "POST"
  end.

(** One request: the filters of main.ts in their order, then the route, which
    is only found under its own method. *)
Definition handle_http (c : Call) (h : Http) (route : Route) : M Web Reply :=
  let allowedOrigins := Gateway.getAllowedOrigins env in
  hostFilter (getTrustedHosts env allowedOrigins) (req c);;
  originFilter allowedOrigins (req c) h;;
  throw_if (negb (bool_decide (h_method h = route_method route))) (NotFoundException "Cannot find the route");;
  controller c h route.
End controller.
Arguments Web : clear implicits.
Arguments store {_ _} _.
Arguments set_cookies {_ _} _.
End AuthHttp.
