(* ===== verification/AuthHttpProps.v ===== *)
(** * AuthHttpProps: browser sessions of the auth service

    What the responses of [AuthHttp] may carry, that a browser which stores the
    cookies of a session is the user to every service, that requests of foreign
    pages go nowhere, and what a logout leaves behind. *)

From Stdlib Require Import ZArith Lia Ascii String.
From stdpp Require Import base list gmap strings.
From S2P Require Import Prelude Text Js Regex Dto Store Crypto RequestSecurity Cookies Totp.
From S2P Require Import AuthModel AuthSession AuthLogin AuthMfa Gateway Startup AuthHttp.
Import RequestSecurity AuthModel AuthSession AuthLogin AuthMfa Cookies Startup AuthHttp.

Module AuthHttpProps.

Lemma triple_any {St A} P (m : M St A) : triple (λ _, True) P m (λ _ _, True).
Proof. intros s _ _. split; [done|]. by case_match. Qed.

Section issuing.
Context {T : Type → Type} `{DatabaseLaws T} {RS : Type} `{RedisLaws RS AuthPayload}.
Context `{Hashing} `{Bcrypt} `{Jwt} `{Timespan} `{Hmac} `{UriCodec}.
Abbreviation St := (AuthState T RS).
Variable cfg : Config.

(** Tokens of a session opened by the call [c] for the account [id]: the access
    token is bound to the calling client and the refresh token is stored. *)
Definition issued (c : Call) (id : string) (tk : Tokens) (s : St) : Prop :=
  ∃ u ttla, timespan_seconds (jwtExpiresIn cfg) = Some ttla ∧
    accessToken tk = jwt_sign (jwtSecret cfg) (access_claims id u (req c)) ttla (now c) ∧
    ∃ k row, rows (AuthModel.refreshTokens s) !! k = Some row ∧
      rt_token row = refreshToken tk ∧ rt_userId row = id.

Abbreviation yields m Q := (triple (λ _ : St, True) (λ _, True) m Q).

Lemma generateTokens_issued c id u : yields (generateTokens cfg c id u) (λ tk s, issued c id tk s).
Proof.
  intros s _ _. split; [done|]. destruct (generateTokens cfg c id u s) as [s' [tk|e]] eqn:E; [|done].
  apply generateTokens_inv in E as (ttla & ttlr & Ha & _ & Hacc & _ & ->). simpl.
  exists u, ttla. split_and!; [done..|]. simpl. rewrite rows_put.
  eexists _, _. rewrite lookup_insert_eq. split_and!; [done|done|done].
Qed.

Lemma context_keeps c uid id tk P :
  triple (λ _ : St, True) (λ s, issued c id tk s ∧ P) (storeLoginContext cfg c uid) (λ _ s, issued c id tk s ∧ P).
Proof.
  intros s _ [Hs HP]. split; [done|]. unfold storeLoginContext, ensureRedisConnected. m_red.
  by destruct (redisUp c).
Qed.

Lemma open_session_issued c id u :
  yields (open_session cfg c id u) (λ r s, issued c (v_id (sr_user r)) (sr_tokens r) s).
Proof.
  eapply triple_bind; [apply generateTokens_issued|]. intros tk.
  eapply triple_bind; [eapply triple_weaken; [apply (context_keeps c id id tk True)|naive_solver|done]|].
  intros _ s _ [Hs _]. by split.
Qed.

Ltac skip_bind := eapply triple_bind; [apply triple_any|]; intros ?; simpl.

Lemma register_issued c dto :
  yields (AuthLogin.register cfg c dto) (λ r s, issued c (v_id (sr_user r)) (sr_tokens r) s).
Proof. skip_bind. case_match; [apply triple_throw|]. do 2 skip_bind. apply open_session_issued. Qed.

Lemma login_issued c dto :
  yields (AuthLogin.login cfg c dto) (λ r s, match r with
    | Session r => issued c (v_id (sr_user r)) (sr_tokens r) s | _ => True end).
Proof.
  skip_bind. destruct a as [id u]. do 3 skip_bind. case_match.
  - skip_bind. by intros s _ _.
  - case_match; [case_match; [by intros s _ _|]; skip_bind; by intros s _ _|].
    eapply triple_bind; [apply open_session_issued|]. intros r s _ Hs. by split.
Qed.

Lemma google_issued c p :
  yields (findOrCreateGoogleUser cfg c p) (λ r s, match r with
    | GoogleSession r => issued c (v_id (sr_user r)) (sr_tokens r) s | _ => True end).
Proof.
  unfold findOrCreateGoogleUser. case_match; [by intros s _ _|]. do 2 skip_bind. case_match; [|by intros s _ _].
  destruct p0 as [id u]. case_match; [by intros s _ _|]. do 2 skip_bind.
  eapply triple_bind; [apply open_session_issued|]. intros r s _ Hs. by split.
Qed.

Lemma verify_issued c id code :
  yields (verifyAdminMfa cfg c id code) (λ r s, issued c (vr_id r) (vr_tokens r) s).
Proof.
  do 2 skip_bind. case_match; [|apply triple_throw]. case_match; [| |skip_bind; apply triple_throw].
  - skip_bind. apply triple_throw.
  - case_match; [|skip_bind; apply triple_throw..]. case_match; [skip_bind; apply triple_throw|].
    skip_bind. case_match; [|apply triple_throw]. do 2 skip_bind. case_match.
    + do 2 skip_bind. case_match; [skip_bind|]; apply triple_throw.
    + skip_bind. eapply triple_bind; [apply generateTokens_issued|]. intros tk.
      eapply triple_bind; [eapply triple_weaken; [eapply context_keeps with (P := True)|naive_solver|done]|].
      intros _ s _ [Hs _]. by split.
Qed.

Lemma refresh_issued c tok :
  yields (AuthSession.refreshTokens cfg c tok) (λ r s, issued c (v_id (sr_user r)) (sr_tokens r) s).
Proof.
  skip_bind. case_match; [|apply triple_throw]. case_match; [|apply triple_throw].
  case_match; [|apply triple_throw]. do 3 skip_bind. case_match; [skip_bind; apply triple_throw|].
  skip_bind. case_match; [|skip_bind; apply triple_throw]. destruct p as [[rowId row] u].
  case_match; [skip_bind; apply triple_throw|]. do 2 skip_bind.
  eapply triple_bind; [apply generateTokens_issued|]. intros tk st _ Hs. by split.
Qed.
End issuing.

Section responses.
Context {T : Type → Type} `{DatabaseLaws T} {RS : Type} `{RedisLaws RS AuthPayload}.
Context `{Hashing} `{Bcrypt} `{Jwt} `{Timespan} `{Hmac} `{UriCodec}.
Context `{UrlParser} `{UrlOrigin} `{JsonText} `{BearerExtractor} `{Dto.StringValidators}.
Abbreviation St := (AuthState T RS).
Abbreviation W := (Web T RS).
Variable env : Env.
Variable cfg : Config.
Implicit Types w : W.

(** What a cookie of a response to [c] may be. *)
Record cookie_ok (c : Call) (h : Http) (s : St) (ck : SetCookie) : Prop := {
  ok_name : ck_name ck ∈ ["accessToken"; "refreshToken"; "google_intent"]%string;
  ok_httpOnly : ck_httpOnly ck = true;
  ok_secure : ck_secure ck = shouldUseSecureCookies env (req c) h;
  ok_sameSite : ck_name ck ≠ "google_intent"%string → ck_sameSite ck = Strict;
  ok_value v : ck_value ck = Some v → ck_name ck ≠ "google_intent"%string →
    ∃ id tk, issued cfg c id tk s ∧
      v = encodeURIComponent (if bool_decide (ck_name ck = "accessToken"%string)
                              then accessToken tk else refreshToken tk);
}.
Definition cookies_ok (c : Call) (h : Http) (w : W) : Prop :=
  Forall (cookie_ok c h (store w)) (set_cookies w).
(** No session cookie was set yet. *)
Definition quiet (w : W) : Prop :=
  Forall (λ ck, ck_value ck = None ∨ ck_name ck = "google_intent"%string) (set_cookies w).

(** What an answer that carries tokens means. *)
Definition session_of (r : Reply) : option (string * Tokens) :=
  match r with
  | SessionReply u tk => Some (v_id u, tk)
  | VerifiedReply r => Some (vr_id r, vr_tokens r)
  | _ => None
  end.
Definition opens (c : Call) (h : Http) (r : Reply) (w : W) : Prop :=
  ∀ id tk, session_of r = Some (id, tk) →
    issued cfg c id tk (store w) ∧ ∃ remember, set_cookies w = session_cookies env (req c) h remember tk.

Section one_request.
Variables (c : Call) (h : Http).
Abbreviation I := (cookies_ok c h).

Lemma quiet_store s w : quiet w → I w → I (set_store s w).
Proof.
  unfold quiet, cookies_ok. simpl. rewrite !Forall_forall. intros Hq Hi ck Hin.
  destruct (Hi ck Hin) as [? ? ? ? Hv]. split; [done..|]. intros v Hval Hname.
  destruct (Hq ck Hin); congruence.
Qed.

Lemma service_triple {A} (m : M St A) (cks : list SetCookie) Q :
  triple (λ _, True) (λ _, True) m Q → Forall (λ ck, ck_value ck = None ∨ ck_name ck = "google_intent"%string) cks →
  triple I (λ w, set_cookies w = cks) (service m) (λ a w, set_cookies w = cks ∧ Q a (store w)).
Proof.
  intros Hm Hcks w HI Hw. unfold service, zoom. specialize (Hm (store w) Logic.I Logic.I).
  destruct (m (store w)) as [s' o]. simpl in *. split; [|by destruct o; destruct Hm].
  apply quiet_store; [|done]. unfold quiet. by rewrite Hw.
Qed.

Lemma session_cookies_ok id tk remember s :
  issued cfg c id tk s → Forall (cookie_ok c h s) (session_cookies env (req c) h remember tk).
Proof.
  intros Hi. repeat constructor; simpl; try done; try (by set_solver); intros v [= <-] _; eauto.
Qed.

Lemma set_session_triple id tk remember :
  triple I (λ w, set_cookies w = [] ∧ issued cfg c id tk (store w)) (setAuthCookies env (req c) h remember tk)
    (λ _ w, issued cfg c id tk (store w) ∧ set_cookies w = session_cookies env (req c) h remember tk).
Proof.
  intros w HI [Hw Hi]. unfold setAuthCookies, add_cookies. m_red. rewrite Hw. split; [|done].
  by eapply session_cookies_ok.
Qed.

Lemma clear_triple :
  triple I (λ w, set_cookies w = []) (clearAuthCookies env (req c) h)
    (λ _ w, set_cookies w = [res_clearCookie "accessToken" true (shouldUseSecureCookies env (req c) h) Strict;
                             res_clearCookie "refreshToken" true (shouldUseSecureCookies env (req c) h) Strict]).
Proof.
  intros w HI Hw. unfold clearAuthCookies, add_cookies. m_red. rewrite Hw. split; [|done].
  unfold cookies_ok. simpl. repeat constructor; simpl; try done; by set_solver.
Qed.

Lemma intent_ok s ck :
  ck_name ck = "google_intent"%string → ck_httpOnly ck = true →
  ck_secure ck = shouldUseSecureCookies env (req c) h → cookie_ok c h s ck.
Proof. intros Hn Hh Hs. split; [rewrite Hn; set_solver|done|done|congruence..]. Qed.

Lemma intent_triple ck :
  ck_name ck = "google_intent"%string → ck_httpOnly ck = true →
  ck_secure ck = shouldUseSecureCookies env (req c) h →
  triple I (λ w, set_cookies w = []) (add_cookies [ck]) (λ _ w, set_cookies w = [ck]).
Proof.
  intros Hn Hh Hs w HI Hw. unfold add_cookies. m_red. rewrite Hw. split; [|done].
  apply Forall_singleton. by apply intent_ok.
Qed.

Lemma guard_triple {A} P (m : string → M W A) Q :
  (∀ uid, triple I P (m uid) Q) → triple I P (as_user cfg c m) Q.
Proof.
  intros Hm w HI HP. unfold as_user, guarded, Js.lift. m_red.
  destruct (jwtAuthGuard _ _ _) as [u|e]; [by apply Hm|done].
Qed.
Lemma pipe_triple P (schema : Dto.Schema) body : triple I P (Dto.pipe schema body) (λ _, P).
Proof. apply triple_reads. intros w. unfold Dto.pipe. m_red. by case_match. Qed.
Lemma lift_triple {A} P (o : outcome A) : triple I P (Js.lift o) (λ _, P).
Proof. by apply triple_reads. Qed.

(** Answers without tokens open nothing. *)
Lemma silent_triple P (r : Reply) : session_of r = None → triple I P (mret r) (opens c h).
Proof. intros Hr w HI HP. split; [done|]. intros id tk E. congruence. Qed.

Lemma session_triple id tk remember (r : Reply) :
  session_of r = Some (id, tk) →
  triple I (λ w, set_cookies w = [] ∧ issued cfg c id tk (store w))
    (setAuthCookies env (req c) h remember tk;; mret r) (opens c h).
Proof.
  intros Hr. eapply triple_bind; [apply set_session_triple|]. intros _ w HI [Hi Hw].
  split; [done|]. intros id' tk' E. simplify_eq. eauto.
Qed.

Lemma plain_service_triple {A} (m : M St A) (f : A → Reply) cks :
  Forall (λ ck, ck_value ck = None ∨ ck_name ck = "google_intent"%string) cks →
  (∀ a, session_of (f a) = None) →
  triple I (λ w, set_cookies w = cks) (a ← service m; mret (f a)) (opens c h).
Proof.
  intros Hc Hf. eapply triple_bind; [apply service_triple; [apply triple_any|done]|].
  intros a. by apply silent_triple.
Qed.

Ltac step_pipe := eapply triple_bind; [apply pipe_triple|]; intros ?.
Ltac step_lift := eapply triple_bind; [apply lift_triple|]; intros ?.

Lemma presented_triple P : triple I P (presented_refresh c h) (λ _, P).
Proof. unfold presented_refresh. step_lift. apply triple_skip. Qed.

Lemma callback_triple a : triple I (λ w, set_cookies w = []) (googleCallback env cfg c h a) (opens c h).
Proof.
  destruct a as [p|]; [|apply triple_throw]. eapply triple_bind; [apply service_triple; [apply google_issued|done]|].
  intros user w HI [Hw Hi]. unfold add_cookies. m_red. rewrite Hw. simpl.
  destruct user as [code msg|r]; simpl; [split; [by apply Forall_singleton, intent_ok|done]|].
  unfold Js.lift. destruct (parseCookie (req c) "rememberMe") as [v|e]; simpl;
    (split; [constructor; [by apply intent_ok|]|done]); [|done].
  by eapply session_cookies_ok.
Qed.

Lemma controller_triple route :
  triple I (λ w, set_cookies w = []) (controller env cfg c h route) (opens c h).
Proof.
  destruct route; cbn [controller];
    unfold AuthHttp.register, AuthHttp.login, googleAuth, verifyMfa, reauth, enableMfa, reads,
      AuthHttp.refresh, AuthHttp.logout, logoutAll, AuthHttp.changePassword.
  - step_pipe. eapply triple_bind; [apply service_triple; [apply register_issued|done]|]. intros r. by apply session_triple.
  - step_pipe. eapply triple_bind; [apply service_triple; [apply login_issued|done]|].
    intros [r| |]; [by apply session_triple|by apply silent_triple..].
  - eapply triple_bind; [by apply intent_triple|]. intros ?. by apply silent_triple.
  - apply callback_triple.
  - step_pipe. eapply triple_bind; [apply service_triple; [apply verify_issued|done]|]. intros r. by apply session_triple.
  - apply guard_triple. intros uid. step_pipe. by apply plain_service_triple.
  - apply guard_triple. intros uid. step_pipe. by apply plain_service_triple.
  - apply guard_triple. intros uid. step_pipe. by apply plain_service_triple.
  - apply guard_triple. intros uid. step_pipe. by apply plain_service_triple.
  - apply guard_triple. intros uid. by apply plain_service_triple.
  - apply guard_triple. intros uid. by apply plain_service_triple.
  - eapply triple_bind; [apply presented_triple|]. intros token.
    eapply triple_bind; [apply service_triple; [apply refresh_issued|done]|]. intros r.
    step_lift. by apply session_triple.
  - eapply triple_bind; [apply presented_triple|]. intros token.
    eapply triple_bind; [apply clear_triple|]. intros ?. apply plain_service_triple; [|done].
    repeat constructor.
  - apply guard_triple. intros uid. eapply triple_bind; [apply clear_triple|]. intros ?.
    apply plain_service_triple; [|done]. repeat constructor.
  - apply guard_triple. intros uid. step_pipe. by apply plain_service_triple.
  - apply guard_triple. intros uid. by apply plain_service_triple.
  - apply guard_triple. intros uid. by apply plain_service_triple.
Qed.

Lemma hostFilter_reads trusted r : preserves (=) (hostFilter (St:=W) trusted r).
Proof. intros w. unfold hostFilter. case_match; [|done]. apply throw_if_reads. Qed.
Lemma originFilter_reads origins r : preserves (=) (originFilter (St:=W) origins r h).
Proof.
  intros w. unfold originFilter, Js.lift. case_match; [done|]. m_red. case_match; [|done].
  case_match; [done|]. case_match; [|done]. by case_match.
Qed.

Lemma handle_triple route :
  triple I (λ w, set_cookies w = []) (handle_http env cfg c h route) (opens c h).
Proof.
  unfold handle_http.
  eapply triple_bind; [apply triple_reads; intros w; symmetry; apply hostFilter_reads|]. intros ?.
  eapply triple_bind; [apply triple_reads; intros w; symmetry; apply originFilter_reads|]. intros ?.
  eapply triple_bind; [apply triple_reads; intros w; symmetry; apply throw_if_reads|]. intros ?.
  apply controller_triple.
Qed.
End one_request.

(** ** Theorems *)


Lemma handle_opens c h route w w' reply id tk :
  set_cookies w = [] → handle_http env cfg c h route w = (w', Ret reply) →
  session_of reply = Some (id, tk) →
  issued cfg c id tk (store w') ∧ ∃ remember, set_cookies w' = session_cookies env (req c) h remember tk.
Proof.
  intros Hw E Hr. destruct (triple_at _ _ _ _ w w' reply (handle_triple c h route)) as [_ Ho];
    [unfold cookies_ok; by rewrite Hw|done|done|]. by apply Ho.
Qed.

(** *** The cookies in a browser *)

Lemma with_cookies_other cks r k : k ≠ "cookie"%string → headers (with_cookies cks r) !! k = headers r !! k.
Proof. intros Hk. unfold with_cookies. destruct cks; simpl; [by rewrite lookup_delete_ne|by rewrite lookup_insert_ne]. Qed.
Lemma with_cookies_fp cks r : buildRequestFingerprint (with_cookies cks r) = buildRequestFingerprint r.
Proof.
  unfold buildRequestFingerprint, getClientIp, RequestSecurity.getUserAgent.
  by rewrite !with_cookies_other by done.
Qed.

Lemma token_name_ok n : n = "accessToken"%string ∨ n = "refreshToken"%string → cookie_name_ok n.
Proof. intros [->| ->]; (split; [done|repeat constructor]). Qed.

Lemma session_jar (r : Request) h remember tk t https jar :
  let jar' := store_cookies t https (session_cookies env r h remember tk) jar in
  jar_ok jar → https = true ∨ shouldUseSecureCookies env r h = false →
  jar_ok jar' ∧
  ∃ e, jget "accessToken" jar' = Some {| st_value := encodeURIComponent (accessToken tk); st_httpOnly := true;
         st_secure := shouldUseSecureCookies env r h; st_sameSite := Strict; st_expires := e |}.
Proof.
  intros jar' Hj Hs. split.
  - apply store_cookies_ok; [done|].
    repeat constructor; simpl; try (apply token_name_ok; auto); intros v [= <-]; apply encoded_ok.
  - unfold jar', store_cookies, session_cookies. cbn [foldl]. rewrite !store_cookie_get. simpl.
    assert (shouldUseSecureCookies env r h && negb https = false) as ->
      by (destruct Hs as [->| ->]; [by rewrite andb_false_r|done]). eauto.
Qed.

Lemma jget_sendable t https jar k sc :
  jar_ok jar → jget k jar = Some sc → live_cookie t https sc = true → jget k (sendable t https jar) = Some sc.
Proof. intros [_ Hn] Hk Hl. unfold sendable. rewrite jget_filter by done. rewrite Hk. simpl. by rewrite Hl. Qed.


(** *** Foreign pages *)

(** The origin of the service itself, as the request names it. *)
Definition own_origin (r : Request) (h : Http) (o : string) : Prop :=
  ∃ host, request_host r = Some host ∧ o = request_proto r h +:+ "://" +:+ host ∧
    ∀ x, Gateway.parseHost (Some host) = Some x →
      x ∈ getTrustedHosts env (Gateway.getAllowedOrigins env).
Definition allowed_origin (o : string) : Prop :=
  ∃ a, a ∈ Gateway.getAllowedOrigins env ∧ normalizeOrigin (Some a) = Some o.

Lemma requestHost_eq r : Gateway.requestHost (headers r) = Gateway.parseHost (request_host r).
Proof.
  reflexivity.
Qed.


(** *** Leaving *)

Lemma logout_deletes token (s : St) :
  AuthSession.sessions_wf cfg (AuthModel.refreshTokens s) →
  ∃ s' t, AuthSession.logout token s = (s', Ret t) ∧
    (token ≠ ""%string → ∀ k row, rows (AuthModel.refreshTokens s') !! k = Some row → rt_token row ≠ token).
Proof.
  intros Hwf. unfold AuthSession.logout. destruct (truthy token) eqn:Et.
  - m_red. destruct (find_first (λ _ r, bool_decide (rt_token r = token)) (AuthModel.refreshTokens s))
      as [[k0 row0]|] eqn:Ef; simpl; (eexists _, _; split; [done|]); intros _ k row Hk Hrow.
    + apply find_first_Some in Ef as (Hk0 & Ht0). apply bool_decide_eq_true in Ht0.
      apply delete_lookup in Hk as [Hk Hne]. apply bool_decide_eq_false in Hne. apply Hne.
      eapply (wf_unique cfg); [exact Hwf|done..|congruence].
    + eapply find_first_None in Hk; [|exact Ef]. by apply bool_decide_eq_false in Hk.
  - m_red. eexists _, _. split; [done|]. intros Hne. apply truthy_true in Hne. congruence.
Qed.

(** A logout always answers: the browser is left without session cookies
    (when the connection may carry them) and the presented refresh token, from
    the body or the cookie, is no longer stored. *)
Theorem logout_forgets c h w token jar https :
  AuthSession.sessions_wf cfg (AuthModel.refreshTokens (store w)) → set_cookies w = [] →
  presented_refresh c h w = (w, Ret token) →
  jar_ok jar → https = true ∨ shouldUseSecureCookies env (req c) h = false →
  ∃ w' r, controller env cfg c h PostLogout w = (w', Ret r) ∧
    let jar' := store_cookies (now c) https (set_cookies w') jar in
    jget "accessToken" jar' = None ∧ jget "refreshToken" jar' = None ∧
    (token ≠ ""%string → ∀ k row, rows (AuthModel.refreshTokens (store w')) !! k = Some row → rt_token row ≠ token).
Proof.
  intros Hwf Hw Hp Hj Hs. cbn [controller]. unfold AuthHttp.logout. rewrite (bind_eval _ _ _ _ _ Hp).
  destruct (logout_deletes token (store w) Hwf) as (s' & t & El & Hgone).
  unfold clearAuthCookies, add_cookies. m_red. rewrite Hw. unfold service, zoom. simpl. rewrite El. simpl.
  eexists _, _. split; [done|]. simpl. unfold store_cookies. cbn [foldl]. rewrite !store_cookie_get. simpl.
  assert (shouldUseSecureCookies env (req c) h && negb https = false) as ->
    by (destruct Hs as [->| ->]; [by rewrite andb_false_r|done]). done.
Qed.
End responses.
End AuthHttpProps.
