(* ===== verification/Routes.v ===== *)
(** * Routes: the controllers of the user, VM and payment services

    user.controller.ts, vm.controller.ts and payment.controller.ts: for each
    route its guards, the pipe with the body's class, the parameters as they
    are read from the request, and the operation of the service it calls.  The
    guards run first, then the pipes, then the handler. *)

From Stdlib Require Import ZArith Lia Ascii String QArith Qround.
From stdpp Require Import base list gmap strings pretty.
From S2P Require Import Prelude Text Js Regex Dto Store Crypto RequestSecurity Cookies.
From S2P Require Import AuthModel VmKeyCrypto Vm Plans Payment User Gateway Startup.
Import RequestSecurity Startup Plans VmKeyCrypto.
#[local] Open Scope Z_scope.

Module Routes.

(** ** Parameters *)

(** [parseInt(x, 10)]: leading white space, a sign, the digits; [None] is NaN. *)
Fixpoint leading_digits (l : list ascii) : list ascii :=
  match l with
  | c :: l' => if is_digit c then c :: leading_digits l' else []
  | [] => []
  end.
Definition js_parseInt (s : string) : option Z :=
  let '(sign, l) := match drop_while is_ws (chars s) with
                    | c :: l => if bool_decide (c = "-"%char) then (-1, l)
                                else if bool_decide (c = "+"%char) then (1, l) else (1, c :: l)
                    | [] => (1, [])
                    end in
  match leading_digits l with
  | [] => None
  | ds => Some (sign * decimal ds)
  end.

(** [x ? parseInt(x, 10) : d] as an argument of a paged query, which refuses NaN. *)
Definition page_param {St} (v : option string) (d : option Z) : M St (option Z) :=
  if opt_truthy v then
    match js_parseInt (default "" v) with
    | Some n => mret (Some n)
    | None => throw (JsError "PrismaClientValidationError")
    end
  else mret d.

(** A write that the database client refuses because of a null or a fraction in
    its data: the checks of the service before it answer first. *)
Definition refused_write {St A} (before : list Z) (m : M St A) : M St A := λ s,
  (s, match (m s).2 with
      | Throw (HttpException st msg) =>
          if bool_decide (st ∈ before) then Throw (HttpException st msg)
          else Throw (JsError "PrismaClientValidationError")
      | _ => Throw (JsError "PrismaClientValidationError")
      end).

(** [new ParseUUIDPipe()] *)
Class UuidPipe := { parse_uuid : string → bool }.
Definition uuid_pipe `{UuidPipe} {St} (id : string) : M St unit :=
  throw_if (negb (parse_uuid id)) (BadRequestException "Validation failed (uuid is expected)").

Definition user_id (u : Identity) : string := default "" (userId u).

(** ** user.controller.ts *)

Inductive AuthAnswer :=
| AuthStatus (status : Z) (text : string)
| AuthUnreachable (reason : string).

Inductive UserRoute :=
| GetProfile | GetProfileSummary | PatchProfile | PatchPassword
| PostStudentRequest | PostStudentConfirm
| GetUserStats | GetUsers (page limit search : option string)
| GetBillingOverview (page limit search : option string)
| GetUniversities | PostUniversity | PatchUniversity (id : string) | DeleteUniversityRoute (id : string)
| ToggleUniversityRoute (id : string)
| GetUser (id : string) | GetUserBilling (id : string) | PatchUserSubscription (id : string)
| PatchUser (id : string) | DeleteUserRoute (id : string).

Inductive UserReply :=
| RProfile (p : User.Profile) | RRow (u : User.UserRow) | RText (t : string)
| RStats (n : Z * Z * Z) | RUsers (p : User.UserPage)
| ROverview (o : Z * list (string * User.UserRow * option PlanId))
| RUniversities (l : list (string * User.University)) | RUniversity (u : User.University)
| RFound (x : User.UserRow * option User.QuotaRow * list Vm.VirtualMachine)
| RBilling (x : User.UserRow * option PlanId) | RSubscription (x : PlanId * User.QuotaRow).

(** The header names of the forwarded password change. *)
Definition forwarded_headers (defaults : gmap string header) (r : Request) : gmap string header :=
  let base := <["content-type" := HOne "application/json"]> defaults in
  match headers r !! "authorization" with
  | Some (HOne v) => if truthy v then <["authorization" := HOne v]> base else base
  | Some (HMany l) => <["authorization" := HMany l]> base
  | None => base
  end.
(** The request that arrives at the auth service: its headers are the ones of
    [fetch] and it comes from the user service. *)
Definition forwarded_request (defaults : gmap string header) (ip : option string) (r : Request) : Request :=
  {| headers := forwarded_headers defaults r; req_ip := ip; remoteAddress := ip |}.
Definition auth_password_url (env : Env) : string :=
  AuthModel.strip_slashes (env_or env "AUTH_SERVICE_URL" "http://auth:3002") +:+ "/auth/password".
(** [res.ok] or 502; the exception of the first branch is caught by the second. *)
Definition password_answer (a : AuthAnswer) : outcome string :=
  match a with
  | AuthStatus st text =>
      if (200 <=? st) && (st <=? 299) then Ret text
      else Throw (HttpException 502 ("Failed to contact auth service: Auth service responded "
                                     +:+ pretty st +:+ ": " +:+ text))
  | AuthUnreachable reason => Throw (HttpException 502 ("Failed to contact auth service: " +:+ reason))
  end.

Definition update_profile_dto (b : Dto.Body) : User.UpdateProfileDto :=
  {| User.up_firstName := Dto.str_at b "firstName"; User.up_lastName := Dto.str_at b "lastName";
     User.up_email := Dto.str_at b "email" |}.
Definition parse_role (s : string) : AuthModel.Role :=
  if bool_decide (s = "ADMIN"%string) then AuthModel.ADMIN else AuthModel.USER.
Definition admin_update_dto (b : Dto.Body) : User.AdminUpdateUserDto :=
  {| User.au_role := parse_role <$> Dto.str_at b "role"; User.au_isActive := Dto.bool_at b "isActive" |}.
Definition update_university_dto (b : Dto.Body) : User.UpdateUniversityDto :=
  {| User.uu_name := Dto.str_at b "name"; User.uu_emailDomain := Dto.str_at b "emailDomain" |}.
Definition create_university_dto (b : Dto.Body) : User.CreateUniversityDto :=
  {| User.cu_name := default "" (Dto.str_at b "name");
     User.cu_emailDomain := default "" (Dto.str_at b "emailDomain") |}.
Definition any_null (b : Dto.Body) (ps : list string) : bool := existsb (Dto.null_at b) ps.

Section user_routes.
Context {T : Type → Type} `{Database T} `{Hashing} `{Bcrypt} `{Jwt} `{UriCodec} `{BearerExtractor}
  `{Dto.StringValidators}.
Abbreviation St := (User.UserState T).

Definition assertAdmin (u : Identity) : M St unit :=
  throw_if (negb (bool_decide (role u = Some "ADMIN"%string))) (ForbiddenException "Admin role required").
(** The guard of the administrative routes and the handler's own check. *)
Definition administrative {A} (u : Identity) (pipes : M St unit) (m : M St A) : M St A :=
  admin_only u (pipes;; assertAdmin u;; m).

Definition patchProfile (u : Identity) (b : Dto.Body) : M St UserReply :=
  Dto.pipe Dto.UpdateProfileDto b;;
  let op := User.updateProfile (user_id u) (update_profile_dto b) in
  row ← (if any_null b ["firstName"; "lastName"; "email"]%string then refused_write [409] op else op);
  mret (RRow row).
(** A null name or domain reaches [trim] and throws a TypeError. *)
Definition patchUniversity (u : Identity) (id : string) (b : Dto.Body) : M St UserReply :=
  let op := User.updateUniversity id (update_university_dto b) (user_id u) in
  x ← (if any_null b ["name"; "emailDomain"]%string then refused_write [403; 404] op else op);
  mret (RUniversity x).
Definition patchUser (c : User.Call) (u : Identity) (id : string) (b : Dto.Body) : M St UserReply :=
  let op := User.adminUpdateUser c id (admin_update_dto b) (role u) (userId u) in
  row ← (if any_null b ["role"; "isActive"]%string then refused_write [403; 404] op else op);
  mret (RRow row).

(** The operation of each route, for the identity the guard established;
    [auth] is the answer of the auth service to the forwarded request. *)
Definition user_operation (c : User.Call) (auth : AuthAnswer) (b : Dto.Body) (route : UserRoute)
    (u : Identity) : M St UserReply :=
  let no_pipe := mret tt : M St unit in
  match route with
  | GetProfile => p ← User.getProfile c (user_id u); mret (RProfile p)
  | GetProfileSummary => p ← User.getProfileSummary c (user_id u); mret (RProfile p)
  | PatchProfile => patchProfile u b
  | PatchPassword => Dto.pipe Dto.UserChangePasswordDto b;; t ← lift (password_answer auth); mret (RText t)
  | PostStudentRequest => t ← User.requestStudentEmailVerification c (user_id u); mret (RText t)
  | PostStudentConfirm =>
      Dto.pipe Dto.ConfirmStudentVerificationDto b;;
      t ← User.confirmStudentEmailVerification c (user_id u) (default "" (Dto.str_at b "code"));
      mret (RText t)
  | GetUserStats => administrative u no_pipe (n ← User.getStats c (role u); mret (RStats n))
  | GetUsers page limit search =>
      administrative u no_pipe
        (p ← page_param page (Some 1); l ← page_param limit (Some 10);
         x ← User.findAll (default 1 p) (default 10 l) search (role u); mret (RUsers x))
  | GetBillingOverview page limit search =>
      administrative u no_pipe
        (p ← page_param page (Some 1); l ← page_param limit (Some 20);
         x ← User.getAdminBillingOverview c (role u) (default 1 p) (default 20 l) search; mret (ROverview x))
  | GetUniversities => administrative u no_pipe (l ← User.listUniversities (user_id u); mret (RUniversities l))
  | PostUniversity =>
      administrative u (Dto.pipe Dto.CreateUniversityDto b)
        (x ← User.createUniversity c (create_university_dto b) (user_id u); mret (RUniversity x))
  | PatchUniversity id => administrative u (Dto.pipe Dto.UpdateUniversityDto b) (patchUniversity u id b)
  | DeleteUniversityRoute id => administrative u no_pipe (t ← User.deleteUniversity id (user_id u); mret (RText t))
  | ToggleUniversityRoute id =>
      administrative u no_pipe (x ← User.toggleUniversityActive id (user_id u); mret (RUniversity x))
  | GetUser id => administrative u no_pipe (x ← User.findById id (role u); mret (RFound x))
  | GetUserBilling id =>
      administrative u no_pipe (x ← User.getUserBillingSummary c id (role u); mret (RBilling x))
  | PatchUserSubscription id =>
      administrative u (Dto.pipe Dto.AdminSetSubscriptionDto b)
        (x ← User.setUserSubscription c id
               (default unlimited (Dto.str_at b "planId" ≫= parse_plan)) (role u) (userId u);
         mret (RSubscription x))
  | PatchUser id => administrative u (Dto.pipe Dto.AdminUpdateUserDto b) (patchUser c u id b)
  | DeleteUserRoute id => administrative u no_pipe (t ← User.deleteUser id (role u); mret (RText t))
  end.

(** [@UseGuards(JwtAuthGuard)] on the controller. *)
Definition user_handle (secret : string) (c : User.Call) (auth : AuthAnswer) (r : Request)
    (b : Dto.Body) (route : UserRoute) : M St UserReply :=
  guarded secret r (User.now c) (user_operation c auth b route).
End user_routes.

(** ** vm.controller.ts *)

Inductive VmRoute :=
| PostVm | GetTemplates | GetVmStats
| GetVms (status search page limit : option string)
| GetVm (id : string) | GetVmSshKey (id : string) | PostVmAction (id : string) | DeleteVmRoute (id : string).
Inductive VmReply :=
| VCreated (x : string * Vm.VirtualMachine * option string) | VTemplates (l : list (Z * string))
| VStats (s : Vm.Stats) | VPage (p : Vm.VmPage) | VVm (v : Vm.VirtualMachine)
| VKey (k : string * string * string) | VText (t : string).

Definition int_at (b : Dto.Body) (p : string) : Z := Qfloor (default 0%Q (Dto.num_at b p)).
Definition create_vm_dto (b : Dto.Body) : Vm.CreateVmDto :=
  {| Vm.d_name := default "" (Dto.str_at b "name"); Vm.d_cpu := int_at b "cpu";
     Vm.d_ramMb := int_at b "ramMb"; Vm.d_diskGb := int_at b "diskGb";
     Vm.d_osTemplate := default "" (Dto.str_at b "osTemplate"); Vm.d_planId := Dto.str_at b "planId";
     Vm.d_sshPublicKey := Dto.str_at b "sshPublicKey"; Vm.d_vmUsername := Dto.str_at b "vmUsername";
     Vm.d_vmPassword := Dto.str_at b "vmPassword" |}.

Section vm_routes.
Context {T : Type → Type} `{Database T} `{Aead} `{Base64} `{Hashing} `{Jwt} `{UriCodec} `{BearerExtractor}
  `{Dto.StringValidators} `{UuidPipe}.
Abbreviation St := (Vm.VmState T).

Definition user_role (u : Identity) : string := default "" (role u).

Definition vm_operation (c : Vm.Call) (b : Dto.Body) (route : VmRoute) (u : Identity) : M St VmReply :=
  match route with
  | PostVm =>
      Dto.pipe Dto.CreateVmDto b;;
      x ← Vm.createVm c (create_vm_dto b) (user_id u) (user_role u); mret (VCreated x)
  | GetTemplates => l ← Vm.getTemplates c; mret (VTemplates l)
  | GetVmStats => x ← Vm.getStats (user_id u) (user_role u); mret (VStats x)
  | GetVms status search page limit =>
      p ← page_param page None; l ← page_param limit None;
      x ← Vm.listVms (user_id u) (user_role u)
            {| Vm.vq_status := status; Vm.vq_search := search; Vm.vq_page := p;
               Vm.vq_limit := (λ n, Z.min n 100) <$> l |};
      mret (VPage x)
  | GetVm id => uuid_pipe id;; v ← Vm.getVm id (user_id u) (user_role u); mret (VVm v)
  | GetVmSshKey id =>
      uuid_pipe id;; k ← Vm.getVmSshPrivateKey c id (user_id u) (user_role u); mret (VKey k)
  | PostVmAction id =>
      uuid_pipe id;; Dto.pipe Dto.VmActionDto b;;
      t ← Vm.vmAction c id (default "" (Dto.str_at b "action")) (user_id u) (user_role u); mret (VText t)
  | DeleteVmRoute id => uuid_pipe id;; t ← Vm.deleteVm c id (user_id u) (user_role u); mret (VText t)
  end.
Definition vm_handle (secret : string) (c : Vm.Call) (r : Request) (b : Dto.Body) (route : VmRoute)
    : M St VmReply :=
  guarded secret r (Vm.now c) (vm_operation c b route).
End vm_routes.

(** ** payment.controller.ts *)

Inductive PaymentRoute :=
| PostCheckout | PostConfirm | GetMyPayments | GetPlans | GetAdminPlans | PutAdminPlan (planId : string)
| PostWebhook (stripeSignature : option string).
Inductive PaymentReply :=
| PCheckout (c : Payment.Checkout) | PConfirmed (x : Z * list PlanId)
| PPayments (l : list (string * Payment.PaymentRow)) | PPlans (l : list Payment.PublicPlan)
| PPlan (r : PlanConfigRow) | PReceived.

Definition plan_int (b : Dto.Body) (p : string) : option Z := Qfloor <$> Dto.num_at b p.
Definition plan_patch (b : Dto.Body) : Payment.PlanPatch :=
  {| Payment.ch_amountDt := Dto.num_at b "amountDt"; Payment.ch_rank := None;
     Payment.ch_vmHoursMonthly := plan_int b "vmHoursMonthly"; Payment.ch_maxVms := plan_int b "maxVms";
     Payment.ch_maxCpu := plan_int b "maxCpu"; Payment.ch_maxRamMb := plan_int b "maxRamMb";
     Payment.ch_maxDiskGb := plan_int b "maxDiskGb" |}.
Definition int_columns : list string := ["vmHoursMonthly"; "maxVms"; "maxCpu"; "maxRamMb"; "maxDiskGb"]%string.
(** The columns other than the price are integers. *)
Definition storable_patch (b : Dto.Body) : bool :=
  negb (any_null b ("amountDt"%string :: int_columns))
  && forallb (λ p, match Dto.num_at b p with Some q => Dto.is_integer q | None => true end) int_columns.

Section payment_routes.
Context {T : Type → Type} `{Database T} `{Hashing} `{Jwt} `{UriCodec} `{BearerExtractor}
  `{Dto.StringValidators}.
Abbreviation St := (Payment.PaymentState T).

Definition putAdminPlan (c : Payment.Call) (u : Identity) (planId : string) (b : Dto.Body) : M St PaymentReply :=
  Dto.pipe Dto.UpdatePlanDto b;;
  let op := Payment.adminUpdatePlan c (role u) planId (plan_patch b) in
  row ← (if storable_patch b then op else refused_write [400; 403; 404] op);
  mret (PPlan row).

Definition payment_handle (secret : string) (t : Z) (c : Payment.Call) (r : Request) (b : Dto.Body)
    (route : PaymentRoute) : M St PaymentReply :=
  let signed_in {A} (m : Identity → M St A) := guarded secret r t m in
  match route with
  | PostCheckout =>
      signed_in (λ u,
        Dto.pipe Dto.CreateCheckoutSessionDto b;;
        x ← Payment.createCheckoutSession c (user_id u) (default "" (role u))
              (default student (Dto.str_at b "planId" ≫= parse_plan));
        mret (PCheckout x))
  | PostConfirm =>
      signed_in (λ u,
        Dto.pipe Dto.ConfirmCheckoutSessionDto b;;
        x ← Payment.confirmCheckoutSession c (user_id u) (default "" (Dto.str_at b "sessionId"));
        mret (PConfirmed x))
  | GetMyPayments => signed_in (λ u, l ← Payment.listPayments (user_id u); mret (PPayments l))
  | GetPlans => l ← Payment.getPublicPlans c; mret (PPlans l)
  | GetAdminPlans => signed_in (λ u, l ← Payment.adminGetAllPlans c (role u); mret (PPlans l))
  | PutAdminPlan planId => signed_in (λ u, putAdminPlan c u planId b)
  | PostWebhook sig => Payment.handleWebhook c sig;; mret PReceived
  end.
End payment_routes.
End Routes.
