(* ===== verification/RoutesProps.v ===== *)
(** * RoutesProps: what the routes of the user and VM services admit

    Requests as they arrive: the guard, the validation of the body, and the
    operation behind the route.  Who may change what, what a reply may contain,
    and the quota over any sequence of requests. *)

From Stdlib Require Import ZArith Lia Ascii String QArith Qround.
From stdpp Require Import base list gmap strings.
From S2P Require Import Prelude Text Js Regex Dto Store Crypto RequestSecurity Cookies.
From S2P Require Import AuthModel VmKeyCrypto Vm Plans Payment User Gateway Startup AuthHttp Routes.
Import RequestSecurity Startup Plans VmKeyCrypto Routes.
#[local] Open Scope Z_scope.

Module RoutesProps.

#[local] Existing Instance Vm.VmStatus_eq_dec.
#[local] Existing Instance AuthModel.Role_eq_dec.

Create HintDb own.

(** ** The user service *)

Section user.
Context {T : Type → Type} `{DatabaseLaws T} `{Hashing} `{Bcrypt} `{Jwt} `{UriCodec} `{BearerExtractor}
  `{Dto.StringValidators}.
Abbreviation St := (User.UserState T).

(** The tables differ at most in the profile and the verifications of [uid],
    whose role, activity and creation stay; [fresh] is the id a new
    verification gets. *)
Record own_account_only (uid fresh : string) (s s' : St) : Prop := {
  oa_others k : k ≠ uid → rows (User.users s') !! k = rows (User.users s) !! k;
  oa_self w : rows (User.users s) !! uid = Some w → ∃ w', rows (User.users s') !! uid = Some w' ∧
    User.u_role w' = User.u_role w ∧ User.u_isActive w' = User.u_isActive w ∧
    User.u_password w' = User.u_password w;
  oa_absent : rows (User.users s) !! uid = None → rows (User.users s') !! uid = None;
  oa_quotas : User.quotas s' = User.quotas s;
  oa_universities : User.universities s' = User.universities s;
  oa_kept k v : k ≠ fresh → User.sv_userId v ≠ uid →
    rows (User.verifications s) !! k = Some v → rows (User.verifications s') !! k = Some v;
  oa_added k v : User.sv_userId v ≠ uid →
    rows (User.verifications s') !! k = Some v → rows (User.verifications s) !! k = Some v }.

Section own.
Context (uid fresh : string).
Abbreviation own := (own_account_only uid fresh).

#[local] Instance own_refl : Reflexive own.
Proof. intros s. split; eauto 10. Qed.
#[local] Instance own_trans : Transitive own.
Proof.
  intros s1 s2 s3 [] []. split; try congruence; eauto.
  - intros k Hk. rewrite oa_others1; auto.
  - intros w Hw. destruct (oa_self0 w Hw) as (w2 & Hw2 & ? & ? & ?).
    destruct (oa_self1 w2 Hw2) as (w3 & Hw3 & ? & ? & ?). exists w3. split_and!; congruence.
Qed.

(** Only the catalogue or the mail changes. *)
Lemma own_frame s s' :
  User.users s' = User.users s → User.quotas s' = User.quotas s →
  User.verifications s' = User.verifications s → User.universities s' = User.universities s → own s s'.
Proof. intros Eu Eq Ev En. split; rewrite ?Eu, ?Ev; eauto 10. Qed.

Lemma own_ret {A} (a : A) : preserves own (mret a : M St A).
Proof. apply preserves_ret. exact _. Qed.
Lemma own_throw {A} e : preserves own (throw e : M St A).
Proof. apply preserves_throw. exact _. Qed.
Lemma own_gets {A} (f : St → A) : preserves own (gets f).
Proof. apply preserves_gets. exact _. Qed.
Lemma own_throw_if x e : preserves own (throw_if x e : M St unit).
Proof. destruct x; [apply own_throw|apply own_ret]. Qed.
Lemma own_when x (m : M St unit) : preserves own m → preserves own (when x m).
Proof. intros Hm. destruct x; [done|apply own_ret]. Qed.
Lemma own_bind {A B} (m : M St A) (f : A → M St B) :
  preserves own m → (∀ a, preserves own (f a)) → preserves own (m ≫= f).
Proof. apply preserves_bind. exact _. Qed.
Lemma own_read {A} (f : St → outcome A) : preserves own (λ s, (s, f s)).
Proof. intros s. simpl. reflexivity. Qed.
Lemma own_refused {A} l (m : M St A) : preserves own (refused_write l m).
Proof. apply own_read. Qed.
Lemma own_catalog c : preserves own (User.getPlanCatalog (T:=T) c).
Proof. intros s. unfold User.getPlanCatalog, zoom. destruct (load_rows _ _). by apply own_frame. Qed.
Lemma own_mail c to_ code : preserves own (User.sendStudentVerificationCode (T:=T) c to_ code).
Proof.
  unfold User.sendStudentVerificationCode. case_match; [apply own_throw|].
  apply preserves_modify; intros s; by apply own_frame.
Qed.
Lemma own_delete p :
  (∀ k v (s : St), rows (User.verifications s) !! k = Some v → p s k v = true → User.sv_userId v = uid) →
  preserves own (modify (λ s : St, User.set_verifications (delete_where (p s) (User.verifications s)) s)).
Proof.
  intros Hp. apply preserves_modify. intros s. split; eauto 10; simpl.
  - intros k v _ Hne Hk. rewrite rows_delete_where, Hk. specialize (Hp _ _ _ Hk).
    destruct (p s k v); [by destruct Hne; auto|done].
  - intros k v _. rewrite rows_delete_where. destruct (rows _ !! k); [|done]. by destruct (p s k _).
Qed.
Lemma own_put v :
  User.sv_userId v = uid →
  preserves own (modify (λ s : St, User.set_verifications (put fresh v (User.verifications s)) s)).
Proof.
  intros Hv. apply preserves_modify. intros s. split; eauto 10; simpl.
  - intros k w Hk _ Hw. by rewrite rows_put, lookup_insert_ne.
  - intros k w Hw. rewrite rows_put. intros [[_ <-]|[_ ?]]%lookup_insert_Some; done.
Qed.
Lemma own_update f :
  (∀ w, User.u_role (f w) = User.u_role w ∧ User.u_isActive (f w) = User.u_isActive w ∧
        User.u_password (f w) = User.u_password w) →
  preserves own (User.update_user (T:=T) uid f).
Proof.
  intros Hf s. unfold User.update_user, User.write_user, find_by_id. m_red.
  destruct (rows (User.users s) !! uid) as [w|] eqn:E; [|reflexivity].
  destruct (find_first _ _); [reflexivity|]. split; simpl; eauto 10.
  - intros k Hk. by rewrite rows_put, lookup_insert_ne.
  - intros w0. rewrite E. intros [= <-]. rewrite rows_put, lookup_insert_eq. destruct (Hf w) as (? & ? & ?). eauto.
  - by rewrite E.
Qed.

#[local] Hint Resolve own_ret own_throw own_gets own_throw_if own_read own_refused own_catalog own_mail : own.
Ltac own := repeat first
  [ solve [auto with own]
  | apply own_update; by intros []
  | apply own_bind; [|intros ?]
  | apply own_when
  | case_match ].

Lemma own_find_user id : preserves own (User.find_user (T:=T) id).
Proof. unfold User.find_user. own. Qed.
Lemma own_cycleStart c u : preserves own (User.getLatestBillingCycleStart (T:=T) c u).
Proof. unfold User.getLatestBillingCycleStart. own. Qed.
#[local] Hint Resolve own_find_user own_cycleStart : own.

Lemma own_profile c : preserves own (User.getProfile (T:=T) c uid).
Proof. unfold User.getProfile. own. Qed.
Lemma own_summary c : preserves own (User.getProfileSummary (T:=T) c uid).
Proof. unfold User.getProfileSummary. own. Qed.
Lemma own_updateProfile dto : preserves own (User.updateProfile (T:=T) uid dto).
Proof. unfold User.updateProfile. own. Qed.
Lemma own_request c :
  User.newVerificationId c = fresh → preserves own (User.requestStudentEmailVerification (T:=T) c uid).
Proof.
  intros Hf. unfold User.requestStudentEmailVerification, User.isStudentEmailAsync. own.
  - apply own_delete. intros k v s _. by intros ?%bool_decide_eq_true.
  - rewrite Hf. by apply own_put.
Qed.
Lemma own_confirm c code : preserves own (User.confirmStudentEmailVerification (T:=T) c uid code).
Proof.
  unfold User.confirmStudentEmailVerification. apply own_bind; [auto with own|intros _]. cbv zeta.
  intros s. rewrite (bind_eval _ _ s s _ eq_refl). cbv beta.
  destruct (find_first _ (User.verifications s)) as [[k v]|] eqn:Ef; [|reflexivity].
  apply find_first_Some in Ef as [Hk [Hu%bool_decide_eq_true _]%andb_true_iff].
  destruct (_ <? _).
  - m_red. split; simpl; eauto 10.
    + intros k' v' _ Hne Hk'. rewrite rows_delete_where, Hk'.
      destruct (decide (k' = k)) as [->|]; [congruence|]. by rewrite bool_decide_false.
    + intros k' v' _. rewrite rows_delete_where. destruct (rows _ !! k'); [|done]. by case_bool_decide.
  - match goal with |- own _ (?m s).1 => enough (Hm : preserves own m) by apply Hm end. own.
    apply own_delete. intros k' v' s' _. by intros ?%bool_decide_eq_true.
Qed.
End own.

(** The routes behind [@Roles("ADMIN")]. *)
Definition admin_route (route : UserRoute) : bool :=
  match route with
  | GetProfile | GetProfileSummary | PatchProfile | PatchPassword | PostStudentRequest | PostStudentConfirm => false
  | _ => true
  end.

Lemma administrative_refused {A} u pipes (m : M St A) s :
  role u ≠ Some "ADMIN"%string →
  administrative u pipes m s = (s, Throw (ForbiddenException "Forbidden resource")).
Proof. intros Hr. unfold administrative. rewrite admin_only_spec. by rewrite bool_decide_false. Qed.

Lemma admin_route_refused c auth b route u (s : St) :
  role u ≠ Some "ADMIN"%string → admin_route route = true →
  user_operation c auth b route u s = (s, Throw (ForbiddenException "Forbidden resource")).
Proof. intros Hr. destruct route; try done; intros _; by apply administrative_refused. Qed.

Lemma own_operation c auth b route u :
  admin_route route = false →
  preserves (own_account_only (user_id u) (User.newVerificationId c)) (user_operation (T:=T) c auth b route u).
Proof.
  destruct route; try done; intros _; cbn [user_operation]; unfold patchProfile; apply own_bind.
  all: try (intros ?; apply own_ret).
  - apply own_profile.
  - apply own_summary.
  - apply own_throw_if.
  - intros _. cbv zeta. apply own_bind; [|intros ?; apply own_ret].
    case_match; [apply own_refused|apply own_updateProfile].
  - apply own_throw_if.
  - intros _. apply own_bind; [apply own_read|intros ?; apply own_ret].
  - by apply own_request.
  - apply own_throw_if.
  - intros _. apply own_bind; [apply own_confirm|intros ?; apply own_ret].
Qed.

(** C31: an account that is not an administrator's reaches only itself.  Whatever
    route, headers and body a request to the user service has: without a token
    that the guard accepts nothing changes; with one whose role is not ADMIN
    the administrative routes are refused, and the others leave every other
    account, every quota, every university and everybody else's verification
    as they were, and of the own row the role, the activity and the password. *)
Theorem user_requests_isolated secret c auth r b route s s' o :
  user_handle secret c auth r b route s = (s', o) →
  match jwtAuthGuard secret r (User.now c) with
  | Throw e => s' = s ∧ o = Throw e
  | Ret u => role u ≠ Some "ADMIN"%string →
      own_account_only (user_id u) (User.newVerificationId c) s s' ∧
      (admin_route route = true → s' = s ∧ o = Throw (ForbiddenException "Forbidden resource"))
  end.
Proof.
  unfold user_handle. destruct (jwtAuthGuard secret r (User.now c)) as [u|e] eqn:Eg.
  - rewrite (guarded_admits _ _ _ _ _ _ Eg). intros Ho Hr. destruct (admin_route route) eqn:Ea.
    + rewrite admin_route_refused in Ho by done. injection Ho as <- <-. split; [apply own_refl|done].
    + split; [|done]. pose proof (own_operation c auth b route u Ea s) as Hown. by rewrite Ho in Hown.
  - rewrite (guarded_denied _ _ _ _ _ _ Eg). by intros [= <- <-].
Qed.
End user.

(** ** The VM service *)

Section vm.
Context {T : Type → Type} `{DatabaseLaws T} `{Aead} `{Base64} `{Hashing} `{Jwt} `{UriCodec} `{BearerExtractor}
  `{Dto.StringValidators} `{UuidPipe}.
Abbreviation St := (Vm.VmState T).

Definition message_vm (m : Vm.NatsMessage) : string :=
  match m with Vm.VmCreate id _ _ _ _ _ _ _ _ _ | Vm.VmAction id _ _ _ | Vm.VmDelete id _ _ => id end.
Definition message_user (m : Vm.NatsMessage) : string :=
  match m with Vm.VmCreate _ _ _ _ _ _ u _ _ _ | Vm.VmAction _ _ _ u | Vm.VmDelete _ _ u => u end.
Definition owned (uid : string) (s : St) (k : string) : Prop :=
  ∃ v, rows (Vm.vms s) !! k = Some v ∧ Vm.vm_userId v = uid.

(** Only the machines and the quota copy of [uid] change, and the worker is
    told about machines of [uid] only; [fresh] is the id of a new machine. *)
Record own_machines_only (uid fresh : string) (s s' : St) : Prop := {
  om_kept k v : k ≠ fresh → rows (Vm.vms s) !! k = Some v → rows (Vm.vms s') !! k = Some v;
  om_added k v : Vm.vm_userId v ≠ uid → rows (Vm.vms s') !! k = Some v → rows (Vm.vms s) !! k = Some v;
  om_owned k : owned uid s k → owned uid s' k;
  om_quotas k : k ≠ uid → rows (Vm.userQuotas s') !! k = rows (Vm.userQuotas s) !! k;
  om_published : ∃ l, Vm.published s' = Vm.published s ++ l ∧
    Forall (λ m, message_user m = uid ∧ owned uid s' (message_vm m)) l }.

Section own.
Context (uid fresh : string).
Abbreviation mine := (own_machines_only uid fresh).

#[local] Instance mine_refl : Reflexive mine.
Proof. intros s. split; eauto. exists []. by rewrite app_nil_r. Qed.
#[local] Instance mine_trans : Transitive mine.
Proof.
  intros s1 s2 s3 [] []. split; eauto.
  - intros k Hk. rewrite om_quotas1; auto.
  - destruct om_published0 as (l1 & E1 & H1'), om_published1 as (l2 & -> & H2').
    exists (l1 ++ l2). rewrite E1, app_assoc, Forall_app. split_and!; [done| |done].
    eapply Forall_impl; [exact H1'|]. intros m [? ?]. eauto.
Qed.

Lemma mine_read {A} (f : St → outcome A) : preserves mine (λ s, (s, f s)).
Proof. intros s. simpl. reflexivity. Qed.
Lemma mine_pure {A} (m : M St A) : (∀ s, ∃ o, m s = (s, o)) → preserves mine m.
Proof. intros Hm s. destruct (Hm s) as [o ->]. reflexivity. Qed.
Lemma mine_publish c m s :
  message_user m = uid → owned uid s (message_vm m) → mine s (Vm.publish c m s).1.
Proof.
  intros Hu Ho. unfold Vm.publish. m_red. destruct (Vm.natsConnected c); simpl; [|reflexivity].
  destruct (Vm.jetStreamOk c); simpl; [|reflexivity]. split; eauto.
Qed.

Lemma mine_create c dto role :
  Vm.newVmId c = fresh → preserves mine (Vm.createVm (T:=T) c dto uid role).
Proof.
  intros Hf s. pose proof (Vm.createVm_effect c dto uid role s) as He.
  destruct (Vm.createVm c dto uid role s) as [s' o]. simpl.
  destruct He as [[-> _]|(rq & enc & v & s1 & Htx & Ev & Eu & _ & _ & l & El & Hl)]; [reflexivity|].
  apply Vm.create_tx_inv in Htx as (-> & _ & _ & Ev1 & Ep & _ & Ho). rewrite <-Ev, Hf in Ev1. rewrite Hf in Hl.
  assert (Hnew : owned uid s' fresh).
  { eexists. rewrite Ev1, rows_put, lookup_insert_eq. by split. }
  split; rewrite ?Ev1, ?Eu; eauto.
  - intros k v Hk Hv. by rewrite rows_put, lookup_insert_ne.
  - intros k v Hu. rewrite rows_put. by intros [[_ <-]|[_ ?]]%lookup_insert_Some.
  - intros k (v & Hv & Hu). destruct (decide (k = fresh)) as [->|]; [done|].
    exists v. by rewrite Ev1, rows_put, lookup_insert_ne.
  - exists l. rewrite El, Ep. split; [done|]. eapply Forall_impl; [exact Hl|].
    intros m (? & ? & ? & ? & ? & ? & ? & ? & ->). by split.
Qed.

(** An operation on one machine first checks that the caller may access it. *)
Lemma mine_access {A} vmId role (k : Vm.VirtualMachine → M St A) :
  Vm.is_admin role = false →
  (∀ s v, rows (Vm.vms s) !! vmId = Some v → Vm.vm_userId v = uid → mine s (k v s).1) →
  preserves mine (Vm.getVm vmId uid role ≫= k).
Proof.
  intros Hr Hk s. unfold mbind, M_bind. destruct (Vm.getVm_pure vmId uid role s) as [[v|e] Hg]; rewrite Hg;
    [|simpl; reflexivity].
  apply Vm.getVm_inv in Hg as (_ & Hv & [Ha|Hu]); [congruence|]. by apply Hk.
Qed.

Lemma mine_action c vmId action role :
  Vm.is_admin role = false → preserves mine (Vm.vmAction (T:=T) c vmId action uid role).
Proof.
  intros Hr. apply mine_access; [done|]. intros s v Hv Hu. unfold mbind at 1, M_bind at 1.
  destruct (Vm.hours_gate_pure c action role s) as [[[]|e] Hg]; rewrite Hg; [|simpl; reflexivity].
  clear Hg. unfold mbind at 1, M_bind at 1, throw_if. destruct (negb _); simpl; [reflexivity|].
  pose proof (mine_publish c (Vm.VmAction vmId (Vm.vm_oneVmId v) action uid) s eq_refl (ex_intro _ v (conj Hv Hu))) as Hp.
  unfold mbind, M_bind. by destruct (Vm.publish _ _ s) as [? []].
Qed.

Lemma mine_delete c vmId role :
  Vm.is_admin role = false → preserves mine (Vm.deleteVm (T:=T) c vmId uid role).
Proof.
  intros Hr. apply mine_access; [done|]. intros s v Hv Hu.
  unfold mbind at 1, M_bind at 1, throw_if. destruct (bool_decide _); simpl; [reflexivity|].
  pose proof (mine_publish c (Vm.VmDelete vmId (Vm.vm_oneVmId v) uid) s eq_refl (ex_intro _ v (conj Hv Hu))) as Hp.
  unfold mbind, M_bind. by destruct (Vm.publish _ _ s) as [? []].
Qed.
End own.

(** The machines a reply shows. *)
Definition reply_machines (o : outcome VmReply) : list Vm.VirtualMachine :=
  match o with
  | Ret (VCreated x) => [x.1.2]
  | Ret (VPage p) => (Vm.pg_data p).*2
  | Ret (VVm v) => [v]
  | _ => []
  end.

Lemma window_sub {A} n m (l : list A) x : x ∈ take n (drop m l) → x ∈ l.
Proof. intros (i & Hi & _)%elem_of_take. rewrite lookup_drop in Hi. by eapply list_elem_of_lookup_2. Qed.
Lemma rev_elem {A} (l : list A) x : x ∈ rev l ↔ x ∈ l.
Proof. rewrite !list_elem_of_In. symmetry. apply in_rev. Qed.
Lemma page_of_sub {A} skip n (l d : list A) : Vm.page_of skip n l = Ret d → ∀ x, x ∈ d → x ∈ l.
Proof.
  unfold Vm.page_of. repeat case_match; try done; intros [= <-] x Hx; [by eapply window_sub|].
  rewrite rev_elem in Hx. apply window_sub in Hx. by rewrite rev_elem in Hx.
Qed.

Lemma listVms_owned uid role q s s' p :
  Vm.is_admin role = false → Vm.listVms (T:=T) uid role q s = (s', Ret p) →
  s' = s ∧ Forall (λ v, Vm.vm_userId v = uid) (Vm.pg_data p).*2.
Proof.
  intros Hr.
  assert (Hfetch : ∀ st l d, l = select_desc Vm.vm_createdAt (Vm.list_where uid role q st) (Vm.vms s) →
    Vm.page_of ((default 1 (Vm.vq_page q) - 1) * Z.min (default 20 (Vm.vq_limit q)) 100)
      (Z.min (default 20 (Vm.vq_limit q)) 100) l = Ret d → Forall (λ v, Vm.vm_userId v = uid) d.*2).
  { intros st l d -> Hd. apply Forall_fmap, Forall_forall. intros [k v] Hx.
    eapply page_of_sub, elem_of_select_desc in Hx as [_ Hw]; [|done]. unfold Vm.list_where in Hw.
    rewrite Hr in Hw. simpl in *. destruct (bool_decide (Vm.vm_userId v = uid)) eqn:E; [|done].
    by apply bool_decide_eq_true in E. }
  unfold Vm.listVms. repeat case_match; simplify_eq/=; intros; simplify_eq/=; eauto.
Qed.

Lemma not_admin u : role u ≠ Some "ADMIN"%string → Vm.is_admin (user_role u) = false.
Proof.
  intros Hr. apply bool_decide_eq_false. unfold user_role. destruct (role u); simpl; [|done]. congruence.
Qed.

Lemma mine_bind uid fresh {A B} (m : M St A) (f : A → M St B) :
  preserves (own_machines_only uid fresh) m → (∀ a, preserves (own_machines_only uid fresh) (f a)) →
  preserves (own_machines_only uid fresh) (m ≫= f).
Proof. apply preserves_bind. apply mine_trans. Qed.
Lemma mine_page uid fresh v d : preserves (own_machines_only uid fresh) (page_param (St:=St) v d).
Proof. unfold page_param. repeat case_match; apply mine_read. Qed.

Lemma key_pure c id uid ro (s : St) : ∃ o, Vm.getVmSshPrivateKey c id uid ro s = (s, o).
Proof.
  unfold Vm.getVmSshPrivateKey. m_red. destruct (find_by_id _ _); [|by eexists].
  repeat (destruct (_ && _) || destruct (negb _) || case_match; simpl; try by eexists).
Qed.

Lemma list_pure uid ro q (s : St) : ∃ o, Vm.listVms uid ro q s = (s, o).
Proof. unfold Vm.listVms. cbv zeta. repeat case_match; eexists; reflexivity. Qed.
Lemma page_pure v d (s : St) : ∃ o, page_param v d s = (s, o).
Proof. unfold page_param. repeat case_match; by eexists. Qed.

Lemma mine_operation c b route u :
  role u ≠ Some "ADMIN"%string →
  preserves (own_machines_only (user_id u) (Vm.newVmId c)) (vm_operation (T:=T) c b route u).
Proof.
  intros Hr%not_admin. assert (Hret : ∀ A (a : A),
    preserves (own_machines_only (user_id u) (Vm.newVmId c)) (mret a : M St A)) by (intros; apply mine_read).
  assert (Hif : ∀ x e, preserves (own_machines_only (user_id u) (Vm.newVmId c)) (throw_if x e : M St unit))
    by (intros [] ?; apply mine_read).
  assert (Hlast : ∀ A (m : M St A) (k : A → VmReply),
    preserves (own_machines_only (user_id u) (Vm.newVmId c)) m →
    preserves (own_machines_only (user_id u) (Vm.newVmId c)) (x ← m; mret (k x)))
    by (intros; apply mine_bind; auto).
  destruct route; cbn [vm_operation]; unfold uuid_pipe, Dto.pipe.
  - apply mine_bind; [done|intros _]. by apply Hlast, mine_create.
  - apply Hlast, mine_read.
  - apply Hlast, mine_read.
  - apply mine_bind; [apply mine_page|intros ?]. apply mine_bind; [apply mine_page|intros ?].
    apply Hlast, mine_pure. intros s. apply list_pure.
  - apply mine_bind; [done|intros _]. apply Hlast, mine_pure. intros s. apply Vm.getVm_pure.
  - apply mine_bind; [done|intros _]. apply Hlast, mine_pure. intros s. apply key_pure.
  - apply mine_bind; [done|intros _]. apply mine_bind; [done|intros _]. by apply Hlast, mine_action.
  - apply mine_bind; [done|intros _]. by apply Hlast, mine_delete.
Qed.

(** The machine a created reply shows is the caller's. *)
Lemma created_owned c dto uid role s s' r :
  Vm.createVm (T:=T) c dto uid role s = (s', Ret r) → Vm.vm_userId r.1.2 = uid.
Proof. intros (rq & pub & gen & enc & msgs & _ & _ & _ & -> & _)%Vm.createVm_inv. done. Qed.

Lemma reply_owned c b route u s s' r :
  role u ≠ Some "ADMIN"%string → vm_operation (T:=T) c b route u s = (s', Ret r) →
  Forall (λ v, Vm.vm_userId v = user_id u) (reply_machines (Ret r)) ∧
  ∀ id, route = GetVmSshKey id → owned (user_id u) s id.
Proof.
  intros Hr%not_admin Ho. split.
  - destruct route; cbn [vm_operation] in Ho; m_inv Ho; unfold mret, M_ret in Ho; simplify_eq/=; try constructor.
    + by eapply created_owned.
    + done.
    + by eapply listVms_owned.
    + apply Vm.getVm_inv in Hm0 as (_ & _ & [?|?]); [congruence|done].
    + done.
  - intros id ->. cbn [vm_operation] in Ho. m_inv Ho. apply throw_if_inv in Hm as [_ ->].
    apply Vm.key_access in Hm0 as (_ & v & Hv & [?|?]); [congruence|]. by exists v.
Qed.

(** C32: a user who is not an administrator reaches only the own machines.
    Whatever route, headers and body a request to the VM service has: without a
    token that the guard accepts nothing changes; with one whose role is not
    ADMIN no existing machine and no other user's quota changes, a machine that
    is added is the user's, the worker is told about machines of this user
    only, and every machine or key in the reply is the user's. *)
Theorem vm_requests_isolated secret c r b route s s' o :
  vm_handle secret c r b route s = (s', o) →
  match jwtAuthGuard secret r (Vm.now c) with
  | Throw e => s' = s ∧ o = Throw e
  | Ret u => role u ≠ Some "ADMIN"%string →
      own_machines_only (user_id u) (Vm.newVmId c) s s' ∧
      Forall (λ v, Vm.vm_userId v = user_id u) (reply_machines o) ∧
      ∀ id, route = GetVmSshKey id → is_ret o = true → owned (user_id u) s id
  end.
Proof.
  unfold vm_handle. destruct (jwtAuthGuard secret r (Vm.now c)) as [u|e] eqn:Eg.
  - rewrite (guarded_admits _ _ _ _ _ _ Eg). intros Ho Hr. split.
    + pose proof (mine_operation c b route u Hr s) as Hm. by rewrite Ho in Hm.
    + destruct o as [x|e]; [|split; [constructor|done]].
      destruct (reply_owned _ _ _ _ _ _ _ Hr Ho) as [Hv Hk]. split; [done|]. by intros id Hid _; apply Hk.
  - rewrite (guarded_denied _ _ _ _ _ _ Eg). by intros [= <- <-].
Qed.

(** ** The quota over requests *)

(** The numbers of a body that passed are the integers the service computes with. *)
Lemma int_bounds b p lo hi :
  Dto.validate Dto.CreateVmDto b = true →
  (p, Dto.Req Dto.TNumber, [Dto.IsInt; Dto.Min (inject_Z lo); Dto.Max (inject_Z hi)]) ∈ Dto.CreateVmDto →
  lo <= int_at b p <= hi.
Proof.
  intros Hv Hin. destruct (Dto.num_present _ _ _ _ _ Hv Hin eq_refl eq_refl) as (q & _ & Hq & Hc).
  unfold int_at. rewrite Hq. simpl.
  assert (Hlo : Qle_bool (inject_Z lo) q = true) by (apply (Hc (Dto.Min (inject_Z lo))); right; left).
  assert (Hhi : Qle_bool q (inject_Z hi) = true) by (apply (Hc (Dto.Max (inject_Z hi))); do 2 right; left).
  apply Qle_bool_iff in Hlo, Hhi. apply Qfloor_resp_le in Hlo, Hhi. by rewrite !Qfloor_Z in *.
Qed.

Lemma create_vm_dto_ok b : Dto.validate Dto.CreateVmDto b = true → Vm.CreateVmDto_ok (create_vm_dto b) = true.
Proof.
  intros Hv. unfold Vm.CreateVmDto_ok, create_vm_dto. simpl.
  pose proof (int_bounds b "cpu" 1 32 Hv ltac:(do 1 right; left)).
  pose proof (int_bounds b "ramMb" 512 65536 Hv ltac:(do 2 right; left)).
  pose proof (int_bounds b "diskGb" 5 400 Hv ltac:(do 3 right; left)). lia.
Qed.

(** Any sequence of requests and of reports of the worker, in which the user
    service grants [uid] at most [q]; the ids the database draws are fresh. *)
Inductive http_run (secret : string) (q : Vm.UserQuota) (uid : string) : St → Prop :=
| hr_init s : rows (Vm.vms s) = ∅ → rows (Vm.userQuotas s) = ∅ → http_run secret q uid s
| hr_request c r b route s :
    http_run secret q uid s → rows (Vm.vms s) !! Vm.newVmId c = None →
    (∀ u, jwtAuthGuard secret r (Vm.now c) = Ret u → user_id u = uid → role u ≠ Some "ADMIN"%string ∧
       ∀ st x q', Vm.quotaAnswer c = Vm.Http st x → Vm.qs_quota x = Some q' → Vm.quota_le q' q) →
    http_run secret q uid (vm_handle secret c r b route s).1
| hr_status t d s :
    http_run secret q uid s → ¬ Vm.revives d (Vm.vms s) → http_run secret q uid (Vm.onStatusUpdate t d s).1.

Lemma quota_operation q uid c b route u s :
  Vm.quota_run q uid s → rows (Vm.vms s) !! Vm.newVmId c = None →
  (user_id u = uid → role u ≠ Some "ADMIN"%string ∧
     ∀ st x q', Vm.quotaAnswer c = Vm.Http st x → Vm.qs_quota x = Some q' → Vm.quota_le q' q) →
  Vm.quota_run q uid (vm_operation c b route u s).1.
Proof.
  intros Hrun Hid Hq.
  assert (Hlast : ∀ A (m : M St A) (k : A → VmReply), Vm.quota_run q uid (m s).1 →
    Vm.quota_run q uid ((x ← m; mret (k x)) s).1).
  { intros A m k Hm. unfold mbind, M_bind. by destruct (m s) as [? []]. }
  assert (Hguard : ∀ x e (m : M St VmReply), (x = false → Vm.quota_run q uid (m s).1) →
    Vm.quota_run q uid ((throw_if x e;; m) s).1).
  { intros [] e m Hm; [done|]. by apply Hm. }
  destruct route; cbn [vm_operation]; unfold uuid_pipe, Dto.pipe.
  - apply Hguard. intros Hv%negb_false_iff. apply Hlast, Vm.qr_create; [done| |done|].
    + by apply create_vm_dto_ok.
    + intros Hu. destruct (Hq Hu) as [Hr ?]. split; [by apply not_admin|done].
  - by apply Hlast.
  - by apply Hlast.
  - unfold mbind, M_bind.
    destruct (page_pure page None s) as [[p|e] ->]; [|done]. destruct (page_pure limit None s) as [[l|e] ->]; [|done].
    match goal with |- context [Vm.listVms ?a ?b ?x s] => destruct (list_pure a b x s) as [[d|e] ->] end; done.
  - apply Hguard. intros _. apply Hlast. by destruct (Vm.getVm_pure id (user_id u) (user_role u) s) as [? ->].
  - apply Hguard. intros _. apply Hlast.
    destruct (key_pure c id (user_id u) (user_role u) s) as [? ->]. done.
  - apply Hguard. intros _. apply Hguard. intros _. by apply Hlast, Vm.qr_action.
  - apply Hguard. intros _. by apply Hlast, Vm.qr_delete.
Qed.

(** C2: nobody exceeds the quota the user service grants.  Whatever requests
    reach the VM service, in whatever order, with whatever headers and bodies,
    and whatever the worker reports short of reviving a deleted machine, the
    machines of a user that are not deleted stay within the largest quota
    granted: in number, in CPUs, in memory and in disk. *)
Theorem http_quota_respected secret q uid s :
  0 <= Vm.uq_maxVms q → 0 <= Vm.uq_maxCpu q → 0 <= Vm.uq_maxRamMb q → 0 <= Vm.uq_maxDiskGb q →
  http_run secret q uid s → Vm.within q uid (Vm.vms s).
Proof.
  intros Q1 Q2 Q3 Q4 Hrun. apply Vm.quota_respected; [done..|].
  induction Hrun as [s Hv Hu|c r b route s _ IH Hid Hq|t d s _ IH Hn]; [by constructor| |by constructor].
  unfold vm_handle. destruct (jwtAuthGuard secret r (Vm.now c)) as [u|e] eqn:Eg.
  - rewrite (guarded_admits _ _ _ _ _ _ Eg). apply quota_operation; auto.
  - by rewrite (guarded_denied _ _ _ _ _ _ Eg).
Qed.
End vm.

(** ** The forwarded password change *)

Section password.
Context {T : Type → Type} `{DatabaseLaws T} {RS : Type} `{Redis RS AuthModel.AuthPayload}.
Context `{Hashing} `{Bcrypt} `{Jwt} `{Timespan} `{Hmac} `{UriCodec}.
Context `{UrlParser} `{AuthHttp.UrlOrigin} `{AuthHttp.JsonText} `{BearerExtractor} `{Dto.StringValidators}.

(** The HTTP answer to an outcome of the auth service; the POST routes answer 201. *)
Definition answer_of {A} (o : outcome A) (text : string) : AuthAnswer :=
  match o with
  | Ret _ => AuthStatus 201 text
  | Throw (HttpException st _) => AuthStatus st text
  | Throw _ => AuthStatus 500 text
  end.

Lemma forwarded_lookup defaults ip r k :
  k ≠ "authorization"%string → k ≠ "content-type"%string →
  headers (forwarded_request defaults ip r) !! k = defaults !! k.
Proof.
  intros H1' H2'. cbn [forwarded_request headers]. unfold forwarded_headers.
  repeat case_match; by rewrite ?lookup_insert_ne by congruence.
Qed.
Lemma forwarded_no_cookie defaults ip r name :
  defaults !! "cookie"%string = None → parseCookie (forwarded_request defaults ip r) name = Ret None.
Proof. intros Hd. unfold parseCookie. by rewrite forwarded_lookup, Hd. Qed.

(** The forwarded request presents the token of the Authorization header or none. *)
Lemma forwarded_token defaults ip r token :
  defaults !! "cookie"%string = None → defaults !! "authorization"%string = None →
  jwtFromRequest (forwarded_request defaults ip r) = Ret (Some token) → jwtFromRequest r = Ret (Some token).
Proof.
  intros Hd Ha. unfold jwtFromRequest at 1. rewrite forwarded_no_cookie by done.
  assert (Hh : headers (forwarded_request defaults ip r) !! "authorization"%string =
    match headers r !! "authorization"%string with
    | Some (HOne v) => if truthy v then Some (HOne v) else None | x => x end).
  { cbn [forwarded_request headers]. unfold forwarded_headers.
    repeat case_match; by rewrite ?lookup_insert_eq, ?lookup_insert_ne by done. }
  rewrite Hh. unfold jwtFromRequest. destruct (headers r !! "authorization"%string) as [[v|l]|]; try done.
  destruct (truthy v); [|done]. by destruct (bearer_token v).
Qed.

Lemma forwarded_denied secret defaults ip r t t' u :
  defaults !! "cookie"%string = None → defaults !! "authorization"%string = None →
  buildRequestFingerprint (forwarded_request defaults ip r) ≠ buildRequestFingerprint r →
  jwtAuthGuard secret r t = Ret u →
  ∃ m, jwtAuthGuard secret (forwarded_request defaults ip r) t' = Throw (UnauthorizedException m).
Proof.
  intros Hd Ha Hfp (token & p & Htok & Hv & Hp & _)%guard_inv. unfold jwtAuthGuard, authenticate.
  destruct (jwtFromRequest (forwarded_request defaults ip r)) as [[token'|]|e] eqn:Ef.
  - apply forwarded_token in Ef; [|done..]. rewrite Htok in Ef. injection Ef as <-.
    destruct (jwt_verify secret token t') as [p'|] eqn:Ev; [|eexists; reflexivity].
    rewrite (jwt_verify_claims _ _ _ _ _ _ Hv Ev). unfold validate.
    rewrite Hp, bool_decide_false by congruence. rewrite orb_true_r. eexists; reflexivity.
  - eexists; reflexivity.
  - exfalso. revert Ef. unfold jwtFromRequest. rewrite forwarded_no_cookie by done. by case_match.
Qed.

(** A password change through the user service never succeeds: the request that
    reaches the auth service carries no cookie, and a token of the
    Authorization header is bound to the fingerprint of the browser, not to the
    one of the user service.  No table of either service changes, and the
    caller is answered 400 or 502. *)
Theorem forwarded_password_refused env cfg secret defaults ip r ca h w cu b us u text :
  defaults !! "cookie"%string = None → defaults !! "authorization"%string = None →
  buildRequestFingerprint (forwarded_request defaults ip r) ≠ buildRequestFingerprint r →
  AuthModel.req ca = forwarded_request defaults ip r → AuthHttp.h_method h = "POST"%string →
  AuthModel.jwtSecret cfg = secret → jwtAuthGuard secret r (User.now cu) = Ret u →
  let answer := AuthHttp.handle_http env cfg ca h AuthHttp.PostPassword w in
  answer.1 = w ∧
  ∃ st m, user_handle (T:=T) secret cu (answer_of answer.2 text) r b PatchPassword us =
            (us, Throw (HttpException st m)) ∧ (st = 400 ∨ st = 502).
Proof.
  intros Hd Ha Hfp Hreq Hm <- Hu. destruct (forwarded_denied _ _ _ _ _ (AuthModel.now ca) _ Hd Ha Hfp Hu) as [msg Hden].
  assert (Hans : ∃ st m, AuthHttp.handle_http (T:=T) (RS:=RS) env cfg ca h AuthHttp.PostPassword w = (w, Throw (HttpException st m)) ∧
    (st = 400 ∨ st = 401)).
  { unfold AuthHttp.handle_http, AuthHttp.hostFilter, AuthHttp.originFilter, AuthHttp.hasSessionCookie, lift.
    rewrite Hreq. rewrite !forwarded_no_cookie by done. m_red.
    rewrite Hm. destruct (Gateway.requestHost _); [case_bool_decide|]; simpl; [|by eauto|];
      destruct (negb (AuthHttp.unsafeMethod h)); simpl;
      unfold AuthHttp.changePassword, AuthHttp.as_user; rewrite Hreq;
      rewrite (guarded_denied _ _ _ _ _ _ Hden); eauto. }
  destruct Hans as (st & m & -> & Hst). split; [done|]. simpl.
  unfold user_handle. rewrite (guarded_admits _ _ _ _ _ _ Hu). cbn [user_operation]. unfold Dto.pipe.
  m_red. destruct (negb _); simpl; [eauto|]. unfold lift, password_answer.
  destruct Hst as [-> | ->]; simpl; eauto.
Qed.
End password.
End RoutesProps.
