(* ===== verification/AuthHttpWitness.v ===== *)
(** * AuthHttpWitness: concrete requests to the auth service

    Sample functions for the parameters of [AuthHttp], a registration, the
    requests of the browser that keeps its cookies, and the runs behind the
    findings about sessions in a browser. *)

From Stdlib Require Import ZArith Lia Ascii String.
From stdpp Require Import base list gmap strings.
From S2P Require Import Prelude Text Js Regex Dto Store Crypto RequestSecurity Cookies Totp.
From S2P Require Import AuthModel AuthSession AuthLogin AuthMfa AuthService AuthWitness Gateway Startup AuthHttp AuthHttpProps.
Import RequestSecurity AuthModel AuthWitness Cookies Startup AuthHttp AuthHttpProps.
#[local] Open Scope Z_scope.

Module AuthHttpWitness.
#[local] Existing Instances sample_hashing sample_bcrypt sample_hmac sample_uri sample_jwt
  sample_timespan.

Fixpoint after_prefix (p s : string) : option string :=
  match p, s with
  | EmptyString, _ => Some s
  | String a p', String b s' => if bool_decide (a = b) then after_prefix p' s' else None
  | _, _ => None
  end.
Definition sample_url : UrlParser := {| url_hostname := λ _, None; url_host := after_prefix "https://" |}.
(** An opaque origin is the text "null". *)
Definition sample_origin : UrlOrigin :=
  {| url_origin := λ s, if starts_with "http" s then Some s
                        else if starts_with "data:" s then Some "null"%string else None |}.
Definition sample_text : JsonText.
Proof.
  refine {| json_text := λ j, match j with Dto.JStr s => s | _ => ""%string end |}. reflexivity.
Defined.
Definition sample_bearer : BearerExtractor.
Proof.
  refine {| bearer_token := after_prefix "Bearer " |}. reflexivity.
Defined.
Definition sample_validators : Dto.StringValidators.
Proof.
  refine {| Dto.is_email := λ s, includes "@" s; Dto.is_uuid := λ s, Nat.eqb (String.length s) 36 |}.
  intros s Hs. by apply Nat.eqb_eq.
Defined.
#[local] Existing Instances sample_url sample_origin sample_text sample_bearer sample_validators.

Definition env0 : Env := λ _, None.
Definition reg_body : Dto.Body :=
  <["email" := Dto.JStr "a@b.tn"]> (<["password" := Dto.JStr "Passw0rd!"]>
  (<["firstName" := Dto.JStr "A"]> (<["lastName" := Dto.JStr "B"]> ∅)))%string.
Definition post (b : Dto.Body) : Http :=
  {| h_method := "POST"; h_secure := true; h_protocol := "https"; h_body := b |}.
Abbreviation W := (Web (gmap string) (gmap string (rvalue AuthPayload * option Z))).
Definition fresh (s : St) : W := {| store := s; set_cookies := [] |}.
Definition c1 : Call := call t0 "1".
Definition w1 : W := (handle_http env0 cfg c1 (post reg_body) PostRegister (fresh empty_state)).1.

Definition reply1 : outcome Reply := (handle_http env0 cfg c1 (post reg_body) PostRegister (fresh empty_state)).2.
(** What the browser keeps. *)
Definition jar1 : Jar := store_cookies t0 true (set_cookies w1) [].
Definition no_auth (r : Request) : Request :=
  {| headers := delete "authorization"%string (headers r); req_ip := req_ip r; remoteAddress := remoteAddress r |}.
Definition request1 : Request := no_auth RequestSecurity.sample_request.


(** The cookies come back and open the account. *)
Definition check1 : bool :=
  match reply1 with
  | Ret r => match session_of r with Some (id, _) => bool_decide (id = "u1"%string) | None => false end
  | Throw _ => false
  end
  && match jget "accessToken" jar1 with Some sc => live_cookie (t0 + 1000) true sc | None => false end.
Lemma check1_ok : check1 = true.
Proof. vm_compute. reflexivity. Qed.

Lemma run1 : ∃ reply id tk,
  handle_http env0 cfg c1 (post reg_body) PostRegister (fresh empty_state) = (w1, Ret reply) ∧
  session_of reply = Some (id, tk) ∧ id = "u1"%string ∧
  ∀ sc, jget "accessToken" jar1 = Some sc → live_cookie (t0 + 1000) true sc = true.
Proof.
  pose proof check1_ok as Hc. unfold check1, reply1 in Hc. apply andb_true_iff in Hc as [Hr Hl].
  destruct (handle_http env0 cfg c1 (post reg_body) PostRegister (fresh empty_state)) as [w [reply|e]] eqn:E;
    cbn [snd] in Hr; [|discriminate Hr].
  destruct (session_of reply) as [[id tk]|] eqn:Es; [|discriminate Hr]. apply bool_decide_eq_true in Hr.
  assert (w = w1) as -> by (unfold w1; rewrite E; reflexivity).
  exists reply, id, tk. split_and!; [done..|]. intros sc Hsc. by rewrite Hsc in Hl.
Qed.
Lemma jar1_ok : jar_ok jar1.
Proof.
  destruct run1 as (reply & id & tk & E & Es & _).
  destruct (handle_opens env0 cfg c1 (post reg_body) PostRegister (fresh empty_state) w1 reply id tk eq_refl E Es)
    as (_ & remember & Hck).
  unfold jar1. rewrite Hck. apply session_jar; [by split; constructor|by left].
Qed.


(** A page of another site posts with the session cookie. *)
Definition evil : string := "https://evil.example"%string.
Definition foreign : Call :=
  {| now := t0; req := {| headers := <["origin" := HOne evil]> (headers (with_cookies (sendable t0 true jar1) request1));
                          req_ip := req_ip request1; remoteAddress := remoteAddress request1 |};
     redisUp := true; syncAnswer := SyncStatus 200; newUserId := "u"; newChallengeId := "ch"; newJti := "j";
     newTokenRowId := "rt"; newAuditId := "au"; randomCode := 123456; random20 := Totp.sample_secret_bytes;
     random32hex := "00ff"; randomRecovery := λ _, []; salt := λ _, "salt"%string |}.


(** The browser logs out. *)
Definition leaving : Call :=
  {| now := t0 + 2000; req := with_cookies (sendable (t0 + 2000) true jar1) request1;
     redisUp := true; syncAnswer := SyncStatus 200; newUserId := "u"; newChallengeId := "ch"; newJti := "j2";
     newTokenRowId := "rt2"; newAuditId := "au"; randomCode := 123456; random20 := Totp.sample_secret_bytes;
     random32hex := "00ff"; randomRecovery := λ _, []; salt := λ _, "salt"%string |}.
Lemma presented (c : Call) (h : Http) (w : W) :
  is_ret (parseCookie (req c) "refreshToken") = true → ∃ t, presented_refresh c h w = (w, Ret t).
Proof.
  unfold presented_refresh, Js.lift. m_red. destruct (parseCookie (req c) "refreshToken"); [|done]. by eexists.
Qed.
Lemma store1 : store w1 = AuthWitness.s1.
Proof. vm_compute. reflexivity. Qed.

Lemma logout_witness :
  ∃ w' r, controller env0 cfg leaving (post ∅) PostLogout (fresh (store w1)) = (w', Ret r) ∧
    jget "accessToken" (store_cookies (t0 + 2000) true (set_cookies w') jar1) = None.
Proof.
  destruct (presented leaving (post ∅) (fresh (store w1))) as [token1 Ht]; [vm_compute; reflexivity|].
  destruct (logout_forgets env0 cfg leaving (post ∅) (fresh (store w1)) token1 jar1 true) as (w' & r & Hc & Hj & _).
  - simpl. rewrite store1. apply s1_wf.
  - reflexivity.
  - exact Ht.
  - exact jar1_ok.
  - left. reflexivity.
  - exists w', r. split; [exact Hc|exact Hj].
Defined.

(** Two tabs that refresh with the same cookie: the second one is taken for a
    thief, and the session that the first one just opened is revoked as well. *)
Definition tab (tag : string) : Call :=
  {| now := t0 + 3000; req := with_cookies (sendable (t0 + 3000) true jar1) request1;
     redisUp := true; syncAnswer := SyncStatus 200; newUserId := "u"; newChallengeId := "ch";
     newJti := "j" +:+ tag; newTokenRowId := "rt" +:+ tag; newAuditId := "au"; randomCode := 123456;
     random20 := Totp.sample_secret_bytes; random32hex := "00ff"; randomRecovery := λ _, [];
     salt := λ _, "salt"%string |}.
Definition refreshing (tag : string) (w : W) : W * outcome Reply :=
  handle_http env0 cfg (tab tag) (post ∅) PostRefresh (fresh (store w)).
Definition first_tab : W * outcome Reply := refreshing "a" w1.
Definition second_tab : W * outcome Reply := refreshing "b" first_tab.1.
Definition two_tabs : bool :=
  is_ret first_tab.2 && negb (is_ret second_tab.2)
  && bool_decide (rows (AuthModel.refreshTokens (store second_tab.1)) = ∅).
Example two_tabs_log_out : two_tabs = true.
Proof. vm_compute. reflexivity. Qed.
End AuthHttpWitness.
