(* ===== verification/RoutesWitness.v ===== *)
(** * RoutesWitness: concrete requests to the user and VM services

    A signed-in student reads the profile, asks for a verification and creates
    a machine; the requests behind the findings about bodies and secrets. *)

From Stdlib Require Import ZArith Lia Ascii String QArith Qround.
From stdpp Require Import base list gmap strings.
From S2P Require Import Prelude Text Js Regex Dto Store Crypto RequestSecurity Cookies.
From S2P Require Import AuthModel VmKeyCrypto Vm Plans Payment User Gateway Startup AuthHttp Routes RoutesProps.
From S2P Require Import UserProps UserWitness VmWitness AuthHttpWitness.
Import RequestSecurity Startup VmKeyCrypto Routes RoutesProps.
#[local] Open Scope Z_scope.

Module RoutesWitness.
#[local] Existing Instances sample_hashing sample_bcrypt sample_uri sample_jwt sample_aead sample_base64
  AuthHttpWitness.sample_bearer AuthHttpWitness.sample_validators.
Definition sample_pipe : UuidPipe := {| parse_uuid := λ s, truthy s |}.
#[local] Existing Instance sample_pipe.

Definition key : string := "access-key"%string.
(** A token of [uid] that is bound to the sample client. *)
Definition token (uid ro : string) : string :=
  jwt_sign key {| c_sub := Some uid; c_email := None; c_role := Some ro;
                  c_fp := Some (buildRequestFingerprint sample_request); c_type := None; c_jti := None;
                  c_vmId := None; c_vmName := None; c_action := None; c_exp := None |} 900 0.
Definition signed (uid ro : string) : Request :=
  {| headers := <["authorization" := HOne ("Bearer " +:+ token uid ro)]> (headers sample_request);
     req_ip := req_ip sample_request; remoteAddress := remoteAddress sample_request |}.
Definition who (uid ro : string) : Identity :=
  {| userId := Some uid; email := None; role := Some ro |}.
Lemma guard_u1 t : t / 1000 < 900 → jwtAuthGuard key (signed "u1" "USER") t = Ret (who "u1" "USER").
Proof.
  intros Ht. unfold jwtAuthGuard.
  assert (jwtFromRequest (signed "u1" "USER") = Ret (Some (token "u1" "USER"))) as -> by (vm_compute; reflexivity).
  unfold authenticate, token. rewrite jwt_verify_sign by exact Ht. vm_compute. reflexivity.
Qed.

(** ** The user service *)

Definition asked : User.UserState (gmap string) * outcome UserReply :=
  user_handle key (UserWitness.call 3) (AuthUnreachable "") (signed "u1" "USER") ∅ PostStudentRequest UserWitness.s3.
Lemma user_isolated_witness :
  own_account_only "u1" "v1" UserWitness.s3 asked.1 ∧ is_ret asked.2 = true.
Proof.
  split; [|vm_compute; reflexivity].
  pose proof (user_requests_isolated key (UserWitness.call 3) (AuthUnreachable "") (signed "u1" "USER") ∅
    PostStudentRequest UserWitness.s3 asked.1 asked.2 (surjective_pairing _)) as Hi.
  rewrite (guard_u1 (User.now (UserWitness.call 3))) in Hi by (vm_compute; reflexivity).
  apply Hi. discriminate.
Defined.

(** ** The VM service *)

Definition vm_body : Dto.Body :=
  <["name" := Dto.JStr "web"]> (<["cpu" := Dto.JNum 1]> (<["ramMb" := Dto.JNum 1024]>
  (<["diskGb" := Dto.JNum 10]> (<["osTemplate" := Dto.JStr "ubuntu"]> ∅))))%string.
Definition created : Vm.VmState (gmap string) * outcome VmReply :=
  vm_handle key (VmWitness.call 1000 "v1" true) (signed "u1" "USER") vm_body PostVm VmWitness.empty_state.

Lemma vm_isolated_witness :
  own_machines_only "u1" "v1" VmWitness.empty_state created.1 ∧ length (reply_machines created.2) = 1%nat.
Proof.
  split; [|vm_compute; reflexivity].
  pose proof (vm_requests_isolated key (VmWitness.call 1000 "v1" true) (signed "u1" "USER") vm_body PostVm
    VmWitness.empty_state created.1 created.2 (surjective_pairing _)) as Hi.
  rewrite (guard_u1 (Vm.now (VmWitness.call 1000 "v1" true))) in Hi by (vm_compute; reflexivity).
  apply Hi. discriminate.
Defined.

Lemma http_quota_witness : Vm.within VmWitness.small "u1" (Vm.vms created.1) ∧ is_ret created.2 = true.
Proof.
  split; [|vm_compute; reflexivity].
  apply (http_quota_respected key VmWitness.small "u1"); [simpl; lia..|].
  apply hr_request; [apply hr_init; reflexivity|reflexivity|]. intros u Hu _.
  rewrite (guard_u1 (Vm.now (VmWitness.call 1000 "v1" true))) in Hu by (vm_compute; reflexivity).
  injection Hu as <-. split; [discriminate|]. intros st x q' Hq Hx. simpl in Hq. injection Hq as <- <-.
  simpl in Hx. injection Hx as <-. unfold Vm.quota_le. lia.
Defined.


(** ** Findings *)

(** A null where a property may be missing passes the validation; renaming a
    university or a profile with it is answered 500. *)
Definition server_error {A} (o : outcome A) : bool :=
  match o with Throw (JsError _) => true | _ => false end.
Definition null_name : outcome UserReply :=
  (user_handle key (UserWitness.call 3) (AuthUnreachable "") (signed "root" "ADMIN")
     {[ "name" := Dto.JNull ]} (PatchUniversity "n1") UserWitness.s3).2.
Definition null_first : outcome UserReply :=
  (user_handle key (UserWitness.call 3) (AuthUnreachable "") (signed "u1" "USER")
     {[ "firstName" := Dto.JNull ]} PatchProfile UserWitness.s3).2.
Example null_is_server_error : server_error null_name = true ∧ server_error null_first = true.
Proof. split; vm_compute; reflexivity. Qed.

(** A plan of half a machine passes the validation of [UpdatePlanDto] and is
    refused by the integer column. *)
Example half_a_machine_passes :
  Dto.validate Dto.UpdatePlanDto {[ "maxVms"%string := Dto.JNum (3 # 2) ]} = true ∧
  storable_patch {[ "maxVms"%string := Dto.JNum (3 # 2) ]} = false.
Proof. split; vm_compute; reflexivity. Qed.

(** A secret with a space in front: every service starts, and the user, VM and
    payment services check tokens with another secret than the auth service
    signs them with. *)
Definition spaced_env : Env := λ k,
  if bool_decide (k = "JWT_SECRET"%string) then Some (" " +:+ str (replicate 64 "k"%char))
  else if bool_decide (k = "JWT_REFRESH_SECRET"%string) then Some (str (replicate 64 "r"%char)) else None.
Definition secret_of (o : outcome Service) : option string :=
  match o with Ret sv => Some (sv_secret sv) | Throw _ => None end.
Example spaced_secret_splits_services :
  secret_of (bootstrap_auth spaced_env) = Some (" " +:+ str (replicate 64 "k"%char)) ∧
  secret_of (bootstrap_user spaced_env) = Some (str (replicate 64 "k"%char)).
Proof. split; vm_compute; reflexivity. Qed.
End RoutesWitness.
