(* ===== verification/AiChat.v ===== *)
(** * AiChat: the routes of the assistant

    services/ai/src/ai/ai.controller.ts and ai-chat.gateway.ts: the HTTP routes
    behind the JWT guard, the event stream, and the /ai-chat WebSocket with its
    rate limit.  [handle] is one request of any kind. *)

From Stdlib Require Import ZArith Lia Ascii String.
From stdpp Require Import base list gmap sets strings pretty.
From S2P Require Import Prelude Text Js Regex Store Crypto RequestSecurity Sockets Ai.
Import RequestSecurity Sockets Ai.
#[local] Open Scope Z_scope.

Module AiChat.

(** [content.split(/(\s+)/).filter(Boolean)]: the runs of white space and of
    other characters. *)
Fixpoint ws_runs (l : list ascii) : list (list ascii) :=
  match l with
  | [] => []
  | c :: l' =>
      match ws_runs l' with
      | (d :: r) :: rs =>
          if Bool.eqb (is_ws c) (is_ws d) then (c :: d :: r) :: rs else [c] :: (d :: r) :: rs
      | rs => [c] :: rs
      end
  end.
Definition stream_tokens (content : string) : list string := str <$> ws_runs (chars content).

(** ** POST /ai/chat/stream *)

Record Meta := { mt_conversationId : string; mt_messageId : string; mt_provider : option string;
                 mt_model : option string; mt_pendingAction : option PendingAction }.
Definition meta_of (r : ChatResult) : Meta :=
  {| mt_conversationId := rs_conversationId r; mt_messageId := (rs_message r).1;
     mt_provider := ms_provider (rs_message r).2; mt_model := ms_model (rs_message r).2;
     mt_pendingAction := rs_pendingAction r |}.
Inductive Frame :=
| FMeta (m : Meta)
| FChunk (token : string)
| FDone
| FError (text : string).

Section routes.
Context {T : Type → Type} `{Database T} `{Jwt, Hashing, UriCodec}.

Definition streamChat (c : Call) (u : CurrentUser) (dto : ChatRequestDto) : M (State T) (list Frame) :=
  try_catch
    (result ← chat c u dto;
     mret ([FMeta (meta_of result)]
           ++ (FChunk <$> stream_tokens (ms_content (rs_message result).2)) ++ [FDone]))
    (λ _, mret [FError "Streaming failed"]).

(** ** The WebSocket *)

Record AiChatPayload := {
  p_requestId : option string; p_message : option string; p_conversationId : option string;
  p_includeContext : option bool; p_images : option (list string);
}.
Inductive Emitted :=
| EError (requestId text : string)
| EMeta (requestId : string) (m : Meta)
| EChunk (requestId token : string)
| EDone (requestId : string)
| EDisconnect.

Record EventWindow := { ew_start : Z; ew_count : Z }.
Definition maxEventsPerSecond : Z := 2.

Record Gw := {
  service : State T;
  eventRateWindowStats : gmap string EventWindow;
  socket_users : gmap string CurrentUser;
  emitted : list (string * Emitted);
}.
Definition set_service x (s : Gw) : Gw :=
  {| service := x; eventRateWindowStats := eventRateWindowStats s; socket_users := socket_users s;
     emitted := emitted s |}.
Definition set_windows x (s : Gw) : Gw :=
  {| service := service s; eventRateWindowStats := x; socket_users := socket_users s;
     emitted := emitted s |}.
Definition set_users x (s : Gw) : Gw :=
  {| service := service s; eventRateWindowStats := eventRateWindowStats s; socket_users := x;
     emitted := emitted s |}.
Definition emit (id : string) (e : Emitted) : M Gw unit :=
  modify (λ s, {| service := service s; eventRateWindowStats := eventRateWindowStats s;
                  socket_users := socket_users s; emitted := emitted s ++ [(id, e)] |}).

(** The claims that the source's type of a payload requires. *)
Definition user_of (p : Claims) : option CurrentUser :=
  sub ← c_sub p; mail ← c_email p; role ← c_role p;
  Some {| cu_userId := sub; cu_email := mail; cu_role := role |}.

Definition handleConnection (c : Call) (sock : TSocket) : M Gw unit :=
  match handshakeToken sock with
  | Ret (Some token) =>
      match verifyBound (env_or (env c) "JWT_SECRET" "") false (now c) sock token ≫= user_of with
      | Some u => modify (λ s, set_users (<[socket_id sock := u]> (socket_users s)) s)
      | None => emit (socket_id sock) EDisconnect
      end
  | _ => emit (socket_id sock) EDisconnect
  end.

(** The socket is gone and its data with it. *)
Definition handleDisconnect (id : string) : M Gw unit :=
  modify (λ s, set_windows (delete id (eventRateWindowStats s)) s);;
  modify (λ s, set_users (delete id (socket_users s)) s).

Definition allowEventRate (t : Z) (id : string) : M Gw bool :=
  current ← gets (λ s, eventRateWindowStats s !! id);
  let write w := modify (λ s, set_windows (<[id := w]> (eventRateWindowStats s)) s) in
  match current with
  | Some w =>
      if 1000 <=? t - ew_start w then write {| ew_start := t; ew_count := 1 |};; mret true
      else write {| ew_start := ew_start w; ew_count := ew_count w + 1 |};;
           mret (ew_count w + 1 <=? maxEventsPerSecond)
  | None => write {| ew_start := t; ew_count := 1 |};; mret true
  end.

Fixpoint emit_all (id : string) (es : list Emitted) : M Gw unit :=
  match es with
  | [] => mret tt
  | e :: es' => emit id e;; emit_all id es'
  end.

Definition handleAiChat (c : Call) (id : string) (p : AiChatPayload) : M Gw unit :=
  let requestId := opt_or (p_requestId p) (newRequestId c) in
  u ← gets (λ s, socket_users s !! id);
  match u, p_message p ≫= nonempty with
  | None, _ => emit id (EError requestId "Unauthorized socket session")
  | Some _, None => emit id (EError requestId "Message is required")
  | Some u, Some text =>
      allowed ← allowEventRate (now c) id;
      if negb allowed then
        emit id (EError requestId "Too many chat messages. Maximum 2 messages per second.");;
        emit id EDisconnect
      else
        try_catch
          (result ← zoom service set_service (chat c u
             {| message := text; conversationId := p_conversationId p;
                includeContext := p_includeContext p; history := None; images := p_images p |});
           emit_all id ([EMeta requestId (meta_of result)]
             ++ (EChunk requestId <$> stream_tokens (ms_content (rs_message result).2))
             ++ [EDone requestId]))
          (λ e, emit id (EError requestId (exn_message e)))
  end.

(** ** All requests *)

Inductive Request :=
| HCreate (u : CurrentUser) (title : option string)
| HChat (u : CurrentUser) (dto : ChatRequestDto)
| HStream (u : CurrentUser) (dto : ChatRequestDto)
| HConfirm (u : CurrentUser) (dto : ConfirmActionDto)
| WsConnect (sock : TSocket)
| WsDisconnect (id : string)
| WsChat (id : string) (p : AiChatPayload).

Definition handle (c : Call) (r : Request) : M Gw unit :=
  match r with
  | HCreate u title => zoom service set_service (createConversation c u title);; mret tt
  | HChat u dto => zoom service set_service (chat c u dto);; mret tt
  | HStream u dto => zoom service set_service (streamChat c u dto);; mret tt
  | HConfirm u dto => zoom service set_service (confirmAction c u dto);; mret tt
  | WsConnect sock => handleConnection c sock
  | WsDisconnect id => handleDisconnect id
  | WsChat id p => handleAiChat c id p
  end.
Definition run (reqs : list (Call * Request)) (s : Gw) : Gw :=
  foldl (λ s cr, (handle cr.1 cr.2 s).1) s reqs.
End routes.
Arguments Gw T : clear implicits.
End AiChat.
