(* ===== verification/AiProps.v ===== *)
(** * AiProps: what the assistant keeps apart, records and executes *)

From Stdlib Require Import ZArith Lia Ascii String.
From stdpp Require Import base list gmap sets strings pretty.
From S2P Require Import Prelude Text Js Regex Store Crypto RequestSecurity Sockets Ai AiChat.
Import RequestSecurity Sockets Ai AiChat.
#[local] Open Scope Z_scope.

Module AiProps.

(** ** Machine identifiers *)

Definition is_hex (c : ascii) : Prop :=
  48 <= code c <= 57 ∨ 65 <= code c <= 70 ∨ 97 <= code c <= 102.
#[local] Instance is_hex_dec c : Decision (is_hex c).
Proof. unfold is_hex. apply _. Defined.
(** 36 characters, dashes after the 8th, 12th, 16th and 20th hexadecimal digit. *)
Definition uuid_shaped (s : string) : Prop :=
  length (chars s) = 36%nat ∧
  ∀ i c, chars s !! i = Some c → if decide (i ∈ [8; 13; 18; 23]%nat) then c = "-"%char else is_hex c.

Lemma hex_class c :
  is_digit c || ((97 <=? code c) && (code c <=? 102)) || ((65 <=? code c) && (code c <=? 70)) = true →
  is_hex c.
Proof. unfold is_digit, is_hex. rewrite !orb_true_iff, !andb_true_iff, !Z.leb_le. lia. Qed.

Lemma variant_hex c : c ∈ ["8"; "9"; "a"; "b"; "A"; "B"]%char → is_hex c.
Proof.
  intros Hc. repeat apply elem_of_cons in Hc as [->|Hc]; try by apply elem_of_nil in Hc.
  all: refine (bool_decide_unpack (is_hex _) _); vm_compute; exact I.
Qed.

Lemma uuid_spec s : Regex.test (Regex.anchored uuid) s = true → uuid_shaped s.
Proof.
  rewrite Regex.anchored_spec. unfold uuid. cbn [Regex.seqs foldr]. intros Hm.
  do 11 (apply Regex.Seq_inv in Hm as (? & ? & Hm)). apply Regex.Eps_inv in Hm.
  repeat match goal with
  | Hr : Regex.matches _ (Regex.Rep _ hex) _ _ |- _ => apply Regex.Rep_spec in Hr as [-> Hr]
  | Hr : Regex.matches _ dash _ _ |- _ => apply Regex.Class_spec in Hr as (-> & ? & ? & ?%bool_decide_eq_true)
  | Hr : Regex.matches _ (Regex.Class _) _ _ |- _ => apply Regex.Class_spec in Hr as (-> & ? & ? & ?)
  end. simpl in *. subst. split; [done|]. intros i c Hc.
  destruct (decide (i ∈ _)) as [Hi|Hi].
  - repeat apply elem_of_cons in Hi as [->|Hi]; try congruence. by apply elem_of_nil in Hi.
  - apply lookup_lt_Some in Hc as Hlt.
    assert (Hn : (i ≠ 8 ∧ i ≠ 13 ∧ i ≠ 18 ∧ i ≠ 23)%nat) by set_solver.
    destruct (decide (i = 14%nat)) as [->|N14]; [|destruct (decide (i = 19%nat)) as [->|N19]].
    + simplify_eq.
      match goal with Hv : _ && _ = true |- _ => apply andb_true_iff in Hv; rewrite !Z.leb_le in Hv end.
      unfold is_hex. lia.
    + simplify_eq. apply variant_hex. by eapply bool_decide_eq_true.
    + enough (∃ d, chars s !! i = Some d ∧ is_hex d) by naive_solver.
      assert (Hi5 : (i < 8 ∨ 9 ≤ i < 13 ∨ 15 ≤ i < 18 ∨ 20 ≤ i < 23 ∨ 24 ≤ i < 36)%nat) by lia.
      destruct_or! Hi5;
      match goal with
      | Hr : ∀ k, (_ ≤ k < _)%nat → @?P k |- _ =>
          destruct (Hr i ltac:(lia)) as (d & Hd & Hh%hex_class); by eauto
      end.
Qed.

(** ** One request of a user *)

Section request.
Context {T : Type → Type} `{DatabaseLaws T} `{Jwt}.
Abbreviation St := (State T).
Implicit Types (s : St) (u : CurrentUser).

Definition owns (u : CurrentUser) (id : string) (s : St) : Prop :=
  ∃ cv, rows (conversations s) !! id = Some cv ∧ cv_userId cv = cu_userId u.

(** Where a message of a prompt comes from: the service's own preamble, the
    history the client sent, or a stored message of a conversation of the user,
    stored before the request or by it. *)
Inductive prompt_source (c : Call) (u : CurrentUser) (hist : option (list ChatMessageDto)) (s0 : St)
    : ProviderMessage → Prop :=
| from_service x b m : pm_content m = pm_content (systemMessage u x b) → prompt_source c u hist s0 m
| from_client h item m : hist = Some h → item ∈ h → pm_content m = js_trim (cm_content item) →
    prompt_source c u hist s0 m
| from_store id msg m : (owns u (ms_conversationId msg) s0 ∨ ms_conversationId msg = newConversationId c) →
    (rows (messages s0) !! id = Some msg ∨ id ∈ [newMessageId c; newAnswerId c]) →
    pm_content m = ms_content msg → prompt_source c u hist s0 m.

(** What the request has done so far to the state it found; [V] says which
    actions it may have asked of the VM service. *)
Record progress (c : Call) (u : CurrentUser) (hist : option (list ChatMessageDto))
    (V : VmRequest → Prop) (s0 s : St) : Prop := {
  pg_conv k : rows (conversations s) !! k = rows (conversations s0) !! k ∨
              k = newConversationId c ∧ owns u k s;
  pg_new k m : rows (messages s) !! k = Some m → rows (messages s0) !! k = Some m ∨
               k ∈ [newMessageId c; newAnswerId c] ∧ owns u (ms_conversationId m) s;
  pg_keep k m : rows (messages s0) !! k = Some m → k ∉ [newMessageId c; newAnswerId c] →
                rows (messages s) !! k = Some m;
  pg_vm : ∃ l, vmRequests s = vmRequests s0 ++ l ∧ Forall V l;
  pg_prompt : ∃ l, providerRequests s = providerRequests s0 ++ l ∧
                Forall (λ r, Forall (prompt_source c u hist s0) (pr_messages r)) l;
}.

Lemma progress_refl c u hist V s : progress c u hist V s s.
Proof.
  split; [intros k; by left|intros k m; by left|done|..]; exists []; by rewrite app_nil_r.
Qed.

Lemma progress_owns c u hist V s0 s id :
  progress c u hist V s0 s → owns u id s → owns u id s0 ∨ id = newConversationId c.
Proof.
  intros Hp (cv & Hcv & Hu). destruct (pg_conv _ _ _ _ _ _ Hp id) as [E|[-> _]]; [|by right].
  left. exists cv. by rewrite <-E.
Qed.

Section steps.
Context (c : Call) (u : CurrentUser) (hist : option (list ChatMessageDto)) (V : VmRequest → Prop).
Context (s0 : St).
Abbreviation I := (progress c u hist V s0).
(** While the providers are asked, the conversation stays the user's. *)
Abbreviation J id := (λ s, I s ∧ owns u id s).

Lemma focus {A} id (m : M St A) :
  triple (J id) (λ _, True) m (λ _ _, True) → triple I (owns u id) m (λ _ s, owns u id s).
Proof.
  intros Hm s Hp Ho. specialize (Hm s (conj Hp Ho) Logic.I). destruct (m s) as [s' [a|e]]; naive_solver.
Qed.

Lemma new_conversation_spec title :
  triple I (λ _, True) (insert_conversation c (cu_userId u) title) (λ kc s, owns u kc.1 s).
Proof.
  intros s Hp _. simpl.
  set (s' := (insert_conversation c (cu_userId u) title s).1).
  assert (Hnew : owns u (newConversationId c) s').
  { unfold owns. simpl. rewrite rows_put, lookup_insert_eq. eauto. }
  assert (Hown : ∀ id, owns u id s → owns u id s').
  { intros id (cv & Hcv & Hu). destruct (decide (id = newConversationId c)) as [->|Hne]; [done|].
    exists cv. simpl. by rewrite rows_put, lookup_insert_ne. }
  split; [|done]. destruct Hp as [Hc Hn Hk Hv Hpr]. split; simpl; [|naive_solver..].
  intros k. destruct (decide (k = newConversationId c)) as [->|Hne]; [by right|].
  rewrite rows_put, lookup_insert_ne by done. destruct (Hc k) as [E|[-> ?]]; [by left|done].
Qed.

Lemma owner_spec id P :
  triple I P (ensureConversationOwner id (cu_userId u)) (λ kc s, P s ∧ owns u kc.1 s ∧ kc.1 = id).
Proof.
  intros s Hp HP. unfold ensureConversationOwner. m_red.
  destruct (find_first _ _) as [[k cv]|] eqn:E; [|done]. simpl.
  apply find_first_Some in E as [Hk [?%bool_decide_eq_true ?%bool_decide_eq_true]%andb_true_iff].
  subst. split_and!; [done..|by exists cv|done].
Qed.

(** A message is stored in a conversation of the user. *)
Lemma message_spec id m :
  id ∈ [newMessageId c; newAnswerId c] →
  triple I (owns u (ms_conversationId m)) (create_message id m)
    (λ km s, owns u (ms_conversationId m) s).
Proof.
  intros Hid s Hp Ho. unfold create_message. case_match; [|done]. simpl.
  split; [|done]. destruct Hp as [Hc Hn Hk Hv Hpr]. split; simpl; [done| | |done..].
  - intros k m'. rewrite rows_put, lookup_insert_Some. intros [[<- <-]|[_ Hm]]; [by right|auto].
  - intros k m' Hm Hnew. rewrite rows_put, lookup_insert_ne; [auto|]. set_solver.
Qed.

Ltac stored :=
  match goal with |- triple _ _ (create_message ?i ?m) _ => apply (message_spec i m); set_solver end.

(** Asking a provider. *)
Lemma prompt_spec id r :
  Forall (prompt_source c u hist s0) (pr_messages r) →
  triple (J id) (λ _, True) (send_prompt c r) (λ _ _, True).
Proof.
  intros Hr s [[Hc Hn Hk Hv (l & Hl & Hf)] Hs] _. simpl. split; [|done]. split; [|done].
  split; simpl; [done..|]. exists (l ++ [r]). rewrite Hl, <-app_assoc. split; [done|].
  apply Forall_app. by repeat constructor.
Qed.

(** Providers change how images are written, not the texts. *)
Lemma source_text m m' :
  pm_content m' = pm_content m → prompt_source c u hist s0 m → prompt_source c u hist s0 m'.
Proof.
  intros E Hm. destruct Hm as [x b m Hx|h item m Hh Hi Hx|id msg m Ho Hr Hx]; rewrite <-E in Hx;
    [by eapply from_service|by eapply from_client|by eapply from_store].
Qed.

Lemma sources_fmap f ms :
  (∀ m, pm_content (f m) = pm_content m) →
  Forall (prompt_source c u hist s0) ms → Forall (prompt_source c u hist s0) (f <$> ms).
Proof. intros Hf Hms. apply Forall_fmap. eapply Forall_impl; [exact Hms|]. intros m. by apply source_text. Qed.

Lemma sources_images images ms :
  Forall (prompt_source c u hist s0) ms → Forall (prompt_source c u hist s0) (attach_images images ms).
Proof.
  intros Hms. unfold attach_images. case_match; [done|]. apply Forall_reverse.
  apply Forall_reverse in Hms. induction Hms as [|m ms' Hm Hms IH]; simpl; [done|].
  case_match; constructor; try done. by eapply source_text; [|exact Hm].
Qed.

Lemma completion_spec id p e mo b :
  triple (J id) (λ _, True) (completion_of (T:=T) p e mo b) (λ _ _, True).
Proof. intros s Hs _. unfold completion_of. by case_match. Qed.

Lemma provider_spec id p ms :
  Forall (prompt_source c u hist s0) ms →
  triple (J id) (λ _, True) (provider_chat c p ms) (λ _ _, True).
Proof.
  intros Hms. destruct p; simpl.
  - unfold ollama_chat. case_match; [apply triple_throw|].
    eapply triple_bind; [apply prompt_spec; simpl|].
    { apply sources_fmap; [|done]. intros m. unfold ollama_message. by case_match. }
    intros []; try apply triple_throw. apply completion_spec.
  - unfold openrouter_chat. case_match; [apply triple_throw|].
    eapply triple_bind; [apply prompt_spec; simpl; by apply sources_fmap|].
    intros []; try apply triple_throw. apply completion_spec.
Qed.

Lemma providers_spec id ms ps errors :
  Forall (prompt_source c u hist s0) ms →
  triple (J id) (λ _, True) (try_providers c ms ps errors) (λ _ _, True).
Proof.
  intros Hms. revert errors. induction ps as [|p ps IH]; intros errors; simpl; [apply triple_skip|].
  apply triple_try; [|auto].
  eapply triple_bind; [by apply provider_spec|]. intros r. apply triple_skip.
Qed.

Lemma generate_spec id ms b :
  Forall (prompt_source c u hist s0) ms →
  triple I (owns u id) (generateCompletion c ms b) (λ _ s, owns u id s).
Proof.
  intros Hms. apply focus. unfold generateCompletion.
  destruct (List.filter _ _) as [|p ps]; [apply triple_throw|].
  eapply triple_bind; [by apply providers_spec|]. intros [r|errors]; [apply triple_skip|].
  repeat case_match; try apply triple_skip; apply triple_throw.
Qed.

Lemma build_spec id inc x images b :
  triple I (owns u id)
    (buildPromptMessages u id hist inc x images b)
    (λ ms s, owns u id s ∧ Forall (prompt_source c u hist s0) ms).
Proof.
  intros s Hp Ho. unfold buildPromptMessages.
  assert (Hctx : ∀ ms, Forall (prompt_source c u hist s0) ms →
    Forall (prompt_source c u hist s0) (attach_images images
      (if (inc : bool) then systemMessage u x b :: ms else ms))).
  { intros ms Hms. apply sources_images. case_match; [|done]. constructor; [|done].
    by apply (from_service _ _ _ _ x b). }
  destruct hist as [[|h hs]|] eqn:Eh; simpl; split; try done; split; try done; apply Hctx.
  2: { unfold merged. apply Forall_forall. intros m. rewrite list_elem_of_In, filter_In.
       intros [Hin _]. apply list_elem_of_In, list_elem_of_fmap in Hin as (item & -> & Hin).
       eapply from_client; [done| |done]. apply list_elem_of_lookup in Hin as [i Hi].
       rewrite lookup_drop in Hi. by eapply list_elem_of_lookup_2. }
  all: apply Forall_fmap, Forall_forall; intros [k m] Hin;
       apply elem_of_take in Hin as (i & Hin%list_elem_of_lookup_2 & _);
       apply elem_of_select_desc in Hin as [Hk Hm%bool_decide_eq_true];
       apply (from_store _ _ _ _ k m); [|by destruct (pg_new _ _ _ _ _ _ Hp k m Hk) as [?|[? _]]; auto|done];
       rewrite Hm; by eapply progress_owns.
Qed.

Lemma context_reads s : (fetchAppContext c u s).1 = s.
Proof.
  unfold fetchAppContext, lift. m_red. repeat case_match; by simplify_eq/=.
Qed.

Lemma resolve_spec dto :
  triple I (λ _, True) (resolveConversationId c (cu_userId u) dto) (λ id s, owns u id s).
Proof.
  unfold resolveConversationId. destruct (conversationId dto ≫= nonempty) as [id|].
  - eapply triple_bind; [apply owner_spec|]. intros [k cv] s Hp (_ & Ho & _). done.
  - eapply triple_bind; [apply new_conversation_spec|]. intros [k cv] s Hp Ho. done.
Qed.

Lemma answer_spec id text p mo :
  triple I (owns u id) (answer c id text p mo) (λ _ s, owns u id s).
Proof. unfold answer. stored. Qed.

Lemma chat_progress dto :
  history dto = hist → triple I (λ _, True) (chat c u dto) (λ r s, owns u (rs_conversationId r) s).
Proof.
  intros Hh. unfold chat. eapply triple_bind; [apply resolve_spec|]. intros id.
  eapply triple_bind; [apply triple_reads, context_reads|]. intros x.
  eapply triple_bind; [by apply triple_reads|]. intros pa.
  eapply triple_bind; [stored|]. intros km. cbn beta. clear km. cbn [ms_conversationId user_message].
  unfold respond. rewrite Hh.
  assert (Hanswer : ∀ text p mo pa', triple I (owns u id)
    (m ← answer c id text p mo;
     mret {| rs_conversationId := id; rs_message := m; rs_pendingAction := pa' |})
    (λ r s, owns u (rs_conversationId r) s)).
  { intros text p mo pa'. eapply triple_bind; [apply answer_spec|]. intros m s Hp Ho. done. }
  destruct pa as [pa|]; [apply Hanswer|]. case_match; [apply Hanswer|].
  eapply triple_bind; [apply build_spec|]. intros ms.
  apply triple_pure. intros Hms. eapply triple_bind; [by apply generate_spec|].
  intros r. apply Hanswer.
Qed.
End steps.

(** ** Confirmed actions *)

(** The user presented a confirmation token that verifies and is theirs; the
    machine and the action are the ones it names. *)
Record confirmed (c : Call) (u : CurrentUser) (dto : ConfirmActionDto) (v : VmRequest) : Prop := {
  cf_secret : truthy (actionConfirmSecret (env c)) = true;
  cf_token : ∃ payload,
    jwt_verify (actionConfirmSecret (env c)) (confirmationToken dto) (now c) = Some payload ∧
    c_sub payload = Some (cu_userId u) ∧ c_vmId payload = Some (vr_vmId v) ∧
    c_action payload = Some (vr_action v);
  cf_uuid : uuid_shaped (vr_vmId v);
  cf_action : vr_action v ∈ ["start"; "stop"; "restart"]%string;
  cf_bearer : createInternalToken (default "" (env c "JWT_SECRET"%string)) (identity u) (now c)
              = Ret (vr_token v);
}.

Lemma validate_spec vmId action userId expected :
  validateStructuredAction vmId action userId expected = Ret tt ↔
  Regex.test (Regex.anchored uuid) vmId = true ∧ action ∈ allowedActions ∧ userId = expected.
Proof.
  unfold validateStructuredAction. destruct (Regex.test _ _); simpl; [|naive_solver].
  repeat case_bool_decide; simpl; naive_solver.
Qed.

Lemma shown_uuid o : Regex.test (Regex.anchored uuid) (shown o) = true → o = Some (shown o).
Proof. destruct o; [done|]. intros [Hl _]%uuid_spec. by vm_compute in Hl. Qed.

Lemma shown_action o : shown o ∈ allowedActions → o = Some (shown o).
Proof. destruct o; [done|]. intros Hs. unfold allowedActions in Hs. set_solver. Qed.

Lemma log_progress c u hist (V : VmRequest → Prop) s0 s v :
  progress c u hist V s0 s → V v → progress c u hist V s0 (log_vm v s).
Proof.
  intros [Hc Hn Hk (l & Hl & Hf) Hpr] Hv. split; simpl; [done..| |done].
  exists (l ++ [v]). rewrite Hl, <-app_assoc. split; [done|]. apply Forall_app. by repeat constructor.
Qed.

Lemma execute_progress c u hist (V : VmRequest → Prop) s0 conv name v :
  V v → triple (progress c u hist V s0) (λ _, True) (executeAction c u conv name v) (λ _ _, True).
Proof.
  intros Hv. unfold executeAction.
  apply (triple_bind _ _ _ _ (λ _ _, True)); [intros s Hp _; split; [by apply log_progress|done]|].
  intros [].
  destruct (vmActionAnswer c v) as [|? ?|r|]; try apply triple_throw.
  eapply (triple_bind _ _ _ _ (λ _ _, True)); [|intros; apply triple_skip].
  destruct (conv ≫= nonempty) as [id|]; [|apply triple_skip].
  eapply triple_bind; [apply (owner_spec c u hist V s0 id (λ _, True))|]. intros [k cv].
  apply (triple_weaken _ (owns u id) _ _ (λ _ _, True));
    [|intros s (_ & Ho & E); simpl in E; by subst k|done].
  match goal with |- triple _ _ (create_message ?i ?m ≫= _) _ =>
    eapply triple_bind; [apply (message_spec c u hist V s0 i m); set_solver|] end.
  intros km s Hp _. done.
Qed.

(** A confirmation that gets as far as the VM service. *)
Lemma confirmation_cases c u dto s :
  (∃ e, confirmAction c u dto s = (s, Throw e)) ∨
  ∃ v name, confirmed c u dto v ∧
    confirmAction c u dto s = executeAction c u (cf_conversationId dto) name v s.
Proof.
  unfold confirmAction, lift. m_red.
  destruct (truthy (actionConfirmSecret (env c))) eqn:Es; simpl; [|by eauto].
  destruct (jwt_verify _ _ _) as [p|] eqn:Ep; [|by eauto].
  destruct (bool_decide (c_sub p = Some (cu_userId u))) eqn:Eu; simpl; [|by eauto].
  apply bool_decide_eq_true in Eu.
  destruct (validateStructuredAction _ _ _ _) as [[]|] eqn:Ev; [|by eauto].
  apply validate_spec in Ev as (Hid & Hact & _).
  destruct (createInternalToken _ _ _) as [tok|] eqn:Et; [|by eauto].
  right. eexists _, _. split; [|done]. split; simpl; [done| |by apply uuid_spec|done|done].
  exists p. split_and!; [done..|by apply shown_uuid|by apply shown_action].
Qed.

Lemma confirm_progress c u hist s0 dto :
  triple (progress c u hist (confirmed c u dto) s0) (λ _, True) (confirmAction c u dto) (λ _ _, True).
Proof.
  intros s Hp _. destruct (confirmation_cases c u dto s) as [[e ->]|(v & name & Hv & ->)]; [done|].
  by apply execute_progress.
Qed.
End request.

(** ** Routes *)

Section routes.
Context {T : Type → Type} `{DatabaseLaws T} `{Jwt, Hashing, UriCodec}.
Implicit Types (s : Gw T) (u : CurrentUser).

(** The user on whose behalf a request runs, and the history it brings along. *)
Definition requester (r : Request) (s : Gw T) : option CurrentUser :=
  match r with
  | HCreate u _ | HChat u _ | HStream u _ | HConfirm u _ => Some u
  | WsChat id _ => socket_users s !! id
  | WsConnect _ | WsDisconnect _ => None
  end.
Definition history_of (r : Request) : option (list ChatMessageDto) :=
  match r with HChat _ dto | HStream _ dto => history dto | _ => None end.
Definition may_act (c : Call) (r : Request) (v : VmRequest) : Prop :=
  match r with HConfirm u dto => confirmed c u dto v | _ => False end.

Lemma zoom_service {A} (m : M (State T) A) s :
  (zoom service set_service m s).1 = set_service (m (service s)).1 s.
Proof. unfold zoom. by destruct (m (service s)). Qed.

Lemma emit_service id es s :
  service (emit_all id es s).1 = service s ∧ (emit_all id es s).2 = Ret tt.
Proof.
  revert s. induction es as [|e es IH]; intros s; [done|]. cbn [emit_all].
  exact (IH (emit id e s).1).
Qed.

Lemma rate_service t id s :
  ∃ s' b, allowEventRate t id s = (s', Ret b) ∧ service s' = service s ∧ socket_users s' = socket_users s.
Proof. unfold allowEventRate. m_red. repeat case_match; simpl; eauto. Qed.

Lemma stream_progress c u V st dto :
  triple (progress c u (history dto) V st) (λ _, True) (streamChat c u dto) (λ _ _, True).
Proof.
  unfold streamChat. apply triple_try; [|intros e; apply triple_skip].
  eapply triple_bind; [by apply chat_progress|]. by intros r s Hp _.
Qed.

Lemma ws_service c id p s :
  service (handleAiChat c id p s).1 = service s ∨
  ∃ u dto, socket_users s !! id = Some u ∧ history dto = None ∧
    service (handleAiChat c id p s).1 = (chat c u dto (service s)).1.
Proof.
  unfold handleAiChat. rewrite (bind_eval _ _ _ s (socket_users s !! id)) by done.
  destruct (socket_users s !! id) as [u|] eqn:Eu; [|by left].
  destruct (p_message p ≫= nonempty) as [text|]; [|by left].
  destruct (rate_service (now c) id s) as (s1 & b & Er & Es & _).
  rewrite (bind_eval _ _ _ _ _ Er). destruct b; simpl; [|by left].
  right. set (dto := {| message := text |}). exists u, dto. split_and!; [done..|].
  unfold try_catch, zoom, mbind, M_bind. rewrite <-Es.
  destruct (chat c u dto (service s1)) as [st [r|e]]; simpl; [|done].
  match goal with |- context [emit_all id ?es ?x] =>
    destruct (emit_service id es x) as [E1 E2]; destruct (emit_all id es x) as [s2 o] end.
  simpl in *. by subst o.
Qed.

Lemma handle_progress c r s :
  match requester r s with
  | Some u => progress c u (history_of r) (may_act c r) (service s) (service (handle c r s).1)
  | None => service (handle c r s).1 = service s
  end.
Proof.
  destruct r as [u title|u dto|u dto|u dto|sock|id|id p]; cbn [handle requester history_of may_act];
    rewrite ?then_unit, ?zoom_service; cbn [set_service service].
  - apply new_conversation_spec; [apply progress_refl|done].
  - apply chat_progress; [done|apply progress_refl|done].
  - apply stream_progress; [apply progress_refl|done].
  - apply confirm_progress; [apply progress_refl|done].
  - unfold handleConnection. repeat case_match; done.
  - done.
  - destruct (ws_service c id p s) as [E|(u & dto & Eu & Eh & E)].
    + rewrite E. case_match; [apply progress_refl|done].
    + rewrite Eu, E. apply (chat_progress c u None _ _ dto Eh); [apply progress_refl|done].
Qed.



Lemma ai_run_snoc reqs cr s : run (reqs ++ [cr]) s = (handle cr.1 cr.2 (run reqs s)).1.
Proof. unfold run. by rewrite foldl_app. Qed.

(** C7: the assistant asks the VM service for nothing that was not confirmed.
    Whatever requests arrived, over HTTP and WebSocket, each action that was
    sent was confirmed by a user who presented a valid, unexpired token of
    their own naming exactly this machine and this action; the machine id has
    the shape of a UUID, so it cannot reach another path of the VM service, the
    action is start, stop or restart, and the call carries that user's token. *)
Theorem assistant_actions_confirmed reqs s v :
  v ∈ vmRequests (service (run reqs s)) →
  v ∈ vmRequests (service s) ∨ ∃ c u dto, (c, HConfirm u dto) ∈ reqs ∧ confirmed c u dto v.
Proof.
  induction reqs as [|[c r] reqs IH] using rev_ind; [by left|]. rewrite ai_run_snoc. simpl.
  set (s1 := run reqs s) in *. intros Hv.
  assert (Hr : v ∈ vmRequests (service s1) ∨ may_act c r v).
  { pose proof (handle_progress c r s1) as Hp. case_match; [|rewrite Hp in Hv; by left].
    destruct Hp as [_ _ _ (l & E & Hl) _]. rewrite E in Hv. apply elem_of_app in Hv as [Hv|Hv]; [by left|].
    right. by eapply Forall_forall in Hl. }
  destruct Hr as [Hv'|Hm].
  - destruct (IH Hv') as [?|(c' & u & dto & Hin & Hc)]; [by left|]. right. exists c', u, dto. set_solver.
  - right. destruct r as [| | |u dto| | |]; try done. exists c, u, dto. set_solver.
Qed.
End routes.
End AiProps.
