(* ===== verification/AiActions.v ===== *)
(** * AiActions: what a chat records, proposes and streams

    The life of a proposed action from the chat that signs its token to the
    request at the VM service, the messages a chat leaves behind, and what the
    browser receives. *)

From Stdlib Require Import ZArith Lia Ascii String.
From stdpp Require Import base list gmap sets strings pretty.
From S2P Require Import Prelude Text Js Regex Store Crypto RequestSecurity Sockets Ai AiChat AiProps.
Import RequestSecurity Sockets Ai AiChat AiProps.
#[local] Open Scope Z_scope.

Module AiActions.

Section proposals.
Context {T : Type → Type} `{DatabaseLaws T} `{Jwt}.
Abbreviation St := (State T).
Implicit Types (s : St) (u : CurrentUser).

(** The machines the VM service lists for a bearer token. *)
Definition lists_vm (a : Fetched VmsBody) (vm : VmContextItem) : Prop :=
  ∃ l, (a = Json (VmsArray l) ∨ a = Json (VmsObject (Some l))) ∧ vm ∈ l.

Lemma fetch_vms c u s s' x :
  fetchAppContext c u s = (s', Ret x) →
  ∃ token, createInternalToken (default "" (env c "JWT_SECRET"%string)) (identity u) (now c) = Ret token ∧
    ∀ vm, vm ∈ vms x → lists_vm (vmListAnswer c token) vm.
Proof.
  unfold fetchAppContext, lift. destruct (createInternalToken _ _ _) as [token|]; [|done].
  intros E. exists token. split; [done|]. intros vm. m_red.
  destruct (vmStatsAnswer c token); try done.
  all: destruct (vmListAnswer c token) as [| |[l|[l|]]|]; try done.
  all: destruct (profileAnswer c token); try done; injection E as _ <-; simpl; intros Hvm;
    first [by apply not_elem_of_nil in Hvm | exists l; auto].
Qed.

Lemma target_in message l vm : target_vm message l = Some vm → vm ∈ l.
Proof.
  unfold target_vm. intros E. case_match eqn:Hb.
  - injection E as ->. destruct (first_match uuid message); [|done]. simpl in Hb.
    apply find_some in Hb as [Hb _]. by apply list_elem_of_In.
  - apply find_some in E as [E _]. by apply list_elem_of_In.
Qed.

Lemma action_word_allowed lower a : action_word lower = Some a → a ∈ allowedActions.
Proof. unfold action_word, allowedActions. repeat case_match; intros; simplify_eq; set_solver. Qed.

(** A proposal: a listed machine, an allowed action, and a token for both. *)
Lemma detect_inv e t message u l pa :
  detectPendingAction e t message u l = Ret (Some pa) →
  truthy (actionConfirmSecret e) = true ∧
  (∃ vm, vm ∈ l ∧ pa_vmId pa = v_id vm ∧ pa_vmName pa = v_name vm) ∧
  Regex.test (Regex.anchored uuid) (pa_vmId pa) = true ∧ pa_action pa ∈ allowedActions ∧
  pa_confirmationToken pa = jwt_sign (actionConfirmSecret e)
    (action_claims u (pa_vmId pa) (pa_vmName pa) (pa_action pa)) 180 t.
Proof.
  unfold detectPendingAction. destruct (action_word _) as [a|] eqn:Ea; [|done].
  destruct (target_vm _ _) as [vm|] eqn:Et; [|done]. unfold createActionConfirmationToken.
  destruct (truthy (actionConfirmSecret e)) eqn:Es; simpl; [|done].
  rewrite jwt_sign_truthy. simpl.
  destruct (validateStructuredAction _ _ _ _) as [[]|] eqn:Ev; [|done].
  apply validate_spec in Ev as (Hid & Ha & _). intros [= <-]. simpl.
  split_and!; [done| |done..]. exists vm. split; [by eapply target_in|done].
Qed.

(** The proposal a chat returns. *)
Lemma respond_pending c u dto id x pa s s' r :
  respond c u dto id x pa s = (s', Ret r) → rs_pendingAction r = pa.
Proof.
  unfold respond. destruct pa as [pa|]; [|case_match]; intros E; m_inv E; by injection E as _ <-.
Qed.

Lemma chat_pending c u dto s s' r pa :
  chat c u dto s = (s', Ret r) → rs_pendingAction r = Some pa →
  ∃ token x, createInternalToken (default "" (env c "JWT_SECRET"%string)) (identity u) (now c) = Ret token ∧
    (∀ vm, vm ∈ vms x → lists_vm (vmListAnswer c token) vm) ∧
    detectPendingAction (env c) (now c) (sanitizeUserMessage (message dto)) u (vms x) = Ret (Some pa).
Proof.
  unfold chat. intros E Hpa. m_inv E. apply respond_pending in E. rewrite Hpa in E. subst.
  match goal with Hf : fetchAppContext _ _ _ = _ |- _ => destruct (fetch_vms _ _ _ _ _ Hf) as (tok & Et & Hv) end.
  unfold lift in *. exists tok. eexists. split_and!; [done..|]. congruence.
Qed.

(** A proposed action is executed exactly as proposed.  When a chat answers
    with a proposal, its machine is one the VM service listed for the user and
    its action is start, stop or restart.  Confirming it within three minutes
    sends precisely this action for this machine, under the confirming user's
    own token; a token presented by anybody else, or too late, is answered 401
    and nothing happens. *)
Theorem proposal_executes c u dto s s' r pa :
  chat c u dto s = (s', Ret r) → rs_pendingAction r = Some pa →
  (∃ token vm, lists_vm (vmListAnswer c token) vm ∧ v_id vm = pa_vmId pa ∧ v_name vm = pa_vmName pa) ∧
  uuid_shaped (pa_vmId pa) ∧ pa_action pa ∈ ["start"; "stop"; "restart"]%string ∧
  ∀ c2 u2 conv st, env c2 = env c →
    let confirm := confirmAction c2 u2
      {| confirmationToken := pa_confirmationToken pa; cf_conversationId := conv |} st in
    (now c2 / 1000 < now c / 1000 + 180 → cu_userId u2 = cu_userId u → ∃ token,
       createInternalToken (default "" (env c2 "JWT_SECRET"%string)) (identity u2) (now c2) = Ret token ∧
       confirm = executeAction c2 u2 conv (Some (pa_vmName pa))
         {| vr_vmId := pa_vmId pa; vr_action := pa_action pa; vr_token := token |} st) ∧
    (now c2 / 1000 < now c / 1000 + 180 → cu_userId u2 ≠ cu_userId u →
       confirm = (st, Throw (UnauthorizedException "Confirmation token does not belong to current user"))) ∧
    (now c / 1000 + 180 <= now c2 / 1000 →
       confirm = (st, Throw (UnauthorizedException "Invalid or expired confirmation token"))).
Proof.
  intros E Hpa. destruct (chat_pending _ _ _ _ _ _ _ E Hpa) as (tok & x & Et & Hl & Hd).
  apply detect_inv in Hd as (Hs & (vm & Hvm & Hid & Hname) & Hu & Ha & Htok).
  split_and!; [by exists tok, vm; split_and!; auto|by apply uuid_spec|done|].
  intros c2 u2 conv st Henv. unfold confirmAction, lift. rewrite Htok, Henv, Hs. m_red.
  split_and!.
  - intros Ht Hu2. rewrite jwt_verify_sign by done. simpl. rewrite Hu2, bool_decide_true by done. simpl.
    rewrite (proj2 (validate_spec _ _ _ _)) by done.
    unfold createInternalToken in *. destruct (truthy (default "" _)); [|done]. by eexists.
  - intros Ht Hu2. rewrite jwt_verify_sign by done. simpl. by rewrite bool_decide_false by congruence.
  - intros Ht. by rewrite jwt_verify_expired.
Qed.

(** ** What a chat leaves behind *)

Definition same_messages (s s' : St) : Prop := messages s' = messages s.
#[local] Instance same_messages_refl : Reflexive same_messages.
Proof. by intros s. Qed.
#[local] Instance same_messages_trans : Transitive same_messages.
Proof. unfold same_messages. intros s1 s2 s3 E12 E23. by rewrite E23. Qed.

Lemma resolve_same c id dto : preserves same_messages (resolveConversationId c id dto).
Proof.
  unfold resolveConversationId, ensureConversationOwner. intros s. unfold same_messages.
  m_red. repeat case_match; by simplify_eq/=.
Qed.

Lemma provider_same c p ms : preserves same_messages (provider_chat c p ms).
Proof.
  intros s. unfold same_messages. destruct p; simpl;
    unfold ollama_chat, openrouter_chat, send_prompt, completion_of; m_red;
    repeat case_match; by simplify_eq/=.
Qed.

Lemma generate_same c ms b : preserves same_messages (generateCompletion c ms b).
Proof.
  unfold generateCompletion. destruct (List.filter _ _) as [|p ps]; [by intros s|].
  apply preserves_bind; [apply _| |].
  - generalize (p :: ps) as qs, (@nil string) as errors. induction qs as [|q qs IH]; intros errors.
    + by intros s.
    + apply preserves_try; [apply _| |auto].
      apply preserves_bind; [apply _|apply provider_same|]. by intros r s.
  - intros [r|errors]; [by intros s|]. repeat case_match; by intros s.
Qed.

Lemma build_same u id h inc x images b :
  preserves same_messages (buildPromptMessages (T:=T) u id h inc x images b).
Proof. intros s. unfold buildPromptMessages. repeat case_match; done. Qed.

(** Control characters become spaces, and white space is collapsed. *)
Lemma sanitized_clean text :
  Forall (λ ch, 32 <= code ch ∧ code ch ≠ 127) (chars (sanitizeUserMessage text)).
Proof.
  unfold sanitizeUserMessage, js_trim. rewrite chars_str. apply Forall_forall. intros ch Hch.
  apply trim_chars_sub in Hch. unfold collapse_ws in Hch. rewrite chars_str in Hch.
  apply collapse_ws_sub in Hch as [->|[Hch _]]; [by vm_compute|].
  unfold map_chars in Hch. rewrite chars_str in Hch. apply list_elem_of_fmap in Hch as (y & -> & _).
  destruct (is_control y) eqn:Ey; [by vm_compute|]. unfold is_control in Ey.
  apply orb_false_iff in Ey as [?%Z.leb_gt ?%Z.eqb_neq]. lia.
Qed.

Lemma create_message_Ret id m s s' km :
  create_message id m s = (s', Ret km) → km = (id, m) ∧ messages s' = put id m (messages s) ∧
    conversations s' = conversations s.
Proof. unfold create_message. case_match; [|done]. by intros [= <- <-]. Qed.

Lemma create_message_Throw id m s s' e : create_message id m s = (s', Throw e) → s' = s.
Proof. unfold create_message. case_match; [done|]. by intros [= <-]. Qed.

(** The last step of every successful answer. *)
Lemma answer_then c id text p mo pa s s' o :
  (m ← answer c id text p mo;
   mret {| rs_conversationId := id; rs_message := m; rs_pendingAction := pa |}) s = (s', o) →
  match o with
  | Throw _ => messages s' = messages s
  | Ret r => ∃ am, rs_conversationId r = id ∧ rs_message r = (newAnswerId c, am) ∧
      ms_conversationId am = id ∧ ms_role am = ASSISTANT ∧ messages s' = put (newAnswerId c) am (messages s)
  end.
Proof.
  unfold answer, create_message. m_red. destruct (find_by_id id (conversations s)); intros E; simplify_eq/=; try done.
  eexists. split_and!; done.
Qed.

Lemma respond_cases c u dto id x pa s s' o :
  respond c u dto id x pa s = (s', o) →
  match o with
  | Throw _ => messages s' = messages s
  | Ret r => ∃ am, rs_conversationId r = id ∧ rs_message r = (newAnswerId c, am) ∧
      ms_conversationId am = id ∧ ms_role am = ASSISTANT ∧ messages s' = put (newAnswerId c) am (messages s)
  end.
Proof.
  unfold respond. destruct pa as [pa|]; [apply answer_then|]. case_match; [apply answer_then|].
  set (b := buildPromptMessages _ _ _ _ _ _ _). pose proof (build_same u id (history dto)
    (negb (bool_decide (includeContext dto = Some false))) x (sanitizeImages (env c) (images dto))
    (detectPromptInjection (sanitizeUserMessage (message dto))) s) as Hb. fold b in Hb.
  unfold mbind at 1, M_bind at 1. destruct (b s) as [s1 [ms|e]]; simpl in Hb; unfold same_messages in Hb;
    [|intros E; by simplify_eq].
  set (g := generateCompletion c ms _). pose proof (generate_same c ms
    (match sanitizeImages (env c) (images dto) with [] => false | _ => true end) s1) as Hg. fold g in Hg.
  unfold mbind at 1, M_bind at 1. destruct (g s1) as [s2 [r|e]]; simpl in Hg; unfold same_messages in Hg;
    [|intros E; simplify_eq; congruence].
  intros E%answer_then. destruct o; rewrite <-Hb, <-Hg; done.
Qed.

(** What a chat leaves behind.  An answered chat stores exactly two messages,
    the user's text without control characters and the assistant's answer that
    is returned, both in one conversation of the user; a chat that fails stores
    at most the user's text. *)
Theorem chat_recorded c u dto s s' o :
  chat c u dto s = (s', o) →
  match o with
  | Ret r => ∃ am, rs_message r = (newAnswerId c, am) ∧ ms_role am = ASSISTANT ∧
      ms_conversationId am = rs_conversationId r ∧ owns u (rs_conversationId r) s' ∧
      rows (messages s') = <[newAnswerId c := am]>
        (<[newMessageId c := user_message c dto (rs_conversationId r)]> (rows (messages s)))
  | Throw _ => rows (messages s') = rows (messages s) ∨ ∃ id,
      rows (messages s') = <[newMessageId c := user_message c dto id]> (rows (messages s))
  end ∧
  ∀ id, Forall (λ ch, 32 <= code ch ∧ code ch ≠ 127) (chars (ms_content (user_message c dto id))).
Proof.
  intros E. split; [|intros id; apply sanitized_clean].
  pose proof (chat_progress c u (history dto) (λ _, False) s dto eq_refl s (progress_refl _ _ _ _ _) I)
    as [_ Hown]. rewrite E in Hown. simpl in Hown. revert Hown E. unfold chat.
  set (res := resolveConversationId _ _ _). pose proof (resolve_same c (cu_userId u) dto s) as Hr.
  fold res in Hr. unfold mbind at 1, M_bind at 1.
  destruct (res s) as [s1 [id|e]]; simpl in Hr; unfold same_messages in Hr;
    [|intros _ E; simplify_eq; left; by rewrite Hr].
  pose proof (context_reads c u s1) as Hf. unfold mbind at 1, M_bind at 1.
  destruct (fetchAppContext c u s1) as [s2 [x|e]]; simpl in Hf; subst s2;
    [|intros _ E; simplify_eq; left; by rewrite Hr].
  unfold mbind at 1, M_bind at 1, lift. destruct (detectPendingAction _ _ _ _ _) as [pa|e];
    [|intros _ E; simplify_eq; left; by rewrite Hr].
  unfold mbind at 1, M_bind at 1.
  destruct (create_message _ _ _) as [s2 [km|e]] eqn:Em.
  - apply create_message_Ret in Em as (_ & Em & _). intros Hown E%respond_cases.
    destruct o as [r|e].
    + destruct E as (am & <- & Hm & Hc & Ha & Es). exists am. split_and!; try done.
      by rewrite Es, Em, !rows_put, Hr.
    + right. exists id. by rewrite E, Em, rows_put, Hr.
  - apply create_message_Throw in Em as ->. intros _ E. simplify_eq. left. by rewrite Hr.
Qed.

(** ** Composition with the guards of the other services *)

(** The VM service answers its routes only for a bearer token its guard admits,
    whatever the request looks like, while the call is under way. *)
Definition guarded `{Hashing} (c : Call) : Prop := ∀ token,
  (∃ b, vmListAnswer c token = Json b) ∨ (∃ v m, vr_token v = token ∧ vmActionAnswer c v = Json m) →
  ∃ req t who, t / 1000 < now c / 1000 + 300 ∧
    authenticate (default "" (env c "JWT_SECRET"%string)) req token t = Ret who.

Lemma guarded_refuses `{Hashing} c u token :
  guarded c → createInternalToken (default "" (env c "JWT_SECRET"%string)) (identity u) (now c) = Ret token →
  (∀ b, vmListAnswer c token ≠ Json b) ∧ (∀ v m, vr_token v = token → vmActionAnswer c v ≠ Json m).
Proof.
  intros Hg Ht.
  assert (Hno : ¬ ((∃ b, vmListAnswer c token = Json b) ∨
                   (∃ v m, vr_token v = token ∧ vmActionAnswer c v = Json m))).
  { intros (req & t & who & Hlt & Ha)%Hg. rewrite (internal_token_rejected _ _ _ _ _ _ Ht Hlt) in Ha. done. }
  split; [intros b Hb|intros v m Hv Hm]; apply Hno; eauto.
Qed.

(** The assistant can neither see nor control machines.  Its calls carry a
    token without a client fingerprint, which the guard of the VM service
    refuses; so no chat ever proposes an action and no confirmation ever
    succeeds, for any user and any message. *)
Theorem assistant_cannot_act `{Hashing} c u s :
  guarded c →
  (∀ dto s' r, chat c u dto s = (s', Ret r) → rs_pendingAction r = None) ∧
  (∀ dto s' r, confirmAction c u dto s ≠ (s', Ret r)).
Proof.
  intros Hg. split.
  - intros dto s' r E. destruct (rs_pendingAction r) as [pa|] eqn:Hpa; [|done]. exfalso.
    destruct (chat_pending _ _ _ _ _ _ _ E Hpa) as (tok & x & Et & Hl & Hd).
    apply detect_inv in Hd as (_ & (vm & Hvm & _) & _). destruct (Hl vm Hvm) as (l & Hj & _).
    destruct (guarded_refuses c u tok Hg Et) as [Hn _]. naive_solver.
  - intros dto s' r E. destruct (confirmation_cases c u dto s) as [[e Ee]|(v & name & Hv & Ee)];
      rewrite Ee in E; [done|].
    destruct (guarded_refuses c u _ Hg (cf_bearer _ _ _ _ Hv)) as [_ Hn].
    unfold executeAction in E. m_red. destruct (vmActionAnswer c v) eqn:Ea; try done.
    by eapply Hn.
Qed.
End proposals.

(** ** Streaming *)

Lemma concat_ws_runs l : concat (ws_runs l) = l.
Proof.
  induction l as [|c l IH]; [done|]. simpl. destruct (ws_runs l) as [|[|d r] rs]; simpl in *.
  - by subst.
  - by rewrite IH.
  - case_match; simpl; by rewrite IH.
Qed.

Lemma ws_runs_nonnil l : Forall (λ r, r ≠ []) (ws_runs l).
Proof.
  induction l as [|c l IH]; [done|]. simpl. destruct IH as [|[|d r] rs Hd Hrs]; [by repeat constructor|done|].
  case_match; by repeat constructor.
Qed.

Lemma str_app l1 l2 : str (l1 ++ l2) = str l1 +:+ str l2.
Proof. induction l1 as [|c l1 IH]; simpl; [done|]. by rewrite IH. Qed.

Lemma concat_str ls : String.concat "" (str <$> ls) = str (concat ls).
Proof.
  induction ls as [|l ls IH]; [done|]. destruct ls as [|l' ls]; simpl in *; [by rewrite app_nil_r|].
  by rewrite IH, !str_app.
Qed.

(** The event stream is the answer.  A streamed chat has the same effect as
    a plain one; if that succeeds, the frames are its meta data, non-empty
    chunks that put together give exactly the stored answer, and the end mark;
    if it fails, a single error frame. *)
Theorem stream_faithful {T : Type → Type} `{Database T} `{Jwt} c u dto (s : State T) :
  (streamChat c u dto s).1 = (chat c u dto s).1 ∧
  match (chat c u dto s).2 with
  | Ret r => ∃ ts, (streamChat c u dto s).2 = Ret ([FMeta (meta_of r)] ++ (FChunk <$> ts) ++ [FDone]) ∧
      String.concat "" ts = ms_content (rs_message r).2 ∧ Forall (λ t, t ≠ ""%string) ts
  | Throw _ => (streamChat c u dto s).2 = Ret [FError "Streaming failed"]
  end.
Proof.
  unfold streamChat, try_catch, mbind, M_bind. destruct (chat c u dto s) as [s' [r|e]]; simpl; [|done].
  split; [done|]. eexists. split; [done|]. unfold stream_tokens. split.
  - by rewrite concat_str, concat_ws_runs, str_chars.
  - apply Forall_fmap. eapply Forall_impl; [apply ws_runs_nonnil|]. by intros [].
Qed.
End AiActions.
