(* ===== verification/VmEvents.v ===== *)
(** * VmEvents: status updates and keys pushed to browsers

    services/vm/src/vm/vm-events.gateway.ts.  A socket joins the room of its
    user, and the room [admin] if it is one; messages from NATS are sent to
    rooms.  The state is the membership of the rooms and, for the theorems,
    what every socket has received. *)

From Stdlib Require Import ZArith Lia Ascii String.
From stdpp Require Import base list gmap sets strings.
From S2P Require Import Prelude Text Js Crypto RequestSecurity Sockets VmKeyCrypto Vm.
Import RequestSecurity Sockets.
#[local] Open Scope Z_scope.

Module VmEvents.

Record VmStatusPayload := {
  st_vmId : string; st_status : string; st_userId : option string; st_ipAddress : option string;
  st_oneVmId : option Z; st_sshHost : option string; st_sshPort : option Z;
  st_error : option string; st_action : option string;
}.
Record VmSshReadyPayload := {
  sr_vmId : option string; sr_userId : option string; sr_privateKey : option string;
  sr_generatedSshPrivateKey : option string; sr_sshPrivateKey : option string;
}.
(** The two messages a browser receives; [vmName] is added when the gateway
    looked the machine up. *)
Inductive Message :=
| VmStatusMsg (data : VmStatusPayload) (vmName : option string)
| VmSshKeyMsg (vmId privateKey : string).

Record State := {
  rooms : gmap string (list string);
  received : list (string * Message);
  disconnected : list string;
}.
Definition init : State := {| rooms := ∅; received := []; disconnected := [] |}.

Record Call := { now : Z; env : Env; findVm : string → outcome (option Vm.VirtualMachine) }.

(** [client.join(room)] *)
Definition join (id room : string) : M State unit :=
  modify (λ s, {| rooms := <[id := room :: default [] (rooms s !! id)]> (rooms s);
                  received := received s; disconnected := disconnected s |}).
Definition disconnect (id : string) : M State unit :=
  modify (λ s, {| rooms := rooms s; received := received s; disconnected := disconnected s ++ [id] |}).

Definition members (room : string) (s : State) : list string :=
  fst <$> filter (λ ir : string * list string, room ∈ ir.2) (map_to_list (rooms s)).
(** [server.to(room).emit(...)] *)
Definition to_room (room : string) (m : Message) : M State unit :=
  modify (λ s, {| rooms := rooms s; received := received s ++ ((λ id, (id, m)) <$> members room s);
                  disconnected := disconnected s |}).

Definition user_room (id : string) : string := "user:" +:+ id.

Section gateway.
Context `{Hashing, UriCodec, Jwt}.

Definition handleConnection (c : Call) (sock : TSocket) : M State unit :=
  match handshakeToken sock with
  | Ret (Some token) =>
      match verifyBound (default "" (env c "JWT_SECRET")) (skipFingerprint (env c)) (now c) sock token with
      | Some payload =>
          join (socket_id sock) (user_room (default "undefined"%string (c_sub payload)));;
          when (bool_decide (c_role payload = Some "ADMIN"%string)) (join (socket_id sock) "admin")
      | None => disconnect (socket_id sock)
      end
  | _ => disconnect (socket_id sock)
  end.

(** socket.io takes a closed socket out of its rooms; the handler only logs. *)
Definition handleDisconnect (id : string) : M State unit :=
  modify (λ s, {| rooms := delete id (rooms s); received := received s;
                  disconnected := disconnected s |}).

Definition broadcastVmStatus (c : Call) (data : VmStatusPayload) : M State unit :=
  try_catch
    (match st_userId data ≫= nonempty with
     | Some userId =>
         to_room (user_room userId) (VmStatusMsg data None);; to_room "admin" (VmStatusMsg data None)
     | None =>
         vm ← lift (findVm c (st_vmId data));
         match vm with
         | None => mret tt
         | Some vm =>
             let payload := VmStatusMsg data (Some (Vm.vm_name vm)) in
             to_room (user_room (Vm.vm_userId vm)) payload;; to_room "admin" payload
         end
     end)
    (λ _, mret tt).

(** [data.privateKey ?? data.generatedSshPrivateKey ?? data.sshPrivateKey] *)
Definition private_key (data : VmSshReadyPayload) : option string :=
  match sr_privateKey data with
  | Some k => Some k
  | None => match sr_generatedSshPrivateKey data with
            | Some k => Some k
            | None => sr_sshPrivateKey data
            end
  end.

Definition broadcastVmSshReady (c : Call) (data : VmSshReadyPayload) : M State unit :=
  try_catch
    (match sr_vmId data ≫= nonempty, private_key data ≫= nonempty with
     | Some vmId, Some privateKey =>
         match sr_userId data ≫= nonempty with
         | Some userId => to_room (user_room userId) (VmSshKeyMsg vmId privateKey)
         | None =>
             vm ← lift (findVm c vmId);
             match vm with
             | None => mret tt
             | Some vm => to_room (user_room (Vm.vm_userId vm)) (VmSshKeyMsg vmId privateKey)
             end
         end
     | _, _ => mret tt
     end)
    (λ _, mret tt).

Inductive Event :=
| EvConnect (sock : TSocket)
| EvDisconnect (id : string)
| EvStatus (data : VmStatusPayload)
| EvSshReady (data : VmSshReadyPayload).
(** The gateway's handlers and the two subscriptions of [onModuleInit]. *)
Definition handle (c : Call) (e : Event) : M State unit :=
  match e with
  | EvConnect sock => handleConnection c sock
  | EvDisconnect id => handleDisconnect id
  | EvStatus data => broadcastVmStatus c data
  | EvSshReady data => broadcastVmSshReady c data
  end.
Definition run (evs : list (Call * Event)) (s : State) : State :=
  foldl (λ s ce, (handle ce.1 ce.2 s).1) s evs.

(** ** Who may receive what *)

(** The socket of a connect event, whose token verified, and its claims. *)
Record socket_of (evs : list (Call * Event)) (id : string) (p : Claims) : Prop := {
  so_event : ∃ c sock token, (c, EvConnect sock) ∈ evs ∧ socket_id sock = id ∧
    handshakeToken sock = Ret (Some token) ∧
    jwt_verify (default "" (env c "JWT_SECRET"%string)) token (now c) = Some p ∧
    (skipFingerprint (env c) = true ∨ c_fp p = Some (buildSocketFingerprint (handshake sock)));
}.
(** The user a message is for: the one it names, else the owner of its machine. *)
Definition addressee (c : Call) (e : Event) (w : string) : Prop :=
  match e with
  | EvStatus data => st_userId data = Some w ∨
      (st_userId data ≫= nonempty) = None ∧ ∃ vm, findVm c (st_vmId data) = Ret (Some vm) ∧ Vm.vm_userId vm = w
  | EvSshReady data => sr_userId data = Some w ∨
      (sr_userId data ≫= nonempty) = None ∧ ∃ id vm, sr_vmId data = Some id ∧
        findVm c id = Ret (Some vm) ∧ Vm.vm_userId vm = w
  | _ => False
  end.
Definition announces (e : Event) (m : Message) : Prop :=
  match e, m with
  | EvStatus data, VmStatusMsg data' _ => data' = data
  | EvSshReady data, VmSshKeyMsg id key => sr_vmId data = Some id ∧ private_key data = Some key
  | _, _ => False
  end.

Record Inv (evs : list (Call * Event)) (s : State) : Prop := {
  inv_rooms id rs room : rooms s !! id = Some rs → room ∈ rs → ∃ p, socket_of evs id p ∧
    (room = user_room (default "undefined"%string (c_sub p)) ∨
     room = "admin"%string ∧ c_role p = Some "ADMIN"%string);
  inv_received id m : (id, m) ∈ received s → ∃ p c e w, socket_of evs id p ∧ (c, e) ∈ evs ∧
    announces e m ∧ addressee c e w ∧
    (w = default "undefined"%string (c_sub p) ∨
     c_role p = Some "ADMIN"%string ∧ match m with VmStatusMsg _ _ => True | _ => False end);
}.

Lemma socket_of_mono evs evs' id p : evs ⊆ evs' → socket_of evs id p → socket_of evs' id p.
Proof. intros Hsub [(c & sock & tok & Hin & Hr)]. split. exists c, sock, tok. eauto. Qed.

Lemma events_mono evs evs' s : evs ⊆ evs' → Inv evs s → Inv evs' s.
Proof.
  intros Hsub [Hr Hm]. split.
  - intros id rs room Hid Hroom. destruct (Hr _ _ _ Hid Hroom) as (p & Hp & Hc).
    exists p. eauto using socket_of_mono.
  - intros id m Hin. destruct (Hm _ _ Hin) as (p & c & e & w & Hp & He & Hrest).
    exists p, c, e, w. eauto using socket_of_mono.
Qed.

Lemma elem_of_members id room s : id ∈ members room s ↔ ∃ rs, rooms s !! id = Some rs ∧ room ∈ rs.
Proof.
  unfold members. rewrite list_elem_of_fmap. split.
  - intros ([i rs] & -> & [Hroom Hin%elem_of_map_to_list]%list_elem_of_filter). eauto.
  - intros (rs & Hid & Hroom). exists (id, rs). split; [done|].
    rewrite list_elem_of_filter, elem_of_map_to_list. done.
Qed.

Lemma user_room_admin w : user_room w ≠ "admin"%string.
Proof. by unfold user_room. Qed.
Lemma user_room_inj w1 w2 : user_room w1 = user_room w2 → w1 = w2.
Proof. intros E. by injection E. Qed.

Lemma join_spec evs id room p :
  socket_of evs id p →
  (room = user_room (default "undefined"%string (c_sub p)) ∨
   room = "admin"%string ∧ c_role p = Some "ADMIN"%string) →
  triple (Inv evs) (λ _, True) (join id room) (λ _ _, True).
Proof.
  intros Hp Hroom s [Hr Hm] _. simpl. split; [|done]. split; simpl; [|exact Hm].
  intros id' rs room'. rewrite lookup_insert_Some. intros [[<- <-]|[_ Hid]]; [|by eauto].
  intros [->|Hold]%elem_of_cons; [by eauto|].
  destruct (rooms s !! id) as [rs|] eqn:E; simpl in Hold; [by eauto|]. by apply not_elem_of_nil in Hold.
Qed.

Lemma to_room_spec evs c e m room w :
  (c, e) ∈ evs → announces e m → addressee c e w →
  (room = user_room w ∨ room = "admin"%string ∧ match m with VmStatusMsg _ _ => True | _ => False end) →
  triple (Inv evs) (λ _, True) (to_room room m) (λ _ _, True).
Proof.
  intros Hin Ha Hw Hroom s [Hr Hm] _. simpl. split; [|done]. split; simpl; [exact Hr|].
  intros id m'. rewrite elem_of_app. intros [Hold|Hnew]; [by eauto|].
  apply list_elem_of_fmap in Hnew as (id' & [= <- <-] & (rs & Hid & Hrs)%elem_of_members).
  destruct (Hr _ _ _ Hid Hrs) as (p & Hp & Hc). exists p, c, e, w. split_and!; [done..|].
  destruct Hroom as [->|[-> Hst]], Hc as [Hc|[Hc Hrole]].
  - left. by apply user_room_inj.
  - by apply user_room_admin in Hc.
  - symmetry in Hc. by apply user_room_admin in Hc.
  - by right.
Qed.

Lemma nonempty_is o x : o ≫= nonempty = Some x → o = Some x.
Proof. destruct o as [y|]; [|done]. simpl. unfold nonempty. case_match; congruence. Qed.

Lemma both_rooms_spec evs c data name w :
  (c, EvStatus data) ∈ evs → addressee c (EvStatus data) w →
  triple (Inv evs) (λ _, True)
    (to_room (user_room w) (VmStatusMsg data name);; to_room "admin" (VmStatusMsg data name)) (λ _ _, True).
Proof.
  intros Hin Hw. apply (triple_bind _ _ _ _ (λ _ _, True)); [|intros []];
    apply (to_room_spec evs c (EvStatus data) _ _ w); try done; [by left|by right].
Qed.

Lemma status_spec evs c data :
  (c, EvStatus data) ∈ evs → triple (Inv evs) (λ _, True) (broadcastVmStatus c data) (λ _ _, True).
Proof.
  intros Hin. unfold broadcastVmStatus. apply triple_try; [|intros e; apply triple_skip].
  destruct (st_userId data ≫= nonempty) as [w|] eqn:Eu.
  - apply (both_rooms_spec evs c); [done|]. left. by apply nonempty_is.
  - unfold lift. destruct (findVm c (st_vmId data)) as [[vm|]|] eqn:Ev; [|by intros s|by intros s].
    apply (both_rooms_spec evs c data (Some (Vm.vm_name vm)) (Vm.vm_userId vm)); [done|]. right. eauto.
Qed.

Lemma ssh_ready_spec evs c data :
  (c, EvSshReady data) ∈ evs → triple (Inv evs) (λ _, True) (broadcastVmSshReady c data) (λ _ _, True).
Proof.
  intros Hin. unfold broadcastVmSshReady. apply triple_try; [|intros e; apply triple_skip].
  destruct (sr_vmId data ≫= nonempty) as [id|] eqn:Ei; [|apply triple_skip].
  destruct (private_key data ≫= nonempty) as [key|] eqn:Ek; [|apply triple_skip].
  apply nonempty_is in Ei, Ek.
  destruct (sr_userId data ≫= nonempty) as [w|] eqn:Eu.
  - apply nonempty_is in Eu. apply (to_room_spec evs c (EvSshReady data) _ _ w); try done; by left.
  - destruct (findVm c id) as [[vm|]|] eqn:Ev; [|by intros s|by intros s].
    apply (to_room_spec evs c (EvSshReady data) _ _ (Vm.vm_userId vm)); try done; [|by left].
    right. eauto 6.
Qed.

Lemma connect_spec evs c sock :
  (c, EvConnect sock) ∈ evs → triple (Inv evs) (λ _, True) (handleConnection c sock) (λ _ _, True).
Proof.
  intros Hin. unfold handleConnection.
  destruct (handshakeToken sock) as [[token|]|] eqn:Et; [|by intros s [Hr Hm]..].
  destruct (verifyBound _ _ _ _ _) as [p|] eqn:Ev; [|by intros s [Hr Hm]].
  apply verifyBound_spec in Ev as [Hp Hfp].
  assert (Hs : socket_of evs (socket_id sock) p) by (split; eauto 10).
  apply (triple_bind _ _ _ _ (λ _ _, True)); [eapply join_spec; [done|by left]|].
  intros []. unfold when.
  case_bool_decide; [|apply triple_skip]. eapply join_spec; [done|by right].
Qed.

Lemma events_step evs c e s : (c, e) ∈ evs → Inv evs s → Inv evs (handle c e s).1.
Proof.
  intros Hin HI. destruct e as [sock|id|data|data]; simpl.
  - by apply connect_spec.
  - destruct HI as [Hr Hm]. split; simpl; [|exact Hm].
    intros id' rs room [_ Hid]%lookup_delete_Some. by eauto.
  - by apply status_spec.
  - by apply ssh_ready_spec.
Qed.

Lemma events_run evs : Inv evs (run evs init).
Proof.
  induction evs as [|[c e] evs IH] using rev_ind.
  - split; simpl; [intros id rs room Hid; by rewrite lookup_empty in Hid|by intros id m ?%not_elem_of_nil].
  - unfold run. rewrite foldl_app. simpl. apply events_step; [set_solver|].
    eapply events_mono; [|exact IH]. set_solver.
Qed.

(** C29: machine events reach their owner only.  Whatever connected, disconnected
    and was announced: what a socket received was announced by the worker, and
    the token of that socket, bound to its client, names the user the
    announcement is for (the named one, else the machine's owner); only status
    updates also go to sockets of administrators, private keys never do. *)
Theorem vm_events_private evs id m :
  (id, m) ∈ received (run evs init) → ∃ p c e w, socket_of evs id p ∧ (c, e) ∈ evs ∧
    announces e m ∧ addressee c e w ∧
    (w = default "undefined"%string (c_sub p) ∨
     c_role p = Some "ADMIN"%string ∧ match m with VmStatusMsg _ _ => True | _ => False end).
Proof. intros Hm. by eapply inv_received; [apply events_run|]. Qed.

(** And they do reach every connected socket of that user. *)
Lemma status_reaches_owner c data w id rs s :
  st_userId data = Some w → truthy w = true → rooms s !! id = Some rs → user_room w ∈ rs →
  (id, VmStatusMsg data None) ∈ received (broadcastVmStatus c data s).1.
Proof.
  intros Hu Hw Hid Hr. unfold broadcastVmStatus. rewrite Hu. simpl. unfold nonempty. rewrite Hw. m_red.
  rewrite !elem_of_app. left. right. apply list_elem_of_fmap. exists id. split; [done|].
  apply elem_of_members. eauto.
Qed.
End gateway.
End VmEvents.
