(* ===== verification/Vnc.v ===== *)
(** * Vnc: the console relay

    services/vm/src/vnc/vnc.gateway.ts.  A connecting socket that passes the
    checks gets a [Link]: a TCP connection to port 5901 of its machine, or an
    SSH tunnel to it through the bastion.  The callbacks of the connection, the
    timer and the messages of the browser are the events of [handle]; what the
    gateway does to the outside is appended to [effects]. *)

From Stdlib Require Import ZArith Lia Ascii String.
From stdpp Require Import base list gmap sets strings pretty.
From S2P Require Import Prelude Text Js Crypto RequestSecurity Sockets VmKeyCrypto Vm.
Import RequestSecurity Sockets.
#[local] Open Scope Z_scope.
#[local] Existing Instance Vm.VmStatus_eq_dec.

Module Vnc.

Definition vncPort : Z := 5901.

Inductive LinkKind := Direct | Tunnel.
#[export] Instance LinkKind_eq_dec : EqDecision LinkKind.
Proof. solve_decision. Defined.

(** What the closures of one connection share.  [registered]: the session was
    put into [sessions] (with its second close handler); [closed]: node has
    destroyed the connection; [timer]: the 20 s timer is armed. *)
Record Link := {
  ln_client : string; ln_vmId : string; ln_host : string; ln_kind : LinkKind;
  registered : bool; closed : bool; timer : bool;
}.

Record VncOptions := { vo_host : string; vo_port : option Z; vo_username : string;
                       vo_privateKey : option string; vo_password : option string }.
Inductive VncMsg := VError (text : string) | VReady | VClose (text : string) | VData (data : string).
Inductive Effect :=
| Emit (id : string) (m : VncMsg)
| DisconnectSocket (id : string)
| TcpConnect (i : nat) (host : string) (port : Z)
| SshConnect (i : nat) (o : VncOptions)
| ForwardOut (i : nat) (host : string) (port : Z)
| Write (i : nat) (data : string)
| EndStream (i : nat)
| Destroy (i : nat)
| SshEnd (i : nat).

Record State := {
  sessions : gmap string nat;
  links : list Link;
  effects : list Effect;
}.
Definition init : State := {| sessions := ∅; links := []; effects := [] |}.
Definition set_sessions x (s : State) : State :=
  {| sessions := x; links := links s; effects := effects s |}.
Definition set_links x (s : State) : State :=
  {| sessions := sessions s; links := x; effects := effects s |}.
Definition act (e : Effect) : M State unit :=
  modify (λ s, {| sessions := sessions s; links := links s; effects := effects s ++ [e] |}).

Definition set_flags (r cl t : bool) (f : Link) : Link :=
  {| ln_client := ln_client f; ln_vmId := ln_vmId f; ln_host := ln_host f; ln_kind := ln_kind f;
     registered := r; closed := cl; timer := t |}.
Definition alter_link (i : nat) (f : Link → Link) : M State unit :=
  modify (λ s, set_links (alter f i (links s)) s).
Definition clear_timer (i : nat) : M State unit :=
  alter_link i (λ f, set_flags (registered f) (closed f) false f).
Definition with_link (i : nat) (k : Link → M State unit) : M State unit := λ s,
  match links s !! i with
  | Some f => k f s
  | None => (s, Ret tt)
  end.

Record Call := {
  now : Z; env : Env;
  findVm : string → outcome (option Vm.VirtualMachine);
  connect_throws : VncOptions → option string;
}.

(** The session's own clean-up, and [cleanupSession]. *)
Definition cleanup (i : nat) : M State unit :=
  with_link i (λ f,
    match ln_kind f with
    | Direct => act (Destroy i);; alter_link i (λ f, set_flags (registered f) true (timer f) f)
    | Tunnel => act (EndStream i);; act (SshEnd i)
    end).
Definition cleanupSession (clientId : string) : M State unit :=
  session ← gets (λ s, sessions s !! clientId);
  (match session with Some i => cleanup i | None => mret tt end);;
  modify (λ s, set_sessions (delete clientId (sessions s)) s).

(** [session.send(data)]; a payload that is no buffer throws. *)
Definition send (i : nat) (data : option string) : M State unit :=
  match data with
  | None => throw (JsError "The first argument must be of type string or an instance of Buffer")
  | Some d => with_link i (λ f, if closed f then mret tt else act (Write i d))
  end.

Definition handleData (client : string) (data : option string) : M State unit :=
  session ← gets (λ s, sessions s !! client);
  match session with
  | None => act (Emit client (VError "No active VNC session"))
  | Some i =>
      try_catch (send i data) (λ _,
        act (Emit client (VError "Failed to forward VNC data"));;
        cleanupSession client;;
        act (DisconnectSocket client))
  end.

Definition handleDisconnect (client : string) : M State unit := cleanupSession client.

(** ** Connecting *)

Definition open_link (client vmId host : string) (k : LinkKind) : M State nat :=
  i ← gets (λ s, length (links s));
  modify (λ s, set_links (links s ++ [{| ln_client := client; ln_vmId := vmId; ln_host := host;
    ln_kind := k; registered := false; closed := false; timer := bool_decide (k = Tunnel) |}]) s);;
  mret i.

Definition connectDirect (client vmId host : string) : M State unit :=
  i ← open_link client vmId host Direct;
  act (TcpConnect i host vncPort).

Section connect.
Context `{UriCodec, Jwt, UrlParser}.

Definition bastionHost (env : Env) : string :=
  js_trim (str_or (default "" (env "TERMINAL_SSH_BASTION_HOST"%string))
             (default "" (url_hostname (env_or env "ONE_XMLRPC" "")))).

Definition connectViaBastionTunnel (c : Call) (client vmId host bastion : string) : M State unit :=
  let bastionPort := js_Number (env_or (env c) "TERMINAL_SSH_BASTION_PORT" "22") in
  let bastionUser := js_trim (env_or (env c) "TERMINAL_SSH_BASTION_USERNAME"
                                (env_or (env c) "ONE_USERNAME" "")) in
  let bastionPass := js_trim (env_or (env c) "TERMINAL_SSH_BASTION_PASSWORD"
                                (env_or (env c) "ONE_PASSWORD" "")) in
  let rawKey := str (replace_pair "\" "n" ["010"%char]
                       (chars (env_or (env c) "TERMINAL_SSH_BASTION_PRIVATE_KEY" ""))) in
  if negb (truthy bastionUser) || (negb (truthy bastionPass) && negb (truthy rawKey))
  then connectDirect client vmId host
  else
    i ← open_link client vmId host Tunnel;
    let connectOpts := {| vo_host := bastion; vo_port := bastionPort; vo_username := bastionUser;
      vo_privateKey := if truthy rawKey then Some rawKey else None;
      vo_password := if truthy rawKey then None else if truthy bastionPass then Some bastionPass else None |} in
    match connect_throws c connectOpts with
    | Some m => throw (JsError m)
    | None => act (SshConnect i connectOpts)
    end.

Definition refuse (client text : string) : M State unit :=
  act (Emit client (VError text));; act (DisconnectSocket client).

Definition may_view (user : Claims) (vm : Vm.VirtualMachine) : bool :=
  bool_decide (c_role user = Some "ADMIN"%string) || bool_decide (Some (Vm.vm_userId vm) = c_sub user).

(** After the token: the machine and its checks. *)
Definition open_console (c : Call) (client : string) (user : Claims) (vmId : option string)
    : M State unit :=
  match vmId ≫= nonempty with
  | None => refuse client "vmId is required"
  | Some vmId =>
      vm ← lift (findVm c vmId);
      match vm with
      | None => refuse client "VM not found"
      | Some vm =>
          if negb (may_view user vm) then refuse client "Access denied"
          else if negb (bool_decide (Vm.vm_status vm = Vm.RUNNING))
          then refuse client ("VM is not running (status: " +:+ Vm.status_string (Vm.vm_status vm) +:+ ")")
          else match Vm.vm_sshHost vm ≫= nonempty with
               | None => refuse client "VM has no IP address yet — try again in a few seconds"
               | Some host =>
                   let bastion := bastionHost (env c) in
                   if truthy bastion then connectViaBastionTunnel c client vmId host bastion
                   else connectDirect client vmId host
               end
      end
  end.

Definition initSession (c : Call) (sock : TSocket) (vmId : option string) : M State unit :=
  token ← lift (handshakeToken sock);
  match token with
  | None => refuse (socket_id sock) "Authentication required"
  | Some token =>
      match jwt_verify (default "" (env c "JWT_SECRET")) token (now c) with
      | None => refuse (socket_id sock) "Invalid or expired session — please refresh"
      | Some user => open_console c (socket_id sock) user vmId
      end
  end.

Definition handleConnection (c : Call) (sock : TSocket) (vmId : option string) : M State unit :=
  try_catch (initSession c sock vmId) (λ _, refuse (socket_id sock) "Internal server error").
End connect.

(** ** Callbacks *)

Definition register (i : nat) (f : Link) : M State unit :=
  modify (λ s, set_sessions (<[ln_client f := i]> (sessions s)) s);;
  alter_link i (λ f, set_flags true (closed f) (timer f) f).

Definition onTcpConnect (i : nat) (f : Link) : M State unit :=
  register i f;; act (Emit (ln_client f) VReady).
Definition onTcpError (i : nat) (text : string) (f : Link) : M State unit :=
  act (Emit (ln_client f) (VError ("Cannot reach VNC on VM: " +:+ text)));;
  act (DisconnectSocket (ln_client f));;
  alter_link i (λ f, set_flags (registered f) true (timer f) f).
Definition ended (f : Link) : M State unit :=
  act (Emit (ln_client f) (VClose "VNC session ended"));; cleanupSession (ln_client f).
(** The handler of [connectDirect], and that of [registerTcpSession] once it ran. *)
Definition onTcpClose (i : nat) (f : Link) : M State unit :=
  alter_link i (λ f, set_flags (registered f) true (timer f) f);;
  ended f;; when (registered f) (ended f).
Definition onData (data : string) (f : Link) : M State unit :=
  act (Emit (ln_client f) (VData data)).

Definition onSshReady (i : nat) (f : Link) : M State unit :=
  act (ForwardOut i (ln_host f) vncPort).
Definition onForward (i : nat) (error : option string) (f : Link) : M State unit :=
  clear_timer i;;
  match error with
  | Some text =>
      act (Emit (ln_client f) (VError ("VNC tunnel failed: " +:+ text)));;
      act (SshEnd i);; act (DisconnectSocket (ln_client f))
  | None => register i f;; act (Emit (ln_client f) VReady)
  end.
Definition onStreamClose (i : nat) (f : Link) : M State unit :=
  alter_link i (λ f, set_flags (registered f) true (timer f) f);; ended f.
Definition onStreamError (i : nat) (text : string) (f : Link) : M State unit :=
  act (Emit (ln_client f) (VError ("VNC stream error: " +:+ text)));;
  cleanupSession (ln_client f).
Definition onSshError (i : nat) (text : string) (f : Link) : M State unit :=
  clear_timer i;;
  act (Emit (ln_client f) (VError ("Bastion SSH failed: " +:+ text)));;
  act (DisconnectSocket (ln_client f)).
Definition onSshClose (i : nat) (f : Link) : M State unit :=
  clear_timer i;; cleanupSession (ln_client f).
Definition onTimeout (i : nat) (f : Link) : M State unit :=
  if timer f then
    clear_timer i;;
    act (Emit (ln_client f) (VError "VNC tunnel connection timed out"));;
    act (SshEnd i);; act (DisconnectSocket (ln_client f))
  else mret tt.

Inductive Event :=
| EvConnect (sock : TSocket) (vmId : option string)
| EvDisconnect (client : string)
| EvData (client : string) (data : option string)
| EvTcpConnect (i : nat) | EvTcpError (i : nat) (text : string) | EvTcpClose (i : nat)
| EvSshReady (i : nat) | EvForward (i : nat) (error : option string)
| EvSshError (i : nat) (text : string) | EvSshClose (i : nat)
| EvLinkData (i : nat) (data : string)
| EvStreamClose (i : nat) | EvStreamError (i : nat) (text : string)
| EvTimeout (i : nat).

Section system.
Context `{UriCodec, Jwt, UrlParser}.
Definition handle (c : Call) (e : Event) : M State unit :=
  match e with
  | EvConnect sock vmId => handleConnection c sock vmId
  | EvDisconnect client => handleDisconnect client
  | EvData client data => handleData client data
  | EvTcpConnect i => with_link i (onTcpConnect i)
  | EvTcpError i text => with_link i (onTcpError i text)
  | EvTcpClose i => with_link i (onTcpClose i)
  | EvSshReady i => with_link i (onSshReady i)
  | EvForward i error => with_link i (onForward i error)
  | EvSshError i text => with_link i (onSshError i text)
  | EvSshClose i => with_link i (onSshClose i)
  | EvLinkData i data => with_link i (onData data)
  | EvStreamClose i => with_link i (onStreamClose i)
  | EvStreamError i text => with_link i (onStreamError i text)
  | EvTimeout i => with_link i (onTimeout i)
  end.
Definition run (evs : list (Call * Event)) (s : State) : State :=
  foldl (λ s ce, (handle ce.1 ce.2 s).1) s evs.
End system.
End Vnc.
