(* ===== verification/VncProps.v ===== *)
(** * VncProps: consoles are shown to the owner of the machine only *)

From Stdlib Require Import ZArith Lia Ascii String.
From stdpp Require Import base list gmap sets strings pretty.
From S2P Require Import Prelude Text Js Crypto RequestSecurity Sockets VmKeyCrypto Vm Vnc.
Import RequestSecurity Sockets Vnc.
#[local] Open Scope Z_scope.
#[local] Existing Instance Vm.VmStatus_eq_dec.

Module VncProps.
Section props.
Context `{UriCodec, Jwt, UrlParser}.
Implicit Types (s : State) (evs : list (Call * Event)).

(** The part of a link its callbacks never change. *)
Definition core (f : Link) : Link := set_flags false false false f.
Definition cores (s : State) : list Link := core <$> links s.

(** The link was opened by this message: its token verified for an administrator
    or the owner of the running machine the database returned. *)
Record viewed (c : Call) (sock : TSocket) (q : option string) (f : Link) : Prop := {
  vw_client : ln_client f = socket_id sock;
  vw_vmId : q = Some (ln_vmId f);
  vw_user : ∃ token user vm, handshakeToken sock = Ret (Some token) ∧
    jwt_verify (default "" (env c "JWT_SECRET"%string)) token (now c) = Some user ∧
    findVm c (ln_vmId f) = Ret (Some vm) ∧
    (c_role user = Some "ADMIN"%string ∨ c_sub user = Some (Vm.vm_userId vm)) ∧
    Vm.vm_status vm = Vm.RUNNING ∧ Vm.vm_sshHost vm = Some (ln_host f);
}.

Definition effect_ok (evs : list (Call * Event)) (ls : list Link) (e : Effect) : Prop :=
  match e with
  | Emit id (VData d) => ∃ i f c, ls !! i = Some f ∧ ln_client f = id ∧ (c, EvLinkData i d) ∈ evs
  | Write i d => ∃ f c, ls !! i = Some f ∧ (c, EvData (ln_client f) (Some d)) ∈ evs
  | TcpConnect i h p | ForwardOut i h p => ∃ f, ls !! i = Some f ∧ h = ln_host f ∧ p = vncPort
  | _ => True
  end.

Record Inv (evs : list (Call * Event)) (s : State) : Prop := {
  inv_links i f : cores s !! i = Some f → ∃ c sock q, (c, EvConnect sock q) ∈ evs ∧ viewed c sock q f;
  inv_sessions id i : sessions s !! id = Some i → ∃ f, cores s !! i = Some f ∧ ln_client f = id;
  inv_effects e : e ∈ effects s → effect_ok evs (cores s) e;
}.

(** A step that leaves the cores alone keeps the invariant and every fact [P]
    about them. *)
Definition quiet {A} (evs : list (Call * Event)) (P : list Link → Prop) (m : M State A) : Prop :=
  triple (Inv evs) (λ s, P (cores s)) m (λ _ s, P (cores s)).

Lemma quiet_bind {A B} evs P (m : M State A) (k : A → M State B) :
  quiet evs P m → (∀ a, quiet evs P (k a)) → quiet evs P (m ≫= k).
Proof. intros Hm Hk. eapply triple_bind; [exact Hm|exact Hk]. Qed.

Lemma quiet_ret {A} evs P (a : A) : quiet evs P (mret a).
Proof. apply triple_skip. Qed.

Lemma quiet_act evs P e : (∀ ls, P ls → effect_ok evs ls e) → quiet evs P (act e).
Proof.
  intros He s [Hl Hs Hf] HP. simpl. split; [|exact HP]. split; [exact Hl|exact Hs|].
  intros e'. simpl. rewrite elem_of_app, list_elem_of_singleton. intros [Hin| ->]; [by apply Hf|by apply He].
Qed.

Lemma cores_alter g (i : nat) (ls : list Link) : (∀ f, core (g f) = core f) → core <$> alter g i ls = core <$> ls.
Proof.
  intros Hg. apply list_eq. intros j. rewrite !list_lookup_fmap.
  destruct (decide (i = j)) as [->|Hne]; [|by rewrite list_lookup_alter_ne].
  rewrite list_lookup_alter_eq. destruct (ls !! j); simpl; [by rewrite Hg|done].
Qed.

Lemma quiet_flags evs P g i : (∀ f, core (g f) = core f) → quiet evs P (alter_link i g).
Proof.
  intros Hg s [Hl Hs Hf] HP. simpl.
  assert (E : cores (set_links (alter g i (links s)) s) = cores s) by by apply cores_alter.
  rewrite E. split; [|exact HP]. split; rewrite ?E; [exact Hl|exact Hs|exact Hf].
Qed.

Lemma quiet_detach evs P id : quiet evs P (modify (λ s, set_sessions (delete id (sessions s)) s)).
Proof.
  intros s [Hl Hs Hf] HP. simpl. split; [|exact HP]. split; [exact Hl| |exact Hf].
  intros id' i. simpl. intros [_ Hid]%lookup_delete_Some. by apply Hs.
Qed.

Lemma quiet_with_link evs P i k :
  (∀ f, quiet evs (λ ls, P ls ∧ ls !! i = Some (core f)) (k f)) → quiet evs P (with_link i k).
Proof.
  intros Hk s HI HP. unfold with_link. destruct (links s !! i) as [f|] eqn:E; [|done].
  assert (Hf : cores s !! i = Some (core f)) by (unfold cores; by rewrite list_lookup_fmap, E).
  destruct (Hk f s HI (conj HP Hf)) as [HI' HQ]. split; [done|]. case_match; [apply HQ|done].
Qed.

Lemma quiet_reads {A} evs P (f : State → A) : quiet evs P (gets f).
Proof. by intros s HI HP. Qed.

Create HintDb vnc.
Hint Resolve quiet_ret quiet_detach quiet_reads : vnc.

Ltac quiet_auto :=
  repeat first
    [ match goal with |- quiet _ _ (_ ≫= _) => apply quiet_bind; [|intros ?] end
    | match goal with |- quiet _ _ (act _) => apply quiet_act; simpl; first [done | by intros ls [_ ?]; eauto] end
    | match goal with |- quiet _ _ (alter_link _ _) => apply quiet_flags; done end
    | match goal with |- quiet _ _ (clear_timer _) => apply quiet_flags; done end
    | match goal with |- quiet _ _ (with_link _ _) => apply quiet_with_link; intros ? end
    | match goal with |- quiet _ _ (if ?b then _ else _) => destruct b eqn:? end
    | match goal with |- quiet _ _ (match ?x with _ => _ end) => destruct x eqn:? end
    | solve [auto with vnc] ].

Lemma quiet_cleanup evs P client : quiet evs P (cleanupSession client).
Proof. unfold cleanupSession, cleanup. quiet_auto. Qed.
Hint Resolve quiet_cleanup : vnc.

Lemma quiet_refuse evs P client text : quiet evs P (refuse client text).
Proof. unfold refuse. quiet_auto. Qed.
Hint Resolve quiet_refuse : vnc.

Lemma quiet_register evs P i f :
  (∀ ls, P ls → ls !! i = Some (core f)) → quiet evs P (register i f).
Proof.
  intros Hi. unfold register. apply quiet_bind; [|intros []; by apply quiet_flags].
  intros s [Hl Hs Hf] HP. simpl. split; [|exact HP]. split; [exact Hl| |exact Hf].
  intros id j. simpl. rewrite lookup_insert_Some. intros [[<- <-]|[_ Hid]]; [|by apply Hs].
  exists (core f). by split; [apply Hi|].
Qed.

Lemma quiet_ended evs P f : quiet evs P (ended f).
Proof. unfold ended. quiet_auto. Qed.
Hint Resolve quiet_ended : vnc.

(** ** Events *)

Lemma quiet_data evs c client data :
  (c, EvData client data) ∈ evs → quiet evs (λ _, True) (handleData client data).
Proof.
  intros Hev s HI _. unfold handleData. rewrite (bind_eval _ _ _ s (sessions s !! client)) by done.
  destruct (sessions s !! client) as [i|] eqn:Es;
    [|exact (quiet_act evs (λ _, True) (Emit client (VError _)) (λ _ _, I) s HI I)].
  destruct (inv_sessions _ _ HI _ _ Es) as (f & Hf & Hcl).
  enough (Ht : triple (Inv evs) (λ s, cores s !! i = Some f) (try_catch (send i data) (λ _,
    act (Emit client (VError "Failed to forward VNC data"));; cleanupSession client;;
    act (DisconnectSocket client))) (λ _ _, True)) by by apply Ht.
  apply triple_try.
  - destruct data as [d|]; [|by intros s1]. cbn [send].
    apply (triple_weaken _ (λ s, cores s !! i = Some f) _ _ (λ _ s, cores s !! i = Some f)); [|done..].
    apply (quiet_with_link evs (λ ls, ls !! i = Some f)). intros f'.
    destruct (closed f'); [apply quiet_ret|]. apply quiet_act. intros ls [Hls _]. exists f, c.
    by rewrite Hcl.
  - intros e. apply (quiet_bind evs (λ _, True)); [by apply quiet_act|intros []].
    apply quiet_bind; [apply quiet_cleanup|intros []]. by apply quiet_act.
Qed.

(** Opening a link that was admitted. *)
Lemma open_link_spec evs client vmId host k c sock q :
  (c, EvConnect sock q) ∈ evs →
  (∀ r cl t, viewed c sock q {| ln_client := client; ln_vmId := vmId; ln_host := host; ln_kind := k;
     registered := r; closed := cl; timer := t |}) →
  triple (Inv evs) (λ _, True) (open_link client vmId host k)
    (λ i s, ∃ f, cores s !! i = Some f ∧ ln_host f = host).
Proof.
  intros Hev Hv s [Hl Hs Hf] _. simpl.
  set (f := {| ln_client := client |}).
  assert (E : cores (set_links (links s ++ [f]) s) = cores s ++ [core f]) by (unfold cores; simpl; by rewrite fmap_app).
  assert (Hlen : length (links s) = length (cores s)) by (unfold cores; by rewrite length_fmap).
  split; [|exists (core f); rewrite E, Hlen; by rewrite list_lookup_middle].
  assert (Hold : ∀ i f', cores s !! i = Some f' → cores (set_links (links s ++ [f]) s) !! i = Some f').
  { intros i f' Hi. rewrite E. by apply lookup_app_l_Some. }
  split.
  - intros i f'. rewrite E, lookup_app_Some. intros [Hi|[_ Hi]]; [by apply (Hl i)|].
    destruct (i - length (cores s))%nat; [|done]. injection Hi as <-. exists c, sock, q. split; [done|apply Hv].
  - intros id i Hid. destruct (Hs id i Hid) as (f' & Hi & Hc). exists f'. auto.
  - intros e He. apply Hf in He. destruct e as [id m|id|i h p|i o|i h p|i d|i|i|i]; simpl in *; try done.
    + destruct m; try done. naive_solver.
    + naive_solver.
    + naive_solver.
    + naive_solver.
Qed.

Lemma connectDirect_spec evs client vmId host c sock q :
  (c, EvConnect sock q) ∈ evs →
  (∀ k r cl t, viewed c sock q {| ln_client := client; ln_vmId := vmId; ln_host := host; ln_kind := k;
     registered := r; closed := cl; timer := t |}) →
  triple (Inv evs) (λ _, True) (connectDirect client vmId host) (λ _ _, True).
Proof.
  intros Hev Hv. unfold connectDirect. eapply triple_bind; [by eapply open_link_spec|]. intros i.
  apply (triple_weaken _ (λ s, ∃ f, cores s !! i = Some f ∧ ln_host f = host) _ _
           (λ _ s, ∃ f, cores s !! i = Some f ∧ ln_host f = host)); [|done..].
  apply (quiet_act evs (λ ls, ∃ f, ls !! i = Some f ∧ ln_host f = host)).
  intros ls (f & Hf & <-). simpl. eauto.
Qed.

Lemma tunnel_spec evs client vmId host bastion c sock q :
  (c, EvConnect sock q) ∈ evs →
  (∀ k r cl t, viewed c sock q {| ln_client := client; ln_vmId := vmId; ln_host := host; ln_kind := k;
     registered := r; closed := cl; timer := t |}) →
  triple (Inv evs) (λ _, True) (connectViaBastionTunnel c client vmId host bastion) (λ _ _, True).
Proof.
  intros Hev Hv. unfold connectViaBastionTunnel. case_match; [by eapply connectDirect_spec|].
  eapply triple_bind; [by eapply open_link_spec|]. intros i. case_match; [apply triple_throw|].
  apply (triple_weaken _ (λ _, True) _ _ (λ _ _, True)); [|done..].
  by apply (quiet_act evs (λ _, True)).
Qed.

Lemma connection_spec evs c sock q :
  (c, EvConnect sock q) ∈ evs → triple (Inv evs) (λ _, True) (handleConnection c sock q) (λ _ _, True).
Proof.
  intros Hev. unfold handleConnection. apply triple_try; [|intros e; apply (quiet_refuse evs (λ _, True))].
  assert (Hrefuse : ∀ id text, triple (Inv evs) (λ _, True) (refuse id text) (λ _ _, True)).
  { intros id text. apply (quiet_refuse evs (λ _, True)). }
  unfold initSession, lift. destruct (handshakeToken sock) as [[token|]|] eqn:Et; [|by apply Hrefuse|by intros s].
  apply (triple_bind _ _ _ _ (λ a _, a = Some token)); [by intros s|]. intros a.
  apply (triple_weaken _ (λ s, True ∧ a = Some token) _ _ (λ _ _, True)); [|done..].
  apply triple_pure. intros ->. destruct (jwt_verify _ _ _) as [user|] eqn:Eu; [|apply Hrefuse].
  unfold open_console. destruct (q ≫= nonempty) as [vmId|] eqn:Eq; [|apply Hrefuse].
  apply bind_Some in Eq as (v & -> & Ev). assert (v = vmId) as -> by (unfold nonempty in Ev; case_match; congruence).
  unfold lift. destruct (findVm c vmId) as [[vm|]|] eqn:Evm; [|by apply Hrefuse|by intros s].
  apply (triple_bind _ _ _ _ (λ a _, a = Some vm)); [by intros s|]. intros a.
  apply (triple_weaken _ (λ s, True ∧ a = Some vm) _ _ (λ _ _, True)); [|done..].
  apply triple_pure. intros ->. destruct (may_view user vm) eqn:Em; simpl; [|apply Hrefuse].
  case_bool_decide as Hr; simpl; [|apply Hrefuse].
  destruct (Vm.vm_sshHost vm ≫= nonempty) as [host|] eqn:Eh; [|apply Hrefuse].
  assert (Hv : ∀ k r cl t, viewed c sock (Some vmId) {| ln_client := socket_id sock; ln_vmId := vmId;
    ln_host := host; ln_kind := k; registered := r; closed := cl; timer := t |}).
  { intros k r cl t. split; [done..|]. exists token, user, vm. simpl. split_and!; try done.
    - unfold may_view in Em. rewrite orb_true_iff, !bool_decide_eq_true in Em. naive_solver.
    - apply bind_Some in Eh as (h & -> & Eh). unfold nonempty in Eh. case_match; congruence. }
  case_match; [by eapply tunnel_spec|by eapply connectDirect_spec].
Qed.

Lemma callback_spec evs c e :
  (c, e) ∈ evs → triple (Inv evs) (λ _, True) (handle c e) (λ _ _, True).
Proof.
  intros Hev. destruct e; cbn [handle]; [by apply connection_spec|apply (quiet_cleanup evs (λ _, True))
    |by eapply (quiet_data evs)|..];
    apply (quiet_with_link evs (λ _, True)); intros f;
    unfold onTcpConnect, onTcpError, onTcpClose, onSshReady, onForward, onSshError, onSshClose, onData,
      onStreamClose, onStreamError, onTimeout, when; quiet_auto.
  all: try (apply quiet_register; by intros ls [_ ?]).
  apply quiet_act. intros ls [_ Hf]. by exists i, (core f), c.
Qed.

Lemma viewed_mono evs evs' s : evs ⊆ evs' → Inv evs s → Inv evs' s.
Proof.
  intros Hsub [Hl Hs Hf]. split; [|exact Hs|].
  - intros i f Hi. destruct (Hl i f Hi) as (c & sock & q & Hin & Hv). eauto 6.
  - intros e He. apply Hf in He. destruct e as [id m|id|i h p|i o|i h p|i d|i|i|i]; simpl in *; try done.
    + destruct m; try done. naive_solver.
    + naive_solver.
Qed.

Lemma vnc_run evs : Inv evs (run evs init).
Proof.
  induction evs as [|[c e] evs IH] using rev_ind.
  - split; [done|intros id i Hid; simpl in Hid; by rewrite lookup_empty in Hid|by intros e ?%not_elem_of_nil].
  - unfold run. rewrite foldl_app. simpl.
    apply (callback_spec (evs ++ [(c, e)]) c e); [set_solver| |done].
    eapply viewed_mono; [|exact IH]. set_solver.
Qed.

(** C30: a console is shown to the owner of its machine only.  Whatever the
    browsers, the connections and the timers do: a socket's session belongs to a
    connection that this socket was admitted to, with a token that verified for
    an administrator or the owner of the machine, which was RUNNING; what is
    written to a console was sent by its socket, and console output is emitted
    to that socket alone; and connections lead to port 5901 of that machine. *)
Theorem vnc_console_private evs (s := run evs init) :
  (∀ id i, sessions s !! id = Some i → ∃ f c sock q, links s !! i = Some f ∧ ln_client f = id ∧
     (c, EvConnect sock q) ∈ evs ∧ viewed c sock q f) ∧
  (∀ i d, Write i d ∈ effects s → ∃ f c, links s !! i = Some f ∧ (c, EvData (ln_client f) (Some d)) ∈ evs) ∧
  (∀ id d, Emit id (VData d) ∈ effects s → ∃ i f c, links s !! i = Some f ∧ ln_client f = id ∧
     (c, EvLinkData i d) ∈ evs) ∧
  (∀ i h p, TcpConnect i h p ∈ effects s ∨ ForwardOut i h p ∈ effects s →
     ∃ f, links s !! i = Some f ∧ h = ln_host f ∧ p = 5901).
Proof.
  pose proof (vnc_run evs) as [Hl Hs Hf]. fold s in Hl, Hs, Hf.
  assert (Hc : ∀ i f, cores s !! i = Some f → ∃ f0, links s !! i = Some f0 ∧ f = core f0).
  { intros i f. unfold cores. rewrite list_lookup_fmap. destruct (links s !! i); naive_solver. }
  split_and!.
  - intros id i Hid. destruct (Hs id i Hid) as (f & Hi & <-). destruct (Hl i f Hi) as (c & sock & q & Hin & Hv).
    destruct (Hc i f Hi) as (f0 & Hi0 & ->). exists f0, c, sock, q. split_and!; [done..|].
    by destruct Hv as [???]; split.
  - intros i d He. destruct (Hf _ He) as (f & c & (f0 & Hi0 & ->)%Hc & Hin). eauto.
  - intros id d He. destruct (Hf _ He) as (i & f & c & (f0 & Hi0 & ->)%Hc & <- & Hin). eauto 6.
  - intros i h p [He|He]; destruct (Hf _ He) as (f & (f0 & Hi0 & ->)%Hc & -> & ->); eauto.
Qed.
End props.
End VncProps.
