(* ===== verification/VmPlans.v ===== *)
(** * VmPlans: the plan table of the VM service

    services/vm/src/plan/plan.service.ts and plan.controller.ts.  The plans live
    in a [Map] of the process, filled from PLAN_CATALOG_JSON at start-up. *)

From Stdlib Require Import ZArith QArith Lia Ascii String.
From stdpp Require Import base list sets strings sorting.
From S2P Require Import Prelude Text Js Regex Crypto RequestSecurity.
Import RequestSecurity.
#[local] Open Scope Z_scope.

Module VmPlans.

Record PlanRecord := {
  pl_id : string; pl_name : string; pl_maxVms : Z; pl_cpu : Z; pl_ramMb : Z; pl_diskGb : Z;
  pl_priceMonthly : Q; pl_isActive : bool;
}.

(** One entry of the parsed catalogue. *)
Record PlanCfg := { cg_amountDt : option Q; cg_maxVms : option Z; cg_maxCpu : option Z;
                    cg_maxRamMb : option Z; cg_maxDiskGb : option Z }.

(** [.sort((a, b) => a.priceMonthly - b.priceMonthly)], which is stable. *)
Fixpoint insert_plan (p : PlanRecord) (l : list PlanRecord) : list PlanRecord :=
  match l with
  | [] => [p]
  | q :: l' => if Qle_bool (pl_priceMonthly p) (pl_priceMonthly q) then p :: l
               else q :: insert_plan p l'
  end.
Definition sort_plans (l : list PlanRecord) : list PlanRecord := foldr insert_plan [] l.

(** [`${id[0].toUpperCase()}${id.slice(1)} Plan`]; the empty id has no first
    character and throws. *)
Definition plan_title (id : string) : option string :=
  match id with
  | EmptyString => None
  | String c rest => Some (String (char_upper c) rest +:+ " Plan")
  end.
Definition initial_plan (id : string) (cfg : PlanCfg) : option PlanRecord :=
  name ← plan_title id;
  Some {| pl_id := id; pl_name := name; pl_maxVms := default 1 (cg_maxVms cfg);
          pl_cpu := default 1 (cg_maxCpu cfg); pl_ramMb := default 512 (cg_maxRamMb cfg);
          pl_diskGb := default 5 (cg_maxDiskGb cfg); pl_priceMonthly := default 0%Q (cg_amountDt cfg);
          pl_isActive := true |}.
(** [parse] is JSON.parse on the catalogue; a text or an entry it cannot use
    leaves the table empty. *)
Definition loadInitialPlans (parse : string → option (list (string * PlanCfg))) (env : Env)
    : list PlanRecord :=
  match env "PLAN_CATALOG_JSON"%string ≫= nonempty with
  | None => []
  | Some catalog =>
      match parse catalog ≫= λ entries, mapM (λ e, initial_plan e.1 e.2) entries with
      | Some plans => sort_plans plans
      | None => []
      end
  end.

Abbreviation State := (list (string * PlanRecord)).
Definition initial (parse : string → option (list (string * PlanCfg))) (env : Env) : State :=
  foldl (λ m p, jset (pl_id p) p m) [] (loadInitialPlans parse env).

Definition findAll : M State (list PlanRecord) :=
  gets (λ s, sort_plans (List.filter pl_isActive (snd <$> s))).

Definition findOne (id : string) : M State PlanRecord :=
  plan ← gets (jget id);
  match plan with
  | None => throw (NotFoundException "Plan not found")
  | Some p => mret p
  end.

Record CreatePlanDto := { cp_name : string; cp_maxVms : Z; cp_cpu : Z; cp_ramMb : Z; cp_diskGb : Z;
                          cp_priceMonthly : Q }.
Definition name_char (c : ascii) : bool :=
  is_alnum c || bool_decide (c = "-"%char) || bool_decide (c = " "%char).
Definition CreatePlanDto_ok (d : CreatePlanDto) : bool :=
  (1 <=? js_length (cp_name d)) && (js_length (cp_name d) <=? 64) && forallb name_char (chars (cp_name d))
  && (1 <=? cp_maxVms d) && (1 <=? cp_cpu d) && (512 <=? cp_ramMb d) && (5 <=? cp_diskGb d)
  && Qle_bool 0 (cp_priceMonthly d).

Definition create (newId : string) (dto : CreatePlanDto) : M State PlanRecord :=
  let plan := {| pl_id := newId; pl_name := cp_name dto; pl_maxVms := cp_maxVms dto;
                 pl_cpu := cp_cpu dto; pl_ramMb := cp_ramMb dto; pl_diskGb := cp_diskGb dto;
                 pl_priceMonthly := cp_priceMonthly dto; pl_isActive := true |} in
  modify (jset newId plan);; mret plan.

(** The body of a PATCH.  Its declared type is erased, so the validation pipe
    has no class to check it against and every property gets through, the ones
    a DTO does not have included. *)
Record PlanPatch := { pt_id : option string; pt_name : option string; pt_maxVms : option Z;
  pt_cpu : option Z; pt_ramMb : option Z; pt_diskGb : option Z; pt_priceMonthly : option Q;
  pt_isActive : option bool }.
(** [{ ...plan, ...dto }] *)
Definition spread (p : PlanRecord) (d : PlanPatch) : PlanRecord :=
  {| pl_id := default (pl_id p) (pt_id d); pl_name := default (pl_name p) (pt_name d);
     pl_maxVms := default (pl_maxVms p) (pt_maxVms d); pl_cpu := default (pl_cpu p) (pt_cpu d);
     pl_ramMb := default (pl_ramMb p) (pt_ramMb d); pl_diskGb := default (pl_diskGb p) (pt_diskGb d);
     pl_priceMonthly := default (pl_priceMonthly p) (pt_priceMonthly d);
     pl_isActive := default (pl_isActive p) (pt_isActive d) |}.
Definition update (id : string) (dto : PlanPatch) : M State PlanRecord :=
  plan ← findOne id;
  let updated := spread plan dto in
  modify (jset id updated);; mret updated.

Definition deactivate (id : string) : M State PlanRecord :=
  plan ← findOne id;
  let updated := {| pl_id := pl_id plan; pl_name := pl_name plan; pl_maxVms := pl_maxVms plan;
                    pl_cpu := pl_cpu plan; pl_ramMb := pl_ramMb plan; pl_diskGb := pl_diskGb plan;
                    pl_priceMonthly := pl_priceMonthly plan; pl_isActive := false |} in
  modify (jset id updated);; mret updated.

(** ** The routes with their guards *)

Inductive Request :=
| GetPlans
| PostPlan (newId : string) (dto : CreatePlanDto)
| PatchPlan (id : string) (dto : PlanPatch)
| DeletePlan (id : string).
(** [@UseGuards(JwtAuthGuard, RolesGuard) @Roles("ADMIN")]; [user] is what the
    first guard admitted. *)
Definition as_admin {A} (user : option Identity) (m : M State A) : M State A :=
  match user with
  | None => throw (UnauthorizedException "Unauthorized")
  | Some u =>
      allowed ← lift (rolesGuard (Some ["ADMIN"%string]) (Some u));
      if (allowed : bool) then m else throw (ForbiddenException "Forbidden resource")
  end.
Definition handle (user : option Identity) (r : Request) : M State (list PlanRecord) :=
  match r with
  | GetPlans => findAll
  | PostPlan newId dto =>
      as_admin user (if CreatePlanDto_ok dto then p ← create newId dto; mret [p]
                     else throw (BadRequestException "Bad Request Exception"))
  | PatchPlan id dto => as_admin user (p ← update id dto; mret [p])
  | DeletePlan id => as_admin user (p ← deactivate id; mret [p])
  end.

(** ** Facts *)

Lemma insert_plan_perm p l : insert_plan p l ≡ₚ p :: l.
Proof. induction l as [|q l IH]; simpl; [done|]. case_match; [done|]. rewrite IH. apply Permutation_swap. Qed.

Lemma sort_plans_perm l : sort_plans l ≡ₚ l.
Proof. induction l as [|p l IH]; simpl; [done|]. by rewrite insert_plan_perm, IH. Qed.

Definition cheaper (p q : PlanRecord) : Prop := (pl_priceMonthly p <= pl_priceMonthly q)%Q.

Lemma insert_plan_sorted p l : StronglySorted cheaper l → StronglySorted cheaper (insert_plan p l).
Proof.
  induction 1 as [|q l Hs IH Hq]; simpl; [repeat constructor|]. destruct (Qle_bool _ _) eqn:E.
  - apply Qle_bool_iff in E. repeat constructor; [done..|]. eapply Forall_impl; [exact Hq|].
    intros r Hr. unfold cheaper in *. by eapply Qle_trans.
  - constructor; [done|]. rewrite insert_plan_perm. constructor; [|done].
    unfold cheaper. apply Qnot_lt_le. intros Hlt. apply Qlt_le_weak, Qle_bool_iff in Hlt. congruence.
Qed.

Lemma sort_plans_sorted l : StronglySorted cheaper (sort_plans l).
Proof. induction l; simpl; [constructor|by apply insert_plan_sorted]. Qed.

(** Only administrators change the table, and the public list is the active
    plans, cheapest first. *)
Lemma plans_guarded user r s :
  (user ≫= role ≠ Some "ADMIN"%string → (handle user r s).1 = s) ∧
  ∃ l, findAll s = (s, Ret l) ∧ StronglySorted cheaper l ∧
    ∀ p, p ∈ l ↔ p ∈ snd <$> s ∧ pl_isActive p = true.
Proof.
  split.
  - intros Hu. assert (Ha : ∀ A (m : M State A), (as_admin user m s).1 = s).
    { intros A m. unfold as_admin. destruct user as [u|]; [|done]. unfold lift, rolesGuard. m_red.
      destruct (role u) as [ro|] eqn:Er; [|done]. case_bool_decide as Hin; [|done].
      exfalso. apply Hu. apply list_elem_of_singleton in Hin. by subst ro. }
    destruct r; simpl; [done|apply Ha..].
  - eexists. split; [done|]. split; [apply sort_plans_sorted|]. intros p.
    rewrite sort_plans_perm. rewrite !list_elem_of_In, filter_In. done.
Qed.
End VmPlans.
