(* ===== verification/VmGatewayWitness.v ===== *)
(** * VmGatewayWitness: concrete runs of the event, console and plan routes *)

From Stdlib Require Import ZArith QArith Lia Ascii String.
From stdpp Require Import base list gmap sets strings pretty.
From S2P Require Import Prelude Text Js Crypto RequestSecurity Sockets VmKeyCrypto Vm VmEvents Vnc VncProps VmPlans.
Import RequestSecurity Sockets.
#[local] Open Scope Z_scope.

Module VmGatewayWitness.
#[local] Existing Instance sample_hashing.
#[local] Existing Instance sample_uri.
#[local] Existing Instance sample_jwt.
Definition no_urls : UrlParser := {| url_hostname := λ _, None; url_host := λ _, None |}.
#[local] Existing Instance no_urls.

Definition console_vm : Vm.VirtualMachine :=
  {| Vm.vm_name := "web"; Vm.vm_oneVmId := Some 7; Vm.vm_status := Vm.RUNNING; Vm.vm_cpu := 1;
     Vm.vm_ramMb := 1024; Vm.vm_diskGb := 10; Vm.vm_ipAddress := None;
     Vm.vm_osTemplate := "ubuntu"; Vm.vm_userId := "alice"; Vm.vm_planId := None;
     Vm.vm_sshHost := Some "10.0.0.9"%string; Vm.vm_sshPort := None;
     Vm.vm_sshUsername := Some "cloudvm"%string; Vm.vm_sshPrivateKeyEncrypted := None;
     Vm.vm_stoppedAt := None; Vm.vm_createdAt := 0 |}.
Definition lookup_vm (id : string) : outcome (option Vm.VirtualMachine) :=
  Ret (if bool_decide (id = "vm1"%string) then Some console_vm else None).
Definition secret_env (k : string) : option string :=
  if bool_decide (k = "JWT_SECRET"%string) then Some "s"%string else None.

Definition claims (sub fp : string) : Claims :=
  {| c_sub := Some sub; c_email := None; c_role := Some "USER"%string; c_fp := Some fp; c_type := None;
     c_jti := None; c_vmId := None; c_vmName := None; c_action := None; c_exp := None |}.
Definition sock_of (id sub fp : string) : TSocket :=
  {| socket_id := id; handshake := sample_socket; auth_token := Some (jwt_sign "s" (claims sub fp) 900 0) |}.
Definition own_socket (id sub : string) : TSocket :=
  sock_of id sub (buildSocketFingerprint sample_socket).

Definition ev_call : VmEvents.Call :=
  {| VmEvents.now := 0; VmEvents.env := secret_env; VmEvents.findVm := lookup_vm |}.
Definition key_ready : VmEvents.VmSshReadyPayload :=
  {| VmEvents.sr_vmId := Some "vm1"%string; VmEvents.sr_userId := None;
     VmEvents.sr_privateKey := Some "PEM"%string; VmEvents.sr_generatedSshPrivateKey := None;
     VmEvents.sr_sshPrivateKey := None |}.
Definition announced : list (VmEvents.Call * VmEvents.Event) :=
  [(ev_call, VmEvents.EvConnect (own_socket "a" "alice")); (ev_call, VmEvents.EvConnect (own_socket "b" "bob"));
   (ev_call, VmEvents.EvSshReady key_ready)].

Example key_reaches_owner :
  VmEvents.received (VmEvents.run announced VmEvents.init) =
  [("a"%string, VmEvents.VmSshKeyMsg "vm1" "PEM")].
Proof. vm_compute. reflexivity. Qed.

Lemma vm_events_private_witness :
  ∃ p c e w, VmEvents.socket_of announced "a" p ∧ (c, e) ∈ announced ∧
    VmEvents.announces e (VmEvents.VmSshKeyMsg "vm1" "PEM") ∧ VmEvents.addressee c e w ∧
    (w = default "undefined"%string (c_sub p) ∨ c_role p = Some "ADMIN"%string ∧ False).
Proof.
  apply (VmEvents.vm_events_private announced "a" (VmEvents.VmSshKeyMsg "vm1" "PEM")).
  rewrite key_reaches_owner. apply list_elem_of_here.
Defined.

(** ** Where the code does not do what it means to *)

Definition vnc_call : Vnc.Call :=
  {| Vnc.now := 0; Vnc.env := secret_env; Vnc.findVm := lookup_vm; Vnc.connect_throws := λ _, None |}.

(** A token issued to another client opens a console; the events refuse it. *)
Example console_accepts_stolen_token :
  let stolen := sock_of "thief" "alice" "fingerprint of another client" in
  let s := Vnc.run [(vnc_call, Vnc.EvConnect stolen (Some "vm1"%string)); (vnc_call, Vnc.EvTcpConnect 0)] Vnc.init in
  (Vnc.sessions s !! "thief"%string,
   VmEvents.disconnected (VmEvents.run [(ev_call, VmEvents.EvConnect stolen)] VmEvents.init)) =
  (Some 0%nat, ["thief"%string]).
Proof. vm_compute. reflexivity. Qed.

(** The end of a direct console is announced twice. *)
Example console_closes_twice :
  let s := Vnc.run [(vnc_call, Vnc.EvConnect (own_socket "a" "alice") (Some "vm1"%string));
                    (vnc_call, Vnc.EvTcpConnect 0); (vnc_call, Vnc.EvTcpClose 0)] Vnc.init in
  List.filter (λ e, match e with Vnc.Emit _ (Vnc.VClose _) => true | _ => false end) (Vnc.effects s) =
  [Vnc.Emit "a" (Vnc.VClose "VNC session ended"); Vnc.Emit "a" (Vnc.VClose "VNC session ended")].
Proof. vm_compute. reflexivity. Qed.

(** A console that connects after its socket left stays open. *)
Example console_survives_its_socket :
  let s := Vnc.run [(vnc_call, Vnc.EvConnect (own_socket "a" "alice") (Some "vm1"%string));
                    (vnc_call, Vnc.EvDisconnect "a"); (vnc_call, Vnc.EvTcpConnect 0)] Vnc.init in
  Vnc.sessions s !! "a"%string = Some 0%nat.
Proof. vm_compute. reflexivity. Qed.

(** A PATCH is not validated: it can store a plan below every minimum. *)
Definition pro : VmPlans.CreatePlanDto :=
  {| VmPlans.cp_name := "Pro"; VmPlans.cp_maxVms := 3; VmPlans.cp_cpu := 4; VmPlans.cp_ramMb := 4096;
     VmPlans.cp_diskGb := 50; VmPlans.cp_priceMonthly := 30 |}.
Definition bad_patch : VmPlans.PlanPatch :=
  {| VmPlans.pt_id := None; VmPlans.pt_name := None; VmPlans.pt_maxVms := Some (-1); VmPlans.pt_cpu := None;
     VmPlans.pt_ramMb := Some 0; VmPlans.pt_diskGb := None; VmPlans.pt_priceMonthly := Some (-5)%Q;
     VmPlans.pt_isActive := Some true |}.
Definition admin : option Identity :=
  Some {| userId := Some "root"%string; email := None; role := Some "ADMIN"%string |}.
Example patch_is_not_validated :
  let s1 := (VmPlans.handle admin (VmPlans.PostPlan "p1" pro) []).1 in
  let s2 := (VmPlans.handle admin (VmPlans.DeletePlan "p1") s1).1 in
  let s3 := (VmPlans.handle admin (VmPlans.PatchPlan "p1" bad_patch) s2).1 in
  map (λ kp, (VmPlans.pl_maxVms kp.2, VmPlans.pl_priceMonthly kp.2, VmPlans.pl_isActive kp.2)) s3 =
  [(-1, (-5)%Q, true)].
Proof. vm_compute. reflexivity. Qed.
End VmGatewayWitness.
