(* ===== verification/WebClient.v ===== *)
(** * WebClient: the browser side of a session

    frontend/src/lib: session.ts (the cookie scripts may write), api.ts (the
    axios client that refreshes the session once per 401), auth.ts (the store of
    the signed-in user), error.ts, runtime-urls.ts and vmSshKeyStore.ts; and the
    components AuthRedirectListener and LandingRedirectGate.  One tab is one
    [Browser]: its cookies, the store, the address, and the calls in flight;
    answers arrive as events, in any order. *)

From Stdlib Require Import ZArith Lia Ascii String.
From stdpp Require Import base list gmap strings.
From S2P Require Import Prelude Text Js Dto Crypto RequestSecurity Cookies Gateway Startup AuthHttp.
Import Cookies.
#[local] Open Scope Z_scope.

Module WebClient.

(** ** lib/error.ts *)

(** [response.data.message]: a text, an array of texts, or something else. *)
Inductive DataMessage := MText (s : string) | MTexts (l : list string) | MNone.
(** An axios error; [e_status] is [None] without a response. *)
Record ApiError := {
  e_status : option Z; e_data : DataMessage; e_error : option string;
  e_statusText : option string; e_message : option string;
}.
Definition getErrorMessage (err : ApiError) (fallback : string) : string :=
  let rest :=
    if opt_truthy (e_error err) then default "" (e_error err)
    else if opt_truthy (js_trim <$> e_message err) then default "" (e_message err)
    else if opt_truthy (e_statusText err) then default "" (e_statusText err)
    else fallback in
  match e_data err with
  | MTexts (x :: l) => String.concat ", " (x :: l)
  | MText s => if truthy (js_trim s) then s else rest
  | _ => rest
  end.
(** What the client makes of an answer of the services to an exception. *)
Definition nest_error (st : Z) (message : string) : ApiError :=
  {| e_status := Some st; e_data := MText message; e_error := None; e_statusText := None;
     e_message := Some "Request failed"%string |}.

(** ** lib/runtime-urls.ts *)

(** [value.slice(0, -4)] *)
Definition normalizeApiOrigin (value : string) : string :=
  if ends_with "/api" value then str (take (length (chars value) - 4) (chars value)) else value.
(** [None]: rendered on the server. *)
Definition inferGatewayOriginFromWindow (window : option string) : string :=
  default "https://127.0.0.1"%string window.
Definition resolveApiOrigin (configured window : option string) : string :=
  if opt_truthy configured then normalizeApiOrigin (default "" configured)
  else inferGatewayOriginFromWindow window.
Definition resolveVmWsOrigin (vmWs configured window : option string) : string :=
  if opt_truthy vmWs then normalizeApiOrigin (default "" vmWs) else resolveApiOrigin configured window.

(** ** lib/session.ts *)

Definition REMEMBER_ME_COOKIE : string := "rememberMe"%string.
(** [Cookies.get] of js-cookie. *)
Definition cookie_get (t : Z) (https : bool) (jar : Jar) (name : string) : option string :=
  st_value <$> jget name (script_view t https jar).
Definition isRememberMeEnabled (t : Z) (https : bool) (jar : Jar) : bool :=
  bool_decide (cookie_get t https jar REMEMBER_ME_COOKIE = Some "1"%string).
Definition remember_cookie (https rememberMe : bool) : SetCookie :=
  {| ck_name := REMEMBER_ME_COOKIE; ck_value := Some (if rememberMe then "1" else "0")%string;
     ck_httpOnly := false; ck_secure := https; ck_sameSite := Strict;
     ck_maxAge := if rememberMe then Some (30 * 86400000) else None |}.
Definition setAuthCookies (t : Z) (https rememberMe : bool) (jar : Jar) : Jar :=
  script_store t https jar (remember_cookie https rememberMe).
Definition clearAuthCookies (t : Z) (https : bool) (jar : Jar) : Jar :=
  script_store t https jar {| ck_name := REMEMBER_ME_COOKIE; ck_value := None; ck_httpOnly := false;
                              ck_secure := false; ck_sameSite := Lax; ck_maxAge := None |}.

(** ** lib/auth.ts *)

Record WebUser := { wu_id : string; wu_role : string; wu_firstName : string; wu_lastName : string; wu_email : string }.
Record AuthStore := { user : option WebUser; isLoading : bool; isAuthenticated : bool }.
Definition initial_store : AuthStore := {| user := None; isLoading := true; isAuthenticated := false |}.
Definition signed_in (u : WebUser) : AuthStore := {| user := Some u; isLoading := false; isAuthenticated := true |}.
Definition signed_out : AuthStore := {| user := None; isLoading := false; isAuthenticated := false |}.

Inductive LoginData :=
| MfaRequired (challengeId devOtp : option string)
| LoggedIn (u : WebUser).

(** What an action of the store does once the answer is there; it rethrows an
    error of login, verifyMfa and register to the page. *)
Inductive Action :=
| Login (rememberMe : bool) (r : ApiError + LoginData)
| VerifyMfa (r : ApiError + WebUser * option bool)
| Register (r : ApiError + WebUser)
| Logout
| ForceLogout
| FetchUser (r : ApiError + WebUser).

Definition run_action (t : Z) (https : bool) (a : Action) (s : AuthStore) (jar : Jar) : AuthStore * Jar :=
  match a with
  | Login rememberMe r =>
      match r with
      | inl _ => (s, jar)
      | inr (MfaRequired _ _) => (signed_out, jar)
      | inr (LoggedIn u) => (signed_in u, setAuthCookies t https rememberMe jar)
      end
  | VerifyMfa r =>
      match r with
      | inl _ => (s, jar)
      | inr (u, rememberMe) => (signed_in u, setAuthCookies t https (bool_decide (rememberMe = Some true)) jar)
      end
  | Register r =>
      match r with
      | inl _ => (s, jar)
      | inr u => (signed_in u, setAuthCookies t https true jar)
      end
  | Logout | ForceLogout => (signed_out, clearAuthCookies t https jar)
  | FetchUser r =>
      match r with
      | inr u => (signed_in u, jar)
      | inl e =>
          if bool_decide (e_status e = Some 401) then (signed_out, clearAuthCookies t https jar)
          else ({| user := user s; isLoading := false; isAuthenticated := isAuthenticated s |}, jar)
      end
  end.

(** ** lib/api.ts *)

Definition isAuthFlowRequest (requestUrl : string) : bool :=
  includes "/auth/login" requestUrl || includes "/auth/mfa/verify" requestUrl
  || includes "/auth/register" requestUrl || includes "/auth/refresh" requestUrl.

(** The life of one call: on the wire, for the first or the second time
    ([_retry]); waiting for [refreshPromise] with the error it got; done. *)
Inductive CallState :=
| Sent (url : string) (retry : bool)
| Waiting (url : string) (error : ApiError)
| Resolved
| Rejected (error : ApiError).

Record Browser := {
  jar : Jar; auth : AuthStore; path : string;
  calls : gmap nat CallState;
  refreshPromise : bool;               (* one is pending *)
  wire : list nat;                     (* the calls sent, in order *)
  refreshes : nat; refreshesAnswered : nat;
}.
Definition set_calls (x : gmap nat CallState) (b : Browser) : Browser :=
  {| jar := jar b; auth := auth b; path := path b; calls := x; refreshPromise := refreshPromise b;
     wire := wire b; refreshes := refreshes b; refreshesAnswered := refreshesAnswered b |}.
Definition set_jar (x : Jar) (b : Browser) : Browser :=
  {| jar := x; auth := auth b; path := path b; calls := calls b; refreshPromise := refreshPromise b;
     wire := wire b; refreshes := refreshes b; refreshesAnswered := refreshesAnswered b |}.

(** [refreshSession()]: joins the pending refresh or starts one. *)
Definition refreshSession (b : Browser) : Browser :=
  if refreshPromise b then b
  else {| jar := jar b; auth := auth b; path := path b; calls := calls b; refreshPromise := true;
          wire := wire b; refreshes := S (refreshes b); refreshesAnswered := refreshesAnswered b |}.

(** The interceptor on a failed answer to call [id]. *)
Definition intercept (id : nat) (url : string) (retry : bool) (error : ApiError) (b : Browser) : Browser :=
  if isAuthFlowRequest url then set_calls (<[id := Rejected error]> (calls b)) b
  else if bool_decide (e_status error = Some 401) && negb retry
  then refreshSession (set_calls (<[id := Waiting url error]> (calls b)) b)
  else set_calls (<[id := Rejected error]> (calls b)) b.

(** What the settled refresh does to a call. *)
Definition resume (ok : bool) (c : CallState) : CallState :=
  match c with
  | Waiting url error => if ok then Sent url true else Rejected error
  | _ => c
  end.
Definition is_waiting (c : CallState) : bool := match c with Waiting _ _ => true | _ => false end.
Definition waiting_ids (m : gmap nat CallState) : list nat :=
  (List.filter (λ kc, is_waiting kc.2) (map_to_list m)).*1.

(** The handler of "auth:logout" in AuthRedirectListener. *)
Definition handleLogout (t : Z) (https : bool) (b : Browser) : Browser :=
  let '(s, j) := run_action t https ForceLogout (auth b) (jar b) in
  {| jar := j; auth := s; path := if bool_decide (path b = "/login"%string) then path b else "/login"%string;
     calls := calls b; refreshPromise := refreshPromise b; wire := wire b; refreshes := refreshes b;
     refreshesAnswered := refreshesAnswered b |}.

(** [.then], [.catch], [.finally], and then the waiting calls go on. *)
Definition refreshSettled (t : Z) (https ok : bool) (b : Browser) : Browser :=
  let b := if ok then set_jar (setAuthCookies t https (isRememberMeEnabled t https (jar b)) (jar b)) b
           else handleLogout t https (set_jar (clearAuthCookies t https (jar b)) b) in
  {| jar := jar b; auth := auth b; path := path b; calls := resume ok <$> calls b; refreshPromise := false;
     wire := wire b ++ (if ok then waiting_ids (calls b) else []);
     refreshes := refreshes b; refreshesAnswered := S (refreshesAnswered b) |}.

Inductive Event :=
| Issue (id : nat) (url : string)                       (* [api(...)] *)
| Answer (id : nat) (cookies : list SetCookie) (error : option ApiError)
| RefreshAnswer (cookies : list SetCookie) (ok : bool)
| StoreAction (a : Action).

(** [None]: the event cannot happen in this state. *)
Definition step (t : Z) (https : bool) (e : Event) (b : Browser) : option Browser :=
  match e with
  | Issue id url =>
      if bool_decide (calls b !! id = None)
      then Some {| jar := jar b; auth := auth b; path := path b; calls := <[id := Sent url false]> (calls b);
                   refreshPromise := refreshPromise b; wire := wire b ++ [id];
                   refreshes := refreshes b; refreshesAnswered := refreshesAnswered b |}
      else None
  | Answer id cookies error =>
      match calls b !! id with
      | Some (Sent url retry) =>
          let b := set_jar (store_cookies t https cookies (jar b)) b in
          Some match error with
               | None => set_calls (<[id := Resolved]> (calls b)) b
               | Some err => intercept id url retry err b
               end
      | _ => None
      end
  | RefreshAnswer cookies ok =>
      if refreshPromise b
      then Some (refreshSettled t https ok (set_jar (store_cookies t https cookies (jar b)) b))
      else None
  | StoreAction a =>
      let '(s, j) := run_action t https a (auth b) (jar b) in
      Some {| jar := j; auth := s; path := path b; calls := calls b; refreshPromise := refreshPromise b;
              wire := wire b; refreshes := refreshes b; refreshesAnswered := refreshesAnswered b |}
  end.

Definition opened (j : Jar) (p : string) : Browser :=
  {| jar := j; auth := initial_store; path := p; calls := ∅; refreshPromise := false; wire := [];
     refreshes := 0; refreshesAnswered := 0 |}.
Inductive reachable : Browser → Prop :=
| r_open j p : reachable (opened j p)
| r_step t https e b b' : reachable b → step t https e b = Some b' → reachable b'.

(** ** components/auth *)

(** AuthRedirectListener: the address the page is moved to when it mounts. *)
Record Location := { l_origin : string; l_host : string; l_pathname : string; l_search : string; l_hash : string }.
Section listener.
Context `{AuthHttp.UrlOrigin}.
Definition targetOrigin (configured : option string) (l : Location) : string :=
  let desired := if opt_truthy configured then default "" (AuthHttp.url_origin (default "" configured)) else "" in
  str_or desired ("https://" +:+ l_host l).
Definition mounted (configured : option string) (l : Location) : option string :=
  let target := targetOrigin configured l in
  if bool_decide (l_origin l = target) then None
  else Some (target +:+ l_pathname l +:+ l_search l +:+ l_hash l).
End listener.

(** LandingRedirectGate: the cookies after the effect, and the redirect. *)
Definition landingGate (t : Z) (https : bool) (navigationType : string) (j : Jar) : Jar * option string :=
  let rememberMe := isRememberMeEnabled t https j in
  if negb rememberMe && bool_decide (navigationType = "reload"%string) then (clearAuthCookies t https j, None)
  else if rememberMe && opt_truthy (cookie_get t https j "accessToken")
  then (j, Some "/dashboard/profile"%string)
  else (j, None).

(** ** lib/vmSshKeyStore.ts *)

(** [JSON.parse] ([None] when it throws) and [JSON.stringify]; an object comes
    back with the same texts and booleans under the same names. *)
Class JsonCodec := {
  json_parse : string → option Dto.Json;
  json_stringify : Dto.Json → string;
  json_object l : ∃ l', json_parse (json_stringify (Dto.JObj l)) = Some (Dto.JObj l') ∧
    (∀ k s, jget k l' = Some (Dto.JStr s) ↔ jget k l = Some (Dto.JStr s)) ∧
    (∀ k b, jget k l' = Some (Dto.JBool b) ↔ jget k l = Some (Dto.JBool b));
  json_array l : ∃ l', json_parse (json_stringify (Dto.JArr l)) = Some (Dto.JArr l');
  json_stringify_truthy j : truthy (json_stringify j) = true;
}.

Definition VM_SSH_KEY_STORAGE : string := "cloudvm.vmSshPrivateKeys"%string.
Definition USER_GENERATED_SSH_KEY_STORAGE : string := "cloudvm.userGeneratedSshPrivateKeys"%string.
Definition USER_GENERATED_SSH_KEY_FILENAME_STORAGE : string := "cloudvm.userGeneratedSshPrivateKeyFilenames"%string.
Definition USER_GENERATED_SSH_KEY_DOWNLOADED_STORAGE : string :=
  "cloudvm.userGeneratedSshPrivateKeysDownloaded"%string.

Section keys.
Context `{JsonCodec}.
(** [window.localStorage]; the functions run in a browser. *)
Abbreviation Storage := (gmap string string).

(** [readStringMap] and [readBoolMap] have the same body: an array is an object too. *)
Definition readMap (storageKey : string) (ls : Storage) : Dto.Json :=
  match ls !! storageKey with
  | Some raw =>
      if truthy raw then
        match json_parse raw with
        | Some (Dto.JObj l) => Dto.JObj l
        | Some (Dto.JArr l) => Dto.JArr l
        | _ => Dto.JObj []
        end
      else Dto.JObj []
  | None => Dto.JObj []
  end.
Definition writeMap (storageKey : string) (map : Dto.Json) (ls : Storage) : Storage :=
  <[storageKey := json_stringify map]> ls.
(** [map[k]] and [map[k] = v] for an id [k]; [__proto__] is not a property of its
    own, and an array does not keep a named property when it is written. *)
Definition prop (map : Dto.Json) (k : string) : option Dto.Json :=
  match map with Dto.JObj l => if bool_decide (k = "__proto__"%string) then None else jget k l | _ => None end.
Definition set_prop (map : Dto.Json) (k : string) (v : Dto.Json) : Dto.Json :=
  match map with
  | Dto.JObj l => if bool_decide (k = "__proto__"%string) then map else Dto.JObj (jset k v l)
  | _ => map
  end.
(** [typeof key === "string" && key.length > 0 ? key : null] *)
Definition text_prop (o : option Dto.Json) : option string :=
  match o with Some (Dto.JStr s) => nonempty s | _ => None end.

Definition saveGeneratedVmSshPrivateKey (vmId privateKey : string) (ls : Storage) : Storage :=
  if negb (truthy vmId) || negb (truthy privateKey) then ls
  else writeMap VM_SSH_KEY_STORAGE (set_prop (readMap VM_SSH_KEY_STORAGE ls) vmId (Dto.JStr privateKey)) ls.
Definition getGeneratedVmSshPrivateKey (vmId : string) (ls : Storage) : option string :=
  if negb (truthy vmId) then None else text_prop (prop (readMap VM_SSH_KEY_STORAGE ls) vmId).

Definition saveUserGeneratedSshPrivateKey (sshKeyId privateKey : string) (filename : option string)
    (ls : Storage) : Storage :=
  if negb (truthy sshKeyId) || negb (truthy privateKey) then ls
  else
    let ls := writeMap USER_GENERATED_SSH_KEY_STORAGE
                (set_prop (readMap USER_GENERATED_SSH_KEY_STORAGE ls) sshKeyId (Dto.JStr privateKey)) ls in
    if opt_truthy filename
    then writeMap USER_GENERATED_SSH_KEY_FILENAME_STORAGE
           (set_prop (readMap USER_GENERATED_SSH_KEY_FILENAME_STORAGE ls) sshKeyId
              (Dto.JStr (default "" filename))) ls
    else ls.
Definition getUserGeneratedSshPrivateKey (sshKeyId : string) (ls : Storage) : option string :=
  if negb (truthy sshKeyId) then None else text_prop (prop (readMap USER_GENERATED_SSH_KEY_STORAGE ls) sshKeyId).
Definition getUserGeneratedSshPrivateKeyFilename (sshKeyId : string) (ls : Storage) : option string :=
  if negb (truthy sshKeyId) then None
  else text_prop (prop (readMap USER_GENERATED_SSH_KEY_FILENAME_STORAGE ls) sshKeyId).
Definition hasDownloadedGeneratedSshPrivateKey (sshKeyId : string) (ls : Storage) : bool :=
  if negb (truthy sshKeyId) then false
  else match prop (readMap USER_GENERATED_SSH_KEY_DOWNLOADED_STORAGE ls) sshKeyId with
       | Some (Dto.JBool true) => true
       | _ => false
       end.
Definition markGeneratedSshPrivateKeyDownloaded (sshKeyId : string) (ls : Storage) : Storage :=
  if negb (truthy sshKeyId) then ls
  else writeMap USER_GENERATED_SSH_KEY_DOWNLOADED_STORAGE
         (set_prop (readMap USER_GENERATED_SSH_KEY_DOWNLOADED_STORAGE ls) sshKeyId (Dto.JBool true)) ls.
End keys.
End WebClient.
