(* ===== verification/WebClientProps.v ===== *)
(** * WebClientProps: what the browser side guarantees

    The client of lib/api.ts over any order of answers: one refresh at a time,
    each call sent at most twice and settled; the store of the user; the
    remember-me choice as the auth service reads it back; the private keys kept
    in the browser. *)

From Stdlib Require Import ZArith Lia Ascii String.
From stdpp Require Import base list gmap strings.
From S2P Require Import Prelude Text Js Dto Crypto RequestSecurity Cookies Gateway Startup AuthHttp WebClient.
Import RequestSecurity Cookies WebClient.
#[local] Open Scope Z_scope.

Module WebClientProps.

(** ** One refresh at a time *)

Definition sends (c : option CallState) (n : nat) : Prop :=
  match c with
  | None => n = 0%nat
  | Some (Sent _ false) | Some (Waiting _ _) => n = 1%nat
  | Some (Sent _ true) => n = 2%nat
  | Some Resolved | Some (Rejected _) => (1 ≤ n ≤ 2)%nat
  end.
Abbreviation times := (count_occ Nat.eq_dec).

Record client_inv (b : Browser) : Prop := {
  ci_flight : refreshes b = (refreshesAnswered b + if refreshPromise b then 1 else 0)%nat;
  ci_waiting id c : calls b !! id = Some c → is_waiting c = true → refreshPromise b = true;
  ci_sends id : sends (calls b !! id) (times (wire b) id) }.

Lemma sends_settled c n o : sends (Some c) n → o = Resolved ∨ (∃ e, o = Rejected e) → sends (Some o) n.
Proof. intros Hs [->|[e ->]]; destruct c as [? []| | |]; simpl in *; lia. Qed.
Lemma sends_update (m : gmap nat CallState) id c n id' :
  (id' = id → sends (Some c) n) → (id' ≠ id → sends (m !! id') n) → sends (<[id := c]> m !! id') n.
Proof.
  intros H1 H2. destruct (decide (id' = id)) as [->|Hne]; [rewrite lookup_insert_eq; auto|].
  rewrite lookup_insert_ne by done. auto.
Qed.

Lemma waiting_ids_spec m id : id ∈ waiting_ids m ↔ ∃ c, m !! id = Some c ∧ is_waiting c = true.
Proof.
  unfold waiting_ids. rewrite list_elem_of_fmap. split.
  - intros ([k c] & -> & Hin). apply list_elem_of_In, filter_In in Hin as [Hin Hw].
    apply list_elem_of_In, elem_of_map_to_list in Hin. eauto.
  - intros (c & Hm & Hw). exists (id, c). split; [done|]. apply list_elem_of_In, filter_In. split; [|done].
    by apply list_elem_of_In, elem_of_map_to_list.
Qed.
Lemma waiting_ids_NoDup m : NoDup (waiting_ids m).
Proof.
  unfold waiting_ids. pose proof (NoDup_fst_map_to_list m) as Hn. revert Hn.
  induction (map_to_list m) as [|[k c] l IH]; simpl; [done|]. intros [Hk Hl]%NoDup_cons.
  destruct (is_waiting c); simpl; [|auto]. apply NoDup_cons. split; [|auto].
  intros Hin. apply Hk. apply list_elem_of_fmap in Hin as ([k' c'] & -> & Hin).
  apply list_elem_of_In, filter_In in Hin as [Hin _]. apply list_elem_of_fmap. exists (k', c').
  split; [done|by apply list_elem_of_In].
Qed.
Lemma waiting_times m id :
  times (waiting_ids m) id = if is_waiting (default Resolved (m !! id)) then 1%nat else 0%nat.
Proof.
  pose proof (waiting_ids_spec m id) as Hs. destruct (is_waiting (default Resolved (m !! id))) eqn:Ew.
  - apply NoDup_count_occ'.
    + apply NoDup_ListNoDup, waiting_ids_NoDup.
    + apply list_elem_of_In, Hs. destruct (m !! id) as [c|]; [by eauto|done].
  - apply count_occ_not_In. intros Hin%list_elem_of_In%Hs. destruct Hin as (c & Hc & Hw).
    rewrite Hc in Ew. simpl in Ew. congruence.
Qed.

Lemma inv_set_jar j b : client_inv b → client_inv (set_jar j b).
Proof. intros []. by split. Qed.

Lemma inv_settle b id c o :
  client_inv b → calls b !! id = Some c → is_waiting c = false → o = Resolved ∨ (∃ e, o = Rejected e) →
  client_inv (set_calls (<[id := o]> (calls b)) b).
Proof.
  intros [] Hc Hnw Ho. split; simpl; [done| |].
  - intros id' c'. rewrite lookup_insert_Some. intros [[_ <-]|[_ Hc']] Hw; [|by eauto].
    by destruct Ho as [->|[e ->]].
  - intros id'. apply sends_update; [|intros _; apply ci_sends0]. intros ->.
    eapply (sends_settled c); [|done]. rewrite <-Hc. apply ci_sends0.
Qed.

Lemma inv_intercept b id url retry e :
  client_inv b → calls b !! id = Some (Sent url retry) → client_inv (intercept id url retry e b).
Proof.
  intros Hi Hc. unfold intercept. destruct (isAuthFlowRequest url); [by eapply inv_settle; eauto|].
  destruct (_ && _) eqn:E; [|by eapply inv_settle; eauto].
  apply andb_true_iff in E as [_ ->%negb_true_iff]. destruct Hi.
  assert (Hs : ∀ id', sends (<[id := Waiting url e]> (calls b) !! id') (times (wire b) id')).
  { intros id'. apply sends_update; [|intros _; apply ci_sends0]. intros ->. specialize (ci_sends0 id).
    by rewrite Hc in ci_sends0. }
  unfold refreshSession. simpl. destruct (refreshPromise b) eqn:Er; split; simpl; rewrite ?Er; try done; lia.
Qed.

Lemma inv_settled t https ok b : client_inv b → refreshPromise b = true → client_inv (refreshSettled t https ok b).
Proof.
  intros [] Hp. rewrite Hp in ci_flight0. unfold refreshSettled.
  assert (Hcalls : ∀ id, sends ((resume ok <$> calls b) !! id)
    (times (wire b ++ (if ok then waiting_ids (calls b) else [])) id)).
  { intros id. rewrite count_occ_app, lookup_fmap. specialize (ci_sends0 id).
    assert (Ht : times (if ok then waiting_ids (calls b) else []) id =
      if ok && is_waiting (default Resolved (calls b !! id)) then 1%nat else 0%nat)
      by (destruct ok; [apply waiting_times|done]).
    rewrite Ht. destruct (calls b !! id) as [[url []|url e| |e]|], ok; simpl in *; lia. }
  assert (Hw : ∀ id c, (resume ok <$> calls b) !! id = Some c → is_waiting c = true → False).
  { intros id c. rewrite lookup_fmap. destruct (calls b !! id) as [[]|]; simpl; try done; intros [= <-]; try done.
    by destruct ok. }
  destruct ok; simpl; (split; simpl; [lia|intros id c Hc Hwc; by destruct (Hw id c)|done]).
Qed.

Lemma inv_step t https e b b' : client_inv b → step t https e b = Some b' → client_inv b'.
Proof.
  intros Hi. destruct e as [id url|id cks err|cks ok|a]; simpl.
  - case_bool_decide as Hn; [|done]. intros [= <-]. destruct Hi. split; simpl; [done| |].
    + intros id' c. rewrite lookup_insert_Some. intros [[_ <-]|[_ Hc]] Hw; [done|by eauto].
    + intros id'. rewrite count_occ_app. simpl. specialize (ci_sends0 id').
      destruct (Nat.eq_dec id id') as [->|Hne].
      * rewrite lookup_insert_eq. rewrite Hn in ci_sends0. simpl in *. lia.
      * rewrite lookup_insert_ne by done. by rewrite Nat.add_0_r.
  - destruct (calls b !! id) as [[url retry| | |]|] eqn:Ec; try done. intros [= <-].
    apply (inv_set_jar (store_cookies t https cks (jar b))) in Hi.
    destruct err; [by apply inv_intercept|].
    by apply (inv_settle (set_jar (store_cookies t https cks (jar b)) b) id (Sent url retry)); auto.
  - destruct (refreshPromise b) eqn:Er; [|done]. intros [= <-]. apply inv_settled; [by apply inv_set_jar|done].
  - destruct (run_action _ _ _ _ _) as [s j]. intros [= <-]. destruct Hi. by split.
Qed.

Lemma inv_reachable b : reachable b → client_inv b.
Proof. induction 1 as [j p|t https e b b' _ IH Hs]; [split; simpl; done|by eapply inv_step]. Qed.

(** C37: the session is refreshed by one request at a time, however many calls
    fail with 401 and in whatever order the answers come: the refreshes sent are
    the answered ones and at most one more, every call that waits is waiting for
    that one, and no call is sent more than twice. *)
Theorem refresh_single_flight b :
  reachable b →
  refreshes b = (refreshesAnswered b + if refreshPromise b then 1 else 0)%nat ∧
  (∀ id url e, calls b !! id = Some (Waiting url e) → refreshPromise b = true) ∧
  (∀ id, (times (wire b) id ≤ 2)%nat).
Proof.
  intros Hr%inv_reachable. destruct Hr. split_and!; [done|by eauto|]. intros id. specialize (ci_sends0 id).
  destruct (calls b !! id) as [[? []| | |]|]; simpl in *; lia.
Qed.

(** ** Every call settles *)

Definition weight (c : CallState) : Z :=
  match c with Sent _ false => 4 | Waiting _ _ => 2 | Sent _ true => 1 | _ => 0 end.
Definition load (m : gmap nat CallState) : Z := sumZ (λ kc, weight kc.2) (map_to_list m).
(** Answers the client is still waiting for, weighed by what they may cause. *)
Definition work (b : Browser) : Z := load (calls b) + (if refreshPromise b then 1 else 0).
Definition response (e : Event) : bool :=
  match e with Answer _ _ _ | RefreshAnswer _ _ => true | _ => false end.
Definition settled (c : CallState) : bool := match c with Resolved | Rejected _ => true | _ => false end.

Lemma weight_nonneg c : 0 <= weight c.
Proof. by destruct c as [? []| | |]. Qed.
Lemma load_nonneg m : 0 <= load m.
Proof. apply sumZ_nonneg. intros [k c] _. apply weight_nonneg. Qed.
Lemma load_new m id c : m !! id = None → load (<[id := c]> m) = weight c + load m.
Proof. intros Hm. unfold load. by rewrite map_to_list_insert. Qed.
Lemma load_insert m id c c' : m !! id = Some c → load (<[id := c']> m) = load m - weight c + weight c'.
Proof.
  intros Hm. rewrite <-(insert_delete_id m id c Hm) at 2. rewrite <-insert_delete_eq.
  rewrite !load_new by apply lookup_delete_eq. lia.
Qed.
Lemma load_resume ok m : load (resume ok <$> m) <= load m.
Proof.
  induction m as [|id c m Hm IH] using map_ind; [by rewrite fmap_empty|].
  rewrite fmap_insert, !load_new by (rewrite ?lookup_fmap, ?Hm; done).
  assert (weight (resume ok c) <= weight c) by (destruct c as [? []| | |], ok; simpl; lia). lia.
Qed.
Lemma load_zero m : load m = 0 → ∀ id c, m !! id = Some c → settled c = true.
Proof.
  intros Hl id c Hc. rewrite <-(insert_delete_id m id c Hc), load_new in Hl by apply lookup_delete_eq.
  pose proof (load_nonneg (delete id m)). destruct c as [? []| | |]; simpl in *; (done || lia).
Qed.
Lemma load_pos m : load m ≠ 0 → ∃ id c, m !! id = Some c ∧ settled c = false.
Proof.
  induction m as [|id c m Hm IH] using map_ind; [done|]. rewrite load_new by done. intros Hl.
  destruct (settled c) eqn:Es.
  - destruct IH as (id' & c' & Hc' & Hs); [destruct c; simpl in *; (done || lia)|].
    exists id', c'. split; [|done]. rewrite lookup_insert_ne; [done|]. congruence.
  - exists id, c. by rewrite lookup_insert_eq.
Qed.

Lemma work_decreases t https e b b' : response e = true → step t https e b = Some b' → work b' < work b.
Proof.
  destruct e as [id url|id cks err|cks ok|a]; try done; intros _; simpl.
  - destruct (calls b !! id) as [[url retry| | |]|] eqn:Ec; try done. intros [= <-]. unfold work.
    destruct err as [e|]; simpl.
    + unfold intercept. simpl. destruct (isAuthFlowRequest url); simpl; [rewrite (load_insert _ _ _ _ Ec); destruct retry; simpl; lia|].
      destruct (bool_decide _), retry; simpl; unfold refreshSession; simpl;
        try (destruct (refreshPromise b); simpl); rewrite (load_insert _ _ _ _ Ec); simpl; try case_match; lia.
    + rewrite (load_insert _ _ _ _ Ec). destruct retry; simpl; lia.
  - destruct (refreshPromise b) eqn:Er; [|done]. intros [= <-]. unfold work. rewrite Er.
    pose proof (load_resume ok (calls b)). destruct ok; simpl in *; lia.
Qed.

(** C38: no call hangs or retries for ever.  Each answer that arrives, of a call
    or of the refresh, strictly lowers the work that is left; as long as work is
    left some answer is still due, and once none is left every call has been
    resolved or rejected. *)
Theorem api_calls_settle b :
  reachable b →
  (∀ t https e b', response e = true → step t https e b = Some b' → 0 <= work b' < work b) ∧
  (work b ≠ 0 → ∃ e, response e = true ∧ ∀ t https, is_Some (step t https e b)) ∧
  (work b = 0 → ∀ id c, calls b !! id = Some c → settled c = true).
Proof.
  intros Hr%inv_reachable. split_and!.
  - intros t https e b' He Hs. split; [|by eapply work_decreases]. unfold work.
    pose proof (load_nonneg (calls b')). destruct (refreshPromise b'); lia.
  - intros Hw. destruct (refreshPromise b) eqn:Ep.
    { exists (RefreshAnswer [] true). split; [done|]. intros t https. simpl. rewrite Ep. by eexists. }
    destruct (load_pos (calls b)) as (id & c & Hc & Hs); [unfold work in Hw; rewrite Ep in Hw; lia|].
    exists (Answer id [] None). split; [done|]. intros t https. simpl. rewrite Hc.
    destruct c; try done. pose proof (ci_waiting _ Hr _ _ Hc eq_refl). congruence.
  - intros Hw id c Hc. unfold work in Hw. pose proof (load_nonneg (calls b)).
    eapply load_zero; [|done]. destruct (refreshPromise b); lia.
Qed.

(** ** The end of a refresh *)

(** A refresh decides for all calls that wait for it: when it succeeds each
    of them is sent again, once, and nothing else changes; when it fails each of
    them is rejected with the error it got first, the user is signed out, and
    the page is the login page.  Either way nothing waits any longer. *)
Theorem refresh_decides t https cookies ok b b' :
  step t https (RefreshAnswer cookies ok) b = Some b' →
  refreshPromise b' = false ∧
  (∀ id, calls b' !! id =
     match calls b !! id with
     | Some (Waiting url e) => Some (if ok then Sent url true else Rejected e)
     | c => c
     end) ∧
  (∀ id, times (wire b') id = (times (wire b) id +
     match calls b !! id with Some (Waiting _ _) => if ok then 1 else 0 | _ => 0 end)%nat) ∧
  (if ok then auth b' = auth b ∧ path b' = path b
   else auth b' = signed_out ∧ path b' = "/login"%string).
Proof.
  simpl. destruct (refreshPromise b); [|done]. intros [= <-]. split; [done|]. split; [|split].
  - intros id. destruct ok; simpl; rewrite lookup_fmap; destruct (calls b !! id) as [[]|]; done.
  - intros id. destruct ok; simpl; rewrite count_occ_app.
    + rewrite waiting_times. by destruct (calls b !! id) as [[]|].
    + simpl. by destruct (calls b !! id) as [[]|].
  - destruct ok; simpl; [done|]. split; [done|by case_bool_decide].
Qed.

(** ** The store of the signed-in user *)

(** The store is consistent: in every state a page can reach, the flag says
    signed in exactly when there is a user, and while it is loading there is
    none; so no page renders a signed-in view without a user. *)
Theorem auth_store_consistent b :
  reachable b →
  (isAuthenticated (auth b) = true ↔ is_Some (user (auth b))) ∧ (isLoading (auth b) = true → user (auth b) = None).
Proof.
  assert (Hact : ∀ t https a s j, ((isAuthenticated s = true ↔ is_Some (user s)) ∧ (isLoading s = true → user s = None)) →
    let s' := (run_action t https a s j).1 in
    (isAuthenticated s' = true ↔ is_Some (user s')) ∧ (isLoading s' = true → user s' = None)).
  { intros t https a s j Hs. cbv zeta.
    assert (Hin : ∀ u, (isAuthenticated (signed_in u) = true ↔ is_Some (user (signed_in u))) ∧
      (isLoading (signed_in u) = true → user (signed_in u) = None)) by (split; [split; [by eauto|done]|done]).
    assert (Hout : (isAuthenticated signed_out = true ↔ is_Some (user signed_out)) ∧
      (isLoading signed_out = true → user signed_out = None)) by (split; [split; [done|by intros []]|done]).
    destruct a as [? [|[]]|[|[]]|[]| | |[]]; cbn [run_action fst]; try done.
    case_bool_decide; [done|]. simpl. by destruct Hs as [? _]. }
  induction 1 as [j p|t https e b b' Hr IH Hs]; [split; [split; [done|by intros []]|done]|].
  destruct e as [id url|id cks err|cks ok|a]; simpl in Hs.
  - case_bool_decide; [|done]. by injection Hs as <-.
  - repeat case_match; try done; injection Hs as <-; [|done]. unfold intercept, refreshSession.
    repeat case_match; done.
  - case_match; [|done]. injection Hs as <-. destruct ok; simpl; [done|]. split; [split; [done|by intros []]|done].
  - destruct (run_action _ _ _ _ _) as [s j] eqn:E. injection Hs as <-. simpl.
    specialize (Hact t https a (auth b) (jar b) IH). by rewrite E in Hact.
Qed.

(** ** The remember-me choice *)

(** Only scripts write the cookie. *)
Definition remember_visible (j : Jar) : Prop :=
  ∀ sc, jget REMEMBER_ME_COOKIE j = Some sc → st_httpOnly sc = false.

Lemma set_remember t https r j :
  remember_visible j →
  jget REMEMBER_ME_COOKIE (setAuthCookies t https r j) =
    Some {| st_value := (if r then "1" else "0")%string; st_httpOnly := false; st_secure := https;
            st_sameSite := Strict; st_expires := if r then Some (t + 30 * 86400000) else None |}.
Proof.
  intros Hv. unfold setAuthCookies, script_store.
  assert (jget REMEMBER_ME_COOKIE (store_cookie t https j (remember_cookie https r)) =
    Some {| st_value := (if r then "1" else "0")%string; st_httpOnly := false; st_secure := https;
            st_sameSite := Strict; st_expires := if r then Some (t + 30 * 86400000) else None |}) as Hs.
  { rewrite store_cookie_get. simpl. rewrite andb_negb_r. simpl. by destruct r. }
  simpl. destruct (jget REMEMBER_ME_COOKIE j) as [sc|] eqn:E; [|done]. by rewrite (Hv sc E).
Qed.

Lemma set_remember_ok t https r j : jar_ok j → jar_ok (setAuthCookies t https r j).
Proof.
  intros Hj. unfold setAuthCookies, script_store.
  assert (jar_ok (store_cookie t https j (remember_cookie https r))).
  { apply store_cookie_ok; [done| |].
    - split; [done|]. repeat constructor.
    - simpl. intros v [= <-]. destruct r; repeat constructor. }
  repeat case_match; done.
Qed.

(** The choice made at login is the one the auth service acts on: until the
    cookie expires (30 days when the session is to be remembered, the end of the
    browser session otherwise) the page reads it back, and in every request the
    browser then sends the auth service, which decides by it how long the
    refreshed cookies live, finds "1" exactly when the user asked for it. *)
Theorem remember_me_reaches_auth `{UriCodec} t https r j t' req :
  jar_ok j → remember_visible j → t' < t + 30 * 86400000 →
  let j' := setAuthCookies t https r j in
  isRememberMeEnabled t' https j' = r ∧
  parseCookie (with_cookies (sendable t' https j') req) "rememberMe" =
    Ret (Some (if r then "1" else "0")%string).
Proof.
  intros Hj Hv Ht j'. pose proof (set_remember t https r j Hv) as Hs. pose proof (set_remember_ok t https r j Hj) as Hok.
  fold j' in Hs, Hok.
  assert (Hlive : live_cookie t' https {| st_value := (if r then "1" else "0")%string; st_httpOnly := false;
    st_secure := https; st_sameSite := Strict; st_expires := if r then Some (t + 30 * 86400000) else None |} = true).
  { unfold live_cookie. simpl. apply andb_true_iff. split; [by destruct https|]. destruct r; [|done].
    by apply Z.ltb_lt. }
  split.
  - unfold isRememberMeEnabled, cookie_get. rewrite script_view_get by apply Hok. rewrite Hs. simpl.
    rewrite Hlive. simpl. by destruct r.
  - rewrite parse_sent by by apply sendable_entries. unfold sendable.
    change "rememberMe"%string with REMEMBER_ME_COOKIE. rewrite jget_filter by apply Hok. rewrite Hs. simpl.
    rewrite Hlive. simpl. rewrite decode_plain; [done|]. destruct r; simpl; by intros [[=]|Hin%elem_of_nil]%elem_of_cons.
Qed.

(** ** The landing page *)

(** The session cookies are HttpOnly, so the landing page neither finds them nor
    removes them: it never redirects a signed-in user, and a reload leaves the
    session of a user who did not want to be remembered in place. *)
Theorem landing_gate_inert t https nav j name :
  NoDup (jkeys j) → (∀ sc, jget "accessToken" j = Some sc → st_httpOnly sc = true) →
  name ≠ REMEMBER_ME_COOKIE →
  (landingGate t https nav j).2 = None ∧ jget name (landingGate t https nav j).1 = jget name j.
Proof.
  intros Hn Ha Hne. unfold landingGate.
  assert (Hno : cookie_get t https j "accessToken" = None).
  { unfold cookie_get. rewrite script_view_get by done. destruct (jget "accessToken" j) as [sc|]; [|done].
    simpl. rewrite (Ha sc eq_refl). by rewrite andb_false_r. }
  rewrite Hno. simpl. rewrite andb_false_r. case_match; [|done]. simpl. split; [done|].
  unfold clearAuthCookies, script_store. simpl.
  assert (jget name (store_cookie t https j {| ck_name := REMEMBER_ME_COOKIE; ck_value := None;
    ck_httpOnly := false; ck_secure := false; ck_sameSite := Lax; ck_maxAge := None |}) = jget name j).
  { rewrite store_cookie_get. simpl. by rewrite bool_decide_false. }
  repeat case_match; done.
Qed.

(** ** The canonical origin *)

Section listener.
Context `{AuthHttp.UrlOrigin}.

(** A page that moved itself to the canonical origin stays there. *)
Lemma redirect_settles configured l l' url :
  mounted configured l = Some url →
  l_origin l' = targetOrigin configured l → l_host l' = l_host l → mounted configured l' = None.
Proof.
  intros _ Ho Hh. unfold mounted. rewrite bool_decide_true; [done|]. rewrite Ho. unfold targetOrigin. by rewrite Hh.
Qed.
End listener.

(** ** The private keys kept in the browser *)

Section keys.
Context `{JsonCodec}.
Abbreviation Storage := (gmap string string).

(** Nothing else writes the entry, so it is an object. *)
Definition is_object (j : Dto.Json) : bool := match j with Dto.JObj _ => true | _ => false end.

Lemma read_write key j ls : is_object j = true →
  is_object (readMap key (writeMap key j ls)) = true ∧
  ∀ k, text_prop (prop (readMap key (writeMap key j ls)) k) = text_prop (prop j k) ∧
    (prop (readMap key (writeMap key j ls)) k = Some (Dto.JBool true) ↔ prop j k = Some (Dto.JBool true)).
Proof.
  destruct j as [| | | | |l]; try done. intros _. unfold readMap, writeMap. rewrite lookup_insert_eq.
  rewrite json_stringify_truthy. destruct (json_object l) as (l' & Hp & Hs & Hb). rewrite Hp.
  split; [done|]. intros k. cbn [prop]. case_bool_decide; [done|]. split; [|apply Hb].
  assert (Hother : ∀ x y : option Dto.Json, (∀ s, x ≠ Some (Dto.JStr s)) → (∀ s, y ≠ Some (Dto.JStr s)) →
    text_prop x = text_prop y) by (intros [[]|] [[]|] Hx Hy; first [done|by edestruct Hx|by edestruct Hy]).
  destruct (jget k l) as [[| | |s| |]|] eqn:E; try (apply Hother; [|done]; intros s' Hs'; apply Hs in Hs'; congruence).
  apply Hs in E. by rewrite E.
Qed.

Lemma read_write_other key key' j (ls : Storage) : key ≠ key' → readMap key' (writeMap key j ls) = readMap key' ls.
Proof. intros Hne. unfold readMap, writeMap. by rewrite lookup_insert_ne. Qed.

Lemma prop_set j k v k' : is_object j = true → k ≠ "__proto__"%string →
  is_object (set_prop j k v) = true ∧
  prop (set_prop j k v) k' = if bool_decide (k' = k) then Some v else prop j k'.
Proof.
  destruct j; try done. intros _ Hk. simpl. rewrite bool_decide_false by done. split; [done|].
  simpl. rewrite jget_jset. repeat case_bool_decide; congruence.
Qed.

(** A private key that the browser saved is found again, exactly as saved:
    for the machine's own id the key reads back, the keys of other machines and
    the keys generated on the key page are unaffected, and the other way round;
    a file name is kept with its key, and a key marked as downloaded stays
    marked. *)
Theorem key_store_roundtrip id other k f ls :
  truthy id = true → truthy k = true → id ≠ "__proto__"%string →
  (∀ key, is_object (readMap key ls) = true) →
  let vm := saveGeneratedVmSshPrivateKey id k ls in
  let own := saveUserGeneratedSshPrivateKey id k (Some f) ls in
  getGeneratedVmSshPrivateKey id vm = Some k ∧
  (other ≠ id → getGeneratedVmSshPrivateKey other vm = getGeneratedVmSshPrivateKey other ls) ∧
  getUserGeneratedSshPrivateKey other vm = getUserGeneratedSshPrivateKey other ls ∧
  getUserGeneratedSshPrivateKey id own = Some k ∧
  (other ≠ id → getUserGeneratedSshPrivateKey other own = getUserGeneratedSshPrivateKey other ls) ∧
  getGeneratedVmSshPrivateKey other own = getGeneratedVmSshPrivateKey other ls ∧
  (truthy f = true → getUserGeneratedSshPrivateKeyFilename id own = Some f) ∧
  hasDownloadedGeneratedSshPrivateKey id (markGeneratedSshPrivateKeyDownloaded id ls) = true.
Proof.
  intros Hid Hk Hp Hobj vm own.
  assert (Hsave : ∀ key j x ls', is_object (readMap key ls') = true →
    text_prop (prop (readMap key (writeMap key (set_prop (readMap key ls') id x) ls')) j) =
    if bool_decide (j = id) then text_prop (Some x) else text_prop (prop (readMap key ls') j)).
  { intros key j x ls' Ho. destruct (prop_set (readMap key ls') id x j Ho Hp) as [Ho' Hprop].
    destruct (read_write key _ ls' Ho') as [_ Hrw]. rewrite (proj1 (Hrw j)), Hprop. by case_bool_decide. }
  assert (Hvm : vm = writeMap VM_SSH_KEY_STORAGE (set_prop (readMap VM_SSH_KEY_STORAGE ls) id (Dto.JStr k)) ls)
    by (unfold vm, saveGeneratedVmSshPrivateKey; by rewrite Hid, Hk).
  assert (Hne : nonempty k = Some k) by (unfold nonempty; by rewrite Hk).
  set (keys := writeMap USER_GENERATED_SSH_KEY_STORAGE
    (set_prop (readMap USER_GENERATED_SSH_KEY_STORAGE ls) id (Dto.JStr k)) ls).
  assert (Hown1 : readMap USER_GENERATED_SSH_KEY_STORAGE own = readMap USER_GENERATED_SSH_KEY_STORAGE keys).
  { unfold own, saveUserGeneratedSshPrivateKey. rewrite Hid, Hk. simpl. case_match; [|done].
    by rewrite read_write_other. }
  assert (Hown3 : readMap VM_SSH_KEY_STORAGE own = readMap VM_SSH_KEY_STORAGE ls).
  { unfold own, saveUserGeneratedSshPrivateKey. rewrite Hid, Hk. simpl. case_match; by rewrite !read_write_other. }
  assert (Hown2 : truthy f = true → own = writeMap USER_GENERATED_SSH_KEY_FILENAME_STORAGE
    (set_prop (readMap USER_GENERATED_SSH_KEY_FILENAME_STORAGE keys) id (Dto.JStr f)) keys).
  { intros Hf. unfold own, saveUserGeneratedSshPrivateKey. rewrite Hid, Hk. simpl. by rewrite Hf. }
  split_and!.
  - unfold getGeneratedVmSshPrivateKey. rewrite Hid, Hvm, Hsave by done. rewrite bool_decide_true by done. done.
  - intros Hno. unfold getGeneratedVmSshPrivateKey. rewrite Hvm, Hsave by done. by rewrite bool_decide_false.
  - unfold getUserGeneratedSshPrivateKey. by rewrite Hvm, read_write_other.
  - unfold getUserGeneratedSshPrivateKey. rewrite Hid, Hown1. unfold keys. rewrite Hsave by done. by rewrite bool_decide_true.
  - intros Hno. unfold getUserGeneratedSshPrivateKey. rewrite Hown1. unfold keys. rewrite Hsave by done. by rewrite bool_decide_false.
  - unfold getGeneratedVmSshPrivateKey. by rewrite Hown3.
  - intros Hf. unfold getUserGeneratedSshPrivateKeyFilename. rewrite Hid, (Hown2 Hf). rewrite Hsave by
      (unfold keys; by rewrite read_write_other). rewrite bool_decide_true by done. simpl. unfold nonempty. by rewrite Hf.
  - unfold hasDownloadedGeneratedSshPrivateKey, markGeneratedSshPrivateKeyDownloaded. rewrite Hid. simpl.
    destruct (prop_set (readMap USER_GENERATED_SSH_KEY_DOWNLOADED_STORAGE ls) id (Dto.JBool true) id) as [Ho' Hpr];
      [done..|].
    destruct (read_write USER_GENERATED_SSH_KEY_DOWNLOADED_STORAGE _ ls Ho') as [_ Hrw].
    assert (Ht : prop (readMap USER_GENERATED_SSH_KEY_DOWNLOADED_STORAGE (writeMap
      USER_GENERATED_SSH_KEY_DOWNLOADED_STORAGE (set_prop (readMap USER_GENERATED_SSH_KEY_DOWNLOADED_STORAGE ls)
        id (Dto.JBool true)) ls)) id = Some (Dto.JBool true)) by (apply Hrw; by rewrite Hpr, bool_decide_true).
    by rewrite Ht.
Qed.
End keys.
End WebClientProps.
