(* ===== verification/WebChat.v ===== *)
(** * WebChat: the assistant's chat in the browser

    frontend/src/components/assistant/AssistantChat.tsx: the handlers of the
    socket, the start and the timeout of a stream, and the images attached to a
    message.  A handler mutates the object of the active stream and hands
    [setMessages] an updater that React runs later, in order, reading that
    object when it runs: the model keeps the objects in a heap and the updaters
    in a queue, and flushes the queue at any moment. *)

From Stdlib Require Import ZArith Lia Ascii String QArith Qround Qminmax.
From stdpp Require Import base list gmap strings.
From S2P Require Import Prelude Text Js Store Crypto RequestSecurity Sockets Ai AiChat.
Import Ai AiChat.
#[local] Open Scope Z_scope.

Module WebChat.

(** ** Messages and streams *)

Record ChatUiMessage := {
  cm_id : string; cm_role : string; cm_content : string; cm_provider : option string;
  cm_model : option string; cm_pendingAction : option PendingAction;
}.
(** The object of [activeStreamRef]. *)
Record ActiveStreamState := {
  as_assistantId : string; as_conversationId : option string; as_pendingAction : option PendingAction;
}.
Definition set_content (f : string → string) (m : ChatUiMessage) : ChatUiMessage :=
  {| cm_id := cm_id m; cm_role := cm_role m; cm_content := f (cm_content m); cm_provider := cm_provider m;
     cm_model := cm_model m; cm_pendingAction := cm_pendingAction m |}.
Definition set_id (id : string) (provider model : option string) (m : ChatUiMessage) : ChatUiMessage :=
  {| cm_id := id; cm_role := cm_role m; cm_content := cm_content m; cm_provider := provider;
     cm_model := model; cm_pendingAction := cm_pendingAction m |}.
Definition set_pending (p : option PendingAction) (m : ChatUiMessage) : ChatUiMessage :=
  {| cm_id := cm_id m; cm_role := cm_role m; cm_content := cm_content m; cm_provider := cm_provider m;
     cm_model := cm_model m; cm_pendingAction := p |}.
(** [prev.map((msg) => msg.id === id ? f(msg) : msg)] *)
Definition at_id (id : string) (f : ChatUiMessage → ChatUiMessage) (l : list ChatUiMessage) : list ChatUiMessage :=
  (λ m, if bool_decide (cm_id m = id) then f m else m) <$> l.

(** The updaters; the constants a closure captured are arguments, what it reads
    from the stream's object is read when it runs. *)
Inductive Updater :=
| UAdd (m : ChatUiMessage)
| URename (previousId id : string) (provider model : option string)
| UAppend (requestId token : string)
| UPending (requestId : string)
| UText (requestId text : string)
| USet (l : list ChatUiMessage)
| UConfirmed (messageId : string) (m : ChatUiMessage).
Abbreviation Heap := (gmap string ActiveStreamState).
Definition assistant_of (h : Heap) (requestId : string) : string :=
  match h !! requestId with Some a => as_assistantId a | None => ""%string end.
Definition run_updater (h : Heap) (l : list ChatUiMessage) (u : Updater) : list ChatUiMessage :=
  match u with
  | UAdd m => l ++ [m]
  | URename previousId id provider model => at_id previousId (set_id id provider model) l
  | UAppend r token => at_id (assistant_of h r) (set_content (λ c, c +:+ token)) l
  | UPending r => at_id (assistant_of h r) (set_pending (h !! r ≫= as_pendingAction)) l
  | UText r text => at_id (assistant_of h r) (set_content (λ _, text)) l
  | USet l' => l'
  | UConfirmed id m => at_id id (set_pending None) l ++ [m]
  end.

(** [resolve(conversationId)] or [reject(new Error(...))] of the promise. *)
Inductive Outcome := Resolve (conversationId : option string) | Reject (message : string).

Record Chat := {
  messages : list ChatUiMessage;
  queue : list Updater;
  heap : Heap;
  activeStreamRef : option string;      (* the request id of the object it points to *)
  activeConversationId : option string;
  loading : bool;
  outcomes : list (string * Outcome);
  emittedChats : list string;           (* the request ids of [socket.emit("ai:chat", ...)] *)
}.

Definition enqueue (us : list Updater) (s : Chat) : Chat :=
  {| messages := messages s; queue := queue s ++ us; heap := heap s; activeStreamRef := activeStreamRef s;
     activeConversationId := activeConversationId s; loading := loading s; outcomes := outcomes s;
     emittedChats := emittedChats s |}.
Definition mutate (r : string) (a : ActiveStreamState) (s : Chat) : Chat :=
  {| messages := messages s; queue := queue s; heap := <[r := a]> (heap s); activeStreamRef := activeStreamRef s;
     activeConversationId := activeConversationId s; loading := loading s; outcomes := outcomes s;
     emittedChats := emittedChats s |}.
Definition select (c : option string) (s : Chat) : Chat :=
  {| messages := messages s; queue := queue s; heap := heap s; activeStreamRef := activeStreamRef s;
     activeConversationId := c; loading := loading s; outcomes := outcomes s; emittedChats := emittedChats s |}.
(** The promise settles and [activeStreamRef.current = null]. *)
Definition settle (r : string) (o : Outcome) (s : Chat) : Chat :=
  {| messages := messages s; queue := queue s; heap := heap s; activeStreamRef := None;
     activeConversationId := activeConversationId s; loading := loading s; outcomes := outcomes s ++ [(r, o)];
     emittedChats := emittedChats s |}.

(** ** The socket's handlers *)

Definition stream_failed : string := "The assistant stream failed before completing the answer."%string.
Definition took_too_long : string := "The assistant took too long to respond. Please retry your message."%string.

(** [if (!active || requestId !== active.requestId) return;] *)
Definition with_active (requestId : string) (f : ActiveStreamState → Chat → Chat) (s : Chat) : Chat :=
  match activeStreamRef s with
  | Some r => if bool_decide (requestId = r)
              then match heap s !! r with Some a => f a s | None => s end else s
  | None => s
  end.

Definition onMeta (r : string) (m : Meta) : Chat → Chat := with_active r (λ a s,
  let conv := nonempty (mt_conversationId m) in
  let a1 := {| as_assistantId := as_assistantId a;
               as_conversationId := match conv with Some c => Some c | None => as_conversationId a end;
               as_pendingAction := as_pendingAction a |} in
  let s1 := match conv with Some c => select (Some c) s | None => s end in
  let renames := truthy (mt_messageId m) && negb (bool_decide (mt_messageId m = as_assistantId a)) in
  let a2 := if renames then {| as_assistantId := mt_messageId m; as_conversationId := as_conversationId a1;
                               as_pendingAction := as_pendingAction a1 |} else a1 in
  let s2 := if renames
            then enqueue [URename (as_assistantId a) (mt_messageId m) (mt_provider m) (mt_model m)] s1 else s1 in
  mutate r match mt_pendingAction m with
           | Some p => {| as_assistantId := as_assistantId a2; as_conversationId := as_conversationId a2;
                          as_pendingAction := Some p |}
           | None => a2
           end s2).
Definition onChunk (r token : string) : Chat → Chat := with_active r (λ _ s, enqueue [UAppend r token] s).
Definition onDone (r : string) : Chat → Chat := with_active r (λ a s,
  settle r (Resolve (as_conversationId a))
    (match as_pendingAction a with Some _ => enqueue [UPending r] s | None => s end)).
Definition onError (r message : string) : Chat → Chat := with_active r (λ _ s,
  settle r (Reject (str_or message "Stream failed")) (enqueue [UText r (str_or message stream_failed)] s)).
(** The timer of [sendMessageViaWebSocket]. *)
Definition onTimeout (r : string) : Chat → Chat := with_active r (λ _ s,
  settle r (Reject "Assistant stream timeout") (enqueue [UText r took_too_long] s)).
(** The cleanup of the socket's effect. *)
Definition unmount (s : Chat) : Chat :=
  match activeStreamRef s with Some r => settle r (Reject "WebSocket disconnected") s | None => s end.

(** ** Sending *)

Definition local_assistant (r : string) : ChatUiMessage :=
  {| cm_id := "local-assistant-" +:+ r; cm_role := "ASSISTANT"; cm_content := ""; cm_provider := None;
     cm_model := None; cm_pendingAction := None |}.
(** [sendMessageViaWebSocket] on a connected socket, with a fresh request id. *)
Definition startStream (r conversationId : string) (s : Chat) : Chat :=
  {| messages := messages s; queue := queue s ++ [UAdd (local_assistant r)];
     heap := <[r := {| as_assistantId := "local-assistant-" +:+ r; as_conversationId := Some conversationId;
                       as_pendingAction := None |}]> (heap s);
     activeStreamRef := Some r; activeConversationId := activeConversationId s; loading := loading s;
     outcomes := outcomes s; emittedChats := emittedChats s ++ [r] |}.
(** [handleSubmit] up to the stream: a message while one is being answered is ignored. *)
Definition submit (value userMessageId r conversationId : string) (hasImages : bool) (s : Chat) : Chat :=
  if (negb (truthy (js_trim value)) && negb hasImages) || loading s then s
  else
    let user := {| cm_id := userMessageId; cm_role := "USER";
                   cm_content := str_or (js_trim value) "[Image attached]"; cm_provider := None;
                   cm_model := None; cm_pendingAction := None |} in
    startStream r conversationId
      {| messages := messages s; queue := queue s ++ [UAdd user]; heap := heap s;
         activeStreamRef := activeStreamRef s; activeConversationId := activeConversationId s;
         loading := true; outcomes := outcomes s; emittedChats := emittedChats s |}.
(** The [finally] of [handleSubmit], once the promise has settled. *)
Definition submitted (s : Chat) : Chat :=
  {| messages := messages s; queue := queue s; heap := heap s; activeStreamRef := activeStreamRef s;
     activeConversationId := activeConversationId s; loading := false; outcomes := outcomes s;
     emittedChats := emittedChats s |}.
(** [catch] of [handleSubmit]: whatever ended the stream, the message is sent
    again over HTTP; [localId] is the id of the message that reports a failure. *)
Inductive HttpAnswer :=
| HttpAnswered (conversationId : string) (message : ChatUiMessage) (pendingAction : option PendingAction)
| HttpFailed (localId : string).
Definition local_text (id text : string) : ChatUiMessage :=
  {| cm_id := id; cm_role := "ASSISTANT"; cm_content := text; cm_provider := None; cm_model := None;
     cm_pendingAction := None |}.
Definition providers_unreachable : string :=
  "I couldn't reach the AI providers right now. Please check Ollama/API key settings and try again."%string.
Definition fallback (a : HttpAnswer) (s : Chat) : Chat :=
  match a with
  | HttpAnswered c m p => enqueue [UAdd (match p with Some _ => set_pending p m | None => m end)] (select (Some c) s)
  | HttpFailed localId => enqueue [UAdd (local_text localId providers_unreachable)] s
  end.

(** ** History and actions *)

(** [loadConversations]: the selected conversation stays if it is listed. *)
Definition loadConversations (listed : list string) (s : Chat) : Chat :=
  match activeConversationId s with
  | Some previous => if bool_decide (previous ∈ listed) then s else select (head listed) s
  | None => select (head listed) s
  end.
(** [loadMessages]: the stored messages replace the list; none when it fails. *)
Definition loadMessages (loaded : option (list ChatUiMessage)) (s : Chat) : Chat :=
  enqueue [USet (default [] loaded)] s.
(** [createConversationAndSelect] once the conversation is there. *)
Definition createConversationAndSelect (id : string) (clearMessages : bool) (s : Chat) : Chat :=
  let s := select (Some id) s in if clearMessages then enqueue [USet []] s else s.
(** [handleConfirmAction]: the body that is posted, and its answer. *)
Definition confirmBody (pendingAction : PendingAction) (s : Chat) : option (string * string) :=
  (λ c, (pa_confirmationToken pendingAction, c)) <$> activeConversationId s.
Definition confirmation_failed : string :=
  "Action confirmation failed. The token may have expired or the VM no longer allows this action."%string.
Definition confirmed (messageId localId : string) (answer : option string) (s : Chat) : Chat :=
  match answer with
  | Some text => enqueue [UConfirmed messageId (local_text localId text)] s
  | None => enqueue [UAdd (local_text localId confirmation_failed)] s
  end.
(** React runs the queued updaters. *)
Definition flush (s : Chat) : Chat :=
  {| messages := foldl (run_updater (heap s)) (messages s) (queue s); queue := []; heap := heap s;
     activeStreamRef := activeStreamRef s; activeConversationId := activeConversationId s;
     loading := loading s; outcomes := outcomes s; emittedChats := emittedChats s |}.

Inductive ChatEvent :=
| Receive (e : Emitted)
| Timeout (r : string)
| Flush
| Submit (value userMessageId r conversationId : string) (hasImages : bool)
| Submitted
| Unmount
| Fallback (a : HttpAnswer)
| ConversationsLoaded (listed : list string)
| MessagesLoaded (loaded : option (list ChatUiMessage))
| ConversationCreated (id : string) (clearMessages : bool)
| Confirmed (messageId localId : string) (answer : option string).
(** The request ids are drawn fresh; [finally] runs after the promise. *)
Definition enabled (e : ChatEvent) (s : Chat) : bool :=
  match e with
  | Submit _ _ r _ _ => bool_decide (heap s !! r = None)
  | Submitted => bool_decide (activeStreamRef s = None)
  | _ => true
  end.
Definition handle (e : ChatEvent) (s : Chat) : Chat :=
  match e with
  | Receive (EMeta r m) => onMeta r m s
  | Receive (EChunk r token) => onChunk r token s
  | Receive (EDone r) => onDone r s
  | Receive (EError r text) => onError r text s
  | Receive EDisconnect => s
  | Timeout r => onTimeout r s
  | Flush => flush s
  | Submit v u r c i => submit v u r c i s
  | Submitted => submitted s
  | Unmount => unmount s
  | Fallback a => fallback a s
  | ConversationsLoaded l => loadConversations l s
  | MessagesLoaded l => loadMessages l s
  | ConversationCreated id b => createConversationAndSelect id b s
  | Confirmed id local_ a => confirmed id local_ a s
  end.
Definition run (l : list ChatEvent) (s : Chat) : Chat := foldl (λ s e, handle e s) s l.
Inductive reachable : Chat → Prop :=
| r_fresh : reachable {| messages := []; queue := []; heap := ∅; activeStreamRef := None;
                         activeConversationId := None; loading := false; outcomes := []; emittedChats := [] |}
| r_handle e s : reachable s → enabled e s = true → reachable (handle e s).

(** ** Images *)

Definition MAX_ATTACHED_IMAGES : nat := 3.
Definition MAX_IMAGE_DIMENSION : Z := 1280.
Definition MAX_IMAGE_BYTES : Z := 1500000.
Definition MIN_IMAGE_QUALITY : Q := 55 # 100.
Definition INITIAL_IMAGE_QUALITY : Q := 82 # 100.

(** [Math.ceil((base64.length * 3) / 4)] *)
Definition estimateDataUrlBytes (dataUrl : string) : Z :=
  let base64 := default "" (js_split "," dataUrl !! 1%nat) in
  (js_length base64 * 3 + 3) / 4.

Section images.
(** [drawImage] and [canvas.toDataURL(mime, quality)] at a width and a height. *)
Variable render : string → Q → Z → Z → string.
Context (mime sourceDataUrl : string) (image_width image_height : Z).

Definition largestSide : Z := Z.max image_width image_height.
Definition baseScale : Q :=
  if MAX_IMAGE_DIMENSION <? largestSide then (inject_Z MAX_IMAGE_DIMENSION / inject_Z largestSide)%Q else 1%Q.
Definition scaled (side : Z) (scale : Q) : Z := Z.max 1 (Qfloor (inject_Z side * scale)).
(** The loop, with the attempts left; also the sizes that were rendered. *)
Fixpoint attempts (n : nat) (scale quality : Q) (best : string) (sizes : list (Z * Z)) : string * list (Z * Z) :=
  match n with
  | O => (best, sizes)
  | S n' =>
      let width := scaled image_width scale in
      let height := scaled image_height scale in
      let candidate := render mime quality width height in
      let best := if estimateDataUrlBytes candidate <? estimateDataUrlBytes best then candidate else best in
      let sizes := sizes ++ [(width, height)] in
      if estimateDataUrlBytes best <=? MAX_IMAGE_BYTES then (best, sizes)
      else attempts n' (scale * (85 # 100))%Q (Qmax MIN_IMAGE_QUALITY (quality - (7 # 100)))%Q best sizes
  end.
(** [optimizeImageDataUrl] for an image file, when the browser has a canvas. *)
Definition optimizeImageDataUrl : string * list (Z * Z) :=
  let '(best, sizes) := attempts 5 baseScale INITIAL_IMAGE_QUALITY sourceDataUrl [] in
  (if estimateDataUrlBytes best <=? estimateDataUrlBytes sourceDataUrl then best else sourceDataUrl, sizes).
End images.

(** [attachImageFiles]: the slots are counted when it is called, on the images
    the component rendered last; the images are added when they are ready. *)
Definition selected {A} (rendered : list string) (files : list A) : list A :=
  take (MAX_ATTACHED_IMAGES - length rendered) files.
Definition attached (prev optimized : list string) : list string := prev ++ List.filter truthy optimized.
Definition removeAttachedImage (i : nat) (l : list string) : list string := take i l ++ drop (S i) l.
End WebChat.
