(* ===== verification/WebChatProps.v ===== *)
(** * WebChatProps: what the chat shows

    The answer in the browser is the one the server streamed, however React
    schedules the updates; each stream settles once; and the images sent stay
    within their bounds. *)

From Stdlib Require Import ZArith Lia Ascii String QArith Qround Qminmax.
From stdpp Require Import base list gmap strings.
From S2P Require Import Prelude Text Js Store Crypto RequestSecurity Sockets Ai AiChat AiActions WebChat.
Import Ai AiChat AiActions WebChat.
#[local] Open Scope Z_scope.

Module WebChatProps.

Lemma string_app_nil (a : string) : a +:+ "" = a.
Proof. induction a as [|c a IH]; [done|]. change (String c (a +:+ "") = String c a). by rewrite IH. Qed.
Lemma concat_cons_s x l : String.concat "" (x :: l) = x +:+ String.concat "" l.
Proof. destruct l; [by rewrite string_app_nil|done]. Qed.

(** ** The streamed answer *)

(** What the messages are once the queue has run. *)
Definition effective (s : Chat) : list ChatUiMessage := foldl (run_updater (heap s)) (messages s) (queue s).
(** An updater whose effect does not depend on the objects of the streams. *)
Definition neutral (u : Updater) : bool := match u with UAdd _ | URename _ _ _ _ | USet _ | UConfirmed _ _ => true | _ => false end.

Lemma effective_flush s : effective (flush s) = effective s.
Proof. done. Qed.
Lemma effective_enqueue us s : effective (enqueue us s) = foldl (run_updater (heap s)) (effective s) us.
Proof. unfold effective. simpl. by rewrite foldl_app. Qed.
Lemma neutral_heap h h' l us :
  Forall (λ u, neutral u = true) us → foldl (run_updater h) l us = foldl (run_updater h') l us.
Proof.
  intros Hn. revert l. induction Hn as [|u us Hu _ IH]; [done|]. intros l. simpl. rewrite IH. by destruct u.
Qed.

Lemma at_id_other id f l : Forall (λ m, cm_id m ≠ id) l → at_id id f l = l.
Proof.
  unfold at_id. induction 1 as [|m l Hm _ IH]; [done|]. rewrite fmap_cons, IH. by rewrite bool_decide_false.
Qed.
Lemma at_id_last id f l m :
  Forall (λ m, cm_id m ≠ id) l → cm_id m = id → at_id id f (l ++ [m]) = l ++ [f m].
Proof.
  intros Hl Hm. unfold at_id. rewrite fmap_app. fold (at_id id f l). rewrite at_id_other by done. simpl.
  by rewrite bool_decide_true.
Qed.

(** The messages of one answered request. *)
Definition shown (m : Meta) (text : string) (pending : option PendingAction) : ChatUiMessage :=
  {| cm_id := mt_messageId m; cm_role := "ASSISTANT"; cm_content := text; cm_provider := mt_provider m;
     cm_model := mt_model m; cm_pendingAction := pending |}.

Section stream.
Context (r conv : string) (m : Meta) (before : list ChatUiMessage).
Hypothesis Hlocal : Forall (λ x, cm_id x ≠ "local-assistant-" +:+ r) before.
Hypothesis Hid : Forall (λ x, cm_id x ≠ mt_messageId m) before.
Hypothesis Htruthy : truthy (mt_messageId m) = true.
Hypothesis Hfresh : mt_messageId m ≠ "local-assistant-" +:+ r.

(** Before the first frame, while the tokens come, and afterwards. *)
Definition waiting (s : Chat) : Prop :=
  activeStreamRef s = Some r ∧
  heap s !! r = Some {| as_assistantId := "local-assistant-" +:+ r; as_conversationId := Some conv;
                        as_pendingAction := None |} ∧
  Forall (λ u, neutral u = true) (queue s) ∧ effective s = before ++ [local_assistant r].
Definition object : ActiveStreamState :=
  {| as_assistantId := mt_messageId m;
     as_conversationId := match nonempty (mt_conversationId m) with Some c => Some c | None => Some conv end;
     as_pendingAction := mt_pendingAction m |}.
Definition streaming (text : string) (s : Chat) : Prop :=
  activeStreamRef s = Some r ∧ heap s !! r = Some object ∧ effective s = before ++ [shown m text None].
Definition answered (text : string) (o : list (string * Outcome)) (s : Chat) : Prop :=
  activeStreamRef s = None ∧ effective s = before ++ [shown m text (mt_pendingAction m)] ∧
  outcomes s = o ++ [(r, Resolve (as_conversationId object))].

Lemma assistant_object h : h !! r = Some object → assistant_of h r = mt_messageId m.
Proof. intros E. unfold assistant_of. by rewrite E. Qed.

Lemma meta_starts s : waiting s → streaming "" (onMeta r m s) ∧ outcomes (onMeta r m s) = outcomes s.
Proof.
  intros (Ha & Hh & Hq & He). unfold onMeta, with_active. rewrite Ha, bool_decide_true by done. rewrite Hh.
  cbn [as_assistantId]. rewrite Htruthy, (bool_decide_false (mt_messageId m = _)) by done. cbn [andb negb].
  assert (Heff : ∀ h s', heap s' = h → messages s' = messages s →
    queue s' = queue s ++ [URename ("local-assistant-" +:+ r) (mt_messageId m) (mt_provider m) (mt_model m)] →
    effective s' = before ++ [shown m "" None]).
  { intros h s' Eh Em Eq. unfold effective. rewrite Em, Eq, foldl_app, (neutral_heap (heap s') (heap s) (messages s) (queue s) Hq).
    fold (effective s). rewrite He. simpl. by rewrite at_id_last. }
  split; [split_and!|].
  - by destruct (nonempty _).
  - destruct (nonempty _) eqn:En, (mt_pendingAction m) as [p|] eqn:Ep; simpl; rewrite lookup_insert_eq;
      unfold object; by rewrite En, Ep.
  - by destruct (nonempty _); eapply Heff.
  - by destruct (nonempty _).
Qed.

Lemma chunk_appends text token s :
  streaming text s → streaming (text +:+ token) (onChunk r token s) ∧ outcomes (onChunk r token s) = outcomes s.
Proof.
  intros (Ha & Hh & He). unfold onChunk, with_active. rewrite Ha, bool_decide_true by done. rewrite Hh.
  split; [|done]. split_and!; [done..|]. rewrite effective_enqueue. simpl. rewrite (assistant_object _ Hh), He.
  by rewrite at_id_last.
Qed.

Lemma done_settles text s : streaming text s → answered text (outcomes s) (onDone r s).
Proof.
  intros (Ha & Hh & He). unfold onDone, with_active. rewrite Ha, bool_decide_true by done. rewrite Hh. simpl.
  split_and!; [done| |by destruct (mt_pendingAction m)].
  destruct (mt_pendingAction m) as [p|] eqn:Ep; [|done].
  change (effective (enqueue [UPending r] s) = before ++ [shown m text (Some p)]).
  rewrite effective_enqueue. simpl. rewrite (assistant_object _ Hh), He, Hh. simpl. rewrite Ep.
  by rewrite at_id_last.
Qed.

(** The frames of the server with the flushes in between. *)
Definition is_flush (e : ChatEvent) : bool := match e with Flush => true | _ => false end.
Definition frames (l : list ChatEvent) : list ChatEvent := List.filter (λ e, negb (is_flush e)) l.

Lemma run_done o text l s :
  answered text o s → frames l = [] → answered text o (run l s).
Proof.
  revert s. induction l as [|e l IH]; [done|]. intros s Hs. destruct e; try done. simpl. intros Hl. by apply IH.
Qed.
Lemma run_chunks tokens text l s :
  streaming text s → frames l = ((λ x, Receive (EChunk r x)) <$> tokens) ++ [Receive (EDone r)] →
  answered (text +:+ String.concat "" tokens) (outcomes s) (run l s).
Proof.
  revert tokens text s. induction l as [|e l IH]; intros tokens text s Hs Hl; [by destruct tokens|].
  destruct (is_flush e) eqn:Ef; unfold frames in Hl; cbn [List.filter] in Hl; rewrite Ef in Hl; cbn [negb] in Hl.
  - destruct e; try done. apply (IH tokens text (flush s)); [|done]. destruct Hs as (? & ? & ?). by split_and!.
  - destruct tokens as [|tok tokens]; simpl in Hl; injection Hl as -> Hl.
    + simpl. rewrite string_app_nil. apply run_done; [by apply done_settles|done].
    + destruct (chunk_appends text tok s Hs) as [Hs' Ho]. rewrite <-Ho.
      rewrite concat_cons_s, <-append_assoc_s. by apply (IH _ _ (onChunk r tok s)).
Qed.

Lemma run_stream tokens l s :
  waiting s → frames l = Receive (EMeta r m) :: ((λ x, Receive (EChunk r x)) <$> tokens) ++ [Receive (EDone r)] →
  answered (String.concat "" tokens) (outcomes s) (run l s).
Proof.
  revert s. induction l as [|e l IH]; intros s Hs Hl; [done|].
  destruct (is_flush e) eqn:Ef; unfold frames in Hl; cbn [List.filter] in Hl; rewrite Ef in Hl; cbn [negb] in Hl.
  - destruct e; try done. apply (IH (flush s)); [|done]. destruct Hs as (? & ? & ? & ?). split_and!; try done.
  - injection Hl as -> Hl. destruct (meta_starts s Hs) as [Hs' Ho]. simpl. rewrite <-Ho.
    by apply (run_chunks tokens "" l).
Qed.
End stream.

(** A fresh stream is waiting. *)
Lemma start_waiting r conv s :
  Forall (λ u, neutral u = true) (queue s) →
  waiting r conv (effective s) (startStream r conv s) ∧ outcomes (startStream r conv s) = outcomes s.
Proof.
  intros Hq. split; [|done]. split_and!; [done|apply lookup_insert_eq| |].
  - apply Forall_app. split; [done|by repeat constructor].
  - unfold effective. simpl. rewrite foldl_app. simpl.
    by rewrite (neutral_heap _ (heap s) (messages s) (queue s) Hq).
Qed.

(** What [handleAiChat] emits for a request it answers. *)
Definition answer_frames (r : string) (result : ChatResult) : list Emitted :=
  [EMeta r (meta_of result)] ++ (EChunk r <$> stream_tokens (ms_content (rs_message result).2)) ++ [EDone r].

(** C39: the browser shows the answer the server recorded.  From the moment a
    message is sent, however the frames of the gateway are interleaved with
    React's updates, once they have run the list is what it was before, followed
    by one message of the assistant with the server's message id, its provider
    and model, its pending action, and exactly the recorded text; and the
    promise is resolved, once. *)
Theorem stream_shown r conv result l s :
  Forall (λ u, neutral u = true) (queue s) →
  Forall (λ x, cm_id x ≠ "local-assistant-" +:+ r ∧ cm_id x ≠ (rs_message result).1) (effective s) →
  truthy (rs_message result).1 = true → (rs_message result).1 ≠ "local-assistant-" +:+ r →
  frames l = Receive <$> answer_frames r result →
  let s' := flush (run l (startStream r conv s)) in
  messages s' = effective s ++ [shown (meta_of result) (ms_content (rs_message result).2) (rs_pendingAction result)] ∧
  activeStreamRef s' = None ∧
  ∃ c, outcomes s' = outcomes s ++ [(r, Resolve c)].
Proof.
  intros Hq Hids Ht Hne Hl. destruct (start_waiting r conv s Hq) as [Hw Ho].
  destruct (run_stream r conv (meta_of result) (effective s)) with
    (tokens := stream_tokens (ms_content (rs_message result).2)) (l := l) (s := startStream r conv s)
    as (Ha & He & Hout); try done.
  - eapply Forall_impl; [exact Hids|]. by intros ? [].
  - eapply Forall_impl; [exact Hids|]. by intros ? [].
  - rewrite Hl. unfold answer_frames. rewrite !fmap_app. simpl. by rewrite <-list_fmap_compose.
  - cbv zeta. split; [|split].
    + change (effective (run l (startStream r conv s)) = effective s ++ [shown (meta_of result)
        (ms_content (rs_message result).2) (rs_pendingAction result)]). rewrite He.
      unfold stream_tokens. by rewrite concat_str, concat_ws_runs, str_chars.
    + done.
    + rewrite Ho in Hout. by eexists.
Qed.

(** ** Every stream settles once *)

Record chat_inv (s : Chat) : Prop := {
  ch_active r : activeStreamRef s = Some r → loading s = true ∧ is_Some (heap s !! r) ∧ r ∉ (outcomes s).*1;
  ch_once : NoDup (outcomes s).*1;
  ch_known r : r ∈ (outcomes s).*1 → is_Some (heap s !! r);
  ch_sent r : r ∈ emittedChats s → activeStreamRef s = Some r ∨ r ∈ (outcomes s).*1 }.

Lemma inv_enqueue us s : chat_inv s → chat_inv (enqueue us s).
Proof. intros []. by split. Qed.
Lemma inv_select c s : chat_inv s → chat_inv (select c s).
Proof. intros []. by split. Qed.
Lemma heap_insert (h : Heap) r a k : is_Some (h !! k) → is_Some (<[r := a]> h !! k).
Proof. destruct (decide (k = r)) as [->|]; [by rewrite lookup_insert_eq|by rewrite lookup_insert_ne]. Qed.
Lemma inv_mutate r a s : chat_inv s → chat_inv (mutate r a s).
Proof.
  intros []. split; simpl; auto using heap_insert. intros r' (? & ? & ?)%ch_active0. auto using heap_insert.
Qed.
Lemma chat_inv_settle r o s : chat_inv s → activeStreamRef s = Some r → chat_inv (settle r o s).
Proof.
  intros [] Ha. destruct (ch_active0 r Ha) as (_ & Hh & Hno). split; simpl.
  - done.
  - rewrite fmap_app. apply NoDup_app. split_and!; [done| |apply NoDup_singleton].
    intros x Hx E%list_elem_of_singleton. by rewrite E in Hx.
  - intros r'. rewrite fmap_app, elem_of_app. intros [?|E%list_elem_of_singleton]; [auto|]. by rewrite E.
  - intros r' [E|?]%ch_sent0; rewrite fmap_app, elem_of_app; [|auto].
    right. right. apply list_elem_of_singleton. simpl. congruence.
Qed.
Lemma inv_with_active r f s :
  (∀ a s, chat_inv s → activeStreamRef s = Some r → chat_inv (f a s)) → chat_inv s → chat_inv (with_active r f s).
Proof.
  intros Hf Hs. unfold with_active. destruct (activeStreamRef s) as [r'|] eqn:Ea; [|done].
  case_bool_decide; [|done]. subst r'. destruct (heap s !! r); [by apply Hf|done].
Qed.

Lemma inv_submit v um r c i s : heap s !! r = None → chat_inv s → chat_inv (submit v um r c i s).
Proof.
  intros Hr [Ha Ho Hk Hs]. unfold submit. destruct (_ || loading s) eqn:El; [by split|].
  apply orb_false_iff in El as [_ El].
  assert (Hnone : activeStreamRef s = None).
  { destruct (activeStreamRef s) as [x|]; [|done]. destruct (Ha x eq_refl). congruence. }
  split; simpl.
  - intros r' [= <-]. split_and!; [done|by rewrite lookup_insert_eq|]. intros [? E]%Hk. congruence.
  - done.
  - intros r' ?%Hk. by apply heap_insert.
  - intros r'. rewrite elem_of_app, list_elem_of_singleton. intros [Hr'| ->]; [|auto].
    destruct (Hs r' Hr'); [congruence|auto].
Qed.

Lemma inv_handle e s : enabled e s = true → chat_inv s → chat_inv (handle e s).
Proof.
  intros He Hi. destruct e as [[r x|r m|r x|r|]|r| |v um r c i| | |a|ids|l|id b|mid local_ a]; simpl in *.
  - apply inv_with_active; [|done]. intros a s' Hs Ha. by apply chat_inv_settle; [apply inv_enqueue|].
  - apply inv_with_active; [|done]. intros a s' Hs Ha. apply inv_mutate.
    repeat case_match; auto using inv_enqueue, inv_select.
  - apply inv_with_active; [|done]. intros a s' Hs Ha. by apply inv_enqueue.
  - apply inv_with_active; [|done]. intros a s' Hs Ha. apply chat_inv_settle; [|by case_match].
    case_match; [by apply inv_enqueue|done].
  - done.
  - apply inv_with_active; [|done]. intros a s' Hs Ha. by apply chat_inv_settle; [apply inv_enqueue|].
  - destruct Hi. by split.
  - apply bool_decide_eq_true in He. by apply inv_submit.
  - apply bool_decide_eq_true in He. destruct Hi. split; simpl; try done. intros r. by rewrite He.
  - unfold unmount. destruct (activeStreamRef s) eqn:Ea; [by apply chat_inv_settle|done].
  - destruct a; simpl; auto using inv_enqueue, inv_select.
  - unfold loadConversations. repeat case_match; auto using inv_select.
  - by apply inv_enqueue.
  - unfold createConversationAndSelect. destruct b; auto using inv_enqueue, inv_select.
  - destruct a; simpl; auto using inv_enqueue.
Qed.

Lemma chat_reachable s : reachable s → chat_inv s.
Proof.
  induction 1 as [|e s _ IH He]; [|by apply inv_handle]. split; simpl; try done; [constructor|by intros r ?%elem_of_nil..].
Qed.

(** Every message that is sent is answered once: in every state the
    component can reach each request that was emitted is either the one that is
    being streamed, while the form is locked, or has been resolved or rejected,
    exactly once; late frames and a late timeout change nothing. *)
Theorem stream_settles_once s :
  reachable s →
  NoDup (outcomes s).*1 ∧
  (∀ r, r ∈ emittedChats s → activeStreamRef s = Some r ∧ loading s = true ∨ r ∈ (outcomes s).*1) ∧
  (∀ r, r ∈ (outcomes s).*1 → ∀ m tok text,
     onMeta r m s = s ∧ onChunk r tok s = s ∧ onDone r s = s ∧ onError r text s = s ∧ onTimeout r s = s).
Proof.
  intros Hi%chat_reachable. destruct Hi as [Ha Ho Hk Hs]. split_and!; [done| |].
  - intros r [E|?]%Hs; [|by right]. left. by destruct (Ha r E).
  - intros r Hr m tok text.
    assert (Hw : ∀ f, with_active r f s = s).
    { intros f. unfold with_active. destruct (activeStreamRef s) as [r'|]; [|done].
      case_bool_decide; [|done]. subst r'. by destruct (Ha r eq_refl) as (_ & _ & ?). }
    unfold onMeta, onChunk, onDone, onError, onTimeout. by rewrite !Hw.
Qed.

(** ** Images *)

Lemma attempts_small render mime w h n scale quality best sizes :
  estimateDataUrlBytes (attempts render mime w h n scale quality best sizes).1 <= estimateDataUrlBytes best ∧
  (length (attempts render mime w h n scale quality best sizes).2 ≤ length sizes + n)%nat.
Proof.
  revert scale quality best sizes. induction n as [|n IH]; intros scale quality best sizes; cbn [attempts fst snd]; [lia|].
  cbv zeta.
  set (candidate := render mime quality _ _).
  set (best' := if _ <? _ then candidate else best).
  assert (Hb : estimateDataUrlBytes best' <= estimateDataUrlBytes best)
    by (unfold best'; destruct (Z.ltb_spec (estimateDataUrlBytes candidate) (estimateDataUrlBytes best)); lia).
  case_match; cbn [fst snd]; [rewrite length_app; cbn [length]; lia|]. destruct (IH (scale * (85 # 100))%Q
    (Qmax MIN_IMAGE_QUALITY (quality - (7 # 100)))%Q best' (sizes ++ [(scaled w scale, scaled h scale)])) as [H1 H2].
  rewrite length_app in H2. cbn [length] in H2. split; [lia|]. lia.
Qed.

Lemma scale_side w h side : 0 < w → 0 < h → side = w ∨ side = h →
  (inject_Z side * baseScale w h <= inject_Z MAX_IMAGE_DIMENSION)%Q.
Proof.
  intros Hw Hh Hs. unfold baseScale, largestSide. set (L := Z.max w h).
  assert (HL : 0 < L ∧ side <= L) by (unfold L; destruct Hs as [-> | ->]; lia).
  destruct (Z.ltb_spec MAX_IMAGE_DIMENSION L).
  - assert (0 < inject_Z L)%Q by (rewrite <-(Zlt_Qlt 0); lia).
    unfold Qdiv. rewrite Qmult_comm, <-Qmult_assoc. rewrite <-(Qmult_1_r (inject_Z MAX_IMAGE_DIMENSION)) at 2.
    apply Qmult_le_l; [done|]. rewrite Qmult_comm. apply Qle_shift_div_r; [done|]. rewrite Qmult_1_l, <-Zle_Qle. lia.
  - rewrite Qmult_1_r, <-Zle_Qle. lia.
Qed.

Definition in_frame (wh : Z * Z) : Prop := 1 <= wh.1 <= MAX_IMAGE_DIMENSION ∧ 1 <= wh.2 <= MAX_IMAGE_DIMENSION.
Lemma scaled_bounds w h side scale : 0 < w → 0 < h → side = w ∨ side = h →
  (0 <= scale <= baseScale w h)%Q → 1 <= scaled side scale <= MAX_IMAGE_DIMENSION.
Proof.
  intros Hw Hh Hs [H0 Hb]. unfold scaled. split; [lia|]. apply Z.max_lub; [done|].
  rewrite <-(Qfloor_Z MAX_IMAGE_DIMENSION). apply Qfloor_resp_le.
  eapply Qle_trans; [|by apply (scale_side w h side)]. rewrite !(Qmult_comm (inject_Z side)).
  apply Qmult_le_compat_r; [done|]. rewrite <-(Zle_Qle 0). destruct Hs as [-> | ->]; lia.
Qed.

Lemma attempts_framed render mime w h n scale quality best sizes : 0 < w → 0 < h →
  (0 <= scale <= baseScale w h)%Q → Forall in_frame sizes →
  Forall in_frame (attempts render mime w h n scale quality best sizes).2.
Proof.
  intros Hw Hh. revert scale quality best sizes. induction n as [|n IH]; intros scale quality best sizes Hs Hf;
    cbn [attempts snd]; [done|]. cbv zeta.
  assert (Hf' : Forall in_frame (sizes ++ [(scaled w scale, scaled h scale)])).
  { apply Forall_app. split; [done|]. constructor; [|done]. split; cbn [fst snd]; (eapply (scaled_bounds w h); [done|done| |done]); [by left|by right]. }
  case_match; cbn [snd]; [done|]. apply IH; [|done]. destruct Hs as [H0 Hb].
  assert ((scale * (85 # 100) <= scale)%Q).
  { rewrite <-(Qmult_1_r scale) at 2. rewrite !(Qmult_comm scale). by apply Qmult_le_compat_r. }
  split; [by apply Qmult_le_0_compat|]. by eapply Qle_trans.
Qed.

Lemma baseScale_nonneg w h : 0 < w → 0 < h → (0 <= baseScale w h)%Q.
Proof.
  intros Hw Hh. unfold baseScale, largestSide. case_match; [|done]. apply Qle_shift_div_l; [|by rewrite Qmult_0_l].
  rewrite <-(Zlt_Qlt 0). lia.
Qed.

(** Shrinking an image ends and never makes it worse: at most five times it
    is drawn, each time at a size between 1 and 1280 pixels a side, and what is
    sent is not larger than what the user chose. *)
Theorem image_optimised render mime source w h :
  0 < w → 0 < h →
  let '(best, sizes) := optimizeImageDataUrl render mime source w h in
  estimateDataUrlBytes best <= estimateDataUrlBytes source ∧ (length sizes ≤ 5)%nat ∧ Forall in_frame sizes.
Proof.
  intros Hw Hh. unfold optimizeImageDataUrl.
  destruct (attempts_small render mime w h 5 (baseScale w h) INITIAL_IMAGE_QUALITY source []) as [Hs Hn].
  pose proof (attempts_framed render mime w h 5 (baseScale w h) INITIAL_IMAGE_QUALITY source [] Hw Hh
    (conj (baseScale_nonneg w h Hw Hh) (Qle_refl _)) (Forall_nil_2 _)) as Hf.
  destruct (attempts _ _ _ _ _ _ _ _ _) as [best sizes]. cbn [fst snd length] in *.
  split; [|by split]. apply Z.leb_le in Hs. rewrite Hs. by apply Z.leb_le.
Qed.
End WebChatProps.
