(* ===== verification/WebLive.v ===== *)
(** * WebLive: the live views of a machine in the browser

    frontend/src/components/terminal/Terminal.tsx, components/VncViewer.tsx with
    hooks/useVncSocket.ts, and what the list and the detail page do with the
    events of hooks/useVmSocket.ts.  Each is a machine over the events that the
    socket, the timers and the user produce. *)

From Stdlib Require Import ZArith Lia Ascii String.
From stdpp Require Import base list gmap strings.
From S2P Require Import Prelude Text Js Dto Store VmKeyCrypto Vm Gateway Startup AuthHttp WebClient.
Import WebClient.
#[local] Open Scope Z_scope.

Module WebLive.

(** ** Terminal.tsx *)

Module Terminal.
Inductive Emit :=
| ConnectSsh (vmId username password : string)
| Input (data : string)
| Resize (cols rows : Z).
(** What happened on the socket, in order: what was sent, and what ends a
    session as far as the component knows. *)
Inductive Mark := Emitted (e : Emit) | Failed.
Record Component := {
  vmIdRef : string; credentials : string * string;
  socketRef : bool;                    (* the socket exists *)
  socket_connected : bool;
  connectedRef : bool;
  trace : list Mark;
  onDisconnect_calls : nat;
}.
Definition with_refs (socket connected ref : bool) (marks : list Mark) (calls : nat) (c : Component) : Component :=
  {| vmIdRef := vmIdRef c; credentials := credentials c; socketRef := socket; socket_connected := connected;
     connectedRef := ref; trace := trace c ++ marks; onDisconnect_calls := onDisconnect_calls c + calls |}.

(** [handleSubmit] of the prompt: both are trimmed. *)
Definition prompt (username password : string) : option (string * string) :=
  if truthy (js_trim username) && truthy (js_trim password) then Some (js_trim username, js_trim password) else None.

(** [connect(username, password)] *)
Definition connect (c : Component) : Component :=
  if negb (socketRef c) || connectedRef c then c
  else with_refs (socketRef c) (socket_connected c) true
         [Emitted (ConnectSsh (vmIdRef c) (credentials c).1 (credentials c).2)] 0 c.

Inductive Event :=
| SessionChecked (ok : bool)           (* the answer of /auth/me *)
| SockConnect | SockConnectError | SockDisconnect
| ServerConnected | ServerOutput (data : string) | ServerError (message : string) | ServerDisconnected
| UserData (data : string) | UserResize (cols rows : Z)
| Unmount.

Definition terminal_step (e : Event) (c : Component) : Component :=
  match e with
  | SessionChecked ok =>
      if ok then with_refs true (socket_connected c) (connectedRef c) [] 0 c
      else with_refs (socketRef c) (socket_connected c) false [Failed] 0 c
  | SockConnect => connect (with_refs (socketRef c) true (connectedRef c) [] 0 c)
  | SockConnectError => with_refs (socketRef c) (socket_connected c) false [Failed] 0 c
  | SockDisconnect => with_refs (socketRef c) false false [Failed] 1 c
  | ServerConnected | ServerOutput _ => c
  | ServerError _ => with_refs (socketRef c) (socket_connected c) false [Failed] 0 c
  | ServerDisconnected => with_refs (socketRef c) (socket_connected c) false [Failed] 1 c
  | UserData data =>
      if connectedRef c && socket_connected c
      then with_refs (socketRef c) (socket_connected c) (connectedRef c) [Emitted (Input data)] 0 c else c
  | UserResize cols rows =>
      if connectedRef c && socket_connected c
      then with_refs (socketRef c) (socket_connected c) (connectedRef c) [Emitted (Resize cols rows)] 0 c else c
  | Unmount =>                           (* disconnect() runs the "disconnect" handler *)
      with_refs false false false [Failed] (if socketRef c && socket_connected c then 1%nat else 0%nat) c
  end.
Definition run (l : list Event) (c : Component) : Component := foldl (λ c e, terminal_step e c) c l.
Definition opened (vmId username password : string) : Component :=
  {| vmIdRef := vmId; credentials := (username, password); socketRef := false; socket_connected := false;
     connectedRef := false; trace := []; onDisconnect_calls := 0 |}.
End Terminal.

(** ** VncViewer.tsx *)

Module Viewer.
Inductive ReadyState := CONNECTING | OPEN | CLOSED.
#[export] Instance ReadyState_eq_dec : EqDecision ReadyState.
Proof. solve_decision. Defined.
(** One adapter of [createFakeWebSocket], and whether its timer is still to run. *)
Record FakeWebSocket := { readyState : ReadyState; timer : bool }.
Record Viewer := {
  adapters : list FakeWebSocket;
  wsAdapterRef : option nat;
  pendingDataRef : list string;
  dispatched : list (nat * string);    (* the message events, with the adapter *)
  received : list string;              (* the data events of the socket *)
  unmounted : bool;
}.
Definition readyStateOf (v : Viewer) : option ReadyState := i ← wsAdapterRef v; readyState <$> adapters v !! i.

Inductive Event :=
| Imported                             (* "vnc:ready", and the import of noVNC is done *)
| TimerFired (i : nat)
| Data (d : string)
| RfbClose (i : nat)                   (* noVNC closes the adapter *)
| Unmount.

Definition viewer_step (e : Event) (v : Viewer) : Viewer :=
  match e with
  | Imported =>
      if unmounted v then v else
      {| adapters := adapters v ++ [{| readyState := CONNECTING; timer := true |}];
         wsAdapterRef := Some (length (adapters v)); pendingDataRef := pendingDataRef v;
         dispatched := dispatched v; received := received v; unmounted := unmounted v |}
  | TimerFired i =>
      match adapters v !! i with
      | Some {| readyState := _; timer := true |} =>
          {| adapters := <[i := {| readyState := OPEN; timer := false |}]> (adapters v);
             wsAdapterRef := wsAdapterRef v; pendingDataRef := [];
             dispatched := dispatched v ++ ((λ d, (i, d)) <$> pendingDataRef v);
             received := received v; unmounted := unmounted v |}
      | _ => v
      end
  | Data d =>
      match wsAdapterRef v, readyStateOf v with
      | Some i, Some OPEN =>
          {| adapters := adapters v; wsAdapterRef := wsAdapterRef v; pendingDataRef := pendingDataRef v;
             dispatched := dispatched v ++ [(i, d)]; received := received v ++ [d]; unmounted := unmounted v |}
      | _, _ =>
          {| adapters := adapters v; wsAdapterRef := wsAdapterRef v; pendingDataRef := pendingDataRef v ++ [d];
             dispatched := dispatched v; received := received v ++ [d]; unmounted := unmounted v |}
      end
  | RfbClose i =>
      match adapters v !! i with
      | Some a =>
          {| adapters := <[i := {| readyState := CLOSED; timer := timer a |}]> (adapters v);
             wsAdapterRef := wsAdapterRef v; pendingDataRef := pendingDataRef v; dispatched := dispatched v;
             received := received v; unmounted := unmounted v |}
      | None => v
      end
  | Unmount =>
      {| adapters := adapters v; wsAdapterRef := wsAdapterRef v; pendingDataRef := [];
         dispatched := dispatched v; received := received v; unmounted := true |}
  end.
Definition mounted : Viewer :=
  {| adapters := []; wsAdapterRef := None; pendingDataRef := []; dispatched := []; received := [];
     unmounted := false |}.
Definition run (l : list Event) (v : Viewer) : Viewer := foldl (λ v e, viewer_step e v) v l.
End Viewer.

(** ** useVmSocket.ts and the pages that use it *)

(** A row as the pages show it. *)
Record Row := { rw_id : string; rw_status : string; rw_ipAddress : option string; rw_oneVmId : option Z;
                rw_sshHost : option string; rw_name : string }.

(** [update.x ?? prev.x] *)
Definition coalesce {A} (new old : option A) : option A := match new with Some x => Some x | None => old end.
(** vms/page.tsx: the new list, and whether the list is fetched again. *)
Definition applyUpdate (u : Vm.StatusUpdate) (prev : list Row) : list Row * bool :=
  if bool_decide (Vm.su_status u = "DELETED"%string)
  then (List.filter (λ vm, negb (bool_decide (rw_id vm = Vm.su_vmId u))) prev, false)
  else if existsb (λ vm, bool_decide (rw_id vm = Vm.su_vmId u)) prev
  then ((λ vm, if bool_decide (rw_id vm = Vm.su_vmId u)
               then {| rw_id := rw_id vm; rw_status := Vm.su_status u;
                       rw_ipAddress := coalesce (Vm.su_ipAddress u) (rw_ipAddress vm);
                       rw_oneVmId := rw_oneVmId vm; rw_sshHost := rw_sshHost vm; rw_name := rw_name vm |}
               else vm) <$> prev, false)
  else (prev, true).
(** vms/[id]/page.tsx; [None] leaves the page. *)
Definition mergeUpdate (id : string) (u : Vm.StatusUpdate) (prev : Row) : option Row :=
  if negb (bool_decide (Vm.su_vmId u = id)) then Some prev
  else if bool_decide (Vm.su_status u = "DELETED"%string) then None
  else Some {| rw_id := rw_id prev; rw_status := Vm.su_status u;
               rw_ipAddress := coalesce (Vm.su_ipAddress u) (rw_ipAddress prev);
               rw_oneVmId := coalesce (Vm.su_oneVmId u) (rw_oneVmId prev);
               rw_sshHost := coalesce (Vm.su_sshHost u) (rw_sshHost prev); rw_name := rw_name prev |}.
(** [if (data?.vmId && data?.privateKey) saveGeneratedVmSshPrivateKey(...)] *)
Definition onSshKey `{JsonCodec} (vmId privateKey : option string) (ls : gmap string string) : gmap string string :=
  if opt_truthy vmId && opt_truthy privateKey
  then saveGeneratedVmSshPrivateKey (default "" vmId) (default "" privateKey) ls else ls.
End WebLive.
