(* ===== verification/WebLiveProps.v ===== *)
(** * WebLiveProps: the live views keep their sessions and their data in order

    What the terminal sends and when, that the remote desktop loses none of the
    bytes that arrive while noVNC is being loaded, and that the pages end up
    with the row the VM service has stored. *)

From Stdlib Require Import ZArith Lia Ascii String.
From stdpp Require Import base list gmap strings.
From S2P Require Import Prelude Text Js Dto Store VmKeyCrypto Vm Gateway Startup AuthHttp WebClient WebLive.
Import WebClient WebLive.
#[local] Open Scope Z_scope.

(** ** The terminal *)

Module TerminalProps.
Import WebLive.Terminal.

(** Whether a session is open as far as a trace tells: the last thing that was
    not typing or resizing was a request to connect. *)
Definition live (m : Mark) (open : bool) : option bool :=
  match m with
  | Emitted (ConnectSsh _ _ _) => if open then None else Some true
  | Emitted _ => if open then Some true else None
  | Failed => Some false
  end.
(** A trace is well formed from a state: one request to connect per session and
    typing and resizing only inside one. *)
Fixpoint follows (open : bool) (l : list Mark) : option bool :=
  match l with [] => Some open | m :: l => live m open ≫= λ b, follows b l end.

Lemma follows_app b l1 l2 : follows b (l1 ++ l2) = follows b l1 ≫= λ b', follows b' l2.
Proof. revert b; induction l1 as [|m l1 IH]; intros b; [done|]. cbn. destruct (live m b) as [b'|]; [apply IH|done]. Qed.

Definition requests_ours (c : Component) : Prop :=
  ∀ v u p, Emitted (ConnectSsh v u p) ∈ trace c → (v, (u, p)) = (vmIdRef c, credentials c).
Record good (c : Component) : Prop := {
  g_follows : follows false (trace c) = Some (connectedRef c);
  g_ours : requests_ours c;
}.

(** Every handler appends marks that fit the state it leaves. *)
Lemma good_with socket conn ref marks calls c :
  good c → follows (connectedRef c) marks = Some ref →
  (∀ v u p, Emitted (ConnectSsh v u p) ∈ marks → (v, (u, p)) = (vmIdRef c, credentials c)) →
  good (with_refs socket conn ref marks calls c).
Proof.
  intros [Hf Ho] Hm Hc. split; cbn.
  - by rewrite follows_app, Hf.
  - intros v u p Hin. apply elem_of_app in Hin as [Hin|Hin]; [by apply Ho|by apply Hc].
Qed.
Ltac quiet := let H := fresh in intros ??? H; apply list_elem_of_In in H; cbn in H; intuition discriminate.

Lemma good_connect c : good c → good (connect c).
Proof.
  intros Hg. unfold connect. destruct (socketRef c); [|done]. cbn.
  destruct (connectedRef c) eqn:E; [done|]. apply good_with; [done| |].
  - by rewrite E.
  - intros v u p Hin. apply list_elem_of_singleton in Hin as [= -> -> ->]. by destruct (credentials c).
Qed.
Lemma good_step e c : good c → good (terminal_step e c).
Proof.
  intros Hg. destruct e as [[]| | | | | | | |d|cols rows|]; cbn; try done;
    try (apply good_with; [done|by destruct (connectedRef c)|quiet]).
  - apply good_connect, good_with; [done|done|quiet].
  - destruct (connectedRef c) eqn:E, (socket_connected c); cbn; try done.
    apply good_with; [done|by rewrite E|quiet].
  - destruct (connectedRef c) eqn:E, (socket_connected c); cbn; try done.
    apply good_with; [done|by rewrite E|quiet].
Qed.
Lemma good_run l c : good c → good (run l c).
Proof. revert c; induction l as [|e l IH]; intros c Hc; [done|]. cbn. by apply IH, good_step. Qed.

(** Whatever order the socket, the gateway and the user produce events in,
    the terminal asks for one SSH session at a time, always for its own machine
    with the credentials that were typed, and sends typing and resizing only
    between such a request and the next failure or disconnection. *)
Theorem terminal_session_ordered vmId username password l :
  let c := run l (opened vmId username password) in
  follows false (trace c) = Some (connectedRef c) ∧
  ∀ v u p, Emitted (ConnectSsh v u p) ∈ trace c → (v, (u, p)) = (vmId, (username, password)).
Proof.
  cbn zeta.
  assert (Hi : good (opened vmId username password)).
  { split; [done|]. intros v u p Hin. by apply not_elem_of_nil in Hin. }
  destruct (good_run l _ Hi) as [Hf Ho]. split; [done|].
  intros v u p Hin. rewrite (Ho v u p Hin). clear.
  assert (Hk : ∀ l c, (vmIdRef (run l c), credentials (run l c)) = (vmIdRef c, credentials c)).
  { clear. intros l; induction l as [|e l IH]; intros c; [done|].
    cbn. fold (run l (terminal_step e c)). rewrite IH.
    destruct e as [[]| | | | | | | | | |]; cbn; try done; unfold connect; cbn;
      repeat case_match; done. }
  by rewrite Hk.
Qed.

(** An error of the gateway that ends nothing silences the terminal: what is
    typed after it is dropped, until the socket itself reconnects. *)
Theorem error_mutes_terminal message data c :
  socket_connected c = true → terminal_step (UserData data) (terminal_step (ServerError message) c) = terminal_step (ServerError message) c.
Proof. done. Qed.
(** The session check that answers after the terminal is gone still opens a
    socket, and the socket an SSH session. *)
Theorem late_check_opens_session vmId username password :
  trace (run [Unmount; SessionChecked true; SockConnect] (opened vmId username password)) =
  [Failed; Emitted (ConnectSsh vmId username password)].
Proof. done. Qed.
End TerminalProps.

(** ** The remote desktop *)

Module ViewerProps.
Import WebLive.Viewer.

Record good (v : Viewer) : Prop := {
  g_all : unmounted v = false → (dispatched v).*2 ++ pendingDataRef v = received v;
  g_open : readyStateOf v = Some OPEN → pendingDataRef v = [];
}.
Lemma fmap_snd (i : nat) (l : list string) : ((λ d, (i, d)) <$> l).*2 = l.
Proof. rewrite <- list_fmap_compose. apply list_fmap_id. Qed.

Lemma viewer_good_step e v : good v → good (viewer_step e v).
Proof.
  intros [Ha Ho]. destruct e as [|i|d|i|]; cbn.
  - destruct (unmounted v) eqn:Eu; [by split; rewrite ?Eu|].
    split; cbn; [by rewrite Ha|]. unfold readyStateOf; cbn. rewrite lookup_app_r by lia.
    by rewrite Nat.sub_diag.
  - destruct (adapters v !! i) as [[r []]|] eqn:E; [|done|done]. split; cbn; [|done].
    intros Hu. by rewrite fmap_app, fmap_snd, app_nil_r, Ha.
  - assert (Hbuf : readyStateOf v ≠ Some OPEN → good {| adapters := adapters v; wsAdapterRef := wsAdapterRef v;
        pendingDataRef := pendingDataRef v ++ [d]; dispatched := dispatched v; received := received v ++ [d];
        unmounted := unmounted v |}).
    { intros Hn. split; cbn; [|intros Hr; by destruct Hn]. intros Hu. by rewrite app_assoc, Ha. }
    destruct (wsAdapterRef v) as [i|] eqn:Ew; [destruct (readyStateOf v) as [[]|] eqn:Er|]; try (by apply Hbuf).
    + split; cbn; [|intros _; by apply Ho]. intros Hu. rewrite <- Ha by done.
      by rewrite fmap_app, (Ho eq_refl), !app_nil_r.
    + apply Hbuf. unfold readyStateOf. by rewrite Ew.
  - destruct (adapters v !! i) as [a|] eqn:E; [|done]. split; cbn; [done|].
    unfold readyStateOf in *; cbn. destruct (wsAdapterRef v) as [j|]; [|done]. cbn in *.
    destruct (decide (j = i)) as [->|Hne].
    + rewrite list_lookup_insert_eq by by eapply lookup_lt_Some. done.
    + by rewrite list_lookup_insert_ne.
  - split; [done|]. done.
Qed.
Lemma viewer_good_run l v : good v → good (run l v).
Proof. revert v; induction l as [|e l IH]; intros v Hv; [done|]. cbn. by apply IH, viewer_good_step. Qed.

(** The bytes of the remote desktop that arrived before noVNC was loaded
    are neither lost nor reordered: while the viewer is mounted what was handed
    to noVNC followed by what is buffered is exactly what the socket received,
    and nothing is buffered once the adapter is open. *)
Theorem vnc_data_in_order l :
  let v := run l mounted in
  (unmounted v = false → (dispatched v).*2 ++ pendingDataRef v = received v) ∧
  (unmounted v = false → readyStateOf v = Some OPEN → (dispatched v).*2 = received v).
Proof.
  cbn zeta. destruct (viewer_good_run l mounted) as [Ha Ho]; [by split|]. split; [done|].
  intros Hu Hr. rewrite <- (Ha Hu), (Ho Hr). by rewrite app_nil_r.
Qed.
End ViewerProps.

(** ** The pages *)

Module ViewProps.
Section views.
Context {T : Type → Type} `{DatabaseLaws T}.
Implicit Types (s : Vm.VmState T) (d : Vm.StatusUpdate).

(** The row a page shows for a stored machine. *)
Definition shown (id : string) (v : Vm.VirtualMachine) : Row :=
  {| rw_id := id; rw_status := Vm.status_string (Vm.vm_status v); rw_ipAddress := Vm.vm_ipAddress v;
     rw_oneVmId := Vm.vm_oneVmId v; rw_sshHost := Vm.vm_sshHost v; rw_name := Vm.vm_name v |}.
(** The worker reports no empty address and no machine number 0. *)
Definition plain (d : Vm.StatusUpdate) : Prop :=
  Vm.su_ipAddress d ≠ Some ""%string ∧ Vm.su_sshHost d ≠ Some ""%string ∧ Vm.su_oneVmId d ≠ Some 0.

Lemma coalesce_str new old : new ≠ Some ""%string → coalesce new old = Vm.keep_str new old.
Proof. destruct new as [x|]; [|done]. intros Hx. unfold Vm.keep_str. by destruct x. Qed.
Lemma coalesce_num new old : new ≠ Some 0 → coalesce new old = Vm.keep_num new old.
Proof. destruct new as [x|]; [|done]. intros Hx. cbn. case_match; [|done]. by assert (x = 0) as -> by lia. Qed.
Lemma parse_status_string t st : Vm.parse_status t = Some st → t = Vm.status_string st.
Proof.
  unfold Vm.parse_status. destruct (list_find _ _) as [[i x]|] eqn:E; cbn; intros [= <-].
  apply list_find_Some in E as (_ & Hx & _). by rewrite Hx.
Qed.
Lemma status_deleted st : Vm.status_string st = "DELETED"%string ↔ st = Vm.DELETED.
Proof. by destruct st. Qed.
Lemma updated_status t d v st : Vm.parse_status (Vm.su_status d) = Some st → Vm.vm_status (Vm.updated t d v) = st.
Proof. intros Hp. unfold Vm.updated. rewrite Hp. destruct st; try done. by case_bool_decide. Qed.

Lemma merge_updated t d v st :
  plain d → Vm.parse_status (Vm.su_status d) = Some st → st ≠ Vm.DELETED →
  mergeUpdate (Vm.su_vmId d) d (shown (Vm.su_vmId d) v) = Some (shown (Vm.su_vmId d) (Vm.updated t d v)).
Proof.
  intros (Hi & Hh & Ho) Hp Hd. unfold mergeUpdate. rewrite bool_decide_eq_true_2 by done. cbn.
  pose proof (parse_status_string _ _ Hp) as Hs. rewrite bool_decide_eq_false_2.
  2: { rewrite Hs. by rewrite status_deleted. }
  rewrite !coalesce_str, coalesce_num, Hs by done.
  unfold Vm.updated, shown. rewrite Hp. by destruct st.
Qed.

(** When the worker reports on a machine, the open detail page and the VM
    service, which both receive the report, end up with the same row; a report
    that the machine is deleted leaves the page, and the list page shows of each
    remaining machine the status and the address that are stored. *)
Theorem live_view_agrees t d s v st :
  plain d → Vm.parse_status (Vm.su_status d) = Some st → rows (Vm.vms s) !! Vm.su_vmId d = Some v →
  let s' := (Vm.onStatusUpdate t d s).1 in
  ∃ v', rows (Vm.vms s') !! Vm.su_vmId d = Some v' ∧ Vm.vm_status v' = st ∧
    mergeUpdate (Vm.su_vmId d) d (shown (Vm.su_vmId d) v) =
      match st with Vm.DELETED => None | _ => Some (shown (Vm.su_vmId d) v') end ∧
    ∀ listed, (∀ k w, (k, w) ∈ listed → rows (Vm.vms s) !! k = Some w) →
      ∀ r, r ∈ (applyUpdate d ((λ kw, shown kw.1 kw.2) <$> listed)).1 →
        ∃ w', rows (Vm.vms s') !! rw_id r = Some w' ∧ rw_status r = Vm.status_string (Vm.vm_status w') ∧
          rw_ipAddress r = Vm.vm_ipAddress w' ∧ (rw_id r = Vm.su_vmId d → st ≠ Vm.DELETED).
Proof.
  intros Hpl Hp Hv. cbn zeta. exists (Vm.updated t d v).
  assert (Hrow : ∀ k w, rows (Vm.vms s) !! k = Some w →
    rows (Vm.vms (Vm.onStatusUpdate t d s).1) !! k =
      Some (if bool_decide (k = Vm.su_vmId d) then Vm.updated t d w else w)).
  { intros k w Hk. rewrite Vm.status_rows. by rewrite Hk. }
  pose proof (parse_status_string _ _ Hp) as Hs.
  split; [rewrite (Hrow _ _ Hv), bool_decide_eq_true_2 by done; done|].
  split; [by apply updated_status|]. split.
  { destruct st; try (by eapply merge_updated).
    unfold mergeUpdate. rewrite Hs, !bool_decide_eq_true_2 by done. done. }
  intros listed Hl r. unfold applyUpdate. rewrite Hs. case_bool_decide as Hd.
  - cbn. rewrite list_elem_of_In, List.filter_In. intros [Hin Hne].
    apply list_elem_of_In, list_elem_of_fmap in Hin as ([k w] & -> & Hin). cbn in *.
    exists w. rewrite (Hrow _ _ (Hl _ _ Hin)). case_bool_decide; [done|]. done.
  - apply (not_iff_compat (status_deleted st)) in Hd.
    destruct (existsb _ _) eqn:Ee; cbn; intros Hin.
    + apply list_elem_of_fmap in Hin as (r0 & -> & Hin).
      apply list_elem_of_fmap in Hin as ([k w] & -> & Hin). cbn.
      case_bool_decide as Hk; cbn; rewrite (Hrow _ _ (Hl _ _ Hin)).
      * rewrite bool_decide_eq_true_2 by done. exists (Vm.updated t d w).
        rewrite (updated_status t d w st) by done. destruct Hpl as (Hi & _ & _).
        rewrite coalesce_str by done. split_and!; [done|done| |done].
        unfold Vm.updated. rewrite Hp. by destruct st.
      * rewrite bool_decide_eq_false_2 by done. by exists w.
    + apply list_elem_of_fmap in Hin as ([k w] & -> & Hin). cbn.
      assert (Hk : k ≠ Vm.su_vmId d).
      { intros ->. apply not_true_iff_false in Ee. apply Ee, List.existsb_exists.
        exists (shown (Vm.su_vmId d) w). rewrite bool_decide_eq_true_2 by done. split; [|done].
        apply list_elem_of_In, list_elem_of_fmap. by exists (Vm.su_vmId d, w). }
      exists w. by rewrite (Hrow _ _ (Hl _ _ Hin)), bool_decide_eq_false_2.
Qed.
End views.
End ViewProps.
