(* ===== verification/WebBilling.v ===== *)
(** * WebBilling: the billing page and the dashboard

    frontend/src/app/dashboard/billing/page.tsx and dashboard/page.tsx: what the
    pages compute from the answers of the services, and that it is what the
    services compute themselves.  Numbers are rationals. *)

From Stdlib Require Import ZArith QArith Qround Lia Lqa Ascii String.
From stdpp Require Import base list gmap strings pretty sorting.
From S2P Require Import Prelude Text Js Store Plans Payment PaymentProps Vm User.
Import Plans.
#[local] Open Scope Z_scope.

Module WebBilling.

(** ** The billing page *)

Module Billing.
(** What the page reads of GET /users/profile-summary. *)
Record SubscriptionInfo := { si_planId : string; si_canRenewSamePlan : option bool;
                             si_vmHoursUsed : Q; si_vmHoursIncluded : Q }.
Record ProfileDetails := { pd_subscription : option SubscriptionInfo; pd_studentEmailVerified : bool }.

Definition planRank (p : string) : option Z :=
  match parse_plan p with
  | Some student => Some 1 | Some pro => Some 2 | Some enterprise => Some 3 | Some unlimited => Some 99
  | None => None
  end.
(** [a > b]: false when one of them is undefined. *)
Definition js_gt (a b : option Z) : bool :=
  match a, b with Some x, Some y => y <? x | _, _ => false end.

Definition activePlan (d : option ProfileDetails) : option string :=
  match d ≫= pd_subscription with
  | Some s => if truthy (si_planId s) then Some (toLowerCase (js_trim (si_planId s))) else None
  | None => None
  end.
Definition canRenewSamePlan (d : option ProfileDetails) : bool :=
  default true ((d ≫= pd_subscription) ≫= si_canRenewSamePlan).
(** [!activePlan || activePlan === "unlimited"] *)
Definition no_rules (active : option string) : bool :=
  negb (opt_truthy active) || bool_decide (active = Some "unlimited"%string).
Definition Qmin' (a b : Q) : Q := if Qle_bool a b then a else b.
Definition Qmax' (a b : Q) : Q := if Qle_bool a b then b else a.
Definition vmUsagePercent (d : option ProfileDetails) : Q :=
  match d ≫= pd_subscription with
  | Some s => Qmin' 100 (if Qle_bool (si_vmHoursIncluded s) 0 then 0
                         else (si_vmHoursUsed s / si_vmHoursIncluded s) * 100)
  | None => 0
  end%Q.

Definition isPlanSelectable (d : option ProfileDetails) (planId : PlanId) : bool :=
  if no_rules (activePlan d) then true
  else if js_gt (planRank (plan_string planId)) (planRank (default "" (activePlan d))) then true
  else canRenewSamePlan d.
Definition getDisplayedPlanAmount (d : option ProfileDetails) (plans : list Payment.PublicPlan)
    (plan : Payment.PublicPlan) : Q :=
  let amountDt p := pc_amountDt (Payment.pp_row p) in
  if no_rules (activePlan d) then amountDt plan
  else match List.find (λ p, bool_decide (Some (plan_string (Payment.pp_id p)) = activePlan d)) plans with
       | None => amountDt plan
       | Some currentPlan =>
           if js_gt (planRank (plan_string (Payment.pp_id plan))) (planRank (default "" (activePlan d)))
           then hundredths (Z.max 0 (toFixed2 (amountDt plan - amountDt currentPlan)%Q))
           else amountDt plan
       end.
Definition isUpgradePlan (d : option ProfileDetails) (planId : PlanId) : bool :=
  if no_rules (activePlan d) then false
  else js_gt (planRank (plan_string planId)) (planRank (default "" (activePlan d))).
(** [a <= b]: false when one of them is undefined. *)
Definition js_le (a b : option Z) : bool :=
  match a, b with Some x, Some y => x <=? y | _, _ => false end.
Definition planBlockReason (d : option ProfileDetails) (planId : PlanId) : string :=
  if no_rules (activePlan d) then ""
  else if js_le (planRank (plan_string planId)) (planRank (default "" (activePlan d))) && negb (canRenewSamePlan d)
  then "Same or lower plan is locked until cycle end or until you reach 90% VM-hours usage."
  else "".
(** The button of a plan. *)
Definition button_disabled (loadingPlan : bool) (d : option ProfileDetails) (planId : PlanId) : bool :=
  loadingPlan || negb (isPlanSelectable d planId) ||
  (bool_decide (planId = student) && negb (default false (pd_studentEmailVerified <$> d))).
Definition orderedPlans (preferredPlan : option string) (plans : list Payment.PublicPlan) : list Payment.PublicPlan :=
  match nonempty (default "" preferredPlan) with
  | None => plans
  | Some wanted =>
      match List.find (λ p, bool_decide (plan_string (Payment.pp_id p) = wanted)) plans with
      | None => plans
      | Some preferred =>
          preferred :: List.filter (λ p, negb (bool_decide (Payment.pp_id p = Payment.pp_id preferred))) plans
      end
  end.

(** [mm.toString().padStart(2, "0")] is [two_digits]. *)
Definition formatDecimalHours (hours : Q) (alwaysHours : bool) : string :=
  if alwaysHours then pretty (js_round hours) +:+ " h"
  else if Qle_bool hours 0 then "0 min"
  else let totalMinutes := js_round (hours * 60)%Q in
       if totalMinutes <? 60 then pretty totalMinutes +:+ " min"
       else pretty (totalMinutes / 60) +:+ " h " +:+ two_digits (totalMinutes mod 60) +:+ " min".

Fixpoint take_while (p : ascii → bool) (l : list ascii) : list ascii :=
  match l with c :: l' => if p c then c :: take_while p l' else [] | [] => [] end.
(** [method.match(/^stripe:([^:]+)(:|$)/i)?.[1]] *)
Definition stripe_session (method : string) : option string :=
  if starts_with "stripe:" (toLowerCase method)
  then nonempty (str (take_while (λ c, negb (bool_decide (c = ":"%char))) (drop 7 (chars method)))) else None.
Definition formatPaymentMethod (method : option string) : string :=
  match method ≫= nonempty with
  | None => "-"
  | Some method =>
      match stripe_session method with
      | Some sessionId =>
          let tail := if 8 <? js_length sessionId then slice_tail 8 sessionId else sessionId in
          let planLabel := match find_plan_tag (toLowerCase method) with
                           | Some p => " · " +:+ toUpperCase (plan_string p) | None => "" end in
          "stripe · session …" +:+ tail +:+ planLabel
      | None =>
          if starts_with "admin:grant:" method
          then "admin grant · " +:+ toUpperCase (opt_or (nth_error (js_split ":" method) 2) "unknown")
          else if 48 <? js_length method then slice_head 48 method +:+ "…" else method
      end
  end.

(** [startCheckout]: the body that is posted, if one is, and what the page does
    with the answer. *)
Inductive Checkout := Blocked (error : string) | Redirected (url : string) | CheckoutFailed (error : string).
Definition startCheckout (isAdmin : bool) (answer : option string + string) : Checkout :=
  if isAdmin then Blocked "Admin accounts are unlimited and cannot create Stripe checkout sessions."
  else match answer with
       | inl (Some url) => if truthy url then Redirected url else CheckoutFailed "Missing checkout URL"
       | inl None => CheckoutFailed "Missing checkout URL"
       | inr message => CheckoutFailed message
       end.
(** The effect that confirms a payment once Stripe has sent the buyer back. *)
Definition confirms (status successSessionId : option string) (isAdmin : bool) : option string :=
  if negb (bool_decide (status = Some "success"%string)) || negb (opt_truthy successSessionId) || isAdmin
  then None else successSessionId.
(** [confirmStudentCode]: the code that is posted. *)
Definition confirmStudentCode (studentCode : string) : option string := nonempty (js_trim studentCode).
End Billing.

(** ** The dashboard *)

Module Dashboard.
Import Billing.

(** A machine of the list, with its dates after [parseSafeDate]. *)
Record PageVm := { pv_status : string; pv_createdAt : option Z; pv_stoppedAt : option Z;
                   pv_cpu : Z; pv_ramMb : Z; pv_diskGb : Z }.
Definition of_row (v : Vm.VirtualMachine) : PageVm :=
  {| pv_status := Vm.status_string (Vm.vm_status v); pv_createdAt := Some (Vm.vm_createdAt v);
     pv_stoppedAt := Vm.vm_stoppedAt v; pv_cpu := Vm.vm_cpu v; pv_ramMb := Vm.vm_ramMb v;
     pv_diskGb := Vm.vm_diskGb v |}.
Record Usage := { vmCount : Z; cpuUsed : Z; ramMbUsed : Z; diskGbUsed : Z }.
Definition running (vm : PageVm) : bool := bool_decide (pv_status vm = "RUNNING"%string).
Definition liveUsage (allVms : list PageVm) : Usage :=
  let runningVms := List.filter running allVms in
  {| vmCount := Z.of_nat (length runningVms); cpuUsed := sumZ pv_cpu runningVms;
     ramMbUsed := sumZ pv_ramMb runningVms; diskGbUsed := sumZ pv_diskGb runningVms |}.

(** One turn of the loop: the milliseconds that are added. *)
Definition span (cycleStart cycleCutoff : Z) (vm : PageVm) : Z :=
  match pv_createdAt vm with
  | None => 0
  | Some createdAt =>
      let started := if cycleStart <? createdAt then createdAt else cycleStart in
      let nonRunningEnd := default cycleCutoff (pv_stoppedAt vm) in
      let ended := if running vm then cycleCutoff
                   else if nonRunningEnd <? cycleCutoff then nonRunningEnd else cycleCutoff in
      if ended <=? started then 0 else ended - started
  end.
Definition estimateVmHoursUsed (vms : list PageVm) (cycleStart cycleCutoff : Z) : Q :=
  sumZ (span cycleStart cycleCutoff) vms # 3600000.

Record DashSubscription := { ds_planId : string; ds_cycleStartedAt : option Z; ds_cycleEndsAt : option Z;
                             ds_vmHoursIncluded : Q; ds_vmHoursUsed : Q }.
Definition computedVmHoursUsed (nowMs : Z) (sub : option DashSubscription) (allVms : list PageVm) : Q :=
  match sub with
  | None => 0
  | Some s =>
      match ds_cycleStartedAt s, ds_cycleEndsAt s with
      | Some cycleStart, Some cycleEnd =>
          estimateVmHoursUsed allVms cycleStart (if nowMs <? cycleEnd then nowMs else cycleEnd)
      | _, _ => ds_vmHoursUsed s
      end
  end.
Definition computedVmHoursRemaining (nowMs : Z) (sub : option DashSubscription) (allVms : list PageVm) : Q :=
  match sub with
  | None => 0
  | Some s => Qmax' 0 (ds_vmHoursIncluded s - computedVmHoursUsed nowMs sub allVms)%Q
  end.

Definition formatHourMetric (hours : Q) : string :=
  if Qle_bool hours 0 then "0 min"
  else let totalMinutes := Z.max 0 (js_round (hours * 60)%Q) in
       if totalMinutes <? 60 then pretty totalMinutes +:+ " min"
       else if totalMinutes mod 60 =? 0 then pretty (totalMinutes / 60) +:+ " h"
       else pretty (totalMinutes / 60) +:+ " h " +:+ pretty (totalMinutes mod 60) +:+ " min".

Definition toPercent (used max : Q) : Q :=
  if Qle_bool max 0 then 0 else Qmin' 100 (Qmax' 0 ((used / max) * 100)%Q).

Record Percents := { cpuPct : Q; ramPct : Q; diskPct : Q; vmHoursPct : Q }.
Definition percents (nowMs : Z) (sub : option DashSubscription) (quota : option Vm.UserQuota)
    (allVms : list PageVm) : Percents :=
  let u := liveUsage allVms in
  let of_quota used f := match quota with Some q => toPercent (inject_Z used) (inject_Z (f q)) | None => 0%Q end in
  {| cpuPct := of_quota (cpuUsed u) Vm.uq_maxCpu; ramPct := of_quota (ramMbUsed u) Vm.uq_maxRamMb;
     diskPct := of_quota (diskGbUsed u) Vm.uq_maxDiskGb;
     vmHoursPct := match sub with
                   | Some s => toPercent (computedVmHoursUsed nowMs sub allVms) (ds_vmHoursIncluded s)
                   | None => 0 end |}.
Definition showUpgradeHint (sub : option DashSubscription) (p : Percents) : bool :=
  match sub with
  | Some s => negb (bool_decide (ds_planId s = "unlimited"%string)) &&
              (Qle_bool 80 (vmHoursPct p) || Qle_bool 80 (cpuPct p) || Qle_bool 80 (ramPct p) || Qle_bool 80 (diskPct p))
  | None => false
  end.
Definition progressTone (pct : Q) : string :=
  if Qle_bool 90 pct then "bg-cyber-red" else if Qle_bool 75 pct then "bg-cyber-orange" else "bg-cyber-green".

(** [load]: what the four settled requests leave on the page, and the error. *)
Record Loaded := { ld_stats : option Vm.Stats; ld_recent : option (list PageVm); ld_all : option (list PageVm);
                   ld_error : string }.
Definition load (stats : Vm.Stats + string) (recent all : list PageVm + string) : Loaded :=
  {| ld_stats := match stats with inl d => Some d | inr _ => None end;
     ld_recent := match recent with inl l => Some (take 5 l) | inr _ => None end;
     ld_all := match all with inl l => Some l | inr _ => None end;
     ld_error := match stats, recent with
                 | inr message, inr _ => message
                 | inr _, inl _ | inl _, inr _ => "Some dashboard data could not be loaded. Please try again."
                 | inl _, inl _ => "" end |}.
End Dashboard.
End WebBilling.
