(* ===== verification/WebBillingProps.v ===== *)
(** * WebBillingProps: the pages show what the services will do *)

From Stdlib Require Import ZArith QArith Qround Lia Lqa Ascii String.
From stdpp Require Import base list gmap strings pretty sorting.
From S2P Require Import Prelude Text Js Store Plans Payment PaymentProps Vm User WebBilling.
Import Plans Payment PaymentProps WebBilling.
#[local] Open Scope Z_scope.

(** ** The billing page *)

Module BillingProps.
Import WebBilling.Billing.

(** The profile the user service answers with, as the page reads it. *)
Definition details (verified : bool) (sub : option User.Subscription) : ProfileDetails :=
  {| pd_subscription := (λ sb, {| si_planId := plan_string (User.sb_planId sb);
                                  si_canRenewSamePlan := Some (User.sb_canRenewSamePlan sb);
                                  si_vmHoursUsed := hundredths (User.sb_vmHoursUsed sb);
                                  si_vmHoursIncluded := inject_Z (User.sb_vmHoursIncluded sb) |}) <$> sub;
     pd_studentEmailVerified := verified |}.
(** The catalogue ranks the plans the way the page does. *)
Definition ranked_as_shown (cat : Catalog) : Prop :=
  pc_rank (cat student) < pc_rank (cat pro) < pc_rank (cat enterprise).
(** The list GET /payments/plans answers with. *)
Definition catalogue (cat : Catalog) : list PublicPlan :=
  merge_sort rank_le ((λ p, toPublicPlan p (cat p)) <$> REQUIRED_PLAN_IDS).

Lemma find_unique {A} (f : A → bool) l x :
  x ∈ l → f x = true → (∀ y, y ∈ l → f y = true → y = x) → List.find f l = Some x.
Proof.
  intros Hin Hf Hu. destruct (List.find f l) as [y|] eqn:E.
  - apply List.find_some in E as [Hy Hfy]. apply list_elem_of_In in Hy. f_equal. by apply Hu.
  - apply list_elem_of_In in Hin. by rewrite (List.find_none _ _ E _ Hin) in Hf.
Qed.
Lemma plan_string_inj p q : plan_string p = plan_string q → p = q.
Proof. by destruct p, q. Qed.
Lemma find_current cat p :
  p ≠ unlimited →
  List.find (λ x, bool_decide (Some (plan_string (pp_id x)) = Some (plan_string p))) (catalogue cat) =
    Some (toPublicPlan p (cat p)).
Proof.
  intros Hp. unfold catalogue. apply find_unique.
  - rewrite merge_sort_Permutation. apply list_elem_of_fmap. exists p. split; [done|].
    unfold REQUIRED_PLAN_IDS. destruct p; set_solver.
  - by apply bool_decide_eq_true_2.
  - intros y. rewrite merge_sort_Permutation. intros (q & -> & _)%list_elem_of_fmap Hq.
    apply bool_decide_eq_true in Hq. injection Hq as Hq. apply plan_string_inj in Hq. cbn in Hq. by subst q.
Qed.
Lemma active_details v sb :
  activePlan (Some (details v (Some sb))) = Some (plan_string (User.sb_planId sb)).
Proof. unfold activePlan, details. cbn. by destruct (User.sb_planId sb). Qed.
Lemma renewable v sb : canRenewSamePlan (Some (details v (Some sb))) = User.sb_canRenewSamePlan sb.
Proof. done. Qed.
Lemma access_of localeDate sb :
  User.sb_planId sb ≠ unlimited →
  ∃ ratio ends, User.subscriptionAccess localeDate (Some sb) =
    {| sa_activePlanId := Some (User.sb_planId sb); sa_canPurchaseSameOrLower := User.sb_canRenewSamePlan sb;
       sa_usageRatio := ratio; sa_cycleEndsAt := ends |}.
Proof. intros Hne. unfold User.subscriptionAccess. rewrite bool_decide_eq_false_2 by done. eauto. Qed.
Lemma rank_gt cat p q :
  ranked_as_shown cat → p ≠ unlimited → q ≠ unlimited →
  js_gt (planRank (plan_string p)) (planRank (plan_string q)) =
    (getPlanRank (Some q) cat <? getPlanRank (Some p) cat).
Proof.
  unfold ranked_as_shown. intros Hr Hp Hq. symmetry.
  destruct p, q; try done; cbn; first [apply Z.ltb_lt; lia | apply Z.ltb_ge; lia].
Qed.

End BillingProps.

(** ** The dashboard *)

Module DashboardProps.
Import WebBilling.Billing WebBilling.Dashboard.
#[local] Existing Instance Vm.VmStatus_eq_dec.

Lemma running_row v : running (of_row v) = bool_decide (Vm.vm_status v = Vm.RUNNING).
Proof. unfold running, of_row. cbn. by destruct (Vm.vm_status v). Qed.
Lemma span_row a b v : span a b (of_row v) = User.vm_span a b v.
Proof. unfold span, User.vm_span. cbn [pv_createdAt pv_stoppedAt of_row]. by rewrite running_row. Qed.
Lemma sumZ_rows a b l : sumZ (span a b) (of_row <$> l) = sumZ (User.vm_span a b) l.
Proof. unfold sumZ. induction l as [|v l IH]; [done|]. cbn [fmap list_fmap foldr]. by rewrite span_row, IH. Qed.
Lemma sumZ_split {A} (f : A → Z) p l :
  sumZ f l = sumZ f (List.filter p l) + sumZ f (List.filter (λ x, negb (p x)) l).
Proof. unfold sumZ. induction l as [|x l IH]; [done|]. cbn. destruct (p x); cbn; lia. Qed.

(** What the page reads of a subscription. *)
Definition as_read (sb : User.Subscription) : DashSubscription :=
  {| ds_planId := plan_string (User.sb_planId sb); ds_cycleStartedAt := Some (User.sb_cycleStartedAt sb);
     ds_cycleEndsAt := Some (User.sb_cycleEndsAt sb); ds_vmHoursIncluded := inject_Z (User.sb_vmHoursIncluded sb);
     ds_vmHoursUsed := hundredths (User.sb_vmHoursUsed sb) |}.
Definition kept (v : Vm.VirtualMachine) : bool := negb (bool_decide (Vm.vm_status v = Vm.DELETED)).

Lemma toPercent_bounds u m : (0 <= toPercent u m <= 100)%Q.
Proof.
  unfold toPercent, Qmin', Qmax'. destruct (Qle_bool m 0); [lra|].
  destruct (Qle_bool 0 (u / m * 100)) eqn:E1.
  - apply Qle_bool_iff in E1. destruct (Qle_bool 100 _) eqn:E2; [lra|].
    split; [done|]. apply Qlt_le_weak, Qnot_le_lt. intros Hl%Qle_bool_iff. congruence.
  - destruct (Qle_bool 100 0) eqn:E2; [lra|]. lra.
Qed.

(** The dashboard recomputes the hours of a subscription as the user service
    does: on the same machines at the same moment the two agree to the rounding
    of the service, and what the page shows is less by exactly the hours of the
    machines that were deleted, which the list of the VM service leaves out;
    every bar stays between 0 and 100 percent. *)
Theorem dashboard_hours_agree t catalog planId started l quota :
  let sb := User.subscription_of t catalog planId started l in
  let cutoff := if t <? User.sb_cycleEndsAt sb then t else User.sb_cycleEndsAt sb in
  let page rows := computedVmHoursUsed t (Some (as_read sb)) (of_row <$> rows) in
  toFixed2 (page l) = User.sb_vmHoursUsed sb ∧
  (page l == page (List.filter kept l) +
             (sumZ (User.vm_span started cutoff) (List.filter (λ v, negb (kept v)) l) # 3600000))%Q ∧
  let p := percents t (Some (as_read sb)) quota (of_row <$> l) in
  Forall (λ q, 0 <= q <= 100)%Q [cpuPct p; ramPct p; diskPct p; vmHoursPct p].
Proof.
  cbn zeta. split_and!.
  - unfold computedVmHoursUsed, estimateVmHoursUsed. cbn [as_read ds_cycleStartedAt ds_cycleEndsAt].
    rewrite sumZ_rows. done.
  - unfold computedVmHoursUsed, estimateVmHoursUsed. cbn [as_read ds_cycleStartedAt ds_cycleEndsAt].
    rewrite !sumZ_rows, (sumZ_split _ kept l). unfold Qplus, Qeq. cbn. lia.
  - unfold percents. cbn [cpuPct ramPct diskPct vmHoursPct].
    destruct quota as [q|]; repeat constructor; try apply toPercent_bounds; lra.
Qed.
End DashboardProps.
