(* ===== verification/WebForms.v ===== *)
(** * WebForms: the pages that send requests

    The handlers of frontend/src/app/(auth)/login and register, and of
    dashboard/profile, vms/create, vms, vms/[id], ssh-keys, admin/users,
    admin/universities and admin/plans, of components/auth/MfaSettingsPanel.tsx and of
    dashboard/layout.tsx.  A handler is a function of the form and of the answers
    it waits for; its result is what it sent and what the page shows after it. *)

From Stdlib Require Import ZArith QArith Qround Lia Ascii String.
From stdpp Require Import base list gmap strings pretty sorting.
From S2P Require Import Prelude Text Js Regex Store Plans Payment Vm Dto Gateway Startup AuthHttp WebClient.
Import Plans WebClient.
#[local] Open Scope Z_scope.

Module WebForms.

(** A request the page sends; the prefix /api is the client's. *)
Record Sent := { s_method : string; s_url : string; s_body : Dto.Body }.
Definition post (url : string) (body : Dto.Body) : Sent := {| s_method := "POST"; s_url := url; s_body := body |}.
Definition patch (url : string) (body : Dto.Body) : Sent := {| s_method := "PATCH"; s_url := url; s_body := body |}.
(** An answer, or the text [getErrorMessage] finds in the error. *)
Abbreviation Answer A := (A + string)%type.

(** ** vms/create/page.tsx *)

Module CreateVm.
Record Form := { f_name : string; f_osTemplate : string; f_cpu : Z; f_ramMb : Z; f_diskGb : Z;
                 f_vmUsername : string; f_vmPassword : string }.
Definition initial : Form :=
  {| f_name := ""; f_osTemplate := ""; f_cpu := 1; f_ramMb := 1024; f_diskGb := 10;
     f_vmUsername := "cloudvm"; f_vmPassword := "" |}.
(** The templates arrive: the first one is chosen. *)
Definition templatesLoaded (names : list string) (f : Form) : Form :=
  match names with
  | [] => f
  | n :: _ => {| f_name := f_name f; f_osTemplate := n; f_cpu := f_cpu f; f_ramMb := f_ramMb f;
                 f_diskGb := f_diskGb f; f_vmUsername := f_vmUsername f; f_vmPassword := f_vmPassword f |}
  end.
(** The values of a range input. *)
Definition slider (lo hi step v : Z) : bool := (lo <=? v) && (v <=? hi) && ((v - lo) mod step =? 0).
(** What the inputs let through to the submission. *)
Definition submittable (f : Form) : bool :=
  truthy (f_name f) && truthy (f_vmUsername f) && slider 1 16 1 (f_cpu f) &&
  slider 512 32768 512 (f_ramMb f) && slider 10 500 10 (f_diskGb f).
Definition generatedName (today : string) (f : Form) : string :=
  if truthy (js_trim (f_name f)) then f_name f +:+ "-key" else "vm-key-" +:+ today.

Definition body (f : Form) (publicKey : string) : Dto.Body :=
  let base := <["name" := Dto.JStr (f_name f)]> (<["osTemplate" := Dto.JStr (f_osTemplate f)]>
    (<["cpu" := Dto.JNum (inject_Z (f_cpu f))]> (<["ramMb" := Dto.JNum (inject_Z (f_ramMb f))]>
    (<["diskGb" := Dto.JNum (inject_Z (f_diskGb f))]> (<["vmUsername" := Dto.JStr (f_vmUsername f)]>
    (<["sshPublicKey" := Dto.JStr publicKey]> (∅ : Dto.Body))))))) in
  if truthy (f_vmPassword f) then <["vmPassword" := Dto.JStr (f_vmPassword f)]> base else base.
End CreateVm.

(** The answer of POST /ssh-keys/generate. *)
Record GeneratedKey := { gk_id : option string; gk_publicKey : option string; gk_privateKey : option string;
                         gk_filename : option string }.
(** What a handler leaves: the requests, the storage, the downloads and the text. *)
Record Outcome := { o_sent : list Sent; o_storage : gmap string string; o_downloads : list (string * string);
                    o_error : string; o_success : string; o_page : option string }.

Section keys.
Context `{JsonCodec}.
Abbreviation Storage := (gmap string string).

(** Keeping a generated key: it is stored, and downloaded the first time. *)
Definition keepKey (id privateKey : string) (filename : option string) (ls : Storage)
    : Storage * list (string * string) :=
  let ls := saveUserGeneratedSshPrivateKey id privateKey filename ls in
  if negb (hasDownloadedGeneratedSshPrivateKey id ls) && opt_truthy filename
  then (markGeneratedSshPrivateKeyDownloaded id ls, [(default "" filename, privateKey)])
  else (ls, []).

Definition handleCreateVm (today : string) (f : CreateVm.Form) (generated : Answer GeneratedKey)
    (created : Answer (option string)) (ls : Storage) : Outcome :=
  let ask := post "/ssh-keys/generate" {[ "name"%string := Dto.JStr (CreateVm.generatedName today f) ]} in
  match generated with
  | inr e => {| o_sent := [ask]; o_storage := ls; o_downloads := []; o_error := e; o_success := ""; o_page := None |}
  | inl g =>
      if negb (opt_truthy (gk_id g)) || negb (opt_truthy (gk_publicKey g)) || negb (opt_truthy (gk_privateKey g))
      then {| o_sent := [ask]; o_storage := ls; o_downloads := [];
              o_error := "Generated SSH key response is incomplete"; o_success := ""; o_page := None |}
      else
        let priv := default "" (gk_privateKey g) in
        let '(ls, downloads) := keepKey (default "" (gk_id g)) priv (gk_filename g) ls in
        let sent := [ask; post "/vms" (CreateVm.body f (default "" (gk_publicKey g)))] in
        match created with
        | inr e => {| o_sent := sent; o_storage := ls; o_downloads := downloads; o_error := e; o_success := "";
                      o_page := None |}
        | inl vmId =>
            {| o_sent := sent;
               o_storage := if opt_truthy vmId then saveGeneratedVmSshPrivateKey (default "" vmId) priv ls else ls;
               o_downloads := downloads; o_error := ""; o_success := "VM created successfully. Redirecting...";
               o_page := Some "/dashboard/vms" |}
        end
  end.

(** ssh-keys/page.tsx, [handleGenerateKey]. *)
Definition handleGenerateKey (today : string) (generated : Answer GeneratedKey) (ls : Storage) : Outcome :=
  let ask := post "/ssh-keys/generate" {[ "name"%string := Dto.JStr ("Auto Key " +:+ today) ]} in
  match generated with
  | inr e => {| o_sent := [ask]; o_storage := ls; o_downloads := []; o_error := e; o_success := ""; o_page := None |}
  | inl g =>
      if opt_truthy (gk_id g) && opt_truthy (gk_privateKey g)
      then let '(ls, downloads) := keepKey (default "" (gk_id g)) (default "" (gk_privateKey g)) (gk_filename g) ls in
           {| o_sent := [ask]; o_storage := ls; o_downloads := downloads; o_error := "";
              o_success := "SSH key generated. Private key download started once — save it securely.";
              o_page := None |}
      else {| o_sent := [ask]; o_storage := ls; o_downloads := []; o_error := ""; o_success := ""; o_page := None |}
  end.
End keys.

(** ** login and register *)

Module Login.
Record Page := { challengeId : string; mfaCode : string; devOtpHint : string; error : string;
                 route : option string }.
(** What [login] and [verifyMfa] of the auth context end with. *)
Inductive Result :=
| SignedIn
| MfaRequired (challengeId : option string) (devOtp : option string)
| Rejected (status : option Z) (err : ApiError).
Inductive Call := CallLogin | CallVerifyMfa (challengeId code : string).
Definition pending (p : Page) : Call :=
  if truthy (challengeId p) then CallVerifyMfa (challengeId p) (js_trim (mfaCode p)) else CallLogin.
Definition handleSubmit (r : Result) (p : Page) : Page :=
  let inMfa := truthy (challengeId p) in
  match r with
  | MfaRequired (Some ch) otp =>
      if negb inMfa && truthy ch
      then {| challengeId := ch; mfaCode := mfaCode p; devOtpHint := opt_or otp ""; error := ""; route := route p |}
      else {| challengeId := challengeId p; mfaCode := mfaCode p; devOtpHint := devOtpHint p; error := "";
              route := Some "/dashboard/profile" |}
  | SignedIn | MfaRequired None _ =>
      {| challengeId := challengeId p; mfaCode := mfaCode p; devOtpHint := devOtpHint p; error := "";
         route := Some "/dashboard/profile" |}
  | Rejected status err =>
      let message := getErrorMessage err (if inMfa then "Invalid MFA code" else "Invalid email or password") in
      if inMfa && bool_decide (status = Some 429)
      then {| challengeId := ""; mfaCode := ""; devOtpHint := ""; error := message; route := route p |}
      else {| challengeId := challengeId p; mfaCode := mfaCode p; devOtpHint := devOtpHint p; error := message;
              route := route p |}
  end.
Definition oauthMessage (oauthError : option string) : option string :=
  match oauthError with
  | Some e =>
      if bool_decide (e = "google_account_not_found"%string)
      then Some "No account found for this Google email. Please register first."%string
      else if bool_decide (e = "google_account_inactive"%string)
      then Some "This account is deactivated. Please contact support."%string
      else if bool_decide (e = "google_auth_failed"%string)
      then Some "Google authentication failed. Please try again."%string
      else None
  | None => None
  end.
End Login.

(** register/page.tsx: the body that is sent, or the error. *)
Record RegisterForm := { rf_firstName : string; rf_lastName : string; rf_email : string; rf_password : string;
                         rf_confirmPassword : string }.
Definition handleRegister (f : RegisterForm) : Sent + string :=
  if negb (bool_decide (rf_password f = rf_confirmPassword f)) then inr "Passwords do not match"%string
  else inl (post "/auth/register"
    (<["email" := Dto.JStr (rf_email f)]> (<["password" := Dto.JStr (rf_password f)]>
     (<["firstName" := Dto.JStr (rf_firstName f)]> (<["lastName" := Dto.JStr (rf_lastName f)]> ∅))))).
(** profile/page.tsx *)
Definition handleProfileUpdate (firstName lastName email : string) : Sent :=
  patch "/users/profile" (<["firstName" := Dto.JStr firstName]> (<["lastName" := Dto.JStr lastName]>
    (<["email" := Dto.JStr email]> ∅))).
Definition handlePasswordChange (oldPassword newPassword confirmPassword : string) : Sent + string :=
  if negb (bool_decide (newPassword = confirmPassword)) then inr "Passwords do not match"%string
  else inl (patch "/auth/password" (<["oldPassword" := Dto.JStr oldPassword]>
              (<["newPassword" := Dto.JStr newPassword]> ∅))).

(** ** MfaSettingsPanel.tsx *)

Module Mfa.
Record Panel := { setup : option string; code : string; password : string; recoveryCodes : list string;
                  message : option string; error : option string }.
Definition canRunSensitiveAction (p : Panel) : bool := 8 <=? js_length (js_trim (password p)).
(** [/^\d{6}$/.test(code.trim())] *)
Definition codeValid (p : Panel) : bool := Regex.test Dto.six_digits_regex (js_trim (code p)).
Inductive Button := StartSetup | EnableMfa | DisableMfa (confirmed : bool) | RegenerateRecoveryCodes.
Definition password_body (p : Panel) : Dto.Body := {[ "password"%string := Dto.JStr (js_trim (password p)) ]}.
Definition feedback (m e : option string) (p : Panel) : Panel :=
  {| setup := setup p; code := code p; password := password p; recoveryCodes := recoveryCodes p;
     message := m; error := e |}.
(** The request of a button, or the error it shows instead; [None] when the user
    did not confirm. *)
Definition press (b : Button) (p : Panel) : option (Sent + string) :=
  let guarded url text := if canRunSensitiveAction p then inl (post url (password_body p)) else inr text in
  match b with
  | StartSetup => Some (guarded "/auth/mfa/setup" "Enter your current password to set up or rotate MFA.")%string
  | EnableMfa =>
      Some (if codeValid p
            then inl (post "/auth/mfa/enable" {[ "code"%string := Dto.JStr (js_trim (code p)) ]})
            else inr "Enter a valid 6-digit authenticator code."%string)
  | DisableMfa confirmed =>
      match guarded "/auth/mfa/disable" "Enter your current password to disable MFA."%string with
      | inl r => if confirmed then Some (inl r) else None
      | inr e => Some (inr e)
      end
  | RegenerateRecoveryCodes =>
      Some (guarded "/auth/mfa/recovery-codes/regenerate" "Enter your current password to regenerate recovery codes.")%string
  end.
(** What the panel shows when the answer is there. *)
Inductive Answered := SetupData (mfaEnabled : bool) (otpAuthUrl : string) | Codes (l : list string) | Done
| Refused (status : option Z) (text : string).
Definition answered (b : Button) (a : Answered) (p : Panel) : Panel :=
  match b, a with
  | StartSetup, SetupData enabled url =>
      {| setup := Some url; code := ""; password := password p; recoveryCodes := recoveryCodes p;
         message := Some (if enabled then "New secret generated. Scan to rotate your MFA authenticator."
                          else "Scan the QR code in your authenticator app, then enter the 6-digit code.");
         error := None |}
  | EnableMfa, Codes l =>
      {| setup := None; code := ""; password := password p; recoveryCodes := l;
         message := Some "MFA enabled successfully. Future logins can require your authenticator app.";
         error := None |}
  | EnableMfa, Refused (Some 401) _ =>
      feedback None (Some "Session expired or unauthorized. Please sign in again and retry MFA setup."%string) p
  | DisableMfa _, Done =>
      {| setup := None; code := ""; password := password p; recoveryCodes := [];
         message := Some "MFA disabled. You can re-enable it any time."; error := None |}
  | RegenerateRecoveryCodes, Codes l =>
      {| setup := setup p; code := code p; password := password p; recoveryCodes := l;
         message := Some "New recovery codes generated. Save them now; they are shown only once."; error := None |}
  | _, Refused _ text => feedback None (Some text) p
  | _, _ => p
  end.
End Mfa.
End WebForms.
