(* ===== verification/WebFormsProps.v ===== *)
(** * WebFormsProps: the forms agree with the validation behind them *)

From Stdlib Require Import ZArith QArith Qround Lia Lqa Ascii String.
From stdpp Require Import base list gmap strings pretty sorting.
From S2P Require Import Prelude Text Js Regex Crypto Store RequestSecurity Totp AuthModel AuthSession.
From S2P Require Import AuthLogin AuthMfa Plans Payment Vm Dto Gateway Startup Cookies AuthHttp WebClient.
From S2P Require Import WebClientProps WebForms.
Import RequestSecurity AuthModel Plans WebClient WebClientProps WebForms.
#[local] Open Scope Z_scope.

Module WebFormsProps.

(** ** Bodies built by the pages *)

Section bodies.
Context `{Dto.StringValidators}.

Definition all_declared (schema : Dto.Schema) (b : Dto.Body) : Prop :=
  ∀ p j, b !! p = Some j → Dto.declared schema p = true.
Lemma all_declared_empty schema : all_declared schema ∅.
Proof. intros p j Hp. by rewrite lookup_empty in Hp. Qed.
Lemma all_declared_insert schema k v b :
  Dto.declared schema k = true → all_declared schema b → all_declared schema (<[k := v]> b).
Proof. intros Hk Hb p j [[<- _]|[_ Hp]]%lookup_insert_Some; [done|by eapply Hb]. Qed.
Lemma all_declared_one schema k v : Dto.declared schema k = true → all_declared schema {[ k := v ]}.
Proof. intros Hk. apply all_declared_insert, all_declared_empty. done. Qed.

(** A body with nothing undeclared passes when its properties do. *)
Lemma validate_declared schema b :
  all_declared schema b →
  Dto.validate schema b = forallb (λ pv, Dto.property_ok pv.2 (b !! pv.1.1)) schema.
Proof.
  intros Hd. unfold Dto.validate. assert (Ha : forallb (λ kv, Dto.declared schema kv.1) (map_to_list b) = true).
  { apply forallb_forall. intros [k v] Hin. apply list_elem_of_In, elem_of_map_to_list in Hin. by eapply Hd. }
  by rewrite Ha.
Qed.
End bodies.

Ltac declared := repeat first [apply all_declared_insert | apply all_declared_one | apply all_declared_empty]; vm_compute; reflexivity.

(** ** The creation form *)

Section create.
Context `{Dto.StringValidators}.
Import CreateVm.

(** What has to hold of the texts: the decorators of the DTO. *)
Record texts_ok (f : Form) (publicKey : string) : Prop := {
  t_name : js_length (f_name f) <= 64 ∧ Regex.test Dto.name_regex (f_name f) = true;
  t_os : 1 <= js_length (f_osTemplate f) <= 100 ∧ Regex.test Dto.no_angle_regex (f_osTemplate f) = true;
  t_user : js_length (f_vmUsername f) <= 32 ∧ Regex.test Dto.username_regex (f_vmUsername f) = true;
  t_password : js_length (f_vmPassword f) <= 128;
  t_key : 32 <= js_length publicKey <= 4096 ∧ Regex.test Dto.public_key_regex publicKey = true;
}.

Lemma nonempty_length s : truthy s = true ↔ 1 <= js_length s.
Proof. destruct s; cbn; [|unfold js_length; cbn]; split; try done; lia. Qed.
Lemma body_declared f key : all_declared Dto.CreateVmDto (body f key).
Proof. unfold body. destruct (truthy (f_vmPassword f)); declared. Qed.
Lemma body_at f key :
  body f key !! "name"%string = Some (Dto.JStr (f_name f)) ∧
  body f key !! "cpu"%string = Some (Dto.JNum (inject_Z (f_cpu f))) ∧
  body f key !! "ramMb"%string = Some (Dto.JNum (inject_Z (f_ramMb f))) ∧
  body f key !! "diskGb"%string = Some (Dto.JNum (inject_Z (f_diskGb f))) ∧
  body f key !! "osTemplate"%string = Some (Dto.JStr (f_osTemplate f)) ∧
  body f key !! "planId"%string = None ∧
  body f key !! "sshPublicKey"%string = Some (Dto.JStr key) ∧
  body f key !! "vmUsername"%string = Some (Dto.JStr (f_vmUsername f)) ∧
  body f key !! "vmPassword"%string = Dto.JStr <$> nonempty (f_vmPassword f).
Proof.
  unfold body, nonempty. destruct (truthy (f_vmPassword f));
    split_and!; repeat first [rewrite lookup_insert_eq | rewrite lookup_insert_ne by done]; done.
Qed.
Lemma integer_Z z : Dto.is_integer (inject_Z z) = true.
Proof. unfold Dto.is_integer. rewrite Qfloor_Z. by apply Qeq_bool_iff. Qed.
Lemma Qle_bool_Z a b : Qle_bool (inject_Z a) (inject_Z b) = (a <=? b).
Proof. unfold Qle_bool, inject_Z. cbn. by rewrite !Z.mul_1_r. Qed.

(** Whatever the sliders of the creation page are set to, the request that
    is sent passes the validation of the VM service as far as the numbers go,
    except for a disk of more than 400 GB, which the page offers and the service
    refuses; and the texts pass exactly when they satisfy the service's rules. *)
Theorem create_form_agrees f key :
  submittable f = true →
  (Dto.validate Dto.CreateVmDto (body f key) = true ↔ f_diskGb f <= 400 ∧ texts_ok f key).
Proof.
  unfold submittable, slider. rewrite !andb_true_iff, !Z.leb_le, !nonempty_length.
  intros ((((Hn & Hu) & (Hc & _)) & (Hr & _)) & (Hd & _)).
  rewrite (validate_declared _ _ (body_declared f key)).
  destruct (body_at f key) as (En & Ec & Er & Ed & Eo & Ep & Ek & Eu & Ew).
  unfold Dto.CreateVmDto. cbn [forallb fst snd]. rewrite En, Ec, Er, Ed, Eo, Ep, Ek, Eu, Ew.
  cbn [Dto.property_ok forallb Dto.check Dto.is_optional existsb orb andb].
  change 1%Q with (inject_Z 1). change 32%Q with (inject_Z 32). change 512%Q with (inject_Z 512).
  change 65536%Q with (inject_Z 65536). change 5%Q with (inject_Z 5). change 400%Q with (inject_Z 400).
  rewrite !integer_Z, !Qle_bool_Z.
  assert (Hpw : match Dto.JStr <$> nonempty (f_vmPassword f) with
                | Some Dto.JNull => true
                | Some j => forallb (λ v, Dto.check v j) [Dto.IsOptional; Dto.IsString; Dto.MinLength 1; Dto.MaxLength 128]
                | None => true end = true ↔ js_length (f_vmPassword f) <= 128).
  { unfold nonempty. destruct (truthy (f_vmPassword f)) eqn:E; cbn [fmap option_fmap option_map forallb Dto.check].
    - apply nonempty_length in E. rewrite !andb_true_iff, !Z.leb_le. intuition lia.
    - apply truthy_false in E. rewrite E. done. }
  cbn [forallb Dto.check] in Hpw.
  rewrite !andb_true_iff, !Z.leb_le, Hpw. split.
  - intros Hall. split; [intuition lia|]. split; intuition lia.
  - intros (Hdisk & [[] [] [] ? []]). intuition lia.
Qed.
End create.

(** ** The MFA panel *)

Section mfa.
Context `{Dto.StringValidators}.
Import Mfa.

(** The class that validates the request of a button. *)
Definition route_schema (b : Button) : string * Dto.Schema :=
  match b with
  | StartSetup => ("/auth/mfa/setup", Dto.MfaReauthDto)
  | EnableMfa => ("/auth/mfa/enable", Dto.EnableMfaDto)
  | DisableMfa _ => ("/auth/mfa/disable", Dto.MfaReauthDto)
  | RegenerateRecoveryCodes => ("/auth/mfa/recovery-codes/regenerate", Dto.MfaReauthDto)
  end%string.
Definition ready (b : Button) (p : Panel) : bool :=
  match b with EnableMfa => codeValid p | _ => canRunSensitiveAction p end.
Definition wanted_body (b : Button) (p : Panel) : Dto.Body :=
  match b with EnableMfa => {[ "code"%string := Dto.JStr (js_trim (code p)) ]} | _ => password_body p end.

Lemma six_digits_length s : Regex.test Dto.six_digits_regex s = true → js_length s = 6.
Proof.
  unfold Dto.six_digits_regex. rewrite Regex.anchored_spec. intros [Hj _]%Regex.Rep_spec.
  unfold js_length. rewrite <- length_chars. lia.
Qed.
Lemma reauth_valid s :
  Dto.validate Dto.MfaReauthDto {[ "password"%string := Dto.JStr s ]} = (8 <=? js_length s).
Proof.
  rewrite validate_declared by declared. unfold Dto.MfaReauthDto. cbn [forallb fst snd].
  rewrite lookup_singleton_eq. cbn [Dto.property_ok forallb Dto.check]. by rewrite !andb_true_r.
Qed.
Lemma enable_valid s :
  Dto.validate Dto.EnableMfaDto {[ "code"%string := Dto.JStr s ]} = Regex.test Dto.six_digits_regex s.
Proof.
  rewrite validate_declared by declared. unfold Dto.EnableMfaDto. cbn [forallb fst snd].
  rewrite lookup_singleton_eq. cbn [Dto.property_ok forallb Dto.check]. rewrite !andb_true_r. cbn [andb].
  destruct (Regex.test Dto.six_digits_regex s) eqn:E; [|by rewrite andb_false_r].
  apply six_digits_length in E. by rewrite E.
Qed.
Lemma ready_valid b p : ready b p = Dto.validate (route_schema b).2 (wanted_body b p).
Proof. destruct b; cbn [ready route_schema wanted_body snd]; unfold password_body; by rewrite ?reauth_valid, ?enable_valid. Qed.

(** The checks of the MFA panel are those of the auth service: a button
    sends a request exactly when the request passes the validation of its route,
    and shows an error of its own otherwise; recovery codes are shown only after
    the answer that carried them and are gone once MFA is disabled. *)
Theorem mfa_panel_agrees b p :
  let url := (route_schema b).1 in
  let valid := Dto.validate (route_schema b).2 (wanted_body b p) in
  (∀ r, press b p = Some (inl r) → s_url r = url ∧ s_method r = "POST"%string ∧ s_body r = wanted_body b p) ∧
  (valid = false ↔ ∃ e, press b p = Some (inr e)) ∧
  (press b p = None ↔ valid = true ∧ b = DisableMfa false) ∧
  (∀ a, recoveryCodes (answered b a p) = recoveryCodes p ∨ a = Codes (recoveryCodes (answered b a p)) ∨
        (∃ cf, b = DisableMfa cf) ∧ a = Done ∧ recoveryCodes (answered b a p) = []).
Proof.
  cbn zeta. rewrite <- ready_valid. split_and!.
  - intros r Hr. destruct b as [| |[]|]; cbn [press] in Hr;
      destruct (canRunSensitiveAction p), (codeValid p); simplify_eq; done.
  - destruct b as [| |[]|]; cbn [press ready];
      destruct (canRunSensitiveAction p), (codeValid p); (split; [intros ?|intros [? ?]]); try done; by eexists.
  - destruct b as [| |[]|]; cbn [press ready];
      destruct (canRunSensitiveAction p), (codeValid p); (split; [intros ?; by split_and?|intros [? ?]; done]).
  - intros a. destruct b as [| |cf|], a as [| | |st]; cbn; auto.
    + by destruct st as [[|[]|]|]; auto; repeat (case_match; auto).
    + right; right. split_and!; eauto.
Qed.
End mfa.

(** ** Keys that are generated *)

Section keys.
Context `{JsonCodec}.
Abbreviation Storage := (gmap string string).

(** The four entries of the storage hold objects. *)
Definition storage_ok (ls : Storage) : Prop := ∀ key, is_object (readMap key ls) = true.
Lemma storage_write key j ls : is_object j = true → storage_ok ls → storage_ok (writeMap key j ls).
Proof.
  intros Hj Hs key'. destruct (decide (key = key')) as [<-|Hne]; [by apply read_write|].
  by rewrite read_write_other.
Qed.
Lemma storage_set key k v ls : k ≠ "__proto__"%string → storage_ok ls →
  storage_ok (writeMap key (set_prop (readMap key ls) k v) ls).
Proof. intros Hk Hs. apply storage_write; [|done]. by apply prop_set. Qed.
Lemma storage_save id k f ls : id ≠ "__proto__"%string → storage_ok ls →
  storage_ok (saveUserGeneratedSshPrivateKey id k f ls).
Proof.
  intros Hid Hs. unfold saveUserGeneratedSshPrivateKey. destruct (negb _ || _); [done|]. cbn zeta.
  destruct (opt_truthy f); repeat apply storage_set; done.
Qed.
Lemma marked_downloaded id ls :
  truthy id = true → id ≠ "__proto__"%string → storage_ok ls →
  hasDownloadedGeneratedSshPrivateKey id (markGeneratedSshPrivateKeyDownloaded id ls) = true.
Proof.
  intros Ht Hid Hs. unfold hasDownloadedGeneratedSshPrivateKey, markGeneratedSshPrivateKeyDownloaded. rewrite Ht. cbn [negb].
  set (key := USER_GENERATED_SSH_KEY_DOWNLOADED_STORAGE).
  destruct (prop_set (readMap key ls) id (Dto.JBool true) id) as [Ho Hp]; [apply Hs|done|].
  rewrite bool_decide_eq_true_2 in Hp by done.
  destruct (read_write key _ ls Ho) as [_ Hr]. destruct (Hr id) as [_ Hb]. apply Hb in Hp. by rewrite Hp.
Qed.
Lemma downloaded_save id k f j ls : hasDownloadedGeneratedSshPrivateKey j (saveUserGeneratedSshPrivateKey id k f ls) =
  hasDownloadedGeneratedSshPrivateKey j ls.
Proof.
  unfold hasDownloadedGeneratedSshPrivateKey, saveUserGeneratedSshPrivateKey.
  destruct (negb (truthy j)); [done|]. destruct (negb (truthy id) || _); [done|]. cbn zeta.
  destruct (opt_truthy f); by rewrite ?read_write_other.
Qed.

(** A generated private key is offered for download once: keeping a key
    with a file name downloads it if it had not been, and keeping the same key
    again, in any later state that the pages reach from there, does not. *)
Theorem key_downloaded_once id k f k' f' ls :
  truthy id = true → id ≠ "__proto__"%string → truthy f = true → storage_ok ls →
  let kept := keepKey id k (Some f) ls in
  kept.2 = (if hasDownloadedGeneratedSshPrivateKey id ls then [] else [(f, k)]) ∧
  storage_ok kept.1 ∧ (keepKey id k' f' kept.1).2 = [].
Proof.
  intros Ht Hid Hf Hs. cbn zeta. unfold keepKey at 1 2. cbn zeta. rewrite downloaded_save.
  assert (Hfn : opt_truthy (Some f) = true) by done. rewrite Hfn.
  set (saved := saveUserGeneratedSshPrivateKey id k (Some f) ls).
  assert (Hok : storage_ok saved) by by apply storage_save.
  assert (Hd : hasDownloadedGeneratedSshPrivateKey id (keepKey id k (Some f) ls).1 = true).
  { unfold keepKey. cbn zeta. rewrite downloaded_save, Hfn. fold saved.
    destruct (hasDownloadedGeneratedSshPrivateKey id ls) eqn:E; cbn; [unfold saved; by rewrite downloaded_save|].
    by apply marked_downloaded. }
  split_and!.
  - by destruct (hasDownloadedGeneratedSshPrivateKey id ls).
  - destruct (hasDownloadedGeneratedSshPrivateKey id ls); [done|]. cbn.
    unfold markGeneratedSshPrivateKeyDownloaded. rewrite Ht. by apply storage_set.
  - unfold keepKey at 1. cbn zeta. by rewrite downloaded_save, Hd.
Qed.

(** A creation that the VM service refuses leaves the generated key on the
    account and in the browser. *)
Theorem refused_creation_keeps_key today f g e ls :
  opt_truthy (gk_id g) = true → opt_truthy (gk_publicKey g) = true → opt_truthy (gk_privateKey g) = true →
  let o := handleCreateVm today f (inl g) (inr e) ls in
  s_url <$> o_sent o = ["/ssh-keys/generate"; "/vms"]%string ∧ o_error o = e ∧
  o_storage o = (keepKey (default "" (gk_id g)) (default "" (gk_privateKey g)) (gk_filename g) ls).1.
Proof.
  intros H1 H2 H3. cbn zeta. unfold handleCreateVm. rewrite H1, H2, H3. cbn [negb orb].
  by destruct (keepKey _ _ _ _).
Qed.
End keys.

(** ** The password form of the profile page *)

Section password.
Context {T : Type → Type} `{Database T} {RS : Type} `{Redis RS AuthPayload}.
Context `{Hashing} `{Bcrypt} `{Jwt} `{Timespan} `{Hmac} `{UriCodec}.
Context `{UrlParser} `{AuthHttp.UrlOrigin} `{AuthHttp.JsonText} `{Startup.BearerExtractor} `{Dto.StringValidators}.
Variable env : Env.
Variable cfg : Config.

(** The filters in front of the routes change nothing. *)
Lemma host_pure hosts r (w : AuthHttp.Web T RS) : ∃ o, AuthHttp.hostFilter hosts r w = (w, o).
Proof. unfold AuthHttp.hostFilter, throw_if. repeat case_match; by eexists. Qed.
Lemma origin_pure origins r h (w : AuthHttp.Web T RS) : ∃ o, AuthHttp.originFilter origins r h w = (w, o).
Proof.
  unfold AuthHttp.originFilter, throw_if. case_match; [by eexists|]. unfold mbind, M_bind, lift.
  destruct (AuthHttp.hasSessionCookie r) as [[]|e]; [|by eexists|by eexists]. cbn [negb].
  repeat case_match; by eexists.
Qed.

(** The request the form sends is found under no route of the auth service, so
    that a password is never changed from the profile page. *)
Theorem password_form_refused old new confirm r (c : AuthModel.Call) (h : AuthHttp.Http) route (w : AuthHttp.Web T RS) :
  handlePasswordChange old new confirm = inl r → AuthHttp.h_method h = s_method r →
  ∃ e, AuthHttp.handle_http env cfg c h route w = (w, Throw e).
Proof.
  unfold handlePasswordChange. destruct (negb _); [done|]. intros [= <-] Hm. cbn in Hm.
  unfold AuthHttp.handle_http. unfold mbind, M_bind.
  destruct (host_pure (AuthHttp.getTrustedHosts env (Gateway.getAllowedOrigins env)) (req c) w) as [[u|e] ->];
    [|by eexists].
  destruct (origin_pure (Gateway.getAllowedOrigins env) (req c) h w) as [[u'|e] ->]; [|by eexists].
  unfold throw_if. rewrite bool_decide_eq_false_2; [by eexists|]. rewrite Hm. by destruct route.
Qed.
End password.

(** ** The login page *)

(** A code that is refused leaves the challenge on the page for another try,
    unless the service has had enough of it; then the page asks for the password
    again, and what it submits next is a login. *)
Theorem login_page_challenge status err p :
  truthy (Login.challengeId p) = true →
  let p' := Login.handleSubmit (Login.Rejected status err) p in
  Login.pending p' =
    (if bool_decide (status = Some 429) then Login.CallLogin
     else Login.CallVerifyMfa (Login.challengeId p) (js_trim (Login.mfaCode p))) ∧
  Login.route p' = Login.route p.
Proof.
  intros Ht. cbn zeta. unfold Login.handleSubmit, Login.pending. rewrite Ht. cbn [andb].
  case_bool_decide; cbn; [done|]. by rewrite Ht.
Qed.
End WebFormsProps.
