(* ===== verification/WebAdmin.v ===== *)
(** * WebAdmin: the administration pages, the machine pages and the layout

    frontend/src/app/dashboard/admin/universities, admin/users and admin/plans,
    vms/page.tsx and vms/[id]/page.tsx (their buttons and requests), and
    dashboard/layout.tsx. *)

From Stdlib Require Import ZArith QArith Qround Lia Ascii String.
From stdpp Require Import base list gmap strings pretty sorting.
From S2P Require Import Prelude Text Js Regex Store Plans Payment Vm Dto Gateway Startup AuthHttp WebClient WebForms.
Import Plans WebClient WebForms.
#[local] Open Scope Z_scope.

Module WebAdmin.

(** ** admin/universities/page.tsx *)

Module Universities.
Record FormState := { name : string; emailDomain : string }.
Definition UNIVERSITY_DOMAIN_REGEX : Regex.regex := Dto.domain_regex.
Definition validateForm (form : FormState) : string :=
  let name := js_trim (name form) in
  let emailDomain := js_trim (emailDomain form) in
  if negb (truthy name) then "University name is required."
  else if 200 <? js_length name then "University name must be 200 characters or fewer."
  else if negb (truthy emailDomain) then "Email domain is required."
  else if negb (bool_decide (emailDomain = toLowerCase emailDomain)) then "Email domain must be lowercase."
  else if negb (Regex.test UNIVERSITY_DOMAIN_REGEX emailDomain)
  then "Email domain must start with @ or . and match the expected format."
  else "".
Definition university_payload (form : FormState) : Dto.Body :=
  <["name" := Dto.JStr (js_trim (name form))]> {[ "emailDomain"%string := Dto.JStr (js_trim (emailDomain form)) ]}.
(** [submitForm]: what is sent, or the text that is shown instead. *)
Definition submitForm (editing : option string) (form : FormState) : Sent + string :=
  let validationMessage := validateForm form in
  if truthy validationMessage then inr validationMessage
  else inl (match editing with
            | Some id => patch ("/users/admin/universities/" +:+ id) (university_payload form)
            | None => post "/users/admin/universities" (university_payload form)
            end).
End Universities.

(** ** admin/users/page.tsx *)

Module Users.
Record Account := { ac_id : string; ac_role : string; ac_isActive : bool }.
(** The list that is asked for; the search text is put in as it is. *)
Definition users_url (page : Z) (search : string) : string :=
  "/users?page=" +:+ pretty page +:+ "&limit=10&search=" +:+ search.
Definition toggleActive (currentUser : option string) (target : Account) : Sent + string :=
  if bool_decide (Some (ac_id target) = currentUser) && ac_isActive target
  then inr "You cannot ban your own admin account."%string
  else inl (patch ("/users/" +:+ ac_id target) {[ "isActive"%string := Dto.JBool (negb (ac_isActive target)) ]}).
Definition newRole (target : Account) : string :=
  if bool_decide (ac_role target = "ADMIN"%string) then "USER" else "ADMIN".
Definition changeRole (currentUser : option string) (target : Account) : Sent + string :=
  if bool_decide (Some (ac_id target) = currentUser) && bool_decide (ac_role target = "ADMIN"%string)
  then inr "You cannot revoke your own admin role."%string
  else inl (patch ("/users/" +:+ ac_id target) {[ "role"%string := Dto.JStr (newRole target) ]}).
Definition grantSubscription (draft : gmap string string) (target : Account) : Sent :=
  patch ("/users/" +:+ ac_id target +:+ "/subscription")
    {[ "planId"%string := Dto.JStr (opt_or (draft !! ac_id target) "student") ]}.
(** [Math.ceil(total / limit)] and the two buttons under the table. *)
Definition pages (total : Z) : Z := - ((- total) / 10).
Definition previous_page (page : Z) : Z := if page =? 1 then page else Z.max 1 (page - 1).
Definition next_page (total page : Z) : Z := if pages total <=? page then page else page + 1.
End Users.

(** ** admin/plans/page.tsx *)

Module PlansPage.
(** A text field stands for [Number] of it, [None] when that is not finite;
    [Number(String(x))] is [x]. *)
Record PlanDraft := { d_amountDt : option Q; d_vmHoursMonthly : option Z; d_maxVms : option Z; d_maxCpu : option Z;
                      d_maxRamGb : option Z; d_maxDiskGb : option Z }.
Definition toDraft (r : PlanConfigRow) : PlanDraft :=
  {| d_amountDt := Some (pc_amountDt r); d_vmHoursMonthly := Some (pc_vmHoursMonthly r);
     d_maxVms := Some (pc_maxVms r); d_maxCpu := Some (pc_maxCpu r);
     d_maxRamGb := Some (js_round (pc_maxRamMb r # 1024)); d_maxDiskGb := Some (pc_maxDiskGb r) |}.
(** [if (Number.isFinite(x) && x !== old) payload.x = x] *)
Definition changed (x : option Z) (old : Z) : option Z :=
  match x with Some n => if n =? old then None else Some n | None => None end.
Definition changed_amount (x : option Q) (old : Q) : option Q :=
  match x with Some n => if Qeq_bool n old then None else Some n | None => None end.
Record Payload := { p_amountDt : option Q; p_vmHoursMonthly : option Z; p_maxVms : option Z; p_maxCpu : option Z;
                    p_maxRamMb : option Z; p_maxDiskGb : option Z }.
Definition payload (original : PlanConfigRow) (d : PlanDraft) : Payload :=
  {| p_amountDt := changed_amount (d_amountDt d) (pc_amountDt original);
     p_vmHoursMonthly := changed (d_vmHoursMonthly d) (pc_vmHoursMonthly original);
     p_maxVms := changed (d_maxVms d) (pc_maxVms original); p_maxCpu := changed (d_maxCpu d) (pc_maxCpu original);
     p_maxRamMb := changed ((λ g, g * 1024) <$> d_maxRamGb d) (pc_maxRamMb original);
     p_maxDiskGb := changed (d_maxDiskGb d) (pc_maxDiskGb original) |}.
Definition put_num (k : string) (x : option Q) (b : Dto.Body) : Dto.Body :=
  match x with Some q => <[k := Dto.JNum q]> b | None => b end.
Definition body (p : Payload) : Dto.Body :=
  put_num "amountDt" (p_amountDt p) (put_num "vmHoursMonthly" (inject_Z <$> p_vmHoursMonthly p)
    (put_num "maxVms" (inject_Z <$> p_maxVms p) (put_num "maxCpu" (inject_Z <$> p_maxCpu p)
    (put_num "maxRamMb" (inject_Z <$> p_maxRamMb p) (put_num "maxDiskGb" (inject_Z <$> p_maxDiskGb p) ∅))))).
Inductive Save := NoChanges | Put (url : string) (body : Dto.Body).
Definition savePlan (planId : string) (original : PlanConfigRow) (d : PlanDraft) : Save :=
  let b := body (payload original d) in
  if bool_decide (b = ∅) then NoChanges else Put ("/payments/admin/plans/" +:+ planId) b.
End PlansPage.

(** ** vms/page.tsx and vms/[id]/page.tsx *)

Module Vms.
(** The buttons of a card, and of the detail page. *)
Definition list_buttons (status : string) : list string :=
  (if bool_decide (status = "RUNNING"%string) then ["stop"] else []) ++
  (if bool_decide (status = "STOPPED"%string) then ["start"; "delete"] else []) ++
  (if bool_decide (status = "PENDING"%string) || bool_decide (status = "ERROR"%string) then ["delete"] else []).
Definition detail_buttons (status : string) : list string :=
  (if bool_decide (status = "RUNNING"%string) then ["restart"; "stop"] else []) ++
  (if bool_decide (status = "STOPPED"%string) then ["start"] else []) ++ ["delete"].
(** [handleAction] of the list, [handleAction] and [handleDelete] of the page. *)
Definition handleAction (vmId action : string) (confirmed : bool) : option Sent :=
  if bool_decide (action = "delete"%string)
  then if confirmed then Some {| s_method := "DELETE"; s_url := "/vms/" +:+ vmId; s_body := ∅ |} else None
  else Some (post ("/vms/" +:+ vmId +:+ "/action") {[ "action"%string := Dto.JStr action ]}).
(** [fetchVm]: the answer, or where its status leads. *)
Inductive Fetched := Shown | GoTo (page : string) | NotFound.
Definition fetchVm (status : option Z) (ok : bool) : Fetched :=
  if ok then Shown
  else if bool_decide (status = Some 401) then GoTo "/login"
  else if bool_decide (status = Some 403) then GoTo "/dashboard/vms" else NotFound.
(** The terminal and the desktop are only there while the machine runs. *)
Definition terminal_shown (showTerminal : bool) (status : string) (ipAddress : option string) : bool :=
  showTerminal && bool_decide (status = "RUNNING"%string) && opt_truthy ipAddress.
Definition handleOpen (guiReady open : bool) : bool := if guiReady then true else open.
(** [formatRam]: the number that is shown, and its unit. *)
Definition formatRam (ramMb : Z) : Q * string := if 1024 <=? ramMb then (ramMb # 1024, "GB") else (inject_Z ramMb, "MB").
End Vms.

(** ** layout.tsx *)

Module Layout.
Record NavItem := { n_href : string; n_hidden : bool }.
Definition navItems : list NavItem :=
  [{| n_href := "/dashboard"; n_hidden := false |}; {| n_href := "/dashboard/vms"; n_hidden := false |};
   {| n_href := "/dashboard/ssh-keys"; n_hidden := true |}; {| n_href := "/dashboard/profile"; n_hidden := false |};
   {| n_href := "/dashboard/assistant"; n_hidden := false |}; {| n_href := "/dashboard/billing"; n_hidden := false |}].
Definition adminItems : list NavItem :=
  [{| n_href := "/dashboard/admin/users"; n_hidden := false |};
   {| n_href := "/dashboard/admin/universities"; n_hidden := false |};
   {| n_href := "/dashboard/admin/plans"; n_hidden := false |}].
Definition allNavItems (role : option string) : list NavItem :=
  if bool_decide (role = Some "ADMIN"%string)
  then List.filter (λ i, negb (bool_decide (n_href i = "/dashboard/billing"%string)) && negb (n_hidden i)) navItems
       ++ adminItems
  else List.filter (λ i, negb (n_hidden i)) navItems.
(** What is shown of the area: nothing until the session is known, then the
    login page or the area itself. *)
Inductive Shown := Spinner | ToLogin | Area.
Definition shown (s : AuthStore) : Shown :=
  if isLoading s then Spinner else if isAuthenticated s then Area else ToLogin.

(** The refresh of the profile after an event: a timer of 300 ms that each
    further event starts again.  The state is the deadline of the timer, and the
    moments at which the profile was loaded. *)
Record Refresh := { timer : option Z; loads : list Z }.
Inductive Event := VmEvent (isAuthenticated : bool) (vmId : string) | Tick | Unmount.
Definition step (now : Z) (e : Event) (r : Refresh) : Refresh :=
  match e with
  | VmEvent auth vmId =>
      if negb auth || negb (truthy vmId) then r else {| timer := Some (now + 300); loads := loads r |}
  | Tick =>
      match timer r with
      | Some d => if d <=? now then {| timer := None; loads := loads r ++ [now] |} else r
      | None => r
      end
  | Unmount => {| timer := None; loads := loads r |}
  end.
Definition run (l : list (Z * Event)) (r : Refresh) : Refresh := foldl (λ r te, step te.1 te.2 r) r l.
End Layout.
End WebAdmin.
