(* ===== verification/WebAdminProps.v ===== *)
(** * WebAdminProps: the administration pages agree with the services *)

From Stdlib Require Import ZArith QArith Qround Lia Lqa Ascii String.
From stdpp Require Import base list gmap strings pretty sorting.
From S2P Require Import Prelude Text Js Regex Crypto Store RequestSecurity AuthModel Plans Payment.
From S2P Require Import PaymentProps Vm User Dto Gateway Startup Cookies AuthHttp Routes WebClient WebForms.
From S2P Require Import WebFormsProps WebAdmin.
Import Plans WebClient WebForms WebFormsProps WebAdmin.
#[local] Open Scope Z_scope.

(** ** The universities *)

Module UniversitiesProps.
Import WebAdmin.Universities.

(** What [/^[@.][a-z0-9.-]+\.[a-z]{2,}$/] accepts, part by part. *)
Definition well_formed (l : list ascii) : Prop :=
  ∃ c body tld, l = c :: body ++ "."%char :: tld ∧ (c = "@"%char ∨ c = "."%char) ∧ body ≠ [] ∧
    Forall (λ x, User.domain_char x = true) body ∧ (2 ≤ length tld)%nat ∧ Forall (λ x, is_lower x = true) tld.

Lemma range_forall {A} (P : A → Prop) (l : list A) i j :
  (∀ k, (i ≤ k < j)%nat → ∃ c, l !! k = Some c ∧ P c) → Forall P (take (j - i) (drop i l)).
Proof.
  intros Hall. apply Forall_lookup. intros k x Hx. apply lookup_take_Some in Hx as [Hx Hk].
  rewrite lookup_drop in Hx. destruct (Hall (i + k)%nat) as (c & Hc & Hp); [lia|]. congruence.
Qed.

Lemma domain_regex_shape s : Regex.test Dto.domain_regex s = true → well_formed (chars s).
Proof.
  unfold Dto.domain_regex. rewrite Regex.anchored_spec. set (l := chars s).
  unfold Regex.seqs. cbn [foldr]. intros Hm.
  apply Regex.Seq_inv in Hm as (i1 & H1 & Hm). apply Regex.Class_spec in H1 as (-> & c & Hc & Hcp).
  apply Regex.Seq_inv in Hm as (i2 & H2 & Hm). apply Regex.Seq_inv in H2 as (i3 & H3 & H4).
  apply Regex.Class_spec in H3 as (-> & b & Hb & Hbp). apply Regex.Star_class in H4 as [Hle Hbody].
  apply Regex.Seq_inv in Hm as (i4 & H5 & Hm). apply Regex.Class_spec in H5 as (-> & d & Hd & Hdp).
  apply bool_decide_eq_true in Hdp as ->.
  apply Regex.Seq_inv in Hm as (i5 & H6 & Hm). apply Regex.Class_spec in H6 as (-> & t & Ht & Htp).
  apply Regex.Seq_inv in Hm as (i6 & H7 & Hm). apply Regex.Eps_inv in Hm.
  apply Regex.Seq_inv in H7 as (i7 & H8 & H9). apply Regex.Class_spec in H8 as (-> & u & Hu & Hup).
  apply Regex.Star_class in H9 as [Hle2 Htld].
  exists c, (take (i2 - 1) (drop 1 l)), (drop (S i2) l). split_and!.
  - rewrite <- (take_drop_middle l i2 "."%char Hd) at 1.
    destruct l as [|c0 l0] eqn:El; [done|]. cbn in Hc. injection Hc as ->.
    destruct i2 as [|i2]; [lia|]. cbn. by rewrite Nat.sub_0_r, drop_0.
  - apply orb_true_iff in Hcp as [E|E]; apply bool_decide_eq_true in E; auto.
  - intros E. apply (f_equal length) in E. rewrite length_take, length_drop in E. cbn in E.
    apply lookup_lt_Some in Hb. lia.
  - apply range_forall. intros k Hk. destruct (decide (k = 1%nat)) as [->|]; [|apply Hbody; lia].
    exists b. split; [done|]. done.
  - rewrite length_drop. apply lookup_lt_Some in Hu. lia.
  - apply Forall_lookup. intros k x Hx. rewrite lookup_drop in Hx.
    pose proof (lookup_lt_Some _ _ _ Hx).
    destruct (decide (k = 0%nat)) as [->|]; [rewrite Nat.add_0_r in Hx; congruence|].
    destruct (decide (k = 1%nat)) as [->|]; [rewrite Nat.add_1_r in Hx; congruence|].
    destruct (Htld (S i2 + k)%nat) as (y & Hy & Hyp); [lia|]. congruence.
Qed.

Lemma take_while_app p l1 c l2 :
  Forall (λ x, p x = true) l1 → p c = false → User.take_while p (l1 ++ c :: l2) = l1.
Proof. induction 1 as [|x l1 Hx Hl IH]; intros Hc; cbn; [by rewrite Hc|]. by rewrite Hx, IH. Qed.

Lemma well_formed_format s : well_formed (chars s) → User.domain_format s = true.
Proof.
  intros (c & body & tld & E & Hc & Hb & Hbody & Hlen & Htld). unfold User.domain_format. rewrite E.
  rewrite rev_app_distr. cbn [rev]. rewrite <- app_assoc. cbn [app].
  assert (Ht : User.take_while is_lower (rev tld ++ "."%char :: rev body) = rev tld).
  { apply take_while_app; [|done]. by apply List.Forall_rev. }
  rewrite Ht, drop_app_length.
  rewrite (bool_decide_eq_false_2 (rev body = [])).
  2: { intros Hr. apply Hb. by rewrite <- (rev_involutive body), Hr. }
  assert (Hf : forallb User.domain_char (rev body) = true).
  { apply forallb_forall. intros x Hx. rewrite <- in_rev in Hx.
    rewrite List.Forall_forall in Hbody. by apply Hbody. }
  assert (Hd : (2 <=? Z.of_nat (length (rev tld))) = true) by (rewrite length_rev; apply Z.leb_le; lia).
  rewrite Hf, Hd. by destruct Hc as [-> | ->].
Qed.
Lemma well_formed_chars l : well_formed l → Forall (λ x, is_upper x = false ∧ is_ws x = false) l.
Proof.
  intros (c & body & tld & -> & Hc & _ & Hbody & _ & Htld).
  assert (Hlow : ∀ x, is_lower x = true → is_upper x = false ∧ is_ws x = false).
  { intros x Hx. by destruct x as [[] [] [] [] [] [] [] []]. }
  constructor; [destruct Hc as [-> | ->]; done|]. apply Forall_app. split; [|constructor; [done|]].
  - eapply Forall_impl; [exact Hbody|]. intros x Hx. unfold User.domain_char in Hx.
    rewrite !orb_true_iff in Hx. destruct Hx as [[[Hx|Hx]|Hx]|Hx]; [by apply Hlow| | |].
    + by destruct x as [[] [] [] [] [] [] [] []].
    + apply bool_decide_eq_true in Hx as ->. done.
    + apply bool_decide_eq_true in Hx as ->. done.
  - eapply Forall_impl; [exact Htld|]. exact Hlow.
Qed.
Lemma toLowerCase_id s : Forall (λ x, is_upper x = false ∧ is_ws x = false) (chars s) → toLowerCase s = s.
Proof.
  intros Hs. unfold toLowerCase, map_chars. rewrite <- (str_chars s) at 2. f_equal.
  induction Hs as [|c l [Hc _] Hl IH]; [done|]. cbn. rewrite IH. f_equal.
  unfold char_lower. by rewrite Hc.
Qed.
Lemma prefix_char a c s : a ≠ c → String.prefix (String a "") (String c s) = false.
Proof. intros Hne. unfold String.prefix. by destruct (ascii_dec a c). Qed.
Lemma includes_space s : Forall (λ x, is_upper x = false ∧ is_ws x = false) (chars s) → includes " " s = false.
Proof.
  induction s as [|c s IH]; [done|]. intros [[_ Hc] Hs]%Forall_cons.
  change (String.prefix " " (String c s) || includes " " s = false). rewrite IH by done.
  rewrite prefix_char; [done|]. intros <-. done.
Qed.

(** The form for a university accepts exactly what the user service does:
    the form reports no error if and only if its request passes the validation of
    the route, and then the service's own check of the domain passes too and
    keeps the domain as it was typed, less the space around it. *)
Theorem university_form_agrees `{Dto.StringValidators} form :
  (validateForm form = ""%string ↔ Dto.validate Dto.CreateUniversityDto (university_payload form) = true) ∧
  (validateForm form = ""%string →
     User.validateUniversityDomain (User.normalizeUniversityDomain (js_trim (emailDomain form))) =
       Ret (js_trim (emailDomain form))) ∧
  (∀ editing, (∃ r, submitForm editing form = inl r ∧ s_body r = university_payload form) ↔ validateForm form = ""%string).
Proof.
  set (d := js_trim (emailDomain form)). set (n := js_trim (name form)).
  assert (Hshape : Regex.test Dto.domain_regex d = true → truthy d = true ∧ toLowerCase d = d ∧
                   includes " " d = false ∧ User.domain_format d = true ∧ js_trim d = d).
  { intros Hr%domain_regex_shape. pose proof (well_formed_chars _ Hr) as Hc. split_and!.
    - destruct Hr as (c & body & tld & E & _). apply truthy_true. intros Ed. by rewrite Ed in E.
    - by apply toLowerCase_id.
    - by apply includes_space.
    - by apply well_formed_format.
    - unfold js_trim. rewrite trim_chars_id; [apply str_chars|]. eapply Forall_impl; [exact Hc|]. by intros x []. }
  assert (Hform : validateForm form = ""%string ↔
            truthy n = true ∧ js_length n <= 200 ∧ Regex.test Dto.domain_regex d = true).
  { unfold validateForm. fold n d. unfold UNIVERSITY_DOMAIN_REGEX.
    destruct (truthy n); cbn [negb]; [|by split; [|intros [? _]]].
    destruct (Z.ltb_spec 200 (js_length n)); [by split; [|intros (_ & ? & _); lia]|].
    destruct (Regex.test Dto.domain_regex d) eqn:Er.
    - destruct (Hshape eq_refl) as (-> & Hl & _). rewrite Hl, bool_decide_eq_true_2 by done. done.
    - split; [|intros (_ & _ & ?); done]. repeat case_match; done. }
  split_and!.
  - rewrite Hform, validate_declared by (unfold university_payload; declared).
    unfold Dto.CreateUniversityDto, university_payload. cbn [forallb fst snd]. fold n d.
    rewrite lookup_insert_eq, lookup_insert_ne, lookup_singleton_eq by done.
    cbn [Dto.property_ok forallb Dto.check]. rewrite !andb_true_r, !andb_true_iff, !Z.leb_le.
    rewrite <- nonempty_length. intuition.
  - rewrite Hform. intros (_ & _ & Hr). destruct (Hshape Hr) as (H1 & H2 & H3 & H4 & Ht).
    unfold User.normalizeUniversityDomain. rewrite Ht. unfold User.validateUniversityDomain.
    rewrite H1, H2, H3, H4, bool_decide_eq_true_2 by done. done.
  - intros editing. unfold submitForm. destruct (truthy (validateForm form)) eqn:Et.
    + apply truthy_true in Et. split; [by intros (r & ? & _)|done].
    + apply truthy_false in Et. rewrite Et. split; [done|]. intros _. destruct editing; eexists; done.
Qed.
End UniversitiesProps.

(** ** The plan catalogue *)

Module PlansPageProps.
Import WebAdmin.PlansPage.

(** What the service stores when it receives the body. *)
Definition saved (r : PlanConfigRow) (d : PlanDraft) : PlanConfigRow :=
  Payment.patch_row (Routes.plan_patch (body (payload r d))) r.
(** The row the draft describes: a field that is no number keeps its value. *)
Definition described (r : PlanConfigRow) (d : PlanDraft) : PlanConfigRow :=
  {| pc_amountDt := match changed_amount (d_amountDt d) (pc_amountDt r) with Some q => q | None => pc_amountDt r end;
     pc_rank := pc_rank r; pc_vmHoursMonthly := default (pc_vmHoursMonthly r) (d_vmHoursMonthly d);
     pc_maxVms := default (pc_maxVms r) (d_maxVms d); pc_maxCpu := default (pc_maxCpu r) (d_maxCpu d);
     pc_maxRamMb := default (pc_maxRamMb r) ((λ g, g * 1024) <$> d_maxRamGb d);
     pc_maxDiskGb := default (pc_maxDiskGb r) (d_maxDiskGb d) |}.

Lemma num_put_eq k x b : b !! k = None → Dto.num_at (put_num k x b) k = x.
Proof. unfold put_num, Dto.num_at. destruct x; intros Hb; [by rewrite lookup_insert_eq|by rewrite Hb]. Qed.
Lemma lookup_put_ne k k' x b : k ≠ k' → put_num k x b !! k' = b !! k'.
Proof. unfold put_num. destruct x; intros Hne; [by rewrite lookup_insert_ne|done]. Qed.
Lemma num_put_ne k k' x b : k ≠ k' → Dto.num_at (put_num k x b) k' = Dto.num_at b k'.
Proof. intros Hne. unfold Dto.num_at. by rewrite lookup_put_ne. Qed.
Lemma floor_inject (x : option Z) : Qfloor <$> (inject_Z <$> x) = x.
Proof. destruct x as [z|]; [|done]. change (Some (Qfloor (inject_Z z)) = Some z). by rewrite Qfloor_Z. Qed.

Lemma read_body p :
  Routes.plan_patch (body p) =
    {| Payment.ch_amountDt := p_amountDt p; Payment.ch_rank := None;
       Payment.ch_vmHoursMonthly := p_vmHoursMonthly p; Payment.ch_maxVms := p_maxVms p;
       Payment.ch_maxCpu := p_maxCpu p; Payment.ch_maxRamMb := p_maxRamMb p;
       Payment.ch_maxDiskGb := p_maxDiskGb p |}.
Proof.
  unfold Routes.plan_patch, Routes.plan_int, body. f_equal;
    repeat (rewrite num_put_ne by done); rewrite num_put_eq by (rewrite ?lookup_put_ne by done; done);
    try apply floor_inject; done.
Qed.
Lemma default_changed x old : default old (changed x old) = default old x.
Proof. destruct x as [n|]; [|done]. cbn. by destruct (Z.eqb_spec n old) as [->|]. Qed.
Lemma round_gb g : js_round (g * 1024 # 1024) = g.
Proof.
  unfold js_round. replace (Qfloor ((g * 1024 # 1024) + (1 # 2))) with (Qfloor (inject_Z g + (1 # 2))).
  - unfold Qfloor, Qplus, inject_Z. cbn [Qnum Qden]. symmetry. apply (Z.div_unique _ _ _ 1); lia.
  - apply Qfloor_comp. unfold Qplus, Qeq, inject_Z. cbn. lia.
Qed.

Lemma body_empty p : body p = ∅ ↔ p = {| p_amountDt := None; p_vmHoursMonthly := None; p_maxVms := None;
  p_maxCpu := None; p_maxRamMb := None; p_maxDiskGb := None |}.
Proof.
  split; [|by intros ->]. intros E. pose proof (read_body p) as Hr. rewrite E in Hr.
  destruct p. cbn in Hr. injection Hr as <- <- <- <- <- <-. done.
Qed.

(** What an administrator typed into a plan's card is what the payment
    service stores, fields left without a number keeping their value, and the
    card then shows what was typed; and saving an untouched card sends nothing,
    provided the plan's memory is a whole number of gigabytes. *)
Theorem plan_card_roundtrip planId r d :
  saved r d = described r d ∧
  (∀ g, d_maxRamGb d = Some g → d_maxRamGb (toDraft (saved r d)) = Some g) ∧
  (savePlan planId r (toDraft r) = NoChanges ↔ (1024 | pc_maxRamMb r)) ∧
  (savePlan planId r d = NoChanges ↔ body (payload r d) = ∅).
Proof.
  assert (Hs : saved r d = described r d).
  { unfold saved. rewrite read_body. unfold Payment.patch_row, described, payload. cbn. f_equal;
      try apply default_changed. }
  split_and!; [done| | |].
  - intros g Hg. rewrite Hs. unfold toDraft, described. cbn [d_maxRamGb pc_maxRamMb]. rewrite Hg. cbn.
    f_equal. apply round_gb.
  - unfold savePlan. cbn zeta.
    assert (Hb : body (payload r (toDraft r)) = ∅ ↔ (1024 | pc_maxRamMb r)).
    { rewrite body_empty. unfold payload, toDraft, changed_amount, changed.
      cbn [d_amountDt d_vmHoursMonthly d_maxVms d_maxCpu d_maxRamGb d_maxDiskGb fmap option_fmap option_map].
      assert (Ha : Qeq_bool (pc_amountDt r) (pc_amountDt r) = true) by (by apply Qeq_bool_iff).
      rewrite Ha, !Z.eqb_refl. destruct (Z.eqb_spec (js_round (pc_maxRamMb r # 1024) * 1024) (pc_maxRamMb r)) as [E|E].
      - split; [|done]. intros _. by exists (js_round (pc_maxRamMb r # 1024)).
      - split; [done|]. intros [g Hg]. destruct E. rewrite Hg, round_gb. done. }
    rewrite <- Hb. case_bool_decide; by split.
  - unfold savePlan. cbn zeta. case_bool_decide; by split.
Qed.
End PlansPageProps.

(** ** The machine pages *)

Module VmsProps.
Import WebAdmin.Vms.

Section vms.
Context {T : Type → Type} `{DatabaseLaws T} `{Dto.StringValidators}.

(** What the service allows for a status. *)
Definition allowed (action : string) (st : Vm.VmStatus) : Prop :=
  if bool_decide (action = "delete"%string) then st ≠ Vm.DELETED
  else ∃ l, Vm.validTransitions action = Some l ∧ st ∈ l.
Lemma action_valid action :
  action ∈ ["start"; "stop"; "restart"; "delete"]%string →
  Dto.validate Dto.VmActionDto {[ "action"%string := Dto.JStr action ]} = true.
Proof.
  intros Ha. rewrite validate_declared by declared. unfold Dto.VmActionDto. cbn [forallb fst snd].
  rewrite lookup_singleton_eq. cbn [Dto.property_ok forallb Dto.check].
  by rewrite bool_decide_eq_true_2.
Qed.

(** The pages offer only what the VM service will do: every button shown for
    a machine in some state is an action the service allows in that state, and
    the request it sends passes the validation of its route; the terminal is
    only there for a running machine with an address. *)
Theorem offered_actions_allowed vmId st action confirmed :
  st ≠ Vm.DELETED →
  action ∈ list_buttons (Vm.status_string st) ++ detail_buttons (Vm.status_string st) →
  allowed action st ∧
  match handleAction vmId action confirmed with
  | Some r =>
      (action = "delete"%string ∧ s_method r = "DELETE"%string ∧ confirmed = true) ∨
      (action ≠ "delete"%string ∧ s_url r = "/vms/" +:+ vmId +:+ "/action" ∧
       Dto.validate Dto.VmActionDto (s_body r) = true)
  | None => action = "delete"%string ∧ confirmed = false
  end.
Proof.
  intros Hd Ha.
  assert (Hall : allowed action st ∧ action ∈ ["start"; "stop"; "restart"; "delete"]%string).
  { destruct st; [..|done]; vm_compute in Ha;
      repeat (apply elem_of_cons in Ha as [-> | Ha]); try (by apply not_elem_of_nil in Ha);
      (split; [unfold allowed; cbn; try done; eexists; (split; [done|]); set_solver|set_solver]). }
  destruct Hall as [Hal Hin]. split; [done|]. unfold handleAction. case_bool_decide as E.
  - destruct confirmed; [left|]; done.
  - right. split_and!; [done..|]. by apply action_valid.
Qed.
End vms.
End VmsProps.

(** ** The accounts *)

Module UsersProps.
#[local] Existing Instance AuthModel.Role_eq_dec.
Import WebAdmin.Users.

Section users.
Context {T : Type → Type} `{DatabaseLaws T}.
Implicit Types s : User.UserState T.

(** The page stops an administrator from locking themselves out exactly
    where the user service does: banning an account is refused on the page if and
    only if the service refuses it as forbidden, and the page never sends a
    change of role the service refuses for being one's own. *)
Theorem self_lockout_guarded c me t u s :
  rows (User.users s) !! ac_id t = Some u →
  ((∃ m, toggleActive (Some me) t = inr m) ↔
   ∃ m, (User.adminUpdateUser c (ac_id t) {| User.au_role := None; User.au_isActive := Some (negb (ac_isActive t)) |}
           (Some "ADMIN"%string) (Some me) s).2 = Throw (ForbiddenException m)) ∧
  ((∃ m, changeRole (Some me) t = inr m) →
   (User.adminUpdateUser c (ac_id t)
      {| User.au_role := Some (Routes.parse_role (newRole t)); User.au_isActive := None |}
      (Some "ADMIN"%string) (Some me) s) = (s, Throw (ForbiddenException "You cannot remove your own admin role"))).
Proof.
  intros Hu.
  assert (Hguard : ∀ dto, User.adminUpdateUser c (ac_id t) dto (Some "ADMIN"%string) (Some me) s =
    if bool_decide (Some me = Some (ac_id t)) && bool_decide (User.au_role dto = Some AuthModel.USER)
    then (s, Throw (ForbiddenException "You cannot remove your own admin role"))
    else if bool_decide (Some me = Some (ac_id t)) && bool_decide (User.au_isActive dto = Some false)
    then (s, Throw (ForbiddenException "You cannot deactivate your own account"))
    else (updated ← User.update_user (ac_id t) (User.with_role_active (User.au_role dto) (User.au_isActive dto));
          when (bool_decide (User.au_role dto = Some AuthModel.ADMIN)) (User.upsertQuota c (ac_id t) (Some unlimited);; mret tt);;
          when (bool_decide (User.u_role u = AuthModel.ADMIN) && bool_decide (User.au_role dto = Some AuthModel.USER))
            (User.upsertQuota c (ac_id t) (Some student);; mret tt);;
          mret (User.excludePassword updated)) s).
  { intros dto. unfold User.adminUpdateUser, User.assertAdminRole, User.find_user, find_by_id, throw_if.
    m_red. rewrite Hu. cbn. destruct (_ && _); [done|]. by destruct (_ && _). }
  assert (Hsame : bool_decide (Some me = Some (ac_id t)) = bool_decide (Some (ac_id t) = Some me))
    by (apply bool_decide_ext; done).
  split.
  - rewrite Hguard. cbn [User.au_role User.au_isActive]. rewrite Hsame. unfold toggleActive.
    clear Hguard Hsame. case_bool_decide as Hme; cbn [andb].
    + destruct (ac_isActive t); cbn [negb]; [split; intros _; eexists; reflexivity|].
      split; [by intros [? ?]|]. intros [m Hm]. exfalso. revert Hm.
      unfold User.update_user, User.write_user, find_by_id. m_red. rewrite Hu. simpl.
      destruct (find_first _ _); simpl; [done|]. by rewrite ?andb_false_r.
    + split; [by intros [? ?]|]. intros [m Hm]. exfalso. revert Hm.
      unfold User.update_user, User.write_user, find_by_id. m_red. rewrite Hu. simpl.
      destruct (find_first _ _); simpl; [done|]. by rewrite ?andb_false_r.
  - intros [m Hm]. rewrite Hguard. cbn [User.au_role User.au_isActive]. unfold changeRole in Hm. rewrite Hsame.
    destruct (bool_decide (Some (ac_id t) = Some me)); [|done]. cbn [andb] in *.
    unfold newRole. destruct (bool_decide (ac_role t = "ADMIN"%string)); [|done]. done.
Qed.
End users.
End UsersProps.

(** ** The layout *)

Module LayoutProps.
Import WebAdmin.Layout.

(** An event that starts the timer. *)
Definition counts (te : Z * Event) : bool :=
  match te.2 with VmEvent auth vmId => auth && truthy vmId | _ => false end.
Definition idle : Refresh := {| timer := None; loads := [] |}.
(** The invariant of a run up to [now]: counted events are at least 300 ms
    before a pending deadline, and far from every load. *)
Record calm (l : list (Z * Event)) (r : Refresh) : Prop := {
  c_timer : ∀ d, timer r = Some d → ∀ te, te ∈ l → counts te = true → te.1 + 300 <= d;
  c_loads : ∀ t, t ∈ loads r → ∀ te, te ∈ l → counts te = true → te.1 + 300 <= t ∨ t <= te.1;
  c_number : (length (loads r) + match timer r with Some _ => 1 | None => 0 end ≤ length (List.filter counts l))%nat;
}.
Definition in_order (l : list (Z * Event)) : Prop := StronglySorted (λ a b, a.1 <= b.1) l.

Lemma load_in l t : t ∈ loads (run l idle) → ∃ te, te ∈ l ∧ t = te.1.
Proof.
  induction l as [|te l IH] using rev_ind; [by intros Hin%not_elem_of_nil|].
  unfold run. rewrite foldl_app. cbn. fold (run l idle).
  assert (Hk : t ∈ loads (run l idle) → ∃ te', te' ∈ l ++ [te] ∧ t = te'.1).
  { intros (te' & Hin & ->)%IH. exists te'. split; [apply elem_of_app; by left|done]. }
  destruct te as [now [auth vmId| |]]; cbn; [by case_match| |done].
  destruct (timer (run l idle)) as [d|]; [|done]. case_match; [|done]. cbn.
  intros [Hin|Hin%list_elem_of_singleton]%elem_of_app; [by apply Hk|]. subst t.
  exists (now, Tick). split; [apply elem_of_app; right; by apply list_elem_of_singleton|done].
Qed.
Lemma in_order_snoc l te : in_order (l ++ [te]) → in_order l ∧ ∀ x, x ∈ l → x.1 <= te.1.
Proof.
  induction l as [|y l IH]; cbn; intros Hs.
  - split; [constructor|]. by intros x Hx%not_elem_of_nil.
  - inversion Hs as [|? ? Hl Hf]; subst. destruct (IH Hl) as [Ho Hle]. rewrite Forall_app in Hf. destruct Hf as [Hf Hte].
    split; [by constructor|]. intros x [->|Hx]%elem_of_cons; [by apply Forall_inv in Hte|by apply Hle].
Qed.

Lemma calm_run l : in_order l → calm l (run l idle).
Proof.
  induction l as [|te l IH] using rev_ind; intros Ho.
  { split; cbn; [done|by intros t Ht%not_elem_of_nil|lia]. }
  apply in_order_snoc in Ho as [Ho Hle]. specialize (IH Ho) as [Ht Hl Hn].
  assert (Hold : ∀ t, t ∈ loads (run l idle) → t <= te.1).
  { intros t (x & Hx & ->)%load_in. by apply Hle. }
  unfold run. rewrite foldl_app. cbn. fold (run l idle). set (r := run l idle) in *.
  assert (Hsnoc : ∀ x (P : Z * Event → Prop), x ∈ l ++ [te] → (∀ y, y ∈ l → P y) → P te → P x).
  { intros x P [Hx| ->%list_elem_of_singleton]%elem_of_app HP Hte; auto. }
  assert (Hlen : length (List.filter counts (l ++ [te])) =
                 (length (List.filter counts l) + (if counts te then 1 else 0))%nat).
  { rewrite List.filter_app, length_app. cbn. by destruct (counts te). }
  destruct te as [now e]. destruct e as [auth vmId| |]; cbn [step fst snd] in *.
  - destruct (counts (now, VmEvent auth vmId)) eqn:Ec; unfold counts in Ec; cbn in Ec.
    + apply andb_true_iff in Ec as [-> Hv]. rewrite Hv. cbn. split; cbn.
      * intros d [= <-] x Hx Hcx. pattern x. eapply Hsnoc; [done| |cbn; lia].
        intros y Hy. specialize (Hle _ Hy). cbn in Hle. lia.
      * intros t Hin x Hx Hcx. revert Hcx. pattern x. eapply Hsnoc; [done|by intros y Hy; apply Hl|].
        intros _. right. cbn. by apply Hold.
      * rewrite Hlen. destruct (timer r); lia.
    + assert (negb auth || negb (truthy vmId) = true) as -> by (by destruct auth, (truthy vmId)).
      split; [intros d Hd x Hx; pattern x; eapply Hsnoc; [done|by intros y Hy; apply Ht|]; unfold counts; cbn; by rewrite Ec| |lia].
      intros t Hin x Hx; pattern x; eapply Hsnoc; [done|by intros y Hy; apply Hl|]. unfold counts; cbn; by rewrite Ec.
  - assert (Hnc : counts (now, Tick) = false) by done.
    destruct (timer r) as [d|] eqn:Ed.
    + destruct (Z.leb_spec d now) as [Hd|Hd].
      * split; cbn; [done| |rewrite length_app; cbn; lia].
        intros t [Hin| ->%list_elem_of_singleton]%elem_of_app x Hx; pattern x; eapply Hsnoc; try done.
        -- intros y Hy. by apply Hl.
        -- intros y Hy Hcy. left. specialize (Ht d eq_refl y Hy Hcy). lia.
      * split; [|intros t Hin x Hx; pattern x; eapply Hsnoc; [done|by intros y Hy; apply Hl|done]|rewrite Ed; lia].
        rewrite Ed. intros d' [= <-] x Hx. pattern x. eapply Hsnoc; [done|by intros y Hy; apply Ht|done].
    + split; [by rewrite Ed|intros t Hin x Hx; pattern x; eapply Hsnoc; [done|by intros y Hy; apply Hl|done]|rewrite Ed; lia].
  - split; cbn; [done|intros t Hin x Hx; pattern x; eapply Hsnoc; [done|by intros y Hy; apply Hl|done]|].
    destruct (timer r); lia.
Qed.

(** However many events arrive in a burst, the profile is fetched once for
    it: no fetch happens within 300 ms after an event, and there are never more
    fetches than events that called for one. *)
Theorem profile_refresh_debounced l :
  in_order l →
  (∀ t te, t ∈ loads (run l idle) → te ∈ l → counts te = true → te.1 + 300 <= t ∨ t <= te.1) ∧
  (length (loads (run l idle)) ≤ length (List.filter counts l))%nat.
Proof.
  intros Ho. destruct (calm_run l Ho) as [_ Hl Hn]. split; [|lia]. intros t te Ht Hte. by apply Hl.
Qed.
End LayoutProps.
