(* ===== verification/WebWitness.v ===== *)
(** * WebWitness: the frontend executed

    Concrete runs of the browser's model: two calls that meet an expired session,
    an answer of the assistant that arrives between two renderings, a report of
    the worker, a plan on the billing page, a key kept in the browser; the
    theorems of the [Web*Props] files applied to them, and runs that show where
    the pages and the services differ. *)

From Stdlib Require Import ZArith QArith Qround Lia Ascii String.
From stdpp Require Import base list gmap strings pretty sorting countable.
From S2P Require Import Prelude Text Js Regex Crypto Store RequestSecurity Sockets AuthModel Cookies Plans.
From S2P Require Import Payment PaymentProps PaymentWitness VmKeyCrypto Vm VmWitness User Dto Gateway Startup.
From S2P Require Import AuthHttp AuthHttpWitness Routes Ai AiChat WebClient WebClientProps WebChat.
From S2P Require Import WebChatProps WebLive WebLiveProps WebBilling WebBillingProps WebForms WebFormsProps.
From S2P Require Import WebAdmin WebAdminProps.
#[local] Open Scope Z_scope.

Module WebWitness.

(** ** The API client *)

Import Plans WebClient.
Definition unauthorized : ApiError := nest_error 401 "Unauthorized".
Definition w0 : Browser := opened [] "/dashboard".
(** Two calls are answered 401; the first starts the refresh, both wait for it. *)
Definition step_or (e : Event) (b : Browser) : Browser := default b (step 0 true e b).
Definition w1 : Browser := step_or (Issue 1 "/vms") w0.
Definition w2 : Browser := step_or (Issue 2 "/users/profile") w1.
Definition w3 : Browser := step_or (Answer 1 [] (Some unauthorized)) w2.
Definition w4 : Browser := step_or (Answer 2 [] (Some unauthorized)) w3.
Definition w5 : Browser := step_or (RefreshAnswer [] true) w4.

Lemma reach_step e b : reachable b → is_Some (step 0 true e b) → reachable (step_or e b).
Proof.
  intros Hb [b' Hs]. unfold step_or. rewrite Hs. cbn. eapply r_step; [exact Hb|exact Hs].
Qed.
Lemma w4_reachable : reachable w4.
Proof. unfold w4, w3, w2, w1. repeat (apply reach_step; [|vm_compute; by eexists]). apply r_open. Qed.
Lemma w5_reachable : reachable w5.
Proof. unfold w5. apply reach_step; [apply w4_reachable|vm_compute; by eexists]. Qed.

Lemma refresh_single_flight_witness :
  refreshPromise w4 = true ∧ refreshes w4 = (refreshesAnswered w4 + 1)%nat ∧ (WebClientProps.times (wire w5) 1 ≤ 2)%nat.
Proof.
  split; [by vm_compute|]. destruct (WebClientProps.refresh_single_flight w4 w4_reachable) as (H1 & _ & _).
  destruct (WebClientProps.refresh_single_flight w5 w5_reachable) as (_ & _ & H2).
  split; [exact H1|exact (H2 1%nat)].
Defined.
Lemma api_calls_settle_witness :
  WebClientProps.work w4 ≠ 0 ∧ ∃ e, WebClientProps.response e = true ∧ is_Some (step 0 true e w4).
Proof.
  assert (Hw : WebClientProps.work w4 ≠ 0) by (vm_compute; discriminate).
  split; [exact Hw|]. destruct (WebClientProps.api_calls_settle w4 w4_reachable) as (_ & H2 & _).
  destruct (H2 Hw) as (e & He & Hs). exists e. split; [exact He|apply Hs].
Defined.

(** ** The chat *)

Definition answer_message : Ai.Message :=
  {| Ai.ms_conversationId := "c1"; Ai.ms_role := Ai.ASSISTANT; Ai.ms_content := "Hello  world";
     Ai.ms_provider := Some "ollama"%string; Ai.ms_model := Some "llama"%string; Ai.ms_createdAt := 5 |}.
Definition result : Ai.ChatResult :=
  {| Ai.rs_conversationId := "c1"; Ai.rs_message := ("m1"%string, answer_message); Ai.rs_pendingAction := None |}.
Definition question : WebChat.ChatUiMessage :=
  {| WebChat.cm_id := "local-user-1"; WebChat.cm_role := "USER"; WebChat.cm_content := "Hi"; WebChat.cm_provider := None;
     WebChat.cm_model := None; WebChat.cm_pendingAction := None |}.
Definition chat0 : WebChat.Chat :=
  {| WebChat.messages := []; WebChat.queue := [WebChat.UAdd question]; WebChat.heap := ∅; WebChat.activeStreamRef := None;
     WebChat.activeConversationId := None; WebChat.loading := true; WebChat.outcomes := []; WebChat.emittedChats := [] |}.
(** The frames with a rendering after the first two. *)
Definition stream_events : list WebChat.ChatEvent :=
  let fs := WebChat.Receive <$> WebChatProps.answer_frames "r1" result in
  take 2 fs ++ WebChat.Flush :: drop 2 fs.

Lemma stream_shown_witness :
  WebChat.messages (WebChat.flush (WebChat.run stream_events (WebChat.startStream "r1" "c1" chat0))) =
    [question; WebChatProps.shown (AiChat.meta_of result) "Hello  world" None].
Proof.
  pose proof (WebChatProps.stream_shown "r1" "c1" result stream_events chat0) as Hs.
  destruct Hs as [Hm _].
  - repeat constructor.
  - repeat constructor; vm_compute; discriminate.
  - reflexivity.
  - vm_compute. discriminate.
  - vm_compute. reflexivity.
  - exact Hm.
Defined.

(** ** The live views *)

Definition seen : Vm.StatusUpdate :=
  {| Vm.su_vmId := "v1"; Vm.su_status := "STOPPED"; Vm.su_ipAddress := Some "10.0.0.7"%string; Vm.su_oneVmId := Some 42;
     Vm.su_sshHost := None; Vm.su_sshPort := None |}.
Definition v1 : Vm.VirtualMachine :=
  {| Vm.vm_name := "web"; Vm.vm_oneVmId := None; Vm.vm_status := Vm.RUNNING; Vm.vm_cpu := 1; Vm.vm_ramMb := 1024;
     Vm.vm_diskGb := 10; Vm.vm_ipAddress := None; Vm.vm_osTemplate := "ubuntu"; Vm.vm_userId := "u1";
     Vm.vm_planId := None; Vm.vm_sshHost := None; Vm.vm_sshPort := None; Vm.vm_sshUsername := None;
     Vm.vm_sshPrivateKeyEncrypted := None; Vm.vm_stoppedAt := None; Vm.vm_createdAt := 100 |}.
Definition vm_store : Vm.VmState (gmap string) :=
  {| Vm.vms := {[ "v1"%string := v1 ]}; Vm.userQuotas := ∅; Vm.published := [] |}.

Lemma live_view_witness :
  ∃ v', rows (Vm.vms (Vm.onStatusUpdate 900 seen vm_store).1) !! "v1"%string = Some v' ∧
    WebLive.mergeUpdate "v1" seen (ViewProps.shown "v1" v1) = Some (ViewProps.shown "v1" v').
Proof.
  destruct (ViewProps.live_view_agrees 900 seen vm_store v1 Vm.STOPPED) as (v' & Hv & _ & Hm & _).
  - split; [discriminate|split; discriminate].
  - vm_compute. reflexivity.
  - vm_compute. reflexivity.
  - exists v'. split; [exact Hv|exact Hm].
Defined.

(** ** The billing page *)

Definition on_student : User.Subscription :=
  {| User.sb_planId := student; User.sb_cycleStartedAt := 0; User.sb_cycleEndsAt := 2592000000;
     User.sb_vmHoursIncluded := 100; User.sb_vmHoursUsed := 500; User.sb_vmHoursRemaining := 9500;
     User.sb_canRenewSamePlan := false |}.

(** ** Keys in the browser *)

(** A JSON text for the sample: one mark, then the bits of a number that codes
    the texts and booleans of an object. *)
Fixpoint bits (p : positive) : string :=
  match p with xH => "" | xO q => String "0" (bits q) | xI q => String "1" (bits q) end.
Fixpoint unbits (s : string) : positive :=
  match s with
  | EmptyString => xH
  | String c s' => if bool_decide (c = "0"%char) then xO (unbits s') else xI (unbits s')
  end.
Lemma unbits_bits p : unbits (bits p) = p.
Proof. induction p as [p IH|p IH|]; cbn; [by rewrite IH..|done]. Qed.
Definition leaf (kv : string * Dto.Json) : option (string * (string + bool)) :=
  match kv.2 with Dto.JStr t => Some (kv.1, inl t) | Dto.JBool b => Some (kv.1, inr b) | _ => None end.
Definition unleaf (kv : string * (string + bool)) : string * Dto.Json :=
  (kv.1, match kv.2 with inl t => Dto.JStr t | inr b => Dto.JBool b end).
(** The first entry of each name, when it is a text or a boolean. *)
Fixpoint firsts (seen_names : list string) (l : list (string * Dto.Json)) : list (string * (string + bool)) :=
  match l with
  | [] => []
  | kv :: l' =>
      if bool_decide (kv.1 ∈ seen_names) then firsts seen_names l'
      else match leaf kv with Some x => x :: firsts (kv.1 :: seen_names) l' | None => firsts (kv.1 :: seen_names) l' end
  end.
Definition leaf_of (o : option Dto.Json) : option Dto.Json :=
  match o with Some (Dto.JStr t) => Some (Dto.JStr t) | Some (Dto.JBool b) => Some (Dto.JBool b) | _ => None end.
Lemma jget_firsts k names l :
  jget k (unleaf <$> firsts names l) = if bool_decide (k ∈ names) then None else leaf_of (jget k l).
Proof.
  revert names. induction l as [|[k' j] l IH]; intros names; [by case_bool_decide|]. cbn [firsts fst].
  case_bool_decide as Hn.
  - rewrite IH. case_bool_decide as Hk; [done|]. cbn. rewrite bool_decide_eq_false_2; [done|]. by intros ->.
  - assert (Hrest : k ≠ k' → jget k (unleaf <$> firsts (k' :: names) l) =
      if bool_decide (k ∈ names) then None else leaf_of (jget k l)).
    { intros Hne. rewrite IH, (bool_decide_ext (k ∈ k' :: names) (k ∈ names)); [done|].
      rewrite elem_of_cons. split; [by intros [?|?]|by right]. }
    assert (Hskip : ¬ (k ∈ names) → k = k' → jget k (unleaf <$> firsts (k' :: names) l) = None).
    { intros _ ->. rewrite IH, bool_decide_eq_true_2; [done|]. by left. }
    destruct (decide (k = k')) as [->|Hne].
    + rewrite (bool_decide_eq_false_2 (k' ∈ names)) by done. cbn [jget].
      destruct j; cbn; rewrite ?bool_decide_eq_true_2 by done; auto.
    + destruct j; cbn; rewrite ?bool_decide_eq_false_2 with (P := k = k') by done; auto.
Qed.
Definition sample_json : JsonCodec.
Proof.
  refine {|
    json_parse := λ s, match s with
      | String "o" t => (λ l, Dto.JObj (unleaf <$> l)) <$> (decode (unbits t) : option (list (string * (string + bool))))
      | String "a" _ => Some (Dto.JArr [])
      | _ => None end;
    json_stringify := λ j, match j with
      | Dto.JObj l => String "o" (bits (encode (firsts [] l)))
      | Dto.JArr _ => "a"%string
      | _ => "x"%string end |}.
  - intros l. exists (unleaf <$> firsts [] l). rewrite unbits_bits, decode_encode. split; [done|].
    split; intros k x; rewrite jget_firsts; cbn; destruct (jget k l) as [[]|]; done.
  - intros l. by exists [].
  - by intros [].
Defined.
#[local] Existing Instance sample_json.

Lemma key_store_witness :
  getGeneratedVmSshPrivateKey "v1" (saveGeneratedVmSshPrivateKey "v1" "PEM" ∅) = Some "PEM"%string ∧
  hasDownloadedGeneratedSshPrivateKey "v1" (markGeneratedSshPrivateKeyDownloaded "v1" ∅) = true.
Proof.
  destruct (WebClientProps.key_store_roundtrip "v1" "v2" "PEM" "v1.pem" ∅) as (H1 & _ & _ & _ & _ & _ & _ & H2).
  - reflexivity.
  - reflexivity.
  - discriminate.
  - intros key. reflexivity.
  - split; [exact H1|exact H2].
Defined.

(** ** The forms *)

#[local] Existing Instance AuthHttpWitness.sample_validators.
Definition form0 : WebForms.CreateVm.Form :=
  {| WebForms.CreateVm.f_name := "web"; WebForms.CreateVm.f_osTemplate := "ubuntu"; WebForms.CreateVm.f_cpu := 2;
     WebForms.CreateVm.f_ramMb := 2048; WebForms.CreateVm.f_diskGb := 20; WebForms.CreateVm.f_vmUsername := "cloudvm";
     WebForms.CreateVm.f_vmPassword := "" |}.
Definition key0 : string := "ssh-rsa AAAAB3NzaC1yc2EAAAADAQABAAABAQ".
Lemma create_form_witness :
  WebForms.CreateVm.submittable form0 = true ∧
  Dto.validate Dto.CreateVmDto (WebForms.CreateVm.body form0 key0) = true.
Proof.
  assert (Hs : WebForms.CreateVm.submittable form0 = true) by (vm_compute; reflexivity).
  split; [exact Hs|]. apply (WebFormsProps.create_form_agrees form0 key0 Hs).
  split; [discriminate|]. split; vm_compute; repeat split; discriminate.
Defined.
(** The page offers a disk the service refuses. *)
Definition big_disk : WebForms.CreateVm.Form :=
  {| WebForms.CreateVm.f_name := "web"; WebForms.CreateVm.f_osTemplate := "ubuntu"; WebForms.CreateVm.f_cpu := 2;
     WebForms.CreateVm.f_ramMb := 2048; WebForms.CreateVm.f_diskGb := 500; WebForms.CreateVm.f_vmUsername := "cloudvm";
     WebForms.CreateVm.f_vmPassword := "" |}.
Example disk_offered_but_refused :
  WebForms.CreateVm.submittable big_disk = true ∧
  Dto.validate Dto.CreateVmDto (WebForms.CreateVm.body big_disk key0) = false.
Proof. by vm_compute. Qed.

(** A password with a space at its end can be registered, but the MFA panel sends
    another one. *)
Definition padded : string := "Passw0rd! ".
Example padded_password_unusable :
  Dto.validate Dto.RegisterDto
    (<["email" := Dto.JStr "a@b.tn"]> (<["password" := Dto.JStr padded]>
     (<["firstName" := Dto.JStr "A"]> (<["lastName" := Dto.JStr "B"]> ∅))))%string = true ∧
  js_trim padded ≠ padded.
Proof. by vm_compute. Qed.

(** Saving an untouched card changes a plan whose memory is not a whole number of
    gigabytes. *)
Definition odd_plan : PlanConfigRow :=
  {| pc_amountDt := 10; pc_rank := 1; pc_vmHoursMonthly := 100; pc_maxVms := 2; pc_maxCpu := 4; pc_maxRamMb := 1536;
     pc_maxDiskGb := 50 |}.
Example untouched_card_changes_memory :
  pc_maxRamMb (PlansPageProps.saved odd_plan (WebAdmin.PlansPage.toDraft odd_plan)) = 2048.
Proof. by vm_compute. Qed.

(** A search text reaches the query string as it is. *)
Example search_text_changes_query :
  WebAdmin.Users.users_url 1 "a&page=7" = "/users?page=1&limit=10&search=a&page=7"%string.
Proof. by vm_compute. Qed.

(** A catalogue that ranks the plans otherwise than the page: the page locks a
    plan the payment service would sell. *)
Definition swapped_catalog : Catalog := λ p,
  {| pc_amountDt := 10; pc_rank := match p with student => 3 | pro => 2 | enterprise => 1 | unlimited => 99 end;
     pc_vmHoursMonthly := 100; pc_maxVms := 2; pc_maxCpu := 4; pc_maxRamMb := 4096; pc_maxDiskGb := 50 |}.
Definition on_pro : User.Subscription :=
  {| User.sb_planId := pro; User.sb_cycleStartedAt := 0; User.sb_cycleEndsAt := 2592000000;
     User.sb_vmHoursIncluded := 100; User.sb_vmHoursUsed := 500; User.sb_vmHoursRemaining := 9500;
     User.sb_canRenewSamePlan := false |}.
Example built_in_ranks_disagree :
  WebBilling.Billing.isPlanSelectable (Some (BillingProps.details true (Some on_pro))) student = false ∧
  PaymentProps.may_purchase swapped_catalog (User.subscriptionAccess (λ _, ""%string) (Some on_pro)) student.
Proof. split; [by vm_compute|]. left. by vm_compute. Qed.

(** The hours of a deleted machine count for the service and not on the page. *)
Definition deleted_vm : Vm.VirtualMachine := Vm.mark_stopped 36000000 (Vm.mark_deleted v1).
Example deleted_hours_missing :
  User.estimateVmHoursUsed [deleted_vm] 100 36000000 = 1000 ∧
  WebBilling.Dashboard.estimateVmHoursUsed
    (WebBilling.Dashboard.of_row <$> List.filter DashboardProps.kept [deleted_vm]) 100 36000000 = (0 # 3600000)%Q.
Proof. by vm_compute. Qed.

(** Two selections that are prepared at the same time see the same free slots. *)
Example image_limit_exceeded :
  let prepared := WebChat.selected [] ["a"; "b"; "c"]%string in
  length (WebChat.attached (WebChat.attached [] prepared) prepared) = 6%nat.
Proof. by vm_compute. Qed.
End WebWitness.
