(* ===== verification/WorkerText.v ===== *)
(** * WorkerText: the pure parts of the OpenNebula worker

    The functions of worker/main.py and worker/vm_handler.py that only compute:
    the validation of messages, the SSH keys and the template text that a new
    machine gets, the choice of a template, and the address of a machine. *)

From Stdlib Require Import ZArith Lia Ascii String QArith Qround.
From stdpp Require Import base list gmap strings pretty.
From S2P Require Import Prelude Text Js Regex Dto.
Import Regex.
#[local] Open Scope Z_scope.

Module WorkerText.

(** ** Python's strings and numbers *)

(** [str.strip()]; on ASCII it removes four control characters that JavaScript
    keeps. *)
Definition py_ws (c : ascii) : bool :=
  ((9 <=? code c) && (code c <=? 13)) || ((28 <=? code c) && (code c <=? 32)).
Definition strip_chars (l : list ascii) : list ascii :=
  rev (drop_while py_ws (rev (drop_while py_ws l))).
Definition strip (s : string) : string := str (strip_chars (chars s)).
(** [isinstance(v, int)], with the value; a bool is an int.  The numbers come
    from [JSON.stringify], which writes whole numbers without a fraction. *)
Definition as_int (j : Dto.Json) : option Z :=
  match j with
  | Dto.JNum q => if Dto.is_integer q then Some (Qfloor q) else None
  | Dto.JBool b => Some (if b then 1 else 0)
  | _ => None
  end.
(** [data.get(k)]: a missing key and null are both None. *)
Definition get (data : Dto.Body) (k : string) : option Dto.Json :=
  match data !! k with Some Dto.JNull | None => None | Some j => Some j end.
Definition get_str (data : Dto.Body) (k : string) : option string :=
  match data !! k with Some (Dto.JStr s) => Some s | _ => None end.

(** ** Validation of messages (main.py) *)

Definition is_hex (c : ascii) : bool :=
  is_digit c || ((65 <=? code c) && (code c <=? 70)) || ((97 <=? code c) && (code c <=? 102)).
Definition newline : ascii := ascii_of_nat 10.
Definition is_dash (c : ascii) : bool := bool_decide (c = "-"%char).
(** The 36 positions of [_UUID_RE]. *)
Definition uuid_positions : list (ascii → bool) :=
  replicate 8 is_hex ++ [is_dash] ++ replicate 4 is_hex ++ [is_dash] ++
  [λ c, (49 <=? code c) && (code c <=? 53)] ++ replicate 3 is_hex ++ [is_dash] ++
  [λ c, bool_decide (c ∈ ["8"; "9"; "a"; "b"; "A"; "B"]%char)] ++ replicate 3 is_hex ++ [is_dash] ++
  replicate 12 is_hex.
Fixpoint fits (ps : list (ascii → bool)) (l : list ascii) : bool :=
  match ps, l with
  | [], [] => true
  | p :: ps, c :: l => p c && fits ps l
  | _, _ => false
  end.
(** [_UUID_RE.match]; Python's [$] also matches before a last newline. *)
Definition uuid_match (s : string) : bool :=
  fits uuid_positions (chars s) || fits (uuid_positions ++ [λ c, bool_decide (c = newline)]) (chars s).
Definition _is_uuid (j : option Dto.Json) : bool :=
  match j with Some (Dto.JStr s) => uuid_match s | _ => false end.

(** [re.fullmatch(r"[a-zA-Z0-9-]{1,64}", name)] *)
Definition name_fullmatch (name : string) : bool :=
  (1 <=? js_length name) && (js_length name <=? 64) && forallb (λ c, is_alnum c || is_dash c) (chars name).
Definition has (data : Dto.Body) (k : string) : bool := bool_decide (is_Some (data !! k)).
(** The first field that is missing. *)
Definition first_missing (required : list string) (data : Dto.Body) : option string :=
  snd <$> list_find (λ k, has data k = false) required.
Definition missing_field (k : string) : string := "Missing required field '" +:+ k +:+ "'".
(** The reason for a rejection; [None] is [(True, "ok")]. *)
Fixpoint first_reason (checks : list (bool * string)) : option string :=
  match checks with
  | [] => None
  | (ok, reason) :: checks => if ok then first_reason checks else Some reason
  end.
Definition is_positive (data : Dto.Body) (k : string) : bool :=
  match get data k ≫= as_int with Some n => 0 <? n | None => false end.
Definition filled (data : Dto.Body) (k : string) : bool :=
  match get_str data k with Some s => truthy (strip s) | None => false end.

Definition _validate_vm_create (data : Dto.Body) : option string :=
  match first_missing ["vmId"; "name"; "cpu"; "ramMb"; "diskGb"; "osTemplate"; "userId"] data with
  | Some k => Some (missing_field k)
  | None => first_reason
      [(_is_uuid (get data "vmId"), "vmId must be UUID"%string);
       (_is_uuid (get data "userId"), "userId must be UUID"%string);
       (filled data "name", "name must be non-empty string"%string);
       (name_fullmatch (default "" (get_str data "name")), "name contains invalid chars"%string);
       (filled data "osTemplate", "osTemplate must be non-empty string"%string);
       (is_positive data "cpu", "cpu must be positive integer"%string);
       (is_positive data "ramMb", "ramMb must be positive integer"%string);
       (is_positive data "diskGb", "diskGb must be positive integer"%string)]
  end.

Definition actions : list string := ["start"; "stop"; "restart"; "delete"].
Definition _validate_vm_action (data : Dto.Body) : option string :=
  match first_missing ["vmId"; "oneVmId"; "action"; "userId"] data with
  | Some k => Some (missing_field k)
  | None => first_reason
      [(_is_uuid (get data "vmId"), "vmId must be UUID"%string);
       (_is_uuid (get data "userId"), "userId must be UUID"%string);
       (bool_decide (is_Some (get data "oneVmId" ≫= as_int)), "oneVmId must be integer"%string);
       (match get_str data "action" with Some a => bool_decide (a ∈ actions) | None => false end,
        "action must be one of start/stop/restart/delete"%string)]
  end.

Definition _validate_vm_delete (data : Dto.Body) : option string :=
  first_reason
    [(has data "vmId" && has data "userId", "Missing required fields vmId/userId"%string);
     (_is_uuid (get data "vmId"), "vmId must be UUID"%string);
     (_is_uuid (get data "userId"), "userId must be UUID"%string);
     (match get data "oneVmId" with Some j => bool_decide (is_Some (as_int j)) | None => true end,
      "oneVmId must be integer when provided"%string)].

(** ** SSH keys and template text (vm_handler.py) *)

(** [_inject_extra_ssh_keys_enabled] *)
Definition _inject_extra_ssh_keys_enabled (env : Env) : bool :=
  bool_decide (toLowerCase (strip (default "false" (env "INJECT_EXTRA_SSH_KEYS")))
               ∈ ["1"; "true"; "yes"; "on"]%string).
(** [_load_extra_ssh_keys]: the lines of the file, or nothing without it. *)
Definition _load_extra_ssh_keys (file : option string) : list string :=
  match file with
  | Some text => List.filter truthy (strip <$> js_split newline text)
  | None => []
  end.

Definition allowed_prefixes : list string := ["ssh-rsa"; "ssh-ed25519"; "ecdsa-sha2-nistp256"].
Definition key_allowed (key : string) : bool :=
  truthy key && (js_length key <=? 4096) && existsb (λ p, starts_with p key) allowed_prefixes.
Fixpoint sanitize_from (seen : list string) (keys : list string) : list string :=
  match keys with
  | [] => []
  | raw :: keys =>
      let key := strip raw in
      if key_allowed key && negb (bool_decide (key ∈ seen))
      then key :: sanitize_from (key :: seen) keys else sanitize_from seen keys
  end.
Definition _sanitize_ssh_public_keys (keys : list string) : list string := sanitize_from [] keys.

Definition quote : ascii := ascii_of_nat 34.
Definition backslash : ascii := ascii_of_nat 92.
(** [value.replace("\\", "\\\\").replace('"', '\\"')]: the second replacement
    does not touch what the first put in. *)
Definition replace_with (c : ascii) (r : list ascii) (l : list ascii) : list ascii :=
  l ≫= λ x, if bool_decide (x = c) then r else [x].
Definition escape_chars (l : list ascii) : list ascii :=
  replace_with quote [backslash; quote] (replace_with backslash [backslash; backslash] l).
Definition _escape_one_template_value (value : string) : string := str (escape_chars (chars value)).

Definition nl : string := String newline EmptyString.
Definition quoted (value : string) : string :=
  String quote (_escape_one_template_value value) +:+ String quote nl.
Fixpoint join_lines (l : list string) : string :=
  match l with [] => "" | [x] => x | x :: l => x +:+ nl +:+ join_lines l end.
(** [s.replace("\r", "").replace("\n", "\\n")] *)
Definition keys_for_template (ssh_keys_str : string) : string :=
  str (replace_with newline [backslash; "n"%char]
        (replace_with (ascii_of_nat 13) [] (chars ssh_keys_str))).
Definition extra_template_base (cpu ram_mb : Z) (ssh_keys : list string) : string :=
  "CPU=" +:+ pretty cpu +:+ nl +:+ "VCPU=" +:+ pretty cpu +:+ nl +:+ "MEMORY=" +:+ pretty ram_mb +:+ nl +:+
  (let s := join_lines ssh_keys in
   if truthy s then "SSH_PUBLIC_KEY=" +:+ quoted (keys_for_template s) else "").
Definition creds_snippet (vm_username : string) (vm_password : option string) : string :=
  "USERNAME=" +:+ quoted vm_username +:+
  match vm_password with Some p => "PASSWORD=" +:+ quoted p | None => "" end.

(** ** Templates *)

Record Template := { t_ID : Z; t_NAME : string; t_base : bool (* CLOUDVM_BASE is YES *) }.

(** NFKD and the ASCII filter leave ASCII text as it is. *)
Definition normalize (s : string) : string :=
  filter_chars (λ c, is_lower c || is_digit c) (toLowerCase s).
(** The first template that satisfies a criterion, criterion by criterion. *)
Fixpoint first_by (ps : list (Template → bool)) (ts : list Template) : option Template :=
  match ps with
  | [] => None
  | p :: ps => match List.find p ts with Some t => Some t | None => first_by ps ts end
  end.
Definition criteria (name : string) : list (Template → bool) :=
  [λ t, bool_decide (t_NAME t = name);
   λ t, bool_decide (toLowerCase (t_NAME t) = toLowerCase name);
   λ t, bool_decide (normalize (t_NAME t) = normalize name);
   λ t, includes (toLowerCase name) (toLowerCase (t_NAME t))].
(** [_find_template], on the cached templates. *)
Definition find_in (ts : list Template) (name : string) : option Z :=
  t_ID <$> first_by (criteria name) (List.filter t_base ts).

(** ** Addresses *)

(** What [vm.info] answers, as far as the worker reads it: the NICs of the
    template with their IP, ETH0_IP of the context, and the two monitoring
    attributes. *)
Record OneVm := {
  o_STATE : Z; o_LCM_STATE : Z;
  o_nics : list (option string); o_eth0 : option string;
  o_guest : option string; o_guests : option string;
}.
Definition _extract_ip (vm : OneVm) : option string :=
  match (head (o_nics vm) ≫= λ ip, ip ≫= nonempty) with
  | Some ip => Some ip
  | None =>
      match o_eth0 vm ≫= nonempty with
      | Some ip => Some ip
      | None =>
          match o_guest vm ≫= nonempty with
          | Some ip => Some ip
          | None => (λ s, strip (default "" (head (js_split "," s)))) <$> (o_guests vm ≫= nonempty)
          end
      end
  end.

(** [int(p)]: digits with a sign, and white space around them. *)
Definition py_int (s : string) : option Z :=
  let digits l := if forallb is_digit l && negb (bool_decide (l = [])) then Some (decimal l) else None in
  match chars (strip s) with
  | c :: l => if bool_decide (c = "-"%char) then Z.opp <$> digits l
              else if bool_decide (c = "+"%char) then digits l else digits (c :: l)
  | [] => None
  end.
Definition _apply_ip_offset (ip : string) (offset : Z) : string :=
  if offset =? 0 then ip
  else match mapM py_int (js_split "." (strip ip)) with
       | Some [a; b; c; d] =>
           if forallb (λ o, (0 <=? o) && (o <=? 255)) [a; b; c; d] && (d + offset <=? 255)
           then js_join "." (pretty <$> [a; b; c; d + offset])
           else ip
       | _ => ip
       end.
End WorkerText.
