(* ===== verification/Worker.v ===== *)
(** * Worker: the process that drives OpenNebula

    worker/vm_handler.py, worker/db_updater.py and the message handlers of
    worker/main.py.  The worker writes the table of machines that the VM service
    reads (without VM_DATABASE_URL, docker-compose.yml gives both the same
    database), keeps a lock per creation and the last status in Redis, and
    reports on vm.status.update.

    OpenNebula's answers are arguments of the handlers and what is asked of it is
    recorded.  asyncio runs other handlers while one waits for OpenNebula, so a
    handler that reads the database before it waits is split there: a creation
    into [create_begin] and [create_end], the periodic comparison of states into
    [sync_start] and [sync_vm].  A background task that polls for an address is
    an entry of [pollers], and each of its rounds one step.  The database and
    Redis answer; what the code does when they fail is not modelled. *)

From Stdlib Require Import ZArith Lia Ascii String.
From stdpp Require Import base list gmap strings pretty.
From S2P Require Import Prelude Text Js Store Crypto VmKeyCrypto Dto SshKey Vm RequestSecurity Sockets VmEvents WorkerText.
Import WorkerText VmEvents.
#[local] Open Scope Z_scope.
#[local] Existing Instance Vm.VmStatus_eq_dec.

Module Worker.

(** ** What the VM service publishes, as the JSON the worker reads

    [JSON.stringify] leaves out a password that is undefined and writes a
    missing [oneVmId] as null. *)
Definition opt_int (o : option Z) : Dto.Json :=
  match o with Some i => Dto.JNum (QArith_base.inject_Z i) | None => Dto.JNull end.
Definition message_json (m : Vm.NatsMessage) : Dto.Body :=
  match m with
  | Vm.VmCreate vmId name cpu ramMb diskGb osTemplate userId vmUsername vmPassword sshPublicKey =>
      let num i := Dto.JNum (QArith_base.inject_Z i) in
      let base := <["vmId" := Dto.JStr vmId]> (<["name" := Dto.JStr name]> (<["cpu" := num cpu]>
        (<["ramMb" := num ramMb]> (<["diskGb" := num diskGb]> (<["osTemplate" := Dto.JStr osTemplate]>
        (<["userId" := Dto.JStr userId]>
        (<["vmUsername" := match vmUsername with Some u => Dto.JStr u | None => Dto.JNull end]>
        (<["sshPublicKey" := Dto.JStr sshPublicKey]> (∅ : Dto.Body))))))))) in
      match vmPassword with Some p => <["vmPassword" := Dto.JStr p]> base | None => base end
  | Vm.VmAction vmId oneVmId action userId =>
      <["vmId" := Dto.JStr vmId]> (<["oneVmId" := opt_int oneVmId]> (<["action" := Dto.JStr action]>
      (<["userId" := Dto.JStr userId]> (∅ : Dto.Body))))
  | Vm.VmDelete vmId oneVmId userId =>
      <["vmId" := Dto.JStr vmId]> (<["oneVmId" := opt_int oneVmId]>
      (<["userId" := Dto.JStr userId]> (∅ : Dto.Body)))
  end%string.

(** ** State *)

Inductive OneRequest :=
| TemplateDelete (id : Z)
| Instantiate (template : Z) (name text : string)
| TemplateUpdate (id : Z) (text : string)
| VmActionCall (action : string) (id : Z)
| DiskResize (id size_mb : Z)
| ImageDelete (id : Z).

(** A run of [_wait_for_ip_and_update]. *)
Record Poller := {
  p_vmId : string; p_oneId : Z; p_sshUsername : option string; p_diskGb : option Z;
  p_elapsed : Z; p_lastLcm : Z;
}.

(** The message of a creation, after validation. *)
Record Creation := {
  c_vmId : string; c_name : string; c_cpu : Z; c_ramMb : Z; c_diskGb : Z; c_osTemplate : string;
  c_userId : string; c_sshPublicKey : option string; c_username : string; c_password : option string;
}.

Record WorkerState (T : Type → Type) (RS : Type) := {
  machines : T Vm.VirtualMachine;
  ssh_keys : T SshKey.SshKeyRow;
  redis : RS;
  templates : option (list Template);      (* _template_cache *)
  creating : list (Z * Creation);          (* creations that wait for OpenNebula, since when *)
  pollers : list Poller;
  syncing : list (string * Z * Vm.VmStatus);
  asked : list OneRequest;
  instantiated : list (string * Z);        (* machine, OpenNebula id *)
  reports : list VmStatusPayload;          (* published on vm.status.update *)
}.
Arguments machines {_ _} _.
Arguments ssh_keys {_ _} _.
Arguments redis {_ _} _.
Arguments templates {_ _} _.
Arguments creating {_ _} _.
Arguments pollers {_ _} _.
Arguments syncing {_ _} _.
Arguments asked {_ _} _.
Arguments instantiated {_ _} _.
Arguments reports {_ _} _.

Section worker.
Context {T : Type → Type} `{Database T} {RS : Type} `{Redis RS unit}.
Abbreviation St := (WorkerState T RS).

Definition set_machines (f : T Vm.VirtualMachine → T Vm.VirtualMachine) (s : St) : St :=
  {| machines := f (machines s); ssh_keys := ssh_keys s; redis := redis s; templates := templates s;
     creating := creating s; pollers := pollers s; syncing := syncing s; asked := asked s;
     instantiated := instantiated s; reports := reports s |}.
Definition set_redis (f : RS → RS) (s : St) : St :=
  {| machines := machines s; ssh_keys := ssh_keys s; redis := f (redis s); templates := templates s;
     creating := creating s; pollers := pollers s; syncing := syncing s; asked := asked s;
     instantiated := instantiated s; reports := reports s |}.
Definition set_templates (x : option (list Template)) (s : St) : St :=
  {| machines := machines s; ssh_keys := ssh_keys s; redis := redis s; templates := x;
     creating := creating s; pollers := pollers s; syncing := syncing s; asked := asked s;
     instantiated := instantiated s; reports := reports s |}.
Definition set_creating (f : list (Z * Creation) → list (Z * Creation)) (s : St) : St :=
  {| machines := machines s; ssh_keys := ssh_keys s; redis := redis s; templates := templates s;
     creating := f (creating s); pollers := pollers s; syncing := syncing s; asked := asked s;
     instantiated := instantiated s; reports := reports s |}.
Definition set_pollers (f : list Poller → list Poller) (s : St) : St :=
  {| machines := machines s; ssh_keys := ssh_keys s; redis := redis s; templates := templates s;
     creating := creating s; pollers := f (pollers s); syncing := syncing s; asked := asked s;
     instantiated := instantiated s; reports := reports s |}.
Definition set_syncing (x : list (string * Z * Vm.VmStatus)) (s : St) : St :=
  {| machines := machines s; ssh_keys := ssh_keys s; redis := redis s; templates := templates s;
     creating := creating s; pollers := pollers s; syncing := x; asked := asked s;
     instantiated := instantiated s; reports := reports s |}.
Definition ask (r : OneRequest) : M St unit := modify (λ s,
  {| machines := machines s; ssh_keys := ssh_keys s; redis := redis s; templates := templates s;
     creating := creating s; pollers := pollers s; syncing := syncing s; asked := asked s ++ [r];
     instantiated := instantiated s; reports := reports s |}).
Definition record_instance (vmId : string) (id : Z) : M St unit := modify (λ s,
  {| machines := machines s; ssh_keys := ssh_keys s; redis := redis s; templates := templates s;
     creating := creating s; pollers := pollers s; syncing := syncing s; asked := asked s;
     instantiated := instantiated s ++ [(vmId, id)]; reports := reports s |}).
(** [_publish_status] *)
Definition _publish_status (m : VmStatusPayload) : M St unit := modify (λ s,
  {| machines := machines s; ssh_keys := ssh_keys s; redis := redis s; templates := templates s;
     creating := creating s; pollers := pollers s; syncing := syncing s; asked := asked s;
     instantiated := instantiated s; reports := reports s ++ [m] |}).

(** [{"vmId": ..., "status": ...}] with the extra data given. *)
Definition status_message (vmId status : string) (oneVmId : option Z) (ip userId error action : option string)
    : VmStatusPayload :=
  {| st_vmId := vmId; st_status := status; st_userId := userId; st_ipAddress := ip; st_oneVmId := oneVmId;
     st_sshHost := ip; st_sshPort := None; st_error := error; st_action := action |}.

(** ** db_updater.py *)

(** What UPDATE sets in the row; NULL arguments leave a column. *)
Definition written (t : Z) (st : Vm.VmStatus) (ip : option string) (one : option Z) (user : option string)
    (v : Vm.VirtualMachine) : Vm.VirtualMachine :=
  {| Vm.vm_name := Vm.vm_name v;
     Vm.vm_oneVmId := match one with Some i => Some i | None => Vm.vm_oneVmId v end;
     Vm.vm_status := st; Vm.vm_cpu := Vm.vm_cpu v; Vm.vm_ramMb := Vm.vm_ramMb v; Vm.vm_diskGb := Vm.vm_diskGb v;
     Vm.vm_ipAddress := match ip with Some a => Some a | None => Vm.vm_ipAddress v end;
     Vm.vm_osTemplate := Vm.vm_osTemplate v; Vm.vm_userId := Vm.vm_userId v; Vm.vm_planId := Vm.vm_planId v;
     Vm.vm_sshHost := match ip with Some a => Some a | None => Vm.vm_sshHost v end;
     Vm.vm_sshPort := Vm.vm_sshPort v;
     Vm.vm_sshUsername := match user with Some u => Some u | None => Vm.vm_sshUsername v end;
     Vm.vm_sshPrivateKeyEncrypted := Vm.vm_sshPrivateKeyEncrypted v;
     Vm.vm_stoppedAt := match st with
                        | Vm.STOPPED => Some (default t (Vm.vm_stoppedAt v))
                        | _ => Vm.vm_stoppedAt v
                        end;
     Vm.vm_createdAt := Vm.vm_createdAt v |}.
Definition here (vmId : string) (k : string) (_ : Vm.VirtualMachine) : bool := bool_decide (k = vmId).
(** Every caller passes the same value for ip_address and ssh_host. *)
Definition update_vm_status (t : Z) (vmId : string) (st : Vm.VmStatus) (ip : option string) (one : option Z)
    (user : option string) : M St unit :=
  modify (set_machines (update_where (here vmId) (written t st ip one user))).
Definition deleted_row (t : Z) (v : Vm.VirtualMachine) : Vm.VirtualMachine :=
  Vm.mark_deleted (Vm.mark_stopped (default t (Vm.vm_stoppedAt v)) v).
Definition delete_vm_record (t : Z) (vmId : string) : M St unit :=
  modify (set_machines (update_where (here vmId) (deleted_row t))).
Definition get_vm_one_id (vmId : string) : M St (option Z) :=
  gets (λ s, find_by_id vmId (machines s) ≫= Vm.vm_oneVmId).
Definition get_user_ssh_keys (userId : string) : M St (list string) :=
  gets (λ s, (λ kr, SshKey.k_publicKey kr.2) <$>
             select (λ _ k, bool_decide (SshKey.k_userId k = userId)) (ssh_keys s)).
Definition pending_sync (_ : string) (v : Vm.VirtualMachine) : bool :=
  bool_decide (Vm.vm_status v = Vm.PENDING ∨ Vm.vm_status v = Vm.ERROR) &&
  bool_decide (is_Some (Vm.vm_oneVmId v)).
Definition get_vms_pending_sync : M St (list (string * Z)) :=
  gets (λ s, (λ kr, (kr.1, default 0 (Vm.vm_oneVmId kr.2))) <$> select pending_sync (machines s)).
Definition active_synced (_ : string) (v : Vm.VirtualMachine) : bool :=
  negb (bool_decide (Vm.vm_status v = Vm.DELETED)) && bool_decide (is_Some (Vm.vm_oneVmId v)).
Definition get_all_active_vms : M St (list (string * Z * Vm.VmStatus)) :=
  gets (λ s, (λ kr, (kr.1, default 0 (Vm.vm_oneVmId kr.2), Vm.vm_status kr.2)) <$>
             select active_synced (machines s)).

(** ** Redis helpers *)

Definition REDIS_TTL : Z := 86400.
Definition status_key (vmId : string) : string := "vm:" +:+ vmId +:+ ":status".
Definition ip_key (vmId : string) : string := "vm:" +:+ vmId +:+ ":ip".
Definition lock_key (vmId : string) : string := "vm:create:lock:" +:+ vmId.
Definition _cache_vm_status (t : Z) (vmId : string) (st : Vm.VmStatus) (ip : option string) : M St unit :=
  modify (set_redis (λ rs,
    let rs := r_set_ex (status_key vmId) (RText (Vm.status_string st)) REDIS_TTL t rs in
    match ip ≫= nonempty with
    | Some a => r_set_ex (ip_key vmId) (RText a) REDIS_TTL t rs
    | None => rs
    end)).
Definition _delete_vm_cache (vmId : string) : M St unit :=
  modify (set_redis (r_del [status_key vmId; ip_key vmId])).
(** [redis.set(lock_key, "1", nx=True, ex=300)] *)
Definition acquire (t : Z) (vmId : string) : M St bool := λ s,
  match r_get (lock_key vmId) t (redis s) with
  | Some _ => (s, Ret false)
  | None => (set_redis (r_set_ex (lock_key vmId) (RText "1") 300 t) s, Ret true)
  end.
Definition release (vmId : string) : M St unit := modify (set_redis (r_del [lock_key vmId])).

(** ** Templates *)

(** [load_templates]: [None] when the pool cannot be read. *)
Definition load_templates (pool : option (list Template)) : M St unit :=
  modify (set_templates (List.filter t_base <$> pool)).
Definition ensure_templates (pool : option (list Template)) : M St (option (list Template)) :=
  known ← gets templates;
  match known with
  | Some ts => mret (Some ts)
  | None => load_templates pool;; gets templates
  end.
Definition get_template_list (pool : option (list Template)) : M St (list (Z * string)) :=
  ts ← ensure_templates pool;
  mret ((λ t, (t_ID t, t_NAME t)) <$> List.filter t_base (default [] ts)).
Definition _find_template (pool : option (list Template)) (name : string) : M St (option Z) :=
  ts ← ensure_templates pool; mret (ts ≫= λ ts, find_in ts name).

(** ** Creation *)

(** The answers a creation needs, each [None] or [inr] for an exception. *)
Record CreateAnswers := {
  a_pool : option (list Template);            (* load_templates *)
  a_cleanup : option (list Template);         (* the pool before the first attempt *)
  a_instantiate : Z + string;
  a_cleanup_retry : option (list Template);
  a_instantiate_base : Z + string;
  a_cloned : option Z;                        (* TEMPLATE_ID of the new machine *)
  a_deletable : Z → bool;                     (* whether a template can be deleted *)
}.
Record Config := { cf_env : Env; cf_extraKeys : option string; cf_ipOffset : Z }.

(** [handle_vm_create], from the message to the fields [create_vm] reads. *)
Definition parse_creation (data : Dto.Body) : Creation :=
  let text k := default "" (get_str data k) in
  let num k := default 0 (get data k ≫= as_int) in
  let user := strip (text "vmUsername"%string) in
  let password := strip (text "vmPassword"%string) in
  {| c_vmId := text "vmId"%string; c_name := text "name"%string; c_cpu := num "cpu"%string; c_ramMb := num "ramMb"%string;
     c_diskGb := num "diskGb"%string; c_osTemplate := text "osTemplate"%string; c_userId := text "userId"%string;
     c_sshPublicKey := get_str data "sshPublicKey";
     c_username := if truthy user then user else "cloudvm";
     c_password := nonempty password |}.

Definition start_polling (p : Poller) : M St unit := modify (set_pollers (λ ps, ps ++ [p])).
Definition new_poller (vmId : string) (one : Z) (user : option string) (disk : option Z) : Poller :=
  {| p_vmId := vmId; p_oneId := one; p_sshUsername := user; p_diskGb := disk; p_elapsed := 0; p_lastLcm := -1 |}.

(** The [except] of a creation. *)
Definition creation_failed (t : Z) (vmId : string) : M St unit :=
  update_vm_status t vmId Vm.ERROR None None None;;
  _cache_vm_status t vmId Vm.ERROR None;;
  _publish_status (status_message vmId "ERROR" None None None
    (Some "VM provisioning failed. Contact support."%string) None).

(** [create_vm] up to where it first waits for OpenNebula. *)
Definition create_begin (t : Z) (d : Creation) : M St unit :=
  acquired ← acquire t (c_vmId d);
  if negb acquired then mret tt
  else
    existing ← get_vm_one_id (c_vmId d);
    match existing with
    | Some one =>
        start_polling (new_poller (c_vmId d) one (Some (c_username d)) None);;
        release (c_vmId d)
    | None =>
        if negb (name_fullmatch (c_name d)) then creation_failed t (c_vmId d);; release (c_vmId d)
        else modify (set_creating (λ l, l ++ [(t, d)]))
    end.

(** Templates left over under the machine's name; the loop ends at the first
    that cannot be deleted. *)
Fixpoint delete_stale (deletable : Z → bool) (ids : list Z) : M St unit :=
  match ids with
  | [] => mret tt
  | i :: ids => ask (TemplateDelete i);; if deletable i then delete_stale deletable ids else mret tt
  end.
Definition stale (name : string) (template : Z) (pool : option (list Template)) : list Z :=
  t_ID <$> List.filter (λ t, bool_decide (t_NAME t = name) && negb (t_ID t =? template)) (default [] pool).

(** The keys of a new machine, and its template text without credentials. *)
Definition collect_keys (cfg : Config) (d : Creation) : M St (list string) :=
  db ← (if truthy (c_userId d) then get_user_ssh_keys (c_userId d) else mret []);
  let extra := if _inject_extra_ssh_keys_enabled (cf_env cfg) then _load_extra_ssh_keys (cf_extraKeys cfg) else [] in
  let own := match c_sshPublicKey d with
             | Some k => if truthy (strip k) then [strip k] else []
             | None => []
             end in
  mret (_sanitize_ssh_public_keys (extra ++ db ++ own)).

Definition instantiate (template : Z) (d : Creation) (text : string) (answer : Z + string) : M St (Z + string) :=
  ask (Instantiate template (c_name d) text);;
  match answer with
  | inl one => record_instance (c_vmId d) one;; mret (inl one)
  | inr e => mret (inr e)
  end.

(** With the credentials first, and without them if OpenNebula refuses. *)
Definition instantiate_or_retry (template : Z) (d : Creation) (keys : list string) (a : CreateAnswers)
    : M St (Z + string) :=
  let base := extra_template_base (c_cpu d) (c_ramMb d) keys in
  delete_stale (a_deletable a) (stale (c_name d) template (a_cleanup a));;
  first ← instantiate template d (base +:+ creds_snippet (c_username d) (c_password d)) (a_instantiate a);
  match first with
  | inl one => mret (inl one)
  | inr _ =>
      delete_stale (a_deletable a) (stale (c_name d) template (a_cleanup_retry a));;
      instantiate template d base (a_instantiate_base a)
  end.

Definition clear_base_flag (template : Z) (cloned : option Z) : M St unit :=
  match cloned with
  | Some i => if i =? template then mret tt
              else ask (TemplateUpdate i ("CLOUDVM_BASE=" +:+ String quote ("NO" +:+ String quote "")))
  | None => mret tt
  end.

Fixpoint finish (started : Z) (vmId : string) (l : list (Z * Creation)) : list (Z * Creation) :=
  match l with
  | [] => []
  | x :: l => if bool_decide (x.1 = started ∧ c_vmId x.2 = vmId) then l else x :: finish started vmId l
  end.
(** The rest of [create_vm], once OpenNebula has answered. *)
Definition create_end (t : Z) (cfg : Config) (started : Z) (d : Creation) (a : CreateAnswers) : M St unit :=
  modify (set_creating (finish started (c_vmId d)));;
  template ← _find_template (a_pool a) (c_osTemplate d);
  (match template with
   | None => creation_failed t (c_vmId d)
   | Some template =>
       keys ← collect_keys cfg d;
       r ← instantiate_or_retry template d keys a;
       match r with
       | inr _ => creation_failed t (c_vmId d)
       | inl one =>
           clear_base_flag template (a_cloned a);;
           update_vm_status t (c_vmId d) Vm.PENDING None (Some one) None;;
           _cache_vm_status t (c_vmId d) Vm.PENDING None;;
           _publish_status (status_message (c_vmId d) "PENDING" (Some one) None None None None);;
           start_polling (new_poller (c_vmId d) one (Some (c_username d)) (Some (c_diskGb d)))
       end
   end);;
  release (c_vmId d).

Definition handle_vm_create (t : Z) (data : Dto.Body) : M St unit :=
  match _validate_vm_create data with
  | Some _ => mret tt
  | None => create_begin t (parse_creation data)
  end.

(** ** Waiting for the address *)

Definition LCM_STATUS_MAP (lcm : Z) : option string :=
  match lcm with
  | 1 => Some "PROLOG" | 2 => Some "BOOT" | 3 => Some "RUNNING" | 5 => Some "MIGRATE" | 6 => Some "SAVE_STOP"
  | 8 => Some "PROLOG_MIGRATE" | 14 => Some "SHUTDOWN" | 17 => Some "BOOT_UNKNOWN" | 18 => Some "BOOT_POWEROFF"
  | 19 => Some "BOOT_SUSPENDED" | 20 => Some "BOOT_STOPPED" | _ => None
  end%string.
Definition poll_interval : Z := 8.
Definition poll_timeout : Z := 300.

Definition end_polling (t : Z) (p : Poller) (st : Vm.VmStatus) (ip error : option string) : M St unit :=
  update_vm_status t (p_vmId p) st ip (Some (p_oneId p))
    (match st with Vm.RUNNING => p_sshUsername p | _ => None end);;
  _cache_vm_status t (p_vmId p) st ip;;
  _publish_status (status_message (p_vmId p) (Vm.status_string st) (Some (p_oneId p)) ip None error None).

(** The disk is resized once the machine runs, and the machine rebooted; both
    may fail without consequence. *)
Definition resize (p : Poller) (resizable : bool) : M St unit :=
  match p_diskGb p with
  | Some gb => if 0 <? gb then
                 ask (DiskResize (p_oneId p) (gb * 1024));;
                 when resizable (ask (VmActionCall "reboot" (p_oneId p)))
               else mret tt
  | None => mret tt
  end.

(** The change of state to report on the way, and the state remembered. *)
Definition intermediate (p : Poller) (lcm : Z) : M St Z :=
  if negb (lcm =? p_lastLcm p) then
    match LCM_STATUS_MAP lcm with
    | Some name =>
        when (negb (bool_decide (name = "RUNNING"%string)))
          (_publish_status (status_message (p_vmId p) name (Some (p_oneId p)) None None None None));;
        mret lcm
    | None => mret (p_lastLcm p)
    end
  else mret (p_lastLcm p).

(** One round of the loop: whether the task is over, and else how it goes on.
    After the last round the time is up. *)
Definition poll_round (t : Z) (cfg : Config) (p : Poller) (info : option OneVm) (resizable : bool)
    : M St (option Poller) :=
  let next last :=
    let elapsed := p_elapsed p + poll_interval in
    let p' := {| p_vmId := p_vmId p; p_oneId := p_oneId p; p_sshUsername := p_sshUsername p;
                 p_diskGb := p_diskGb p; p_elapsed := elapsed; p_lastLcm := last |} in
    if elapsed <? poll_timeout then mret (Some p')
    else end_polling t p Vm.ERROR None (Some "Timed out waiting for IP address"%string);; mret None in
  match info with
  | None => next (p_lastLcm p)
  | Some vm =>
      if (o_STATE vm =? 6) || (o_STATE vm =? 7) then
        end_polling t p Vm.ERROR None (Some ("VM failure state=" +:+ pretty (o_STATE vm)));; mret None
      else
        last ← intermediate p (o_LCM_STATE vm);
        match (if (o_STATE vm =? 3) && (o_LCM_STATE vm =? 3) then _extract_ip vm ≫= nonempty else None) with
        | Some original =>
            let ip := _apply_ip_offset original (cf_ipOffset cfg) in
            resize p resizable;; end_polling t p Vm.RUNNING (Some ip) None;; mret None
        | None => next last
        end
  end.
(** The [i]-th background task runs a round. *)
Definition poll (t : Z) (cfg : Config) (i : nat) (info : option OneVm) (resizable : bool) : M St unit :=
  ps ← gets pollers;
  match ps !! i with
  | None => mret tt
  | Some p =>
      r ← poll_round t cfg p info resizable;
      modify (set_pollers (λ ps, match r with
                                 | Some p' => <[i := p']> ps
                                 | None => delete i ps
                                 end))
  end.

(** ** Actions *)

Inductive ActionAnswer := Done | Unreachable | Refused (message : string).
Definition action_map (action : string) : option (string * Vm.VmStatus) :=
  if bool_decide (action = "start") then Some ("resume", Vm.RUNNING)
  else if bool_decide (action = "stop") then Some ("poweroff", Vm.STOPPED)
  else if bool_decide (action = "restart") then Some ("reboot", Vm.RUNNING)
  else if bool_decide (action = "delete") then Some ("terminate", Vm.DELETED)
  else None%string.
Definition set_status (t : Z) (vmId : string) (one : Z) (st : Vm.VmStatus) (error action : option string) : M St unit :=
  update_vm_status t vmId st None None None;;
  _cache_vm_status t vmId st None;;
  _publish_status (status_message vmId (Vm.status_string st) (Some one) None None error action).
(** The state OpenNebula is in when it says that an action does not apply. *)
Definition corrected (info : option OneVm) : Vm.VmStatus :=
  match info with
  | Some vm => if (o_STATE vm =? 3) && (o_LCM_STATE vm =? 3) then Vm.RUNNING
               else if (o_STATE vm =? 4) || (o_STATE vm =? 8) then Vm.STOPPED else Vm.ERROR
  | None => Vm.ERROR
  end.
Definition vm_action (t : Z) (vmId : string) (one : Z) (action : string) (answer : ActionAnswer)
    (info : option OneVm) : M St unit :=
  match action_map action with
  | None => mret tt
  | Some (one_action, target) =>
      ask (VmActionCall one_action one);;
      match answer with
      | Done =>
          update_vm_status t vmId target None None None;;
          _cache_vm_status t vmId target None;;
          when (bool_decide (target = Vm.DELETED)) (_delete_vm_cache vmId);;
          _publish_status (status_message vmId (Vm.status_string target) (Some one) None None None (Some action))
      | Unreachable => throw (JsError "OpenNebula unreachable")
      | Refused message =>
          if includes "not available for state" message then set_status t vmId one (corrected info) None None
          else set_status t vmId one Vm.ERROR (Some "VM action failed. Please retry."%string) None
      end
  end.
(** [handle_vm_action] acknowledges whatever happens. *)
Definition handle_vm_action (t : Z) (data : Dto.Body) (answer : ActionAnswer) (info : option OneVm) : M St unit :=
  match _validate_vm_action data with
  | Some _ => mret tt
  | None => try_catch (vm_action t (default "" (get_str data "vmId")) (default 0 (get data "oneVmId" ≫= as_int))
                         (default "" (get_str data "action")) answer info) (λ _, mret tt)
  end.

(** ** Deletion *)

Inductive ImageAnswer := ImageState (state : Z) | ImageMissing | ImageFailure.
Record DeleteAnswers := {
  da_ids : option Z * option Z;        (* the template and the image of the machine *)
  da_terminated : bool;
  da_image : list ImageAnswer;         (* the answers while waiting, one every two seconds *)
  da_imageDeleted : bool;
}.
(** The wait of at most 30 rounds: [Some true] when the image is already gone,
    [Some false] when it is ready to be deleted. *)
Fixpoint wait_image (rounds : nat) (l : list ImageAnswer) : option bool :=
  match rounds, l with
  | S n, ImageState 1 :: _ => Some false
  | S n, ImageMissing :: _ => Some true
  | S n, _ :: l => wait_image n l
  | _, _ => None
  end.
Definition delete_image (image : Z) (template : option Z) (a : DeleteAnswers) : M St unit :=
  gone ← (match wait_image 30 (da_image a) with
          | Some true => mret true
          | Some false => ask (ImageDelete image);; mret (da_imageDeleted a)
          | None => mret false
          end);
  match template with
  | Some i => when (gone && negb (i =? 0)) (ask (TemplateDelete i))
  | None => mret tt
  end.
Definition removed (t : Z) (vmId : string) (one : option Z) (userId : string) : M St unit :=
  delete_vm_record t vmId;; _delete_vm_cache vmId;;
  _publish_status (status_message vmId "DELETED" one None (Some userId) None None).
Definition delete_vm (t : Z) (vmId : string) (one : option Z) (userId : string) (a : DeleteAnswers) : M St unit :=
  match one with
  | None => removed t vmId None userId
  | Some i =>
      ask (VmActionCall "terminate" i);;
      if negb (da_terminated a)
      then set_status t vmId i Vm.ERROR (Some "VM deletion failed. Please retry."%string) None
      else
        (match (da_ids a).2 with
         | Some image => if image =? 0 then mret tt else delete_image image (da_ids a).1 a
         | None => mret tt
         end);;
        removed t vmId (Some i) userId
  end.
Definition handle_vm_delete (t : Z) (data : Dto.Body) (a : DeleteAnswers) : M St unit :=
  match _validate_vm_delete data with
  | Some _ => mret tt
  | None => delete_vm t (default "" (get_str data "vmId")) (get data "oneVmId" ≫= as_int)
              (default "" (get_str data "userId")) a
  end.

(** ** Reconciliation and the periodic comparison *)

Definition reconcile_pending_vms : M St unit :=
  vms ← get_vms_pending_sync;
  modify (set_pollers (λ ps, ps ++ ((λ vo, new_poller vo.1 vo.2 None None) <$> vms))).
Definition sync_start : M St unit :=
  known ← gets templates;
  match known with
  | None => mret tt
  | Some _ => vms ← get_all_active_vms; modify (set_syncing vms)
  end.
Definition real_status (info : option OneVm) : option Vm.VmStatus :=
  info ≫= λ vm,
    if (o_STATE vm =? 3) && (o_LCM_STATE vm =? 3) then Some Vm.RUNNING
    else if (o_STATE vm =? 4) || (o_STATE vm =? 8) then Some Vm.STOPPED
    else if o_STATE vm =? 6 then Some Vm.DELETED else None.
Definition sync_vm (t : Z) (info : option OneVm) : M St unit :=
  l ← gets syncing;
  match l with
  | [] => mret tt
  | (vmId, _, db_status) :: l =>
      modify (set_syncing l);;
      match real_status info with
      | Some st =>
          when (negb (bool_decide (st = db_status)))
            (update_vm_status t vmId st None None None;;
             _publish_status (status_message vmId (Vm.status_string st) None None None None None))
      | None => mret tt
      end
  end.

(** A round of [_opennebula_reconnect_loop]. *)
Definition reconnect (pool : option (list Template)) : M St unit :=
  known ← gets templates;
  match known with
  | Some _ => mret tt
  | None =>
      load_templates pool;;
      loaded ← gets templates;
      match loaded with Some _ => reconcile_pending_vms | None => mret tt end
  end.
(** A new process: the tasks and the templates of the old one are gone, and its
    creations with their locks stay behind. *)
Definition restart (pool : option (list Template)) : M St unit :=
  modify (set_pollers (λ _, []));; modify (set_syncing []);; modify (set_creating (λ _, []));;
  load_templates pool;; reconcile_pending_vms.

(** ** Everything that happens to a worker, in any order *)

Inductive Event :=
| CreateMessage (data : Dto.Body)
| CreateAnswered (started : Z) (d : Creation) (a : CreateAnswers)
| ActionMessage (data : Dto.Body) (answer : ActionAnswer) (info : option OneVm)
| DeleteMessage (data : Dto.Body) (a : DeleteAnswers)
| PollRound (i : nat) (info : option OneVm) (resizable : bool)
| SyncStart | SyncVm (info : option OneVm)
| Reconnect (pool : option (list Template))
| Restart (pool : option (list Template)).
Definition step (cfg : Config) (te : Z * Event) : M St unit :=
  let '(t, e) := te in
  match e with
  | CreateMessage data => handle_vm_create t data
  | CreateAnswered started d a => create_end t cfg started d a
  | ActionMessage data answer info => handle_vm_action t data answer info
  | DeleteMessage data a => handle_vm_delete t data a
  | PollRound i info resizable => poll t cfg i info resizable
  | SyncStart => sync_start
  | SyncVm info => sync_vm t info
  | Reconnect pool => reconnect pool
  | Restart pool => restart pool
  end.
End worker.
End Worker.
