(* ===== verification/WorkerProps.v ===== *)
(** * WorkerProps: the worker, and the worker with the VM service

    What the VM service queues is what the worker accepts; the text that is put
    into a template cannot break out of it; and the two processes that write a
    machine's row agree.  [WorkerLock] and [WorkerPoll] have the rest. *)

From Stdlib Require Import ZArith Lia Ascii String QArith Qround.
From stdpp Require Import base list gmap strings pretty.
From S2P Require Import Prelude Text Js Regex Store Crypto VmKeyCrypto Dto RequestSecurity Sockets SshKey.
From S2P Require Import Vm VmEvents Gateway Startup AuthHttp Routes RoutesProps WorkerText Worker.
Import Regex VmKeyCrypto RequestSecurity Startup WorkerText Worker.
#[local] Open Scope Z_scope.
#[local] Existing Instance Vm.VmStatus_eq_dec.

(** ** Messages *)

Module MessageProps.

Lemma drop_while_clean p l : Forall (λ c, p c = false) l → drop_while p l = l.
Proof. destruct 1 as [|c l Hc]; [done|]. simpl. by rewrite Hc. Qed.
Lemma strip_clean l : Forall (λ c, py_ws c = false) l → strip_chars l = l.
Proof.
  intros Hl. unfold strip_chars. rewrite (drop_while_clean _ l) by done.
  rewrite drop_while_clean by by apply Forall_rev. apply rev_involutive.
Qed.
Lemma name_char_clean c : is_alnum c || is_dash c = true → py_ws c = false.
Proof.
  unfold is_dash. case_bool_decide as E; [by subst c|]. rewrite orb_false_r.
  unfold is_alnum, is_digit, is_upper, is_lower, py_ws. lia.
Qed.
Lemma name_filled name : name_fullmatch name = true → strip name = name ∧ truthy name = true.
Proof.
  unfold name_fullmatch. intros [[Hlo _]%andb_prop Hc]%andb_prop. split.
  - unfold strip. rewrite strip_clean; [apply str_chars|]. apply List.Forall_forall.
    intros c Hin. apply name_char_clean. by eapply List.forallb_forall in Hc.
  - apply truthy_true. by intros ->.
Qed.

(** Whether the worker accepts a message, and what it takes for one the VM
    service sends. *)
Definition accepted (m : Vm.NatsMessage) : bool :=
  bool_decide (match m with
               | Vm.VmCreate _ _ _ _ _ _ _ _ _ _ => _validate_vm_create (message_json m)
               | Vm.VmAction _ _ _ _ => _validate_vm_action (message_json m)
               | Vm.VmDelete _ _ _ => _validate_vm_delete (message_json m)
               end = None).
Definition actable (m : Vm.NatsMessage) : Prop :=
  match m with
  | Vm.VmCreate _ _ _ _ _ osTemplate _ _ _ _ => truthy (strip osTemplate) = true
  | Vm.VmAction _ oneVmId _ _ => is_Some oneVmId
  | Vm.VmDelete _ _ _ => True
  end.

Lemma int_accepted i : as_int (Dto.JNum (inject_Z i)) = Some i.
Proof.
  unfold as_int, Dto.is_integer. rewrite Qfloor_Z.
  assert (Qeq_bool (inject_Z i) (inject_Z i) = true) as -> by by apply Qeq_bool_iff. done.
Qed.

Lemma none_missing required data : Forall (λ k, is_Some (data !! k)) required → first_missing required data = None.
Proof.
  intros Hp. unfold first_missing. replace (list_find _ _) with (@None (nat * string)); [done|]. symmetry.
  apply list_find_None. eapply Forall_impl; [exact Hp|]. intros k Hk. unfold has. by rewrite bool_decide_eq_true_2.
Qed.

(** The fields of a creation's message. *)
Definition creation_fields (b : Dto.Body) vmId name cpu ram disk os uid key : Prop :=
  b !! "vmId" = Some (Dto.JStr vmId) ∧ b !! "name" = Some (Dto.JStr name) ∧
  b !! "cpu" = Some (Dto.JNum (inject_Z cpu)) ∧ b !! "ramMb" = Some (Dto.JNum (inject_Z ram)) ∧
  b !! "diskGb" = Some (Dto.JNum (inject_Z disk)) ∧ b !! "osTemplate" = Some (Dto.JStr os) ∧
  b !! "userId" = Some (Dto.JStr uid) ∧ b !! "sshPublicKey" = Some (Dto.JStr key).
Lemma creation_message vmId name cpu ram disk os uid user pw key :
  creation_fields (message_json (Vm.VmCreate vmId name cpu ram disk os uid user pw key)) vmId name cpu ram disk os uid key.
Proof.
  unfold creation_fields, message_json. destruct pw; split_and!;
    repeat (rewrite lookup_insert_ne by discriminate); apply lookup_insert_eq.
Qed.

Lemma create_accepted vmId name cpu ram disk os uid user pw key :
  uuid_match vmId = true → uuid_match uid = true → name_fullmatch name = true →
  0 < cpu → 0 < ram → 0 < disk →
  accepted (Vm.VmCreate vmId name cpu ram disk os uid user pw key) = true ↔ truthy (strip os) = true.
Proof.
  intros Hv Hu Hn Hc Hr Hd. destruct (name_filled _ Hn) as [Hs Ht].
  unfold accepted. rewrite bool_decide_eq_true.
  destruct (creation_message vmId name cpu ram disk os uid user pw key) as (H1 & H2 & H3 & H4 & H5 & H6 & H7 & _).
  unfold _validate_vm_create. rewrite none_missing by (repeat constructor; eauto).
  unfold filled, is_positive, get, get_str. rewrite H1, H2, H3, H4, H5, H6, H7.
  cbn [_is_uuid mbind option_bind default from_option id].
  rewrite !int_accepted, Hv, Hu, Hs, Ht, Hn. cbn [first_reason].
  replace (0 <? cpu) with true by lia. replace (0 <? ram) with true by lia. replace (0 <? disk) with true by lia.
  by destruct (truthy (strip os)).
Qed.
Lemma action_accepted vmId one action uid :
  uuid_match vmId = true → uuid_match uid = true → action ∈ actions →
  accepted (Vm.VmAction vmId one action uid) = true ↔ is_Some one.
Proof.
  intros Hv Hu Ha. unfold accepted. rewrite bool_decide_eq_true. unfold _validate_vm_action.
  rewrite none_missing by (unfold message_json; repeat constructor; by simplify_map_eq).
  unfold message_json, get, get_str, opt_int. simplify_map_eq. cbn [_is_uuid]. rewrite Hv, Hu.
  rewrite (bool_decide_eq_true_2 (action ∈ actions)) by done. destruct one as [i|];
    cbn [_is_uuid mbind option_bind first_reason].
  - rewrite int_accepted. by split; [eauto|].
  - split; [done|]. by intros [].
Qed.
Lemma delete_accepted vmId one uid :
  uuid_match vmId = true → uuid_match uid = true → accepted (Vm.VmDelete vmId one uid) = true.
Proof.
  intros Hv Hu. unfold accepted. rewrite bool_decide_eq_true. unfold _validate_vm_delete.
  unfold message_json, get, has, opt_int. simplify_map_eq.
  cbn [_is_uuid]. rewrite Hv, Hu. destruct one as [i|]; [rewrite int_accepted|]; done.
Qed.

(** The worker reads from the message of a creation what was put into it. *)
Lemma creation_read vmId name cpu ram disk os uid user pw key :
  let d := parse_creation (message_json (Vm.VmCreate vmId name cpu ram disk os uid user pw key)) in
  c_vmId d = vmId ∧ c_name d = name ∧ c_cpu d = cpu ∧ c_ramMb d = ram ∧ c_diskGb d = disk ∧
  c_osTemplate d = os ∧ c_userId d = uid ∧ c_sshPublicKey d = Some key.
Proof.
  cbn zeta.
  destruct (creation_message vmId name cpu ram disk os uid user pw key) as (H1 & H2 & H3 & H4 & H5 & H6 & H7 & H8).
  unfold parse_creation, get, get_str. rewrite H1, H2, H3, H4, H5, H6, H7, H8.
  cbn [mbind option_bind c_vmId c_name c_cpu c_ramMb c_diskGb c_osTemplate c_userId c_sshPublicKey].
  by rewrite !int_accepted.
Qed.

Lemma transition_action action allowed : Vm.validTransitions action = Some allowed → action ∈ actions.
Proof.
  unfold Vm.validTransitions, actions. intros Ht. repeat case_bool_decide; try done; subst; set_solver.
Qed.

Section queue.
Context {T : Type → Type} `{DatabaseLaws T} `{Aead} `{Base64} `{Hashing} `{Jwt} `{UriCodec} `{BearerExtractor}
  `{Dto.StringValidators} `{Routes.UuidPipe}.

Lemma valid_name b : Dto.validate Dto.CreateVmDto b = true → name_fullmatch (default "" (Dto.str_at b "name")) = true.
Proof.
  intros Hv. destruct (Dto.str_present _ _ "name"%string _ _ Hv ltac:(left) eq_refl eq_refl) as (x & _ & -> & Hc).
  cbn [default from_option id]. unfold name_fullmatch.
  assert (Hmin : Dto.check (Dto.MinLength 1) (Dto.JStr x) = true) by (apply Hc; set_solver).
  assert (Hmax : Dto.check (Dto.MaxLength 64) (Dto.JStr x) = true) by (apply Hc; set_solver).
  assert (Hre : Dto.check (Dto.Matches Dto.name_regex) (Dto.JStr x) = true) by (apply Hc; set_solver).
  cbn [Dto.check] in Hmin, Hmax, Hre. apply plus_class_spec in Hre as [_ Hre].
  rewrite Hmin, Hmax. apply List.forallb_forall. intros c Hin.
  rewrite List.Forall_forall in Hre. by apply Hre.
Qed.

(** The creation the worker reads is the machine stored under [id]. *)
Definition describes (d : Creation) (id : string) (v : Vm.VirtualMachine) : Prop :=
  c_vmId d = id ∧ c_name d = Vm.vm_name v ∧ c_cpu d = Vm.vm_cpu v ∧ c_ramMb d = Vm.vm_ramMb v ∧
  c_diskGb d = Vm.vm_diskGb v ∧ c_osTemplate d = Vm.vm_osTemplate v ∧ c_userId d = Vm.vm_userId v.

Lemma create_queues c b uid role (s s' : Vm.VmState T) r :
  Dto.validate Dto.CreateVmDto b = true → Vm.natsConnected c = true →
  uuid_match uid = true → uuid_match (Vm.newVmId c) = true →
  Vm.createVm c (Routes.create_vm_dto b) uid role s = (s', Ret r) →
  ∃ m, Vm.published s' = Vm.published s ++ [m] ∧ (accepted m = true ↔ actable m) ∧
    ∃ v, rows (Vm.vms s') !! Vm.newVmId c = Some v ∧ describes (parse_creation (message_json m)) (Vm.newVmId c) v.
Proof.
  intros Hv Hnats Hu Hn Hc.
  apply Vm.createVm_inv in Hc as (rq & pub & gen & enc & msgs & _ & _ & _ & _ & _ & Hvms & _ & _ & Hp & ->).
  rewrite Hnats in Hp. eexists. split; [exact Hp|]. split.
  - apply create_accepted; try done; [by apply valid_name|..].
    + pose proof (RoutesProps.int_bounds b "cpu" 1 32 Hv ltac:(set_solver)). cbn. lia.
    + pose proof (RoutesProps.int_bounds b "ramMb" 512 65536 Hv ltac:(set_solver)). cbn. lia.
    + pose proof (RoutesProps.int_bounds b "diskGb" 5 400 Hv ltac:(set_solver)). cbn. lia.
  - eexists. rewrite Hvms, rows_put, lookup_insert_eq. split; [done|].
    edestruct creation_read as (E1 & E2 & E3 & E4 & E5 & E6 & E7 & _). by split_and!.
Qed.

(** C12: what the VM service queues is what the worker acts on.  A request that
    was answered with success while the broker is connected either queues
    nothing or exactly one message, and the worker accepts it if and only if
    it is actable: a creation whose template name is not blank, an action on a
    machine that OpenNebula knows, any deletion; and of a creation it reads
    exactly the machine that the service stored. *)
Theorem queued_messages_accepted c b route u (s s' : Vm.VmState T) r :
  Routes.vm_operation c b route u s = (s', Ret r) → Vm.natsConnected c = true →
  uuid_match (Routes.user_id u) = true → uuid_match (Vm.newVmId c) = true →
  (∀ k, is_Some (rows (Vm.vms s) !! k) → uuid_match k = true) →
  Vm.published s' = Vm.published s ∨
  ∃ m, Vm.published s' = Vm.published s ++ [m] ∧ (accepted m = true ↔ actable m) ∧
    (route = Routes.PostVm → ∃ v, rows (Vm.vms s') !! Vm.newVmId c = Some v ∧
       describes (parse_creation (message_json m)) (Vm.newVmId c) v).
Proof.
  intros Ho Hnats Hu Hn Hk. destruct route; cbn [Routes.vm_operation] in Ho;
    m_inv Ho; unfold mret, M_ret in Ho; injection Ho as <- <-.
  - apply throw_if_inv in Hm as [Hv%negb_false_iff ->].
    right. destruct (create_queues _ _ _ _ _ _ _ Hv Hnats Hu Hn Hm0) as (m & Hp & Ha & Hd). by exists m.
  - left. by injection Hm as <-.
  - left. by injection Hm as <-.
  - left. destruct (RoutesProps.page_pure page None s) as [o Ep]. rewrite Ep in Hm. injection Hm as <- _.
    destruct (RoutesProps.page_pure limit None s) as [o' Ep']. rewrite Ep' in Hm0. injection Hm0 as <- _.
    edestruct RoutesProps.list_pure as [o2 El]. rewrite El in Hm1. by injection Hm1 as <- _.
  - left. apply throw_if_inv in Hm as [_ ->]. edestruct Vm.getVm_pure as [o Eg]. rewrite Eg in Hm0.
    by injection Hm0 as <- _.
  - left. apply throw_if_inv in Hm as [_ ->]. edestruct RoutesProps.key_pure as [o Eg]. rewrite Eg in Hm0.
    by injection Hm0 as <- _.
  - apply throw_if_inv in Hm as [_ ->]. apply throw_if_inv in Hm0 as [_ ->].
    apply Vm.vm_access_control in Hm1 as (v & allowed & Hv & _ & Ht & _ & _ & Hp). rewrite Hnats in Hp.
    right. eexists. split; [exact Hp|]. split; [|done]. apply action_accepted; [by eauto|done|].
    by eapply transition_action.
  - apply throw_if_inv in Hm as [_ ->].
    apply Vm.vm_access_control in Hm0 as (v & Hv & _ & _ & Hp). rewrite Hnats in Hp.
    right. eexists. split; [exact Hp|]. split; [|done]. split; [done|intros _; apply delete_accepted; eauto].
Qed.
End queue.
End MessageProps.

(** ** The template text *)

Module TemplateProps.

(** How a template's text is read: attributes [NAME=value], one per line, where
    a value in double quotes ends at the first quote that no backslash
    precedes. *)
Fixpoint unquote (l : list ascii) : option (list ascii * list ascii) :=
  match l with
  | [] => None
  | c :: l =>
      if bool_decide (c = quote) then Some ([], l)
      else if bool_decide (c = backslash)
      then match l with d :: l => prod_map (cons d) id <$> unquote l | [] => None end
      else prod_map (cons c) id <$> unquote l
  end.
Fixpoint until (stop : ascii) (l : list ascii) : option (list ascii * list ascii) :=
  match l with
  | [] => None
  | c :: l => if bool_decide (c = stop) then Some ([], l) else prod_map (cons c) id <$> until stop l
  end.
Definition read_value (l : list ascii) : option (list ascii * list ascii) :=
  match l with
  | c :: r =>
      if bool_decide (c = quote)
      then '(v, r) ← unquote r;
           match r with
           | n :: r => if bool_decide (n = newline) then Some (v, r) else None
           | [] => None
           end
      else until newline l
  | [] => None
  end.
(** Each attribute takes text away, so the length of the text is fuel enough. *)
Fixpoint read_attributes (fuel : nat) (l : list ascii) : option (list (string * string)) :=
  match l, fuel with
  | [], _ => Some []
  | _, O => None
  | _, S fuel =>
      '(name, r) ← until "=" l; '(value, r) ← read_value r;
      cons (str name, str value) <$> read_attributes fuel r
  end.
Definition read_template (text : string) : option (list (string * string)) :=
  read_attributes (String.length text) (chars text).

Lemma replace_with_cons c r x l :
  replace_with c r (x :: l) = (if bool_decide (x = c) then r else [x]) ++ replace_with c r l.
Proof. done. Qed.
Lemma replace_with_app c r l1 l2 : replace_with c r (l1 ++ l2) = replace_with c r l1 ++ replace_with c r l2.
Proof. apply bind_app. Qed.
Lemma escape_cons c l :
  escape_chars (c :: l) =
    (if bool_decide (c = quote) then [backslash; quote]
     else if bool_decide (c = backslash) then [backslash; backslash] else [c]) ++ escape_chars l.
Proof.
  unfold escape_chars. rewrite replace_with_cons, replace_with_app. f_equal.
  destruct (bool_decide_reflect (c = backslash)) as [->|Hb]; [done|].
  destruct (bool_decide_reflect (c = quote)) as [->|Hq]; [done|].
  cbn. by rewrite bool_decide_eq_false_2.
Qed.
Lemma unquote_escape v rest : unquote (escape_chars v ++ quote :: rest) = Some (v, rest).
Proof.
  induction v as [|c v IH]; [done|]. rewrite escape_cons.
  destruct (bool_decide_reflect (c = quote)) as [->|Hq]; [cbn; by rewrite IH|].
  destruct (bool_decide_reflect (c = backslash)) as [->|Hb]; [cbn; by rewrite IH|].
  cbn. rewrite !bool_decide_eq_false_2 by done. by rewrite IH.
Qed.
Lemma until_app stop l rest : stop ∉ l → until stop (l ++ stop :: rest) = Some (l, rest).
Proof.
  induction l as [|c l IH]; cbn; [by rewrite bool_decide_eq_true_2|].
  intros [Hc Hl]%not_elem_of_cons. rewrite bool_decide_eq_false_2 by done. by rewrite IH.
Qed.

Lemma read_attribute n name value r rest v :
  "="%char ∉ chars name → read_value (value ++ rest) = Some (v, r) →
  read_attributes (S n) (chars name ++ "="%char :: value ++ rest) = cons (name, str v) <$> read_attributes n r.
Proof.
  intros Hn Hv. transitivity ('(nm, r) ← until "=" (chars name ++ "="%char :: value ++ rest);
    '(v, r) ← read_value r; cons (str nm, str v) <$> read_attributes n r).
  { by destruct (chars name). }
  rewrite until_app by done. cbn. rewrite Hv. cbn. by rewrite str_chars.
Qed.
Lemma read_quoted n name v rest :
  "="%char ∉ chars name →
  read_attributes (S n) (chars (name +:+ "=" +:+ quoted v) ++ rest) = cons (name, v) <$> read_attributes n rest.
Proof.
  intros Hn. unfold quoted, _escape_one_template_value.
  assert (E : chars (name +:+ "=" +:+ String quote (str (escape_chars (chars v))) +:+ String quote nl) ++ rest =
    chars name ++ "="%char :: (quote :: escape_chars (chars v) ++ [quote; newline]) ++ rest).
  { rewrite !chars_app. cbn. rewrite chars_str, <-!app_assoc. cbn. by rewrite <-app_assoc. }
  rewrite E, read_attribute with (v := chars v) (r := rest); [by rewrite str_chars|done|].
  cbn. rewrite <-app_assoc. cbn. by rewrite unquote_escape.
Qed.
Lemma read_plain n name v rest :
  "="%char ∉ chars name → newline ∉ chars v → quote ∉ chars v → v ≠ ""%string →
  read_attributes (S n) (chars (name +:+ "=" +:+ v +:+ nl) ++ rest) = cons (name, v) <$> read_attributes n rest.
Proof.
  intros Hn Hnl Hq Hne.
  assert (E : chars (name +:+ "=" +:+ v +:+ nl) ++ rest = chars name ++ "="%char :: (chars v ++ [newline]) ++ rest).
  { rewrite !chars_app. cbn. rewrite <-!app_assoc. cbn. by rewrite <-app_assoc. }
  rewrite E, read_attribute with (v := chars v) (r := rest); [by rewrite str_chars|done|].
  rewrite <-app_assoc. cbn [app]. unfold read_value. destruct (chars v) as [|c l] eqn:Ev.
  { destruct Hne. by rewrite <-(str_chars v), Ev. }
  cbn [app]. rewrite bool_decide_eq_false_2 by set_solver. by apply (until_app newline (c :: l)).
Qed.

(** A printed number is digits, and a dash if it is negative. *)
Lemma pretty_N_chars x s :
  Forall (λ c, is_digit c = true) (chars s) → Forall (λ c, is_digit c = true) (chars (pretty_N_go x s)).
Proof.
  revert s. induction (N.lt_wf_0 x) as [x _ IH]. intros s Hs.
  destruct (decide (x = 0)%N) as [->|Hx]; [by rewrite pretty_N_go_0|].
  rewrite pretty_N_go_step by lia. apply IH; [by apply N.div_lt; lia|]. constructor; [|done].
  pose proof (N.mod_lt x 10 ltac:(lia)) as Hm. unfold pretty_N_char. by repeat case_match.
Qed.
Lemma pretty_chars (z : Z) : Forall (λ c, is_digit c || is_dash c = true) (chars (pretty z)) ∧ pretty z ≠ ""%string.
Proof.
  assert (Hp : ∀ p : positive, Forall (λ c, is_digit c || is_dash c = true) (chars (pretty p)) ∧ pretty p ≠ ""%string).
  { intros p. unfold pretty, pretty_positive, pretty, pretty_N. rewrite decide_False by done. split.
    - eapply Forall_impl; [by apply pretty_N_chars|]. by intros c ->.
    - assert (Hne : ∀ x s, s ≠ ""%string → pretty_N_go x s ≠ ""%string).
      { intros x. induction (N.lt_wf_0 x) as [x _ IH]. intros s Hs.
        destruct (decide (x = 0)%N) as [->|Hx]; [by rewrite pretty_N_go_0|].
        rewrite pretty_N_go_step by lia. apply IH; [by apply N.div_lt; lia|done]. }
      rewrite pretty_N_go_step by lia. by apply Hne. }
  destruct z as [|p|p]; [split; [by repeat constructor|done]|apply Hp|].
  split; [|done]. constructor; [done|apply Hp].
Qed.
Lemma read_number n name (z : Z) rest :
  "="%char ∉ chars name →
  read_attributes (S n) (chars (name +:+ "=" +:+ pretty z +:+ nl) ++ rest) =
    cons (name, pretty z) <$> read_attributes n rest.
Proof.
  intros Hn. destruct (pretty_chars z) as [Hc Hne]. rewrite Forall_forall in Hc.
  apply read_plain; [done| | |done]; by intros Hin%Hc.
Qed.

(** A text of attributes, numbers plain and texts quoted. *)
Definition attribute (a : string * (Z + string)) : string :=
  match a with
  | (name, inl z) => name +:+ "=" +:+ pretty z +:+ nl
  | (name, inr v) => name +:+ "=" +:+ quoted v
  end.
Definition shown (a : string * (Z + string)) : string * string :=
  match a with (name, inl z) => (name, pretty z) | (name, inr v) => (name, v) end.
Fixpoint text_of (l : list (string * (Z + string))) : string :=
  match l with [] => "" | a :: l => attribute a +:+ text_of l end.
Lemma attribute_nonempty a : (0 < length (chars (attribute a)))%nat.
Proof. destruct a as [name [z|v]]; unfold attribute; rewrite !chars_app, !length_app; cbn; lia. Qed.
Lemma read_text_of l n :
  Forall (λ a : string * (Z + string), "="%char ∉ chars a.1) l → (length l ≤ n)%nat →
  read_attributes n (chars (text_of l)) = Some (shown <$> l).
Proof.
  intros Hl. revert n. induction Hl as [|a l Ha _ IH]; intros n Hn; [by destruct n|].
  destruct n as [|n]; [cbn in Hn; lia|]. cbn in Hn. cbn [text_of]. rewrite chars_app.
  destruct a as [name [z|v]]; unfold attribute; [rewrite read_number|rewrite read_quoted]; try done;
    rewrite IH by lia; done.
Qed.
Lemma append_nil (a : string) : a +:+ "" = a.
Proof. induction a as [|c a IH]; [done|]. change (String c (a +:+ "") = String c a). by rewrite IH. Qed.
Lemma text_of_app l1 l2 : text_of (l1 ++ l2) = text_of l1 +:+ text_of l2.
Proof. induction l1 as [|a l1 IH]; [done|]. cbn. by rewrite IH, append_assoc_s. Qed.
Lemma text_of_length l : (length l ≤ String.length (text_of l))%nat.
Proof.
  rewrite <-length_chars. induction l as [|a l IH]; cbn; [lia|]. rewrite chars_app, length_app. pose proof (attribute_nonempty a). lia.
Qed.

End TemplateProps.

(** ** Two writers of one row *)

Module WriterProps.
Section writers.
Context {T : Type → Type} `{DatabaseLaws T} {RS : Type} `{RedisLaws RS unit}.
Abbreviation St := (WorkerState T RS).

(** What nats.service.ts reads of a report. *)
Definition to_update (d : VmEvents.VmStatusPayload) : Vm.StatusUpdate :=
  {| Vm.su_vmId := VmEvents.st_vmId d; Vm.su_status := VmEvents.st_status d;
     Vm.su_ipAddress := VmEvents.st_ipAddress d; Vm.su_oneVmId := VmEvents.st_oneVmId d;
     Vm.su_sshHost := VmEvents.st_sshHost d; Vm.su_sshPort := VmEvents.st_sshPort d |}.
Definition passing (d : VmEvents.VmStatusPayload) : Prop := Vm.parse_status (VmEvents.st_status d) = None.

(** Nothing is written, and only states on the way are reported. *)
Definition neutral (s s' : St) : Prop :=
  machines s' = machines s ∧ ∃ l, reports s' = reports s ++ l ∧ Forall passing l.
#[local] Instance neutral_refl : Reflexive neutral.
Proof. intros s. split; [done|]. exists []. by rewrite app_nil_r. Qed.
#[local] Instance neutral_trans : Transitive neutral.
Proof.
  intros s1 s2 s3 [E1 (l1 & R1 & F1)] [E2 (l2 & R2 & F2)]. split; [congruence|].
  exists (l1 ++ l2). rewrite R2, R1, app_assoc. split; [done|]. by apply Forall_app.
Qed.

(** The same machine apart from its stop instant and its OpenNebula number. *)
Definition same_machine (a b : Vm.VirtualMachine) : Prop :=
  Vm.vm_name a = Vm.vm_name b ∧ Vm.vm_status a = Vm.vm_status b ∧ Vm.vm_ipAddress a = Vm.vm_ipAddress b ∧
  Vm.vm_sshHost a = Vm.vm_sshHost b ∧ Vm.vm_sshPort a = Vm.vm_sshPort b ∧
  Vm.vm_sshUsername a = Vm.vm_sshUsername b ∧ Vm.vm_userId a = Vm.vm_userId b.
(** A write of the worker and the report that goes with it: the service, which
    applies the report to the written row, finds nothing to change and leaves
    a row whose stop instant fits its status. *)
Definition paired (d : VmEvents.VmStatusPayload) (w : Vm.VirtualMachine → Vm.VirtualMachine) : Prop :=
  ∀ t v, Vm.life_ok v → same_machine (Vm.updated t (to_update d) (w v)) (w v) ∧
                        Vm.life_ok (Vm.updated t (to_update d) (w v)).

Definition rewritten (id : string) (w : Vm.VirtualMachine → Vm.VirtualMachine) (s s' : St) : Prop :=
  ∀ k, rows (machines s') !! k = (λ v, if bool_decide (k = id) then w v else v) <$> rows (machines s) !! k.
Inductive effect (s s' : St) : Prop :=
| eff_none : neutral s s' → effect s s'
| eff_one d w l1 l2 :
    rewritten (VmEvents.st_vmId d) w s s' → reports s' = reports s ++ l1 ++ [d] ++ l2 →
    Forall passing l1 → Forall passing l2 → paired d w → effect s s'.

Lemma effect_pre s1 s2 s3 : neutral s1 s2 → effect s2 s3 → effect s1 s3.
Proof.
  intros Hn [Hn'|d w l1 l2 Hw Hr F1 F2 Hp]; [left; by etransitivity|].
  destruct Hn as [E (l & R & F)]. apply (eff_one _ _ d w (l ++ l1) l2); [|rewrite Hr, R, <-!app_assoc| |done|done].
  - intros k. by rewrite Hw, E.
  - done.
  - by apply Forall_app.
Qed.
Lemma effect_post s1 s2 s3 : effect s1 s2 → neutral s2 s3 → effect s1 s3.
Proof.
  intros [Hn'|d w l1 l2 Hw Hr F1 F2 Hp] Hn; [left; by etransitivity|].
  destruct Hn as [E (l & R & F)]. apply (eff_one _ _ d w l1 (l2 ++ l)); [|rewrite R, Hr, <-!app_assoc|done| |done].
  - intros k. by rewrite E, Hw.
  - done.
  - by apply Forall_app.
Qed.

Abbreviation quiet m := (preserves neutral m).
Definition effects {A} (m : M St A) : Prop := preserves effect m.
Lemma effects_quiet {A} (m : M St A) : quiet m → effects m.
Proof. intros Hm s. left. apply Hm. Qed.
Lemma effects_then {A B} (m : M St A) (k : A → M St B) : quiet m → (∀ a, effects (k a)) → effects (m ≫= k).
Proof.
  intros Hm Hk s. unfold mbind, M_bind. specialize (Hm s). destruct (m s) as [s' [a|e]]; [|by left].
  eapply effect_pre; [exact Hm|apply Hk].
Qed.
Lemma effects_first {A B} (m : M St A) (k : A → M St B) : effects m → (∀ a, quiet (k a)) → effects (m ≫= k).
Proof.
  intros Hm Hk s. unfold mbind, M_bind. specialize (Hm s). destruct (m s) as [s' [a|e]]; [|done].
  eapply effect_post; [exact Hm|apply Hk].
Qed.

(** *** The quiet operations *)

Lemma quiet_modify (f : St → St) :
  (∀ s, machines (f s) = machines s) → (∀ s, reports (f s) = reports s) → quiet (modify f).
Proof. intros Hm Hr s. split; [apply Hm|]. exists []. rewrite app_nil_r. split; [apply Hr|done]. Qed.
Lemma neutral_ret {A} (a : A) : quiet (mret a : M St A).
Proof. intros s. simpl. reflexivity. Qed.
Lemma quiet_gets {A} (f : St → A) : quiet (gets f).
Proof. intros s. simpl. reflexivity. Qed.
Lemma quiet_throw {A} e : quiet (throw e : M St A).
Proof. intros s. simpl. reflexivity. Qed.
Lemma neutral_bind {A B} (m : M St A) (k : A → M St B) : quiet m → (∀ a, quiet (k a)) → quiet (m ≫= k).
Proof. apply preserves_bind, _. Qed.
Lemma quiet_when b (m : M St unit) : quiet m → quiet (when b m).
Proof. intros Hm. destruct b; [done|apply neutral_ret]. Qed.
Lemma quiet_report d : passing d → quiet (_publish_status d).
Proof. intros Hd s. split; [done|]. exists [d]. by repeat constructor. Qed.
Lemma quiet_acquire t id : quiet (acquire t id).
Proof. intros s. unfold acquire. case_match; [reflexivity|]. split; [done|]. exists []. by rewrite app_nil_r. Qed.

(** *** The pairs *)

Lemma status_parsed st : Vm.parse_status (Vm.status_string st) = Some st.
Proof. by destruct st. Qed.
Lemma keep_str_same o v : Vm.keep_str o (match o with Some a => Some a | None => v end) = match o with Some a => Some a | None => v end.
Proof. unfold Vm.keep_str. destruct o as [a|]; [by destruct (opt_truthy (Some a))|done]. Qed.

Lemma paired_written t' id st ip one one' user uid err act :
  paired (status_message id (Vm.status_string st) one' ip uid err act) (written t' st ip one user).
Proof.
  intros t v Hl. unfold Vm.updated, to_update. cbn [Vm.su_status VmEvents.st_status status_message].
  rewrite status_parsed. destruct st;
    try (split; [split_and!; try done; cbn; by rewrite keep_str_same|unfold Vm.life_ok; cbn; by eauto]).
  unfold Vm.life_ok, written. cbn [Vm.vm_stoppedAt]. case_bool_decide as E; (split; [by split_and!|]); cbn; [by eauto|].
  by destruct (Vm.vm_stoppedAt v).
Qed.
Lemma paired_deleted t' id one uid : paired (status_message id "DELETED" one None uid None None) (deleted_row t').
Proof.
  intros t v Hl. unfold Vm.updated. change (Vm.parse_status _) with (Some Vm.DELETED). cbv beta iota.
  rewrite bool_decide_eq_false_2 by done. split; [by split_and!|]. unfold Vm.life_ok. cbn. by eauto.
Qed.

(** An UPDATE, quiet work, and the report. *)
Lemma pair_effects id w (mid : M St unit) d :
  VmEvents.st_vmId d = id → quiet mid → (∀ s, is_ret (mid s).2 = true) → paired d w →
  effects (modify (set_machines (update_where (here id) w));; mid;; _publish_status d).
Proof.
  intros Hid Hm Hret Hp s. set (s1 := set_machines (update_where (here id) w) s).
  assert (Hw : rewritten (VmEvents.st_vmId d) w s s1).
  { intros k. unfold s1, set_machines. cbn. rewrite rows_update_where, Hid. done. }
  unfold mbind, M_bind, modify. fold s1. specialize (Hm s1). specialize (Hret s1).
  destruct (mid s1) as [s2 [[]|e]]; [|done]. cbn in *. destruct Hm as [E (l & R & F)].
  apply (eff_one _ _ d w l []); [|cbn; by rewrite R, <-app_assoc|done|constructor|done].
  intros k. cbn. by rewrite E, Hw.
Qed.
Lemma quiet_cache t id st ip : quiet (_cache_vm_status t id st ip).
Proof. by apply quiet_modify. Qed.
Lemma quiet_uncache id : quiet (_delete_vm_cache id).
Proof. by apply quiet_modify. Qed.
Lemma quiet_load pool : quiet (load_templates pool).
Proof. by apply quiet_modify. Qed.
Lemma quiet_ensure pool : quiet (ensure_templates pool).
Proof.
  apply neutral_bind; [apply quiet_gets|intros [ts|]; [apply neutral_ret|]].
  apply neutral_bind; [apply quiet_load|intros _; apply quiet_gets].
Qed.
Lemma quiet_ask r : quiet (ask r).
Proof. by apply quiet_modify. Qed.
Lemma quiet_stale f ids : quiet (delete_stale f ids).
Proof.
  induction ids as [|i ids IH]; cbn; [apply neutral_ret|]. apply neutral_bind; [apply quiet_ask|intros _].
  destruct (f i); [done|apply neutral_ret].
Qed.
Lemma quiet_instantiate template d text a : quiet (instantiate template d text a).
Proof.
  apply neutral_bind; [apply quiet_ask|intros _]. destruct a; [|apply neutral_ret].
  apply neutral_bind; [by apply quiet_modify|intros _; apply neutral_ret].
Qed.
Lemma quiet_polling p : quiet (start_polling p).
Proof. by apply quiet_modify. Qed.
Lemma quiet_release id : quiet (release id).
Proof. by apply quiet_modify. Qed.
Create HintDb quiet.
#[local] Hint Resolve neutral_ret quiet_gets quiet_throw quiet_when quiet_acquire quiet_cache quiet_uncache quiet_load
  quiet_ensure quiet_ask quiet_stale quiet_instantiate quiet_polling quiet_release : quiet.
Ltac quiet := repeat first
  [ progress intros | apply neutral_bind | by apply quiet_modify | by auto with quiet | case_match ].

Lemma pair_written t id st ip one one' user uid err act (mid : M St unit) :
  quiet mid → (∀ s, is_ret (mid s).2 = true) →
  effects (update_vm_status t id st ip one user;; mid;;
           _publish_status (status_message id (Vm.status_string st) one' ip uid err act)).
Proof. intros. apply pair_effects; [done..|apply paired_written]. Qed.
(** Only the final state matters, so the way a run is bracketed does not. *)
Lemma effects_assoc {A B C} (m : M St A) (n : M St B) (o : M St C) k :
  effects ((m;; n;; o);; k : M St unit) → effects (m;; n;; o;; k).
Proof.
  intros He s. specialize (He s). revert He. unfold mbind, M_bind.
  destruct (m s) as [s1 []]; [|done]. by destruct (n s1) as [s2 []].
Qed.
Lemma effects_assoc' {A B C D} (m : M St A) (n : M St B) (n' : M St C) (o : M St D) :
  effects (m;; (n;; n');; o) → effects (m;; n;; n';; o).
Proof.
  intros He s. specialize (He s). revert He. unfold mbind, M_bind.
  destruct (m s) as [s1 []]; [|done]. by destruct (n s1) as [s2 []].
Qed.
Lemma effects_unit (m n : M St unit) : effects (m;; mret tt;; n) → effects (m;; n).
Proof. done. Qed.
Lemma effects_try (m : M St unit) : effects m → effects (try_catch m (λ _, mret tt)).
Proof. intros Hm s. unfold try_catch. specialize (Hm s). by destruct (m s) as [s1 []]. Qed.
Lemma failed_effects t id : effects (creation_failed t id).
Proof. apply (pair_written t id Vm.ERROR None None None None None); by auto with quiet. Qed.
Lemma status_effects t id one st err act : effects (set_status t id one st err act).
Proof. apply (pair_written t id st None None (Some one) None None); by auto with quiet. Qed.
Lemma end_effects t p st ip err : effects (end_polling t p st ip err).
Proof. apply (pair_written t (p_vmId p) st ip (Some (p_oneId p)) (Some (p_oneId p))); by auto with quiet. Qed.
Lemma removed_effects t id one uid : effects (removed t id one uid).
Proof. apply pair_effects; [done|by auto with quiet|done|apply paired_deleted]. Qed.

Lemma begin_effects t d : effects (create_begin t d).
Proof.
  unfold create_begin. apply effects_then; [by auto with quiet|intros []]; cbn [negb]; [|apply effects_quiet, neutral_ret].
  apply effects_then; [apply quiet_gets|intros [one|]]; [apply effects_quiet; quiet|].
  case_match; [|apply effects_quiet; quiet]. apply effects_first; [apply failed_effects|quiet].
Qed.
Lemma create_effects t cfg started d a : effects (create_end t cfg started d a).
Proof.
  unfold create_end. apply effects_then; [by apply quiet_modify|intros _].
  apply effects_then; [unfold _find_template; quiet|intros template].
  apply effects_first; [|quiet]. destruct template as [template|]; [|apply failed_effects].
  apply effects_then; [unfold collect_keys, get_user_ssh_keys; quiet|intros keys].
  apply effects_then; [unfold instantiate_or_retry; quiet|intros [one|e]]; [|apply failed_effects].
  apply effects_then; [unfold clear_base_flag; quiet|intros _].
  apply effects_assoc, effects_first; [|quiet].
  apply (pair_written t (c_vmId d) Vm.PENDING None (Some one) (Some one) None None None None); by auto with quiet.
Qed.
Lemma poll_effects t cfg i info resizable : effects (poll t cfg i info resizable).
Proof.
  unfold poll. apply effects_then; [apply quiet_gets|intros ps]. destruct (ps !! i) as [p|]; [|apply effects_quiet; quiet].
  apply effects_first; [|intros r; by apply quiet_modify].
  assert (Hend : ∀ (st : Vm.VmStatus) ip e, effects (end_polling t p st ip e;; mret (@None Poller)))
    by (intros; apply effects_first; [apply end_effects|quiet]).
  unfold poll_round. destruct info as [vm|].
  2: { case_match; [apply effects_quiet; quiet|apply Hend]. }
  case_match; [apply Hend|]. apply effects_then.
  { unfold intermediate. case_match; [|quiet]. destruct (LCM_STATUS_MAP _) as [name|] eqn:El; [|quiet].
    apply neutral_bind; [|quiet]. destruct (bool_decide (name = "RUNNING"%string)) eqn:En; [apply neutral_ret|].
    apply quiet_report. unfold passing. apply bool_decide_eq_false in En. unfold LCM_STATUS_MAP in El.
    by repeat case_match; simplify_eq. }
  intros last. destruct (if _ && _ then _ else None) as [original|];
    [|destruct (_ <? poll_timeout); [apply effects_quiet, neutral_ret|apply Hend]].
  apply effects_then; [unfold resize; quiet|intros _]. apply Hend.
Qed.
Lemma action_effects t data answer info : effects (handle_vm_action t data answer info).
Proof.
  unfold handle_vm_action. case_match; [apply effects_quiet; quiet|]. apply effects_try.
  unfold vm_action. destruct (action_map _) as [[one_action target]|]; [|apply effects_quiet; quiet].
  apply effects_then; [apply quiet_ask|intros _]. destruct answer as [| |message].
  - apply effects_assoc'. apply (pair_written t _ target None None (Some _) None None None (Some _)); [quiet|].
    intros s. by case_bool_decide.
  - apply effects_quiet; quiet.
  - case_match; apply status_effects.
Qed.
Lemma deletion_effects t data a : effects (handle_vm_delete t data a).
Proof.
  unfold handle_vm_delete. case_match; [apply effects_quiet; quiet|]. unfold delete_vm.
  case_match; [|apply removed_effects]. apply effects_then; [apply quiet_ask|intros _].
  case_match; [apply status_effects|]. apply effects_then; [|intros _; apply removed_effects].
  unfold delete_image. quiet.
Qed.
Lemma sync_effects t info : effects (sync_vm t info).
Proof.
  unfold sync_vm. apply effects_then; [apply quiet_gets|intros [|[[id one] db] l]]; [apply effects_quiet; quiet|].
  apply effects_then; [by apply quiet_modify|intros _]. destruct (real_status info) as [st|]; [|apply effects_quiet; quiet].
  case_bool_decide; [apply effects_quiet, neutral_ret|].
  apply effects_unit, (pair_written t id st None None None None None None None (mret tt)); by auto with quiet.
Qed.
Lemma step_effects cfg te : effects (step cfg te).
Proof.
  destruct te as [t e]. destruct e; cbn [step].
  - unfold handle_vm_create. case_match; [apply effects_quiet; quiet|apply begin_effects].
  - apply create_effects.
  - apply action_effects.
  - apply deletion_effects.
  - apply poll_effects.
  - apply effects_quiet. unfold sync_start, get_all_active_vms. quiet.
  - apply sync_effects.
  - apply effects_quiet. unfold reconnect, reconcile_pending_vms, get_vms_pending_sync. quiet.
  - apply effects_quiet. unfold restart, reconcile_pending_vms, get_vms_pending_sync. quiet.
Qed.

(** *** The service applies the reports *)

Context `{Aead} `{Base64}.
(** The reports, each with the instant at which the service receives it. *)
Definition deliver (l : list (Z * VmEvents.VmStatusPayload)) (vs : Vm.VmState T) : Vm.VmState T :=
  foldl (λ vs td, (Vm.onStatusUpdate td.1 (to_update td.2) vs).1) vs l.
Lemma deliver_passing l vs k :
  Forall passing l.*2 → rows (Vm.vms (deliver l vs)) !! k = rows (Vm.vms vs) !! k.
Proof.
  revert vs. induction l as [|[t d] l IH]; intros vs Hl; [done|]. apply Forall_cons in Hl as [Hd Hl].
  cbn. unfold deliver in IH. rewrite IH by done. rewrite Vm.status_rows. unfold Vm.updated. cbn.
  unfold passing in Hd. cbn in Hd. rewrite Hd. destruct (rows (Vm.vms vs) !! k); [|done]. cbn. by case_bool_decide.
Qed.

Lemma deliver_keeps l vs k : is_Some (rows (Vm.vms vs) !! k) → is_Some (rows (Vm.vms (deliver l vs)) !! k).
Proof.
  revert vs. induction l as [|td l IH]; intros vs Hs; [done|]. cbn. apply IH. rewrite Vm.status_rows.
  destruct Hs as [x ->]. by eauto.
Qed.

End writers.
End WriterProps.
