(* ===== verification/WorkerLock.v ===== *)
(** * WorkerLock: one request makes one machine

    JetStream may deliver a request to create a machine more than once, and the
    worker may be restarted in between.  What keeps it from instantiating two
    machines is a lock in Redis that lives for 300 seconds, together with the
    number OpenNebula gave, which is stored in the machine's row.  Below, runs of
    the worker in which OpenNebula answers while the lock lives, interleaved with
    whatever the services write into the table of machines. *)

From Stdlib Require Import ZArith Lia Ascii String.
From stdpp Require Import base list gmap strings pretty.
From S2P Require Import Prelude Text Js Store Crypto VmKeyCrypto Dto SshKey Vm RequestSecurity Sockets VmEvents WorkerText Worker.
Import VmKeyCrypto RequestSecurity WorkerText Worker.
#[local] Open Scope Z_scope.

Module WorkerLock.

(** ** The keys of Redis do not meet *)

Lemma fits_last ps p l : fits (ps ++ [p]) l = true → ∃ l' c, l = l' ++ [c] ∧ p c = true.
Proof.
  revert l. induction ps as [|q ps IH]; intros [|c l] Hl; try done; cbn in Hl.
  - apply andb_prop in Hl as [Hc Hl]. destruct l; [|done]. by exists [], c.
  - apply andb_prop in Hl as [_ Hl]. destruct (IH _ Hl) as (l' & c' & -> & Hc'). by exists (c :: l'), c'.
Qed.
Lemma uuid_last id : uuid_match id = true → ∃ l c, chars id = l ++ [c] ∧ (is_hex c = true ∨ c = newline).
Proof.
  intros [Hf|Hf]%orb_true_iff.
  - change uuid_positions with (take 35 uuid_positions ++ [is_hex]) in Hf.
    apply fits_last in Hf as (l & c & E & Hc). eauto.
  - apply fits_last in Hf as (l & c & E & Hc%bool_decide_eq_true). eauto.
Qed.
(** No lock of a machine ends in the letter of another key. *)
Lemma lock_end id k l x :
  uuid_match id = true → chars k = l ++ [x] → is_hex x = false → x ≠ newline → lock_key id ≠ k.
Proof.
  intros (l' & c & E & Hc)%uuid_last Ek Hx Hn Heq. subst k. unfold lock_key in Ek.
  rewrite chars_app, E, app_assoc in Ek. apply app_inj_tail in Ek as [_ ->]. by destruct Hc; congruence.
Qed.
Lemma lock_not_status id id' : uuid_match id = true → lock_key id ≠ status_key id'.
Proof.
  intros Hu. apply (lock_end id _ (chars ("vm:" +:+ id' +:+ ":statu")) "s"%char); try done.
  unfold status_key. by rewrite !chars_app, <-!app_assoc.
Qed.
Lemma lock_not_ip id id' : uuid_match id = true → lock_key id ≠ ip_key id'.
Proof.
  intros Hu. apply (lock_end id _ (chars ("vm:" +:+ id' +:+ ":i")) "p"%char); try done.
  unfold ip_key. by rewrite !chars_app, <-!app_assoc.
Qed.
Lemma lock_key_inj id id' : lock_key id = lock_key id' → id = id'.
Proof. unfold lock_key. by intros [= ?]. Qed.

(** ** What a step leaves alone *)

Section lock.
Context {T : Type → Type} `{DatabaseLaws T} {RS : Type} `{RedisLaws RS unit}.
Abbreviation St := (WorkerState T RS).

(** The table keeps its machines, and a machine its number. *)
Definition numbered (m : T Vm.VirtualMachine) (id : string) : Prop :=
  ∃ v, rows m !! id = Some v ∧ is_Some (Vm.vm_oneVmId v).
Definition keeps_numbers (m m' : T Vm.VirtualMachine) : Prop :=
  ∀ k v, rows m !! k = Some v → ∃ v', rows m' !! k = Some v' ∧ (is_Some (Vm.vm_oneVmId v) → is_Some (Vm.vm_oneVmId v')).
#[local] Instance numbers_refl : Reflexive keeps_numbers.
Proof. intros m k v Hv. by exists v. Qed.
#[local] Instance numbers_trans : Transitive keeps_numbers.
Proof.
  intros m1 m2 m3 H12 H23 k v Hv. destruct (H12 _ _ Hv) as (v2 & E2 & Hn2).
  destruct (H23 _ _ E2) as (v3 & E3 & Hn3). exists v3. by auto.
Qed.
Lemma numbered_kept m m' id : keeps_numbers m m' → numbered m id → numbered m' id.
Proof. intros Hk (v & Hv & Hn). destruct (Hk _ _ Hv) as (v' & Hv' & Hn'). exists v'. by auto. Qed.
Lemma update_numbers p f (m : T Vm.VirtualMachine) :
  (∀ v, is_Some (Vm.vm_oneVmId v) → is_Some (Vm.vm_oneVmId (f v))) → keeps_numbers m (update_where p f m).
Proof.
  intros Hf k v Hv. rewrite rows_update_where, Hv. cbn. eexists. split; [done|].
  by case_match; [apply Hf|].
Qed.

(** From the instant [t] on, the locks of all machines but those in [ex] stay,
    no creation starts, and none instantiates a machine. *)
Record steady (ex : list string) (t : Z) (s s' : St) : Prop := {
  st_numbers : keeps_numbers (machines s) (machines s');
  st_creating : creating s' = creating s;
  st_instances : instantiated s' = instantiated s;
  st_locks u id : t <= u → uuid_match id = true → id ∉ ex →
    r_look (redis s') u (lock_key id) = r_look (redis s) u (lock_key id);
}.
#[local] Instance steady_refl ex t : Reflexive (steady ex t).
Proof. by intros s. Qed.
#[local] Instance steady_trans ex t : Transitive (steady ex t).
Proof.
  intros s1 s2 s3 [N1 C1 I1 L1] [N2 C2 I2 L2]. split; [by etransitivity|congruence|congruence|].
  intros u id Hu Hid Hex. by rewrite L2, L1.
Qed.
Abbreviation calm ex t m := (preserves (steady ex t) m).

Lemma calm_modify ex t (f : St → St) :
  (∀ s, machines (f s) = machines s) → (∀ s, creating (f s) = creating s) →
  (∀ s, instantiated (f s) = instantiated s) → (∀ s, redis (f s) = redis s) → calm ex t (modify f).
Proof.
  intros Hm Hc Hi Hr. apply preserves_modify. intros s. split; [by rewrite Hm|done|done|].
  intros. by rewrite Hr.
Qed.
Lemma calm_update ex t id st ip one user : calm ex t (update_vm_status t id st ip one user).
Proof.
  apply preserves_modify. intros s. split; [|done..]. apply update_numbers.
  intros v Hv. cbn. destruct one; [by eauto|done].
Qed.
Lemma calm_record ex t id : calm ex t (delete_vm_record t id).
Proof. apply preserves_modify. intros s. split; [|done..]. by apply update_numbers. Qed.
Lemma calm_cache ex t id st ip : calm ex t (_cache_vm_status t id st ip).
Proof.
  apply preserves_modify. intros s. split; [done..|]. intros u x Hu Hx _. cbn.
  pose proof (lock_not_status x id Hx). pose proof (lock_not_ip x id Hx).
  case_match; rewrite !look_set_ex by done; by rewrite !decide_False.
Qed.
Lemma calm_uncache ex t id : calm ex t (_delete_vm_cache id).
Proof.
  apply preserves_modify. intros s. split; [done..|]. intros u x Hu Hx _. cbn.
  pose proof (lock_not_status x id Hx). pose proof (lock_not_ip x id Hx).
  rewrite look_del, decide_False; [done|]. intros [?|?%list_elem_of_singleton]%elem_of_cons; by simplify_eq.
Qed.
Lemma calm_release ex t id : id ∈ ex → calm ex t (release id).
Proof.
  intros Hin. apply preserves_modify. intros s. split; [done..|]. intros u x Hu Hx Hex. cbn.
  rewrite look_del, decide_False; [done|]. intros ->%list_elem_of_singleton%lock_key_inj. done.
Qed.
Lemma steady_when ex t b (m : M St unit) : calm ex t m → calm ex t (when b m).
Proof. intros Hm. destruct b; [done|apply preserves_ret, _]. Qed.
Lemma calm_ask ex t r : calm ex t (ask r).
Proof. by apply calm_modify. Qed.
Lemma calm_report ex t r : calm ex t (_publish_status r).
Proof. by apply calm_modify. Qed.
Lemma calm_stale ex t f ids : calm ex t (delete_stale f ids).
Proof.
  induction ids as [|i ids IH]; cbn; [apply preserves_ret, _|]. apply preserves_bind; [apply _|apply calm_ask|intros _].
  destruct (f i); [done|apply preserves_ret, _].
Qed.
Create HintDb calm.
#[local] Hint Resolve calm_update calm_record calm_cache calm_uncache steady_when calm_ask calm_report calm_stale : calm.
Ltac calm := repeat first
  [ progress intros | apply preserves_bind; [apply _|..] | by apply preserves_ret, _ | by apply preserves_gets, _
  | by apply preserves_throw, _ | by apply calm_modify | by auto with calm | apply steady_when | case_match ].

Lemma calm_failed ex t id : calm ex t (creation_failed t id).
Proof. unfold creation_failed. calm. Qed.
Lemma calm_find ex t pool name : calm ex t (_find_template pool name).
Proof. unfold _find_template, ensure_templates, load_templates. calm. Qed.
Lemma calm_end ex t p st ip error : calm ex t (end_polling t p st ip error).
Proof. unfold end_polling. calm. Qed.
Lemma calm_status ex t id one st error action : calm ex t (set_status t id one st error action).
Proof. unfold set_status. calm. Qed.
Lemma calm_removed ex t id one uid : calm ex t (removed t id one uid).
Proof. unfold removed. calm. Qed.
#[local] Hint Resolve calm_failed calm_find calm_end calm_status calm_removed : calm.
Lemma calm_poll ex t cfg i info resizable : calm ex t (poll t cfg i info resizable).
Proof. unfold poll, poll_round, intermediate, resize. calm. Qed.
Lemma calm_action ex t data answer info : calm ex t (handle_vm_action t data answer info).
Proof.
  unfold handle_vm_action. case_match; [by calm|]. apply preserves_try; [apply _|unfold vm_action|]; calm.
Qed.
Lemma calm_delete ex t data a : calm ex t (handle_vm_delete t data a).
Proof. unfold handle_vm_delete, delete_vm, delete_image. calm. Qed.
Lemma steady_sync ex t info : calm ex t (sync_vm t info).
Proof. unfold sync_vm. calm. Qed.

(** ** The invariant *)

(** The machines that are being created, and those OpenNebula was made to create. *)
Definition waiting (s : St) : list string := (λ x, c_vmId x.2) <$> creating s.
Definition made (s : St) : list string := (instantiated s).*1.

Definition LOCK_MS : Z := 300000.
Record good (t : Z) (s : St) : Prop := {
  g_held t0 d : (t0, d) ∈ creating s → t < t0 + LOCK_MS →
    r_look (redis s) t (lock_key (c_vmId d)) = Some (RText "1", Some (t0 + LOCK_MS));
  g_known t0 d : (t0, d) ∈ creating s → uuid_match (c_vmId d) = true ∧ is_Some (rows (machines s) !! c_vmId d);
  g_single : NoDup (waiting s);
  g_made : NoDup (made s);
  g_numbered id : id ∈ made s → numbered (machines s) id;
  g_apart id : id ∈ waiting s → id ∉ made s;
}.

Lemma in_waiting t0 d s : (t0, d) ∈ creating s → c_vmId d ∈ waiting s.
Proof. intros Hin. apply list_elem_of_fmap. by exists (t0, d). Qed.
Lemma known_kept (m m' : T Vm.VirtualMachine) k : keeps_numbers m m' → is_Some (rows m !! k) → is_Some (rows m' !! k).
Proof. intros Hk [v Hv]. destruct (Hk _ _ Hv) as (v' & -> & _). by eauto. Qed.

Lemma good_later t t' s : t <= t' → good t s → good t' s.
Proof.
  intros Ht [Hh Hk Hs Hm Hn Ha]. split; try done. intros t0 d Hin Hlt.
  rewrite (look_later (redis s) t t') by done. rewrite (Hh t0 d) by (done || lia).
  cbn [alive]. by rewrite (proj2 (Z.ltb_lt _ _)).
Qed.
Lemma good_steady ex t s s' : (∀ id, id ∈ ex → id ∉ waiting s) → steady ex t s s' → good t s → good t s'.
Proof.
  intros Hex [Sn Sc Si Sl] [Hh Hk Hs Hm Hn Ha].
  assert (waiting s' = waiting s) as Ew by (unfold waiting; by rewrite Sc).
  assert (made s' = made s) as Em by (unfold made; by rewrite Si).
  split; rewrite ?Ew, ?Em, ?Sc; try done.
  - intros t0 d Hin Hlt. destruct (Hk _ _ Hin) as [Hu _]. rewrite Sl; [by apply Hh|lia|done|].
    intros Hx. by apply (Hex _ Hx), (in_waiting t0).
  - intros t0 d Hin. destruct (Hk _ _ Hin) as [Hu Hr]. split; [done|]. by eapply known_kept.
  - intros id Hid. eapply numbered_kept; [done|]. by apply Hn.
Qed.
Lemma calm_good ex t {A} (m : M St A) s :
  (∀ id, id ∈ ex → id ∉ waiting s) → calm ex t m → good t s → good t (m s).1.
Proof. intros Hex Hm Hg. eapply good_steady; [exact Hex|apply Hm|done]. Qed.

(** *** A creation begins *)

Definition in_time (t : Z) (s : St) : Prop := Forall (λ x, t < x.1 + LOCK_MS) (creating s).

(** While all creations are in time, a lock that is free is not of one of them. *)
Lemma free_not_waiting t s id : good t s → in_time t s → r_get (lock_key id) t (redis s) = None → id ∉ waiting s.
Proof.
  intros Hg Ht Hf ([t0 d] & -> & Hin)%list_elem_of_fmap. unfold r_get in Hf. cbn [snd] in Hf.
  rewrite (g_held _ _ Hg t0 d Hin) in Hf; [done|]. by apply (proj1 (Forall_forall _ _) Ht _ Hin).
Qed.
Definition locked (t : Z) (id : string) (s : St) : St := set_redis (r_set_ex (lock_key id) (RText "1") 300 t) s.
Lemma steady_locked t id s : steady [id] t s (locked t id s).
Proof.
  split; [done..|]. intros u x Hu Hx Hn. cbn. rewrite look_set_ex by done. rewrite decide_False; [done|].
  intros ->%lock_key_inj. apply Hn. by left.
Qed.
Lemma good_begun t d s :
  good t s → c_vmId d ∉ waiting s → c_vmId d ∉ made s → uuid_match (c_vmId d) = true →
  is_Some (rows (machines s) !! c_vmId d) →
  good t (set_creating (λ l, l ++ [(t, d)]) (locked t (c_vmId d) s)).
Proof.
  intros Hg Hw Hm Hu Hr. assert (Hl : good t (locked t (c_vmId d) s)).
  { eapply (good_steady [c_vmId d]); [|apply steady_locked|done]. by intros ? ->%list_elem_of_singleton. }
  destruct Hl as [Lh Lk Ls Lm Ln La]. split; try done.
  - cbn. intros t0 d' [Hin|E%list_elem_of_singleton]%elem_of_app Hlt; [by apply Lh|]. injection E as -> ->.
    rewrite look_set_ex by lia. rewrite decide_True by done. unfold LOCK_MS in *. cbn.
    by rewrite (proj2 (Z.ltb_lt _ _)) by lia.
  - cbn. intros t0 d' [Hin|E%list_elem_of_singleton]%elem_of_app; [by eapply Lk|]. by injection E as -> ->.
  - unfold waiting. cbn. rewrite fmap_app. apply NoDup_app. split_and!; [apply Ls| |apply NoDup_singleton].
    intros x Hx ->%list_elem_of_singleton. by apply Hw.
  - unfold waiting. cbn. rewrite fmap_app. intros id [Hin| ->%list_elem_of_singleton]%elem_of_app; [by apply La|].
    exact Hm.
Qed.
Lemma good_begin t d s :
  good t s → in_time t s → uuid_match (c_vmId d) = true → is_Some (rows (machines s) !! c_vmId d) →
  good t (create_begin t d s).1.
Proof.
  intros Hg Ht Hu Hr. unfold create_begin. unfold mbind at 1, M_bind at 1, acquire.
  destruct (r_get _ _ _) eqn:Ef; [done|]. fold (locked t (c_vmId d) s). cbn [negb].
  pose proof (free_not_waiting _ _ _ Hg Ht Ef) as Hw.
  assert (Hl : good t (locked t (c_vmId d) s)).
  { eapply (good_steady [c_vmId d]); [|apply steady_locked|done]. by intros ? ->%list_elem_of_singleton. }
  unfold mbind at 1, M_bind at 1, get_vm_one_id, gets. cbn [machines locked set_redis].
  assert (Hex : ∀ id, id ∈ [c_vmId d] → id ∉ waiting (locked t (c_vmId d) s))
    by by intros ? ->%list_elem_of_singleton.
  assert (Hrel : calm [c_vmId d] t (release (c_vmId d))) by (apply calm_release; by left).
  destruct (find_by_id _ _ ≫= _) as [one|] eqn:Eo.
  { apply (calm_good [c_vmId d]); [done| |done]. unfold start_polling. calm; done. }
  case_match.
  { apply (calm_good [c_vmId d]); [done| |done]. calm; done. }
  apply good_begun; try done. intros (v & Hv & [one Hone])%(g_numbered _ _ Hg).
  unfold find_by_id in Eo. by rewrite Hv in Eo; cbn in Eo; rewrite Hone in Eo.
Qed.

(** *** OpenNebula answers *)

Lemma finish_creating t0 d l :
  NoDup ((λ x : Z * Creation, c_vmId x.2) <$> l) → (t0, d) ∈ l →
  c_vmId d ∉ (λ x : Z * Creation, c_vmId x.2) <$> finish t0 (c_vmId d) l.
Proof.
  induction l as [|[t1 d1] l IH]; cbn; [by intros _ ?%not_elem_of_nil|].
  intros [Hn Hl]%NoDup_cons [E|Hin]%elem_of_cons.
  - injection E as -> ->. by rewrite bool_decide_eq_true_2.
  - assert (c_vmId d ≠ c_vmId d1) as Hd.
    { intros E. apply Hn. rewrite <-E. apply list_elem_of_fmap. by exists (t0, d). }
    rewrite bool_decide_eq_false_2 by (intros [_ ?]; by apply Hd). cbn. apply not_elem_of_cons. split; [done|]. by apply IH.
Qed.
Lemma finish_sublist t0 id l : finish t0 id l `sublist_of` l.
Proof. induction l as [|x l IH]; cbn; [done|]. case_bool_decide; by constructor. Qed.
Lemma good_fewer t l s : l `sublist_of` creating s → good t s → good t (set_creating (λ _, l) s).
Proof.
  intros Hl [Hh Hk Hs Hm Hn Ha].
  assert (Hsub : ∀ x, x ∈ l → x ∈ creating s) by (intros x Hx; by eapply elem_of_sublist).
  assert (Hw : waiting (set_creating (λ _, l) s) `sublist_of` waiting s) by by apply fmap_sublist.
  split; try done.
  - intros t0 d Hin. by apply Hh, Hsub.
  - intros t0 d Hin. by eapply Hk, Hsub.
  - by eapply sublist_NoDup; [|exact Hw].
  - intros id Hid. apply Ha. by eapply elem_of_sublist; [|exact Hw].
Qed.

(** What is asked of OpenNebula changes nothing else. *)
Definition asking (s s' : St) : Prop :=
  machines s' = machines s ∧ creating s' = creating s ∧ redis s' = redis s ∧ instantiated s' = instantiated s.
#[local] Instance asking_refl : Reflexive asking.
Proof. by intros s. Qed.
#[local] Instance asking_trans : Transitive asking.
Proof. intros s1 s2 s3 (?&?&?&?) (?&?&?&?). split_and!; congruence. Qed.
Lemma asking_ask r : preserves asking (ask r).
Proof. by apply preserves_modify. Qed.
Lemma asking_stale f ids s : ∃ s', delete_stale f ids s = (s', Ret tt) ∧ asking s s'.
Proof.
  revert s. induction ids as [|i ids IH]; intros s; cbn; [by eexists|].
  unfold mbind, M_bind. cbn. destruct (f i); [|by eexists].
  match goal with |- ∃ s', delete_stale _ _ ?x = _ ∧ _ => destruct (IH x) as (s' & E & Ha) end.
  exists s'. split; [done|]. by etransitivity; [|exact Ha].
Qed.
(** At most one of the two attempts makes a machine. *)
Lemma retry_instance template d keys a (s : St) :
  ∃ (s' : St) (r : Z + string), instantiate_or_retry template d keys a s = (s', Ret r) ∧
    machines s' = machines s ∧ creating s' = creating s ∧ redis s' = redis s ∧
    instantiated s' = instantiated s ++ match r with inl one => [(c_vmId d, one)] | inr _ => [] end.
Proof.
  unfold instantiate_or_retry, mbind, M_bind.
  destruct (asking_stale (a_deletable a) (stale (c_name d) template (a_cleanup a)) s) as (s1 & E1 & H1').
  rewrite E1. destruct H1' as (M1 & C1 & R1 & I1). unfold instantiate, mbind, M_bind. cbn.
  destruct (a_instantiate a) as [one|e]; cbn.
  { eexists _, (inl one). cbn. by rewrite I1. }
  match goal with |- context [delete_stale ?f ?l ?x] => destruct (asking_stale f l x) as (s2 & E2 & H2') end.
  rewrite E2. destruct H2' as (M2 & C2 & R2 & I2). cbn in M2, C2, R2, I2.
  destruct (a_instantiate_base a) as [one|e']; cbn.
  - eexists _, (inl one). cbn. split_and!; [done|cbn; congruence..|]. cbn. by rewrite I2, I1.
  - eexists _, (inr e'). cbn. split_and!; [done|cbn; congruence..|]. cbn. by rewrite I2, I1, app_nil_r.
Qed.

Lemma good_made_one t id one s1 s2 s' :
  good t s1 → id ∉ waiting s1 → id ∉ made s1 →
  machines s2 = machines s1 → creating s2 = creating s1 → redis s2 = redis s1 →
  instantiated s2 = instantiated s1 ++ [(id, one)] →
  steady [id] t s2 s' → numbered (machines s') id → good t s'.
Proof.
  intros Hg Hw Hm EM EC ER EI [Sn Sc Si Sl] Hid. rewrite EM in Sn. rewrite EC in Sc. rewrite EI in Si. rewrite ER in Sl.
  destruct Hg as [Hh Hk Hs Hd Hn Ha].
  assert (waiting s' = waiting s1) as Ew by (unfold waiting; by rewrite Sc).
  assert (made s' = made s1 ++ [id]) as Em by (unfold made; by rewrite Si, fmap_app).
  split; rewrite ?Ew, ?Em, ?Sc.
  - intros t0 d Hin Hlt. destruct (Hk _ _ Hin) as [Hu _]. rewrite Sl; [by apply Hh|lia|done|].
    intros E%list_elem_of_singleton. apply Hw. rewrite <-E. by apply (in_waiting t0).
  - intros t0 d Hin. destruct (Hk _ _ Hin) as [Hu Hr]. split; [done|]. by eapply known_kept.
  - done.
  - apply NoDup_app. split_and!; [done| |apply NoDup_singleton]. intros x Hx ->%list_elem_of_singleton. done.
  - intros x [Hx| ->%list_elem_of_singleton]%elem_of_app; [|done]. eapply numbered_kept; [done|]. by apply Hn.
  - intros x Hx [Hx'| ->%list_elem_of_singleton]%elem_of_app; [by apply (Ha x)|done].
Qed.

Lemma find_steady pool name (s : St) : ∃ s' r, _find_template pool name s = (s', Ret r) ∧ asking s s'.
Proof.
  unfold _find_template, ensure_templates, load_templates, mbind, M_bind, gets, modify.
  destruct (templates s); by eexists _, _.
Qed.
(** The end of a creation that made a machine. *)
Lemma recorded_good t template one d a (s1 s2 : St) :
  good t s1 → c_vmId d ∉ waiting s1 → c_vmId d ∉ made s1 → is_Some (rows (machines s1) !! c_vmId d) →
  machines s2 = machines s1 → creating s2 = creating s1 → redis s2 = redis s1 →
  instantiated s2 = instantiated s1 ++ [(c_vmId d, one)] →
  good t ((clear_base_flag template (a_cloned a);;
    update_vm_status t (c_vmId d) Vm.PENDING None (Some one) None;;
    _cache_vm_status t (c_vmId d) Vm.PENDING None;;
    _publish_status (status_message (c_vmId d) "PENDING" (Some one) None None None None);;
    start_polling (new_poller (c_vmId d) one (Some (c_username d)) (Some (c_diskGb d)));;
    release (c_vmId d)) s2).1.
Proof.
  intros Hg Hw Hm Hr EM EC ER EI.
  assert (Hrel : calm [c_vmId d] t (release (c_vmId d))) by (apply calm_release; by left).
  eapply (good_made_one t (c_vmId d) one s1 s2); try done.
  { match goal with |- steady _ _ _ (?m s2).1 => assert (calm [c_vmId d] t m) as Hc; [|apply Hc] end.
    unfold clear_base_flag, start_polling. calm; done. }
  assert (∃ s3, clear_base_flag template (a_cloned a) s2 = (s3, Ret tt) ∧ asking s2 s3) as (s3 & E3 & M3 & _).
  { unfold clear_base_flag. destruct (a_cloned a); [case_match|]; by eexists. }
  unfold mbind at 1, M_bind at 1. rewrite E3. unfold mbind at 1, M_bind at 1, update_vm_status at 1, modify at 1.
  match goal with |- numbered (machines (?m ?x).1) _ => assert (calm [c_vmId d] t m) as Hc; [|eapply (numbered_kept (machines x))] end.
  { unfold start_polling. calm; done. }
  { apply Hc. }
  rewrite EM in M3. destruct Hr as [v Hv]. unfold numbered. cbn. rewrite rows_update_where, M3, Hv.
  unfold here. cbn. rewrite bool_decide_eq_true_2 by done. eexists. split; [done|]. cbn. by eauto.
Qed.
Lemma good_end t cfg t0 d a s : good t s → (t0, d) ∈ creating s → good t (create_end t cfg t0 d a s).1.
Proof.
  intros Hg Hin. destruct (g_known _ _ Hg _ _ Hin) as [Hu Hr].
  assert (Hm : c_vmId d ∉ made s) by by apply (g_apart _ _ Hg), (in_waiting t0).
  assert (Hrel : calm [c_vmId d] t (release (c_vmId d))) by (apply calm_release; by left).
  unfold create_end. unfold mbind at 1, M_bind at 1, modify at 1.
  set (s0 := set_creating _ s).
  assert (Hg0 : good t s0) by by apply (good_fewer t (finish t0 (c_vmId d) (creating s))), Hg; apply finish_sublist.
  assert (Hw0 : c_vmId d ∉ waiting s0) by (apply finish_creating; [apply Hg|done]).
  assert (Hr0 : is_Some (rows (machines s0) !! c_vmId d)) by done.
  assert (Hm0 : c_vmId d ∉ made s0) by done. clearbody s0. clear Hg Hin Hr Hm s.
  assert (Hex : ∀ id, id ∈ [c_vmId d] → id ∉ waiting s0) by by intros ? ->%list_elem_of_singleton.
  unfold mbind at 1, M_bind at 1.
  destruct (find_steady (a_pool a) (c_osTemplate d) s0) as (s1 & template & E1 & M1 & C1 & R1 & I1).
  rewrite E1. assert (Hst : ∀ ex, steady ex t s0 s1) by (intros; split; [by rewrite M1|done|done|by intros; rewrite R1]).
  assert (Hg1 : good t s1) by by eapply (good_steady [c_vmId d]).
  assert (Hw1 : c_vmId d ∉ waiting s1) by (unfold waiting; by rewrite C1).
  assert (Hm1 : c_vmId d ∉ made s1) by (unfold made; by rewrite I1).
  rewrite <-M1 in Hr0. clear dependent s0.
  assert (Hex : ∀ id, id ∈ [c_vmId d] → id ∉ waiting s1) by by intros ? ->%list_elem_of_singleton.
  destruct template as [template|]; [|apply (calm_good [c_vmId d]); [done| |done]; calm; done].
  assert (Hcol : ∃ keys, collect_keys cfg d s1 = (s1, Ret keys)).
  { unfold collect_keys, get_user_ssh_keys, mbind, M_bind, gets, mret, M_ret. destruct (truthy (c_userId d)); eexists; reflexivity. }
  destruct Hcol as [keys Hcol].
  destruct (retry_instance template d keys a s1) as (s2 & r & E2 & M2 & C2 & R2 & I2).
  destruct r as [one|e].
  - pose proof (recorded_good t template one d a s1 s2) as Hgood. unfold mbind, M_bind in Hgood |- *. rewrite Hcol, E2.
    specialize (Hgood Hg1 Hw1 Hm1 Hr0 M2 C2 R2 I2). revert Hgood. clear.
    destruct (clear_base_flag template (a_cloned a) s2) as [s3 [[]|e]]; [|done]. done.
  - rewrite app_nil_r in I2.
    assert (Hst : ∀ ex, steady ex t s1 s2) by (intros; split; [by rewrite M2|done|done|by intros; rewrite R2]).
    assert (good t ((creation_failed t (c_vmId d);; release (c_vmId d)) s2).1) as Hgood.
    { apply (calm_good [c_vmId d]); [unfold waiting; by rewrite C2|calm; done|by eapply good_steady]. }
    unfold mbind, M_bind in Hgood |- *. by rewrite Hcol, E2.
Qed.

(** ** Runs *)

Lemma valid_creation data : _validate_vm_create data = None → uuid_match (c_vmId (parse_creation data)) = true.
Proof.
  unfold _validate_vm_create. destruct (first_missing _ _); [done|]. cbn [first_reason].
  destruct (_is_uuid (get data "vmId")) eqn:Eu; [|done]. intros _.
  unfold parse_creation. cbn [c_vmId]. destruct (get data "vmId") as [[]|] eqn:Eg; try done.
  unfold get in Eg. unfold get_str. by repeat case_match; simplify_eq.
Qed.

(** What can happen at [t]: no creation has outlived its lock, the machine of a
    request is in the table (the VM service stores it before it publishes), and
    OpenNebula answers only what it was asked. *)
Definition possible (t : Z) (e : Event) (s : St) : Prop :=
  in_time t s ∧
  match e with
  | CreateMessage data => is_Some (rows (machines s) !! c_vmId (parse_creation data))
  | CreateAnswered t0 d _ => (t0, d) ∈ creating s
  | _ => True
  end.
(** The states of a worker that starts at [t0] in [s0]: its own steps at later
    and later instants, and between them what the services write. *)
Inductive reaches (cfg : Config) (t0 : Z) (s0 : St) : Z → St → Prop :=
| reaches_start : reaches cfg t0 s0 t0 s0
| reaches_step t s t' e :
    reaches cfg t0 s0 t s → t <= t' → possible t' e s → reaches cfg t0 s0 t' (step cfg (t', e) s).1
| reaches_service t s m :
    reaches cfg t0 s0 t s → keeps_numbers (machines s) m → reaches cfg t0 s0 t (set_machines (λ _, m) s).

(** What the VM service writes on a status report is such a write. *)
Lemma status_keeps_numbers `{Aead} `{Base64} t d (vs : Vm.VmState T) :
  keeps_numbers (Vm.vms vs) (Vm.vms (Vm.onStatusUpdate t d vs).1).
Proof.
  intros k v Hv. rewrite Vm.status_rows, Hv. cbn. eexists. split; [done|]. case_bool_decide; [|done].
  unfold Vm.updated. destruct (Vm.parse_status _) as [[]|]; try case_bool_decide; try done; cbn;
    unfold Vm.keep_num; destruct (Vm.su_oneVmId d); try case_match; by eauto.
Qed.
Lemma good_restart t pool s : good t s → good t (restart pool s).1.
Proof.
  intros Hg. unfold restart, mbind at 1 2 3, M_bind at 1 2 3, modify at 1 2 3.
  match goal with |- good t (?m ?x).1 => apply (calm_good [] t m x) end; [by intros ? ?%not_elem_of_nil| |].
  - unfold load_templates, reconcile_pending_vms, get_vms_pending_sync. calm.
  - match goal with |- good t (set_creating _ ?x) => apply (good_fewer t [] x) end; [apply sublist_nil_l|].
    eapply (good_steady []); [by intros ? ?%not_elem_of_nil| |exact Hg]. by split.
Qed.
Lemma good_worker_step cfg t e s : good t s → possible t e s → good t (step cfg (t, e) s).1.
Proof.
  intros Hg [Ht Hp]. assert (Hc : ∀ m : M St unit, calm [] t m → good t (m s).1)
    by (intros m Hm; by apply (calm_good []); [intros ? ?%not_elem_of_nil|..]).
  destruct e; cbn [step].
  - unfold handle_vm_create. destruct (_validate_vm_create data) eqn:Ev; [done|].
    apply good_begin; try done. by apply valid_creation.
  - by apply good_end.
  - apply Hc, calm_action.
  - apply Hc, calm_delete.
  - apply Hc, calm_poll.
  - apply Hc. unfold sync_start, get_all_active_vms. calm.
  - apply Hc, steady_sync.
  - apply Hc. unfold reconnect, load_templates, reconcile_pending_vms, get_vms_pending_sync. calm.
  - by apply good_restart.
Qed.
Lemma good_reached cfg t0 s0 t s : good t0 s0 → reaches cfg t0 s0 t s → good t s.
Proof.
  intros H0'. induction 1 as [|t s t' e _ IH Ht Hp|t s m _ IH Hm]; [done|..].
  - apply good_worker_step; [by eapply good_later|done].
  - eapply (good_steady []); [by intros ? ?%not_elem_of_nil| |exact IH]. by split.
Qed.

End lock.
End WorkerLock.
