(* ===== verification/WorkerPoll.v ===== *)
(** * WorkerPoll: waiting for a machine's address ends

    [_wait_for_ip_and_update] as a background task: its rounds run in whatever
    state the other handlers left, and yet it ends after at most 38 of them with
    one verdict.  Then the address offset. *)

From Stdlib Require Import ZArith Lia Ascii String.
From stdpp Require Import base list gmap strings pretty.
From S2P Require Import Prelude Text Js Store Crypto VmKeyCrypto Dto SshKey Vm RequestSecurity Sockets VmEvents WorkerText Worker.
Import WorkerText Worker.
#[local] Open Scope Z_scope.

Module WorkerPoll.
Section poll.
Context {T : Type → Type} `{DatabaseLaws T} {RS : Type} `{RedisLaws RS unit}.
Abbreviation St := (WorkerState T RS).

(** States on the way, and the verdict of a task. *)
Definition on_the_way (d : VmEvents.VmStatusPayload) : Prop := Vm.parse_status (VmEvents.st_status d) = None.
Definition address_of (cfg : Config) (info : option OneVm) : option string :=
  match info with
  | Some vm => if (o_STATE vm =? 3) && (o_LCM_STATE vm =? 3)
               then (λ a, _apply_ip_offset a (cf_ipOffset cfg)) <$> (_extract_ip vm ≫= nonempty) else None
  | None => None
  end.
Inductive verdict (cfg : Config) (p : Poller) (info : option OneVm) : VmEvents.VmStatusPayload → Prop :=
| v_running ip : address_of cfg info = Some ip →
    verdict cfg p info (status_message (p_vmId p) "RUNNING" (Some (p_oneId p)) (Some ip) None None None)
| v_error e : address_of cfg info = None →
    verdict cfg p info (status_message (p_vmId p) "ERROR" (Some (p_oneId p)) None None (Some e) None).

(** What a round does: it goes on with eight more seconds on the clock, or ends. *)
Inductive round_result (cfg : Config) (p : Poller) (info : option OneVm) (s s' : St) : option Poller → Prop :=
| rr_next p' l : p_vmId p' = p_vmId p → p_oneId p' = p_oneId p → p_elapsed p' = p_elapsed p + poll_interval →
    p_elapsed p' < poll_timeout → address_of cfg info = None →
    reports s' = reports s ++ l → Forall on_the_way l → round_result cfg p info s s' (Some p')
| rr_end l d : verdict cfg p info d → reports s' = reports s ++ l ++ [d] → Forall on_the_way l →
    round_result cfg p info s s' None.

Lemma end_reports t p st ip error (s : St) :
  ∃ s', end_polling t p st ip error s = (s', Ret tt) ∧
    reports s' = reports s ++ [status_message (p_vmId p) (Vm.status_string st) (Some (p_oneId p)) ip None error None].
Proof. unfold end_polling, mbind, M_bind. by eexists. Qed.
Lemma lcm_on_the_way lcm name : LCM_STATUS_MAP lcm = Some name → name ≠ "RUNNING"%string → Vm.parse_status name = None.
Proof. unfold LCM_STATUS_MAP. intros El Hn. by repeat case_match; simplify_eq. Qed.
Lemma intermediate_reports p lcm (s : St) :
  ∃ s' last l, intermediate p lcm s = (s', Ret last) ∧ reports s' = reports s ++ l ∧ Forall on_the_way l.
Proof.
  unfold intermediate. destruct (negb _); [|by eexists s, _, []; rewrite app_nil_r].
  destruct (LCM_STATUS_MAP lcm) as [name|] eqn:El; [|by eexists s, _, []; rewrite app_nil_r].
  unfold mbind, M_bind. case_bool_decide as Hn; cbn; [by eexists s, _, []; rewrite app_nil_r|].
  eexists _, _, [_]. split; [done|]. split; [done|]. repeat constructor. by eapply lcm_on_the_way.
Qed.
Lemma resize_reports p resizable (s : St) : ∃ s', resize p resizable s = (s', Ret tt) ∧ reports s' = reports s.
Proof.
  unfold resize. destruct (p_diskGb p); [|by eexists]. case_match; [|by eexists]. unfold mbind, M_bind.
  by destruct resizable; eexists.
Qed.

Lemma poll_round_result t cfg p info resizable (s : St) :
  ∃ s' r, poll_round t cfg p info resizable s = (s', Ret r) ∧ round_result cfg p info s s' r.
Proof.
  assert (Hnext : ∀ s1 last l, address_of cfg info = None → reports s1 = reports s ++ l → Forall on_the_way l →
    ∃ s' r, (let elapsed := p_elapsed p + poll_interval in
       let p' := {| p_vmId := p_vmId p; p_oneId := p_oneId p; p_sshUsername := p_sshUsername p;
                    p_diskGb := p_diskGb p; p_elapsed := elapsed; p_lastLcm := last |} in
       if elapsed <? poll_timeout then mret (Some p')
       else end_polling t p Vm.ERROR None (Some "Timed out waiting for IP address"%string);; mret None) s1 = (s', Ret r) ∧
      round_result cfg p info s s' r).
  { intros s1 last l Ha Hr Hl. cbn zeta. destruct (_ <? poll_timeout) eqn:Et.
    - eexists _, _. split; [done|]. eapply (rr_next _ _ _ _ _ _ l); try done. by apply Z.ltb_lt.
    - edestruct (end_reports t p Vm.ERROR) as (s2 & E2 & R2). unfold mbind, M_bind. rewrite E2.
      eexists _, _. split; [done|]. eapply rr_end; [by apply v_error|by rewrite R2, Hr, <-app_assoc|done]. }
  unfold poll_round. destruct info as [vm|]; [|apply (Hnext s _ []); [done|by rewrite app_nil_r|done]].
  destruct ((o_STATE vm =? 6) || (o_STATE vm =? 7)) eqn:Ef.
  { edestruct (end_reports t p Vm.ERROR) as (s2 & E2 & R2). unfold mbind, M_bind. rewrite E2.
    eexists _, _. split; [done|]. eapply (rr_end _ _ _ _ _ []); [|done|done]. apply v_error. cbn.
    destruct (o_STATE vm =? 3) eqn:E3; [|done]. lia. }
  destruct (intermediate_reports p (o_LCM_STATE vm) s) as (s1 & last & l & E1 & R1 & F1).
  unfold mbind at 1, M_bind at 1. rewrite E1.
  destruct (if _ && _ then _ else None) as [original|] eqn:Eo.
  2: { apply (Hnext s1 _ l); [|done|done]. cbn. destruct (_ && _); [by rewrite Eo|done]. }
  destruct (resize_reports p resizable s1) as (s2 & E2 & R2).
  edestruct (end_reports t p Vm.RUNNING) as (s3 & E3 & R3). unfold mbind, M_bind. rewrite E2, E3.
  eexists _, _. split; [done|]. eapply (rr_end _ _ _ _ _ l); [|by rewrite R3, R2, R1, <-app_assoc|done].
  apply v_running. cbn. destruct (_ && _); [by rewrite Eo|done].
Qed.

(** A task after [n] rounds, each run in any state: what it reported, what the
    last answer was, and how it goes on ([None]: it is over). *)
Inductive task (cfg : Config) (p0 : Poller)
    : nat → option OneVm → list VmEvents.VmStatusPayload → option Poller → Prop :=
| task_new : task cfg p0 0 None [] (Some p0)
| task_round n l p i t info resizable (s s' : St) r new :
    task cfg p0 n i l (Some p) → poll_round t cfg p info resizable s = (s', Ret r) →
    reports s' = reports s ++ new → task cfg p0 (S n) info (l ++ new) r.

Lemma task_result cfg p0 n i l r :
  p_elapsed p0 = 0 → task cfg p0 n i l r →
  match r with
  | Some p => Forall on_the_way l ∧ p_elapsed p = Z.of_nat n * poll_interval ∧ p_elapsed p < poll_timeout ∧
              p_vmId p = p_vmId p0 ∧ p_oneId p = p_oneId p0
  | None => (n <= 38)%nat ∧ ∃ l' d, l = l' ++ [d] ∧ Forall on_the_way l' ∧ verdict cfg p0 i d
  end.
Proof.
  intros He. induction 1 as [|n l p i t info resizable s s' r new _ IH Hr Hnew]; [by rewrite He|].
  destruct IH as (Hl & Hel & Hlt & Hid & Hone).
  destruct (poll_round_result t cfg p info resizable s) as (s1 & r1 & E & Hres). rewrite Hr in E. injection E as <- <-.
  destruct Hres as [p' l1 E1 E2 E3 E4 _ E5 E6|l1 d Hv E5 E6].
  - assert (new = l1) as -> by (apply (app_inv_head (reports s)); congruence).
    split_and!; [by apply Forall_app|..|congruence|congruence]; [|done]. rewrite E3, Hel. lia.
  - assert (new = l1 ++ [d]) as -> by (apply (app_inv_head (reports s)); congruence).
    split; [unfold poll_interval, poll_timeout in *; lia|]. exists (l ++ l1), d. rewrite app_assoc. split; [done|].
    split; [by apply Forall_app|]. destruct Hv; rewrite Hid, Hone; by constructor.
Qed.

(** C20: waiting for a machine's address ends.  Whatever the other handlers do
    between its rounds and whatever OpenNebula answers, each round returns; a
    task has at most 38 of them; as long as it runs it reports only states on
    the way; and when it is over it has given exactly one verdict, the last of
    its reports: RUNNING with the address if the last answer had one, and ERROR
    otherwise. *)
Theorem polling_ends cfg vmId one user disk n i l r :
  task cfg (new_poller vmId one user disk) n i l r →
  (∀ t p info resizable (s : St), r = Some p → ∃ s' r', poll_round t cfg p info resizable s = (s', Ret r')) ∧
  (n <= 38)%nat ∧ (n = 38%nat → r = None) ∧
  match r with
  | Some _ => Forall on_the_way l
  | None => ∃ l' d, l = l' ++ [d] ∧ Forall on_the_way l' ∧ verdict cfg (new_poller vmId one user disk) i d
  end.
Proof.
  intros Ht. apply task_result in Ht; [|done]. split.
  { intros t p info resizable s _. destruct (poll_round_result t cfg p info resizable s) as (s' & r' & E & _). eauto. }
  destruct r as [p|]; [|by destruct Ht as [Hn Hv]]. destruct Ht as (Hl & He & Hlt & _).
  unfold poll_interval, poll_timeout in *. split_and!; [lia| |done]. intros ->. lia.
Qed.
End poll.
End WorkerPoll.
