(* ===== verification/WorkerWitness.v ===== *)
(** * WorkerWitness: concrete runs of the worker

    A machine is requested, created and found running; a request delivered
    twice; and the runs behind the findings about the worker. *)

From Stdlib Require Import ZArith Lia Ascii String QArith.
From stdpp Require Import base list gmap strings pretty.
From S2P Require Import Prelude Text Js Regex Dto Store Crypto RequestSecurity VmKeyCrypto SshKey Vm Sockets VmEvents.
From S2P Require Import Gateway Startup AuthHttp Routes RoutesProps WorkerText Worker WorkerProps WorkerLock WorkerPoll.
From S2P Require Import AuthModel UserProps UserWitness VmWitness AuthHttpWitness RoutesWitness.
Import RequestSecurity Startup VmKeyCrypto Routes WorkerText Worker.
#[local] Open Scope Z_scope.

Module WorkerWitness.
#[local] Existing Instances sample_hashing sample_bcrypt sample_uri sample_jwt sample_aead sample_base64
  AuthHttpWitness.sample_bearer AuthHttpWitness.sample_validators RoutesWitness.sample_pipe.
Abbreviation RS := (gmap string (rvalue unit * option Z)).
Abbreviation WSt := (WorkerState (gmap string) RS).

Definition vm1 : string := "11111111-1111-4111-8111-111111111111".
Definition user1 : string := "22222222-2222-4222-9222-222222222222".
Definition vm_call : Vm.Call := VmWitness.call 1000 vm1 true.
Definition requested := vm_operation vm_call RoutesWitness.vm_body PostVm (RoutesWitness.who user1 "USER") VmWitness.empty_state.
Definition queued : list Vm.NatsMessage := Vm.published requested.1.

Lemma queued_accepted_witness :
  ∃ m, queued = [m] ∧ MessageProps.accepted m = true.
Proof.
  destruct (ret_eta (vm_operation vm_call RoutesWitness.vm_body PostVm (RoutesWitness.who user1 "USER"))
    VmWitness.empty_state) as [r Hr]; [vm_compute; reflexivity|].
  destruct (MessageProps.queued_messages_accepted vm_call RoutesWitness.vm_body PostVm
    (RoutesWitness.who user1 "USER") VmWitness.empty_state requested.1 r Hr) as [Hp|(m & Hp & Ha & _)].
  - reflexivity.
  - vm_compute. reflexivity.
  - vm_compute. reflexivity.
  - intros k [v Hv]. discriminate Hv.
  - exfalso. vm_compute in Hp. discriminate Hp.
  - exists m. split; [exact Hp|]. vm_compute in Hp. injection Hp as <-. vm_compute. reflexivity.
Defined.

(** ** The worker *)

Definition data : Dto.Body := from_option message_json ∅ (head queued).
Definition base_template : Template := {| t_ID := 7; t_NAME := "ubuntu"; t_base := true |}.
Definition cfg : Config := {| cf_env := λ _, None; cf_extraKeys := None; cf_ipOffset := 0 |}.
Definition answers : CreateAnswers :=
  {| a_pool := Some [base_template]; a_cleanup := Some [base_template]; a_instantiate := inl 42;
     a_cleanup_retry := None; a_instantiate_base := inr ""; a_cloned := Some 8; a_deletable := λ _, true |}.
Definition running (ip : string) : OneVm :=
  {| o_STATE := 3; o_LCM_STATE := 3; o_nics := [Some ip]; o_eth0 := None; o_guest := None; o_guests := None |}.
Definition start : WSt :=
  {| machines := Vm.vms requested.1; ssh_keys := ∅; redis := ∅; templates := None; creating := []; pollers := [];
     syncing := []; asked := []; instantiated := []; reports := [] |}.
Definition run (l : list (Z * Event)) (s : WSt) : WSt := foldl (λ s te, (step cfg te s).1) s l.
Definition the_creation : Creation := parse_creation data.
Definition s_begun : WSt := run [(2000, CreateMessage data)] start.
Definition s_twice : WSt := run [(2000, CreateMessage data); (2500, CreateMessage data)] start.
Definition s_made : WSt := run [(2000, CreateMessage data); (2500, CreateMessage data);
                                (9000, CreateAnswered 2000 the_creation answers); (9500, CreateMessage data)] start.
Definition summary (s : WSt) : nat * list (string * Z) * list (string * option string) :=
  (length (creating s), instantiated s, (λ d, (VmEvents.st_status d, VmEvents.st_ipAddress d)) <$> reports s).
Example made_once : summary s_made = (0%nat, [(vm1, 42)], [("PENDING", None)])%string.
Proof. vm_compute. reflexivity. Qed.

Lemma begun_reached : WorkerLock.reaches cfg 1000 start 2500 s_twice.
Proof.
  apply (WorkerLock.reaches_step cfg 1000 start 2000 s_begun 2500 (CreateMessage data));
    [apply (WorkerLock.reaches_step cfg 1000 start 1000 start 2000 (CreateMessage data)); [constructor|lia|]|lia|].
  - split; [constructor|]. apply (bool_decide_unpack _). vm_compute. reflexivity.
  - split; [apply (bool_decide_unpack _); vm_compute; reflexivity|apply (bool_decide_unpack _); vm_compute; reflexivity].
Qed.

(** A task whose first answer has the address. *)
Definition the_poller : Poller := new_poller vm1 42 (Some "cloudvm"%string) (Some 10).
Definition after_round : WSt * outcome (option Poller) :=
  poll_round 20000 cfg the_poller (Some (running "10.0.0.5")) true s_made.
Definition new_reports : list VmEvents.VmStatusPayload := drop (length (reports s_made)) (reports after_round.1).
Lemma polling_witness :
  ∃ l' d, new_reports = l' ++ [d] ∧
    VmEvents.st_status d = "RUNNING"%string ∧ VmEvents.st_ipAddress d = Some "10.0.0.5"%string.
Proof.
  destruct (WorkerPoll.polling_ends cfg vm1 42 (Some "cloudvm"%string) (Some 10) 1
    (Some (running "10.0.0.5")) ([] ++ new_reports) None) as (_ & _ & _ & l' & d & E & _ & Hv).
  - apply (WorkerPoll.task_round cfg the_poller 0 [] the_poller None 20000 (Some (running "10.0.0.5")) true
      s_made after_round.1); [constructor|vm_compute; reflexivity|vm_compute; reflexivity].
  - exists l', d. split; [exact E|]. inversion Hv as [ip Ha|e Ha]; vm_compute in Ha.
    + injection Ha as <-. split; reflexivity.
    + discriminate Ha.
Defined.

Lemma begun_life : Vm.life_wf (machines s_begun).
Proof.
  intros k v Hv%elem_of_map_to_list. vm_compute in Hv.
  apply list_elem_of_singleton in Hv. injection Hv as -> ->. vm_compute. reflexivity.
Qed.

(** ** Findings *)

(** A template name of blanks passes the validation of the service, which stores
    the machine and answers with it; the worker drops the message, and the
    machine waits for ever. *)
Definition blank_body : Dto.Body := <["osTemplate"%string := Dto.JStr " "]> RoutesWitness.vm_body.
Definition blank := vm_operation vm_call blank_body PostVm (RoutesWitness.who user1 "USER") VmWitness.empty_state.
Example blank_template_is_lost :
  is_ret blank.2 = true ∧ Vm.vm_status <$> rows (Vm.vms blank.1) !! vm1 = Some Vm.PENDING ∧
  MessageProps.accepted <$> head (Vm.published blank.1) = Some false.
Proof. split_and!; vm_compute; reflexivity. Qed.

(** A machine whose creation failed has no number.  Starting it is answered with
    success, and the worker drops the message. *)
Definition s_failed : WSt :=
  run [(2000, CreateMessage data);
       (9000, CreateAnswered 2000 the_creation {| a_pool := Some []; a_cleanup := None; a_instantiate := inr "";
          a_cleanup_retry := None; a_instantiate_base := inr ""; a_cloned := None; a_deletable := λ _, true |})] start.
Definition started := Vm.vmAction (VmWitness.call 10000 "" true) vm1 "start" user1 "USER"
  {| Vm.vms := machines s_failed; Vm.userQuotas := ∅; Vm.published := [] |}.
Example failed_machine_cannot_start :
  is_ret started.2 = true ∧ MessageProps.accepted <$> head (Vm.published started.1) = Some false.
Proof. split; vm_compute; reflexivity. Qed.

(** A machine that is deleted while OpenNebula still creates it comes back. *)
Definition delete_data : Dto.Body := message_json (Vm.VmDelete vm1 None user1).
Definition no_delete_answers : DeleteAnswers :=
  {| da_ids := (None, None); da_terminated := true; da_image := []; da_imageDeleted := true |}.
Definition s_deleted : WSt := run [(3000, DeleteMessage delete_data no_delete_answers)] s_begun.
Definition s_revived : WSt := run [(9000, CreateAnswered 2000 the_creation answers)] s_deleted.
Definition status_of (s : WSt) : option Vm.VmStatus := Vm.vm_status <$> rows (machines s) !! vm1.
Example deleted_machine_revives :
  status_of s_deleted = Some Vm.DELETED ∧ status_of s_revived = Some Vm.PENDING ∧ length (pollers s_revived) = 1%nat.
Proof. split_and!; vm_compute; reflexivity. Qed.

(** The task that waits for the address outlives a deletion: it finds the machine
    terminated and writes ERROR over DELETED. *)
Definition delete_made : Dto.Body := message_json (Vm.VmDelete vm1 (Some 42) user1).
Definition s_ended : WSt := run [(10000, DeleteMessage delete_made no_delete_answers)] s_made.
Definition terminated : OneVm :=
  {| o_STATE := 6; o_LCM_STATE := 0; o_nics := []; o_eth0 := None; o_guest := None; o_guests := None |}.
Example deleted_machine_in_error :
  status_of s_ended = Some Vm.DELETED ∧
  status_of (run [(18000, PollRound 0 (Some terminated) true)] s_ended) = Some Vm.ERROR.
Proof. split; vm_compute; reflexivity. Qed.

(** Deleting a template left over under the machine's name does not ask whose
    template it is: another one of that name, even a base template, goes too. *)
Definition other_template : Template := {| t_ID := 9; t_NAME := "web"; t_base := true |}.
Example other_template_deleted :
  TemplateDelete 9 ∈ asked (run [(9000, CreateAnswered 2000 the_creation
    {| a_pool := Some [base_template; other_template]; a_cleanup := Some [base_template; other_template];
       a_instantiate := inl 42; a_cleanup_retry := None; a_instantiate_base := inr ""; a_cloned := Some 8;
       a_deletable := λ _, true |})] s_begun).
Proof. vm_compute. left. Qed.

(** A creation that takes longer than the lock: a second delivery makes a second
    machine, and the number of the first is overwritten. *)
Definition s_slow : WSt :=
  run [(2000, CreateMessage data); (302000, CreateMessage data);
       (303000, CreateAnswered 2000 the_creation answers);
       (304000, CreateAnswered 302000 the_creation
          {| a_pool := Some [base_template]; a_cleanup := None; a_instantiate := inl 43; a_cleanup_retry := None;
             a_instantiate_base := inr ""; a_cloned := None; a_deletable := λ _, true |})] start.
Example slow_creation_doubles :
  instantiated s_slow = [(vm1, 42); (vm1, 43)] ∧ (rows (machines s_slow) !! vm1 ≫= Vm.vm_oneVmId) = Some 43.
Proof. split; vm_compute; reflexivity. Qed.

(** A worker whose database is not the VM service's, as in .env.example, finds no
    number of the machine and makes it again when the request comes again. *)
Definition elsewhere : WSt :=
  {| machines := ∅; ssh_keys := ∅; redis := ∅; templates := None; creating := []; pollers := [];
     syncing := []; asked := []; instantiated := []; reports := [] |}.
Example other_database_doubles :
  instantiated (run [(2000, CreateMessage data); (9000, CreateAnswered 2000 the_creation answers);
                     (9500, CreateMessage data); (12000, CreateAnswered 9500 the_creation answers)] elsewhere)
    = [(vm1, 42); (vm1, 42)].
Proof. vm_compute. reflexivity. Qed.

(** A negative offset is applied below zero. *)
Example negative_offset : _apply_ip_offset "10.0.0.5" (-6) = "10.0.0.-1"%string.
Proof. vm_compute. reflexivity. Qed.

(** An offset beyond 255 leaves the address as it is. *)
Example large_offset : _apply_ip_offset "10.0.0.250" 10 = "10.0.0.250"%string.
Proof. vm_compute. reflexivity. Qed.

(** A name that is part of another template's name selects that template. *)
Example part_of_a_name : find_in [{| t_ID := 3; t_NAME := "ubuntu-gpu"; t_base := true |}] "u" = Some 3.
Proof. vm_compute. reflexivity. Qed.
End WorkerWitness.
