(* ===== verification/UserCatalog.v ===== *)
(** * UserCatalog: the user service's own copy of the plan catalogue

    services/user/src/user/user.service.ts repeats the catalogue code of the
    payment service with another shape of plan.  Unless each is given its own
    database, the two read, create and seed the same table, so that whichever
    starts first decides what both sell.  Here the copy is modelled on its own,
    and shown to agree with the payment service's ([Plans]), which the rest of
    the development uses. *)

From Stdlib Require Import ZArith QArith Qround Lia Ascii String.
From stdpp Require Import base list gmap strings pretty.
From S2P Require Import Prelude Text Store Plans.
Import Plans.

Module UserCatalog.

Record ManagedPlanConfig := {
  mp_maxVms : Z; mp_maxCpu : Z; mp_maxRamMb : Z; mp_maxDiskGb : Z; mp_monthlyPriceDt : Q;
  mp_vmHoursMonthly : Z; mp_rank : Z }.

(** ** PLAN_CATALOG_JSON *)

(** The condition that rejects an entry, operand by operand. *)
Definition not_finite_or_less (o : option Z) (lo : Z) : bool :=
  match o with Some n => n <? lo | None => true end.
Definition invalid (cfg : RawPlan) : bool :=
  match rw_amountDt cfg with Some a => Qle_bool a 0 | None => true end ||
  not_finite_or_less (rw_rank cfg) 1 ||
  match rw_vmHoursMonthly cfg with Some h => h <=? 0 | None => true end ||
  match rw_quota cfg with
  | None => true
  | Some q => not_finite_or_less (rw_maxVms q) 1 || not_finite_or_less (rw_maxCpu q) 1 ||
              not_finite_or_less (rw_maxRamMb q) 512 || not_finite_or_less (rw_maxDiskGb q) 5
  end.
(** The loop over the required plans: the error it throws, if any. *)
Fixpoint check_plans (record : PlanId → option RawPlan) (ids : list PlanId) : option exn :=
  match ids with
  | [] => None
  | p :: ids =>
      match record p with
      | None => Some (JsError ("PLAN_CATALOG_JSON missing '" +:+ plan_string p +:+ "' config"))
      | Some cfg =>
          if invalid cfg then Some (JsError ("Invalid PLAN_CATALOG_JSON values for '" +:+ plan_string p +:+ "'"))
          else check_plans record ids
      end
  end.
(** [record.<plan>.quota.maxVms] and so on, read after the checks. *)
Definition config_at (record : PlanId → option RawPlan) (p : PlanId) : ManagedPlanConfig :=
  let cfg := record p in
  let quota (f : RawQuota → option Z) := default 0%Z ((cfg ≫= rw_quota) ≫= f) in
  {| mp_maxVms := quota rw_maxVms; mp_maxCpu := quota rw_maxCpu; mp_maxRamMb := quota rw_maxRamMb;
     mp_maxDiskGb := quota rw_maxDiskGb; mp_monthlyPriceDt := default 0%Q (cfg ≫= rw_amountDt);
     mp_vmHoursMonthly := default 0%Z (cfg ≫= rw_vmHoursMonthly); mp_rank := default 0%Z (cfg ≫= rw_rank) |}.
Definition loadManagedSubscriptionCatalogFromEnv (env : EnvCatalog) : outcome (PlanId → ManagedPlanConfig) :=
  match env with
  | EnvMissing => Throw (JsError "Missing PLAN_CATALOG_JSON")
  | EnvNotJson => Throw (JsError "Invalid PLAN_CATALOG_JSON: must be valid JSON")
  | EnvParsed record =>
      match check_plans record [student; pro; enterprise] with
      | Some e => Throw e
      | None => Ret (config_at record)
      end
  end.

(** ** The catalogue *)

Definition of_row (row : PlanConfigRow) : ManagedPlanConfig :=
  {| mp_maxVms := pc_maxVms row; mp_maxCpu := pc_maxCpu row; mp_maxRamMb := pc_maxRamMb row;
     mp_maxDiskGb := pc_maxDiskGb row; mp_monthlyPriceDt := pc_amountDt row;
     mp_vmHoursMonthly := pc_vmHoursMonthly row; mp_rank := pc_rank row |}.
Definition UNLIMITED_PLAN_CONFIG : ManagedPlanConfig :=
  {| mp_maxVms := 9999; mp_maxCpu := 9999; mp_maxRamMb := 999999; mp_maxDiskGb := 99999;
     mp_monthlyPriceDt := 0; mp_vmHoursMonthly := 9007199254740991; mp_rank := 99 |}.
(** The plans that [buildPlanCatalogFromRows] puts into its record. *)
Definition buildPlanCatalogFromRows (rows : gmap string PlanConfigRow) : outcome (gmap string ManagedPlanConfig) :=
  let missing := filter (λ p, rows !! plan_string p = None) REQUIRED_PLAN_IDS in
  if bool_decide (missing = [])
  then Ret (foldl (λ acc p, match rows !! plan_string p with
                            | Some row => <[plan_string p := of_row row]> acc
                            | None => acc
                            end) ∅ REQUIRED_PLAN_IDS)
  else Throw (InternalServerErrorException ("Missing plan configs for: " +:+ join_plans missing)).
Definition buildCatalog (source : gmap string PlanConfigRow) : outcome (gmap string ManagedPlanConfig) :=
  match buildPlanCatalogFromRows source with
  | Ret c => Ret (<[plan_string unlimited := UNLIMITED_PLAN_CONFIG]> c)
  | Throw e => Throw e
  end.
(** A row of [createMany]. *)
Definition to_row (cfg : ManagedPlanConfig) : PlanConfigRow :=
  {| pc_amountDt := mp_monthlyPriceDt cfg; pc_rank := mp_rank cfg; pc_vmHoursMonthly := mp_vmHoursMonthly cfg;
     pc_maxVms := mp_maxVms cfg; pc_maxCpu := mp_maxCpu cfg; pc_maxRamMb := mp_maxRamMb cfg;
     pc_maxDiskGb := mp_maxDiskGb cfg |}.
Definition lift {S A} (o : outcome A) : M S A := λ s, (s, o).

Section catalogue.
Context {T : Type → Type} `{Database T}.
Definition isMissingPlanConfigTableError (error : exn) : bool := bool_decide (error = PrismaError "P2021").
Definition getPlanCatalog (env : EnvCatalog) : M (PlanTable T) (gmap string ManagedPlanConfig) :=
  rows ← try_catch find_many
    (λ error, if negb (isMissingPlanConfigTableError error) then throw error
              else ensurePlanConfigTable;; find_many);
  if negb (bool_decide (rows = ∅)) then lift (buildCatalog rows)
  else
    seed ← lift (loadManagedSubscriptionCatalogFromEnv env);
    modify (λ s, {| pt_exists := pt_exists s;
                    pt_rows := foldr seed_row (pt_rows s) ((λ p, (p, to_row (seed p))) <$> REQUIRED_PLAN_IDS) |});;
    seededRows ← find_many;
    if bool_decide (seededRows = ∅) then throw (InternalServerErrorException "Plan catalog seed failed")
    else lift (buildCatalog seededRows).
End catalogue.

(** ** The plan of a payment *)

(** [method.match(/:plan:(student|pro|enterprise|unlimited)/i)]: the letters of
    the text in either case. *)
Definition tag_here (s : string) : option PlanId :=
  list_find (λ p, starts_with (":plan:" +:+ plan_string p) (toLowerCase s) = true) all_plans ≫= λ ip, Some ip.2.
Fixpoint find_tag (s : string) : option PlanId :=
  match tag_here s with
  | Some p => Some p
  | None => match s with EmptyString => None | String _ s' => find_tag s' end
  end.
Definition is_plan (s : string) : bool :=
  bool_decide (s = "student") || bool_decide (s = "pro") || bool_decide (s = "enterprise") || bool_decide (s = "unlimited").
Definition extractPlanFromPayment (planId method_ : option string) : option string :=
  let named := planId ≫= λ p, if is_plan p then Some p else None in
  match named with
  | Some p => Some p
  | None =>
      let method := toLowerCase (opt_or method_ "") in
      let candidate := if starts_with "admin:grant:" method then nth_error (js_split ":" method) 2 else None in
      let granted := candidate ≫= λ c, if is_plan c then Some c else None in
      match granted with
      | Some c => Some c
      | None => plan_string <$> find_tag method
      end
  end.

(** ** Agreement with the payment service *)

Lemma entry_agrees record p raw :
  record p = Some raw →
  validate_plan raw = if invalid raw then None else Some (to_row (config_at record p)).
Proof.
  intros Hp. unfold validate_plan, invalid, config_at, to_row. rewrite Hp.
  destruct raw as [amount rank hours quota]. cbn. destruct amount as [a|]; [|done]. cbn.
  destruct (Qle_bool a 0); [done|]. destruct rank as [r|]; [|done]. cbn. destruct (r <? 1); [done|]. cbn.
  destruct hours as [h|]; [|done]. cbn. replace (h <? 1) with (h <=? 0) by lia. destruct (h <=? 0); [done|]. cbn.
  destruct quota as [[vms cpu ram disk]|]; [|done]. cbn.
  destruct vms as [v|]; cbn; [|done]. destruct (v <? 1); [done|]. cbn.
  destruct cpu as [c|]; cbn; [|done]. destruct (c <? 1); [done|]. cbn.
  destruct ram as [m|]; cbn; [|done]. destruct (m <? 512); [done|]. cbn.
  destruct disk as [d|]; cbn; [|done]. by destruct (d <? 5).
Qed.
Lemma plans_agree record ids :
  validate_plans record ids = match check_plans record ids with
                              | Some e => Throw e
                              | None => Ret ((λ p, (p, to_row (config_at record p))) <$> ids)
                              end.
Proof.
  induction ids as [|p ids IH]; [done|]. cbn. destruct (record p) as [raw|] eqn:Ep; [|done].
  rewrite (entry_agrees _ _ _ Ep). destruct (invalid raw); [done|]. rewrite IH. by destruct (check_plans record ids).
Qed.
Lemma seeds_agree env :
  loadManagedPlanCatalogFromEnv env =
    match loadManagedSubscriptionCatalogFromEnv env with
    | Ret seed => Ret ((λ p, (p, to_row (seed p))) <$> REQUIRED_PLAN_IDS)
    | Throw e => Throw e
    end.
Proof. destruct env as [| |record]; [done..|]. cbn [loadManagedPlanCatalogFromEnv loadManagedSubscriptionCatalogFromEnv].
  rewrite plans_agree. unfold REQUIRED_PLAN_IDS. by destruct (check_plans _ _).
Qed.

(** The user service's catalogue of the same plans. *)
Definition as_catalog (cat : Catalog) : gmap string ManagedPlanConfig :=
  list_to_map ((λ p, (plan_string p, of_row (cat p))) <$> all_plans).
Definition map_outcome {A B} (f : A → B) (o : outcome A) : outcome B :=
  match o with Ret a => Ret (f a) | Throw e => Throw e end.
Lemma builds_agree rows : buildCatalog rows = map_outcome as_catalog (Plans.buildPlanCatalogFromRows rows).
Proof.
  unfold buildCatalog, buildPlanCatalogFromRows, Plans.buildPlanCatalogFromRows.
  case_bool_decide as Hm; [|done]. cbn [map_outcome]. f_equal.
  assert (Hrow : ∀ p, p ∈ REQUIRED_PLAN_IDS → is_Some (rows !! plan_string p)).
  { intros p Hp. destruct (rows !! plan_string p) eqn:E; [by eauto|]. exfalso.
    eapply (not_elem_of_nil p). rewrite <-Hm. by apply list_elem_of_filter. }
  destruct (Hrow student) as [r1 E1]; [set_solver|]. destruct (Hrow pro) as [r2 E2]; [set_solver|].
  destruct (Hrow enterprise) as [r3 E3]; [set_solver|].
  unfold as_catalog. cbn. cbn in E1, E2, E3. rewrite E1, E2, E3. cbn.
  apply map_eq. intros k. rewrite !lookup_insert, !lookup_empty. repeat case_decide; by subst.
Qed.

(** A payment names the same plan to both services. *)
Lemma lower_idem c : char_lower (char_lower c) = char_lower c.
Proof. unfold char_lower. destruct c as [[] [] [] [] [] [] [] []]; reflexivity. Qed.
Lemma lower_twice s : toLowerCase (toLowerCase s) = toLowerCase s.
Proof.
  unfold toLowerCase, map_chars. rewrite chars_str. f_equal. rewrite <-list_fmap_compose.
  apply list_fmap_ext. intros _ c _. apply lower_idem.
Qed.
Lemma tags_agree s : toLowerCase s = s → find_tag s = find_plan_tag s.
Proof.
  induction s as [|c s IH]; intros Hs; cbn [find_tag find_plan_tag]; unfold tag_here, plan_prefix; rewrite Hs; [done|].
  injection Hs as _ Hs. by rewrite IH.
Qed.
Lemma plan_checked s : (if is_plan s then Some s else None) = plan_string <$> parse_plan s.
Proof.
  destruct (parse_plan s) as [p|] eqn:Ep.
  - apply parse_plan_Some in Ep as ->. by destruct p.
  - unfold is_plan. repeat case_bool_decide; by subst.
Qed.
Lemma payment_plans_agree planId method_ :
  extractPlanFromPayment planId method_ = plan_string <$> Plans.extractPlanFromPayment planId method_.
Proof.
  unfold extractPlanFromPayment, Plans.extractPlanFromPayment.
  assert (Hb : ∀ o : option string, (o ≫= λ p, if is_plan p then Some p else None) = plan_string <$> (o ≫= parse_plan))
    by (intros [x|]; [apply plan_checked|done]).
  rewrite Hb. destruct (planId ≫= parse_plan); [done|]. cbn [fmap option_fmap option_map].
  rewrite Hb, tags_agree by apply lower_twice.
  destruct (starts_with _ _); [|done]. by destruct (nth_error _ 2 ≫= parse_plan).
Qed.

Section agreement.
Context {T : Type → Type} `{DatabaseLaws T}.

Lemma loads_agree env (s : PlanTable T) :
  (getPlanCatalog env s).1 = (load_rows env s).1 ∧
  (getPlanCatalog env s).2 = map_outcome as_catalog (load_rows env s).2.
Proof.
  assert (Hb : ∀ rs s', lift (buildCatalog rs) s' =
    (s', map_outcome as_catalog (match Plans.buildPlanCatalogFromRows rs with Ret c => mret c | Throw e => throw e end s').2) ∧
    (match Plans.buildPlanCatalogFromRows rs with Ret c => mret c | Throw e => throw e end : M (PlanTable T) Catalog) s' =
    (s', Plans.buildPlanCatalogFromRows rs)).
  { intros rs s'. unfold lift. rewrite builds_agree. by destruct (Plans.buildPlanCatalogFromRows rs). }
  unfold getPlanCatalog, load_rows, isMissingPlanConfigTableError, mbind, M_bind.
  replace (try_catch find_many _ s) with
    ((try_catch find_many (λ error : exn, if bool_decide (error = PrismaError "P2021")
        then λ s0, let (s', o) := ensurePlanConfigTable s0 in match o with Ret _ => find_many s' | Throw e => (s', Throw e) end
        else throw error)) s) by (unfold try_catch; destruct (find_many s) as [s1 [rs|e]]; [done|]; by case_bool_decide).
  destruct (try_catch find_many _ s) as [s1 [rs|e]]; [|done].
  destruct (bool_decide (rs = ∅)); cbn [negb].
  2: { destruct (Hb rs s1) as [-> ->]. done. }
  rewrite seeds_agree. change (lift (A:=PlanId → ManagedPlanConfig) (S:=PlanTable T) ?o ?x) with (x, o).
  destruct (loadManagedSubscriptionCatalogFromEnv env) as [seed|e]; [|done].
  unfold modify. cbv beta iota. destruct (find_many _) as [s2 [seeded|e]]; [|done].
  destruct (bool_decide (seeded = ∅)); [done|]. destruct (Hb seeded s2) as [-> ->]. done.
Qed.

(** C26: the user service and the payment service sell the same plans.  Each
    has its own code for the catalogue, and both may read and seed one table:
    whichever of them loads it, in whatever state the table is and whatever
    PLAN_CATALOG_JSON holds, leaves the same table behind, and they build the
    same catalogue, or fail with the same error; and a payment names the same
    plan to both, by its column or by the method of an older row. *)
Theorem catalogues_agree env (s : PlanTable T) :
  (getPlanCatalog env s).1 = (load_rows env s).1 ∧
  (getPlanCatalog env s).2 = map_outcome as_catalog (load_rows env s).2 ∧
  ∀ planId method_, extractPlanFromPayment planId method_ = plan_string <$> Plans.extractPlanFromPayment planId method_.
Proof.
  destruct (loads_agree env s) as [E1 E2]. by split_and!; [..|apply payment_plans_agree].
Qed.
End agreement.
End UserCatalog.
