(* ===== verification/WebPages.v ===== *)
(** * WebPages: pages whose requests overlap

    frontend/src/app/dashboard/admin/users/page.tsx as a whole, and the loading
    of the lists in vms/page.tsx and admin/billing/page.tsx.  A handler is the
    list of what it still has to do; it stops at each request until the answer
    comes, and the answers come in any order. *)

From Stdlib Require Import ZArith QArith Lia Ascii String.
From stdpp Require Import base list gmap strings pretty.
From S2P Require Import Prelude Text Js Regex Store Plans Payment Vm Dto Gateway Startup AuthHttp WebClient WebForms WebAdmin.
Import WebForms WebAdmin.
#[local] Open Scope Z_scope.

Module WebPages.

(** ** admin/users/page.tsx *)

Module UsersPage.
Import Users.

(** What a handler does next; a request is sent when its turn comes. *)
Inductive Task :=
| LoadUsers (page : Z) (search : string)
| OpenPanel (account : Account)
| Request (r : Sent) (success failure : string)
| Unbusy.
Definition Message : Type := bool * string.      (* success? *)
Record State := {
  users : list Account; total : Z; loading : bool; busy : option string; message : option Message;
  search : string; page : Z; selectedUser : option Account;
  billingSummary : option (string * string);     (* whose it is, and its subscription *)
  loadingSummary : bool; subscriptionDraft : gmap string string;
  jobs : list (list Task); sent : list Sent;
}.
Definition initial : State :=
  {| users := []; total := 0; loading := true; busy := None; message := None; search := ""; page := 1;
     selectedUser := None; billingSummary := None; loadingSummary := false; subscriptionDraft := ∅;
     jobs := []; sent := [] |}.

Definition set_users (l : list Account) (n : Z) (s : State) : State :=
  {| users := l; total := n; loading := loading s; busy := busy s; message := message s; search := search s;
     page := page s; selectedUser := selectedUser s; billingSummary := billingSummary s;
     loadingSummary := loadingSummary s; subscriptionDraft := subscriptionDraft s; jobs := jobs s; sent := sent s |}.
Definition set_loaded (s : State) : State :=
  {| users := users s; total := total s; loading := false; busy := busy s; message := message s; search := search s;
     page := page s; selectedUser := selectedUser s; billingSummary := billingSummary s;
     loadingSummary := loadingSummary s; subscriptionDraft := subscriptionDraft s; jobs := jobs s; sent := sent s |}.
Definition set_busy (b : option string) (s : State) : State :=
  {| users := users s; total := total s; loading := loading s; busy := b; message := message s; search := search s;
     page := page s; selectedUser := selectedUser s; billingSummary := billingSummary s;
     loadingSummary := loadingSummary s; subscriptionDraft := subscriptionDraft s; jobs := jobs s; sent := sent s |}.
Definition set_message (m : Message) (s : State) : State :=
  {| users := users s; total := total s; loading := loading s; busy := busy s; message := Some m; search := search s;
     page := page s; selectedUser := selectedUser s; billingSummary := billingSummary s;
     loadingSummary := loadingSummary s; subscriptionDraft := subscriptionDraft s; jobs := jobs s; sent := sent s |}.
Definition set_query (p : Z) (q : string) (s : State) : State :=
  {| users := users s; total := total s; loading := loading s; busy := busy s; message := message s; search := q;
     page := p; selectedUser := selectedUser s; billingSummary := billingSummary s;
     loadingSummary := loadingSummary s; subscriptionDraft := subscriptionDraft s; jobs := jobs s; sent := sent s |}.
Definition set_panel (a : option Account) (b : option (string * string)) (l : bool) (d : gmap string string) (s : State) : State :=
  {| users := users s; total := total s; loading := loading s; busy := busy s; message := message s; search := search s;
     page := page s; selectedUser := a; billingSummary := b; loadingSummary := l; subscriptionDraft := d;
     jobs := jobs s; sent := sent s |}.
Definition set_jobs (l : list (list Task)) (s : State) : State :=
  {| users := users s; total := total s; loading := loading s; busy := busy s; message := message s; search := search s;
     page := page s; selectedUser := selectedUser s; billingSummary := billingSummary s;
     loadingSummary := loadingSummary s; subscriptionDraft := subscriptionDraft s; jobs := l; sent := sent s |}.
Definition send (r : Sent) (s : State) : State :=
  {| users := users s; total := total s; loading := loading s; busy := busy s; message := message s; search := search s;
     page := page s; selectedUser := selectedUser s; billingSummary := billingSummary s;
     loadingSummary := loadingSummary s; subscriptionDraft := subscriptionDraft s; jobs := jobs s; sent := sent s ++ [r] |}.
Definition get (url : string) : Sent := {| s_method := "GET"; s_url := url; s_body := ∅ |}.

(** What [openUserPanel] does before its request, and after the answer. *)
Definition open_panel (a : Account) (s : State) : State := set_panel (Some a) None true (subscriptionDraft s) s.
Definition panel_loaded (a : Account) (plan : string) (s : State) : State :=
  set_panel (selectedUser s) (Some (ac_id a, plan)) false (<[ac_id a := plan]> (subscriptionDraft s)) s.
Definition panel_failed (s : State) : State :=
  set_message (false, "Failed to load account billing details"%string)
    (set_panel (selectedUser s) (billingSummary s) false (subscriptionDraft s) s).

(** A handler up to its next request. *)
Fixpoint proceed (job : list Task) (s : State) : State :=
  match job with
  | [] => s
  | Unbusy :: job => proceed job (set_busy None s)
  | LoadUsers p q :: _ => set_jobs (jobs s ++ [job]) (send (get "/users/stats") (send (get (users_url p q)) s))
  | OpenPanel a :: _ =>
      let s := open_panel a s in
      set_jobs (jobs s ++ [job]) (send (get ("/users/" +:+ ac_id a +:+ "/billing-summary")) s)
  | Request r _ _ :: _ => set_jobs (jobs s ++ [job]) (send r s)
  end.
(** Where an error goes: the [finally] of the handler. *)
Fixpoint handler_end (job : list Task) : list Task :=
  match job with
  | [] => []
  | Unbusy :: job => Unbusy :: job
  | _ :: job => handler_end job
  end.

Inductive Reply :=
| Failure
| Success
| UserArray (l : list Account)
| UserPage (data : option (list Account)) (total : option Z)
| Billing (subscription : string).
Definition nonzero (o : option Z) : Z := default 0 o.
Definition settled (t : Task) (rest : list Task) (a : Reply) (s : State) : State :=
  match t, a with
  | LoadUsers _ _, UserArray l => proceed rest (set_loaded (set_users l (Z.of_nat (length l)) s))
  | LoadUsers _ _, UserPage data n => proceed rest (set_loaded (set_users (default [] data) (nonzero n) s))
  | LoadUsers _ _, _ => proceed rest (set_loaded (set_message (false, "Failed to load users"%string) s))
  | OpenPanel acc, Billing plan => proceed rest (panel_loaded acc plan s)
  | OpenPanel _, _ => proceed rest (panel_failed s)
  | Request _ ok _, Success => proceed rest (set_message (true, ok) s)
  | Request _ _ bad, _ => proceed (handler_end rest) (set_message (false, bad) s)
  | Unbusy, _ => proceed (Unbusy :: rest) s
  end.
Definition answered (i : nat) (a : Reply) (s : State) : State :=
  match jobs s !! i with
  | Some (t :: rest) => settled t rest a (set_jobs (delete i (jobs s)) s)
  | _ => s
  end.

(** [if (selectedUser?.id === target.id) await openUserPanel(...)], with the
    selection of the render in which the button was pressed. *)
Definition reopen (s : State) (target shown : Account) : list Task :=
  match selectedUser s with
  | Some a => if bool_decide (ac_id a = ac_id target) then [OpenPanel shown] else []
  | None => []
  end.
Definition after_change (s : State) (target shown : Account) : list Task :=
  LoadUsers (page s) (search s) :: reopen s target shown ++ [Unbusy].
Definition act (target shown : Account) (request : Sent + string) (ok bad : string) (s : State) : State :=
  match request with
  | inr text => set_message (false, text) s
  | inl r => proceed (Request r ok bad :: after_change s target shown) (set_busy (Some (ac_id target)) s)
  end.
Definition toggle (me : option string) (t : Account) (s : State) : State :=
  act t {| ac_id := ac_id t; ac_role := ac_role t; ac_isActive := negb (ac_isActive t) |} (toggleActive me t)
    (if ac_isActive t then "Account banned successfully" else "Account unbanned successfully")
    "Failed to update account status" s.
Definition change_role (me : option string) (t : Account) (s : State) : State :=
  act t {| ac_id := ac_id t; ac_role := newRole t; ac_isActive := ac_isActive t |} (changeRole me t)
    ("Role updated to " +:+ newRole t) "Failed to update role" s.
Definition grant (t : Account) (s : State) : State :=
  act t t (inl (grantSubscription (subscriptionDraft s) t))
    ("Subscription set to " +:+ opt_or (subscriptionDraft s !! ac_id t) "student") "Failed to grant subscription" s.
Definition deleteUser (id : string) (confirmed : bool) (s : State) : State :=
  if negb confirmed then s
  else proceed [Request {| s_method := "DELETE"; s_url := "/users/" +:+ id; s_body := ∅ |}
                  "User deleted successfully" "Failed to delete user"; LoadUsers (page s) (search s)] s.
(** The effect that loads the list when the page or the search changes. *)
Definition goto (p : Z) (q : string) (s : State) : State :=
  let s' := set_query p q s in
  if (p =? page s) && bool_decide (q = search s) then s' else proceed [LoadUsers p q] s'.
(** The plan the panel's select shows. *)
Definition shown_plan (s : State) : option string :=
  match selectedUser s, billingSummary s with
  | Some a, Some (_, plan) => Some (opt_or (subscriptionDraft s !! ac_id a) plan)
  | _, _ => None
  end.

Inductive Event :=
| Mount | Search (q : string) | Previous | Next | Details (a : Account) | Close
| Toggle (a : Account) | Role (a : Account) | Grant (a : Account) | Choose (plan : string)
| Delete (id : string) (confirmed : bool) | Answered (i : nat) (a : Reply).
Definition enabled (s : State) (a : Account) : bool := negb (bool_decide (busy s = Some (ac_id a))).
Definition step (me : option string) (s : State) (e : Event) : State :=
  match e with
  | Mount => proceed [LoadUsers (page s) (search s)] s
  | Search q => goto 1 q s
  | Previous => goto (previous_page (page s)) (search s) s
  | Next => goto (next_page (total s) (page s)) (search s) s
  | Details a => proceed [OpenPanel a] s
  | Close => set_panel None (billingSummary s) (loadingSummary s) (subscriptionDraft s) s
  | Toggle a => if enabled s a then toggle me a s else s
  | Role a => if enabled s a then change_role me a s else s
  | Grant a => if enabled s a then grant a s else s
  | Choose plan =>
      match selectedUser s with
      | Some a => set_panel (selectedUser s) (billingSummary s) (loadingSummary s)
                    (<[ac_id a := plan]> (subscriptionDraft s)) s
      | None => s
      end
  | Delete id confirmed => deleteUser id confirmed s
  | Answered i a => answered i a s
  end.
Definition run (me : option string) (l : list Event) : State := foldl (step me) initial l.
End UsersPage.

(** ** vms/page.tsx and admin/billing/page.tsx *)

Module Lists.
Section list_page.
(** What is asked for, and what is shown of it. *)
Context {Q A : Type} `{EqDecision Q}.

Record Page := {
  query : Q; data : option A; error : string; loading : bool;
  flight : list Q;        (* the requests under way, oldest first *)
  acting : list Q;        (* actions under way, with the query of the render they were started in *)
}.
Definition opened (q : Q) : Page := {| query := q; data := None; error := ""; loading := true; flight := []; acting := [] |}.

(** [loadVms] and [load] up to the request. *)
Definition loadVms (q : Q) (p : Page) : Page :=
  {| query := query p; data := data p; error := ""; loading := loading p; flight := flight p ++ [q]; acting := acting p |}.
Definition load (q : Q) (p : Page) : Page :=
  {| query := query p; data := data p; error := ""; loading := true; flight := flight p ++ [q]; acting := acting p |}.
(** The answer to the [i]-th request under way. *)
Definition arrived (failure : string) (i : nat) (a : option A) (p : Page) : Page :=
  match flight p !! i with
  | None => p
  | Some _ =>
      {| query := query p; data := match a with Some x => Some x | None => data p end;
         error := match a with Some _ => error p | None => failure end; loading := false;
         flight := delete i (flight p); acting := acting p |}
  end.
(** Another search or filter, and the effect that follows it. *)
Definition changed (start : Q → Page → Page) (q : Q) (p : Page) : Page :=
  let p' := {| query := q; data := data p; error := error p; loading := loading p; flight := flight p; acting := acting p |} in
  if bool_decide (q = query p) then p' else start q p'.
(** [handleAction] of the list: its request, and what follows the answer. *)
Definition action_started (p : Page) : Page :=
  {| query := query p; data := data p; error := error p; loading := loading p; flight := flight p;
     acting := acting p ++ [query p] |}.
Definition action_done (i : nat) (ok : bool) (p : Page) : Page :=
  match acting p !! i with
  | None => p
  | Some q =>
      let p' := {| query := query p; data := data p; error := error p; loading := loading p; flight := flight p;
                   acting := delete i (acting p) |} in
      if ok then loadVms q p' else p'
  end.

Inductive Event := Changed (q : Q) | Arrived (i : nat) (a : option A) | Acted | ActionDone (i : nat) (ok : bool).
Definition vms_step (p : Page) (e : Event) : Page :=
  match e with
  | Changed q => changed loadVms q p
  | Arrived i a => arrived "Failed to load VMs. Please refresh the page." i a p
  | Acted => action_started p
  | ActionDone i ok => action_done i ok p
  end.
(** The administrator's billing page has no actions. *)
Definition billing_step (p : Page) (e : Event) : Page :=
  match e with
  | Changed q => changed load q p
  | Arrived i a => arrived "Failed to load admin billing overview" i a p
  | _ => p
  end.
End list_page.
Arguments Page : clear implicits.
Arguments Event : clear implicits.

(** The query of a list: the parameters that are not empty. *)
Record VmsQuery := { search : string; statusFilter : string }.
Definition params (q : VmsQuery) : list (string * string) :=
  (if truthy (search q) then [("search"%string, search q)] else []) ++
  (if truthy (statusFilter q) then [("status"%string, statusFilter q)] else []).
End Lists.
End WebPages.
