(* ===== verification/WebPagesProps.v ===== *)
(** * WebPagesProps: pages whose requests overlap

    The users page never bans or demotes the administrator who uses it, leaves
    no button disabled and no spinner turning, and grants the plan it shows as
    long as one account is opened at a time; a list shows what was asked for
    last if the answers come in the order of the requests.  The runs behind the
    findings are at the end. *)

From Stdlib Require Import ZArith QArith Lia Ascii String.
From stdpp Require Import base list gmap strings pretty.
From S2P Require Import Prelude Text Js Regex Store Plans Payment Vm Dto Gateway Startup AuthHttp WebClient WebForms WebAdmin WebPages.
Import WebForms WebAdmin WebPages.
#[local] Open Scope Z_scope.

Module UsersPageProps.
Import Users UsersPage.

(** An invariant of the state that starting a request, finishing a handler and
    the answers keep holds in every run. *)
Lemma page_invariant (P : State → Prop) me l :
  P initial → (∀ s e, P s → P (step me s e)) → P (run me l).
Proof.
  intros H0 Hs. unfold run. induction l as [|e l IH] using rev_ind; [done|]. rewrite foldl_app. by apply Hs.
Qed.

(** *** Requests about the own account *)

Definition harmful (me : string) (r : Sent) : Prop :=
  s_method r = "PATCH"%string ∧ s_url r = "/users/" +:+ me ∧
  (s_body r !! "isActive"%string = Some (Dto.JBool false) ∨ s_body r !! "role"%string = Some (Dto.JStr "USER")).
Definition harmless (me : string) (s : State) : Prop := Forall (λ r, ¬ harmful me r) (sent s).
Lemma get_harmless me url : ¬ harmful me (get url).
Proof. by intros [? _]. Qed.
Definition task_ok (me : string) (t : Task) : Prop := match t with Request r _ _ => ¬ harmful me r | _ => True end.
Definition self_safe (me : string) (s : State) : Prop :=
  harmless me s ∧ Forall (Forall (task_ok me)) (jobs s).

Lemma proceed_safe me job s : Forall (task_ok me) job → self_safe me s → self_safe me (proceed job s).
Proof.
  revert s. induction job as [|t job IH]; intros s Hj [Hs Hb]; [done|]. apply Forall_cons in Hj as [Ht Hj].
  assert (Hall : Forall (Forall (task_ok me)) (jobs s ++ [t :: job]))
    by (apply Forall_app; split; [done|]; by repeat constructor).
  destruct t; cbn; [| | |by apply IH].
  all: split; [|exact Hall].
  - unfold harmless. cbn. rewrite <-app_assoc. apply Forall_app. split; [done|].
    repeat constructor; apply get_harmless.
  - unfold harmless. cbn. apply Forall_app. split; [done|]. repeat constructor. apply get_harmless.
  - unfold harmless. cbn. apply Forall_app. split; [done|]. by repeat constructor.
Qed.
Lemma end_ok P job : Forall P job → Forall P (handler_end job).
Proof. induction 1 as [|t job Ht Hj IH]; [done|]. destruct t; try done. by constructor. Qed.
Lemma settled_safe me t rest a s : Forall (task_ok me) rest → self_safe me s → self_safe me (settled t rest a s).
Proof.
  intros Hr Hs. destruct t, a; cbn; try done; apply proceed_safe; try done; by apply end_ok.
Qed.

Lemma slash_inj a b : ("/users/" +:+ a)%string = "/users/" +:+ b → a = b.
Proof. by intros [= ?]. Qed.
Lemma toggle_harmless me t r : toggleActive (Some me) t = inl r → ¬ harmful me r.
Proof.
  unfold toggleActive. destruct (_ && _) eqn:E; [done|]. intros [= <-] (_ & Hu%slash_inj & [Hb|Hb]); cbn in *.
  - rewrite Hu, bool_decide_eq_true_2 in E by done. cbn in E. rewrite E in Hb. done.
  - done.
Qed.
Lemma role_harmless me t r : changeRole (Some me) t = inl r → ¬ harmful me r.
Proof.
  unfold changeRole, newRole. destruct (_ && _) eqn:E; [done|]. intros [= <-] (_ & Hu%slash_inj & [Hb|Hb]); cbn in *.
  - done.
  - rewrite Hu, (bool_decide_eq_true_2 (Some me = Some me)) in E by done. cbn in E. rewrite E in Hb. done.
Qed.
Lemma grant_harmless me draft t : ¬ harmful me (grantSubscription draft t).
Proof. intros (_ & _ & [Hb|Hb]); done. Qed.
Lemma act_safe me target shown request ok bad s :
  (∀ r, request = inl r → ¬ harmful me r) → self_safe me s → self_safe me (act target shown request ok bad s).
Proof.
  intros Hr Hs. destruct request as [r|text]; cbn [act]; [|done]. apply proceed_safe; [|done].
  constructor; [by apply Hr|]. unfold after_change, reopen. constructor; [done|].
  apply Forall_app. split; [repeat case_match; by repeat constructor|by repeat constructor].
Qed.
Lemma goto_safe me p q s : self_safe me s → self_safe me (goto p q s).
Proof. intros Hs. unfold goto. destruct (_ && _); [done|]. apply proceed_safe; [by repeat constructor|done]. Qed.
Lemma step_safe me s e : self_safe me s → self_safe me (step (Some me) s e).
Proof.
  intros Hs. destruct e; cbn [step]; try (apply proceed_safe; [by repeat constructor|done]); try by apply goto_safe.
  - done.
  - case_match; [|done]. apply act_safe; [apply toggle_harmless|done].
  - case_match; [|done]. apply act_safe; [apply role_harmless|done].
  - case_match; [|done]. apply act_safe; [|done]. intros r [= <-]. apply grant_harmless.
  - case_match; done.
  - unfold deleteUser. destruct confirmed; [|done]. apply proceed_safe; [|done].
    constructor; [by intros [? _]|by repeat constructor].
  - unfold answered. destruct (jobs s !! i) as [[|t rest]|] eqn:Ei; [done| |done].
    destruct Hs as [Hh Hj]. pose proof (Forall_lookup_1 _ _ _ _ Hj Ei) as Ht. apply Forall_cons in Ht as [_ Hr].
    apply settled_safe; [done|]. split; [done|]. cbn. by apply Forall_delete.
Qed.
(** The page sends no request that bans or demotes the administrator who uses
    it, whatever rows it shows and in whatever order its answers come. *)
Theorem own_account_safe me l : Forall (λ r, ¬ harmful me r) (sent (run (Some me) l)).
Proof.
  apply (page_invariant (self_safe me)); [|intros s e; apply step_safe]. split; constructor.
Qed.

(** *** Nothing stays disabled *)

(** A busy row and a turning spinner wait for a handler under way. *)
Definition awaited (s : State) : Prop :=
  (is_Some (busy s) → ∃ job, job ∈ jobs s ∧ Unbusy ∈ job) ∧
  (loadingSummary s = true → ∃ a rest, OpenPanel a :: rest ∈ jobs s).
Definition outstanding (job : list Task) (s : State) : Prop :=
  (is_Some (busy s) → Unbusy ∈ job ∨ ∃ job', job' ∈ jobs s ∧ Unbusy ∈ job') ∧
  (loadingSummary s = true → ∃ a rest, OpenPanel a :: rest ∈ jobs s).
Lemma proceed_awaited job s : outstanding job s → awaited (proceed job s).
Proof.
  revert s. induction job as [|t job IH]; intros s [Hb Hl].
  - split; [|done]. intros Hs. by destruct (Hb Hs) as [?%not_elem_of_nil|?].
  - assert (Hbusy : is_Some (busy s) → ∃ job', job' ∈ jobs s ++ [t :: job] ∧ Unbusy ∈ job').
    { intros Hs. destruct (Hb Hs) as [Hin|(job' & Hj & Hu)]; [exists (t :: job)|exists job'];
        (split; [apply elem_of_app|done]); [right; left|by left]. }
    assert (Hload : loadingSummary s = true → ∃ a rest, OpenPanel a :: rest ∈ jobs s ++ [t :: job]).
    { intros Hs. destruct (Hl Hs) as (a & rest & Hin). exists a, rest. apply elem_of_app. by left. }
    destruct t; cbn; [by split| |by split|].
    + split; [done|]. intros _. exists account, job. apply elem_of_app. right. left.
    + apply IH. split; [by intros [? ?]|done].
Qed.
Lemma end_unbusy job : Unbusy ∈ job → Unbusy ∈ handler_end job.
Proof.
  induction job as [|t job IH]; [done|]. intros [<-|Hin]%elem_of_cons; [left|].
  destruct t; cbn; first [by apply IH|by right].
Qed.
Lemma elem_delete {A} (l : list A) i x y : l !! i = Some y → x ∈ l → x = y ∨ x ∈ delete i l.
Proof.
  intros Hi Hx. rewrite <-(take_drop_middle l i y Hi) in Hx. rewrite delete_take_drop.
  rewrite !elem_of_app, elem_of_cons in *. tauto.
Qed.
Lemma settled_awaited t rest a s i :
  awaited s → jobs s !! i = Some (t :: rest) → awaited (settled t rest a (set_jobs (delete i (jobs s)) s)).
Proof.
  intros [Hb Hl] Hi.
  assert (Hbusy : is_Some (busy s) → Unbusy ∈ t :: rest ∨ ∃ job', job' ∈ delete i (jobs s) ∧ Unbusy ∈ job').
  { intros Hs. destruct (Hb Hs) as (job & Hj & Hu). destruct (elem_delete _ _ _ _ Hi Hj) as [->|Hd]; eauto. }
  assert (Hload : (∀ acc, t ≠ OpenPanel acc) → loadingSummary s = true →
    ∃ acc r, OpenPanel acc :: r ∈ delete i (jobs s)).
  { intros Ht Hs. destruct (Hl Hs) as (acc & r & Hin). exists acc, r.
    destruct (elem_delete _ _ _ _ Hi Hin) as [[= E _]|]; [by destruct (Ht acc)|done]. }
  assert (Hrest : t ≠ Unbusy → is_Some (busy s) → Unbusy ∈ rest ∨ ∃ job', job' ∈ delete i (jobs s) ∧ Unbusy ∈ job').
  { intros Ht Hs. destruct (Hbusy Hs) as [[E|Hin]%elem_of_cons|]; [by rewrite E in Ht|by left|by right]. }
  destruct t, a; cbn [settled]; apply proceed_awaited; split; cbn; try done; try (by apply Hrest); try (by apply Hload).
  all: intros Hs; destruct (Hrest ltac:(done) Hs) as [?%end_unbusy|]; [by left|by right].
Qed.
Lemma act_awaited target shown request ok bad s : awaited s → awaited (act target shown request ok bad s).
Proof.
  intros [Hb Hl]. destruct request as [r|text]; cbn [act]; [|done]. apply proceed_awaited. split; [|done].
  intros _. left. unfold after_change. right. right. apply elem_of_app. right. left.
Qed.
Lemma awaited_pending job s : awaited s → outstanding job s.
Proof. intros [Hb Hl]. split; [|done]. intros Hs. right. by apply Hb. Qed.
Lemma step_awaited me s e : awaited s → awaited (step me s e).
Proof.
  intros Hs. destruct e; cbn [step]; try (by apply proceed_awaited, awaited_pending).
  1-3: unfold goto; destruct (_ && _); [by destruct Hs|apply proceed_awaited, awaited_pending; by destruct Hs].
  all: try (case_match; [|done]; by apply act_awaited).
  - by destruct Hs.
  - case_match; [by destruct Hs|done].
  - unfold deleteUser. destruct confirmed; [|done]. by apply proceed_awaited, awaited_pending.
  - unfold answered. destruct (jobs s !! i) as [[|t rest]|] eqn:Ei; [done|by apply settled_awaited|done].
Qed.
(** Once every request is answered, no row is disabled and no spinner turns. *)
Theorem users_page_settles me l :
  jobs (run me l) = [] → busy (run me l) = None ∧ loadingSummary (run me l) = false.
Proof.
  assert (awaited (run me l)) as [Hb Hl].
  { apply page_invariant; [split; [by intros [? ?]|done]|intros; by apply step_awaited]. }
  intros Hj. rewrite Hj in Hb, Hl. split.
  - destruct (busy (run me l)); [|done]. destruct Hb as (job & ?%not_elem_of_nil & _); [by eauto|done].
  - destruct (loadingSummary (run me l)); [|done]. by destruct Hl as (a & rest & ?%not_elem_of_nil).
Qed.

(** *** The panel *)

Definition is_panel (job : list Task) : bool := match job with OpenPanel _ :: _ => true | _ => false end.
(** At most one account is being opened. *)
Definition single (s : State) : Prop := (length (List.filter is_panel (jobs s)) <= 1)%nat.
Record matched (s : State) : Prop := {
  m_job a rest : OpenPanel a :: rest ∈ jobs s → selectedUser s = Some a ∨ selectedUser s = None;
  m_draft id plan : billingSummary s = Some (id, plan) → ∃ d, subscriptionDraft s !! id = Some d ∧ truthy d = true;
  m_owner id plan a : billingSummary s = Some (id, plan) → selectedUser s = Some a → ac_id a = id;
}.
(** Of the state, only the panel and the handlers matter. *)
Lemma matched_same s s' :
  matched s → (∀ a rest, OpenPanel a :: rest ∈ jobs s' → OpenPanel a :: rest ∈ jobs s) →
  selectedUser s' = selectedUser s → billingSummary s' = billingSummary s →
  subscriptionDraft s' = subscriptionDraft s → matched s'.
Proof.
  intros [Hj Hd Ho] Hsub E1 E2 E3. split; rewrite ?E1, ?E2, ?E3; try done. intros a rest Hin. by eapply Hj, Hsub.
Qed.
Lemma panel_in a rest l : OpenPanel a :: rest ∈ l → (1 <= length (List.filter is_panel l))%nat.
Proof.
  intros Hin. assert (List.In (OpenPanel a :: rest) (List.filter is_panel l)) as Hf.
  { apply List.filter_In. split; [by apply list_elem_of_In|done]. }
  destruct (List.filter is_panel l); [done|]. cbn. lia.
Qed.
Lemma proceed_matched job s : matched s → single (proceed job s) → matched (proceed job s).
Proof.
  revert s. induction job as [|t job IH]; intros s Hm Hs; [done|].
  assert (Hnew : is_panel (t :: job) = false →
    ∀ a rest, OpenPanel a :: rest ∈ jobs s ++ [t :: job] → OpenPanel a :: rest ∈ jobs s).
  { intros Hp a rest [|E%list_elem_of_singleton]%elem_of_app; [done|]. by rewrite <-E in Hp. }
  destruct t; cbn in *.
  - eapply matched_same; [exact Hm|by apply Hnew|done..].
  - split; cbn; try done. intros a rest [Hin|E%list_elem_of_singleton]%elem_of_app; [|left; congruence].
    exfalso. apply panel_in in Hin. unfold single in Hs. cbn in Hs.
    rewrite List.filter_app, length_app in Hs. cbn in Hs. lia.
  - eapply matched_same; [exact Hm|by apply Hnew|done..].
  - apply IH; [|done]. by eapply matched_same.
Qed.
Definition plan_given (e : Event) : bool :=
  match e with Choose plan | Answered _ (Billing plan) => truthy plan | _ => true end.
Lemma settled_matched i t rest a s :
  matched s → jobs s !! i = Some (t :: rest) → plan_given (Answered i a) = true →
  single (settled t rest a (set_jobs (delete i (jobs s)) s)) →
  matched (settled t rest a (set_jobs (delete i (jobs s)) s)).
Proof.
  intros Hm Hi Ha. assert (Hsub : ∀ x, x ∈ delete i (jobs s) → x ∈ jobs s).
  { intros x. rewrite <-(take_drop_middle _ _ _ Hi) at 2. rewrite delete_take_drop, !elem_of_app, elem_of_cons. tauto. }
  assert (Hsame : ∀ s', jobs s' = delete i (jobs s) → selectedUser s' = selectedUser s →
    billingSummary s' = billingSummary s → subscriptionDraft s' = subscriptionDraft s → matched s').
  { intros s' E1 E2 E3 E4. eapply matched_same; [exact Hm| |done..]. intros b r. rewrite E1. apply Hsub. }
  destruct t as [| |r ok bad|], a as [| |l|data n|plan]; cbn [settled]; intros Hs; apply proceed_matched; try done; try (by apply Hsame).
  assert (Hj : selectedUser s = Some account ∨ selectedUser s = None)
    by (eapply (m_job s Hm account rest), list_elem_of_lookup_2; exact Hi).
  split; cbn.
  - intros b r Hin. by eapply (m_job s Hm), Hsub.
  - intros id p [= <- <-]. exists plan. by rewrite lookup_insert_eq.
  - intros id p b [= <- <-] Hb. destruct Hj; congruence.
Qed.
Lemma act_matched target shown request ok bad s :
  matched s → single (act target shown request ok bad s) → matched (act target shown request ok bad s).
Proof.
  intros Hm Hs. destruct request as [r|text]; cbn [act] in *; [apply proceed_matched; [|done]|]; by eapply matched_same.
Qed.
Lemma goto_matched p q s : matched s → single (goto p q s) → matched (goto p q s).
Proof.
  intros Hm. unfold goto. destruct (_ && _); intros Hs; [|apply proceed_matched; [|done]]; by eapply matched_same.
Qed.
Lemma step_matched me s e : plan_given e = true → matched s → single (step me s e) → matched (step me s e).
Proof.
  intros He Hm. destruct e; cbn [step]; try (by apply proceed_matched); try (by apply goto_matched).
  - intros _. destruct Hm as [Hj Hd Ho]. split; cbn; try done. intros; by right.
  - case_match; [|done]. by apply act_matched.
  - case_match; [|done]. by apply act_matched.
  - case_match; [|done]. by apply act_matched.
  - destruct (selectedUser s) as [a|] eqn:Ea; [|done]. intros _. destruct Hm as [Hj Hd Ho]. split; cbn.
    + rewrite <-Ea. done.
    + intros id p Hb. destruct (decide (id = ac_id a)) as [->|Hn]; [exists plan; by rewrite lookup_insert_eq|].
      rewrite lookup_insert_ne by done. by eapply Hd.
    + intros id p b Hb Hsel. eapply Ho; [exact Hb|congruence].
  - unfold deleteUser. destruct confirmed; [|done]. by apply proceed_matched.
  - unfold answered. destruct (jobs s !! i) as [[|t rest]|] eqn:Ei; [done|by apply settled_matched|done].
Qed.

(** As long as at most one account is being opened at a time, the plan that the
    panel shows is the plan that its button grants. *)
Theorem grants_what_is_shown me l a plan :
  (∀ k, single (run me (take k l))) → Forall (λ e, plan_given e = true) l →
  selectedUser (run me l) = Some a → shown_plan (run me l) = Some plan →
  grantSubscription (subscriptionDraft (run me l)) a =
    patch ("/users/" +:+ ac_id a +:+ "/subscription") {[ "planId"%string := Dto.JStr plan ]}.
Proof.
  intros Hsingle Hplans Hsel Hshown.
  assert (Hm : matched (run me l)).
  { clear Hsel Hshown. induction l as [|e l IH] using rev_ind; [split; [by intros ? ? ?%not_elem_of_nil|done..]|].
    apply Forall_app in Hplans as [Hpl [He _]%Forall_cons]. unfold run. rewrite foldl_app. cbn.
    apply step_matched; [done|apply IH; [|done]|].
    - intros k. destruct (decide (k <= length l)%nat).
      + specialize (Hsingle k). by rewrite take_app_le in Hsingle by lia.
      + specialize (Hsingle (length l)). rewrite take_app_length in Hsingle. by rewrite take_ge by lia.
    - specialize (Hsingle (length (l ++ [e]))). rewrite firstn_all in Hsingle. unfold run in Hsingle.
      by rewrite foldl_app in Hsingle. }
  unfold shown_plan in Hshown. rewrite Hsel in Hshown.
  destruct (billingSummary (run me l)) as [[id p]|] eqn:Eb; [|done]. injection Hshown as <-.
  destruct (m_draft _ Hm _ _ Eb) as (d & Hd & Htd). rewrite <-(m_owner _ Hm _ _ _ Eb Hsel) in Hd.
  unfold grantSubscription. rewrite Hd. cbn. unfold str_or. by rewrite Htd.
Qed.
End UsersPageProps.

Module ListProps.
Import Lists.
Section lists.
Context {Q A : Type} `{EqDecision Q} (server : Q → A).
Abbreviation P := (Page Q A).

(** The answers come in the order of the requests and are the server's; the
    query does not change while an action is under way. *)
Definition orderly (p : P) (e : Event Q A) : Prop :=
  match e with
  | Arrived i a => i = 0%nat ∧ ∃ q, head (flight p) = Some q ∧ a = Some (server q)
  | Changed q => acting p = [] ∨ q = query p
  | _ => True
  end.
Record fresh (p : P) : Prop := {
  f_acting : Forall (λ q, q = query p) (acting p);
  f_last : last (flight p) = Some (query p) ∨ flight p = [];
  f_data : flight p = [] → data p = Some (server (query p)) ;
}.
Lemma fresh_started (p : P) q d err ld ac :
  Forall (λ x, x = q) ac →
  fresh {| query := q; data := d; error := err; loading := ld; flight := flight p ++ [q]; acting := ac |}.
Proof.
  intros Hac. split; cbn; [done|left; by rewrite last_snoc|]. intros E. by destruct (flight p).
Qed.
Lemma fresh_arrived failure a p : fresh p → orderly p (Arrived 0 a) → fresh (arrived failure 0 a p).
Proof.
  intros [Ha Hl Hd] (_ & q & Hq & ->). unfold arrived. destruct (flight p) as [|x f] eqn:Ef; [done|].
  cbn in Hq. injection Hq as ->. split; cbn; [done| |].
  - destruct Hl as [Hl|]; [|done]. destruct f as [|y f]; [by right|left]. by rewrite last_cons_cons in Hl.
  - intros ->. destruct Hl as [[= <-]|]; done.
Qed.
Lemma fresh_changed (start : Q → P → P) q p :
  (∀ q p, start q p = loadVms q p ∨ start q p = load q p) →
  fresh p → acting p = [] ∨ q = query p → fresh (changed start q p).
Proof.
  intros Hst [Ha Hl Hd] Ho. unfold changed. case_bool_decide as E; [subst q; by split|].
  destruct Ho as [Ho|]; [|done]. edestruct Hst as [-> | ->]; apply (fresh_started p); by rewrite Ho.
Qed.

(** What a list shows is the answer to the present search, once nothing is under
    way, if the answers come in the order of the requests and nothing is
    searched for while an action is under way. *)
Theorem list_shows_last_query (l : list (Event Q A)) (p0 : P) (vms : bool) :
  let step := if vms then vms_step else billing_step in
  (∀ k e, l !! k = Some e → orderly (foldl step p0 (take k l)) e) → fresh p0 →
  let p := foldl step p0 l in flight p = [] → data p = Some (server (query p)).
Proof.
  cbn zeta. intros Ho Hf. apply f_data.
  assert (Hstep : ∀ p e, fresh p → orderly p e → fresh ((if vms then vms_step else billing_step) p e)).
  { intros p e Hp He. destruct vms, e as [q|i a| |i ok]; cbn in *; try done.
    - apply fresh_changed; auto.
    - destruct He as [-> He]. by apply fresh_arrived.
    - destruct Hp as [Ha Hl Hd]. split; cbn; try done. apply Forall_app. split; [done|]. by repeat constructor.
    - unfold action_done. destruct (acting p !! i) as [q|] eqn:Ei; [|done]. destruct Hp as [Ha Hl Hd].
      pose proof (Forall_lookup_1 _ _ _ _ Ha Ei) as ->. assert (Hdel : Forall (λ x, x = query p) (delete i (acting p))) by by apply Forall_delete.
      destruct ok; [by apply (fresh_started p)|by split].
    - apply fresh_changed; auto.
    - destruct He as [-> He]. by apply fresh_arrived. }
  induction l as [|e l IH] using rev_ind; [done|]. rewrite foldl_app. cbn. apply Hstep.
  - apply IH. intros k x Hk. specialize (Ho k x). rewrite take_app_le in Ho by (apply lookup_lt_Some in Hk; lia).
    apply Ho. by apply lookup_app_l_Some.
  - specialize (Ho (length l) e). rewrite take_app_length in Ho. apply Ho. by rewrite lookup_app_r, Nat.sub_diag by lia.
Qed.
End lists.
End ListProps.

(** ** Findings *)

Module PageFindings.
Import Users UsersPage.

(** Two accounts opened one after the other, answered the other way round: the
    panel of the second shows the plan of the first, and its button grants the
    student plan. *)
Definition ada : Account := {| ac_id := "a"; ac_role := "USER"; ac_isActive := true |}.
Definition bob : Account := {| ac_id := "b"; ac_role := "USER"; ac_isActive := true |}.
Definition overlapped : State :=
  run (Some "root"%string) [Details ada; Details bob; Answered 1 Failure; Answered 0 (Billing "enterprise")].
Example wrong_panel :
  selectedUser overlapped = Some bob ∧ shown_plan overlapped = Some "enterprise"%string ∧
  s_body (grantSubscription (subscriptionDraft overlapped) bob) = {[ "planId"%string := Dto.JStr "student" ]}.
Proof. split_and!; vm_compute; reflexivity. Qed.

(** Answers that overtake each other leave the list of an earlier search. *)
Example stale_list :
  let p := foldl Lists.vms_step (Lists.opened ""%string)
    [Lists.Changed "a"%string; Lists.Changed "ab"%string;
     Lists.Arrived 1 (Some "machines for ab"%string); Lists.Arrived 0 (Some "machines for a"%string)] in
  Lists.flight p = [] ∧ Lists.query p = "ab"%string ∧ Lists.data p = Some "machines for a"%string.
Proof. split_and!; vm_compute; reflexivity. Qed.

(** An action that ends after the search has changed brings the list of the
    search it was started in, although every answer comes in order. *)
Example stale_action :
  let p := foldl Lists.vms_step (Lists.opened ""%string)
    [Lists.Acted; Lists.Changed "a"%string; Lists.Arrived 0 (Some "machines for a"%string);
     Lists.ActionDone 0 true; Lists.Arrived 0 (Some "all machines"%string)] in
  Lists.flight p = [] ∧ Lists.query p = "a"%string ∧ Lists.data p = Some "all machines"%string.
Proof. split_and!; vm_compute; reflexivity. Qed.
End PageFindings.
